(* ===== verification/_CoqProject ===== *)
-Q . S2P
Prelude.v
Effects.v
GoStd.v
Types.v
Cluster.v
Kmodules.v
Leader.v
Fixtures.v
LeaderWitness.v
Phase.v
PodBuilder.v
Local.v
LocalProps.v
Server.v
Store.v
LocalRun.v
LocalWitness.v
Codec.v
GoStrings.v
Token.v
SnapshotServer.v
SnapshotProps.v
SnapshotWitness.v
GrpcWiring.v
Distributed.v
Controller.v
WiringProps.v
DistributedProps.v
DistributedWitness.v
ControllerProps.v
Startup.v
Protobuf.v
ProtobufProps.v
Rpc.v
RpcProps.v
RpcWitness.v
Crds.v
LocalPass.v
Retries.v
Confinement.v
Hub.v
DistributedPass.v
DistributedConvergence.v
NamedLeader.v
Convergence.v
Fleet.v
ConvergenceWitness.v
HubWitness.v
FleetWitness.v
RetriesWitness.v
DistributedElection.v
ElectionWitness.v
Json.v
SidekickJson.v
Schema.v
OpenAPI.v
SchemaProps.v
SchemasApps.v
SchemasCore1.v
SchemasCore2.v
SchemasCore3.v
SchemasCore4.v
SchemasCore5.v
SchemasMachinery.v
SchemasKmodules.v
Published.v
PublishedWitness.v
JsonWitness.v
DeepCopy.v
DeepCopyProps.v
DeepCopyWitness.v
Scheme.v
SchemeProps.v
SchemeWitness.v
Clientset.v
ClientsetProps.v
ClientsetWitness.v
FakeClientset.v
FakeClientsetProps.v
FakeClientsetWitness.v
