(* ===== verification/Prelude.v ===== *)
(** * The Sidekick operator: a verification development

    Sidekick is a Kubernetes operator.  A Sidekick object names a leader pod (by
    name, or by a label selector and the policy First or Last) and containers;
    the operator keeps one pod with these containers running beside the leader:
    on the leader's node, with the leader's volumes, replaced when the leader or
    the Sidekick changes, counted against a backoff limit when it fails.  A
    distributed Sidekick runs that pod in another cluster, inside a ManifestWork,
    and its archiver container reports to a gRPC server of the operator, which
    records the reports in the status of a Snapshot.

    ** Programs and their environment

    The operator is written against interfaces it does not implement.  A Go
    function that calls them is a tree of calls ([Effects.v], [prog]): it returns,
    panics, or makes a call and continues with the answer.  Errors are values
    ([res], [option error]); a mutated argument is returned.  There are two ways
    to speak about such a program:

    - [exec p tr o]: the environment answers as it likes.  Theorems in this form
      hold whatever the API server answers, fails or changes between calls, so
      they cover every interleaving with other clients and with the operator's
      own concurrent workers.  Assumptions on answers, where there are any, are
      predicates on the events of the trace ([echoes_status], [sound_hub]).
    - [run serve p w]: the calls are applied to a state.  Theorems in this form
      say what the operator achieves; they are proved against the interface
      [ApiServer] ([Server.v]), which [Store.v] implements.

    The loops of the source range over finite collections, and the programs are
    finite trees, so every run ends.  Three definitions have fuel: the check of a
    JSON tree against a schema ([Schema.v], [check]), where ten units are enough for
    a Sidekick, since its schema nests no deeper, and the theorem about it holds for
    every larger amount; writing out the references of a schema ([Published.v],
    [inline]), for which a theorem shows that enough fuel exists; and the decoder of
    protocol buffers ([Protobuf.v]), whose fuel is the length of its input and never
    runs out, since every round takes a byte ([ProtobufProps.v],
    [unmarshal_loop_fuel]).

    ** Files

    - [Prelude.v] errors, results, Go maps, int32 arithmetic, shared lemmas and
      tactics; [Effects.v] programs, [wp], traces; [GoStd.v], [GoStrings.v],
      [Codec.v] what the code uses of regexp, strconv, sort, strings, bufio,
      base64 and UTF-8.
    - [Types.v] the objects: [apis/apps/v1alpha1/sidekick_types.go] field by
      field, and the fields used of Kubernetes, OCM, kubeslice and kubestash
      objects.  [Cluster.v] the calls.  [Kmodules.v] the vendored helpers
      ([CreateOrPatch], [PatchStatus], finalizers, [GenerationHash],
      [UpsertVolume]).
    - [Leader.v] [getLeader] of [sidekick_controller.go].
    - [Phase.v] [sidekick.go]: counters, backoff, phase.
    - [PodBuilder.v] [pod_builder.go].
    - [Local.v] [pod.go], the finalizer of [sidekick.go] and the local path of
      [Reconcile]; [LocalProps.v] its properties over all executions;
      [LocalRun.v] what it achieves on a server; [LocalPass.v] one pass of
      [Reconcile] as a step between states of the pod; [Convergence.v] and
      [Retries.v] what repeated passes achieve; [Confinement.v] where a pass
      writes; [Fleet.v] passes over many Sidekicks.
    - [Token.v] [grpc/token/token.go] and [grpc/grpc.go]; [SnapshotServer.v]
      [pkg/snapshotserver]; [SnapshotProps.v] its properties.
    - [GrpcWiring.v] [grpc_wiring.go]; [Distributed.v] [distributed.go];
      [WiringProps.v], [DistributedProps.v] and [DistributedElection.v] their
      properties over all executions; [Hub.v] the hub cluster as a server and what
      single operations achieve on it; [DistributedPass.v] one pass of [Reconcile]
      up to the election; [DistributedConvergence.v] and [NamedLeader.v] what
      repeated passes achieve.
    - [Controller.v] [Reconcile] and the event handlers; [ControllerProps.v].
    - [Startup.v] [pkg/cmds/run.go], [SetupWithManager] and [RunGRPCServer].
    - [Protobuf.v] the protocol buffer wire format and message codec, as vendored;
      [Rpc.v] [grpc/protogen] (messages, descriptor, stubs) and the path of a unary
      call through the vendored gRPC server, at whose end is [ExecuteCommand];
      [ProtobufProps.v] and [RpcProps.v] their properties.
    - [Crds.v] [crds/lib.go].
    - [Json.v] encoding/json by struct tags, as codecs that carry their round trip;
      [SidekickJson.v] the tags of [sidekick_types.go].
    - [Schema.v] OpenAPI schemas and the check against them; [OpenAPI.v] the schemas
      of this API group in [openapi_generated.go]; [SchemaProps.v] encoded resources
      against the schemas; [SchemasApps.v], [SchemasCore1.v] to [SchemasCore5.v],
      [SchemasMachinery.v] and [SchemasKmodules.v] the schemas of library types in
      the same file; [Published.v] [GetOpenAPIDefinitions], the whole document.
    - [DeepCopy.v] a heap and [zz_generated.deepcopy.go]; [DeepCopyProps.v].
    - [Clientset.v] [client/clientset/versioned]: the requests of the typed client,
      the actions of the fake client, the clients of a configuration;
      [ClientsetProps.v].
    - [Scheme.v] the runtime scheme and the registrations of [groupversion_info.go],
      [install.go], the two [register.go] and [run.go]; [SchemeProps.v].
    - [FakeClientset.v] [client/clientset/versioned/fake]: [NewSimpleClientset], the
      object tracker behind it and its watches; [FakeClientsetProps.v].
    - [Fixtures.v], [Store.v] and the files named [...Witness.v] concrete objects,
      concrete servers, and the theorems applied to them; they also hold the
      theorems that exhibit a behaviour on one concrete state.

    A definition carries the name of its Go function; a piece of a longer function
    that needs a name of its own is named in lower case ([select_leader],
    [fill_keys], [record_log]).  Record fields carry a prefix for their type.

    ** Theorems

    - Pod life cycle: a deletion by somebody else counts as one failure, once; a
      deletion by the operator is marked before it happens and never counts;
      creation converges; a leader change replaces the pod; a terminal phase
      touches no pod; [Reconcile] never panics.
    - Convergence: whatever state its pod is in, a Sidekick settles in at most three
      passes and stays settled; a deleted Sidekick and its pod are gone after two.
    - Many Sidekicks: a local pass writes to its Sidekick and to the pod of that name
      only, so passes over different Sidekicks do not interfere, and a fleet of them
      settles in whatever order the passes come.
    - Retries: under the restart policies Never and OnFailure, however passes
      interleave with failures and deletions of pods, no more pods are created
      than the backoff limit and one.
    - Phase: the phase computed with wrapping int32 counters refines an abstract
      specification ([phase_spec]), for local and for distributed Sidekicks; what
      a pod failure does under each restart policy.
    - Leader: the elected pod is Running, extremal, and independent of the listing
      order where all names carry distinct ordinals.
    - Pod builder: when building fails, that the mounts of the result resolve,
      what its containers are.
    - Snapshot server: authentication accepts exactly the authorized requests; a
      request writes nothing but the granted Snapshot; replay is possible only
      after expiry; what a report records, and that histories stay bounded.
    - Wiring: keys are never overwritten; an archiver wired by the operator is
      served by the server; the exported address is the advertised one.
    - Distributed: no panic, no change in a terminal phase, deletions marked, a
      created ManifestWork is kept; the election among ManifestWorks is the local
      one when all candidates run; a deleted Sidekick is released only after its
      work was deleted.  However passes alternate with the agent of the managed
      cluster, none fails, and two passes that need not wait for the agent settle
      the Sidekick for good; a Sidekick that names its leader waits for ever.
    - Remote calls: whatever bytes arrive at the port, they are refused without an
      effect or they are a call of [ExecuteCommand], confined as above; a call
      through the generated client is a call of [ExecuteCommand]; requests and
      responses survive the wire; the embedded descriptor says what the stubs do.
    - API: a Sidekick survives JSON up to empty maps, which justifies the
      normalization the interface [ApiServer] allows; the published schema accepts
      its encoding exactly when enumerated fields hold their values and there is a
      container; schemas and types declare the same fields; deep copies read the
      same and share nothing, which justifies modelling Go values as values.
    - Published document: references from the Sidekick resolve; references have no
      cycle, so every schema can be written out; every definition is well formed and
      depends on what it refers to.
    - Clientset: for every call the typed client sends, the server is asked for what
      the fake client records; other calls are refused before anything is sent; what
      a configuration must have and what the clients get from it.  The fake clientset
      answers every sequence of calls as a map would, and replaying the events of a
      watch gives what the namespace shows.
    - Registration: installing the API group adds its types and nothing
      contradictory; the operator's scheme knows every kind the operator uses.
    - Start: the manager starts last and only if everything before succeeded; its
      servers are configured as the flags say.
    - Some theorems show behaviours one would not expect: an error that is dropped
      ([current_leader_drops_errors]), a pod created for a Sidekick under deletion
      ([deleting_sidekick_gets_pod]), Sidekicks of one name that share a
      ManifestWork ([same_name_sidekicks_collide]), a token accepted twice
      ([token_reused_across_expiry]), an election that depends on the listing
      order ([leader_depends_on_listing_order]), a history that does not shrink
      ([lowered_limit_keeps_history]).

    ** Interfaces

    Code outside the repository is a class with the laws the code relies on, each
    with a concrete instance: [SortSlice] (sort.Slice: a permutation, sorted when
    the comparison is a strict weak order), [Mergo] (merging keeps the name),
    [ObjectHasher] (a hash; nothing assumed), [LabelSelectors], [WorkJson],
    [SnapshotJson], [EmbeddedCRDs] (decoders; nothing assumed), [JsonCodec]
    (claims survive JSON if their strings are UTF-8), [Crypto] (digest lengths;
    AES-GCM opens exactly what was sealed under the same key and nonce),
    [ApiServer] with [FreshUids] (the server gives every new object a UID it has not
    given before) and [AddressedServer] (it answers about the object it is asked about),
    [HubServer] (the hub lists and reads what is stored, and keeps the pod put into a
    ManifestWork and the keys put into a Secret),
    [Patches] (patch libraries; nothing assumed), the codec of timestamps ([SidekickJson.v]), [LibraryTypes] (deep
    copies of library types are deep), [Selectors] and [RestLibrary] (client-go;
    nothing assumed).

    ** Not modelled

    Logging, contexts and timeouts (a call that times out answers with an error);
    the cobra command tree, to which libraries add flags of their own, and the text
    form of flags; conversion and defaulting functions of schemes; the reflection
    methods and the type registry of protocol buffers; the transport of gRPC (a
    message arrives whole and unchanged, or not at all), its interceptors and
    compressors, of which the operator installs none; the fuzzer, which only asks a
    library for random objects in a test; the descriptions in schemas, which carry
    no behaviour.  Outside [DeepCopy.v] Go values are copied: sharing is modelled
    where the code depends on it, which is the Annotations map the pod builder shares
    between pod and Sidekick.  The mutexes and [sync.Once] of the process make the
    state they guard change atomically, so the process state ([Proc], the replay
    cache) is threaded through the sequence of its uses. *)

From Stdlib Require Export Ascii String ZArith Lia Sorting.Sorted Sorting.Permutation.
From stdpp Require Export base gmap strings list fin_maps sorting pretty.

#[export] Set Warnings "-clear-no-such-hyp".

(** Every string literal of the development is a Go string: a byte sequence. *)
Open Scope string_scope.
Open Scope Z_scope.
Open Scope list_scope.

(** ** Errors and results *)

(** The [metav1.StatusReason] of an API error; [ReasonOther] stands for every
    reason the code does not ask about. *)
Inductive StatusReason := ReasonNotFound | ReasonOther.

(** A Go [error]: an API status error, a plain [errors.New]/[fmt.Errorf] error,
    or a [%w]-wrapped one with the text in front of it. *)
Inductive error :=
| ApiError (reason : StatusReason) (msg : string)
| PlainError (msg : string)
| WrapError (msg : string) (inner : error).

#[export] Instance StatusReason_eq_dec : EqDecision StatusReason.
Proof. solve_decision. Defined.
#[export] Instance error_eq_dec : EqDecision error.
Proof. solve_decision. Defined.

(** [errors.IsNotFound]: looks through wrapping, as [errors.As] does. *)
Fixpoint IsNotFound (e : error) : bool :=
  match e with
  | ApiError ReasonNotFound _ => true
  | ApiError ReasonOther _ => false
  | PlainError _ => false
  | WrapError _ e' => IsNotFound e'
  end.

(** [err.Error()]. *)
Fixpoint Error (e : error) : string :=
  match e with
  | ApiError _ m => m
  | PlainError m => m
  | WrapError m e' => m +:+ Error e'
  end.

(** [errors.NewNotFound(schema.GroupResource{Resource: "pods"}, "")]. *)
Definition NewNotFound (resource name : string) : error :=
  ApiError ReasonNotFound (resource +:+ " " +:+ name +:+ " not found").

(** A Go pair [(value, error)] of which exactly one half is meaningful. *)
Inductive res (A : Type) := Ok (a : A) | Err (e : error).
Arguments Ok {A} a.
Arguments Err {A} e.

(** [client.IgnoreNotFound] on an optional error. *)
Definition IgnoreNotFound (e : option error) : option error :=
  match e with
  | Some e => if IsNotFound e then None else Some e
  | None => None
  end.

Definition res_err {A} (r : res A) : option error :=
  match r with Ok _ => None | Err e => Some e end.

Definition res_bind {A B} (r : res A) (f : A → res B) : res B :=
  match r with Ok a => f a | Err e => Err e end.

#[export] Instance res_mret : MRet res := @Ok.
#[export] Instance res_mbind : MBind res := λ A B f r, res_bind r f.

(** A loop that appends one result per element and returns on the first error. *)
Fixpoint res_map {A B} (f : A → res B) (l : list A) : res (list B) :=
  match l with
  | [] => Ok []
  | x :: l' =>
      match f x with
      | Err e => Err e
      | Ok y => match res_map f l' with Err e => Err e | Ok ys => Ok (y :: ys) end
      end
  end.

(** A Go [string] or [[]byte] length, [len(s)]. *)
Definition go_len (s : string) : Z := Z.of_nat (String.length s).

Lemma str_app_cons c (s t : string) : String c s +:+ t = String c (s +:+ t).
Proof. done. Qed.

Lemma str_app_nil_r (s : string) : s +:+ "" = s.
Proof. induction s as [|c s IH]; [done|]. by rewrite str_app_cons, IH. Qed.

Lemma str_app_assoc (a b c : string) : (a +:+ b) +:+ c = a +:+ b +:+ c.
Proof. induction a as [|x a IH]; [done|]. by rewrite !str_app_cons, IH. Qed.

Lemma str_length_app (a b : string) :
  String.length (a +:+ b) = (String.length a + String.length b)%nat.
Proof. induction a as [|x a IH]; [done|]. rewrite str_app_cons. simpl. by rewrite IH. Qed.

(** ** Machine integers *)

(** The value of a [w]-bit two's complement integer. *)
Definition wrap (w z : Z) : Z := (z + 2 ^ (w - 1)) mod 2 ^ w - 2 ^ (w - 1).
Abbreviation wrap32 := (wrap 32).
Abbreviation wrap64 := (wrap 64).
Definition in_int (w z : Z) : Prop := - 2 ^ (w - 1) ≤ z < 2 ^ (w - 1).
Abbreviation in_int32 := (in_int 32).
Abbreviation in_int64 := (in_int 64).

Lemma wrap32_range z : in_int32 (wrap32 z).
Proof. unfold in_int, wrap. pose proof (Z.mod_pos_bound (z + 2 ^ (32 - 1)) (2 ^ 32)). lia. Qed.

Lemma wrap64_range z : in_int64 (wrap64 z).
Proof. unfold in_int, wrap. pose proof (Z.mod_pos_bound (z + 2 ^ (64 - 1)) (2 ^ 64)). lia. Qed.

Lemma wrap32_id z : in_int32 z → wrap32 z = z.
Proof. unfold in_int, wrap. intros H. rewrite Z.mod_small; lia. Qed.

Lemma wrap64_id z : in_int64 z → wrap64 z = z.
Proof. unfold in_int, wrap. intros H. rewrite Z.mod_small; lia. Qed.

Lemma wrap32_add_l a b : wrap32 (wrap32 a + b) = wrap32 (a + b).
Proof.
  unfold wrap. f_equal.
  replace ((a + 2 ^ (32 - 1)) mod 2 ^ 32 - 2 ^ (32 - 1) + b + 2 ^ (32 - 1))
    with ((a + 2 ^ (32 - 1)) mod 2 ^ 32 + b) by lia.
  rewrite Zplus_mod_idemp_l. f_equal. lia.
Qed.

Lemma wrap32_add_r a b : wrap32 (a + wrap32 b) = wrap32 (a + b).
Proof. rewrite (Z.add_comm a), wrap32_add_l. f_equal. lia. Qed.

(** ** Go maps with string keys

    A Go map is a reference that may be nil; a nil map reads as empty and
    panics on a write, so nil and empty are kept apart. *)
Abbreviation gomap A := (option (gmap string A)) (only parsing).

Definition gm_lookup {A} (m : gomap A) (k : string) : option A :=
  match m with Some m => m !! k | None => None end.

(** [m[k]] of a map of strings: the zero value [""] when absent. *)
Definition gm_str (m : gomap string) (k : string) : string := default "" (gm_lookup m k).

(** [if m == nil { m = make(...) }]. *)
Definition gm_make {A} (m : gomap A) : gomap A := Some (default ∅ m).

(** [len(m)]. *)
Definition gm_len {A} (m : gomap A) : nat := size (default ∅ m).

(** The map, with an empty one taken for nil. *)
Definition non_empty {A} (m : gomap A) : option (gmap string A) :=
  match m with
  | Some m => if decide (m = ∅) then None else Some m
  | None => None
  end.

Lemma gm_lookup_make {A} (m : gomap A) k : gm_lookup (gm_make m) k = gm_lookup m k.
Proof. destruct m; simpl; [done|]. apply lookup_empty. Qed.

(** ** Shared automation *)

Create HintDb sidekick.
Create Rewrite HintDb sidekick.
#[export] Hint Rewrite @gm_lookup_make str_app_cons str_app_nil_r str_app_assoc : sidekick.
#[export] Hint Resolve wrap32_range : sidekick.

(** Case analysis on the innermost [match] or [if] of the goal. *)
Ltac case_match_goal :=
  match goal with
  | |- context [ match ?x with _ => _ end ] => destruct x eqn:?
  end.

(** Case analysis on a [match] of a hypothesis, discarding absurd cases. *)
Ltac case_match_hyp H :=
  match type of H with
  | context [ match ?x with _ => _ end ] => destruct x eqn:?; try discriminate H
  end.

Lemma res_map_ok {A B} (f : A → res B) l ys :
  res_map f l = Ok ys → Forall2 (λ x y, f x = Ok y) l ys.
Proof.
  revert ys. induction l as [|x l IH]; intros ys E; simpl in E; [by simplify_eq|].
  repeat case_match_hyp E. simplify_eq. constructor; auto.
Qed.

(** A loop with early return succeeds exactly when every element does. *)
Lemma res_map_total {A B} (f : A → res B) l :
  (∃ ys, res_map f l = Ok ys) ↔ Forall (λ x, ∃ y, f x = Ok y) l.
Proof.
  induction l as [|x l IH]; simpl.
  { split; [constructor|eauto]. }
  rewrite Forall_cons, <- IH. split.
  - intros [ys E]. repeat case_match_hyp E. eauto.
  - intros [[y ->] [ys ->]]. eauto.
Qed.

(** Boolean string tests to equations. *)
Ltac string_eqs :=
  repeat match goal with
  | H : String.eqb _ _ = true |- _ => apply String.eqb_eq in H
  | H : String.eqb _ _ = false |- _ => apply String.eqb_neq in H
  | H : andb _ _ = true |- _ => apply andb_true_iff in H; destruct H
  | H : orb _ _ = false |- _ => apply orb_false_iff in H; destruct H
  | H : negb _ = true |- _ => apply negb_true_iff in H
  | H : negb _ = false |- _ => apply negb_false_iff in H
  end.
