(* ===== verification/Effects.v ===== *)
(** * Effectful programs as trees of calls

    The operator is written against interfaces it does not implement: the API
    server (through [client.Client] and the OCM clientset), the clock, the
    random source, the environment.  A piece of Go code is a tree: it returns,
    panics, or issues a call and continues with the answer.  This file is the
    generic part: the monad, the set of executions of a program under every
    possible sequence of answers, the predicate transformer [wp] over them, and
    the evaluation [run] of a program by a concrete environment. *)

From S2P Require Import Prelude.

Section Programs.
Context {Op : Type} {Ans : Op → Type}.

Inductive prog (A : Type) : Type :=
| Ret (a : A)
| Panic (msg : string)
| Call (op : Op) (k : Ans op → prog A).

Inductive outcome (A : Type) := Returned (a : A) | Panicked (msg : string).

(** One call together with the answer it received. *)
Inductive event := Ev (op : Op) (ans : Ans op).

#[global] Arguments Ret {A} a.
#[global] Arguments Panic {A} msg.
#[global] Arguments Call {A} op k.
#[global] Arguments Returned {A} a.
#[global] Arguments Panicked {A} msg.

Fixpoint prog_bind {A B} (p : prog A) (f : A → prog B) : prog B :=
  match p with
  | Ret a => f a
  | Panic m => Panic m
  | Call op k => Call op (λ r, prog_bind (k r) f)
  end.

#[global] Instance prog_mret : MRet prog := @Ret.
#[global] Instance prog_mbind : MBind prog := λ A B f p, prog_bind p f.

Definition call (op : Op) : prog (Ans op) := Call op Ret.

(** All executions of a program, the environment answering as it likes. *)
Inductive exec {A} : prog A → list event → outcome A → Prop :=
| exec_ret a : exec (Ret a) [] (Returned a)
| exec_panic m : exec (Panic m) [] (Panicked m)
| exec_call op k r tr o : exec (k r) tr o → exec (Call op k) (Ev op r :: tr) o.

(** Inversion of an execution, by the shape of the program. *)
Lemma exec_inv {A} (p : prog A) tr o :
  exec p tr o →
  match p with
  | Ret a => tr = [] ∧ o = Returned a
  | Panic m => tr = [] ∧ o = Panicked m
  | Call op k => ∃ r tr', tr = Ev op r :: tr' ∧ exec (k r) tr' o
  end.
Proof. destruct 1; eauto. Qed.

(** [wp p Q]: every execution of [p] satisfies [Q]. *)
Fixpoint wp {A} (p : prog A) (Q : list event → outcome A → Prop) : Prop :=
  match p with
  | Ret a => Q [] (Returned a)
  | Panic m => Q [] (Panicked m)
  | Call op k => ∀ r, wp (k r) (λ tr o, Q (Ev op r :: tr) o)
  end.

Lemma wp_exec {A} (p : prog A) Q : wp p Q ↔ ∀ tr o, exec p tr o → Q tr o.
Proof.
  split.
  - intros Hwp tr o He. revert Q Hwp. induction He; simpl; eauto.
    intros Q Hwp. exact (IHHe _ (Hwp r)).
  - revert Q. induction p; simpl; intros Q HQ; eauto using exec.
Qed.

Lemma wp_mono {A} (p : prog A) (Q Q' : list event → outcome A → Prop) :
  (∀ tr o, Q tr o → Q' tr o) → wp p Q → wp p Q'.
Proof. rewrite !wp_exec. eauto. Qed.

Lemma wp_and {A} (p : prog A) (Q Q' : list event → outcome A → Prop) :
  wp p Q → wp p Q' → wp p (λ tr o, Q tr o ∧ Q' tr o).
Proof. rewrite !wp_exec. eauto. Qed.

Lemma wp_bind {A B} (p : prog A) (f : A → prog B) Q :
  wp p (λ tr o, match o with
                | Returned a => wp (f a) (λ tr' o', Q (tr ++ tr') o')
                | Panicked m => Q tr (Panicked m)
                end) →
  wp (p ≫= f) Q.
Proof.
  unfold mbind, prog_mbind. revert Q. induction p as [a|m|op k IH]; simpl; intros Q H; auto.
Qed.

Lemma wp_ret {A} (a : A) (Q : list event → outcome A → Prop) : Q [] (Returned a) → wp (mret a) Q.
Proof. done. Qed.

(** Executions whose events all satisfy an assumption [E] on the environment. *)
Definition wpE {A} (E : event → Prop) (p : prog A) (Q : list event → outcome A → Prop) : Prop :=
  wp p (λ tr o, Forall E tr → Q tr o).

Lemma wpE_exec {A} E (p : prog A) Q :
  wpE E p Q ↔ ∀ tr o, exec p tr o → Forall E tr → Q tr o.
Proof. apply wp_exec. Qed.

Lemma wpE_mono {A} E (p : prog A) (Q Q' : list event → outcome A → Prop) :
  (∀ tr o, Q tr o → Q' tr o) → wpE E p Q → wpE E p Q'.
Proof. intros HQ. apply wp_mono. auto. Qed.

Lemma wpE_bind {A B} E (p : prog A) (f : A → prog B) Q :
  wpE E p (λ tr o, match o with
                   | Returned a => wpE E (f a) (λ tr' o', Q (tr ++ tr') o')
                   | Panicked m => Q tr (Panicked m)
                   end) →
  wpE E (p ≫= f) Q.
Proof.
  intros Hp. apply wp_bind. eapply wp_mono; [|exact Hp]. intros tr [a|m] Ht; [|done].
  apply wp_exec. intros tr' o' Hx [HE HE']%Forall_app.
  by apply (proj1 (wpE_exec _ _ _) (Ht HE)).
Qed.

Lemma wpE_ret {A} E (a : A) (Q : list event → outcome A → Prop) :
  Q [] (Returned a) → wpE E (mret a) Q.
Proof. by intros ? _. Qed.

(** Total correctness under the assumption: no panic, calls within [P], result
    within [R]. *)
Definition total {A} (E P : event → Prop) (R : A → Prop) (p : prog A) : Prop :=
  wpE E p (λ tr o, Forall P tr ∧ match o with Returned a => R a | Panicked _ => False end).

Lemma total_bind {A B} E P R R' (p : prog A) (f : A → prog B) :
  total E P R p → (∀ a, R a → total E P R' (f a)) → total E P R' (p ≫= f).
Proof.
  intros Hp Hf. apply wpE_bind. eapply wpE_mono; [|exact Hp].
  intros tr [a|m] [Ht HR]; [|done].
  eapply wpE_mono; [|exact (Hf a HR)]. intros tr' o' [Ht' ?].
  split; [by apply Forall_app|done].
Qed.

Lemma total_ret {A} E P (R : A → Prop) a : R a → total E P R (mret a).
Proof. by intros ? _. Qed.

Lemma total_call E P op (R : Ans op → Prop) :
  (∀ r, E (Ev op r) → P (Ev op r) ∧ R r) → total E P R (call op).
Proof. intros HR r [HE _]%Forall_cons. apply HR in HE as [HP Hr]. by repeat constructor. Qed.

Lemma total_mono {A} E (P P' : event → Prop) (R R' : A → Prop) p :
  (∀ e, P e → P' e) → (∀ a, R a → R' a) → total E P R p → total E P' R' p.
Proof.
  intros HP HR. apply wpE_mono. intros tr [a|m] [Ht Ho]; [|done].
  split; [by eapply Forall_impl|auto].
Qed.

(** Properties of traces that hold of a concatenation when they hold of its
    parts. *)
Class TraceClosed (P : list event → Prop) := {
  trace_nil : P [];
  trace_app : ∀ tr tr', P tr → P tr' → P (tr ++ tr')
}.

#[global] Instance Forall_TraceClosed (P : event → Prop) : TraceClosed (Forall P).
Proof. split; [constructor|intros; by apply Forall_app]. Qed.

(** Every [d] event of the trace comes after an [m] event. *)
Definition preceded (d m : event → bool) (tr : list event) : Prop :=
  ∀ tr1 e tr2, tr = tr1 ++ e :: tr2 → d e = true → ∃ e', e' ∈ tr1 ∧ m e' = true.

#[global] Instance preceded_closed d m : TraceClosed (preceded d m).
Proof.
  split.
  - by intros [|e0 tr1] e tr2 E.
  - intros tr tr' Ht Ht' tr1 e tr2 E Hd.
    apply app_eq_inv in E as [(k & -> & E)|(k & -> & ->)].
    + destruct k as [|e' k]; simplify_eq/=.
      * destruct (Ht' [] e tr2 eq_refl Hd) as (? & Hin & _). by apply elem_of_nil in Hin.
      * by apply (Ht tr1 e' k).
    + destruct (Ht' k e tr2 eq_refl Hd) as (e' & Hin & Hm).
      exists e'. split; [|done]. apply elem_of_app. by right.
Qed.

Lemma preceded_one d m e : d e = false → preceded d m [e].
Proof. intros He [|e0 [|]] x tr2 E Hd; simplify_eq/=. congruence. Qed.

Lemma preceded_mark d m e tr : m e = true → d e = false → preceded d m (e :: tr).
Proof.
  intros Hm Hnd [|e0 tr1] x tr2 E Hd; simplify_eq/=; [congruence|].
  exists e0. split; [left|done].
Qed.

Lemma preceded_cons d m e tr : d e = false → preceded d m tr → preceded d m (e :: tr).
Proof. intros He Ht. apply (trace_app [e] tr); [by apply preceded_one|done]. Qed.

Definition traces {A} (P : list event → Prop) (p : prog A) : Prop := wp p (λ tr _, P tr).

Lemma traces_ret {A} P `{!TraceClosed P} (a : A) : traces P (mret a).
Proof. apply trace_nil. Qed.

Lemma traces_panic {A} P `{!TraceClosed P} m : traces P (Panic m : prog A).
Proof. apply trace_nil. Qed.

Lemma traces_call P op : (∀ r, P [Ev op r]) → traces P (call op).
Proof. done. Qed.

Lemma traces_bind {A B} P `{!TraceClosed P} (p : prog A) (f : A → prog B) :
  traces P p → (∀ a, traces P (f a)) → traces P (p ≫= f).
Proof.
  intros Hp Hf. apply wp_bind. eapply wp_mono; [|exact Hp]. intros tr [a|m] Ht; [|done].
  eapply wp_mono; [|exact (Hf a)]. intros tr' o' Ht'. by apply trace_app.
Qed.

(** ** Programs that guard their calls

    [guarded E P R p]: as long as the answers satisfy [E], every call of [p] is
    within [P], and so is its result within [R].  The calls are judged before they
    are answered, so that an environment that keeps [E] only while it is called
    within [P] can be shown to keep it ([Confinement.v], [guarded_run]). *)
Fixpoint guarded {A} (E : event → Prop) (P : Op → Prop) (R : A → Prop) (p : prog A) : Prop :=
  match p with
  | Ret a => R a
  | Panic _ => True
  | Call op k => P op ∧ ∀ r, E (Ev op r) → guarded E P R (k r)
  end.

Lemma guarded_ret {A} E P (R : A → Prop) a : R a → guarded E P R (mret a).
Proof. done. Qed.

Lemma guarded_call E (P : Op → Prop) op (R : Ans op → Prop) :
  P op → (∀ r, E (Ev op r) → R r) → guarded E P R (call op).
Proof. done. Qed.

Lemma guarded_bind {A B} E P R R' (p : prog A) (f : A → prog B) :
  guarded E P R p → (∀ a, R a → guarded E P R' (f a)) → guarded E P R' (p ≫= f).
Proof.
  unfold mbind, prog_mbind. intros Hp Hf. induction p as [a|m|op k IH]; simpl in *; [auto..|].
  destruct Hp as [HP Hk]. split; [done|]. auto.
Qed.

Lemma guarded_mono {A} E P (R R' : A → Prop) p :
  (∀ a, R a → R' a) → guarded E P R p → guarded E P R' p.
Proof.
  intros HR. induction p as [a|m|op k IH]; simpl; [auto..|]. intros [HP Hk]. split; [done|]. auto.
Qed.

Lemma guarded_exec {A} E P (R : A → Prop) p tr o :
  exec p tr o → guarded E P R p → Forall E tr → Forall (λ e, match e with Ev op _ => P op end) tr.
Proof.
  intros Hx. induction Hx as [| |op k r tr o _ IH]; [constructor..|].
  intros [HP Hk] [HE Htr]%Forall_cons. constructor; [done|]. auto.
Qed.

(** ** Evaluation by an environment with state [W] *)
Section Run.
Context {W : Type} (serve : ∀ op, W → Ans op * W).

Fixpoint run {A} (p : prog A) (w : W) : outcome A * W :=
  match p with
  | Ret a => (Returned a, w)
  | Panic m => (Panicked m, w)
  | Call op k => let '(r, w') := serve op w in run (k r) w'
  end.

Lemma run_bind {A B} (p : prog A) (f : A → prog B) w :
  run (p ≫= f) w =
  match run p w with
  | (Returned a, w') => run (f a) w'
  | (Panicked m, w') => (Panicked m, w')
  end.
Proof.
  unfold mbind, prog_mbind. revert w. induction p as [a|m|op k IH]; intros w; simpl; [done..|].
  destruct (serve op w) as [r w']. apply IH.
Qed.

Lemma run_ret {A} (a : A) w : run (mret a) w = (Returned a, w).
Proof. done. Qed.

Lemma run_call op w : run (call op) w = (Returned (serve op w).1, (serve op w).2).
Proof. simpl. by destruct (serve op w). Qed.

(** The calls of the evaluation. *)
Fixpoint run_trace {A} (p : prog A) (w : W) : list event :=
  match p with
  | Ret _ | Panic _ => []
  | Call op k => let '(r, w') := serve op w in Ev op r :: run_trace (k r) w'
  end.

(** The evaluation is one of the executions. *)
Lemma run_exec {A} (p : prog A) w : exec p (run_trace p w) (run p w).1.
Proof.
  revert w. induction p as [a|m|op k IH]; intros w; simpl; [constructor..|].
  destruct (serve op w) as [r w']. constructor. apply IH.
Qed.
End Run.

End Programs.

Arguments prog {Op} Ans A.
Arguments event {Op} Ans.

(** Prove that every call of a program is fine, one call at a time. *)
Ltac trace_step :=
  lazymatch goal with
  | |- traces _ ?p =>
      lazymatch p with
      | _ ≫= _ => apply traces_bind; [apply _| |intros]
      | mret _ => apply traces_ret; apply _
      | Ret _ => apply traces_ret; apply _
      | Panic _ => apply traces_panic; apply _
      | call ?op => apply (traces_call _ op); intros
      | match ?x with _ => _ end => destruct x eqn:?
      end
  end.

(** The same for [guarded]. *)
Ltac guard_step :=
  lazymatch goal with
  | |- guarded _ _ _ ?p =>
      lazymatch p with
      | call ?op ≫= _ => eapply guarded_bind; [eapply (guarded_call _ _ op)|]
      | mret _ => apply guarded_ret
      | Ret _ => apply guarded_ret
      | call ?op => apply (guarded_call _ _ op)
      | match ?x with _ => _ end => destruct x eqn:?
      end
  end.

(** The same for [total]; the postcondition of the first half of a bind is left
    to the caller. *)
Ltac total_step :=
  lazymatch goal with
  | |- total _ _ _ ?p =>
      lazymatch p with
      | mret _ => apply total_ret
      | Ret _ => apply total_ret
      | call ?op => apply (total_call _ _ op)
      | call ?op ≫= _ => eapply total_bind; [eapply (total_call _ _ op)|]
      | match ?x with _ => _ end => destruct x eqn:?
      end
  end.
