(* ===== verification/GoStd.v ===== *)
(** * The parts of the Go standard library the operator relies on

    Strings are byte sequences.  [regexp] is modelled for the one expression the
    operator compiles, [strconv.Atoi] for the digit strings that expression
    captures, [sort.Slice] as an interface with its documented contract together
    with the insertion sort Go runs on short slices, and [strings] function by
    function. *)

From S2P Require Import Prelude.

(** ** Bytes *)

Definition is_digit (c : ascii) : bool :=
  (48 <=? nat_of_ascii c)%nat && (nat_of_ascii c <=? 57)%nat.

Definition newline : ascii := ascii_of_nat 10.
Definition dash : ascii := "-"%char.

Fixpoint str_forallb (f : ascii → bool) (s : string) : bool :=
  match s with
  | EmptyString => true
  | String c s' => f c && str_forallb f s'
  end.

(** No byte of [s] is [c]. *)
Definition str_free (c : ascii) (s : string) : bool := str_forallb (λ d, negb (Ascii.eqb d c)) s.

(** ** regexp.MustCompile(`.*-(\d+)`).FindStringSubmatch *)
Module Regexp.

(** [\d+], greedy. *)
Fixpoint take_digits (s : string) : string :=
  match s with
  | String c s' => if is_digit c then String c (take_digits s') else EmptyString
  | EmptyString => EmptyString
  end.

(** A match that starts at the first byte: [.*] is greedy and does not cross a
    newline, so the continuation is tried before stopping here. *)
Fixpoint match_here (s : string) : option string :=
  match s with
  | EmptyString => None
  | String c s' =>
      match (if Ascii.eqb c newline then None else match_here s') with
      | Some d => Some d
      | None =>
          if Ascii.eqb c dash then
            match take_digits s' with
            | EmptyString => None
            | d => Some d
            end
          else None
      end
  end.

(** The unanchored search: the leftmost start that matches; the result is the
    capture group. *)
Fixpoint FindStringSubmatch (s : string) : option string :=
  match match_here s with
  | Some d => Some d
  | None => match s with
            | EmptyString => None
            | String _ s' => FindStringSubmatch s'
            end
  end.

End Regexp.

(** ** strconv.Atoi on the captured digits *)
Module Strconv.

Definition digit_value (c : ascii) : Z := Z.of_nat (nat_of_ascii c) - 48.

Fixpoint digits_value (acc : Z) (s : string) : Z :=
  match s with
  | EmptyString => acc
  | String c s' => digits_value (10 * acc + digit_value c) s'
  end.

Definition max_int64 : Z := 2 ^ 63 - 1.

(** The value half of [Atoi]: 0 with a syntax error, the clamped value with a
    range error.  Signs do not occur in a [\d+] capture. *)
Definition Atoi (s : string) : Z :=
  if str_forallb is_digit s && negb (String.eqb s "")
  then Z.min (digits_value 0 s) max_int64
  else 0.

End Strconv.

(** ** sort.Slice *)

(** The requirement [sort.Interface] documents for [Less] on the elements of a
    slice: a strict weak ordering. *)
Definition strict_weak_on {A} (less : A → A → bool) (l : list A) : Prop :=
  (∀ x, x ∈ l → less x x = false) ∧
  (∀ x y, x ∈ l → y ∈ l → less x y = true → less y x = false) ∧
  (∀ x y z, x ∈ l → y ∈ l → z ∈ l → less x y = false → less y z = false → less x z = false).

Definition sorted_by {A} (less : A → A → bool) : list A → Prop :=
  StronglySorted (λ x y, less y x = false).

(** What [sort.Slice] promises: it permutes the slice, and sorts it when [less]
    is a strict weak ordering of its elements.  It is not stable, and nothing is
    said about other comparison functions. *)
Class SortSlice := {
  sort_slice : ∀ {A}, (A → A → bool) → list A → list A;
  sort_slice_perm : ∀ {A} (less : A → A → bool) l, Permutation (sort_slice less l) l;
  sort_slice_sorted : ∀ {A} (less : A → A → bool) l,
    strict_weak_on less l → sorted_by less (sort_slice less l)
}.

Module InsertionSort.

(** The inner loop of [insertionSort_func]: the new element moves left past
    every element it is less than; the prefix is held reversed. *)
Fixpoint insert_left {A} (less : A → A → bool) (x : A) (rprefix : list A) : list A :=
  match rprefix with
  | [] => [x]
  | y :: ys => if less x y then y :: insert_left less x ys else x :: y :: ys
  end.

Definition insertionSort {A} (less : A → A → bool) (l : list A) : list A :=
  reverse (fold_left (λ acc x, insert_left less x acc) l []).

Section Laws.
Context {A : Type} (less : A → A → bool).

Lemma insert_left_perm x l : Permutation (insert_left less x l) (x :: l).
Proof.
  induction l as [|y l IH]; simpl; [done|]. destruct (less x y); [|done].
  rewrite IH. apply perm_swap.
Qed.

Lemma fold_insert_perm l acc :
  Permutation (fold_left (λ acc x, insert_left less x acc) l acc) (l ++ acc).
Proof.
  revert acc. induction l as [|x l IH]; intros acc; simpl; [done|].
  rewrite IH, insert_left_perm. symmetry. apply Permutation_middle.
Qed.

Lemma insertionSort_perm l : Permutation (insertionSort less l) l.
Proof. unfold insertionSort. by rewrite reverse_Permutation, fold_insert_perm, app_nil_r. Qed.

(** The reversed prefix is kept sorted from greatest to least. *)
Definition rsorted : list A → Prop := StronglySorted (λ x y, less x y = false).

Lemma insert_left_sorted (dom l : list A) x :
  strict_weak_on less dom → x ∈ dom → (∀ y, y ∈ l → y ∈ dom) →
  rsorted l → rsorted (insert_left less x l).
Proof.
  intros (Hirr & Hasym & Hneg) Hx. induction l as [|y l IH]; intros Hl Hs; simpl.
  { repeat constructor. }
  apply StronglySorted_inv in Hs as [Hs Hy].
  assert (Hyd : y ∈ dom) by (apply Hl; set_solver).
  assert (Hld : ∀ z, z ∈ l → z ∈ dom) by (intros z Hz; apply Hl; set_solver).
  rewrite List.Forall_forall in Hy.
  destruct (less x y) eqn:E.
  - constructor; [by apply IH|]. apply List.Forall_forall. intros z Hz.
    apply (Permutation_in _ (insert_left_perm x l)) in Hz as [<-|Hz]; [|by apply Hy].
    by apply Hasym.
  - constructor; [constructor; auto; by apply List.Forall_forall|].
    apply List.Forall_forall. intros z [<-|Hz]; [done|].
    apply (Hneg x y z); auto. apply Hld. by apply list_elem_of_In.
Qed.

Lemma rsorted_reverse l : rsorted l → sorted_by less (reverse l).
Proof.
  unfold rsorted, sorted_by. induction 1 as [|x l Hs IH Hx]; [constructor|].
  rewrite reverse_cons. clear Hs.
  assert (Hx' : Forall (λ y, less x y = false) (reverse l))
    by by rewrite reverse_Permutation.
  clear Hx. induction (reverse l) as [|y r IHr]; simpl; [repeat constructor|].
  apply StronglySorted_inv in IH as [Hr Hy]. apply Forall_cons in Hx' as [Hxy Hxr].
  constructor; [auto|]. apply Forall_app. split; [done|by repeat constructor].
Qed.

Lemma insertionSort_sorted l : strict_weak_on less l → sorted_by less (insertionSort less l).
Proof.
  intros Hw. apply rsorted_reverse.
  assert (Hgen : ∀ k acc, (∀ y, y ∈ k → y ∈ l) → (∀ y, y ∈ acc → y ∈ l) → rsorted acc →
    rsorted (fold_left (λ acc x, insert_left less x acc) k acc)).
  { induction k as [|x k IH]; intros acc Hk Hacc Hs; simpl; [done|].
    apply IH; [by intros y Hy; apply Hk; right| |].
    - intros y. rewrite insert_left_perm. intros [->|?]%elem_of_cons; [by apply Hk; left|auto].
    - apply (insert_left_sorted l); auto. by apply Hk; left. }
  apply Hgen; [done|by intros y ?%elem_of_nil|constructor].
Qed.
End Laws.

(** Go sorts slices of at most twelve elements this way. *)
#[export] Instance insertion_SortSlice : SortSlice := {|
  sort_slice A less l := insertionSort less l;
  sort_slice_perm A less l := insertionSort_perm less l;
  sort_slice_sorted A less l := insertionSort_sorted less l
|}.

End InsertionSort.
