(* ===== verification/Types.v ===== *)
(** * The API objects the operator reads and writes

    The Sidekick resource is [apis/apps/v1alpha1/sidekick_types.go], field by
    field.  Of the Kubernetes, Open Cluster Management, kubeslice and kubestash
    objects the model holds the fields the operator reads or writes.  A value of
    a library type that is only ever copied from one object to another (an
    [Affinity], a probe, ...) is an uninterpreted JSON value.

    Go string types ([PodPhase], [RestartPolicy], ...) stay strings: the API
    admits values outside the named constants, the empty one among them.
    Pointers are options, nil and empty maps are distinct, slices are lists. *)

From S2P Require Import Prelude.

(** A value the operator never looks into. *)
#[warnings="-register-all"]
Inductive json :=
| JNull
| JBool (b : bool)
| JNum (z : Z)
| JStr (s : string)
| JArr (l : list json)
| JObj (l : list (string * json)).

(** ** Kubernetes metadata *)

Record NamespacedName := mkKey { key_Namespace : string; key_Name : string }.

#[export] Instance NamespacedName_eq_dec : EqDecision NamespacedName.
Proof. solve_decision. Defined.
#[export] Instance NamespacedName_countable : Countable NamespacedName.
Proof.
  refine (inj_countable' (λ k, (key_Namespace k, key_Name k)) (λ p, mkKey p.1 p.2) _).
  by intros [].
Defined.

Record OwnerReference := {
  or_APIVersion : string;
  or_Kind : string;
  or_Name : string;
  or_UID : string;
  or_Controller : option bool;
  or_BlockOwnerDeletion : option bool
}.

(** The server-maintained bookkeeping the operator never reads
    ([resourceVersion], [managedFields], timestamps) is left out. *)
Record ObjectMeta := {
  Name : string;
  GenerateName : string;
  Namespace : string;
  UID : string;
  Generation : Z;
  DeletionTimestamp : option Z;
  Labels : gomap string;
  Annotations : gomap string;
  OwnerReferences : list OwnerReference;
  Finalizers : list string
}.

Definition empty_meta : ObjectMeta :=
  {| Name := ""; GenerateName := ""; Namespace := ""; UID := "";
     Generation := 0; DeletionTimestamp := None; Labels := None; Annotations := None;
     OwnerReferences := []; Finalizers := [] |}.

Definition new_meta (ns name : string) : ObjectMeta :=
  {| Name := name; GenerateName := ""; Namespace := ns; UID := "";
     Generation := 0; DeletionTimestamp := None; Labels := None; Annotations := None;
     OwnerReferences := []; Finalizers := [] |}.

(** Field assignment on a Go struct value. *)
Definition set_Finalizers (f : list string) (m : ObjectMeta) : ObjectMeta :=
  {| Name := Name m; GenerateName := GenerateName m; Namespace := Namespace m; UID := UID m;
     Generation := Generation m;
     DeletionTimestamp := DeletionTimestamp m; Labels := Labels m;
     Annotations := Annotations m; OwnerReferences := OwnerReferences m; Finalizers := f |}.

Definition set_Annotations (a : gomap string) (m : ObjectMeta) : ObjectMeta :=
  {| Name := Name m; GenerateName := GenerateName m; Namespace := Namespace m; UID := UID m;
     Generation := Generation m;
     DeletionTimestamp := DeletionTimestamp m; Labels := Labels m;
     Annotations := a; OwnerReferences := OwnerReferences m; Finalizers := Finalizers m |}.

Definition set_Labels (l : gomap string) (m : ObjectMeta) : ObjectMeta :=
  {| Name := Name m; GenerateName := GenerateName m; Namespace := Namespace m; UID := UID m;
     Generation := Generation m;
     DeletionTimestamp := DeletionTimestamp m; Labels := l;
     Annotations := Annotations m; OwnerReferences := OwnerReferences m;
     Finalizers := Finalizers m |}.

Definition set_OwnerReferences (r : list OwnerReference) (m : ObjectMeta) : ObjectMeta :=
  {| Name := Name m; GenerateName := GenerateName m; Namespace := Namespace m; UID := UID m;
     Generation := Generation m;
     DeletionTimestamp := DeletionTimestamp m; Labels := Labels m;
     Annotations := Annotations m; OwnerReferences := r; Finalizers := Finalizers m |}.

Definition set_GenerateName (g : string) (m : ObjectMeta) : ObjectMeta :=
  {| Name := Name m; GenerateName := g; Namespace := Namespace m; UID := UID m;
     Generation := Generation m;
     DeletionTimestamp := DeletionTimestamp m; Labels := Labels m;
     Annotations := Annotations m; OwnerReferences := OwnerReferences m;
     Finalizers := Finalizers m |}.

Definition meta_key (m : ObjectMeta) : NamespacedName := mkKey (Namespace m) (Name m).

(** [metav1.LabelSelector]. *)
Record LabelSelectorRequirement := {
  lsr_Key : string;
  lsr_Operator : string;
  lsr_Values : list string
}.
Record LabelSelector := {
  MatchLabels : gomap string;
  MatchExpressions : list LabelSelectorRequirement
}.

(** ** core/v1 *)

Record EnvVar := { env_Name : string; env_Value : string; env_ValueFrom : option json }.

Record CoreVolumeMount := {
  cvm_Name : string;
  cvm_ReadOnly : bool;
  cvm_RecursiveReadOnly : option string;
  cvm_MountPath : string;
  cvm_SubPath : string;
  cvm_MountPropagation : option string;
  cvm_SubPathExpr : string
}.

(** A volume: its name and the source it is bound to, the one non-nil field of
    [core.VolumeSource] together with its value. *)
Record Volume := { vol_Name : string; vol_Source : option (string * json) }.

Record CoreContainer := {
  cc_Name : string;
  cc_Image : string;
  cc_Command : list string;
  cc_Args : list string;
  cc_WorkingDir : string;
  cc_Ports : list json;
  cc_EnvFrom : list json;
  cc_Env : list EnvVar;
  cc_Resources : json;
  cc_VolumeMounts : list CoreVolumeMount;
  cc_VolumeDevices : list json;
  cc_LivenessProbe : option json;
  cc_ReadinessProbe : option json;
  cc_StartupProbe : option json;
  cc_Lifecycle : option json;
  cc_TerminationMessagePath : string;
  cc_TerminationMessagePolicy : string;
  cc_ImagePullPolicy : string;
  cc_SecurityContext : option json;
  cc_Stdin : bool;
  cc_StdinOnce : bool;
  cc_TTY : bool
}.

Record PodSpec := {
  ps_Volumes : list Volume;
  ps_InitContainers : list CoreContainer;
  ps_Containers : list CoreContainer;
  ps_EphemeralContainers : list json;
  ps_RestartPolicy : string;
  ps_TerminationGracePeriodSeconds : option Z;
  ps_ActiveDeadlineSeconds : option Z;
  ps_DNSPolicy : string;
  ps_NodeSelector : gomap string;
  ps_ServiceAccountName : string;
  ps_DeprecatedServiceAccount : string;
  ps_AutomountServiceAccountToken : option bool;
  ps_NodeName : string;
  ps_HostNetwork : bool;
  ps_HostPID : bool;
  ps_HostIPC : bool;
  ps_ShareProcessNamespace : option bool;
  ps_SecurityContext : option json;
  ps_ImagePullSecrets : list json;
  ps_Hostname : string;
  ps_Subdomain : string;
  ps_Affinity : option json;
  ps_SchedulerName : string;
  ps_Tolerations : list json;
  ps_HostAliases : list json;
  ps_PriorityClassName : string;
  ps_Priority : option Z;
  ps_DNSConfig : option json;
  ps_ReadinessGates : list json;
  ps_RuntimeClassName : option string;
  ps_EnableServiceLinks : option bool;
  ps_PreemptionPolicy : option string;
  ps_Overhead : json;
  ps_TopologySpreadConstraints : list json;
  ps_SetHostnameAsFQDN : option bool;
  ps_OS : option json;
  ps_HostUsers : option bool
}.

Record ContainerStatus := {
  cs_RestartCount : Z;
  cs_State_Running : option json
}.

Record PodStatus := {
  pst_Phase : string;
  pst_PodIP : string;
  pst_Conditions : list json;
  pst_ContainerStatuses : list ContainerStatus;
  pst_InitContainerStatuses : list ContainerStatus
}.

Definition empty_status : PodStatus :=
  {| pst_Phase := ""; pst_PodIP := ""; pst_Conditions := [];
     pst_ContainerStatuses := []; pst_InitContainerStatuses := [] |}.

Record Pod := {
  pod_APIVersion : string;
  pod_Kind : string;
  pod_Meta : ObjectMeta;
  pod_Spec : PodSpec;
  pod_Status : PodStatus
}.

Definition PodPending : string := "Pending".
Definition PodRunning : string := "Running".
Definition PodSucceeded : string := "Succeeded".
Definition PodFailed : string := "Failed".
Definition PodUnknown : string := "Unknown".

Definition RestartPolicyAlways : string := "Always".
Definition RestartPolicyOnFailure : string := "OnFailure".
Definition RestartPolicyNever : string := "Never".

Record Secret := { sec_Meta : ObjectMeta; sec_Data : gomap string }.

Record NamespaceObj := { ns_Meta : ObjectMeta }.

(** ** The Sidekick resource *)

Definition PodSelectionPolicyFirst : string := "First".
Definition PodSelectionPolicyLast : string := "Last".

Definition SideKickPhaseCurrent : string := "Current".
Definition SideKickPhaseFailed : string := "Failed".
Definition SidekickPhaseSucceeded : string := "Succeeded".
Definition SideKickPhasePending : string := "Pending".
Definition SideKickPhaseDegraded : string := "Degraded".

Record LeaderSpec := {
  ls_Name : string;
  ls_Selector : option LabelSelector;
  ls_SelectionPolicy : string
}.

Record VolumeMount := {
  vm_Name : string;
  vm_ReadOnly : bool;
  vm_MountPath : string;
  vm_SubPath : string;
  vm_MountPropagation : option string;
  vm_SubPathExpr : string
}.

Record Container := {
  c_Name : string;
  c_Image : string;
  c_Command : list string;
  c_Args : list string;
  c_WorkingDir : string;
  c_Ports : list json;
  c_EnvFrom : list json;
  c_Env : list EnvVar;
  c_Resources : json;
  c_VolumeMounts : list VolumeMount;
  c_VolumeDevices : list json;
  c_LivenessProbe : option json;
  c_ReadinessProbe : option json;
  c_StartupProbe : option json;
  c_Lifecycle : option json;
  c_TerminationMessagePath : string;
  c_TerminationMessagePolicy : string;
  c_ImagePullPolicy : string;
  c_SecurityContext : option json;
  c_Stdin : bool;
  c_StdinOnce : bool;
  c_TTY : bool
}.

Record SidekickSpec := {
  sp_Leader : LeaderSpec;
  sp_InitContainers : list Container;
  sp_Containers : list Container;
  sp_EphemeralContainers : list json;
  sp_RestartPolicy : string;
  sp_BackoffLimit : option Z;
  sp_TerminationGracePeriodSeconds : option Z;
  sp_ActiveDeadlineSeconds : option Z;
  sp_DNSPolicy : string;
  sp_NodeSelector : gomap string;
  sp_ServiceAccountName : string;
  sp_DeprecatedServiceAccount : string;
  sp_AutomountServiceAccountToken : option bool;
  sp_NodeName : string;
  sp_HostNetwork : bool;
  sp_HostPID : bool;
  sp_HostIPC : bool;
  sp_ShareProcessNamespace : option bool;
  sp_SecurityContext : option json;
  sp_ImagePullSecrets : list json;
  sp_Hostname : string;
  sp_Subdomain : string;
  sp_Affinity : option json;
  sp_SchedulerName : string;
  sp_Tolerations : list json;
  sp_HostAliases : list json;
  sp_PriorityClassName : string;
  sp_Priority : option Z;
  sp_DNSConfig : option json;
  sp_ReadinessGates : list json;
  sp_RuntimeClassName : option string;
  sp_EnableServiceLinks : option bool;
  sp_PreemptionPolicy : option string;
  sp_Overhead : json;
  sp_TopologySpreadConstraints : list json;
  sp_SetHostnameAsFQDN : option bool;
  sp_OS : option json;
  sp_HostUsers : option bool;
  sp_Volumes : list Volume;
  sp_Distributed : bool;
  sp_ExtraArgs : gomap json
}.

Record LeaderStatus := { lst_Name : string }.

Record SidekickStatus := {
  st_Leader : LeaderStatus;
  st_Pod : string;
  st_Phase : string;
  st_ObservedGeneration : Z;
  st_Conditions : list json;
  st_ContainerRestartCountsPerPod : gomap Z;
  st_FailureCount : gomap bool
}.

Record Sidekick := {
  sk_Meta : ObjectMeta;
  sk_Spec : SidekickSpec;
  sk_Status : SidekickStatus
}.

Definition set_sk_Meta (m : ObjectMeta) (s : Sidekick) : Sidekick :=
  {| sk_Meta := m; sk_Spec := sk_Spec s; sk_Status := sk_Status s |}.
Definition set_sk_Spec (sp : SidekickSpec) (s : Sidekick) : Sidekick :=
  {| sk_Meta := sk_Meta s; sk_Spec := sp; sk_Status := sk_Status s |}.
Definition set_sk_Status (st : SidekickStatus) (s : Sidekick) : Sidekick :=
  {| sk_Meta := sk_Meta s; sk_Spec := sk_Spec s; sk_Status := st |}.

Definition set_pod_Meta (m : ObjectMeta) (p : Pod) : Pod :=
  {| pod_APIVersion := pod_APIVersion p; pod_Kind := pod_Kind p; pod_Meta := m;
     pod_Spec := pod_Spec p; pod_Status := pod_Status p |}.
Definition set_pod_Status (st : PodStatus) (p : Pod) : Pod :=
  {| pod_APIVersion := pod_APIVersion p; pod_Kind := pod_Kind p; pod_Meta := pod_Meta p;
     pod_Spec := pod_Spec p; pod_Status := st |}.

(** [sidekick.Status.Leader.Name = n] and its siblings. *)
Definition set_Leader (n : string) (st : SidekickStatus) : SidekickStatus :=
  {| st_Leader := {| lst_Name := n |}; st_Pod := st_Pod st; st_Phase := st_Phase st;
     st_ObservedGeneration := st_ObservedGeneration st; st_Conditions := st_Conditions st;
     st_ContainerRestartCountsPerPod := st_ContainerRestartCountsPerPod st;
     st_FailureCount := st_FailureCount st |}.
Definition set_Pod (p : string) (st : SidekickStatus) : SidekickStatus :=
  {| st_Leader := st_Leader st; st_Pod := p; st_Phase := st_Phase st;
     st_ObservedGeneration := st_ObservedGeneration st; st_Conditions := st_Conditions st;
     st_ContainerRestartCountsPerPod := st_ContainerRestartCountsPerPod st;
     st_FailureCount := st_FailureCount st |}.
Definition set_Phase (p : string) (st : SidekickStatus) : SidekickStatus :=
  {| st_Leader := st_Leader st; st_Pod := st_Pod st; st_Phase := p;
     st_ObservedGeneration := st_ObservedGeneration st; st_Conditions := st_Conditions st;
     st_ContainerRestartCountsPerPod := st_ContainerRestartCountsPerPod st;
     st_FailureCount := st_FailureCount st |}.
Definition set_ObservedGeneration (g : Z) (st : SidekickStatus) : SidekickStatus :=
  {| st_Leader := st_Leader st; st_Pod := st_Pod st; st_Phase := st_Phase st;
     st_ObservedGeneration := g; st_Conditions := st_Conditions st;
     st_ContainerRestartCountsPerPod := st_ContainerRestartCountsPerPod st;
     st_FailureCount := st_FailureCount st |}.
Definition set_RestartCounts (m : gomap Z) (st : SidekickStatus) : SidekickStatus :=
  {| st_Leader := st_Leader st; st_Pod := st_Pod st; st_Phase := st_Phase st;
     st_ObservedGeneration := st_ObservedGeneration st; st_Conditions := st_Conditions st;
     st_ContainerRestartCountsPerPod := m; st_FailureCount := st_FailureCount st |}.
Definition set_FailureCount (m : gomap bool) (st : SidekickStatus) : SidekickStatus :=
  {| st_Leader := st_Leader st; st_Pod := st_Pod st; st_Phase := st_Phase st;
     st_ObservedGeneration := st_ObservedGeneration st; st_Conditions := st_Conditions st;
     st_ContainerRestartCountsPerPod := st_ContainerRestartCountsPerPod st;
     st_FailureCount := m |}.

(** [sidekick.Status.f = v], with the rest of the object untouched. *)
Definition upd_status (f : SidekickStatus → SidekickStatus) (s : Sidekick) : Sidekick :=
  set_sk_Status (f (sk_Status s)) s.

Definition set_BackoffLimit (b : option Z) (sp : SidekickSpec) : SidekickSpec :=
  {| sp_Leader := sp_Leader sp; sp_InitContainers := sp_InitContainers sp;
     sp_Containers := sp_Containers sp; sp_EphemeralContainers := sp_EphemeralContainers sp;
     sp_RestartPolicy := sp_RestartPolicy sp; sp_BackoffLimit := b;
     sp_TerminationGracePeriodSeconds := sp_TerminationGracePeriodSeconds sp;
     sp_ActiveDeadlineSeconds := sp_ActiveDeadlineSeconds sp; sp_DNSPolicy := sp_DNSPolicy sp;
     sp_NodeSelector := sp_NodeSelector sp; sp_ServiceAccountName := sp_ServiceAccountName sp;
     sp_DeprecatedServiceAccount := sp_DeprecatedServiceAccount sp;
     sp_AutomountServiceAccountToken := sp_AutomountServiceAccountToken sp;
     sp_NodeName := sp_NodeName sp; sp_HostNetwork := sp_HostNetwork sp;
     sp_HostPID := sp_HostPID sp; sp_HostIPC := sp_HostIPC sp;
     sp_ShareProcessNamespace := sp_ShareProcessNamespace sp;
     sp_SecurityContext := sp_SecurityContext sp; sp_ImagePullSecrets := sp_ImagePullSecrets sp;
     sp_Hostname := sp_Hostname sp; sp_Subdomain := sp_Subdomain sp; sp_Affinity := sp_Affinity sp;
     sp_SchedulerName := sp_SchedulerName sp; sp_Tolerations := sp_Tolerations sp;
     sp_HostAliases := sp_HostAliases sp; sp_PriorityClassName := sp_PriorityClassName sp;
     sp_Priority := sp_Priority sp; sp_DNSConfig := sp_DNSConfig sp;
     sp_ReadinessGates := sp_ReadinessGates sp; sp_RuntimeClassName := sp_RuntimeClassName sp;
     sp_EnableServiceLinks := sp_EnableServiceLinks sp;
     sp_PreemptionPolicy := sp_PreemptionPolicy sp; sp_Overhead := sp_Overhead sp;
     sp_TopologySpreadConstraints := sp_TopologySpreadConstraints sp;
     sp_SetHostnameAsFQDN := sp_SetHostnameAsFQDN sp; sp_OS := sp_OS sp;
     sp_HostUsers := sp_HostUsers sp; sp_Volumes := sp_Volumes sp;
     sp_Distributed := sp_Distributed sp; sp_ExtraArgs := sp_ExtraArgs sp |}.

Definition set_Containers (cs : list Container) (sp : SidekickSpec) : SidekickSpec :=
  {| sp_Leader := sp_Leader sp; sp_InitContainers := sp_InitContainers sp;
     sp_Containers := cs; sp_EphemeralContainers := sp_EphemeralContainers sp;
     sp_RestartPolicy := sp_RestartPolicy sp; sp_BackoffLimit := sp_BackoffLimit sp;
     sp_TerminationGracePeriodSeconds := sp_TerminationGracePeriodSeconds sp;
     sp_ActiveDeadlineSeconds := sp_ActiveDeadlineSeconds sp; sp_DNSPolicy := sp_DNSPolicy sp;
     sp_NodeSelector := sp_NodeSelector sp; sp_ServiceAccountName := sp_ServiceAccountName sp;
     sp_DeprecatedServiceAccount := sp_DeprecatedServiceAccount sp;
     sp_AutomountServiceAccountToken := sp_AutomountServiceAccountToken sp;
     sp_NodeName := sp_NodeName sp; sp_HostNetwork := sp_HostNetwork sp;
     sp_HostPID := sp_HostPID sp; sp_HostIPC := sp_HostIPC sp;
     sp_ShareProcessNamespace := sp_ShareProcessNamespace sp;
     sp_SecurityContext := sp_SecurityContext sp; sp_ImagePullSecrets := sp_ImagePullSecrets sp;
     sp_Hostname := sp_Hostname sp; sp_Subdomain := sp_Subdomain sp; sp_Affinity := sp_Affinity sp;
     sp_SchedulerName := sp_SchedulerName sp; sp_Tolerations := sp_Tolerations sp;
     sp_HostAliases := sp_HostAliases sp; sp_PriorityClassName := sp_PriorityClassName sp;
     sp_Priority := sp_Priority sp; sp_DNSConfig := sp_DNSConfig sp;
     sp_ReadinessGates := sp_ReadinessGates sp; sp_RuntimeClassName := sp_RuntimeClassName sp;
     sp_EnableServiceLinks := sp_EnableServiceLinks sp;
     sp_PreemptionPolicy := sp_PreemptionPolicy sp; sp_Overhead := sp_Overhead sp;
     sp_TopologySpreadConstraints := sp_TopologySpreadConstraints sp;
     sp_SetHostnameAsFQDN := sp_SetHostnameAsFQDN sp; sp_OS := sp_OS sp;
     sp_HostUsers := sp_HostUsers sp; sp_Volumes := sp_Volumes sp;
     sp_Distributed := sp_Distributed sp; sp_ExtraArgs := sp_ExtraArgs sp |}.

Definition set_c_Env (e : list EnvVar) (c : Container) : Container :=
  {| c_Name := c_Name c; c_Image := c_Image c; c_Command := c_Command c; c_Args := c_Args c;
     c_WorkingDir := c_WorkingDir c; c_Ports := c_Ports c; c_EnvFrom := c_EnvFrom c; c_Env := e;
     c_Resources := c_Resources c; c_VolumeMounts := c_VolumeMounts c;
     c_VolumeDevices := c_VolumeDevices c; c_LivenessProbe := c_LivenessProbe c;
     c_ReadinessProbe := c_ReadinessProbe c; c_StartupProbe := c_StartupProbe c;
     c_Lifecycle := c_Lifecycle c; c_TerminationMessagePath := c_TerminationMessagePath c;
     c_TerminationMessagePolicy := c_TerminationMessagePolicy c;
     c_ImagePullPolicy := c_ImagePullPolicy c; c_SecurityContext := c_SecurityContext c;
     c_Stdin := c_Stdin c; c_StdinOnce := c_StdinOnce c; c_TTY := c_TTY c |}.

(** ** ManifestWork (open-cluster-management.io/api/work/v1) *)

(** A feedback value: its name and the two value representations the code
    reads. *)
Record FeedbackValue := {
  fb_Name : string;
  fb_String : option string;
  fb_JsonRaw : option string
}.
Record ManifestCondition := { mc_Values : list FeedbackValue }.

(** [runtime.RawExtension] holding a Pod: the object on the way out, its bytes
    on the way in. *)
Record RawExtension := { raw_Raw : string; raw_Object : option Pod }.

Record ManifestWork := {
  mw_Meta : ObjectMeta;
  (** [Spec.Workload.Manifests] *)
  mw_Manifests : list RawExtension;
  (** [Spec.ManifestConfigs] *)
  mw_ManifestConfigs : json;
  (** [Status.ResourceStatus.Manifests] *)
  mw_ResourceStatus : list ManifestCondition
}.

(** ** ServiceExport (kubeslice) *)

Record ServicePort := { sport_Name : string; sport_ContainerPort : Z; sport_Protocol : string }.

Record ServiceExport := {
  se_Meta : ObjectMeta;
  se_Slice : string;
  se_Selector : option LabelSelector;
  se_Aliases : list string;
  se_Ports : list ServicePort
}.

(** ** Snapshot (kubestash) *)

Record Log := { log_Start : option string; log_End : option string; log_Error : string }.

Record LogStats := {
  lg_Start : option string;
  lg_End : option string;
  lg_Lsn : option string;
  lg_TotalFailedCount : Z;
  lg_LastFailedStats : list Log;
  lg_TotalSucceededCount : Z;
  lg_LastSucceededStats : list Log;
  lg_LastLogRetentionStats : list json
}.

Definition empty_LogStats : LogStats :=
  {| lg_Start := None; lg_End := None; lg_Lsn := None; lg_TotalFailedCount := 0;
     lg_LastFailedStats := []; lg_TotalSucceededCount := 0; lg_LastSucceededStats := [];
     lg_LastLogRetentionStats := [] |}.

(** A component of a snapshot: its phase, its log statistics, and the rest. *)
Record Component := {
  comp_Phase : string;
  comp_LogStats : option LogStats;
  comp_Rest : json
}.
Definition empty_Component : Component :=
  {| comp_Phase := ""; comp_LogStats := None; comp_Rest := JNull |}.

Definition ComponentPhaseRunning : string := "Running".

Record SnapshotStatus := {
  sn_TotalComponents : Z;
  sn_Components : gomap Component;
  sn_StatusRest : json
}.

Record Snapshot := {
  snap_Meta : ObjectMeta;
  snap_SpecRest : json;
  snap_Status : SnapshotStatus
}.
