(* ===== verification/Cluster.v ===== *)
(** * The interface between the operator and its environment

    The operator talks to the API server through [client.Client] (whose reads
    are served by the informer cache) and through the OCM clientset, and to the
    process through the clock, the random source, the environment and one file.
    None of these is code of the repository: they are the operations [apiop] of
    the programs of the development, answered by an arbitrary environment.

    Nothing is assumed of the answers here. *)

From S2P Require Import Prelude Effects Types.

(** ** Kinds of objects *)

Inductive kind := KPod | KSidekick | KSecret | KManifestWork | KServiceExport | KSnapshot | KNamespace.

#[export] Instance kind_eq_dec : EqDecision kind.
Proof. solve_decision. Defined.

Definition obj (k : kind) : Type :=
  match k with
  | KPod => Pod
  | KSidekick => Sidekick
  | KSecret => Secret
  | KManifestWork => ManifestWork
  | KServiceExport => ServiceExport
  | KSnapshot => Snapshot
  | KNamespace => NamespaceObj
  end.

Definition obj_meta {k : kind} : obj k → ObjectMeta :=
  match k return obj k → ObjectMeta with
  | KPod => pod_Meta
  | KSidekick => sk_Meta
  | KSecret => sec_Meta
  | KManifestWork => mw_Meta
  | KServiceExport => se_Meta
  | KSnapshot => snap_Meta
  | KNamespace => ns_Meta
  end.

Definition obj_set_meta {k : kind} : ObjectMeta → obj k → obj k :=
  match k return ObjectMeta → obj k → obj k with
  | KPod => set_pod_Meta
  | KSidekick => set_sk_Meta
  | KSecret => λ m o, {| sec_Meta := m; sec_Data := sec_Data o |}
  | KManifestWork => λ m o,
      {| mw_Meta := m; mw_Manifests := mw_Manifests o;
         mw_ManifestConfigs := mw_ManifestConfigs o; mw_ResourceStatus := mw_ResourceStatus o |}
  | KServiceExport => λ m o,
      {| se_Meta := m; se_Slice := se_Slice o; se_Selector := se_Selector o;
         se_Aliases := se_Aliases o; se_Ports := se_Ports o |}
  | KSnapshot => λ m o,
      {| snap_Meta := m; snap_SpecRest := snap_SpecRest o; snap_Status := snap_Status o |}
  | KNamespace => λ m _, {| ns_Meta := m |}
  end.

Definition obj_key {k : kind} (o : obj k) : NamespacedName := meta_key (obj_meta o).

(** The status subresource of an object, where the kind has one. *)
Definition obj_set_status {k : kind} : obj k → obj k → obj k :=
  match k return obj k → obj k → obj k with
  | KPod => λ src o, set_pod_Status (pod_Status src) o
  | KSidekick => λ src o, set_sk_Status (sk_Status src) o
  | KSnapshot => λ src o,
      {| snap_Meta := snap_Meta o; snap_SpecRest := snap_SpecRest o;
         snap_Status := snap_Status src |}
  | KManifestWork => λ src o,
      {| mw_Meta := mw_Meta o; mw_Manifests := mw_Manifests o;
         mw_ManifestConfigs := mw_ManifestConfigs o;
         mw_ResourceStatus := mw_ResourceStatus src |}
  | _ => λ _ o, o
  end.

(** ** Operations and answers *)

(** [OpPatch k cur md] is [c.Patch(ctx, md, MergeFrom(cur))]: the difference
    between [cur] and [md] is sent and the response decoded into [md]; the
    answer is the decoded object.  [OpStatusPatch] and [OpStatusUpdate] go to the
    status subresource.  [OpOCMGet]/[OpOCMList] are the uncached OCM clientset. *)
Inductive apiop :=
| OpGet (k : kind) (key : NamespacedName)
| OpList (k : kind) (ns : option string) (sel : option LabelSelector)
| OpCreate (k : kind) (o : obj k)
| OpPatch (k : kind) (cur md : obj k)
| OpStatusPatch (k : kind) (cur md : obj k)
| OpStatusUpdate (k : kind) (o : obj k)
| OpDelete (k : kind) (key : NamespacedName)
| OpOCMGet (ns name : string)
| OpOCMList (ns : string) (labelSelector : string)
| OpNow
| OpRand (n : nat)
| OpGetenv (name : string)
| OpReadFile (path : string).

Definition answer (op : apiop) : Type :=
  match op with
  | OpGet k _ => res (obj k)
  | OpList k _ _ => res (list (obj k))
  | OpCreate k _ => res (obj k)
  | OpPatch k _ _ => res (obj k)
  | OpStatusPatch k _ _ => res (obj k)
  | OpStatusUpdate k _ => res (obj k)
  | OpDelete _ _ => res unit
  | OpOCMGet _ _ => res ManifestWork
  | OpOCMList _ _ => res (list ManifestWork)
  | OpNow => Z
  | OpRand _ => res string
  | OpGetenv _ => string
  | OpReadFile _ => res string
  end.

Abbreviation M := (prog answer).
Abbreviation apievent := (event answer).

(** A call that changes the cluster. *)
Definition is_write (e : apievent) : bool :=
  match e with
  | Ev op _ =>
      match op with
      | OpCreate _ _ | OpPatch _ _ _ | OpStatusPatch _ _ _ | OpStatusUpdate _ _
      | OpDelete _ _ => true
      | _ => false
      end
  end.

Definition is_create (k : kind) (e : apievent) : bool :=
  match e with Ev op _ => match op with OpCreate k' _ => bool_decide (k = k') | _ => false end end.

Definition is_delete (k : kind) (e : apievent) : bool :=
  match e with Ev op _ => match op with OpDelete k' _ => bool_decide (k = k') | _ => false end end.

Definition as_pod {k : kind} : obj k → option Pod :=
  match k return obj k → option Pod with KPod => Some | _ => λ _, None end.
Definition as_sidekick {k : kind} : obj k → option Sidekick :=
  match k return obj k → option Sidekick with KSidekick => Some | _ => λ _, None end.
Definition as_snapshot {k : kind} : obj k → option Snapshot :=
  match k return obj k → option Snapshot with KSnapshot => Some | _ => λ _, None end.
Definition as_secret {k : kind} : obj k → option Secret :=
  match k return obj k → option Secret with KSecret => Some | _ => λ _, None end.

Definition as_work {k : kind} : obj k → option ManifestWork :=
  match k return obj k → option ManifestWork with KManifestWork => Some | _ => λ _, None end.

(** The ManifestWork a successful create or patch sent. *)
Definition written_work (e : apievent) : option ManifestWork :=
  match e with
  | Ev op r =>
      match op return answer op → option ManifestWork with
      | OpPatch k _ md => λ r, match r with Ok _ => as_work md | Err _ => None end
      | OpCreate k md => λ r, match r with Ok _ => as_work md | Err _ => None end
      | _ => λ _, None
      end r
  end.

(** The pod a successful create or patch sent. *)
Definition written_pod (e : apievent) : option Pod :=
  match e with
  | Ev op r =>
      match op return answer op → option Pod with
      | OpPatch k _ md => λ r, match r with Ok _ => as_pod md | Err _ => None end
      | OpCreate k md => λ r, match r with Ok _ => as_pod md | Err _ => None end
      | _ => λ _, None
      end r
  end.

(** The pods a list call returned. *)
Definition listed_pods (e : apievent) : option (list Pod) :=
  match e with
  | Ev op r =>
      match op return answer op → option (list Pod) with
      | OpList KPod _ _ => λ r, match r with Ok l => Some l | Err _ => None end
      | _ => λ _, None
      end r
  end.

(** [if err := ...; err != nil { return err }]. *)
Definition try {A B} (p : M (res A)) (f : A → M (res B)) : M (res B) :=
  r ← p; match r with Ok a => f a | Err e => mret (Err e) end.

(** [m[k] = v]: panics on a nil map. *)
Definition gm_write {A} (m : gomap A) (k : string) (v : A) : M (gomap A) :=
  match m with
  | Some m => mret (Some (<[k := v]> m))
  | None => Panic "assignment to entry in nil map"
  end.
