(* ===== verification/Kmodules.v ===== *)
(** * The kmodules client helpers

    [vendor/kmodules.xyz/client-go]: create-or-patch, status patch, finalizers,
    the generation hash and the volume upsert, on top of the calls of
    [Cluster.v]. *)

From S2P Require Import Prelude Effects Types Cluster.

(** ** client/client.go *)

(** [CreateOrPatchE]: a miss creates the transformed argument, a hit patches the
    transformed current object; on success the argument is overwritten with the
    server's answer ([assign]), on failure it is left alone. *)
Definition CreateOrPatch (k : kind) (o : obj k) (transform : obj k → bool → obj k)
    : M (obj k * option error) :=
  r ← call (OpGet k (obj_key o));
  match r with
  | Err e =>
      if IsNotFound e then
        let md := transform o true in
        r ← call (OpCreate k md);
        match r with
        | Ok md' => mret (md', None)
        | Err e' => mret (o, Some e')
        end
      else mret (o, Some e)
  | Ok cur =>
      let md := transform cur false in
      r ← call (OpPatch k cur md);
      match r with
      | Ok md' => mret (md', None)
      | Err e' => mret (o, Some e')
      end
  end.

(** [PatchStatusE]: never creates; patches the status subresource of the current
    object. *)
Definition PatchStatus (k : kind) (o : obj k) (transform : obj k → obj k)
    : M (obj k * option error) :=
  r ← call (OpGet k (obj_key o));
  match r with
  | Err e => mret (o, Some e)
  | Ok cur =>
      let md := transform cur in
      r ← call (OpStatusPatch k cur md);
      match r with
      | Ok md' => mret (md', None)
      | Err e => mret (o, Some e)
      end
  end.

(** ** core/v1/kubernetes.go *)

Definition HasFinalizer (m : ObjectMeta) (f : string) : bool :=
  existsb (String.eqb f) (Finalizers m).

Definition AddFinalizer (m : ObjectMeta) (f : string) : ObjectMeta :=
  if HasFinalizer m f then m else set_Finalizers (Finalizers m ++ [f]) m.

Definition RemoveFinalizer (m : ObjectMeta) (f : string) : ObjectMeta :=
  set_Finalizers (List.filter (λ n, negb (String.eqb n f)) (Finalizers m)) m.

(** [mergo.Merge(&dst, src, mergo.WithOverride)] on a volume: a reflective deep
    merge, taken as a parameter.  Documented: non-empty attributes of the source
    override those of the destination, so merging volumes of one name keeps the
    name. *)
Class Mergo := {
  Merge : Volume → Volume → Volume;
  Merge_Name : ∀ dst src, vol_Name dst = vol_Name src → vol_Name (Merge dst src) = vol_Name dst
}.

Section UpsertVolume.
Context `{Mergo}.

(** The closure [upsert]: merge into the first volume of that name, or append. *)
Fixpoint upsert (volumes : list Volume) (v : Volume) : list Volume :=
  match volumes with
  | [] => [v]
  | vol :: rest =>
      if String.eqb (vol_Name vol) (vol_Name v) then Merge vol v :: rest
      else vol :: upsert rest v
  end.

Definition UpsertVolume (volumes nv : list Volume) : list Volume :=
  fold_left upsert nv volumes.
End UpsertVolume.

(** ** meta/hash.go *)

Definition LastAppliedConfigAnnotation : string :=
  "kubectl.kubernetes.io/last-applied-configuration".

(** The object [GenerationHash] prints: the generation, the labels and the
    annotations but the last-applied one, the latter two only when non-empty. *)
Record HashView := {
  hv_generation : Z;
  hv_labels : option (gmap string string);
  hv_annotations : option (gmap string string)
}.

Definition generation_view (m : ObjectMeta) : HashView :=
  {| hv_generation := Generation m;
     hv_labels := non_empty (Labels m);
     hv_annotations := delete LastAppliedConfigAnnotation <$> non_empty (Annotations m) |}.

(** The xxh3 hash of the spew rendering, in decimal: any function of the view. *)
Class ObjectHasher := { xxh3_spew : HashView → string }.

Definition GenerationHash `{ObjectHasher} (m : ObjectMeta) : string :=
  xxh3_spew (generation_view m).

(** [AlreadyReconciled] on a typed Sidekick. *)
Definition AlreadyReconciled (s : Sidekick) : bool :=
  st_ObservedGeneration (sk_Status s) =? Generation (sk_Meta s).

(** ** apimachinery metav1.NewControllerRef *)

Definition NewControllerRef (m : ObjectMeta) (apiVersion kind : string) : OwnerReference :=
  {| or_APIVersion := apiVersion; or_Kind := kind; or_Name := Name m; or_UID := UID m;
     or_Controller := Some true; or_BlockOwnerDeletion := Some true |}.

(** * Lemmas *)

Lemma HasFinalizer_spec m f : HasFinalizer m f = true ↔ f ∈ Finalizers m.
Proof.
  unfold HasFinalizer. rewrite existsb_exists. split.
  - intros (g & Hg & E). apply String.eqb_eq in E as <-. by apply list_elem_of_In.
  - intros Hf. exists f. split; [by apply list_elem_of_In|apply String.eqb_refl].
Qed.

Lemma AddFinalizer_has m f : HasFinalizer (AddFinalizer m f) f = true.
Proof.
  unfold AddFinalizer. destruct (HasFinalizer m f) eqn:E; [done|].
  apply HasFinalizer_spec. simpl. set_solver.
Qed.

Lemma RemoveFinalizer_elem m f g :
  g ∈ Finalizers (RemoveFinalizer m f) ↔ g ∈ Finalizers m ∧ g ≠ f.
Proof.
  simpl. rewrite !list_elem_of_In, filter_In, negb_true_iff, String.eqb_neq. done.
Qed.

Lemma upsert_names `{Mergo} vols v :
  ∀ n, n ∈ map vol_Name (upsert vols v) ↔ n ∈ map vol_Name vols ∨ n = vol_Name v.
Proof.
  induction vols as [|x xs IH]; intros n; simpl; [set_solver|].
  destruct (String.eqb_spec (vol_Name x) (vol_Name v)) as [E|E]; simpl.
  - rewrite Merge_Name by done. set_solver.
  - rewrite !elem_of_cons, IH. tauto.
Qed.

(** After an upsert the names are those of both lists. *)
Lemma UpsertVolume_names `{Mergo} vols nv :
  ∀ n, n ∈ map vol_Name (UpsertVolume vols nv) ↔ n ∈ map vol_Name vols ∨ n ∈ map vol_Name nv.
Proof.
  unfold UpsertVolume. revert vols. induction nv as [|v nv IH]; intros vols n; simpl; [set_solver|].
  rewrite IH, upsert_names. set_solver.
Qed.

Lemma upsert_NoDup `{Mergo} vols v :
  NoDup (map vol_Name vols) → NoDup (map vol_Name (upsert vols v)).
Proof.
  induction vols as [|x xs IH]; simpl; intros Hnd; [by apply NoDup_singleton|].
  apply NoDup_cons in Hnd as [Hx Hnd].
  destruct (String.eqb_spec (vol_Name x) (vol_Name v)) as [E|E]; simpl.
  - rewrite Merge_Name by done. by apply NoDup_cons.
  - apply NoDup_cons. split; [|auto]. rewrite upsert_names. intros [?|?]; [done|]. congruence.
Qed.

Lemma UpsertVolume_NoDup `{Mergo} vols nv :
  NoDup (map vol_Name vols) → NoDup (map vol_Name (UpsertVolume vols nv)).
Proof.
  unfold UpsertVolume. revert vols. induction nv as [|v nv IH]; intros vols Hnd; simpl; [done|].
  by apply IH, upsert_NoDup.
Qed.

#[export] Hint Resolve AddFinalizer_has UpsertVolume_NoDup : sidekick.
