(* ===== verification/Leader.v ===== *)
(** * Leader selection ([sidekick_controller.go], [getLeader])

    The leader of a Sidekick is the pod it names, or the first or last Running
    pod its selector matches, in the order of the ordinals of their names. *)

From S2P Require Import Prelude Effects GoStd Types Cluster.

(** [metav1.LabelSelectorAsSelector] of the vendored apimachinery, as far as the
    operator can tell: it rejects the selector or the selector is used. *)
Class LabelSelectors := { selector_error : LabelSelector → option error }.

Definition LabelSelectorAsSelector `{LabelSelectors} (s : LabelSelector) : res LabelSelector :=
  match selector_error s with Some e => Err e | None => Ok s end.

(** The [less] function both reconcilers pass to [sort.Slice], on names. *)
Definition leader_less (ni nj : string) : bool :=
  match Regexp.FindStringSubmatch ni, Regexp.FindStringSubmatch nj with
  | Some oi, Some oj => Strconv.Atoi oi <? Strconv.Atoi oj
  | _, _ => String.ltb ni nj
  end.

Definition pod_less (p q : Pod) : bool := leader_less (Name (pod_Meta p)) (Name (pod_Meta q)).

Definition pod_running (p : Pod) : bool := String.eqb (pst_Phase (pod_Status p)) PodRunning.

(** [leaders[0]] under policy First, [leaders[len(leaders)-1]] otherwise; an
    index out of range panics. *)
Definition pick_leader (policy : string) (leaders : list Pod) : M (res Pod) :=
  match (if String.eqb policy PodSelectionPolicyFirst then head leaders else last leaders) with
  | Some p => mret (Ok p)
  | None => Panic "index out of range"
  end.

Section Leader.
Context `{SortSlice} `{LabelSelectors}.

(** The tail of [getLeader], from the listed candidates on. *)
Definition select_leader (policy : string) (items : list Pod) : M (res Pod) :=
  let leaders := List.filter pod_running items in
  match leaders with
  | [] => mret (Err (NewNotFound "pods" ""))
  | [p] => mret (Ok p)
  | _ => pick_leader policy (sort_slice pod_less leaders)
  end.

Definition getLeader (sidekick : Sidekick) : M (res Pod) :=
  let ldr := sp_Leader (sk_Spec sidekick) in
  let ns := Namespace (sk_Meta sidekick) in
  if negb (String.eqb (ls_Name ldr) "") then
    call (OpGet KPod (mkKey ns (ls_Name ldr)))
  else
    match (match ls_Selector ldr with
           | Some s => match LabelSelectorAsSelector s with Ok s => Ok (Some s) | Err e => Err e end
           | None => Ok None
           end) with
    | Err e => mret (Err e)
    | Ok sel =>
        r ← call (OpList KPod (Some ns) sel);
        match r with
        | Err e => mret (Err e)
        | Ok items => select_leader (ls_SelectionPolicy ldr) items
        end
    end.
End Leader.

(** The ordinal of a pod name, when it has one. *)
Definition ordinal (n : string) : option Z := Strconv.Atoi <$> Regexp.FindStringSubmatch n.

Definition pod_ordinal (p : Pod) : option Z := ordinal (Name (pod_Meta p)).

(** Every Running candidate carries an ordinal. *)
Definition all_ordinals (l : list Pod) : Prop := ∀ p, p ∈ l → is_Some (pod_ordinal p).

(** * Lemmas *)

Lemma pod_less_ordinal p q i j :
  pod_ordinal p = Some i → pod_ordinal q = Some j → pod_less p q = (i <? j).
Proof.
  unfold pod_ordinal, ordinal, pod_less, leader_less. intros Hp Hq.
  destruct (Regexp.FindStringSubmatch (Name (pod_Meta p))); [|done].
  destruct (Regexp.FindStringSubmatch (Name (pod_Meta q))); [|done].
  simpl in *. by simplify_eq.
Qed.

(** On names with ordinals the comparison is a strict weak ordering. *)
Lemma pod_less_strict_weak l : all_ordinals l → strict_weak_on pod_less l.
Proof.
  intros Hall. split; [|split].
  - intros x [i Hi]%Hall. erewrite pod_less_ordinal by eauto. lia.
  - intros x y [i Hi]%Hall [j Hj]%Hall.
    rewrite (pod_less_ordinal x y i j), (pod_less_ordinal y x j i) by done. lia.
  - intros x y z [i Hi]%Hall [j Hj]%Hall [k Hk]%Hall.
    rewrite (pod_less_ordinal x y i j), (pod_less_ordinal y z j k),
      (pod_less_ordinal x z i k) by done. lia.
Qed.

Lemma sorted_head_least {A} (less : A → A → bool) (l : list A) x :
  sorted_by less l → head l = Some x → ∀ y, y ∈ l → y = x ∨ less y x = false.
Proof.
  intros Hs Hh y Hy. destruct l as [|a l]; [done|]. simplify_eq/=.
  apply StronglySorted_inv in Hs as [_ Hf]. apply elem_of_cons in Hy as [->|Hy]; [by left|].
  right. rewrite Forall_forall in Hf. auto.
Qed.

Lemma sorted_last_greatest {A} (less : A → A → bool) (l : list A) x :
  sorted_by less l → last l = Some x → ∀ y, y ∈ l → y = x ∨ less x y = false.
Proof.
  intros Hs Hl y Hy. apply last_Some in Hl as [l' ->].
  apply elem_of_app in Hy as [Hy|Hy%list_elem_of_singleton]; [|by left].
  right. induction l' as [|a l' IH]; [by apply elem_of_nil in Hy|]. simpl in Hs.
  apply StronglySorted_inv in Hs as [Hs Hf]. apply elem_of_cons in Hy as [->|Hy]; [|auto].
  rewrite Forall_forall in Hf. apply Hf. set_solver.
Qed.

(** The chosen pod is the least (First) or greatest (otherwise) of the sorted
    leaders, and it exists. *)
Definition best_by (policy : string) (l : list Pod) (p : Pod) : Prop :=
  p ∈ l ∧ ∀ q, q ∈ l →
    q = p ∨ (if String.eqb policy PodSelectionPolicyFirst then pod_less q p else pod_less p q) = false.

Lemma pick_leader_total policy (l : list Pod) :
  l ≠ [] → ∃ p, p ∈ l ∧ pick_leader policy l = mret (Ok p).
Proof.
  intros Hne. unfold pick_leader. destruct (String.eqb policy PodSelectionPolicyFirst).
  - destruct l as [|p l]; [done|]. exists p. split; [left|done].
  - destruct (last l) as [p|] eqn:E; [|by apply last_None in E].
    exists p. split; [|done]. apply last_Some in E as [l' ->]. set_solver.
Qed.

Section LeaderLemmas.
Context `{SortSlice}.

Lemma elem_of_running p items :
  p ∈ List.filter pod_running items ↔ p ∈ items ∧ pst_Phase (pod_Status p) = PodRunning.
Proof. rewrite !list_elem_of_In, filter_In. unfold pod_running. by rewrite String.eqb_eq. Qed.

(** [select_leader] never panics: it is NotFound without Running candidates and
    one of them otherwise. *)
Lemma select_leader_cases policy items :
  (List.filter pod_running items = [] ∧
   select_leader policy items = mret (Err (NewNotFound "pods" ""))) ∨
  (∃ p, p ∈ List.filter pod_running items ∧ select_leader policy items = mret (Ok p)).
Proof.
  unfold select_leader. destruct (List.filter pod_running items) as [|p [|q l]] eqn:E.
  - by left.
  - right. exists p. split; [set_solver|done].
  - right. destruct (pick_leader_total policy (sort_slice pod_less (p :: q :: l))) as (x & Hx & ->).
    + intros Hnil. pose proof (sort_slice_perm pod_less (p :: q :: l)) as Hp.
      rewrite Hnil in Hp. by apply Permutation_nil in Hp.
    + exists x. split; [|done]. by rewrite <- (sort_slice_perm pod_less (p :: q :: l)).
Qed.

Lemma select_leader_best policy items p :
  all_ordinals (List.filter pod_running items) →
  select_leader policy items = mret (Ok p) →
  best_by policy (List.filter pod_running items) p.
Proof.
  unfold select_leader, best_by.
  destruct (List.filter pod_running items) as [|a [|b l]] eqn:E; intros Hall Hsel;
    [by inversion Hsel|inversion Hsel; subst; set_solver|].
  pose proof (sort_slice_perm pod_less (a :: b :: l)) as Hperm.
  pose proof (sort_slice_sorted pod_less (a :: b :: l) (pod_less_strict_weak _ Hall)) as Hsort.
  unfold pick_leader in Hsel. destruct (String.eqb policy PodSelectionPolicyFirst).
  - destruct (head _) as [x|] eqn:Eh; inversion Hsel; subst. split.
    + rewrite <- Hperm. destruct (sort_slice _ _); [done|]. simplify_eq/=. left.
    + intros q Hq. rewrite <- Hperm in Hq. by eapply sorted_head_least.
  - destruct (last _) as [x|] eqn:El; inversion Hsel; subst. split.
    + rewrite <- Hperm. apply last_Some in El as [l' ->]. set_solver.
    + intros q Hq. rewrite <- Hperm in Hq. by eapply sorted_last_greatest.
Qed.

Lemma filter_perm (l l' : list Pod) :
  Permutation l l' → Permutation (List.filter pod_running l) (List.filter pod_running l').
Proof.
  induction 1; simpl; [done| | |by etrans]; repeat case_match; try done; by constructor.
Qed.
End LeaderLemmas.

(** ** The regular expression on StatefulSet pod names *)

Lemma take_digits_app d rest :
  str_forallb is_digit d = true →
  Regexp.take_digits (d +:+ rest) = d +:+ Regexp.take_digits rest.
Proof.
  induction d as [|c d IH]; [done|]. simpl. intros [Hc Hd]%andb_true_iff.
  rewrite !str_app_cons. simpl. by rewrite Hc, IH.
Qed.

Lemma digit_not_dash c : is_digit c = true → Ascii.eqb c dash = false.
Proof. intros Hc. destruct (Ascii.eqb_spec c dash) as [->|]; done. Qed.

Lemma match_here_digits d rest :
  str_forallb is_digit d = true → Regexp.match_here rest = None →
  Regexp.match_here (d +:+ rest) = None.
Proof.
  intros Hd Hr. induction d as [|c d IH]; [done|]. rewrite str_app_cons. simpl in *.
  apply andb_true_iff in Hd as [Hc Hd]. rewrite IH, digit_not_dash by done.
  by destruct (Ascii.eqb c newline).
Qed.

(** [rest] neither continues the digits nor holds a later match. *)
Lemma match_here_last pre d rest :
  str_free newline pre = true → str_forallb is_digit d = true → d ≠ "" →
  Regexp.take_digits rest = "" → Regexp.match_here rest = None →
  Regexp.match_here (pre +:+ "-" +:+ d +:+ rest) = Some d.
Proof.
  intros Hpre Hd Hne Htd Hr. induction pre as [|c pre IH].
  - change ("" +:+ "-" +:+ d +:+ rest) with (String dash (d +:+ rest)).
    cbn [Regexp.match_here]. rewrite match_here_digits by done. simpl.
    rewrite take_digits_app, Htd by done. rewrite str_app_nil_r. by destruct d.
  - unfold str_free in Hpre. simpl in Hpre. apply andb_true_iff in Hpre as [Hc Hpre].
    apply negb_true_iff in Hc. change (String c pre +:+ "-" +:+ d +:+ rest)
      with (String c (pre +:+ "-" +:+ d +:+ rest)).
    cbn [Regexp.match_here]. by rewrite Hc, (IH Hpre).
Qed.

Lemma FindStringSubmatch_last pre d rest :
  str_free newline pre = true → str_forallb is_digit d = true → d ≠ "" →
  Regexp.take_digits rest = "" → Regexp.match_here rest = None →
  Regexp.FindStringSubmatch (pre +:+ "-" +:+ d +:+ rest) = Some d.
Proof.
  intros. pose proof (match_here_last pre d rest) as Hm.
  destruct (pre +:+ "-" +:+ d +:+ rest); cbn [Regexp.FindStringSubmatch]; by rewrite Hm.
Qed.

(** * Properties *)

Section Properties.
Context `{SortSlice} `{LabelSelectors}.

(** A leader elected by selector is one of the listed pods of the Sidekick's
    namespace and is Running: in every execution of [getLeader] that returns a
    pod, exactly one list call was made and the pod is a Running element of its
    answer. *)
Theorem getLeader_running sk tr p :
  ls_Name (sp_Leader (sk_Spec sk)) = "" →
  exec (getLeader sk) tr (Returned (Ok p)) →
  ∃ sel items,
    tr = [Ev (OpList KPod (Some (Namespace (sk_Meta sk))) sel) (Ok items)] ∧
    p ∈ items ∧ pst_Phase (pod_Status p) = PodRunning.
Proof.
  intros Hn. revert tr.
  enough (wp (getLeader sk) (λ tr o, o = Returned (Ok p) → ∃ sel items,
    tr = [Ev (OpList KPod (Some (Namespace (sk_Meta sk))) sel) (Ok items)] ∧
    p ∈ items ∧ pst_Phase (pod_Status p) = PodRunning)) as Hwp.
  { intros tr He. by apply (proj1 (wp_exec _ _) Hwp tr _ He). }
  unfold getLeader. rewrite Hn. simpl.
  destruct (match ls_Selector _ with Some _ => _ | None => _ end) as [sel|e]; [|by intros].
  intros [items|e]; [|by intros]. cbv beta iota.
  destruct (select_leader_cases (ls_SelectionPolicy (sp_Leader (sk_Spec sk))) items)
    as [[_ ->]|(q & Hq & ->)]; simpl; intros Ho; [done|].
  simplify_eq. apply elem_of_running in Hq. eauto.
Qed.

(** [getLeader] by selector reports NotFound exactly when no listed pod is
    Running, and it never panics: both slice accesses are in range. *)
Theorem getLeader_not_found sk sel items o :
  ls_Name (sp_Leader (sk_Spec sk)) = "" →
  exec (getLeader sk)
    [Ev (OpList KPod (Some (Namespace (sk_Meta sk))) sel) (Ok items)] o →
  (o = Returned (Err (NewNotFound "pods" "")) ↔
     ∀ p, p ∈ items → pst_Phase (pod_Status p) ≠ PodRunning) ∧
  (∀ m, o ≠ Panicked m).
Proof.
  intros Hn. unfold getLeader. rewrite Hn. simpl.
  destruct (match ls_Selector _ with Some _ => _ | None => _ end) as [sel'|e];
    [|by intros [? _]%exec_inv].
  intros (r & tr' & Htr & Hx)%exec_inv. apply (f_equal (λ t, (t !! 0%nat ≫= listed_pods, tail t))) in Htr.
  destruct r as [items'|e]; [|done]. simpl in Htr. injection Htr as <- <-.
  cbv beta iota in Hx.
  destruct (select_leader_cases (ls_SelectionPolicy (sp_Leader (sk_Spec sk))) items)
    as [[Hnil E]|(q & Hq & E)]; rewrite E in Hx; apply exec_inv in Hx as [_ ->];
    (split; [|done]).
  - split; [|done]. intros _ p Hp Hr.
    assert (Hf : p ∈ List.filter pod_running items) by by apply elem_of_running.
    rewrite Hnil in Hf. by apply elem_of_nil in Hf.
  - split; [done|]. intros Hall. apply elem_of_running in Hq as [Hq Hr].
    by destruct (Hall q Hq).
Qed.
(** Among candidates that all carry ordinals, the elected leader has the
    smallest ordinal under policy First and the largest under any other. *)
Theorem select_leader_extremal policy items p :
  all_ordinals (List.filter pod_running items) →
  exec (select_leader policy items) [] (Returned (Ok p)) →
  ∃ i, pod_ordinal p = Some i ∧
    ∀ q j, q ∈ items → pst_Phase (pod_Status q) = PodRunning → pod_ordinal q = Some j →
      if String.eqb policy PodSelectionPolicyFirst then i ≤ j else j ≤ i.
Proof.
  intros Hall Hx.
  destruct (select_leader_cases policy items) as [[_ E]|(q & _ & E)];
    rewrite E in Hx; apply exec_inv in Hx as [_ Hx]; [done|]. simplify_eq.
  destruct (select_leader_best _ _ _ Hall E) as [Hin Hbest].
  destruct (Hall _ Hin) as [i Hi]. exists i. split; [done|]. intros r j Hr Hrun Hj.
  destruct (Hbest r) as [->|Hle]; [by apply elem_of_running|..];
    destruct (String.eqb policy PodSelectionPolicyFirst); simplify_eq; [lia..| |].
  - rewrite (pod_less_ordinal r q j i) in Hle by done. lia.
  - rewrite (pod_less_ordinal q r i j) in Hle by done. lia.
Qed.

(** When the Running candidates carry pairwise distinct ordinals, the choice
    does not depend on the order in which the server lists them, although
    [sort.Slice] is not stable. *)
Theorem select_leader_order_independent policy items items' p :
  all_ordinals (List.filter pod_running items) →
  (∀ a b, a ∈ List.filter pod_running items → b ∈ List.filter pod_running items →
     pod_ordinal a = pod_ordinal b → a = b) →
  Permutation items items' →
  select_leader policy items = mret (Ok p) → select_leader policy items' = mret (Ok p).
Proof.
  intros Hall Hinj Hperm Hsel. pose proof (filter_perm _ _ Hperm) as Hf.
  assert (Hall' : all_ordinals (List.filter pod_running items'))
    by (intros q Hq; apply Hall; by rewrite Hf).
  destruct (select_leader_best _ _ _ Hall Hsel) as [Hp Hbest].
  destruct (select_leader_cases policy items') as [[Hnil _]|(q & Hq & E)].
  { rewrite Hnil in Hf. apply Permutation_sym, Permutation_nil in Hf.
    rewrite Hf in Hp. by apply elem_of_nil in Hp. }
  rewrite E. do 2 f_equal. destruct (select_leader_best _ _ _ Hall' E) as [_ Hbest'].
  assert (Hq' : q ∈ List.filter pod_running items) by by rewrite Hf.
  destruct (Hall _ Hp) as [i Hi]. destruct (Hall _ Hq') as [j Hj].
  destruct (Hbest q Hq') as [->|Hle]; [done|].
  destruct (Hbest' p) as [->|Hle']; [by rewrite <- Hf|done|].
  apply Hinj; [done..|]. rewrite Hi, Hj. f_equal.
  destruct (String.eqb policy PodSelectionPolicyFirst);
    rewrite (pod_less_ordinal q p j i), (pod_less_ordinal p q i j) in * by done; lia.
Qed.
End Properties.

(** A StatefulSet pod name [<set>-<digits>] has as ordinal the value of its
    digits, clamped to the largest int64. *)
Theorem ordinal_of_statefulset_pod pre d :
  str_free newline pre = true → str_forallb is_digit d = true → d ≠ "" →
  ordinal (pre +:+ "-" +:+ d) = Some (Z.min (Strconv.digits_value 0 d) Strconv.max_int64).
Proof.
  intros Hp Hd Hne. unfold ordinal.
  rewrite <- (str_app_nil_r d) at 1. rewrite FindStringSubmatch_last by done.
  simpl. unfold Strconv.Atoi. rewrite Hd. apply String.eqb_neq in Hne. by rewrite Hne.
Qed.
