(* ===== verification/Fixtures.v ===== *)
(** * Concrete objects

    The objects on which the witnesses of the development evaluate its
    definitions, and concrete instances of its interfaces. *)

From S2P Require Import Prelude Effects GoStd Types Cluster Kmodules Leader.

Definition ex_PodSpec (node : string) (containers : list CoreContainer) (vols : list Volume)
    : PodSpec :=
  {| ps_Volumes := vols; ps_InitContainers := []; ps_Containers := containers;
     ps_EphemeralContainers := []; ps_RestartPolicy := "Always";
     ps_TerminationGracePeriodSeconds := None; ps_ActiveDeadlineSeconds := None;
     ps_DNSPolicy := ""; ps_NodeSelector := None; ps_ServiceAccountName := "";
     ps_DeprecatedServiceAccount := ""; ps_AutomountServiceAccountToken := None;
     ps_NodeName := node; ps_HostNetwork := false; ps_HostPID := false; ps_HostIPC := false;
     ps_ShareProcessNamespace := None; ps_SecurityContext := None; ps_ImagePullSecrets := [];
     ps_Hostname := ""; ps_Subdomain := ""; ps_Affinity := None; ps_SchedulerName := "";
     ps_Tolerations := []; ps_HostAliases := []; ps_PriorityClassName := "";
     ps_Priority := None; ps_DNSConfig := None; ps_ReadinessGates := [];
     ps_RuntimeClassName := None; ps_EnableServiceLinks := None; ps_PreemptionPolicy := None;
     ps_Overhead := JNull; ps_TopologySpreadConstraints := []; ps_SetHostnameAsFQDN := None;
     ps_OS := None; ps_HostUsers := None |}.

Definition ex_status (phase : string) : PodStatus :=
  {| pst_Phase := phase; pst_PodIP := ""; pst_Conditions := [];
     pst_ContainerStatuses := []; pst_InitContainerStatuses := [] |}.

Definition ex_meta (ns name uid : string) (fins : list string) (del : option Z)
    (annots : gomap string) : ObjectMeta :=
  {| Name := name; GenerateName := ""; Namespace := ns; UID := uid; Generation := 1;
     DeletionTimestamp := del; Labels := None; Annotations := annots; OwnerReferences := [];
     Finalizers := fins |}.

(** A pod of namespace [demo]. *)
Definition ex_pod (name phase node : string) : Pod :=
  {| pod_APIVersion := "v1"; pod_Kind := "Pod";
     pod_Meta := ex_meta "demo" name ("uid-" +:+ name) [] None None;
     pod_Spec := ex_PodSpec node [] []; pod_Status := ex_status phase |}.

Definition ex_Spec (leader : LeaderSpec) (policy : string) (limit : option Z)
    (containers : list Container) (distributed : bool) : SidekickSpec :=
  {| sp_Leader := leader; sp_InitContainers := []; sp_Containers := containers;
     sp_EphemeralContainers := []; sp_RestartPolicy := policy; sp_BackoffLimit := limit;
     sp_TerminationGracePeriodSeconds := None; sp_ActiveDeadlineSeconds := None;
     sp_DNSPolicy := ""; sp_NodeSelector := None; sp_ServiceAccountName := "";
     sp_DeprecatedServiceAccount := ""; sp_AutomountServiceAccountToken := None;
     sp_NodeName := ""; sp_HostNetwork := false; sp_HostPID := false; sp_HostIPC := false;
     sp_ShareProcessNamespace := None; sp_SecurityContext := None; sp_ImagePullSecrets := [];
     sp_Hostname := ""; sp_Subdomain := ""; sp_Affinity := None; sp_SchedulerName := "";
     sp_Tolerations := []; sp_HostAliases := []; sp_PriorityClassName := "";
     sp_Priority := None; sp_DNSConfig := None; sp_ReadinessGates := [];
     sp_RuntimeClassName := None; sp_EnableServiceLinks := None; sp_PreemptionPolicy := None;
     sp_Overhead := JNull; sp_TopologySpreadConstraints := []; sp_SetHostnameAsFQDN := None;
     sp_OS := None; sp_HostUsers := None; sp_Volumes := []; sp_Distributed := distributed;
     sp_ExtraArgs := None |}.

Definition empty_SidekickStatus : SidekickStatus :=
  {| st_Leader := {| lst_Name := "" |}; st_Pod := ""; st_Phase := "";
     st_ObservedGeneration := 0; st_Conditions := []; st_ContainerRestartCountsPerPod := None;
     st_FailureCount := None |}.

Definition ex_leader_sel : LeaderSpec :=
  {| ls_Name := ""; ls_Selector := Some {| MatchLabels := Some {[ "app" := "db" ]};
                                           MatchExpressions := [] |};
     ls_SelectionPolicy := "First" |}.

(** A Sidekick [demo/side] that follows the pods labelled [app=db]. *)
Definition ex_sidekick (policy : string) (limit : option Z) : Sidekick :=
  {| sk_Meta := ex_meta "demo" "side" "uid-side" [] None None;
     sk_Spec := ex_Spec ex_leader_sel policy limit [] false;
     sk_Status := empty_SidekickStatus |}.

(** Interfaces instantiated by concrete functions. *)
#[export] Instance ex_LabelSelectors : LabelSelectors := {| selector_error _ := None |}.

(** A concrete hash that distinguishes generations. *)
#[export] Instance ex_ObjectHasher : ObjectHasher :=
  {| xxh3_spew v := pretty (hv_generation v) +:+ "/"
       +:+ pretty (N.of_nat (size (default ∅ (hv_annotations v)))) |}.

(** The source wins. *)
#[export, refine] Instance ex_Mergo : Mergo :=
  {| Merge dst src := {| vol_Name := vol_Name dst; vol_Source := vol_Source src |} |}.
Proof. done. Defined.
