(* ===== verification/LeaderWitness.v ===== *)
(** * Concrete elections *)

From S2P Require Import Prelude Effects GoStd Types Cluster Leader Fixtures.
Import InsertionSort.

Definition ex_candidates : list Pod :=
  [ex_pod "db-2" "Running" "n2"; ex_pod "db-10" "Running" "n10"; ex_pod "db-0" "Pending" "n0"].

Definition ex_list_event (r : res (list Pod)) : apievent :=
  Ev (OpList KPod (Some "demo") (ls_Selector ex_leader_sel)) r.

Lemma getLeader_running_witness :
  ∃ sel items,
    [ex_list_event (Ok ex_candidates)] = [Ev (OpList KPod (Some "demo") sel) (Ok items)] ∧
    ex_pod "db-2" "Running" "n2" ∈ items ∧ pst_Phase (ex_status "Running") = PodRunning.
Proof.
  apply (getLeader_running (ex_sidekick "Always" None) [ex_list_event (Ok ex_candidates)]
           (ex_pod "db-2" "Running" "n2")).
  - reflexivity.
  - apply (exec_call (OpList KPod (Some "demo") (ls_Selector ex_leader_sel)) _ (Ok ex_candidates)).
    apply exec_ret.
Defined.

Lemma getLeader_not_found_witness :
  (Returned (A := res Pod) (Err (NewNotFound "pods" "")) =
     Returned (Err (NewNotFound "pods" "")) ↔
     ∀ p : Pod, p ∈ [ex_pod "db-0" "Pending" "n0"] → pst_Phase (pod_Status p) ≠ PodRunning) ∧
  (∀ m, Returned (A := res Pod) (Err (NewNotFound "pods" "")) ≠ Panicked m).
Proof.
  apply (getLeader_not_found (ex_sidekick "Always" None) (ls_Selector ex_leader_sel)
           [ex_pod "db-0" "Pending" "n0"] (Returned (Err (NewNotFound "pods" "")))).
  - reflexivity.
  - apply (exec_call (OpList KPod (Some "demo") (ls_Selector ex_leader_sel)) _
             (Ok [ex_pod "db-0" "Pending" "n0"])). apply exec_ret.
Defined.

Lemma ex_candidates_ordinals : all_ordinals (List.filter pod_running ex_candidates).
Proof.
  intros p Hp. apply list_elem_of_In in Hp. vm_compute in Hp.
  destruct Hp as [<-|[<-|[]]]; vm_compute; eauto.
Qed.

Lemma select_leader_extremal_witness :
  ∃ i, pod_ordinal (ex_pod "db-2" "Running" "n2") = Some i ∧
    ∀ q j, q ∈ ex_candidates → pst_Phase (pod_Status q) = PodRunning → pod_ordinal q = Some j →
      if String.eqb "First" PodSelectionPolicyFirst then i ≤ j else j ≤ i.
Proof.
  apply (select_leader_extremal "First" ex_candidates (ex_pod "db-2" "Running" "n2")).
  - apply ex_candidates_ordinals.
  - vm_compute. apply exec_ret.
Defined.

Lemma select_leader_order_independent_witness :
  select_leader "Last" (reverse ex_candidates) = mret (Ok (ex_pod "db-10" "Running" "n10")).
Proof.
  apply (select_leader_order_independent "Last" ex_candidates).
  - apply ex_candidates_ordinals.
  - intros a b Ha Hb. apply list_elem_of_In in Ha, Hb. vm_compute in Ha, Hb.
    destruct Ha as [<-|[<-|[]]], Hb as [<-|[<-|[]]]; vm_compute; congruence.
  - symmetry. apply reverse_Permutation.
  - vm_compute. reflexivity.
Defined.

Lemma ordinal_of_statefulset_pod_witness : ordinal "db-12" = Some 12.
Proof. apply (ordinal_of_statefulset_pod "db" "12"); vm_compute; congruence. Defined.

(** When names with and without ordinals mix, the comparison is cyclic and the
    elected leader depends on the order in which the server lists the pods: the
    same three Running pods, listed in two orders, elect different leaders. *)
Theorem leader_depends_on_listing_order :
  let a := ex_pod "a-2" "Running" "n" in
  let b := ex_pod "b" "Running" "n" in
  let c := ex_pod "c-1" "Running" "n" in
  (pod_less a b = true ∧ pod_less b c = true ∧ pod_less c a = true) ∧
  Permutation [a; b; c] [b; c; a] ∧
  select_leader "First" [a; b; c] = mret (Ok a) ∧
  select_leader "First" [b; c; a] = mret (Ok b).
Proof.
  split; [by vm_compute|]. split; [|by vm_compute].
  apply Permutation_cons_append.
Qed.
