(* ===== verification/Phase.v ===== *)
(** * Backoff accounting and the Sidekick phase ([sidekick.go], [pod.go])

    The status of a Sidekick counts, per pod it ever ran, the container restarts
    and whether the pod failed; the phase is computed from these counters, the
    restart policy, the backoff limit and the current pod. *)

From S2P Require Import Prelude Effects Types Cluster Kmodules.

(** ** Counters *)

(** [pod.go getContainerRestartCounts]: two loops over one int32 accumulator. *)
Definition getContainerRestartCounts (pod : Pod) : Z :=
  let add acc cs := wrap32 (acc + cs_RestartCount cs) in
  fold_left add (pst_InitContainerStatuses (pod_Status pod))
    (fold_left add (pst_ContainerStatuses (pod_Status pod)) 0).

(** A [for _, v := range m] loop: the entries in some order, folded from the
    left. *)
Definition range_fold {A B} (f : B → A → B) (b : B) (m : gomap A) : B :=
  fold_left (λ acc kv, f acc kv.2) (map_to_list (default ∅ m)) b.

Definition getFailureCountFromSidekickStatus (sidekick : Sidekick) : Z :=
  range_fold (λ (acc : Z) (val : bool), if val then wrap32 (acc + 1) else acc) 0
    (st_FailureCount (sk_Status sidekick)).

Definition getTotalContainerRestartCounts (sidekick : Sidekick) : Z :=
  range_fold (λ (acc value : Z), wrap32 (acc + value)) 0
    (st_ContainerRestartCountsPerPod (sk_Status sidekick)).

(** Also defaults a nil [Spec.BackoffLimit] of the in-memory object to 0. *)
Definition getTotalBackOffCounts (sidekick : Sidekick) : Z * Sidekick :=
  let failureCount := getFailureCountFromSidekickStatus sidekick in
  let totalContainerRestartCount := getTotalContainerRestartCounts sidekick in
  let sidekick :=
    match sp_BackoffLimit (sk_Spec sidekick) with
    | None => set_sk_Spec (set_BackoffLimit (Some 0) (sk_Spec sidekick)) sidekick
    | Some _ => sidekick
    end in
  (wrap32 (failureCount + totalContainerRestartCount), sidekick).

(** [getTotalBackOffCounts(sidekick) > *sidekick.Spec.BackoffLimit]: the call is
    evaluated first and has made the pointer non-nil. *)
Definition over_limit (sidekick : Sidekick) : bool * Sidekick :=
  let '(total, sidekick) := getTotalBackOffCounts sidekick in
  (default 0 (sp_BackoffLimit (sk_Spec sidekick)) <? total, sidekick).

(** ** Phase *)

Definition zero_PodSpec : PodSpec :=
  {| ps_Volumes := []; ps_InitContainers := []; ps_Containers := [];
     ps_EphemeralContainers := []; ps_RestartPolicy := "";
     ps_TerminationGracePeriodSeconds := None; ps_ActiveDeadlineSeconds := None;
     ps_DNSPolicy := ""; ps_NodeSelector := None; ps_ServiceAccountName := "";
     ps_DeprecatedServiceAccount := ""; ps_AutomountServiceAccountToken := None;
     ps_NodeName := ""; ps_HostNetwork := false; ps_HostPID := false; ps_HostIPC := false;
     ps_ShareProcessNamespace := None; ps_SecurityContext := None; ps_ImagePullSecrets := [];
     ps_Hostname := ""; ps_Subdomain := ""; ps_Affinity := None; ps_SchedulerName := "";
     ps_Tolerations := []; ps_HostAliases := []; ps_PriorityClassName := "";
     ps_Priority := None; ps_DNSConfig := None; ps_ReadinessGates := [];
     ps_RuntimeClassName := None; ps_EnableServiceLinks := None; ps_PreemptionPolicy := None;
     ps_Overhead := JNull; ps_TopologySpreadConstraints := []; ps_SetHostnameAsFQDN := None;
     ps_OS := None; ps_HostUsers := None |}.

(** [var pod corev1.Pod]. *)
Definition zero_Pod : Pod :=
  {| pod_APIVersion := ""; pod_Kind := ""; pod_Meta := empty_meta; pod_Spec := zero_PodSpec;
     pod_Status := empty_status |}.

Definition isSidekickPodRunning (pod : option Pod) : bool :=
  match pod with
  | None => false
  | Some pod =>
      if String.eqb (UID (pod_Meta pod)) "" ||
         bool_decide (is_Some (DeletionTimestamp (pod_Meta pod))) then false
      else if negb (String.eqb (pst_Phase (pod_Status pod)) PodRunning) then false
      else forallb (λ cs, bool_decide (is_Some (cs_State_Running cs)))
             (pst_ContainerStatuses (pod_Status pod))
  end.

Definition getSidekickPhase (sidekick : Sidekick) (pod : option Pod) : string * Sidekick :=
  let degraded_or_current :=
    if negb (isSidekickPodRunning pod) then SideKickPhaseDegraded else SideKickPhaseCurrent in
  if String.eqb (sp_RestartPolicy (sk_Spec sidekick)) RestartPolicyAlways then
    (degraded_or_current, sidekick)
  else if String.eqb (st_Phase (sk_Status sidekick)) SidekickPhaseSucceeded then
    (SidekickPhaseSucceeded, sidekick)
  else if match pod with
          | Some pod => String.eqb (pst_Phase (pod_Status pod)) PodSucceeded &&
                        bool_decide (DeletionTimestamp (pod_Meta pod) = None)
          | None => false
          end then
    (SidekickPhaseSucceeded, sidekick)
  else
    let '(over, sidekick) := over_limit sidekick in
    if over then (SideKickPhaseFailed, sidekick) else (degraded_or_current, sidekick).

(** ** Status updates *)

Definition updateSidekickStatus (sidekick : Sidekick) : M (Sidekick * option error) :=
  PatchStatus KSidekick sidekick (λ sk, set_sk_Status (sk_Status sidekick) sk).

(** [if m == nil { m = make(...) }] for both counters. *)
Definition init_counters (sidekick : Sidekick) : Sidekick :=
  upd_status (λ st, set_FailureCount (gm_make (st_FailureCount st))
    (set_RestartCounts (gm_make (st_ContainerRestartCountsPerPod st)) st)) sidekick.

Definition put_failure (uid : string) (b : bool) (sidekick : Sidekick) : Sidekick :=
  upd_status (λ st, set_FailureCount
    ((λ m, <[uid := b]> m) <$> st_FailureCount st) st) sidekick.

Definition put_restarts (uid : string) (n : Z) (sidekick : Sidekick) : Sidekick :=
  upd_status (λ st, set_RestartCounts
    ((λ m, <[uid := n]> m) <$> st_ContainerRestartCountsPerPod st) st) sidekick.

(** The [if err == nil] block of [calculateSidekickPhase]: the counters of the
    existing pod.  Both maps are non-nil here. *)
Definition observe_pod (pod : Pod) (sidekick : Sidekick) : Sidekick :=
  let podUID := UID (pod_Meta pod) in
  let sidekick := put_restarts podUID (getContainerRestartCounts pod) sidekick in
  if String.eqb (pst_Phase (pod_Status pod)) PodFailed &&
     bool_decide (DeletionTimestamp (pod_Meta pod) = None) then
    let sidekick := put_failure podUID true sidekick in
    if negb (String.eqb (sp_RestartPolicy (sk_Spec sidekick)) RestartPolicyNever) then
      let '(over, sidekick) := over_limit sidekick in
      if over then put_failure podUID false sidekick else sidekick
    else sidekick
  else sidekick.

(** The last part of [calculateSidekickPhase]: the phase is computed and stored. *)
Definition recordPhase (pod : Pod) (sidekick : Sidekick) : M (res string * Sidekick) :=
  let '(phase, sidekick) := getSidekickPhase sidekick (Some pod) in
  let sidekick := upd_status (set_Phase phase) sidekick in
  '(sidekick, err) ← updateSidekickStatus sidekick;
  match err with
  | Some e => mret (Err e, sidekick)
  | None => mret (Ok phase, sidekick)
  end.

Definition calculateSidekickPhase (sidekick : Sidekick) : M (res string * Sidekick) :=
  let sidekick := init_counters sidekick in
  r ← call (OpGet KPod (meta_key (sk_Meta sidekick)));
  match r with
  | Ok pod => recordPhase pod (observe_pod pod sidekick)
  | Err e => if IsNotFound e then recordPhase zero_Pod sidekick else mret (Err e, sidekick)
  end.

(** What both reconcilers do with the recorded phase: a Failed Sidekick stops a
    Running pod of its name by marking it Failed; a terminal phase drops the
    key.  Returns [(dropKey, err)] and the Sidekick as left in memory. *)
Definition dropIfTerminal (req : NamespacedName) (phase : string) (sidekick : Sidekick)
    : M (bool * option error * Sidekick) :=
  if String.eqb phase SideKickPhaseFailed then
    r ← call (OpGet KPod req);
    match r with
    | Err e => mret (true, IgnoreNotFound (Some e), sidekick)
    | Ok pod =>
        if String.eqb (pst_Phase (pod_Status pod)) PodRunning then
          let st := pod_Status pod in
          let pod := set_pod_Status
            {| pst_Phase := PodFailed; pst_PodIP := pst_PodIP st;
               pst_Conditions := pst_Conditions st;
               pst_ContainerStatuses := pst_ContainerStatuses st;
               pst_InitContainerStatuses := pst_InitContainerStatuses st |} pod in
          r ← call (OpStatusUpdate KPod pod);
          match r with
          | Err e => mret (false, Some e, sidekick)
          | Ok _ => mret (true, None, sidekick)
          end
        else mret (true, None, sidekick)
    end
  else if String.eqb (st_Phase (sk_Status sidekick)) SidekickPhaseSucceeded then
    mret (true, None, sidekick)
  else mret (false, None, sidekick).

Definition updateSidekickPhase (req : NamespacedName) (sidekick : Sidekick)
    : M (bool * option error * Sidekick) :=
  '(phase, sidekick) ← calculateSidekickPhase sidekick;
  match phase with
  | Err e => mret (false, Some e, sidekick)
  | Ok phase => dropIfTerminal req phase sidekick
  end.

(** * Abstract accounting *)

(** The mathematical value of a counter map. *)
Definition map_sum {A} (f : A → Z) (m : gomap A) : Z :=
  map_fold (λ _ v acc, f v + acc) 0 (default ∅ m).

Definition failures (sidekick : Sidekick) : Z :=
  map_sum (λ b : bool, if b then 1 else 0) (st_FailureCount (sk_Status sidekick)).
Definition restarts (sidekick : Sidekick) : Z :=
  map_sum (λ n : Z, n) (st_ContainerRestartCountsPerPod (sk_Status sidekick)).
Definition backoffs (sidekick : Sidekick) : Z := failures sidekick + restarts sidekick.
Definition limit (sidekick : Sidekick) : Z := default 0 (sp_BackoffLimit (sk_Spec sidekick)).

(** What the phase should be, from an abstract view of the Sidekick and its pod. *)
Record PhaseView := {
  v_always : bool;            (** restart policy Always *)
  v_was_succeeded : bool;     (** the recorded phase is Succeeded *)
  v_pod_succeeded : bool;     (** the pod exited with success and is not deleting *)
  v_backoffs : Z;             (** failed pods plus container restarts *)
  v_limit : Z;
  v_running : bool            (** the pod and all its containers run *)
}.

Definition phase_spec (v : PhaseView) : string :=
  if v_always v then if v_running v then "Current" else "Degraded"
  else if v_was_succeeded v || v_pod_succeeded v then "Succeeded"
  else if v_limit v <? v_backoffs v then "Failed"
  else if v_running v then "Current" else "Degraded".

Definition view (sidekick : Sidekick) (pod : Pod) : PhaseView :=
  {| v_always := String.eqb (sp_RestartPolicy (sk_Spec sidekick)) RestartPolicyAlways;
     v_was_succeeded := String.eqb (st_Phase (sk_Status sidekick)) SidekickPhaseSucceeded;
     v_pod_succeeded := String.eqb (pst_Phase (pod_Status pod)) PodSucceeded &&
                        bool_decide (DeletionTimestamp (pod_Meta pod) = None);
     v_backoffs := backoffs sidekick;
     v_limit := limit sidekick;
     v_running := isSidekickPodRunning (Some pod) |}.

(** * Lemmas *)

Lemma map_sum_insert {A} (f : A → Z) (m : gmap string A) k v :
  map_sum f (Some (<[k := v]> m)) = f v + map_sum f (Some (delete k m)).
Proof.
  unfold map_sum. simpl. rewrite <- insert_delete_eq.
  rewrite map_fold_insert_L; [done|intros; lia|apply lookup_delete_eq].
Qed.

Lemma map_sum_delete {A} (f : A → Z) (m : gmap string A) k v :
  m !! k = Some v → map_sum f (Some m) = f v + map_sum f (Some (delete k m)).
Proof. intros Hk. by rewrite <- (insert_id m k v) at 1; [rewrite map_sum_insert|]. Qed.

Lemma map_sum_nonneg {A} (f : A → Z) (m : gomap A) :
  (∀ k v, gm_lookup m k = Some v → 0 ≤ f v) → 0 ≤ map_sum f m.
Proof.
  destruct m as [m|]; [|done]. unfold map_sum. simpl.
  induction m as [|k v m Hk IH] using map_ind; [done|]. intros Hf.
  rewrite map_fold_insert_L by (done || intros; lia).
  assert (0 ≤ f v) by (apply (Hf k); by rewrite lookup_insert_eq).
  assert (0 ≤ map_fold (λ _ v acc, f v + acc) 0 m); [|lia].
  apply IH. intros k' v' Hk'. apply (Hf k'). rewrite lookup_insert_ne; [done|congruence].
Qed.

(** A left fold that adds with int32 wrap-around computes the wrapped sum,
    whatever the order. *)
Lemma fold_left_wrap {A} (f : A → Z) (l : list (string * A)) acc :
  fold_left (λ acc kv, wrap32 (acc + f kv.2)) l (wrap32 acc) =
  wrap32 (acc + foldr (λ kv s, f kv.2 + s) 0 l).
Proof.
  revert acc. induction l as [|[k v] l IH]; intros acc; simpl; [by rewrite Z.add_0_r|].
  rewrite wrap32_add_l, IH. f_equal. lia.
Qed.

Lemma foldr_map_sum {A} (f : A → Z) (m : gmap string A) l :
  Permutation l (map_to_list m) → foldr (λ kv s, f kv.2 + s) 0 l = map_sum f (Some m).
Proof.
  intros Hl. unfold map_sum. simpl. rewrite map_fold_foldr.
  transitivity (foldr (λ kv s, f kv.2 + s) 0 (map_to_list m)).
  - induction Hl; simpl; lia.
  - clear Hl. induction (map_to_list m) as [|[k v] l' IH]; simpl; [done|]. by rewrite IH.
Qed.

(** Whatever order the runtime iterates a map in, the wrapped total is the same. *)
Lemma range_fold_any_order {A} (f : A → Z) (m : gmap string A) l :
  Permutation l (map_to_list m) →
  fold_left (λ acc kv, wrap32 (acc + f kv.2)) l 0 = wrap32 (map_sum f (Some m)).
Proof.
  intros Hl. change 0 with (wrap32 0) at 1. rewrite fold_left_wrap, (foldr_map_sum f m) by done.
  by rewrite Z.add_0_l.
Qed.

Lemma fold_left_ext {A B} (f g : A → B → A) (l : list B) a :
  (∀ a b, f a b = g a b) → fold_left f l a = fold_left g l a.
Proof. intros Hfg. revert a. induction l; intros; simpl; [done|]. by rewrite Hfg. Qed.

Lemma getTotalContainerRestartCounts_wrap sk :
  getTotalContainerRestartCounts sk = wrap32 (restarts sk).
Proof.
  unfold getTotalContainerRestartCounts, restarts, range_fold.
  by rewrite (range_fold_any_order (λ n : Z, n) (default ∅ (st_ContainerRestartCountsPerPod (sk_Status sk)))).
Qed.

(** The failure counter adds 1 for a true entry; adding 0 otherwise is the same
    on values that are already int32. *)
Lemma failure_fold_wrap (l : list (string * bool)) acc :
  fold_left (λ acc kv, if (kv : string * bool).2 then wrap32 (acc + 1) else acc) l (wrap32 acc) =
  fold_left (λ acc kv, wrap32 (acc + if (kv : string * bool).2 then 1 else 0)) l (wrap32 acc).
Proof.
  revert acc. induction l as [|[k []] l IH]; intros acc; simpl; [done| |].
  - by rewrite IH.
  - rewrite Z.add_0_r. rewrite (wrap32_id (wrap32 acc)) by apply wrap32_range. apply IH.
Qed.

Lemma getFailureCount_wrap sk : getFailureCountFromSidekickStatus sk = wrap32 (failures sk).
Proof.
  unfold getFailureCountFromSidekickStatus, failures, range_fold.
  change 0 with (wrap32 0) at 1. rewrite failure_fold_wrap.
  by rewrite (range_fold_any_order (λ b : bool, if b then 1 else 0)
    (default ∅ (st_FailureCount (sk_Status sk)))).
Qed.

Lemma getTotalBackOffCounts_wrap sk : (getTotalBackOffCounts sk).1 = wrap32 (backoffs sk).
Proof.
  unfold getTotalBackOffCounts, backoffs. simpl.
  rewrite getFailureCount_wrap, getTotalContainerRestartCounts_wrap.
  by rewrite wrap32_add_l, wrap32_add_r.
Qed.

Lemma over_limit_fst sk : (over_limit sk).1 = (limit sk <? wrap32 (backoffs sk)).
Proof.
  rewrite <- getTotalBackOffCounts_wrap. unfold over_limit, limit.
  unfold getTotalBackOffCounts. simpl.
  by destruct (sp_BackoffLimit (sk_Spec sk)) eqn:E; simpl; rewrite ?E.
Qed.

(** Only the backoff limit of the in-memory spec is touched. *)
Lemma over_limit_snd sk :
  sk_Status (over_limit sk).2 = sk_Status sk ∧ sk_Meta (over_limit sk).2 = sk_Meta sk ∧
  limit (over_limit sk).2 = limit sk ∧
  sp_RestartPolicy (sk_Spec (over_limit sk).2) = sp_RestartPolicy (sk_Spec sk).
Proof.
  unfold over_limit, getTotalBackOffCounts, limit. simpl.
  by destruct (sp_BackoffLimit (sk_Spec sk)) eqn:E; simpl; rewrite ?E.
Qed.

#[global] Arguments over_limit : simpl never.
#[global] Arguments isSidekickPodRunning : simpl never.
#[global] Arguments getSidekickPhase : simpl never.
#[global] Arguments observe_pod : simpl never.

(** Counters after an update, over the entries of the other pods. *)
Lemma failures_put uid b sk m :
  st_FailureCount (sk_Status sk) = Some m →
  failures (put_failure uid b sk) = (if b then 1 else 0) + map_sum (λ b : bool, if b then 1 else 0)
    (Some (delete uid m)).
Proof. intros E. unfold failures, put_failure. simpl. rewrite E. simpl. apply map_sum_insert. Qed.

Lemma restarts_put_failure uid b sk : restarts (put_failure uid b sk) = restarts sk.
Proof. done. Qed.

Lemma over_limit_exact sk : in_int32 (backoffs sk) → (over_limit sk).1 = (limit sk <? backoffs sk).
Proof. intros Hr. by rewrite over_limit_fst, wrap32_id. Qed.

Lemma getSidekickPhase_spec sk pod :
  in_int32 (backoffs sk) → (getSidekickPhase sk (Some pod)).1 = phase_spec (view sk pod).
Proof.
  intros Hr. unfold getSidekickPhase, phase_spec, view.
  cbn [v_always v_was_succeeded v_pod_succeeded v_backoffs v_limit v_running].
  rewrite <- (over_limit_exact sk Hr).
  destruct (String.eqb (sp_RestartPolicy _) _).
  { by destruct (isSidekickPodRunning (Some pod)). }
  destruct (String.eqb (st_Phase _) _); [done|]. cbn [orb].
  destruct (String.eqb (pst_Phase _) PodSucceeded && _); [done|].
  destruct (over_limit sk) as [[] sk']; [done|].
  by destruct (isSidekickPodRunning (Some pod)).
Qed.

(** Recording the pod again changes neither the limit nor the policy. *)
Lemma observe_pod_spec pod sk :
  limit (observe_pod pod sk) = limit sk ∧
  sp_RestartPolicy (sk_Spec (observe_pod pod sk)) = sp_RestartPolicy (sk_Spec sk) ∧
  st_Phase (sk_Status (observe_pod pod sk)) = st_Phase (sk_Status sk) ∧
  sk_Meta (observe_pod pod sk) = sk_Meta sk.
Proof.
  unfold observe_pod. destruct (_ && _); [|done]. destruct (negb _); [|done].
  set (s := put_failure _ _ _).
  pose proof (over_limit_snd s) as (Hst & Hm & Hl & Hp).
  destruct (over_limit s) as [[] s']; simpl in *; unfold limit, put_failure, upd_status in *;
    simpl in *; rewrite ?Hst, ?Hm; done.
Qed.

(** * Properties *)

(** C20. The phase computed by the code is the abstract one: as long as the true
    number of failed pods plus container restarts fits an int32, the wrapping
    counters decide the phase exactly as the mathematical sum does. *)
Theorem getSidekickPhase_refines sk pod :
  in_int32 (backoffs sk) → (getSidekickPhase sk (Some pod)).1 = phase_spec (view sk pod).
Proof. apply getSidekickPhase_spec. Qed.

(** The backoff total does not depend on the order in which the runtime
    iterates the two status maps, and equals the number of failed pods plus the
    restarts of all pods unless that sum leaves the int32 range, in which case
    it wraps. *)
Theorem backoff_total_any_order sk lf lr :
  Permutation lf (map_to_list (default ∅ (st_FailureCount (sk_Status sk)))) →
  Permutation lr (map_to_list (default ∅ (st_ContainerRestartCountsPerPod (sk_Status sk)))) →
  wrap32 (fold_left (λ acc kv, if (kv : string * bool).2 then wrap32 (acc + 1) else acc) lf 0 +
          fold_left (λ acc kv, wrap32 (acc + (kv : string * Z).2)) lr 0)
  = (getTotalBackOffCounts sk).1 ∧
  (getTotalBackOffCounts sk).1 = wrap32 (backoffs sk) ∧
  (in_int32 (backoffs sk) → (getTotalBackOffCounts sk).1 = backoffs sk).
Proof.
  intros Hf Hr. rewrite getTotalBackOffCounts_wrap.
  split; [|split; [done|apply wrap32_id]].
  pose proof (failure_fold_wrap lf 0) as Hff. change (wrap32 0) with 0 in Hff. rewrite Hff.
  rewrite (range_fold_any_order (λ b : bool, if b then 1 else 0) _ _ Hf).
  rewrite (range_fold_any_order (λ n : Z, n) _ _ Hr).
  by rewrite wrap32_add_l, wrap32_add_r.
Qed.

#[local] Opaque over_limit.

(** C22. What a pod failure does to the backoff count.  Let [base] be the count
    without the failure of this pod.  Under policy Never the failure is counted;
    under any other policy it is counted only while the count stays within the
    limit.  Hence, when the pod fails, a Sidekick that is neither Always nor
    already Succeeded becomes Failed iff [base + 1] exceeds the limit under
    Never, but iff [base] alone does under OnFailure. *)
Theorem pod_failure_accounting sk pod mf mr :
  st_FailureCount (sk_Status sk) = Some mf →
  st_ContainerRestartCountsPerPod (sk_Status sk) = Some mr →
  pst_Phase (pod_Status pod) = PodFailed → DeletionTimestamp (pod_Meta pod) = None →
  let base := map_sum (λ b : bool, if b then 1 else 0) (Some (delete (UID (pod_Meta pod)) mf)) +
              map_sum (λ n : Z, n) (Some (<[UID (pod_Meta pod) := getContainerRestartCounts pod]> mr)) in
  in_int32 base → in_int32 (base + 1) →
  let sk' := observe_pod pod sk in
  let never := String.eqb (sp_RestartPolicy (sk_Spec sk)) RestartPolicyNever in
  backoffs sk' = (if negb never && (limit sk <? base + 1) then base else base + 1) ∧
  (sp_RestartPolicy (sk_Spec sk) ≠ RestartPolicyAlways →
   st_Phase (sk_Status sk) ≠ SidekickPhaseSucceeded →
   ((getSidekickPhase sk' (Some pod)).1 = SideKickPhaseFailed ↔
    if never then limit sk < base + 1 else limit sk < base)).
Proof.
  intros Hmf Hmr Hph Hdel base Hb Hb1 sk' never.
  assert (Hev : String.eqb (sp_RestartPolicy (sk_Spec sk)) RestartPolicyNever = never) by done.
  clearbody never.
  set (s1 := put_failure (UID (pod_Meta pod)) true
               (put_restarts (UID (pod_Meta pod)) (getContainerRestartCounts pod) sk)).
  assert (Hs1 : backoffs s1 = base + 1).
  { unfold backoffs, s1. rewrite restarts_put_failure.
    rewrite (failures_put _ _ _ mf) by done. unfold restarts, put_restarts. simpl.
    rewrite Hmr. simpl. unfold base. lia. }
  assert (Hover : (over_limit s1).1 = (limit sk <? base + 1)).
  { rewrite over_limit_exact; rewrite Hs1; done. }
  assert (Hsk' : sk' = if negb never && (limit sk <? base + 1)
    then put_failure (UID (pod_Meta pod)) false (over_limit s1).2
    else if negb never then (over_limit s1).2 else s1).
  { unfold sk', observe_pod. rewrite Hph, Hdel, String.eqb_refl. cbv zeta. fold s1.
    change (sp_RestartPolicy (sk_Spec s1)) with (sp_RestartPolicy (sk_Spec sk)). rewrite Hev.
    destruct never; [done|]. rewrite <- Hover. cbn [negb andb]. by destruct (over_limit s1) as [[] ?]. }
  pose proof (over_limit_snd s1) as (Hst & _).
  assert (Hbk : backoffs sk' = if negb never && (limit sk <? base + 1) then base else base + 1).
  { rewrite Hsk'. destruct never; simpl; [exact Hs1|]. destruct (limit sk <? base + 1).
    - unfold backoffs. rewrite restarts_put_failure.
      rewrite (failures_put _ _ _ (<[UID (pod_Meta pod) := true]> mf)) by (by rewrite Hst; simpl; rewrite Hmf).
      rewrite delete_insert_eq. unfold restarts. rewrite Hst. simpl. rewrite Hmr. simpl. unfold base. lia.
    - unfold backoffs, failures, restarts. rewrite Hst. exact Hs1. }
  split; [done|]. intros Hna Hns.
  destruct (observe_pod_spec pod sk) as (Hl & Hp & Hps & _).
  rewrite getSidekickPhase_spec by (fold sk'; rewrite Hbk; by case_match_goal).
  unfold phase_spec, view. cbn [v_always v_was_succeeded v_pod_succeeded v_backoffs v_limit v_running].
  fold sk' in Hl, Hp, Hps |- *. rewrite Hl, Hp, Hps, Hph, Hbk.
  apply String.eqb_neq in Hna, Hns. rewrite Hna, Hns. simpl.
  destruct never; simpl; destruct (Z.ltb_spec (limit sk) (base + 1)); try (by split);
    destruct (Z.ltb_spec (limit sk) base), (isSidekickPodRunning (Some pod));
    repeat case_match_goal; split; intros; try done; lia.
Qed.
