(* ===== verification/PodBuilder.v ===== *)
(** * Building the sidekick pod ([pod_builder.go])

    The pod of a Sidekick runs the containers of its spec on the node of the
    leader, with the leader's volumes; an empty volume mount is inherited from
    the leader's mount of the same name. *)

From S2P Require Import Prelude Types Kmodules.

Definition keyHash : string := "sidekick.appscode.com/hash".
Definition keyLeader : string := "sidekick.appscode.com/leader".

Definition SchemeGroupVersion_String : string := "apps.k8s.appscode.com/v1alpha1".

(** The first mount of that name among the containers, in order. *)
Definition find_mount_in (cs : list CoreContainer) (name : string) : option CoreVolumeMount :=
  List.find (λ vm, String.eqb (cvm_Name vm) name) (concat (map cc_VolumeMounts cs)).

Definition findMount (leader : Pod) (name : string) : option CoreVolumeMount :=
  match find_mount_in (ps_Containers (pod_Spec leader)) name with
  | Some vm => Some vm
  | None => find_mount_in (ps_InitContainers (pod_Spec leader)) name
  end.

(** The [empty] test of [convContainer]: only the name is given. *)
Definition inherits (vm : VolumeMount) : bool :=
  negb (vm_ReadOnly vm) && String.eqb (vm_MountPath vm) "" && String.eqb (vm_SubPath vm) "" &&
  bool_decide (vm_MountPropagation vm = None) && String.eqb (vm_SubPathExpr vm) "".

Definition conv_mount (leader : Pod) (vm : VolumeMount) : res CoreVolumeMount :=
  if inherits vm then
    match findMount leader (vm_Name vm) with
    | None => Err (PlainError ("missing volume mount " +:+ vm_Name vm +:+ " for leader "
                     +:+ Namespace (pod_Meta leader) +:+ "/" +:+ Name (pod_Meta leader)))
    | Some v2 => Ok v2
    end
  else
    Ok {| cvm_Name := vm_Name vm; cvm_ReadOnly := vm_ReadOnly vm; cvm_RecursiveReadOnly := None;
          cvm_MountPath := vm_MountPath vm; cvm_SubPath := vm_SubPath vm;
          cvm_MountPropagation := vm_MountPropagation vm; cvm_SubPathExpr := vm_SubPathExpr vm |}.

Definition convContainer (leader : Pod) (c : Container) : res CoreContainer :=
  match res_map (conv_mount leader) (c_VolumeMounts c) with
  | Err e => Err e
  | Ok mounts =>
      Ok {| cc_Name := c_Name c; cc_Image := c_Image c; cc_Command := c_Command c;
            cc_Args := c_Args c; cc_WorkingDir := c_WorkingDir c; cc_Ports := c_Ports c;
            cc_EnvFrom := c_EnvFrom c; cc_Env := c_Env c; cc_Resources := c_Resources c;
            cc_VolumeMounts := mounts; cc_VolumeDevices := c_VolumeDevices c;
            cc_LivenessProbe := c_LivenessProbe c; cc_ReadinessProbe := c_ReadinessProbe c;
            cc_StartupProbe := c_StartupProbe c; cc_Lifecycle := c_Lifecycle c;
            cc_TerminationMessagePath := c_TerminationMessagePath c;
            cc_TerminationMessagePolicy := c_TerminationMessagePolicy c;
            cc_ImagePullPolicy := c_ImagePullPolicy c;
            cc_SecurityContext := c_SecurityContext c; cc_Stdin := c_Stdin c;
            cc_StdinOnce := c_StdinOnce c; cc_TTY := c_TTY c |}
  end.

(** [container.Env = append(container.Env, EnvVar{"LEADER_NAME", leader.Name})]. *)
Definition add_leader_env (leader : Pod) (c : CoreContainer) : CoreContainer :=
  {| cc_Name := cc_Name c; cc_Image := cc_Image c; cc_Command := cc_Command c;
     cc_Args := cc_Args c; cc_WorkingDir := cc_WorkingDir c; cc_Ports := cc_Ports c;
     cc_EnvFrom := cc_EnvFrom c;
     cc_Env := cc_Env c ++ [{| env_Name := "LEADER_NAME"; env_Value := Name (pod_Meta leader);
                               env_ValueFrom := None |}];
     cc_Resources := cc_Resources c; cc_VolumeMounts := cc_VolumeMounts c;
     cc_VolumeDevices := cc_VolumeDevices c; cc_LivenessProbe := cc_LivenessProbe c;
     cc_ReadinessProbe := cc_ReadinessProbe c; cc_StartupProbe := cc_StartupProbe c;
     cc_Lifecycle := cc_Lifecycle c; cc_TerminationMessagePath := cc_TerminationMessagePath c;
     cc_TerminationMessagePolicy := cc_TerminationMessagePolicy c;
     cc_ImagePullPolicy := cc_ImagePullPolicy c; cc_SecurityContext := cc_SecurityContext c;
     cc_Stdin := cc_Stdin c; cc_StdinOnce := cc_StdinOnce c; cc_TTY := cc_TTY c |}.

(** The two container loops of [newSidekickPod] and of the distributed
    reconciler: containers, with the leader's name appended to their
    environment, then init containers. *)
Definition convContainers (leader : Pod) (sp : SidekickSpec)
    : res (list CoreContainer * list CoreContainer) :=
  match res_map (convContainer leader) (sp_Containers sp) with
  | Err e => Err e
  | Ok cs =>
      match res_map (convContainer leader) (sp_InitContainers sp) with
      | Err e => Err e
      | Ok ics => Ok (map (add_leader_env leader) cs, ics)
      end
  end.

Section Volumes.
Context `{Mergo}.

Definition listVolumes (leader : Pod) (sidekick : Sidekick) : list Volume :=
  let vols := UpsertVolume [] (sp_Volumes (sk_Spec sidekick)) in
  if existsb (λ c, (0 <? length (c_VolumeMounts c))%nat) (sp_Containers (sk_Spec sidekick)) ||
     existsb (λ c, (0 <? length (c_VolumeMounts c))%nat) (sp_InitContainers (sk_Spec sidekick))
  then UpsertVolume vols (ps_Volumes (pod_Spec leader))
  else [].
End Volumes.

(** The [corev1.PodSpec] literal both reconcilers build. *)
Definition sidekick_PodSpec (sp : SidekickSpec) (vols : list Volume) (node : string)
    (containers init : list CoreContainer) : PodSpec :=
  {| ps_Volumes := vols;
     ps_InitContainers := init;
     ps_Containers := containers;
     ps_EphemeralContainers := sp_EphemeralContainers sp;
     ps_RestartPolicy := sp_RestartPolicy sp;
     ps_TerminationGracePeriodSeconds := sp_TerminationGracePeriodSeconds sp;
     ps_ActiveDeadlineSeconds := sp_ActiveDeadlineSeconds sp;
     ps_DNSPolicy := sp_DNSPolicy sp;
     ps_NodeSelector := None;
     ps_ServiceAccountName := sp_ServiceAccountName sp;
     ps_DeprecatedServiceAccount := sp_DeprecatedServiceAccount sp;
     ps_AutomountServiceAccountToken := sp_AutomountServiceAccountToken sp;
     ps_NodeName := node;
     ps_HostNetwork := sp_HostNetwork sp;
     ps_HostPID := sp_HostPID sp;
     ps_HostIPC := sp_HostIPC sp;
     ps_ShareProcessNamespace := sp_ShareProcessNamespace sp;
     ps_SecurityContext := sp_SecurityContext sp;
     ps_ImagePullSecrets := sp_ImagePullSecrets sp;
     ps_Hostname := sp_Hostname sp;
     ps_Subdomain := sp_Subdomain sp;
     ps_Affinity := sp_Affinity sp;
     ps_SchedulerName := sp_SchedulerName sp;
     ps_Tolerations := sp_Tolerations sp;
     ps_HostAliases := sp_HostAliases sp;
     ps_PriorityClassName := sp_PriorityClassName sp;
     ps_Priority := sp_Priority sp;
     ps_DNSConfig := sp_DNSConfig sp;
     ps_ReadinessGates := sp_ReadinessGates sp;
     ps_RuntimeClassName := sp_RuntimeClassName sp;
     ps_EnableServiceLinks := sp_EnableServiceLinks sp;
     ps_PreemptionPolicy := sp_PreemptionPolicy sp;
     ps_Overhead := sp_Overhead sp;
     ps_TopologySpreadConstraints := sp_TopologySpreadConstraints sp;
     ps_SetHostnameAsFQDN := sp_SetHostnameAsFQDN sp;
     ps_OS := sp_OS sp;
     ps_HostUsers := sp_HostUsers sp |}.

Section Build.
Context `{Mergo} `{ObjectHasher}.

(** The annotations of the new pod.  [pod.Annotations] aliases
    [sidekick.Annotations] unless that map is nil; the hash is taken before the
    two assignments. *)
Definition pod_annotations (sidekick : Sidekick) (leader : Pod) : gmap string string :=
  <[keyLeader := Name (pod_Meta leader)]>
    (<[keyHash := GenerationHash (sk_Meta sidekick)]>
      (default ∅ (Annotations (sk_Meta sidekick)))).

(** The [corev1.Pod] literal, with the containers the loops append to it. *)
Definition sidekick_pod (sidekick : Sidekick) (leader : Pod) (cs ics : list CoreContainer) : Pod :=
  let sidekickRef := NewControllerRef (sk_Meta sidekick) SchemeGroupVersion_String "Sidekick" in
  let leaderRef :=
    {| or_APIVersion := "v1"; or_Kind := "Pod"; or_Name := Name (pod_Meta leader);
       or_UID := UID (pod_Meta leader); or_Controller := Some false;
       or_BlockOwnerDeletion := Some false |} in
  {| pod_APIVersion := ""; pod_Kind := "";
     pod_Meta :=
       {| Name := Name (sk_Meta sidekick); GenerateName := "";
          Namespace := Namespace (sk_Meta sidekick); UID := "";
          Generation := 0; DeletionTimestamp := None;
          Labels := Labels (sk_Meta sidekick);
          Annotations := Some (pod_annotations sidekick leader);
          OwnerReferences := [sidekickRef; leaderRef]; Finalizers := [] |};
     pod_Spec := sidekick_PodSpec (sk_Spec sidekick) (listVolumes leader sidekick)
                   (ps_NodeName (pod_Spec leader)) cs ics;
     pod_Status := empty_status |}.

(** Returns the pod or the error, and the Sidekick as the aliasing leaves it: the
    writes to a non-nil annotation map are visible through both. *)
Definition newSidekickPod (sidekick : Sidekick) (leader : Pod) : res Pod * Sidekick :=
  let sidekick' :=
    match Annotations (sk_Meta sidekick) with
    | None => sidekick
    | Some _ => set_sk_Meta (set_Annotations (Some (pod_annotations sidekick leader))
                               (sk_Meta sidekick)) sidekick
    end in
  match convContainers leader (sk_Spec sidekick) with
  | Err e => (Err e, sidekick')
  | Ok (cs, ics) => (Ok (sidekick_pod sidekick leader cs ics), sidekick')
  end.

(** [sidekick_controller.go podNeedsRecreate]. *)
Definition podNeedsRecreate (sidekick : Sidekick) (leader pod : Pod) : bool :=
  negb (String.eqb (gm_str (Annotations (pod_Meta pod)) keyHash)
                   (GenerationHash (sk_Meta sidekick))) ||
  negb (String.eqb (gm_str (Annotations (pod_Meta pod)) keyLeader) (Name (pod_Meta leader))) ||
  negb (String.eqb (ps_NodeName (pod_Spec pod)) (ps_NodeName (pod_Spec leader))) ||
  (String.eqb (pst_Phase (pod_Status pod)) PodFailed &&
   String.eqb (sp_RestartPolicy (sk_Spec sidekick)) RestartPolicyNever).
End Build.

(** * Specifications *)

(** The mounts a list of containers needs from the leader. *)
Definition inherited_names (cs : list Container) : list string :=
  map vm_Name (List.filter inherits (concat (map c_VolumeMounts cs))).

Definition all_mounts (cs : list CoreContainer) : list CoreVolumeMount :=
  concat (map cc_VolumeMounts cs).

(** Every mount of the containers names a volume of the pod. *)
Definition mounts_resolve (sp : PodSpec) : Prop :=
  ∀ vm, vm ∈ all_mounts (ps_Containers sp) ++ all_mounts (ps_InitContainers sp) →
    cvm_Name vm ∈ map vol_Name (ps_Volumes sp).

(** * Lemmas *)

Lemma find_mount_in_some cs n vm :
  find_mount_in cs n = Some vm → vm ∈ all_mounts cs ∧ cvm_Name vm = n.
Proof.
  intros [Hin E]%find_some. split; [by apply list_elem_of_In|by apply String.eqb_eq].
Qed.

Lemma find_mount_in_none cs n :
  find_mount_in cs n = None ↔ n ∉ map cvm_Name (all_mounts cs).
Proof.
  unfold find_mount_in, all_mounts. rewrite list_elem_of_fmap. split.
  - intros Hf (vm & -> & Hin). apply list_elem_of_In in Hin.
    pose proof (find_none _ _ Hf _ Hin) as E. simpl in E. by rewrite String.eqb_refl in E.
  - intros Hn. destruct (List.find _ _) as [vm|] eqn:E; [|done].
    apply find_some in E as [Hin E]. apply String.eqb_eq in E. destruct Hn. exists vm.
    split; [done|by apply list_elem_of_In].
Qed.

(** [findMount] succeeds exactly on the names some container of the leader mounts. *)
Lemma findMount_some_iff leader n :
  is_Some (findMount leader n) ↔
  n ∈ map cvm_Name (all_mounts (ps_Containers (pod_Spec leader)) ++
                    all_mounts (ps_InitContainers (pod_Spec leader))).
Proof.
  unfold findMount. rewrite map_app, elem_of_app.
  pose proof (find_mount_in_none (ps_Containers (pod_Spec leader)) n) as H1.
  pose proof (find_mount_in_none (ps_InitContainers (pod_Spec leader)) n) as H2.
  destruct (find_mount_in (ps_Containers (pod_Spec leader)) n) as [vm|] eqn:E1.
  - apply find_mount_in_some in E1 as [Hin Hn]. split; [|eauto]. intros _. left.
    apply list_elem_of_fmap. eauto.
  - destruct (find_mount_in (ps_InitContainers (pod_Spec leader)) n) as [vm|] eqn:E2.
    + apply find_mount_in_some in E2 as [Hin Hn]. split; [|eauto]. intros _. right.
      apply list_elem_of_fmap. eauto.
    + split; [by intros []|]. intros [?|?]; exfalso; [by apply H1|by apply H2].
Qed.

Lemma findMount_some leader n vm :
  findMount leader n = Some vm →
  vm ∈ all_mounts (ps_Containers (pod_Spec leader)) ++
       all_mounts (ps_InitContainers (pod_Spec leader)) ∧ cvm_Name vm = n.
Proof.
  unfold findMount. rewrite elem_of_app.
  destruct (find_mount_in (ps_Containers _) _) eqn:E; intros Hf; simplify_eq.
  - apply find_mount_in_some in E. naive_solver.
  - apply find_mount_in_some in Hf. naive_solver.
Qed.

Lemma conv_mount_name leader vm m : conv_mount leader vm = Ok m → cvm_Name m = vm_Name vm.
Proof.
  unfold conv_mount. intros E. repeat case_match_hyp E; simplify_eq; [|done].
  by apply findMount_some in Heqo as [_ ?].
Qed.

Lemma conv_mount_ok_iff leader vm :
  (∃ m, conv_mount leader vm = Ok m) ↔
  (inherits vm = true → is_Some (findMount leader (vm_Name vm))).
Proof.
  unfold conv_mount. destruct (inherits vm); [|by split; eauto].
  destruct (findMount leader (vm_Name vm)); split; eauto; [by intros []|].
  intros Hx. by destruct (Hx eq_refl).
Qed.

Lemma convContainer_ok_iff leader c :
  (∃ c', convContainer leader c = Ok c') ↔
  Forall (λ vm, inherits vm = true → is_Some (findMount leader (vm_Name vm))) (c_VolumeMounts c).
Proof.
  rewrite <- (Forall_iff (λ vm, ∃ m, conv_mount leader vm = Ok m))
    by (intros; apply conv_mount_ok_iff).
  rewrite <- res_map_total. unfold convContainer.
  destruct (res_map _ _); split; intros []; eauto; done.
Qed.

Lemma convContainers_ok_iff leader sp :
  (∃ r, convContainers leader sp = Ok r) ↔
  Forall (λ c, ∃ c', convContainer leader c = Ok c') (sp_Containers sp) ∧
  Forall (λ c, ∃ c', convContainer leader c = Ok c') (sp_InitContainers sp).
Proof.
  rewrite <- !res_map_total. unfold convContainers.
  destruct (res_map _ (sp_Containers sp)), (res_map _ (sp_InitContainers sp));
    split; try (intros [? ?]; done); naive_solver.
Qed.

(** Names of mounts survive the conversion of a container. *)
Lemma convContainer_mount_names leader c c' :
  convContainer leader c = Ok c' →
  map cvm_Name (cc_VolumeMounts c') = map vm_Name (c_VolumeMounts c).
Proof.
  unfold convContainer. intros E. case_match_hyp E. simplify_eq/=.
  apply res_map_ok in Heqr. induction Heqr; simpl; [done|]. f_equal; [|done].
  by eapply conv_mount_name.
Qed.

Lemma all_mounts_conv leader cs cs' :
  res_map (convContainer leader) cs = Ok cs' →
  ∀ vm, vm ∈ all_mounts cs' →
    ∃ vm0, vm0 ∈ concat (map c_VolumeMounts cs) ∧ conv_mount leader vm0 = Ok vm.
Proof.
  intros E%res_map_ok. unfold all_mounts. induction E as [|c c' cs cs' Hc _ IH]; simpl;
    intros vm Hvm; [by apply elem_of_nil in Hvm|].
  apply elem_of_app in Hvm as [Hvm|Hvm].
  - unfold convContainer in Hc. case_match_hyp Hc. simplify_eq/=.
    apply res_map_ok in Heqr. apply list_elem_of_lookup in Hvm as [i Hi].
    destruct (Forall2_lookup_r _ _ _ _ _ Heqr Hi) as (vm0 & Hi0 & E0).
    exists vm0. split; [|done]. apply elem_of_app. left. apply list_elem_of_lookup. eauto.
  - destruct (IH vm Hvm) as (vm0 & ? & ?). exists vm0. split; [|done]. apply elem_of_app. auto.
Qed.

Lemma all_mounts_leader_env leader cs :
  all_mounts (map (add_leader_env leader) cs) = all_mounts cs.
Proof. unfold all_mounts. rewrite map_map. done. Qed.

Lemma existsb_mounts_none cs :
  existsb (λ c, (0 <? length (c_VolumeMounts c))%nat) cs = false →
  concat (map c_VolumeMounts cs) = [].
Proof.
  induction cs as [|c cs IH]; simpl; [done|]. intros [Hc Hcs]%orb_false_iff.
  rewrite (IH Hcs). destruct (c_VolumeMounts c); done.
Qed.

Section NewPod.
Context `{Mergo} `{ObjectHasher}.

Lemma newSidekickPod_ok sidekick leader pod sk' :
  newSidekickPod sidekick leader = (Ok pod, sk') →
  ∃ cs ics,
    res_map (convContainer leader) (sp_Containers (sk_Spec sidekick)) = Ok cs ∧
    res_map (convContainer leader) (sp_InitContainers (sk_Spec sidekick)) = Ok ics ∧
    pod = sidekick_pod sidekick leader (map (add_leader_env leader) cs) ics.
Proof.
  unfold newSidekickPod, convContainers. intros E.
  destruct (res_map _ (sp_Containers _)) as [cs|]; [|done].
  destruct (res_map _ (sp_InitContainers _)) as [ics|]; [|done]. simplify_eq. eauto.
Qed.
End NewPod.

(** * Properties *)

Section Properties.
Context `{Mergo} `{ObjectHasher}.

(** A stored pod with the annotations and the node of the pod just built is
    current: whatever the kubelet writes into its status (short of a failure
    under policy Never), the next reconcile does not recreate it. *)
Lemma pod_is_current sidekick sk leader p :
  sk_Meta sk = sk_Meta sidekick → sk_Spec sk = sk_Spec sidekick →
  Annotations (pod_Meta p) = Some (pod_annotations sidekick leader) →
  ps_NodeName (pod_Spec p) = ps_NodeName (pod_Spec leader) →
  podNeedsRecreate sk leader p =
    String.eqb (pst_Phase (pod_Status p)) PodFailed &&
    String.eqb (sp_RestartPolicy (sk_Spec sidekick)) RestartPolicyNever.
Proof.
  intros Hm Hs Ha Hn. unfold podNeedsRecreate. rewrite Hm, Hs, Ha, Hn.
  unfold pod_annotations, gm_str. simpl. rewrite lookup_insert_ne, !lookup_insert_eq by done.
  by rewrite !String.eqb_refl.
Qed.

Lemma new_pod_is_current sidekick leader pod sk' stored :
  newSidekickPod sidekick leader = (Ok pod, sk') →
  Annotations (pod_Meta stored) = Annotations (pod_Meta pod) →
  ps_NodeName (pod_Spec stored) = ps_NodeName (pod_Spec pod) →
  (pst_Phase (pod_Status stored) = PodFailed →
   sp_RestartPolicy (sk_Spec sidekick) ≠ RestartPolicyNever) →
  podNeedsRecreate sidekick leader stored = false.
Proof.
  intros (cs & ics & _ & _ & ->)%newSidekickPod_ok Ha Hn Hf.
  rewrite (pod_is_current sidekick) by done.
  destruct (String.eqb_spec (pst_Phase (pod_Status stored)) PodFailed); [|done].
  apply String.eqb_neq. by apply Hf.
Qed.

(** C35. Building the pod fails exactly when a container asks to inherit a mount
    (gives only a name) that no container of the leader has. *)
Theorem newSidekickPod_error_iff sidekick leader :
  (∃ e, (newSidekickPod sidekick leader).1 = Err e) ↔
  ∃ n, n ∈ inherited_names (sp_Containers (sk_Spec sidekick) ++ sp_InitContainers (sk_Spec sidekick)) ∧
       n ∉ map cvm_Name (all_mounts (ps_Containers (pod_Spec leader)) ++
                         all_mounts (ps_InitContainers (pod_Spec leader))).
Proof.
  assert (Hok : (∃ r, convContainers leader (sk_Spec sidekick) = Ok r) ↔
    ∀ n, n ∈ inherited_names (sp_Containers (sk_Spec sidekick) ++ sp_InitContainers (sk_Spec sidekick)) →
      is_Some (findMount leader n)).
  { rewrite convContainers_ok_iff, <- Forall_app.
    rewrite (Forall_iff _ _ _ (convContainer_ok_iff leader)), Forall_forall.
    unfold inherited_names. setoid_rewrite list_elem_of_fmap.
    setoid_rewrite list_elem_of_In. setoid_rewrite filter_In. setoid_rewrite in_concat.
    setoid_rewrite in_map_iff. setoid_rewrite Forall_forall.
    setoid_rewrite list_elem_of_In. split; [|naive_solver].
    intros Hc n (vm & -> & (l & (c & <- & Hc') & Hvm) & Hi). eauto. }
  setoid_rewrite <- findMount_some_iff. unfold newSidekickPod.
  destruct (convContainers leader (sk_Spec sidekick)) as [[cs ics]|e] eqn:E; simpl.
  - split; [by intros []|]. intros (n & Hn & Hnone). destruct Hnone. apply Hok; eauto.
  - split; [|eauto]. intros _.
    set (names := inherited_names _) in *.
    destruct (decide (Forall (λ n, is_Some (findMount leader n)) names)) as [Hall|Hex].
    + rewrite Forall_forall in Hall. apply Hok in Hall as [? ?]. done.
    + apply not_Forall_Exists, Exists_exists in Hex as (n & Hn & Hnot); [|apply _]. eauto.
Qed.


(** The containers of the pod are those of the Sidekick, in order, under
    the same names; each regular container ends its environment with
    [LEADER_NAME] set to the leader, init containers keep theirs. *)
Theorem new_pod_containers sidekick leader pod sk' :
  newSidekickPod sidekick leader = (Ok pod, sk') →
  Forall2 (λ c c', cc_Name c' = c_Name c ∧ cc_Image c' = c_Image c ∧
      map cvm_Name (cc_VolumeMounts c') = map vm_Name (c_VolumeMounts c) ∧
      cc_Env c' = c_Env c ++ [{| env_Name := "LEADER_NAME";
                                 env_Value := Name (pod_Meta leader); env_ValueFrom := None |}])
    (sp_Containers (sk_Spec sidekick)) (ps_Containers (pod_Spec pod)) ∧
  Forall2 (λ c c', cc_Name c' = c_Name c ∧ cc_Image c' = c_Image c ∧
      map cvm_Name (cc_VolumeMounts c') = map vm_Name (c_VolumeMounts c) ∧ cc_Env c' = c_Env c)
    (sp_InitContainers (sk_Spec sidekick)) (ps_InitContainers (pod_Spec pod)).
Proof.
  intros (cs & ics & Hcs & Hics & ->)%newSidekickPod_ok. simpl.
  apply res_map_ok in Hcs, Hics. split.
  - apply Forall2_fmap_r. eapply Forall2_impl; [exact Hcs|]. intros c c' Hc. simpl.
    pose proof (convContainer_mount_names _ _ _ Hc). unfold convContainer in Hc.
    case_match_hyp Hc. by simplify_eq.
  - eapply Forall2_impl; [exact Hics|]. intros c c' Hc. simpl.
    pose proof (convContainer_mount_names _ _ _ Hc). unfold convContainer in Hc.
    case_match_hyp Hc. by simplify_eq.
Qed.
End Properties.
