(* ===== verification/Local.v ===== *)
(** * Reconciling a Sidekick in its own cluster

    [pod.go], [sidekick.go] and [sidekick_controller.go]: the life cycle of the
    sidekick pod and of the finalizers, and [Reconcile] from the point where a
    non-distributed Sidekick has been fetched.  A Go function that mutates the
    Sidekick it is given returns the mutated object. *)

From S2P Require Import Prelude Effects GoStd Types Cluster Kmodules Leader Phase PodBuilder.

Definition deletionInitiatorKey : string := "sidekick.appscode.com/deletion-initiator".
Definition deletionInitiatesBySidekickOperator : string := "sidekick-operator".

Definition getFinalizerName : string := "apps.k8s.appscode.com/finalizer".

(** ** Pods ([pod.go]) *)

Definition removePodFinalizer (pod : Pod) : M (option error) :=
  '(_, err) ← CreateOrPatch KPod pod
    (λ p _, set_pod_Meta (RemoveFinalizer (pod_Meta p) getFinalizerName) p);
  mret (IgnoreNotFound err).

(** The block that counts a deletion the operator did not initiate. *)
Definition countExternalDeletion (req : NamespacedName) (pod : Pod) : M (option error) :=
  r ← call (OpGet KSidekick req);
  match r with
  | Err e => mret (if IsNotFound e then None else Some e)
  | Ok sk =>
      match DeletionTimestamp (sk_Meta sk) with
      | Some _ => mret None
      | None =>
          let sk := upd_status (λ st, set_FailureCount (gm_make (st_FailureCount st)) st) sk in
          let sk := put_failure (UID (pod_Meta pod)) true sk in
          '(_, err) ← updateSidekickStatus sk;
          mret (match err with
                | Some e => if IsNotFound e then None else Some e
                | None => None
                end)
      end
  end.

Definition removePodFinalizerIfMarkedForDeletion (req : NamespacedName)
    : M (bool * option error) :=
  r ← call (OpGet KPod req);
  match r with
  | Err e => mret (false, if IsNotFound e then None else Some e)
  | Ok pod =>
      match DeletionTimestamp (pod_Meta pod) with
      | None => mret (false, None)
      | Some _ =>
          err ← (match gm_lookup (Annotations (pod_Meta pod)) deletionInitiatorKey with
                 | Some _ => mret None
                 | None => countExternalDeletion req pod
                 end);
          match err with
          | Some e => mret (false, Some e)
          | None =>
              if HasFinalizer (pod_Meta pod) getFinalizerName then
                err ← removePodFinalizer pod;
                match err with
                | Some e => mret (false, Some e)
                | None => mret (true, None)
                end
              else mret (false, None)
          end
      end
  end.

(** The transform of [setDeletionInitiatorAnnotation]. *)
Definition annotate_initiator (p : Pod) : Pod :=
  set_pod_Meta (set_Annotations
    (Some (<[deletionInitiatorKey := deletionInitiatesBySidekickOperator]>
             (default ∅ (Annotations (pod_Meta p))))) (pod_Meta p)) p.

Definition setDeletionInitiatorAnnotation (pod : Pod) : M (Pod * option error) :=
  CreateOrPatch KPod pod (λ p _, annotate_initiator p).

Definition deletePod (pod : Pod) : M (option error) :=
  '(pod, err) ← setDeletionInitiatorAnnotation pod;
  match err with
  | Some e => mret (Some e)
  | None =>
      r ← call (OpDelete KPod (meta_key (pod_Meta pod)));
      mret (res_err r)
  end.

(** ** Finalizers of the Sidekick *)

Definition terminate (sidekick : Sidekick) : M (Sidekick * option error) :=
  r ← call (OpDelete KPod (meta_key (sk_Meta sidekick)));
  match (match r with Err e => if IsNotFound e then None else Some e | Ok _ => None end) with
  | Some e => mret (sidekick, Some e)
  | None =>
      CreateOrPatch KSidekick sidekick
        (λ sk _, set_sk_Meta (RemoveFinalizer (sk_Meta sk) getFinalizerName) sk)
  end.

Definition handleSidekickFinalizer (sidekick : Sidekick) : M (Sidekick * option error) :=
  if bool_decide (is_Some (DeletionTimestamp (sk_Meta sidekick))) &&
     HasFinalizer (sk_Meta sidekick) getFinalizerName
  then terminate sidekick
  else CreateOrPatch KSidekick sidekick
         (λ sk _, set_sk_Meta (AddFinalizer (sk_Meta sk) getFinalizerName) sk).

(** ** The sidekick pod *)

(** [ctrl.Result]: immediate requeue, and a delay in seconds. *)
Record Result := { Requeue : bool; RequeueAfter : Z }.
Definition no_requeue : Result := {| Requeue := false; RequeueAfter := 0 |}.
Definition requeue_10s : Result := {| Requeue := true; RequeueAfter := 10 |}.

(** [Status.Leader.Name = ""; Status.Pod = ""; Status.ObservedGeneration = ...]. *)
Definition reset_status (sidekick : Sidekick) : Sidekick :=
  upd_status (λ st, set_ObservedGeneration (Generation (sk_Meta sidekick))
    (set_Pod "" (set_Leader "" st))) sidekick.

Definition deletePodAndResetStatus (sidekick : Sidekick) (pod : Pod) : M (option error) :=
  err ← deletePod pod;
  match err with
  | Some e => mret (Some e)
  | None => '(_, err) ← updateSidekickStatus (reset_status sidekick); mret err
  end.

Section Pods.
Context `{Mergo} `{ObjectHasher}.

Definition syncExistingPod (sidekick : Sidekick) (leader pod : Pod) : M (option error) :=
  if podNeedsRecreate sidekick leader pod then
    let moved := negb (String.eqb (ps_NodeName (pod_Spec leader)) (ps_NodeName (pod_Spec pod))) &&
                 negb (String.eqb (ps_NodeName (pod_Spec pod)) "") in
    sidekick ← (if moved then
                  m ← gm_write (st_FailureCount (sk_Status sidekick)) (UID (pod_Meta pod)) true;
                  mret (upd_status (set_FailureCount m) sidekick)
                else mret sidekick);
    deletePodAndResetStatus sidekick pod
  else
    '(_, err) ← updateSidekickStatus (upd_status (λ st,
      set_ObservedGeneration (Generation (sk_Meta sidekick))
        (set_Pod (pst_Phase (pod_Status pod)) st)) sidekick);
    mret err.

Definition createSidekickPod (sidekick : Sidekick) (leader : Pod) : M (option error) :=
  let '(r, sidekick) := newSidekickPod sidekick leader in
  match r with
  | Err e => mret (Some e)
  | Ok pod =>
      '(pod, err) ← CreateOrPatch KPod pod
        (λ p _, set_pod_Meta (AddFinalizer (pod_Meta p) getFinalizerName) p);
      match err with
      | Some e => mret (Some e)
      | None =>
          '(_, err) ← updateSidekickStatus (upd_status (λ st,
            set_ObservedGeneration (Generation (sk_Meta sidekick))
              (set_Pod (pst_Phase (pod_Status pod))
                (set_Leader (Name (pod_Meta leader)) st))) sidekick);
          mret err
      end
  end.

(** ** Reconcile *)

(** From the last [r.Get] of the pod on. *)
Definition syncOrCreate (req : NamespacedName) (sidekick : Sidekick) (leader : Pod)
    : M (Result * option error) :=
  r ← call (OpGet KPod req);
  match r with
  | Ok pod => err ← syncExistingPod sidekick leader pod; mret (no_requeue, err)
  | Err e =>
      if IsNotFound e then err ← createSidekickPod sidekick leader; mret (no_requeue, err)
      else mret (no_requeue, Some e)
  end.

Context `{SortSlice} `{LabelSelectors}.

(** From the election on: a leader that is gone or changed takes the pod with
    it. *)
Definition reconcileLeader (req : NamespacedName) (sidekick : Sidekick)
    : M (Result * option error) :=
  lr ← getLeader sidekick;
  let gone_or_changed :=
    match lr with
    | Err e => IsNotFound e
    | Ok leader => negb (String.eqb (Name (pod_Meta leader)) (lst_Name (st_Leader (sk_Status sidekick))))
    end in
  if gone_or_changed then
    r ← call (OpGet KPod req);
    match r with
    | Ok pod => err ← deletePodAndResetStatus sidekick pod; mret (no_requeue, err)
    | Err _ =>
        match lr with
        | Err e => mret (requeue_10s, IgnoreNotFound (Some e))
        | Ok leader => syncOrCreate req sidekick leader
        end
    end
  else
    match lr with
    | Err e => mret (no_requeue, IgnoreNotFound (Some e))
    | Ok leader => syncOrCreate req sidekick leader
    end.

(** [Reconcile] after the Sidekick has been fetched and found not distributed. *)
Definition reconcileLocal (req : NamespacedName) (sidekick : Sidekick)
    : M (Result * option error) :=
  '(sidekick, err) ← handleSidekickFinalizer sidekick;
  match err with
  | Some e => mret (no_requeue, Some e)
  | None =>
      '(dropKey, err, sidekick) ← updateSidekickPhase req sidekick;
      match err with
      | Some e => mret (no_requeue, Some e)
      | None =>
          if (dropKey : bool) then mret (no_requeue, None) else reconcileLeader req sidekick
      end
  end.
End Pods.
