(* ===== verification/LocalProps.v ===== *)
(** * Properties of the local reconciler, for every behaviour of the server

    The theorems of this file quantify over all executions: the API server may
    answer anything, fail at any call, and change objects between calls. *)

From S2P Require Import Prelude Effects GoStd Types Cluster Kmodules Leader Phase PodBuilder Local.

(** ** Marked deletions *)

(** The call stored the operator's deletion mark on a pod. *)
Definition marks_initiator (e : apievent) : bool :=
  match written_pod e with
  | Some p => bool_decide (gm_lookup (Annotations (pod_Meta p)) deletionInitiatorKey =
                           Some deletionInitiatesBySidekickOperator)
  | None => false
  end.

(** Every pod deletion of the trace comes after a successful mark. *)
Abbreviation deletes_marked := (preceded (is_delete KPod) marks_initiator).

#[local] Hint Extern 1 (preceded _ _ [_]) => apply preceded_one; reflexivity : core.

Ltac traces_auto := repeat trace_step; auto.

Lemma CreateOrPatch_no_delete k o f : traces deletes_marked (CreateOrPatch k o f).
Proof. unfold CreateOrPatch. traces_auto. Qed.

Lemma updateSidekickStatus_no_delete sk : traces deletes_marked (updateSidekickStatus sk).
Proof. unfold updateSidekickStatus, PatchStatus. traces_auto. Qed.

Lemma annotate_initiator_marks p :
  gm_lookup (Annotations (pod_Meta (annotate_initiator p))) deletionInitiatorKey =
  Some deletionInitiatesBySidekickOperator.
Proof. simpl. apply lookup_insert_eq. Qed.

(** The key lemma: [deletePod] deletes only after the mark has been stored. *)
Lemma deletePod_marked pod : traces deletes_marked (deletePod pod).
Proof.
  unfold deletePod, setDeletionInitiatorAnnotation, CreateOrPatch.
  unfold traces. simpl. intros [cur|e]; simpl.
  - intros [md'|e]; simpl; [|by auto using preceded_cons]. intros r. apply preceded_cons; [done|].
    apply preceded_mark; [|done]. unfold marks_initiator, written_pod. simpl as_pod. cbv iota beta.
    by rewrite annotate_initiator_marks, bool_decide_eq_true_2.
  - destruct (IsNotFound e); simpl; [|by auto].
    intros [md'|e']; simpl; [|by auto using preceded_cons].
    intros r. apply preceded_cons; [done|]. apply preceded_mark; [|done]. unfold marks_initiator, written_pod.
    simpl as_pod. cbv iota beta. by rewrite annotate_initiator_marks, bool_decide_eq_true_2.
Qed.

#[local] Hint Extern 1 (traces (preceded _ _) (CreateOrPatch _ _ _)) => apply CreateOrPatch_no_delete : core.
#[local] Hint Resolve updateSidekickStatus_no_delete deletePod_marked : core.

Lemma deletePodAndResetStatus_marked sk pod : traces deletes_marked (deletePodAndResetStatus sk pod).
Proof. unfold deletePodAndResetStatus. traces_auto. Qed.
#[local] Hint Resolve deletePodAndResetStatus_marked : core.

Section Marked.
Context `{Mergo} `{ObjectHasher} `{SortSlice} `{LabelSelectors}.

Lemma syncExistingPod_marked sk leader pod : traces deletes_marked (syncExistingPod sk leader pod).
Proof. unfold syncExistingPod, gm_write. traces_auto. Qed.

Lemma createSidekickPod_marked sk leader : traces deletes_marked (createSidekickPod sk leader).
Proof. unfold createSidekickPod. traces_auto. Qed.
#[local] Hint Resolve syncExistingPod_marked createSidekickPod_marked : core.

Lemma syncOrCreate_marked req sk leader : traces deletes_marked (syncOrCreate req sk leader).
Proof. unfold syncOrCreate. traces_auto. Qed.
#[local] Hint Resolve syncOrCreate_marked : core.

Lemma getLeader_marked sk : traces deletes_marked (getLeader sk).
Proof. unfold getLeader, select_leader, pick_leader. traces_auto. Qed.
#[local] Hint Resolve getLeader_marked : core.

End Marked.

(** ** Panics and terminal phases *)

(** The server answers a status patch of the Sidekick with the status it was
    sent: no other writer changed it in between. *)
Definition echoes_status (e : apievent) : Prop :=
  match e with
  | Ev op r =>
      match op return answer op → Prop with
      | OpStatusPatch k _ md => λ r,
          match r with
          | Ok o => match as_sidekick o, as_sidekick md with
                    | Some a, Some b => sk_Status a = sk_Status b
                    | _, _ => True
                    end
          | Err _ => True
          end
      | _ => λ _, True
      end r
  end.

Definition is_terminal (phase : string) : bool :=
  String.eqb phase SideKickPhaseFailed || String.eqb phase SidekickPhaseSucceeded.

(** The Sidekick status a successful status patch sent. *)
Definition patched_status (e : apievent) : option SidekickStatus :=
  match e with
  | Ev op r =>
      match op return answer op → option SidekickStatus with
      | OpStatusPatch k _ md => λ r,
          match r with Ok _ => sk_Status <$> as_sidekick md | Err _ => None end
      | _ => λ _, None
      end r
  end.

Definition records_terminal (e : apievent) : bool :=
  match patched_status e with Some st => is_terminal (st_Phase st) | None => false end.

(** The call creates or deletes a pod, or the ManifestWork that carries one. *)
Definition pod_change (e : apievent) : bool :=
  is_create KPod e || is_delete KPod e || is_create KManifestWork e || is_delete KManifestWork e.

Definition counted (sk : Sidekick) : Prop := is_Some (st_FailureCount (sk_Status sk)).

Abbreviation quiet := (λ e, pod_change e = false).
Abbreviation live := (λ e, records_terminal e = false).

Lemma updateSidekickStatus_total (P : apievent → Prop) sk :
  (∀ key r, P (Ev (OpGet KSidekick key) r)) →
  (∀ cur r, P (Ev (OpStatusPatch KSidekick cur (set_sk_Status (sk_Status sk) cur)) r)) →
  total echoes_status P (λ p, sk_Status p.1 = sk_Status sk) (updateSidekickStatus sk).
Proof.
  intros HG HP. unfold updateSidekickStatus, PatchStatus.
  total_step; [by split; [apply HG|exact I]|]. intros [cur|e] _; [|by apply total_ret].
  total_step; [intros r Hr; split; [apply HP|exact Hr]|].
  intros [md|e] Hr; apply total_ret; [exact Hr|done].
Qed.

Lemma CreateOrPatch_total (E P : apievent → Prop) k (o : obj k) f :
  (∀ key r, P (Ev (OpGet k key) r)) → (∀ cur md r, P (Ev (OpPatch k cur md) r)) →
  (∀ md r, P (Ev (OpCreate k md) r)) → total E P (λ _, True) (CreateOrPatch k o f).
Proof.
  intros HG HP HC. unfold CreateOrPatch.
  total_step; [by split; [apply HG|exact I]|]. intros [cur|e] _.
  - total_step; [by split; [apply HP|exact I]|]. by intros [] _; apply total_ret.
  - destruct (IsNotFound e); [|by apply total_ret].
    total_step; [by split; [apply HC|exact I]|]. by intros [] _; apply total_ret.
Qed.

Lemma counted_init sk : counted (init_counters sk).
Proof. unfold counted, init_counters. simpl. eauto. Qed.

Lemma counted_put uid b sk : counted sk → counted (put_failure uid b sk).
Proof. unfold counted, put_failure. simpl. intros [m ->]. simpl. eauto. Qed.

Lemma counted_over_limit sk : counted sk → counted (over_limit sk).2.
Proof. unfold counted. by rewrite (proj1 (over_limit_snd sk)). Qed.

Lemma counted_observe pod sk : counted sk → counted (observe_pod pod sk).
Proof.
  intros Hc. unfold observe_pod. destruct (_ && _); [|done].
  set (s := put_failure _ _ _). assert (Hs : counted s) by by apply counted_put.
  destruct (negb _); [|done]. apply counted_over_limit in Hs.
  destruct (over_limit s) as [[] s']; simpl in *; [by apply counted_put|done].
Qed.

Lemma getSidekickPhase_status sk pod : sk_Status (getSidekickPhase sk pod).2 = sk_Status sk.
Proof.
  unfold getSidekickPhase. destruct (String.eqb (sp_RestartPolicy _) _); [done|].
  destruct (String.eqb (st_Phase _) _); [done|].
  destruct (match pod with Some _ => _ | None => _ end); [done|].
  pose proof (over_limit_snd sk) as (Hst & _).
  by destruct (over_limit sk) as [[] sk'].
Qed.

(** What [calculateSidekickPhase] guarantees of an execution: no pod is touched,
    the failure counter is allocated, and what is returned is what was recorded. *)
Definition phase_post (tr : list apievent) (o : outcome (res string * Sidekick)) : Prop :=
  Forall quiet tr ∧ ∃ r sk', o = Returned (r, sk') ∧ counted sk' ∧
    match r with
    | Ok ph => st_Phase (sk_Status sk') = ph ∧ (is_terminal ph = false → Forall live tr)
    | Err _ => True
    end.

Lemma store_phase_wpE ph (s2 : Sidekick) :
  counted s2 →
  wpE echoes_status ('(sidekick, err) ← updateSidekickStatus (upd_status (set_Phase ph) s2);
                     match err with
                     | Some e => mret (Err e, sidekick)
                     | None => mret (Ok ph, sidekick)
                     end) phase_post.
Proof.
  intros Hc. set (s3 := upd_status (set_Phase ph) s2).
  assert (Hc3 : counted s3) by done.
  apply wpE_bind.
  pose proof (updateSidekickStatus_total (λ e, quiet e ∧ (is_terminal ph = false → live e)) s3)
    as Hu.
  eapply wpE_mono; [|apply Hu; [done|]].
  - intros tr [[s4 err]|m] [Ht Hs4]; [|done]. simpl in Hs4.
    apply Forall_and in Ht as [Hq Hl].
    assert (Hc4 : counted s4) by (unfold counted; by rewrite Hs4).
    destruct err; apply wpE_ret; rewrite app_nil_r; (split; [done|]);
      eexists _, _; (split; [done|]); (split; [done|]); [done|].
    split; [by rewrite Hs4|]. intros Hterm. eapply Forall_impl; [exact Hl|]. auto.
  - intros cur r. split; [done|]. intros Hterm. unfold records_terminal. by destruct r.
Qed.

Lemma recordPhase_wpE pod sk :
  counted sk → wpE echoes_status (recordPhase pod sk) phase_post.
Proof.
  intros Hc. unfold recordPhase.
  pose proof (getSidekickPhase_status sk (Some pod)) as Hst.
  destruct (getSidekickPhase sk (Some pod)) as [ph s2]. simpl in Hst.
  apply store_phase_wpE. unfold counted. by rewrite Hst.
Qed.

Lemma calculateSidekickPhase_wpE sk : wpE echoes_status (calculateSidekickPhase sk) phase_post.
Proof.
  unfold calculateSidekickPhase. pose proof (counted_init sk) as Hs.
  assert (Hget : ∀ (e : apievent) tr o, quiet e → live e → phase_post tr o → phase_post (e :: tr) o).
  { intros e tr o He Hl (Hq & r & sk' & -> & Hc & Hr). split; [by constructor|].
    eexists _, _. split; [done|]. split; [done|]. destruct r; [|done].
    destruct Hr as [? Hr]. split; [done|]. constructor; auto. }
  apply wpE_bind. intros r _. simpl.
  assert (Hret : ∀ pod s, counted s → wpE echoes_status (recordPhase pod s)
    (λ tr o, phase_post (Ev (OpGet KPod (meta_key (sk_Meta (init_counters sk)))) r :: tr) o)).
  { intros pod s Hc. eapply wpE_mono; [|by apply recordPhase_wpE]. intros. by apply Hget. }
  destruct r as [pod|e]; [by apply Hret, counted_observe|].
  destruct (IsNotFound e); [by apply Hret|].
  apply wpE_ret. split; [by repeat constructor|]. eauto.
Qed.

(** When [updateSidekickPhase] lets the reconcile go on, the recorded phase is
    not terminal. *)
Definition gate_post (tr : list apievent) (o : outcome (bool * option error * Sidekick)) : Prop :=
  Forall quiet tr ∧ ∃ drop err sk', o = Returned (drop, err, sk') ∧ counted sk' ∧
    (drop = false → err = None →
     is_terminal (st_Phase (sk_Status sk')) = false ∧ Forall live tr).

Lemma dropIfTerminal_wpE req (tr : list apievent) ph sk :
  Forall quiet tr → counted sk → st_Phase (sk_Status sk) = ph →
  (is_terminal ph = false → Forall live tr) →
  wpE echoes_status (dropIfTerminal req ph sk) (λ tr' o, gate_post (tr ++ tr') o).
Proof.
  intros Hq Hc Hph Hlive.
  assert (Hstop : ∀ (tr' : list apievent) drop err, Forall quiet tr' →
    (drop = true ∨ is_Some err) → gate_post (tr ++ tr') (Returned (drop, err, sk))).
  { intros tr' drop err Hq' Hd. split; [by apply Forall_app|]. eexists _, _, _.
    split; [done|]. split; [done|]. intros -> ->. by destruct Hd as [|[]]. }
  unfold dropIfTerminal. destruct (String.eqb ph SideKickPhaseFailed) eqn:Ef.
  - intros [pod|e]; simpl; [|by intros _; apply Hstop; [repeat constructor|left]].
    destruct (String.eqb (pst_Phase (pod_Status pod)) PodRunning); simpl.
    + intros [p|e] _; apply Hstop; eauto; by repeat constructor.
    + by intros _; apply Hstop; [repeat constructor|left].
  - destruct (String.eqb (st_Phase (sk_Status sk)) SidekickPhaseSucceeded) eqn:Es;
      apply wpE_ret; [by apply Hstop; [constructor|left]|].
    rewrite app_nil_r. split; [done|]. eexists _, _, _. split; [done|]. split; [done|].
    intros _ _. subst ph. unfold is_terminal in *. rewrite Ef, Es in *.
    split; [done|]. by apply Hlive.
Qed.

(** The gate, from what the phase computation guarantees. *)
Lemma gate_wpE req (p : M (res string * Sidekick)) :
  wpE echoes_status p phase_post →
  wpE echoes_status ('(phase, sidekick) ← p;
    match phase with
    | Err e => mret (false, Some e, sidekick)
    | Ok phase => dropIfTerminal req phase sidekick
    end) gate_post.
Proof.
  intros Hp. apply wpE_bind. eapply wpE_mono; [|exact Hp].
  intros tr o (Hq & r & sk' & -> & Hc & Hr).
  destruct r as [ph|e]; [destruct Hr; by apply dropIfTerminal_wpE|].
  apply wpE_ret. rewrite app_nil_r. split; [done|]. eexists _, _, _. by repeat split.
Qed.

Lemma updateSidekickPhase_wpE req sk : wpE echoes_status (updateSidekickPhase req sk) gate_post.
Proof. apply gate_wpE, calculateSidekickPhase_wpE. Qed.

(** A status update of a non-terminal Sidekick records no terminal phase. *)
Lemma updateSidekickStatus_live sk :
  is_terminal (st_Phase (sk_Status sk)) = false →
  total echoes_status live (λ _, True) (updateSidekickStatus sk).
Proof.
  intros Hp. eapply total_mono; [exact (λ _ He, He)|done|].
  apply updateSidekickStatus_total; [done|]. intros cur [md|e]; [exact Hp|done].
Qed.

Lemma CreateOrPatch_live k (o : obj k) f : total echoes_status live (λ _, True) (CreateOrPatch k o f).
Proof. by apply CreateOrPatch_total. Qed.

Lemma deletePod_live pod : total echoes_status live (λ _, True) (deletePod pod).
Proof.
  unfold deletePod, setDeletionInitiatorAnnotation.
  eapply total_bind; [apply CreateOrPatch_live|]. intros [p [e|]] _; [by apply total_ret|].
  total_step; [by split; [|exact I]|]. intros r _. by apply total_ret.
Qed.

Lemma deletePodAndResetStatus_live sk pod :
  is_terminal (st_Phase (sk_Status sk)) = false →
  total echoes_status live (λ _, True) (deletePodAndResetStatus sk pod).
Proof.
  intros Hp. unfold deletePodAndResetStatus.
  eapply total_bind; [apply deletePod_live|]. intros [e|] _; [by apply total_ret|].
  eapply total_bind; [by apply updateSidekickStatus_live|]. intros [] _. by apply total_ret.
Qed.

Section Live.
Context `{Mergo} `{ObjectHasher} `{SortSlice} `{LabelSelectors}.

Lemma syncExistingPod_live sk leader pod :
  is_terminal (st_Phase (sk_Status sk)) = false → counted sk →
  total echoes_status live (λ _, True) (syncExistingPod sk leader pod).
Proof.
  intros Hp [m Hm]. unfold syncExistingPod. destruct (podNeedsRecreate _ _ _).
  - eapply (total_bind _ _ (λ s, is_terminal (st_Phase (sk_Status s)) = false)).
    + destruct (_ && _); [|by apply total_ret]. rewrite Hm. simpl. by apply total_ret.
    + intros s Hs. by apply deletePodAndResetStatus_live.
  - eapply total_bind; [by apply updateSidekickStatus_live|]. intros [] _. by apply total_ret.
Qed.

Lemma newSidekickPod_status sk leader :
  sk_Status (newSidekickPod sk leader).2 = sk_Status sk.
Proof. unfold newSidekickPod. by repeat case_match_goal. Qed.

Lemma createSidekickPod_live sk leader :
  is_terminal (st_Phase (sk_Status sk)) = false →
  total echoes_status live (λ _, True) (createSidekickPod sk leader).
Proof.
  intros Hp. unfold createSidekickPod. pose proof (newSidekickPod_status sk leader) as Hs.
  destruct (newSidekickPod sk leader) as [[pod|e] sk']; [|by apply total_ret]. simpl in Hs.
  eapply total_bind; [apply CreateOrPatch_live|]. intros [p [e|]] _; [by apply total_ret|].
  eapply total_bind; [apply updateSidekickStatus_live; simpl; by rewrite Hs|].
  intros [] _. by apply total_ret.
Qed.

Lemma syncOrCreate_live req sk leader :
  is_terminal (st_Phase (sk_Status sk)) = false → counted sk →
  total echoes_status live (λ _, True) (syncOrCreate req sk leader).
Proof.
  intros Hp Hc. unfold syncOrCreate. total_step; [by split; [|exact I]|].
  intros [pod|e] _.
  - eapply total_bind; [by apply syncExistingPod_live|]. intros. by apply total_ret.
  - destruct (IsNotFound e); [|by apply total_ret].
    eapply total_bind; [by apply createSidekickPod_live|]. intros. by apply total_ret.
Qed.

Lemma getLeader_live sk : total echoes_status live (λ _, True) (getLeader sk).
Proof.
  unfold getLeader. destruct (negb _); [by total_step; split|].
  destruct (match ls_Selector _ with Some _ => _ | None => _ end) as [sel|e]; [|by apply total_ret].
  total_step; [by split; [|exact I]|]. intros [items|e] _; [|by apply total_ret].
  by destruct (select_leader_cases (ls_SelectionPolicy (sp_Leader (sk_Spec sk))) items)
    as [[_ ->]|(p & _ & ->)]; apply total_ret.
Qed.

Lemma reconcileLeader_live req sk :
  is_terminal (st_Phase (sk_Status sk)) = false → counted sk →
  total echoes_status live (λ _, True) (reconcileLeader req sk).
Proof.
  intros Hp Hc. unfold reconcileLeader. eapply total_bind; [apply getLeader_live|].
  intros lr _. destruct (match lr with Ok _ => _ | Err _ => _ end).
  - total_step; [by split; [|exact I]|]. intros [pod|e] _.
    + eapply total_bind; [by apply deletePodAndResetStatus_live|]. intros. by apply total_ret.
    + destruct lr; [by apply syncOrCreate_live|by apply total_ret].
  - destruct lr; [by apply syncOrCreate_live|by apply total_ret].
Qed.

Lemma handleSidekickFinalizer_live sk :
  total echoes_status
    (λ e, live e ∧ (DeletionTimestamp (sk_Meta sk) = None → quiet e)) (λ _, True)
    (handleSidekickFinalizer sk).
Proof.
  unfold handleSidekickFinalizer, terminate.
  destruct (DeletionTimestamp (sk_Meta sk)) eqn:Ed.
  - destruct (_ && _); [|by apply CreateOrPatch_total].
    total_step; [by split; [|exact I]|]. intros r _.
    destruct (match r with Ok _ => _ | Err _ => _ end); [by apply total_ret|].
    by apply CreateOrPatch_total.
  - by apply CreateOrPatch_total.
Qed.

(** Every execution returns; it records no terminal phase, or, for a Sidekick
    that is not being deleted, it leaves pods alone. *)
Lemma reconcileLocal_wpE req sk :
  wpE echoes_status (reconcileLocal req sk) (λ tr o,
    (∃ r, o = Returned r) ∧
    (Forall live tr ∨ (DeletionTimestamp (sk_Meta sk) = None → Forall quiet tr))).
Proof.
  unfold reconcileLocal. apply wpE_bind. eapply wpE_mono; [|apply handleSidekickFinalizer_live].
  intros tr0 [[sk0 err]|m] [Ht0 Ho]; [|done]. apply Forall_and in Ht0 as [Hl0 Hq0].
  destruct err; [by apply wpE_ret; rewrite app_nil_r; eauto|].
  apply wpE_bind. eapply wpE_mono; [|apply updateSidekickPhase_wpE].
  intros tr1 o (Hq1 & drop & err & sk1 & -> & Hc & Hgo).
  assert (Hquiet : DeletionTimestamp (sk_Meta sk) = None → Forall quiet (tr0 ++ tr1)).
  { intros Hd. apply Forall_app. split; [|done]. eapply Forall_impl; [exact Hq0|]. auto. }
  destruct err; [by apply wpE_ret; rewrite app_nil_r; eauto|].
  destruct drop; [by apply wpE_ret; rewrite app_nil_r; eauto|].
  destruct (Hgo eq_refl eq_refl) as [Hp Hl1].
  eapply wpE_mono; [|by apply reconcileLeader_live].
  intros tr2 [r|m] [Hl2 Hr]; [|done]. split; [eauto|]. left.
  rewrite !Forall_app. done.
Qed.


(** A failed pod is replaced only under restart policy Never.  If hash, leader
    and node of the stored pod match, then under any other policy no execution
    of the pass deletes it, however it failed; under Always the phase is
    Degraded, not Failed, so nothing of the operator starts a new pod. *)
Theorem failed_pod_not_replaced sk leader pod tr o :
  sp_RestartPolicy (sk_Spec sk) ≠ RestartPolicyNever →
  gm_str (Annotations (pod_Meta pod)) keyHash = GenerationHash (sk_Meta sk) →
  gm_str (Annotations (pod_Meta pod)) keyLeader = Name (pod_Meta leader) →
  ps_NodeName (pod_Spec pod) = ps_NodeName (pod_Spec leader) →
  pst_Phase (pod_Status pod) = PodFailed →
  exec (syncExistingPod sk leader pod) tr o →
  Forall (λ e, pod_change e = false) tr ∧
  (sp_RestartPolicy (sk_Spec sk) = RestartPolicyAlways →
   (getSidekickPhase sk (Some pod)).1 = SideKickPhaseDegraded).
Proof.
  intros Hnv Hh Hl Hn Hf He. split.
  - revert He. apply (proj1 (wp_exec _ (λ tr _, Forall quiet tr))).
    unfold syncExistingPod, podNeedsRecreate. rewrite Hh, Hl, Hn, !String.eqb_refl.
    rewrite (proj2 (String.eqb_neq _ _) Hnv), andb_false_r. cbn [negb orb].
    change (traces (Forall quiet) ('(_, err) ← updateSidekickStatus (upd_status (λ st,
      set_ObservedGeneration (Generation (sk_Meta sk)) (set_Pod (pst_Phase (pod_Status pod)) st)) sk);
      mret err)).
    unfold updateSidekickStatus, PatchStatus. repeat trace_step; by repeat constructor.
  - intros Ha. unfold getSidekickPhase, isSidekickPodRunning. rewrite Ha, String.eqb_refl, Hf.
    by destruct (String.eqb (UID (pod_Meta pod)) "" || _).
Qed.
End Live.
