(* ===== verification/Server.v ===== *)
(** * A well-behaved API server

    The theorems about executions assume nothing of the server.  What the
    operator achieves, however, it achieves through the server, so the theorems
    about outcomes are proved against this interface: a server that answers
    every request, applies it to the stored object and shows it to the next
    read.  [Store.v] gives an implementation. *)

From S2P Require Import Prelude Effects Types Cluster Kmodules.

(** The server drops empty maps: they are omitted from the JSON it stores. *)
Definition norm_status (st : SidekickStatus) : SidekickStatus :=
  set_FailureCount (non_empty (st_FailureCount st))
    (set_RestartCounts (non_empty (st_ContainerRestartCountsPerPod st)) st).

Definition obj_norm {k : kind} : obj k → obj k :=
  match k return obj k → obj k with
  | KSidekick => upd_status norm_status
  | _ => λ o, o
  end.

(** A patch of the metadata: only annotations and finalizers differ, and
    annotations are not emptied. *)
Definition meta_patch (m m' : ObjectMeta) : Prop :=
  m' = set_Finalizers (Finalizers m') (set_Annotations (Annotations m') m) ∧
  (Annotations m' = Annotations m ∨ is_Some (non_empty (Annotations m'))).

(** What the server keeps of a created object. *)
Definition created {k : kind} (md o : obj k) : Prop :=
  obj_key o = obj_key md ∧ DeletionTimestamp (obj_meta o) = None ∧
  Annotations (obj_meta o) = Annotations (obj_meta md) ∧
  Finalizers (obj_meta o) = Finalizers (obj_meta md) ∧
  OwnerReferences (obj_meta o) = OwnerReferences (obj_meta md) ∧
  match as_pod md, as_pod o with
  | Some pmd, Some po => ps_NodeName (pod_Spec po) = ps_NodeName (pod_Spec pmd) ∧
                         pst_Phase (pod_Status po) = "Pending" ∧
                         pst_ContainerStatuses (pod_Status po) = [] ∧
                         pst_InitContainerStatuses (pod_Status po) = []
  | _, _ => True
  end.

(** An object whose deletion was requested and that no finalizer holds. *)
Definition released (m : ObjectMeta) : bool :=
  bool_decide (is_Some (DeletionTimestamp m)) && bool_decide (Finalizers m = []).

Definition mark_deleted (t : Z) (m : ObjectMeta) : ObjectMeta :=
  {| Name := Name m; GenerateName := GenerateName m; Namespace := Namespace m; UID := UID m;
     Generation := Generation m; DeletionTimestamp := Some (default t (DeletionTimestamp m));
     Labels := Labels m; Annotations := Annotations m; OwnerReferences := OwnerReferences m;
     Finalizers := Finalizers m |}.

(** The object a call may change. *)
Definition op_target (op : apiop) : option (kind * NamespacedName) :=
  match op with
  | OpCreate k o => Some (k, obj_key o)
  | OpPatch k cur _ => Some (k, obj_key cur)
  | OpStatusPatch k cur _ => Some (k, obj_key cur)
  | OpStatusUpdate k o => Some (k, obj_key o)
  | OpDelete k key => Some (k, key)
  | _ => None
  end.

Class ApiServer (W : Type) := {
  serve : ∀ op : apiop, W → answer op * W;
  stored : ∀ k : kind, W → NamespacedName → option (obj k);

  (** Reads see what is stored. *)
  serve_get : ∀ k key w o,
    stored k w key = Some o → serve (OpGet k key) w = (Ok o, w);
  serve_get_missing : ∀ k key w,
    stored k w key = None →
    ∃ e, IsNotFound e = true ∧ serve (OpGet k key) w = (Err e, w);

  (** A call changes at most its target. *)
  serve_frame : ∀ op w k key,
    op_target op ≠ Some (k, key) → stored k (serve op w).2 key = stored k w key;

  (** Creation. *)
  serve_create : ∀ k md w,
    stored k w (obj_key md) = None → Annotations (obj_meta md) ≠ Some ∅ →
    ∃ o w', serve (OpCreate k md) w = (Ok o, w') ∧ created md o ∧
      stored k w' (obj_key md) = Some o;

  (** A metadata patch; the last finalizer of a deleted object releases it. *)
  serve_patch : ∀ k cur m' w,
    stored k w (obj_key cur) = Some cur → meta_patch (obj_meta cur) m' →
    ∃ w', serve (OpPatch k cur (obj_set_meta m' cur)) w = (Ok (obj_set_meta m' cur), w') ∧
      stored k w' (obj_key cur) =
        if released m' then None else Some (obj_set_meta m' cur);

  (** A status patch. *)
  serve_status_patch : ∀ k cur src w,
    stored k w (obj_key cur) = Some cur →
    ∃ w', serve (OpStatusPatch k cur (obj_set_status src cur)) w =
            (Ok (obj_set_status src cur), w') ∧
      stored k w' (obj_key cur) = Some (obj_norm (obj_set_status src cur));

  (** A status update. *)
  serve_status_update : ∀ k o cur w,
    stored k w (obj_key o) = Some cur →
    ∃ w', serve (OpStatusUpdate k o) w = (Ok (obj_set_status o cur), w') ∧
      stored k w' (obj_key o) = Some (obj_norm (obj_set_status o cur));

  (** Deleting an object a finalizer holds only marks it. *)
  serve_delete_held : ∀ k key w o,
    stored k w key = Some o → Finalizers (obj_meta o) ≠ [] →
    ∃ t w', serve (OpDelete k key) w = (Ok tt, w') ∧
      stored k w' key = Some (obj_set_meta (mark_deleted t (obj_meta o)) o)
}.

(** The server never hands out a uid twice: a uid that was once in use stays so,
    and a created object gets one that was not. *)
Class FreshUids (W : Type) `{ApiServer W} := {
  used : W → string → Prop;
  serve_used : ∀ op w u, used w u → used (serve op w).2 u;
  serve_create_uid : ∀ k md w o w',
    serve (OpCreate k md) w = (Ok o, w') →
    ¬ used w (UID (obj_meta o)) ∧ used w' (UID (obj_meta o))
}.

(** The states a server goes through while it serves calls. *)
Definition served `{ApiServer W} : W → W → Prop := rtc (λ w w', ∃ op, w' = (serve op w).2).

#[export] Instance served_preorder `{ApiServer W} : PreOrder (served (W := W)).
Proof. unfold served. apply _. Qed.

Lemma run_served `{ApiServer W} {A} (p : M A) (w : W) : served w (run serve p w).2.
Proof.
  revert w. induction p as [a|s|op k IH]; intros w; simpl; [reflexivity..|].
  destruct (serve op w) as [r w'] eqn:E. etransitivity; [|apply IH].
  apply rtc_once. exists op. by rewrite E.
Qed.

Lemma run_served_eq `{ApiServer W} {A} (p : M A) (w w' : W) o :
  run serve p w = (o, w') → served w w'.
Proof. intros E. pose proof (run_served p w) as Hs. by rewrite E in Hs. Qed.

Lemma served_used `{FreshUids W} (w w' : W) u : served w w' → used w u → used w' u.
Proof. induction 1 as [|w w1 w2 (op & ->) _ IH]; [done|]. intros Hu. by apply IH, serve_used. Qed.

(** ** What the client helpers do on such a server *)

Section Helpers.
Context `{ApiServer W}.

Lemma obj_key_set_meta k (o : obj k) m' :
  meta_patch (obj_meta o) m' → obj_key (obj_set_meta m' o) = obj_key o.
Proof. intros [E _]. unfold obj_key, meta_key. destruct k; simpl in *; by rewrite E. Qed.

(** [CreateOrPatch] of a stored object with a metadata transform. *)
Lemma CreateOrPatch_stored k (o cur : obj k) f m' w :
  stored k w (obj_key o) = Some cur → obj_key cur = obj_key o →
  f cur false = obj_set_meta m' cur → meta_patch (obj_meta cur) m' →
  ∃ w', run serve (CreateOrPatch k o f) w = (Returned (obj_set_meta m' cur, None), w') ∧
    stored k w' (obj_key o) = (if released m' then None else Some (obj_set_meta m' cur)) ∧
    ∀ k' key', (k', key') ≠ (k, obj_key o) → stored k' w' key' = stored k' w key'.
Proof.
  intros Hs Hk Hf Hm.
  destruct (serve_patch k cur m' w) as (w' & Hp & Hst); [by rewrite Hk|done|].
  exists w'. unfold CreateOrPatch. rewrite run_bind. simpl.
  rewrite (serve_get k _ w cur Hs). simpl. rewrite Hf, Hp. simpl. rewrite <- Hk. split; [done|].
  split; [done|]. intros k' key' Hne.
  pose proof (serve_frame (OpPatch k cur (obj_set_meta m' cur)) w k' key') as Hfr.
  rewrite Hp in Hfr. apply Hfr. simpl. congruence.
Qed.

Lemma CreateOrPatch_missing k (o : obj k) f w :
  stored k w (obj_key o) = None → obj_key (f o true) = obj_key o →
  Annotations (obj_meta (f o true)) ≠ Some ∅ →
  ∃ o' w', run serve (CreateOrPatch k o f) w = (Returned (o', None), w') ∧
    created (f o true) o' ∧ stored k w' (obj_key o) = Some o' ∧
    serve (OpCreate k (f o true)) w = (Ok o', w') ∧
    ∀ k' key', (k', key') ≠ (k, obj_key o) → stored k' w' key' = stored k' w key'.
Proof.
  intros Hs Hk Ha. destruct (serve_get_missing k _ w Hs) as (e & He & Hg).
  destruct (serve_create k (f o true) w) as (o' & w' & Hc & Hcr & Hst); [by rewrite Hk|done|].
  exists o', w'. unfold CreateOrPatch. rewrite run_bind. simpl. rewrite Hg. simpl. rewrite He.
  simpl. rewrite Hc. simpl. rewrite <- Hk. do 4 (split; [done|]).
  intros k' key' Hne.
  pose proof (serve_frame (OpCreate k (f o true)) w k' key') as Hfr.
  rewrite Hc in Hfr. apply Hfr. simpl. congruence.
Qed.

Lemma PatchStatus_stored k (o cur src : obj k) f w :
  stored k w (obj_key o) = Some cur → obj_key cur = obj_key o →
  f cur = obj_set_status src cur →
  ∃ w', run serve (PatchStatus k o f) w =
          (Returned (obj_set_status src cur, None), w') ∧
    stored k w' (obj_key o) = Some (obj_norm (obj_set_status src cur)) ∧
    ∀ k' key', (k', key') ≠ (k, obj_key o) → stored k' w' key' = stored k' w key'.
Proof.
  intros Hs Hk Hf.
  destruct (serve_status_patch k cur src w) as (w' & Hp & Hst); [by rewrite Hk|].
  exists w'. unfold PatchStatus. rewrite run_bind. simpl.
  rewrite (serve_get k _ w cur Hs). simpl. rewrite Hf, Hp. simpl. rewrite <- Hk. split; [done|].
  split; [done|]. intros k' key' Hne.
  pose proof (serve_frame (OpStatusPatch k cur (obj_set_status src cur)) w k' key') as Hfr.
  rewrite Hp in Hfr. apply Hfr. simpl. congruence.
Qed.
End Helpers.
