(* ===== verification/Store.v ===== *)
(** * A concrete API server

    One map per kind; creation assigns a uid from a counter, deletion follows
    the finalizers, statuses are written through the status subresource.  It
    implements the interface of [Server.v], which is therefore consistent, and
    the witnesses of the development run on it. *)

From S2P Require Import Prelude Effects Types Cluster Kmodules Server.

Record store := {
  s_pods : gmap NamespacedName Pod;
  s_sidekicks : gmap NamespacedName Sidekick;
  s_secrets : gmap NamespacedName Secret;
  s_works : gmap NamespacedName ManifestWork;
  s_exports : gmap NamespacedName ServiceExport;
  s_snapshots : gmap NamespacedName Snapshot;
  s_namespaces : gmap NamespacedName NamespaceObj;
  s_next : N;
  s_clock : Z
}.

Definition empty_store : store :=
  {| s_pods := ∅; s_sidekicks := ∅; s_secrets := ∅; s_works := ∅; s_exports := ∅;
     s_snapshots := ∅; s_namespaces := ∅; s_next := 0; s_clock := 1000 |}.

Definition objs (k : kind) (s : store) : gmap NamespacedName (obj k) :=
  match k return gmap NamespacedName (obj k) with
  | KPod => s_pods s
  | KSidekick => s_sidekicks s
  | KSecret => s_secrets s
  | KManifestWork => s_works s
  | KServiceExport => s_exports s
  | KSnapshot => s_snapshots s
  | KNamespace => s_namespaces s
  end.

Definition set_objs (k : kind) : gmap NamespacedName (obj k) → store → store :=
  match k return gmap NamespacedName (obj k) → store → store with
  | KPod => λ m s, {| s_pods := m; s_sidekicks := s_sidekicks s; s_secrets := s_secrets s;
      s_works := s_works s; s_exports := s_exports s; s_snapshots := s_snapshots s;
      s_namespaces := s_namespaces s; s_next := s_next s; s_clock := s_clock s |}
  | KSidekick => λ m s, {| s_pods := s_pods s; s_sidekicks := m; s_secrets := s_secrets s;
      s_works := s_works s; s_exports := s_exports s; s_snapshots := s_snapshots s;
      s_namespaces := s_namespaces s; s_next := s_next s; s_clock := s_clock s |}
  | KSecret => λ m s, {| s_pods := s_pods s; s_sidekicks := s_sidekicks s; s_secrets := m;
      s_works := s_works s; s_exports := s_exports s; s_snapshots := s_snapshots s;
      s_namespaces := s_namespaces s; s_next := s_next s; s_clock := s_clock s |}
  | KManifestWork => λ m s, {| s_pods := s_pods s; s_sidekicks := s_sidekicks s;
      s_secrets := s_secrets s; s_works := m; s_exports := s_exports s;
      s_snapshots := s_snapshots s;
      s_namespaces := s_namespaces s; s_next := s_next s; s_clock := s_clock s |}
  | KServiceExport => λ m s, {| s_pods := s_pods s; s_sidekicks := s_sidekicks s;
      s_secrets := s_secrets s; s_works := s_works s; s_exports := m;
      s_snapshots := s_snapshots s;
      s_namespaces := s_namespaces s; s_next := s_next s; s_clock := s_clock s |}
  | KSnapshot => λ m s, {| s_pods := s_pods s; s_sidekicks := s_sidekicks s;
      s_secrets := s_secrets s; s_works := s_works s; s_exports := s_exports s;
      s_snapshots := m;
      s_namespaces := s_namespaces s; s_next := s_next s; s_clock := s_clock s |}
  | KNamespace => λ m s, {| s_pods := s_pods s; s_sidekicks := s_sidekicks s;
      s_secrets := s_secrets s; s_works := s_works s; s_exports := s_exports s;
      s_snapshots := s_snapshots s;
      s_namespaces := m; s_next := s_next s; s_clock := s_clock s |}
  end.

Lemma objs_set_eq k m s : objs k (set_objs k m s) = m.
Proof. by destruct k. Qed.

Lemma objs_set_ne k k' m s : k' ≠ k → objs k' (set_objs k m s) = objs k' s.
Proof. by destruct k, k'. Qed.

Definition put {k : kind} (o : obj k) (s : store) : store :=
  set_objs k (<[obj_key o := o]> (objs k s)) s.

(** The object as the server first stores it. *)
Definition fresh {k : kind} (n : N) (md : obj k) : obj k :=
  let m := obj_meta md in
  let m' := {| Name := Name m; GenerateName := GenerateName m; Namespace := Namespace m;
               UID := "uid-" +:+ pretty n; Generation := 1; DeletionTimestamp := None;
               Labels := non_empty (Labels m); Annotations := non_empty (Annotations m);
               OwnerReferences := OwnerReferences m; Finalizers := Finalizers m |} in
  match k return obj k → obj k with
  | KPod => λ p, set_pod_Status
      {| pst_Phase := "Pending"; pst_PodIP := ""; pst_Conditions := [];
         pst_ContainerStatuses := []; pst_InitContainerStatuses := [] |} p
  | _ => λ o, o
  end (obj_set_meta m' md).

Definition tick (s : store) : store :=
  {| s_pods := s_pods s; s_sidekicks := s_sidekicks s; s_secrets := s_secrets s;
     s_works := s_works s; s_exports := s_exports s; s_snapshots := s_snapshots s;
     s_namespaces := s_namespaces s; s_next := s_next s + 1; s_clock := s_clock s |}.

Definition not_found : error := NewNotFound "objects" "".
Definition conflict : error := ApiError ReasonOther "object exists or was modified".

Definition label_match (sel : option LabelSelector) (m : ObjectMeta) : bool :=
  match sel with
  | None => true
  | Some sel => forallb (λ kv, bool_decide (gm_lookup (Labels m) kv.1 = Some kv.2))
                  (map_to_list (default ∅ (MatchLabels sel)))
  end.

Definition list_objs (k : kind) (ns : option string) (sel : option LabelSelector) (s : store)
    : list (obj k) :=
  List.filter (λ o, (match ns with Some n => String.eqb n (Namespace (obj_meta o)) | None => true end)
                    && label_match sel (obj_meta o))
    (map snd (map_to_list (objs k s))).

Definition store_serve (op : apiop) (s : store) : answer op * store :=
  match op return answer op * store with
  | OpGet k key => (match objs k s !! key with Some o => Ok o | None => Err not_found end, s)
  | OpList k ns sel => (Ok (list_objs k ns sel s), s)
  | OpCreate k md =>
      match objs k s !! obj_key md with
      | Some _ => (Err conflict, s)
      | None => let o := fresh (s_next s) md in
                (Ok o, tick (set_objs k (<[obj_key md := o]> (objs k s)) s))
      end
  | OpPatch k cur md =>
      match objs k s !! obj_key cur with
      | None => (Err not_found, s)
      | Some _ =>
          (Ok md, set_objs k
            (if released (obj_meta md) then delete (obj_key cur) (objs k s)
             else <[obj_key cur := md]> (objs k s)) s)
      end
  | OpStatusPatch k cur md =>
      match objs k s !! obj_key cur with
      | None => (Err not_found, s)
      | Some o => (Ok (obj_set_status md cur),
                   set_objs k (<[obj_key cur := obj_norm (obj_set_status md o)]> (objs k s)) s)
      end
  | OpStatusUpdate k md =>
      match objs k s !! obj_key md with
      | None => (Err not_found, s)
      | Some o => (Ok (obj_set_status md o),
                   set_objs k (<[obj_key md := obj_norm (obj_set_status md o)]> (objs k s)) s)
      end
  | OpDelete k key =>
      match objs k s !! key with
      | None => (Err not_found, s)
      | Some o =>
          (Ok tt, set_objs k
            (if bool_decide (Finalizers (obj_meta o) = []) then delete key (objs k s)
             else <[key := obj_set_meta (mark_deleted (s_clock s) (obj_meta o)) o]> (objs k s)) s)
      end
  | OpOCMGet ns name =>
      (match s_works s !! mkKey ns name with Some o => Ok o | None => Err not_found end, s)
  | OpOCMList ns _ => (Ok (list_objs KManifestWork (Some ns) None s), s)
  | OpNow => (s_clock s, s)
  | OpRand n => (Ok (pretty (s_next s)), tick s)
  | OpGetenv name =>
      (if String.eqb name "POD_NAME" then "kubedb-sidekick-5f9d777f8f-rjvdq"
       else if String.eqb name "POD_NAMESPACE" then "kubedb" else "", s)
  | OpReadFile _ => (Ok "search demo.svc.cluster.local svc.cluster.local cluster.local", s)
  end.

Lemma non_empty_id {A} (m : gomap A) : m ≠ Some ∅ → non_empty m = m.
Proof. destruct m as [m|]; simpl; [|done]. intros Hm. by case_decide; [subst|]. Qed.

Lemma obj_meta_set k (o : obj k) m : obj_meta (obj_set_meta m o) = m.
Proof. by destruct k. Qed.

Lemma fresh_created k n (md : obj k) :
  Annotations (obj_meta md) ≠ Some ∅ → created md (fresh n md).
Proof.
  intros Ha. unfold created, fresh.
  destruct k; simpl in *; rewrite (non_empty_id _ Ha); repeat split; done.
Qed.

Lemma status_set_idem k (src o : obj k) :
  obj_set_status (obj_set_status src o) o = obj_set_status src o.
Proof. by destruct k. Qed.

Lemma objs_tick k s : objs k (tick s) = objs k s.
Proof. by destruct k. Qed.

(** Writing the map of a kind changes nothing else, provided the map changes at
    one key only. *)
Lemma set_objs_frame k key m s k' key' :
  (∀ x, x ≠ key → m !! x = objs k s !! x) → (k, key) ≠ (k', key') →
  objs k' (set_objs k m s) !! key' = objs k' s !! key'.
Proof.
  intros Hm Hne. destruct (decide (k' = k)) as [->|Hk].
  - rewrite objs_set_eq. apply Hm. congruence.
  - by rewrite objs_set_ne.
Qed.

Lemma store_frame op s k key :
  op_target op ≠ Some (k, key) → objs k (store_serve op s).2 !! key = objs k s !! key.
Proof.
  intros Hne. destruct op; simpl in *; rewrite ?objs_tick; try done;
    case_match; simpl; rewrite ?objs_tick; try done;
    (eapply set_objs_frame; [|intros E; by apply Hne; f_equal]);
    intros x Hx; try case_match;
    by rewrite ?lookup_delete_ne, ?lookup_insert_ne by done.
Qed.

#[export, refine] Instance store_server : ApiServer store := {|
  serve := store_serve;
  stored k s key := objs k s !! key;
  serve_frame := store_frame
|}.
Proof.
  - intros k key w o Hs. simpl. by rewrite Hs.
  - intros k key w Hs. exists not_found. simpl. by rewrite Hs.
  - intros k md w Hs Ha. simpl. rewrite Hs. eexists _, _. split; [done|].
    split; [by apply fresh_created|]. by rewrite objs_tick, objs_set_eq, lookup_insert_eq.
  - intros k cur m' w Hs Hm. simpl. rewrite Hs, obj_meta_set. eexists. split; [done|].
    rewrite objs_set_eq. destruct (released m'); [apply lookup_delete_eq|apply lookup_insert_eq].
  - intros k cur src w Hs. simpl. rewrite Hs, status_set_idem. eexists. split; [done|].
    by rewrite objs_set_eq, lookup_insert_eq.
  - intros k o cur w Hs. simpl. rewrite Hs. eexists. split; [done|].
    by rewrite objs_set_eq, lookup_insert_eq.
  - intros k key w o Hs Hf. simpl. rewrite Hs. eexists _, _. split; [done|].
    rewrite objs_set_eq, bool_decide_eq_false_2 by done. apply lookup_insert_eq.
Defined.

(** The counter the uids come from only grows. *)
Lemma next_set_objs k m s : s_next (set_objs k m s) = s_next s.
Proof. by destruct k. Qed.

Lemma store_next op s : (s_next s ≤ s_next (store_serve op s).2)%N.
Proof. destruct op; simpl; repeat case_match; simpl; rewrite ?next_set_objs; simpl; lia. Qed.

Lemma fresh_uid k n (md : obj k) : UID (obj_meta (fresh n md)) = "uid-" +:+ pretty n.
Proof. by destruct k. Qed.

#[export, refine] Instance store_uids : FreshUids store := {|
  used s u := ∃ n, u = "uid-" +:+ pretty n ∧ (n < s_next s)%N
|}.
Proof.
  - intros op s u (n & -> & Hn). exists n. split; [done|].
    pose proof (store_next op s). simpl. lia.
  - intros k md s o s' E. simpl in E. case_match; [done|]. simplify_eq. rewrite fresh_uid. split.
    + intros (n & En & Hn). simplify_eq. lia.
    + exists (s_next s). split; [done|]. simpl. rewrite next_set_objs. lia.
Defined.
