(* ===== verification/LocalRun.v ===== *)
(** * What the local reconciler achieves on a well-behaved server

    The theorems of this file run the operations of [Local.v] on any
    implementation of the interface of [Server.v]. *)

From S2P Require Import Prelude Effects GoStd Types Cluster Kmodules Leader Phase PodBuilder Local Server.

(** The Sidekick after the pod [uid] has been recorded as failed, as stored. *)
Definition record_failure (uid : string) (sk : Sidekick) : Sidekick :=
  obj_norm (k := KSidekick) (put_failure uid true
    (upd_status (λ st, set_FailureCount (gm_make (st_FailureCount st)) st) sk)).

Lemma record_failure_map uid sk :
  st_FailureCount (sk_Status (record_failure uid sk)) =
  Some (<[uid := true]> (default ∅ (st_FailureCount (sk_Status sk)))).
Proof. simpl. by rewrite decide_False by apply insert_non_empty. Qed.

Lemma record_failure_failures uid sk :
  failures (record_failure uid sk) =
  failures sk + (if bool_decide (gm_lookup (st_FailureCount (sk_Status sk)) uid = Some true)
                 then 0 else 1).
Proof.
  unfold failures at 1. rewrite record_failure_map, map_sum_insert. unfold failures.
  destruct (st_FailureCount (sk_Status sk)) as [m|]; simpl; [|by rewrite delete_empty].
  destruct (m !! uid) as [b|] eqn:E.
  - rewrite (map_sum_delete _ m uid b E). destruct b; simpl; lia.
  - rewrite bool_decide_eq_false_2 by done. rewrite delete_id by done. lia.
Qed.

(** The pod after the operator's finalizer has been removed. *)
Definition release_pod (pod : Pod) : Pod :=
  set_pod_Meta (RemoveFinalizer (pod_Meta pod) getFinalizerName) pod.

Lemma release_pod_meta_patch pod : meta_patch (pod_Meta pod) (pod_Meta (release_pod pod)).
Proof. split; [|by left]. by destruct pod as [? ? [] ? ?]. Qed.

Lemma annotate_initiator_meta_patch pod :
  meta_patch (pod_Meta pod) (pod_Meta (annotate_initiator pod)).
Proof.
  split; [by destruct pod as [? ? [] ? ?]|]. right. simpl.
  rewrite decide_False by apply insert_non_empty. eauto.
Qed.

Section Run.
Context `{ApiServer W}.
Implicit Types (w : W) (req : NamespacedName).

Lemma updateSidekickStatus_run sk cur req w :
  meta_key (sk_Meta sk) = req → stored KSidekick w req = Some cur → meta_key (sk_Meta cur) = req →
  ∃ w', run serve (updateSidekickStatus sk) w =
          (Returned (set_sk_Status (sk_Status sk) cur, None), w') ∧
    stored KSidekick w' req = Some (obj_norm (k := KSidekick) (set_sk_Status (sk_Status sk) cur)) ∧
    ∀ k' key', (k', key') ≠ (KSidekick, req) → stored k' w' key' = stored k' w key'.
Proof. intros <- Hs Hk. exact (PatchStatus_stored KSidekick sk cur sk _ w Hs Hk eq_refl). Qed.

Lemma countExternalDeletion_run req pod sk w :
  stored KSidekick w req = Some sk → meta_key (sk_Meta sk) = req →
  DeletionTimestamp (sk_Meta sk) = None →
  ∃ w', run serve (countExternalDeletion req pod) w = (Returned None, w') ∧
    stored KSidekick w' req = Some (record_failure (UID (pod_Meta pod)) sk) ∧
    ∀ k' key', (k', key') ≠ (KSidekick, req) → stored k' w' key' = stored k' w key'.
Proof.
  intros Hs Hk Hd. unfold countExternalDeletion. rewrite run_bind. simpl run at 1.
  rewrite (serve_get KSidekick req w sk Hs), Hd.
  set (sk1 := put_failure _ _ _).
  destruct (updateSidekickStatus_run sk1 sk req w Hk Hs Hk) as (w' & Hr & Hst & Hfr).
  exists w'. rewrite run_bind, Hr. done.
Qed.

Lemma removePodFinalizer_run pod w :
  stored KPod w (meta_key (pod_Meta pod)) = Some pod →
  ∃ w', run serve (removePodFinalizer pod) w = (Returned None, w') ∧
    stored KPod w' (meta_key (pod_Meta pod)) =
      (if released (pod_Meta (release_pod pod)) then None else Some (release_pod pod)) ∧
    ∀ k' key', (k', key') ≠ (KPod, meta_key (pod_Meta pod)) → stored k' w' key' = stored k' w key'.
Proof.
  intros Hs. unfold removePodFinalizer.
  destruct (CreateOrPatch_stored KPod pod pod
    (λ p _, set_pod_Meta (RemoveFinalizer (pod_Meta p) getFinalizerName) p)
    (pod_Meta (release_pod pod)) w Hs eq_refl eq_refl (release_pod_meta_patch pod))
    as (w' & Hr & Hst & Hfr).
  exists w'. rewrite run_bind, Hr. simpl. auto.
Qed.

Lemma release_pod_no_finalizer pod :
  HasFinalizer (pod_Meta (release_pod pod)) getFinalizerName = false.
Proof.
  apply not_true_is_false. rewrite HasFinalizer_spec.
  unfold release_pod. simpl pod_Meta. rewrite RemoveFinalizer_elem. tauto.
Qed.

(** One pass over a terminating pod that nobody marked. *)
Lemma external_deletion_run req pod sk w :
  stored KPod w req = Some pod → meta_key (pod_Meta pod) = req →
  stored KSidekick w req = Some sk → meta_key (sk_Meta sk) = req →
  is_Some (DeletionTimestamp (pod_Meta pod)) → DeletionTimestamp (sk_Meta sk) = None →
  gm_lookup (Annotations (pod_Meta pod)) deletionInitiatorKey = None →
  let has := HasFinalizer (pod_Meta pod) getFinalizerName in
  ∃ w', run serve (removePodFinalizerIfMarkedForDeletion req) w = (Returned (has, None), w') ∧
    stored KSidekick w' req = Some (record_failure (UID (pod_Meta pod)) sk) ∧
    stored KPod w' req =
      (if has then if released (pod_Meta (release_pod pod)) then None else Some (release_pod pod)
       else Some pod) ∧
    ∀ k' key', key' ≠ req → stored k' w' key' = stored k' w key'.
Proof.
  intros Hp Hpk Hs Hsk [t Hdel] Hsd Hm has.
  destruct (countExternalDeletion_run req pod sk w Hs Hsk Hsd) as (w1 & Hr1 & Hs1 & Hf1).
  assert (Hp1 : stored KPod w1 req = Some pod) by (rewrite Hf1; done).
  unfold removePodFinalizerIfMarkedForDeletion. rewrite run_bind. simpl run at 1.
  rewrite (serve_get KPod req w pod Hp), Hdel, Hm, run_bind, Hr1.
  fold has. destruct has; [|exists w1; split_and!; try done; intros; apply Hf1; congruence].
  destruct (removePodFinalizer_run pod w1) as (w2 & Hr2 & Hp2 & Hf2); [by rewrite Hpk|].
  exists w2. rewrite run_bind, Hr2, Hpk in *. split; [done|]. split; [rewrite Hf2; done|].
  split; [done|]. intros k' key' Hne. rewrite Hf2, Hf1; [done|congruence..].
Qed.

(** C1. A deletion of the sidekick pod by anybody else counts as one failure: the
    pass that sees the terminating, unmarked pod records its uid in
    [Status.FailureCount], which raises the failure count by one unless that
    pod was already counted, and removes the operator's finalizer; another pass
    changes no counter. *)
Theorem external_deletion_counted_once req pod sk w :
  stored KPod w req = Some pod → meta_key (pod_Meta pod) = req →
  stored KSidekick w req = Some sk → meta_key (sk_Meta sk) = req →
  is_Some (DeletionTimestamp (pod_Meta pod)) → DeletionTimestamp (sk_Meta sk) = None →
  gm_lookup (Annotations (pod_Meta pod)) deletionInitiatorKey = None →
  HasFinalizer (pod_Meta pod) getFinalizerName = true →
  ∃ w1 sk1, run serve (removePodFinalizerIfMarkedForDeletion req) w = (Returned (true, None), w1) ∧
    stored KSidekick w1 req = Some sk1 ∧
    failures sk1 = failures sk +
      (if bool_decide (gm_lookup (st_FailureCount (sk_Status sk)) (UID (pod_Meta pod)) = Some true)
       then 0 else 1) ∧
    (∀ p, stored KPod w1 req = Some p → HasFinalizer (pod_Meta p) getFinalizerName = false) ∧
    ∃ w2 sk2, run serve (removePodFinalizerIfMarkedForDeletion req) w1 = (Returned (false, None), w2) ∧
      stored KSidekick w2 req = Some sk2 ∧
      st_FailureCount (sk_Status sk2) = st_FailureCount (sk_Status sk1).
Proof.
  intros Hp Hpk Hs Hsk Hdel Hsd Hm Hf.
  destruct (external_deletion_run req pod sk w Hp Hpk Hs Hsk Hdel Hsd Hm) as (w1 & Hr1 & Hs1 & Hp1 & _).
  rewrite Hf in Hr1, Hp1. eexists w1, _. split; [done|]. split; [done|].
  split; [apply record_failure_failures|].
  set (sk1 := record_failure _ _) in *.
  destruct (released (pod_Meta (release_pod pod))); (split; [intros p Hps; rewrite Hp1 in Hps|]).
  - done.
  - exists w1, sk1. split; [|done].
    destruct (serve_get_missing KPod req w1 Hp1) as (e & He & Hg).
    unfold removePodFinalizerIfMarkedForDeletion. rewrite run_bind. simpl run at 1.
    rewrite Hg, He. done.
  - simplify_eq. apply release_pod_no_finalizer.
  - destruct (external_deletion_run req (release_pod pod) sk1 w1 Hp1 Hpk Hs1 Hsk Hdel Hsd Hm)
      as (w2 & Hr2 & Hs2 & _).
    rewrite release_pod_no_finalizer in Hr2. eexists w2, _. split; [done|]. split; [done|].
    rewrite record_failure_map. unfold sk1. rewrite record_failure_map. simpl.
    by rewrite insert_insert_eq.
Qed.

Lemma setDeletionInitiatorAnnotation_run pod req w :
  meta_key (pod_Meta pod) = req → stored KPod w req = Some pod → Finalizers (pod_Meta pod) ≠ [] →
  ∃ w', run serve (setDeletionInitiatorAnnotation pod) w = (Returned (annotate_initiator pod, None), w') ∧
    stored KPod w' req = Some (annotate_initiator pod) ∧
    ∀ k' key', (k', key') ≠ (KPod, req) → stored k' w' key' = stored k' w key'.
Proof.
  intros <- Hs Hne.
  destruct (CreateOrPatch_stored KPod pod pod (λ p _, annotate_initiator p)
    (pod_Meta (annotate_initiator pod)) w Hs eq_refl eq_refl (annotate_initiator_meta_patch pod))
    as (w1 & Hr1 & Hs1 & Hf1).
  unfold released in Hs1. rewrite (bool_decide_eq_false_2 (Finalizers _ = [])), andb_false_r in Hs1 by done.
  exists w1. split; [exact Hr1|]. done.
Qed.

Lemma deletePod_run pod req w :
  meta_key (pod_Meta pod) = req → stored KPod w req = Some pod →
  HasFinalizer (pod_Meta pod) getFinalizerName = true →
  ∃ t w', let pod' := set_pod_Meta (mark_deleted t (pod_Meta (annotate_initiator pod))) pod in
    run serve (deletePod pod) w = (Returned None, w') ∧ stored KPod w' req = Some pod' ∧
    ∀ k' key', (k', key') ≠ (KPod, req) → stored k' w' key' = stored k' w key'.
Proof.
  intros Hk Hs Hf.
  assert (Hne : Finalizers (pod_Meta pod) ≠ []).
  { intros E. apply HasFinalizer_spec in Hf. rewrite E in Hf. by apply elem_of_nil in Hf. }
  destruct (setDeletionInitiatorAnnotation_run pod req w Hk Hs Hne) as (w1 & Hr1 & Hs1 & Hf1).
  destruct (serve_delete_held KPod req w1 _ Hs1) as (t & w2 & Hr2 & Hs2); [done|].
  exists t, w2. unfold deletePod. rewrite run_bind, Hr1. cbn zeta.
  change (meta_key (pod_Meta (annotate_initiator pod))) with (meta_key (pod_Meta pod)).
  rewrite Hk, run_bind. simpl run at 1. rewrite Hr2.
  split; [done|]. split; [done|]. intros k' key' Hk'.
  pose proof (serve_frame (OpDelete KPod req) w1 k' key') as Hfr. rewrite Hr2 in Hfr.
  simpl in Hfr. rewrite Hfr by congruence. by apply Hf1.
Qed.

(** One pass over a terminating pod that the operator marked: only the pod
    changes. *)
Lemma marked_deletion_run req pod w :
  stored KPod w req = Some pod → meta_key (pod_Meta pod) = req →
  is_Some (DeletionTimestamp (pod_Meta pod)) →
  is_Some (gm_lookup (Annotations (pod_Meta pod)) deletionInitiatorKey) →
  HasFinalizer (pod_Meta pod) getFinalizerName = true →
  ∃ w', run serve (removePodFinalizerIfMarkedForDeletion req) w = (Returned (true, None), w') ∧
    stored KPod w' req =
      (if released (pod_Meta (release_pod pod)) then None else Some (release_pod pod)) ∧
    ∀ k' key', (k', key') ≠ (KPod, req) → stored k' w' key' = stored k' w key'.
Proof.
  intros Hp Hpk [t Hdel] [i Hm] Hf.
  destruct (removePodFinalizer_run pod w) as (w' & Hr & Hp' & Hfr); [by rewrite Hpk|].
  rewrite Hpk in *. exists w'. split; [|done].
  unfold removePodFinalizerIfMarkedForDeletion. rewrite run_bind. simpl run at 1.
  by rewrite (serve_get KPod req w _ Hp), Hdel, Hm, Hf, run_bind, run_ret, run_bind, Hr.
Qed.

(** C2. A deletion by the operator itself is not a failure: after [deletePod] the
    pass that handles the terminating pod takes the finalizer off and leaves
    the stored Sidekick, counters included, exactly as it was. *)
Theorem operator_deletion_not_counted req pod sk w :
  stored KPod w req = Some pod → meta_key (pod_Meta pod) = req →
  stored KSidekick w req = sk → HasFinalizer (pod_Meta pod) getFinalizerName = true →
  ∃ w', run serve (err ← deletePod pod;
                   match err with
                   | Some e => mret (false, Some e)
                   | None => removePodFinalizerIfMarkedForDeletion req
                   end) w = (Returned (true, None), w') ∧
    stored KSidekick w' req = sk ∧
    ∀ p, stored KPod w' req = Some p → HasFinalizer (pod_Meta p) getFinalizerName = false.
Proof.
  intros Hp Hpk Hs Hf.
  destruct (deletePod_run pod req w Hpk Hp Hf) as (t & w1 & Hr1 & Hp1 & Hf1).
  set (pod' := set_pod_Meta _ _) in *.
  destruct (marked_deletion_run req pod' w1 Hp1) as (w2 & Hr2 & Hp2 & Hf2);
    [done|by eexists|by eexists; apply lookup_insert_eq|done|].
  exists w2. rewrite run_bind, Hr1. split; [done|]. split; [rewrite Hf2, Hf1; done|].
  intros p E. rewrite Hp2 in E. case_match; simplify_eq. apply release_pod_no_finalizer.
Qed.

Section Pods.
Context `{Mergo} `{ObjectHasher}.

(** A status update that only needs to succeed. *)
Lemma status_update_run sk cur req w :
  meta_key (sk_Meta sk) = req → stored KSidekick w req = Some cur → meta_key (sk_Meta cur) = req →
  ∃ w', run serve ('(_, err) ← updateSidekickStatus sk; mret err) w = (Returned None, w') ∧
    (∃ cur', stored KSidekick w' req = Some cur' ∧ sk_Meta cur' = sk_Meta cur ∧
       sk_Spec cur' = sk_Spec cur ∧ st_Leader (sk_Status cur') = st_Leader (sk_Status sk) ∧
       st_Pod (sk_Status cur') = st_Pod (sk_Status sk) ∧
       st_ObservedGeneration (sk_Status cur') = st_ObservedGeneration (sk_Status sk) ∧
       sk_Status cur' = norm_status (sk_Status sk)) ∧
    ∀ k' key', (k', key') ≠ (KSidekick, req) → stored k' w' key' = stored k' w key'.
Proof.
  intros Hk Hs Hc. destruct (updateSidekickStatus_run sk cur req w Hk Hs Hc) as (w' & Hr & Hst & Hf).
  exists w'. rewrite run_bind, Hr. split; [done|]. split; [|done]. eexists. by split_and!.
Qed.

Lemma newSidekickPod_snd_meta sk leader pod sk' :
  newSidekickPod sk leader = (Ok pod, sk') →
  meta_key (sk_Meta sk') = meta_key (sk_Meta sk) ∧ Generation (sk_Meta sk') = Generation (sk_Meta sk).
Proof. unfold newSidekickPod. intros E. repeat case_match_hyp E; by simplify_eq/=. Qed.

Lemma createSidekickPod_run req sk cur leader pod sk' w :
  newSidekickPod sk leader = (Ok pod, sk') → meta_key (sk_Meta sk) = req →
  stored KPod w req = None → stored KSidekick w req = Some cur → meta_key (sk_Meta cur) = req →
  ∃ w' p cur', run serve (createSidekickPod sk leader) w = (Returned None, w') ∧
    stored KPod w' req = Some p ∧
    created (k := KPod) (set_pod_Meta (AddFinalizer (pod_Meta pod) getFinalizerName) pod) p ∧
    stored KSidekick w' req = Some cur' ∧ sk_Meta cur' = sk_Meta cur ∧
    sk_Spec cur' = sk_Spec cur ∧ lst_Name (st_Leader (sk_Status cur')) = Name (pod_Meta leader) ∧
    st_ObservedGeneration (sk_Status cur') = Generation (sk_Meta sk) ∧
    (∀ k' key', key' ≠ req → stored k' w' key' = stored k' w key') ∧
    st_FailureCount (sk_Status cur') = non_empty (st_FailureCount (sk_Status sk)) ∧
    st_ContainerRestartCountsPerPod (sk_Status cur') =
      non_empty (st_ContainerRestartCountsPerPod (sk_Status sk)) ∧
    ∃ md w1, serve (OpCreate KPod md) w = (Ok p, w1) ∧ served w1 w'.
Proof.
  intros E Hk Hp Hs Hc. pose proof (newSidekickPod_snd_meta _ _ _ _ E) as [Hk' Hg].
  pose proof (newSidekickPod_ok _ _ _ _ E) as (cs & ics & _ & _ & Hpod).
  assert (Hpk : @obj_key KPod pod = req) by (rewrite <- Hk; by subst pod).
  destruct (CreateOrPatch_missing KPod pod
    (λ p _, set_pod_Meta (AddFinalizer (pod_Meta p) getFinalizerName) p) w)
    as (p & w1 & Hr1 & Hcr & Hp1 & Hc1 & Hf1); [by rewrite Hpk|by subst pod| |].
  { subst pod. simpl. intros Ha. simplify_eq. unfold pod_annotations in Ha.
    by apply insert_non_empty in Ha. }
  rewrite Hpk in *.
  assert (Hs1 : stored KSidekick w1 req = Some cur) by (rewrite Hf1; done).
  set (sk1 := upd_status (λ st, set_ObservedGeneration (Generation (sk_Meta sk'))
              (set_Pod (pst_Phase (pod_Status p))
                (set_Leader (Name (pod_Meta leader)) st))) sk').
  destruct (status_update_run sk1 cur req w1) as (w2 & Hr2 & (cur' & Hs2 & Hm & Hsp & Hl & _ & Ho & Hst) & Hf2);
    [by rewrite <- Hk, <- Hk'|done|done|].
  exists w2, p, cur'. unfold createSidekickPod.
  change (obj KPod * option error)%type with (Pod * option error)%type in Hr1.
  rewrite E, run_bind, Hr1.
  split; [exact Hr2|]. split; [rewrite Hf2; done|]. split; [done|]. split; [done|].
  split; [done|]. split; [done|]. split; [by rewrite Hl|].
  split; [by rewrite Ho|]. split.
  { intros k' key' Hne. rewrite Hf2, Hf1; [done|congruence..]. }
  assert (Hst' : sk_Status sk' = sk_Status sk).
  { revert E. unfold newSidekickPod. intros E. repeat case_match_hyp E; by simplify_eq/=. }
  rewrite Hst. simpl. rewrite Hst'. split; [done|]. split; [done|].
  eexists _, w1. split; [exact Hc1|]. by eapply run_served_eq.
Qed.

(** Creation converges.  With a leader and no pod stored, the pass creates
    the pod under the Sidekick's name, with the operator's finalizer, and
    records leader and generation; the next pass over the Sidekick as it is then
    stored, with the same leader, leaves that pod as it is. *)
Theorem pod_creation_converges req sk leader pod sk' w :
  newSidekickPod sk leader = (Ok pod, sk') → meta_key (sk_Meta sk) = req →
  stored KPod w req = None → stored KSidekick w req = Some sk →
  ∃ w1 p sk1, run serve (syncOrCreate req sk leader) w = (Returned (no_requeue, None), w1) ∧
    stored KPod w1 req = Some p ∧ HasFinalizer (pod_Meta p) getFinalizerName = true ∧
    stored KSidekick w1 req = Some sk1 ∧
    lst_Name (st_Leader (sk_Status sk1)) = Name (pod_Meta leader) ∧
    st_ObservedGeneration (sk_Status sk1) = Generation (sk_Meta sk) ∧
    ∃ w2, run serve (syncOrCreate req sk1 leader) w1 = (Returned (no_requeue, None), w2) ∧
      stored KPod w2 req = Some p.
Proof.
  intros E Hk Hp Hs.
  destruct (createSidekickPod_run req sk sk leader pod sk' w E Hk Hp Hs Hk)
    as (w1 & p & sk1 & Hr1 & Hp1 & Hcr & Hs1 & Hm1 & Hsp1 & Hl1 & Ho1 & _).
  destruct Hcr as (_ & _ & Ha & Hf & _ & Hn & Hph & _). simpl in Ha, Hf, Hn, Hph.
  destruct (serve_get_missing KPod req w Hp) as (e & He & Hg).
  exists w1, p, sk1. unfold syncOrCreate. rewrite run_bind, (run_call serve (OpGet KPod req)), Hg. cbn [fst snd].
  rewrite He, run_bind, Hr1. split; [done|]. split; [done|]. split.
  { pose proof (AddFinalizer_has (pod_Meta pod) getFinalizerName) as Hh.
    unfold HasFinalizer in *. by rewrite Hf. }
  split; [done|]. split; [done|]. split; [done|].
  assert (Hcur : podNeedsRecreate sk1 leader p = false).
  { unfold podNeedsRecreate. rewrite Hm1, Hsp1.
    apply (new_pod_is_current sk leader pod sk' p E); [|done|by rewrite Hph].
    rewrite Ha. unfold AddFinalizer. by destruct (HasFinalizer _ _). }
  set (sk2 := upd_status (λ st, set_ObservedGeneration (Generation (sk_Meta sk1))
              (set_Pod (pst_Phase (pod_Status p)) st)) sk1).
  destruct (status_update_run sk2 sk1 req w1) as (w2 & Hr2 & _ & Hf2);
    [by rewrite <- Hk, <- Hm1|done|by rewrite Hm1|].
  exists w2. rewrite run_bind, (run_call serve (OpGet KPod req)), (serve_get KPod req w1 p Hp1). cbn [fst snd].
  unfold syncExistingPod. rewrite Hcur, run_bind. fold sk2. rewrite Hr2.
  split; [done|]. rewrite Hf2; done.
Qed.

Context `{SortSlice} `{LabelSelectors}.

(** A new leader takes the pod down first: when the elected leader is not the
    recorded one and a pod of the Sidekick is stored (held by the operator's
    finalizer), the pass marks that pod as deleted by the operator, requests its
    deletion, and clears leader and pod in the status, so that the pod is
    rebuilt for the new leader once it is gone; no failure is recorded. *)
Theorem leader_change_replaces_pod req sk leader pod w :
  run serve (getLeader sk) w = (Returned (Ok leader), w) →
  Name (pod_Meta leader) ≠ lst_Name (st_Leader (sk_Status sk)) →
  stored KPod w req = Some pod → meta_key (pod_Meta pod) = req →
  HasFinalizer (pod_Meta pod) getFinalizerName = true →
  stored KSidekick w req = Some sk → meta_key (sk_Meta sk) = req →
  ∃ w' pod' sk', run serve (reconcileLeader req sk) w = (Returned (no_requeue, None), w') ∧
    stored KPod w' req = Some pod' ∧ is_Some (DeletionTimestamp (pod_Meta pod')) ∧
    gm_lookup (Annotations (pod_Meta pod')) deletionInitiatorKey =
      Some deletionInitiatesBySidekickOperator ∧
    stored KSidekick w' req = Some sk' ∧ sk_Spec sk' = sk_Spec sk ∧
    lst_Name (st_Leader (sk_Status sk')) = "" ∧ st_Pod (sk_Status sk') = "" ∧
    failures sk' = failures sk.
Proof.
  intros Hl Hne Hp Hpk Hf Hs Hsk.
  destruct (deletePod_run pod req w Hpk Hp Hf) as (t & w1 & Hr1 & Hp1 & Hf1).
  set (pod' := set_pod_Meta _ _) in *.
  assert (Hs1 : stored KSidekick w1 req = Some sk) by (rewrite Hf1; done).
  destruct (updateSidekickStatus_run (reset_status sk) sk req w1 Hsk Hs1 Hsk) as (w2 & Hr2 & Hs2 & Hf2).
  eexists w2, pod', _. unfold reconcileLeader. rewrite run_bind, Hl.
  rewrite (proj2 (String.eqb_neq _ _) Hne). cbn [negb].
  rewrite run_bind, (run_call serve (OpGet KPod req)), (serve_get KPod req w pod Hp). cbn [fst snd].
  unfold deletePodAndResetStatus. rewrite !run_bind, Hr1, run_bind, Hr2.
  split; [done|]. split; [rewrite Hf2; done|]. split; [by eexists|].
  split; [apply lookup_insert_eq|]. split; [exact Hs2|]. split; [done|]. split; [done|].
  split; [done|]. unfold failures. simpl. unfold map_sum.
  destruct (st_FailureCount (sk_Status sk)) as [m|]; simpl; [|done].
  case_decide; [by subst|done].
Qed.
End Pods.
End Run.
