(* ===== verification/LocalWitness.v ===== *)
(** * Concrete runs of the local reconciler

    The theorems of [PodBuilder.v], [Phase.v], [LocalProps.v] and [LocalRun.v]
    applied to concrete objects and to the server of [Store.v]. *)

From S2P Require Import Prelude Effects GoStd Types Cluster Kmodules Leader Fixtures Phase PodBuilder Local LocalProps Server Store LocalRun.
Import InsertionSort.

(** A container that inherits the mount [data] of the leader and spells out [tmp]. *)
Definition ex_container : Container :=
  {| c_Name := "main"; c_Image := "img"; c_Command := []; c_Args := []; c_WorkingDir := "";
     c_Ports := []; c_EnvFrom := []; c_Env := []; c_Resources := JNull;
     c_VolumeMounts :=
       [{| vm_Name := "data"; vm_ReadOnly := false; vm_MountPath := ""; vm_SubPath := "";
           vm_MountPropagation := None; vm_SubPathExpr := "" |};
        {| vm_Name := "tmp"; vm_ReadOnly := false; vm_MountPath := "/tmp"; vm_SubPath := "";
           vm_MountPropagation := None; vm_SubPathExpr := "" |}];
     c_VolumeDevices := []; c_LivenessProbe := None; c_ReadinessProbe := None;
     c_StartupProbe := None; c_Lifecycle := None; c_TerminationMessagePath := "";
     c_TerminationMessagePolicy := ""; c_ImagePullPolicy := ""; c_SecurityContext := None;
     c_Stdin := false; c_StdinOnce := false; c_TTY := false |}.

Definition ex_leader_container : CoreContainer :=
  {| cc_Name := "db"; cc_Image := "pg"; cc_Command := []; cc_Args := []; cc_WorkingDir := "";
     cc_Ports := []; cc_EnvFrom := []; cc_Env := []; cc_Resources := JNull;
     cc_VolumeMounts :=
       [{| cvm_Name := "data"; cvm_ReadOnly := false; cvm_RecursiveReadOnly := None;
           cvm_MountPath := "/var/pg"; cvm_SubPath := ""; cvm_MountPropagation := None;
           cvm_SubPathExpr := "" |}];
     cc_VolumeDevices := []; cc_LivenessProbe := None; cc_ReadinessProbe := None;
     cc_StartupProbe := None; cc_Lifecycle := None; cc_TerminationMessagePath := "";
     cc_TerminationMessagePolicy := ""; cc_ImagePullPolicy := ""; cc_SecurityContext := None;
     cc_Stdin := false; cc_StdinOnce := false; cc_TTY := false |}.

Definition ex_db : Pod :=
  {| pod_APIVersion := "v1"; pod_Kind := "Pod";
     pod_Meta := set_Labels (Some {[ "app" := "db" ]}) (ex_meta "demo" "db-0" "uid-db-0" [] None None);
     pod_Spec := ex_PodSpec "n0" [ex_leader_container]
                   [{| vol_Name := "data"; vol_Source := None |};
                    {| vol_Name := "tmp"; vol_Source := None |}];
     pod_Status := ex_status "Running" |}.

Definition ex_side : Sidekick :=
  {| sk_Meta := ex_meta "demo" "side" "uid-side" [getFinalizerName] None None;
     sk_Spec := ex_Spec ex_leader_sel "OnFailure" (Some 2) [ex_container] false;
     sk_Status := empty_SidekickStatus |}.

Definition ex_req : NamespacedName := mkKey "demo" "side".

Definition ex_built : Pod :=
  match (newSidekickPod ex_side ex_db).1 with Ok p => p | Err _ => zero_Pod end.

Lemma newSidekickPod_error_iff_witness :
  (∃ e, (newSidekickPod ex_side (ex_pod "db-0" "Running" "n0")).1 = Err e) ↔
  ∃ n, n ∈ inherited_names (sp_Containers (sk_Spec ex_side) ++ sp_InitContainers (sk_Spec ex_side)) ∧
       n ∉ map cvm_Name
             (all_mounts (ps_Containers (pod_Spec (ex_pod "db-0" "Running" "n0"))) ++
              all_mounts (ps_InitContainers (pod_Spec (ex_pod "db-0" "Running" "n0")))).
Proof. exact (newSidekickPod_error_iff ex_side (ex_pod "db-0" "Running" "n0")). Defined.


Lemma new_pod_containers_witness :
  Forall2 (λ c c', cc_Name c' = c_Name c ∧ cc_Image c' = c_Image c ∧
      map cvm_Name (cc_VolumeMounts c') = map vm_Name (c_VolumeMounts c) ∧
      cc_Env c' = c_Env c ++ [{| env_Name := "LEADER_NAME";
                                 env_Value := "db-0"; env_ValueFrom := None |}])
    [ex_container] (ps_Containers (pod_Spec ex_built)) ∧
  Forall2 (λ c c', cc_Name c' = c_Name c ∧ cc_Image c' = c_Image c ∧
      map cvm_Name (cc_VolumeMounts c') = map vm_Name (c_VolumeMounts c) ∧ cc_Env c' = c_Env c)
    [] (ps_InitContainers (pod_Spec ex_built)).
Proof.
  apply (new_pod_containers ex_side ex_db ex_built ex_side). vm_compute. reflexivity.
Defined.

(** ** Phase *)

(** One failed pod, three container restarts, limit 2. *)
Definition ex_busy : Sidekick :=
  upd_status (λ st, set_FailureCount (Some {[ "uid-old" := true ]})
    (set_RestartCounts (Some {[ "uid-old" := 3 ]}) st)) ex_side.

Definition ex_failed_pod : Pod := ex_pod "side" "Failed" "n0".

Lemma getSidekickPhase_refines_witness :
  (getSidekickPhase ex_busy (Some ex_failed_pod)).1 = phase_spec (view ex_busy ex_failed_pod).
Proof. apply (getSidekickPhase_refines ex_busy ex_failed_pod). vm_compute. split; congruence. Defined.

Lemma backoff_total_any_order_witness :
  wrap32 (fold_left (λ acc kv, if (kv : string * bool).2 then wrap32 (acc + 1) else acc)
            [("uid-old", true)] 0 +
          fold_left (λ acc kv, wrap32 (acc + (kv : string * Z).2)) [("uid-old", 3)] 0)
  = (getTotalBackOffCounts ex_busy).1 ∧
  (getTotalBackOffCounts ex_busy).1 = wrap32 (backoffs ex_busy) ∧
  (in_int32 (backoffs ex_busy) → (getTotalBackOffCounts ex_busy).1 = backoffs ex_busy).
Proof. apply (backoff_total_any_order ex_busy); vm_compute; reflexivity. Defined.

Lemma pod_failure_accounting_witness :
  backoffs (observe_pod ex_failed_pod ex_busy) = 4 ∧
  (getSidekickPhase (observe_pod ex_failed_pod ex_busy) (Some ex_failed_pod)).1 = SideKickPhaseFailed.
Proof.
  destruct (pod_failure_accounting ex_busy ex_failed_pod {[ "uid-old" := true ]} {[ "uid-old" := 3 ]})
    as [Hb Hf]; [vm_compute; repeat split; congruence..|].
  split; [rewrite Hb; vm_compute; reflexivity|]. apply Hf; vm_compute; congruence.
Defined.

(** ** Executions *)

Definition ex_world : store :=
  put (k := KSidekick) ex_side (put (k := KPod) ex_db empty_store).

(** The whole reconcile creates the pod. *)
Definition ex_after : store := (run serve (reconcileLocal ex_req ex_side) ex_world).2.

Example reconcile_creates_pod :
  ((λ p, (gm_str (Annotations (pod_Meta p)) keyLeader, gm_str (Annotations (pod_Meta p)) keyHash))
     <$> s_pods ex_after !! ex_req) = Some ("db-0", "1/0") ∧
  (st_Phase ∘ sk_Status <$> s_sidekicks ex_after !! ex_req) = Some SideKickPhaseDegraded.
Proof. split; vm_compute; reflexivity. Qed.

(** The leader is gone: the recorded leader no longer exists and the pod goes. *)
Definition ex_sidepod : Pod :=
  {| pod_APIVersion := "v1"; pod_Kind := "Pod";
     pod_Meta := ex_meta "demo" "side" "uid-1" [getFinalizerName] None
                   (Some {[ keyHash := "1/0"; keyLeader := "db-0" ]});
     pod_Spec := ex_PodSpec "n0" [] []; pod_Status := ex_status "Running" |}.

Definition ex_orphaned : store :=
  put (k := KSidekick) ex_side (put (k := KPod) ex_sidepod empty_store).


(** The store answers a status patch with the status it was sent. *)
Lemma store_echoes op (s : store) : echoes_status (Ev op (store_serve op s).1).
Proof.
  destruct op; try done. simpl. destruct (objs k s !! obj_key cur); simpl; [|done].
  by destruct k.
Qed.

Lemma store_trace_echoes {A} (p : M A) (s : store) :
  Forall echoes_status (run_trace store_serve p s).
Proof.
  revert s. induction p as [a|m|op k IH]; intros s; simpl; [constructor..|].
  pose proof (store_echoes op s) as He. destruct (store_serve op s) as [r s'].
  constructor; [done|apply IH].
Qed.

(** The pod of [ex_sidepod], failed. *)
Definition ex_crashed : Pod := set_pod_Status (ex_status "Failed") ex_sidepod.

Lemma failed_pod_not_replaced_witness :
  Forall (λ e, pod_change e = false)
    (run_trace serve (syncExistingPod ex_side ex_db ex_crashed) ex_orphaned) ∧
  (sp_RestartPolicy (sk_Spec ex_side) = RestartPolicyAlways →
   (getSidekickPhase ex_side (Some ex_crashed)).1 = SideKickPhaseDegraded).
Proof.
  apply (failed_pod_not_replaced ex_side ex_db ex_crashed
           (run_trace serve (syncExistingPod ex_side ex_db ex_crashed) ex_orphaned)
           (run serve (syncExistingPod ex_side ex_db ex_crashed) ex_orphaned).1);
    [vm_compute; congruence|vm_compute; reflexivity|vm_compute; reflexivity|reflexivity|reflexivity|apply run_exec].
Defined.

(** A Sidekick over its limit, its pod Failed. *)
Definition ex_over : store :=
  put (k := KSidekick) ex_busy (put (k := KPod) ex_failed_pod (put (k := KPod) ex_db empty_store)).


(** ** Outcomes *)

(** The sidekick pod, deleted by somebody else. *)
Definition ex_deleted_pod : Pod :=
  set_pod_Meta (mark_deleted 7 (pod_Meta ex_sidepod)) ex_sidepod.
Definition ex_evicted : store :=
  put (k := KSidekick) ex_side (put (k := KPod) ex_deleted_pod empty_store).

Lemma external_deletion_counted_once_witness :
  ∃ w1 sk1, run serve (removePodFinalizerIfMarkedForDeletion ex_req) ex_evicted =
              (Returned (true, None), w1) ∧
    stored KSidekick w1 ex_req = Some sk1 ∧ failures sk1 = failures ex_side + 1 ∧
    (∀ p, stored KPod w1 ex_req = Some p → HasFinalizer (pod_Meta p) getFinalizerName = false) ∧
    ∃ w2 sk2, run serve (removePodFinalizerIfMarkedForDeletion ex_req) w1 =
                (Returned (false, None), w2) ∧
      stored KSidekick w2 ex_req = Some sk2 ∧
      st_FailureCount (sk_Status sk2) = st_FailureCount (sk_Status sk1).
Proof.
  apply (external_deletion_counted_once (W := store) ex_req ex_deleted_pod ex_side ex_evicted);
    try reflexivity. eexists. reflexivity.
Defined.

Lemma operator_deletion_not_counted_witness :
  ∃ w', run serve (err ← deletePod ex_sidepod;
                   match err with
                   | Some e => mret (false, Some e)
                   | None => removePodFinalizerIfMarkedForDeletion ex_req
                   end) ex_orphaned = (Returned (true, None), w') ∧
    stored KSidekick w' ex_req = Some ex_side ∧
    ∀ p, stored KPod w' ex_req = Some p → HasFinalizer (pod_Meta p) getFinalizerName = false.
Proof.
  apply (operator_deletion_not_counted (W := store) ex_req ex_sidepod (Some ex_side) ex_orphaned);
    reflexivity.
Defined.

Lemma pod_creation_converges_witness :
  ∃ w1 p sk1, run serve (syncOrCreate ex_req ex_side ex_db) ex_world =
                (Returned (no_requeue, None), w1) ∧
    stored KPod w1 ex_req = Some p ∧ HasFinalizer (pod_Meta p) getFinalizerName = true ∧
    stored KSidekick w1 ex_req = Some sk1 ∧
    lst_Name (st_Leader (sk_Status sk1)) = "db-0" ∧
    st_ObservedGeneration (sk_Status sk1) = 1 ∧
    ∃ w2, run serve (syncOrCreate ex_req sk1 ex_db) w1 = (Returned (no_requeue, None), w2) ∧
      stored KPod w2 ex_req = Some p.
Proof.
  apply (pod_creation_converges (W := store) ex_req ex_side ex_db ex_built ex_side ex_world);
    [vm_compute|..]; reflexivity.
Defined.

(** The Sidekick of [ex_side] with the leader [old] recorded. *)
Definition ex_followed : Sidekick := upd_status (set_Leader "old") ex_side.
Definition ex_led : store :=
  put (k := KSidekick) ex_followed (put (k := KPod) ex_sidepod (put (k := KPod) ex_db empty_store)).

Lemma leader_change_replaces_pod_witness :
  ∃ w' pod' sk', run serve (reconcileLeader ex_req ex_followed) ex_led =
                   (Returned (no_requeue, None), w') ∧
    stored KPod w' ex_req = Some pod' ∧ is_Some (DeletionTimestamp (pod_Meta pod')) ∧
    gm_lookup (Annotations (pod_Meta pod')) deletionInitiatorKey =
      Some deletionInitiatesBySidekickOperator ∧
    stored KSidekick w' ex_req = Some sk' ∧ sk_Spec sk' = sk_Spec ex_followed ∧
    lst_Name (st_Leader (sk_Status sk')) = "" ∧ st_Pod (sk_Status sk') = "" ∧
    failures sk' = failures ex_followed.
Proof.
  apply (leader_change_replaces_pod (W := store) ex_req ex_followed ex_db ex_sidepod ex_led);
    [vm_compute; reflexivity|vm_compute; congruence|reflexivity..].
Defined.

(** A Sidekick being deleted that another controller still holds. *)
Definition ex_leaving : Sidekick :=
  {| sk_Meta := ex_meta "demo" "side" "uid-side" [getFinalizerName; "other/finalizer"] (Some 7) None;
     sk_Spec := ex_Spec ex_leader_sel "OnFailure" (Some 2) [ex_container] false;
     sk_Status := empty_SidekickStatus |}.
Definition ex_leaving_world : store :=
  put (k := KSidekick) ex_leaving (put (k := KPod) ex_db empty_store).

(** A Sidekick that is being deleted can get a new pod: [handleSidekickFinalizer]
    releases the Sidekick but [Reconcile] goes on, so if the object still exists
    (another finalizer holds it), no pod is stored and a leader runs, the same
    pass creates a pod, which nothing of the operator deletes any more. *)
Theorem deleting_sidekick_gets_pod :
  is_Some (DeletionTimestamp (sk_Meta ex_leaving)) ∧
  stored KPod ex_leaving_world ex_req = None ∧
  (run serve (reconcileLocal ex_req ex_leaving) ex_leaving_world).1 = Returned (no_requeue, None) ∧
  is_Some (stored KPod (run serve (reconcileLocal ex_req ex_leaving) ex_leaving_world).2 ex_req) ∧
  (sk_Meta <$> stored KSidekick (run serve (reconcileLocal ex_req ex_leaving) ex_leaving_world).2 ex_req) =
    Some (set_Finalizers ["other/finalizer"] (sk_Meta ex_leaving)).
Proof.
  split; [by eexists|]. split; [reflexivity|]. split; [vm_compute; reflexivity|].
  split; [vm_compute; by eexists|vm_compute; reflexivity].
Qed.
