(* ===== verification/Codec.v ===== *)
(** * Standard-library encodings

    [encoding/base64]'s [RawURLEncoding] and the UTF-8 validity that decides
    whether [encoding/json] keeps a string as it is. *)

From S2P Require Import Prelude.
#[local] Open Scope N_scope.

(** ** Bytes *)

Definition byte_of (c : ascii) : N := N_of_ascii c.
Definition ascii_of (n : N) : ascii := ascii_of_N n.

Lemma byte_of_range c : byte_of c < 256.
Proof. apply N_ascii_bounded. Qed.

Lemma ascii_of_byte c : ascii_of (byte_of c) = c.
Proof. apply ascii_N_embedding. Qed.

(** ** base64.RawURLEncoding *)
Module Base64.

Definition alphabet : string :=
  "ABCDEFGHIJKLMNOPQRSTUVWXYZabcdefghijklmnopqrstuvwxyz0123456789-_".

(** The character of a 6-bit value. *)
Definition enc (v : N) : ascii := default "000"%char (String.get (N.to_nat v) alphabet).

Fixpoint index (c : ascii) (s : string) (i : N) : option N :=
  match s with
  | "" => None
  | String d s' => if Ascii.eqb c d then Some i else index c s' (i + 1)
  end.

(** The decode map; any other character is a [CorruptInputError]. *)
Definition dec (c : ascii) : option N := index c alphabet 0.

(** [EncodeToString]: three bytes to four characters, no padding. *)
Fixpoint EncodeToString (s : string) : string :=
  match s with
  | "" => ""
  | String a "" =>
      let a := byte_of a in
      String (enc (a / 4)) (String (enc (a mod 4 * 16)) "")
  | String a (String b "") =>
      let a := byte_of a in let b := byte_of b in
      String (enc (a / 4)) (String (enc (a mod 4 * 16 + b / 16))
        (String (enc (b mod 16 * 4)) ""))
  | String a (String b (String c s')) =>
      let a := byte_of a in let b := byte_of b in let c := byte_of c in
      String (enc (a / 4)) (String (enc (a mod 4 * 16 + b / 16))
        (String (enc (b mod 16 * 4 + c / 64)) (String (enc (c mod 64)) (EncodeToString s'))))
  end.

(** The decoder skips line breaks. *)
Fixpoint strip (s : string) : string :=
  match s with
  | "" => ""
  | String c s' =>
      if Ascii.eqb c "010" || Ascii.eqb c "013" then strip s' else String c (strip s')
  end.

Fixpoint values (s : string) : option (list N) :=
  match s with
  | "" => Some []
  | String c s' =>
      match dec c, values s' with Some v, Some vs => Some (v :: vs) | _, _ => None end
  end.

(** Four values give three bytes; a rest of two or three gives one or two (spare
    bits are dropped, the encoding is not strict); a rest of one is an error. *)
Fixpoint bytes (vs : list N) : option string :=
  match vs with
  | [] => Some ""
  | [_] => None
  | [p; q] => Some (String (ascii_of (p * 4 + q / 16)) "")
  | [p; q; r] =>
      Some (String (ascii_of (p * 4 + q / 16)) (String (ascii_of (q mod 16 * 16 + r / 4)) ""))
  | p :: q :: r :: t :: vs' =>
      match bytes vs' with
      | Some s => Some (String (ascii_of (p * 4 + q / 16))
          (String (ascii_of (q mod 16 * 16 + r / 4)) (String (ascii_of (r mod 4 * 64 + t)) s)))
      | None => None
      end
  end.

Definition DecodeString (s : string) : res string :=
  match values (strip s) with
  | None => Err (PlainError "illegal base64 data")
  | Some vs =>
      match bytes vs with Some s => Ok s | None => Err (PlainError "illegal base64 data") end
  end.

Lemma enc_table :
  forallb (λ i, bool_decide (dec (enc (N.of_nat i)) = Some (N.of_nat i)) &&
    negb (Ascii.eqb (enc (N.of_nat i)) "010" || Ascii.eqb (enc (N.of_nat i)) "013"))
    (seq 0 64) = true.
Proof. vm_compute. reflexivity. Qed.

Lemma enc_ok v :
  v < 64 → dec (enc v) = Some v ∧
    Ascii.eqb (enc v) "010" || Ascii.eqb (enc v) "013" = false.
Proof.
  intros Hv. pose proof enc_table as H. rewrite forallb_forall in H.
  specialize (H (N.to_nat v)). rewrite N2Nat.id in H.
  destruct (proj1 (andb_true_iff _ _) (H ltac:(apply in_seq; lia))) as [Hd Hs].
  apply bool_decide_eq_true in Hd. by apply negb_true_iff in Hs.
Qed.

(** Characters of the alphabet survive [strip] and [values]. *)
Lemma values_enc v s :
  v < 64 → values (strip (String (enc v) s)) =
    match values (strip s) with Some vs => Some (v :: vs) | None => None end.
Proof. intros Hv. destruct (enc_ok v Hv) as [Hd Hs]. simpl. rewrite Hs. simpl. by rewrite Hd. Qed.

(** Induction three bytes at a time. *)
Lemma string_ind3 (P : string → Prop) :
  P "" → (∀ a, P (String a "")) → (∀ a b, P (String a (String b ""))) →
  (∀ a b c s, P s → P (String a (String b (String c s)))) → ∀ s, P s.
Proof.
  intros H0 H1 H2 H3. fix IH 1. intros [|a [|b [|c s]]];
    [exact H0|apply H1|apply H2|apply H3, IH].
Qed.

(** Division and remainder by constants, for [lia]. *)
Ltac n_div := zify; Z.to_euclidean_division_equations; lia.

Lemma bytes_enc s : ∃ vs, values (strip (EncodeToString s)) = Some vs ∧ bytes vs = Some s.
Proof.
  induction s as [|a|a b|a b c s (vs & Hv & Hb)] using string_ind3; simpl EncodeToString.
  - by exists [].
  - pose proof (byte_of_range a). eexists. rewrite !values_enc by n_div. split; [done|].
    simpl. repeat f_equal. rewrite <- (ascii_of_byte a) at 3. f_equal. n_div.
  - pose proof (byte_of_range a). pose proof (byte_of_range b).
    eexists. rewrite !values_enc by n_div. split; [done|]. simpl.
    rewrite <- (ascii_of_byte a) at 4. rewrite <- (ascii_of_byte b) at 4.
    repeat f_equal; n_div.
  - pose proof (byte_of_range a). pose proof (byte_of_range b). pose proof (byte_of_range c).
    eexists. rewrite !values_enc by n_div. rewrite Hv. split; [done|]. simpl. rewrite Hb.
    repeat f_equal; rewrite <- ascii_of_byte; f_equal; n_div.
Qed.

(** Decoding inverts encoding. *)
Lemma DecodeEncode s : DecodeString (EncodeToString s) = Ok s.
Proof. unfold DecodeString. by destruct (bytes_enc s) as (vs & -> & ->). Qed.

End Base64.

(** ** UTF-8 *)
Module UTF8.

Definition in_range (lo hi : N) (c : ascii) : bool := (lo <=? byte_of c) && (byte_of c <=? hi).
Definition cont : ascii → bool := in_range 128 191.

(** [utf8.ValidString]. *)
Fixpoint ValidString (s : string) : bool :=
  match s with
  | "" => true
  | String a s1 =>
      if in_range 0 127 a then ValidString s1
      else
        match s1 with
        | "" => false
        | String b s2 =>
            if in_range 194 223 a then cont b && ValidString s2
            else
              match s2 with
              | "" => false
              | String c s3 =>
                  if in_range 224 239 a then
                    (if byte_of a =? 224 then in_range 160 191 b
                     else if byte_of a =? 237 then in_range 128 159 b else cont b)
                    && cont c && ValidString s3
                  else
                    match s3 with
                    | "" => false
                    | String d s4 =>
                        in_range 240 244 a &&
                        (if byte_of a =? 240 then in_range 144 191 b
                         else if byte_of a =? 244 then in_range 128 143 b else cont b)
                        && cont c && cont d && ValidString s4
                    end
              end
        end
  end.

Example valid_ascii : ValidString "snap-1" = true.
Proof. reflexivity. Qed.
Example invalid_lone : ValidString (String "255" "") = false.
Proof. reflexivity. Qed.
End UTF8.
