(* ===== verification/GoStrings.v ===== *)
(** * Package [strings] and [bufio.Scanner], as far as the operator uses them *)

From S2P Require Import Prelude GoStd.

(** ** Prefixes *)

Fixpoint HasPrefix (s p : string) : bool :=
  match p, s with
  | "", _ => true
  | String a p', String b s' => Ascii.eqb a b && HasPrefix s' p'
  | _, _ => false
  end.

Fixpoint drop_bytes (n : nat) (s : string) : string :=
  match n, s with
  | S n', String _ s' => drop_bytes n' s'
  | _, _ => s
  end.

Definition TrimPrefix (s p : string) : string :=
  if HasPrefix s p then drop_bytes (String.length p) s else s.

(** ** Split and Join on a one-byte separator *)

Fixpoint Split (s : string) (sep : ascii) : list string :=
  match s with
  | "" => [""]
  | String c s' =>
      if Ascii.eqb c sep then "" :: Split s' sep
      else match Split s' sep with
           | [] => [String c ""]
           | w :: ws => String c w :: ws
           end
  end.

Fixpoint Join (ws : list string) (sep : ascii) : string :=
  match ws with
  | [] => ""
  | [w] => w
  | w :: ws' => w +:+ String sep (Join ws' sep)
  end.

(** ** White space *)

Definition ascii_space (c : ascii) : bool :=
  let n := nat_of_ascii c in
  ((9 <=? n)%nat && (n <=? 13)%nat) || (n =? 32)%nat.

(** The spaces of Unicode beyond ASCII, in UTF-8: U+0085, U+00A0, and U+1680,
    U+2000-U+200A, U+2028, U+2029, U+202F, U+205F, U+3000. *)
Definition space2 (a b : ascii) : bool :=
  (nat_of_ascii a =? 194)%nat && ((nat_of_ascii b =? 133)%nat || (nat_of_ascii b =? 160)%nat).
Definition space3 (a b c : ascii) : bool :=
  let a := nat_of_ascii a in let b := nat_of_ascii b in let c := nat_of_ascii c in
  ((a =? 225) && (b =? 154) && (c =? 128))%nat ||
  ((a =? 226) && (b =? 128) && (((128 <=? c) && (c <=? 138)) || (c =? 168) || (c =? 169) || (c =? 175)))%nat ||
  ((a =? 226) && (b =? 129) && (c =? 159))%nat ||
  ((a =? 227) && (b =? 128) && (c =? 128))%nat.

(** The string as a sequence of spaces ([Some] their bytes) and other bytes. *)
Inductive piece := Space (bytes : string) | Other (c : ascii).

Fixpoint pieces (s : string) : list piece :=
  match s with
  | "" => []
  | String a s1 =>
      if ascii_space a then Space (String a "") :: pieces s1
      else
        match s1 with
        | "" => [Other a]
        | String b s2 =>
            if space2 a b then Space (String a (String b "")) :: pieces s2
            else
              match s2 with
              | "" => Other a :: pieces s1
              | String c s3 =>
                  if space3 a b c then Space (String a (String b (String c ""))) :: pieces s3
                  else Other a :: pieces s1
              end
        end
  end.

Definition is_space_piece (p : piece) : bool := match p with Space _ => true | Other _ => false end.

Fixpoint drop_spaces (ps : list piece) : list piece :=
  match ps with
  | Space _ :: ps' => drop_spaces ps'
  | _ => ps
  end.

Definition piece_str (p : piece) : string :=
  match p with Space s => s | Other c => String c "" end.
Definition pieces_str (ps : list piece) : string := foldr (λ p s, piece_str p +:+ s) "" ps.

(** [strings.TrimSpace]. *)
Definition TrimSpace (s : string) : string :=
  pieces_str (rev (drop_spaces (rev (drop_spaces (pieces s))))).

(** [strings.FieldsSeq]: the maximal runs of non-space bytes. *)
Fixpoint fields_of (ps : list piece) (cur : string) : list string :=
  match ps with
  | [] => if String.eqb cur "" then [] else [cur]
  | Space _ :: ps' => if String.eqb cur "" then fields_of ps' "" else cur :: fields_of ps' ""
  | Other c :: ps' => fields_of ps' (cur +:+ String c "")
  end.
Definition Fields (s : string) : list string := fields_of (pieces s) "".

(** ** bufio.Scanner on lines *)

(** Lines end with a newline, which is dropped together with one carriage return
    before it; a last line without newline counts if it is not empty. *)
Fixpoint raw_lines (s : string) : list string :=
  match s with
  | "" => []
  | String c s' =>
      if Ascii.eqb c newline then "" :: raw_lines s'
      else match raw_lines s' with
           | [] => [String c ""]
           | l :: ls =>
               (* the rest starts a new line only after a newline *)
               String c l :: ls
           end
  end.

Fixpoint drop_cr (s : string) : string :=
  match s with
  | "" => ""
  | String c "" => if Ascii.eqb c "013" then "" else s
  | String c s' => String c (drop_cr s')
  end.

(** [MaxScanTokenSize]: a line that does not fit the buffer stops the scan with
    [ErrTooLong]. *)
Definition MaxScanTokenSize : Z := 65536.

(** What [scanner.Scan] yields: the lines up to an over-long one, and the error. *)
Fixpoint scan_lines (ls : list string) : list string * option error :=
  match ls with
  | [] => ([], None)
  | l :: ls' =>
      if MaxScanTokenSize <=? go_len l then
        ([], Some (PlainError "bufio.Scanner: token too long"))
      else let '(out, err) := scan_lines ls' in (drop_cr l :: out, err)
  end.
Definition Scan (content : string) : list string * option error := scan_lines (raw_lines content).

Example scan_two : Scan ("a b" +:+ String newline "c") = (["a b"; "c"], None).
Proof. reflexivity. Qed.
Example scan_blank : Scan ("x" +:+ String newline (String newline "")) = (["x"; ""], None).
Proof. reflexivity. Qed.
Example fields_ex : Fields " search  svc.a b" = ["search"; "svc.a"; "b"].
Proof. reflexivity. Qed.
Example trim_ex : TrimSpace "  a b " = "a b".
Proof. reflexivity. Qed.

(** * Lemmas *)

Lemma Split_nonempty s sep : Split s sep ≠ [].
Proof. destruct s as [|c s]; simpl; [done|]. case_match; [done|]. by case_match. Qed.

(** [Join] inverts [Split]. *)
Lemma Join_Split s sep : Join (Split s sep) sep = s.
Proof.
  induction s as [|c s IH]; [done|]. simpl. destruct (Ascii.eqb_spec c sep) as [->|Hc].
  - pose proof (Split_nonempty s sep). destruct (Split s sep) as [|w ws] eqn:E; [done|].
    rewrite <- IH. done.
  - pose proof (Split_nonempty s sep). destruct (Split s sep) as [|w ws] eqn:E; [done|].
    rewrite <- IH. simpl. destruct ws; [done|]. by rewrite str_app_cons.
Qed.

Lemma Split_free s sep : str_free sep s = true → Split s sep = [s].
Proof.
  induction s as [|c s IH]; [done|]. unfold str_free. simpl. intros [Hc Hs]%andb_true_iff.
  apply negb_true_iff in Hc. rewrite Hc. by rewrite (IH Hs).
Qed.

(** Splitting a concatenation at the separator. *)
Lemma Split_app a b sep : Split (a +:+ String sep b) sep = Split a sep ++ Split b sep.
Proof.
  induction a as [|c a IH].
  - change ("" +:+ String sep b) with (String sep b). simpl. by rewrite Ascii.eqb_refl.
  - rewrite str_app_cons. simpl. rewrite IH. destruct (Ascii.eqb c sep); [done|].
    pose proof (Split_nonempty a sep). by destruct (Split a sep).
Qed.
