(* ===== verification/Token.v ===== *)
(** * Request tokens and snapshot grants ([grpc/token/token.go], [grpc/grpc.go])

    A token is the AES-256-GCM encryption of a claims object under a key shared
    by an archiver and the operator; a grant is the encryption of a snapshot
    name under a key only the operator has. *)

From S2P Require Import Prelude Effects Types Cluster Codec.

(** ** Data *)

Record Claims := {
  SnapshotName : string;
  SidekickName : string;
  cl_Namespace : string;
  Digest : string;
  Nonce : string;
  ExpiresAt : Z
}.

Record LogInfo := {
  li_Type : string;
  li_Log : string;
  li_LogLimit : Z;
  li_StartTime : string;
  li_EndTime : string
}.

Record SnapShot := {
  ss_LogInfo : LogInfo;
  ss_SidekickName : string;
  ss_NameSpace : string;
  ss_Token : string;
  ss_SnapshotToken : string
}.

(** The strings of the claims that [json.Marshal] keeps byte for byte. *)
Definition claims_utf8 (c : Claims) : bool :=
  UTF8.ValidString (SnapshotName c) && UTF8.ValidString (SidekickName c) &&
  UTF8.ValidString (cl_Namespace c) && UTF8.ValidString (Digest c) && UTF8.ValidString (Nonce c).

(** ** Libraries *)

(** [crypto/aes], [crypto/cipher], [crypto/sha256] and [crypto/hmac].
    [gcm_seal key iv p] is the sealed text without the nonce prefix. *)
Class Crypto := {
  sha256 : string → string;
  hmac_sha256 : string → string → string;
  gcm_seal : string → string → string → string;
  gcm_open : string → string → string → option string;
  sha256_length : ∀ s, String.length (sha256 s) = 32%nat;
  hmac_length : ∀ k s, String.length (hmac_sha256 k s) = 32%nat;
  (** Opening inverts sealing, and only what was sealed under the same key and
      nonce opens: the tag is a function of key, nonce and ciphertext. *)
  gcm_open_iff : ∀ k iv ct p, gcm_open k iv ct = Some p ↔ ct = gcm_seal k iv p
}.

(** [encoding/json] on the claims and on the payload a token is bound to. *)
Class JsonCodec := {
  marshal_claims : Claims → string;
  unmarshal_claims : string → res Claims;
  marshal_payload : string → string → LogInfo → string;
  unmarshal_marshal_claims : ∀ c,
    claims_utf8 c = true → in_int64 (ExpiresAt c) →
    unmarshal_claims (marshal_claims c) = Ok c
}.

(** [s[:n]] and [s[n:]]. *)
Definition str_take (n : nat) (s : string) : string := String.substring 0 n s.
Fixpoint str_drop (n : nat) (s : string) : string :=
  match n, s with
  | O, _ => s
  | S n, "" => ""
  | S n, String _ s' => str_drop n s'
  end.

(** [gcm.NonceSize()]. *)
Definition NonceSize : nat := 12.

Section Token.
Context `{Crypto} `{JsonCodec}.

Definition deriveKey (key : string) : string := sha256 key.

(** [newGCM]: [aes.NewCipher] accepts keys of 16, 24 and 32 bytes; the AEAD is
    identified by its key. *)
Definition newGCM (key : string) : res string :=
  let k := deriveKey key in
  if existsb (Nat.eqb (String.length k)) [16; 24; 32]%nat then Ok k
  else Err (WrapError "token: new cipher: " (PlainError "crypto/aes: invalid key size")).

Definition RequestDigest (payload : string) : string := Base64.EncodeToString (sha256 payload).

Definition BindingPayload (s : SnapShot) : string :=
  marshal_payload (ss_SidekickName s) (ss_NameSpace s) (ss_LogInfo s).

Definition NewNonce : M (res string) :=
  r ← call (OpRand 16);
  match r with
  | Err e => mret (Err (WrapError "token: read nonce: " e))
  | Ok buf => mret (Ok (Base64.EncodeToString buf))
  end.

Definition empty_key : error := PlainError "token: key must not be empty".

Definition Mint (key : string) (c : Claims) : M (res string) :=
  if String.eqb key "" then mret (Err empty_key)
  else
    let plaintext := marshal_claims c in
    match newGCM key with
    | Err e => mret (Err e)
    | Ok gcm =>
        r ← call (OpRand NonceSize);
        match r with
        | Err e => mret (Err (WrapError "token: read iv: " e))
        | Ok iv =>
            let sealed := iv +:+ gcm_seal gcm iv plaintext in
            mret (Ok (Base64.EncodeToString sealed))
        end
    end.

(** The common part of [Open] and [DecryptString]. *)
Definition open_sealed (key tok : string) : res string :=
  if String.eqb key "" then Err empty_key
  else
    match Base64.DecodeString tok with
    | Err e => Err (WrapError "token: decode: " e)
    | Ok sealed =>
        match newGCM key with
        | Err e => Err e
        | Ok gcm =>
            if (String.length sealed <? NonceSize)%nat then
              Err (PlainError "token: ciphertext too short")
            else
              let iv := str_take NonceSize sealed in
              let ciphertext := str_drop NonceSize sealed in
              match gcm_open gcm iv ciphertext with
              | None => Err (WrapError "token: decryption failed: "
                               (PlainError "cipher: message authentication failed"))
              | Some plaintext => Ok plaintext
              end
        end
    end.

Definition Open (key tok : string) : res Claims :=
  match open_sealed key tok with
  | Err e => Err e
  | Ok plaintext =>
      match unmarshal_claims plaintext with
      | Err e => Err (WrapError "token: unmarshal claims: " e)
      | Ok c => Ok c
      end
  end.

Definition Verify (c : Claims) (now : Z) (sidekickName namespace digest : string) : option error :=
  if (ExpiresAt c =? 0) || (ExpiresAt c <=? now) then Some (PlainError "token: expired")
  else if negb (String.eqb (SidekickName c) sidekickName) ||
          negb (String.eqb (cl_Namespace c) namespace) then
    Some (PlainError "token: identity mismatch")
  else if String.eqb (Digest c) "" || negb (String.eqb (Digest c) digest) then
    Some (PlainError "token: payload binding mismatch")
  else if String.eqb (Nonce c) "" then Some (PlainError "token: missing nonce")
  else None.

Definition deterministicNonce (key plaintext : string) (size : nat) : string :=
  str_take size (hmac_sha256 (deriveKey key) plaintext).

Definition EncryptString (key plaintext : string) : res string :=
  if String.eqb key "" then Err empty_key
  else
    match newGCM key with
    | Err e => Err e
    | Ok gcm =>
        let iv := deterministicNonce key plaintext NonceSize in
        let sealed := iv +:+ gcm_seal gcm iv plaintext in
        Ok (Base64.EncodeToString sealed)
    end.

Definition DecryptString (key blob : string) : res string := open_sealed key blob.

(** * Lemmas *)

Lemma newGCM_ok key : newGCM key = Ok (deriveKey key).
Proof. unfold newGCM, deriveKey. by rewrite sha256_length. Qed.

Lemma str_take_app a b : str_take (String.length a) (a +:+ b) = a.
Proof.
  unfold str_take. induction a as [|c a IH]; [by destruct b|].
  rewrite str_app_cons. simpl. by rewrite IH.
Qed.

Lemma str_drop_app a b : str_drop (String.length a) (a +:+ b) = b.
Proof. induction a as [|c a IH]; [done|]. rewrite str_app_cons. apply IH. Qed.

Lemma str_take_length n s : (n ≤ String.length s)%nat → String.length (str_take n s) = n.
Proof.
  unfold str_take. revert s. induction n as [|n IH]; intros [|c s] Hn; simpl in *; [done..|lia|].
  rewrite IH; lia.
Qed.

(** What was sealed opens. *)
Lemma open_sealed_seal key iv p :
  key ≠ "" → String.length iv = NonceSize →
  open_sealed key (Base64.EncodeToString (iv +:+ gcm_seal (deriveKey key) iv p)) = Ok p.
Proof.
  intros Hk Hiv. unfold open_sealed. apply String.eqb_neq in Hk. rewrite Hk.
  rewrite Base64.DecodeEncode, newGCM_ok, str_length_app, Hiv.
  replace (_ <? _)%nat with false by (symmetry; apply Nat.ltb_ge; lia).
  rewrite <- Hiv, str_take_app, str_drop_app. by rewrite (proj2 (gcm_open_iff _ _ _ _) eq_refl).
Qed.

(** What opens was sealed under that key. *)
Lemma open_sealed_inv key tok p :
  open_sealed key tok = Ok p →
  ∃ iv, String.length iv = NonceSize ∧
    Base64.DecodeString tok = Ok (iv +:+ gcm_seal (deriveKey key) iv p).
Proof.
  unfold open_sealed. destruct (String.eqb key ""); [done|].
  destruct (Base64.DecodeString tok) as [sealed|]; [|done]. rewrite newGCM_ok.
  destruct (_ <? _)%nat eqn:El; [done|]. apply Nat.ltb_ge in El.
  destruct (gcm_open _ _ _) as [p'|] eqn:Eo; [|done]. intros E. simplify_eq.
  apply gcm_open_iff in Eo. exists (str_take NonceSize sealed).
  split; [by apply str_take_length|]. f_equal. rewrite <- Eo.
  clear. unfold str_take. generalize NonceSize. intros n. revert n.
  induction sealed as [|c s IH]; intros [|n]; simpl; try done.
  rewrite str_app_cons. by rewrite <- IH.
Qed.

Lemma deterministicNonce_length key p : String.length (deterministicNonce key p NonceSize) = NonceSize.
Proof. apply str_take_length. rewrite hmac_length. unfold NonceSize. lia. Qed.

(** Minting with given random bytes, and opening. *)
Lemma mint_opens key c iv :
  key ≠ "" → String.length iv = NonceSize →
  claims_utf8 c = true → in_int64 (ExpiresAt c) →
  ∃ tok, exec (Mint key c) [Ev (OpRand NonceSize) (Ok iv)] (Returned (Ok tok)) ∧
    Open key tok = Ok c.
Proof.
  intros Hk Hiv Hc Hx. eexists. unfold Mint. rewrite (proj2 (String.eqb_neq _ _) Hk), newGCM_ok.
  split; [apply (exec_call (OpRand NonceSize) _ (Ok iv)), exec_ret|].
  unfold Open. rewrite open_sealed_seal by done. by rewrite unmarshal_marshal_claims.
Qed.

(** A minted token opens to the claims it was minted for: with any 12 random
    bytes, [Mint] under a non-empty key succeeds and [Open] under the same key
    returns exactly the claims, provided their strings are valid UTF-8 (which
    [json.Marshal] needs to keep them). *)
Theorem mint_open_roundtrip key c iv :
  key ≠ "" → String.length iv = NonceSize →
  claims_utf8 c = true → in_int64 (ExpiresAt c) →
  ∃ tok, exec (Mint key c) [Ev (OpRand NonceSize) (Ok iv)] (Returned (Ok tok)) ∧
    Open key tok = Ok c.
Proof. apply mint_opens. Qed.

(** C37. Grants round-trip and separate: encrypting a snapshot name under a
    non-empty key always succeeds, decrypting returns the name, and a blob that
    decrypts to a name under a key is, once decoded, a nonce followed by the
    sealing of that name under that key. *)
Theorem grant_roundtrip key name :
  key ≠ "" →
  (∃ blob, EncryptString key name = Ok blob ∧ DecryptString key blob = Ok name) ∧
  ∀ blob p, DecryptString key blob = Ok p →
    ∃ iv, String.length iv = NonceSize ∧
      Base64.DecodeString blob = Ok (iv +:+ gcm_seal (deriveKey key) iv p).
Proof.
  intros Hk. split.
  - eexists. unfold EncryptString. rewrite (proj2 (String.eqb_neq _ _) Hk), newGCM_ok.
    split; [done|]. apply open_sealed_seal; [done|]. apply deterministicNonce_length.
  - intros blob p Hd. by apply open_sealed_inv in Hd.
Qed.
End Token.
