(* ===== verification/SnapshotServer.v ===== *)
(** * The snapshot server ([pkg/snapshotserver])

    The gRPC service an archiver in a spoke cluster reports to: it authenticates
    a request with the keys of its Sidekick, authorizes it for the one Snapshot
    the operator granted, rejects replays, and records the outcome in that
    Snapshot's status.  The replay cache is the server's only state; its mutex
    makes [accept] atomic, so concurrent requests are some sequence of calls. *)

From S2P Require Import Prelude Effects Types Cluster Kmodules Codec Token.

(** ** secret.go *)
Definition SigningSecretKey : string := "signing-key".
Definition SnapshotSecretKey : string := "snapshot-key".
Definition SigningSecretName (sidekickName : string) : string := sidekickName +:+ "-grpc-key".

(** ** Messages *)
Record CommandRequest := { rq_Command : string; rq_Data : string }.
Record CommandResponse := { rs_Status : string; rs_Output : string; rs_Error : string }.

(** [json.Unmarshal] of the request envelope and [json.Marshal] of a Snapshot;
    [quote] is the [%q] verb. *)
Class SnapshotJson := {
  unmarshal_envelope : string → option SnapShot;
  marshal_snapshot : Snapshot → res string;
  quote : string → string
}.

Definition GRPCPort : Z := 50051.
Definition CommandUpdateSnapshot : string := "UpdateSnapshot".
Definition CommandGetSnapshot : string := "GetSnapshot".
Definition errUnauthenticated : string := "unauthenticated".

Definition authError : CommandResponse :=
  {| rs_Status := "error"; rs_Output := ""; rs_Error := errUnauthenticated |}.
Definition getError (e : error) : CommandResponse :=
  {| rs_Status := "error"; rs_Output := ""; rs_Error := Error e |}.

(** ** The replay cache *)

Abbreviation cache := (gmap string Z).

Definition newReplayCache : cache := ∅.

(** Drop the entries that have expired by [now]. *)
Definition purge (now : Z) (seen : cache) : cache := filter (λ kv, ¬ kv.2 ≤ now) seen.

Definition accept_at (now : Z) (seen : cache) (nonce : string) (exp : Z) : bool * cache :=
  let seen := purge now seen in
  match seen !! nonce with
  | Some _ => (false, seen)
  | None => (true, <[nonce := exp]> seen)
  end.

Definition accept (seen : cache) (nonce : string) (exp : Z) : M (bool * cache) :=
  now ← call OpNow;
  mret (accept_at now seen nonce exp).

(** ** Snapshot status ([snapshot.go]) *)

Definition ComponentLog : string := "log".
Definition maxLogLimit : Z := 100.
Definition maxLogBytes : Z := 4096.

Definition set_Components (m : gomap Component) (s : Snapshot) : Snapshot :=
  {| snap_Meta := snap_Meta s; snap_SpecRest := snap_SpecRest s;
     snap_Status := {| sn_TotalComponents := sn_TotalComponents (snap_Status s);
                       sn_Components := m; sn_StatusRest := sn_StatusRest (snap_Status s) |} |}.

Definition updateSnapshotStatus (snapshot : Snapshot) : M (Snapshot * option error) :=
  PatchStatus KSnapshot snapshot (λ inn,
    {| snap_Meta := snap_Meta inn; snap_SpecRest := snap_SpecRest inn;
       snap_Status := {| sn_TotalComponents := sn_TotalComponents (snap_Status snapshot);
                         sn_Components := sn_Components (snap_Status snapshot);
                         sn_StatusRest := sn_StatusRest (snap_Status inn) |} |}).

(** The component read from the status map: the zero value when absent. *)
Definition log_component (s : Snapshot) : Component :=
  default empty_Component (gm_lookup (sn_Components (snap_Status s)) ComponentLog).

Definition InitSnapshotComponentsStatus (name namespace : string) : M (res Snapshot) :=
  r ← call (OpGet KSnapshot (mkKey namespace name));
  match r with
  | Err e => mret (Err e)
  | Ok snapshot =>
      let comps := default ∅ (sn_Components (snap_Status snapshot)) in
      let compLog := log_component snapshot in
      let compLog :=
        {| comp_Phase := ComponentPhaseRunning;
           comp_LogStats := Some (default empty_LogStats (comp_LogStats compLog));
           comp_Rest := comp_Rest compLog |} in
      let snapshot := set_Components (Some (<[ComponentLog := compLog]> comps)) snapshot in
      '(snapshot, err) ← updateSnapshotStatus snapshot;
      match err with
      | Some e => mret (Err (WrapError "failed to update snapshot status :" e))
      | None => mret (Ok snapshot)
      end
  end.

(** Drops the oldest entry when the history is over the limit. *)
Definition trimLogHistory (logs : list Log) (limit : Z) : list Log :=
  if limit <? Z.of_nat (length logs) then tail logs else logs.

(** The clamping of the caller's input. *)
Definition clamp (info : LogInfo) : LogInfo :=
  let limit := if maxLogLimit <? li_LogLimit info then maxLogLimit else li_LogLimit info in
  let limit := if limit <? 0 then 0 else limit in
  {| li_Type := li_Type info;
     li_Log := if maxLogBytes <? go_len (li_Log info)
               then str_take (Z.to_nat maxLogBytes) (li_Log info) else li_Log info;
     li_LogLimit := limit; li_StartTime := li_StartTime info; li_EndTime := li_EndTime info |}.

(** The new statistics of the log component, for a clamped report. *)
Definition record_log (st : LogStats) (info : LogInfo) : LogStats :=
  let start := match lg_Start st with None => Some (li_StartTime info) | s => s end in
  let newLog err := {| log_Start := Some (li_StartTime info); log_End := Some (li_EndTime info);
                       log_Error := err |} in
  if String.eqb (li_Type info) "success" then
    {| lg_Start := start; lg_End := Some (li_EndTime info); lg_Lsn := lg_Lsn st;
       lg_TotalFailedCount := lg_TotalFailedCount st;
       lg_LastFailedStats := lg_LastFailedStats st;
       lg_TotalSucceededCount := wrap64 (lg_TotalSucceededCount st + 1);
       lg_LastSucceededStats :=
         trimLogHistory (lg_LastSucceededStats st ++ [newLog ""]) (li_LogLimit info);
       lg_LastLogRetentionStats := lg_LastLogRetentionStats st |}
  else
    {| lg_Start := start; lg_End := Some (li_EndTime info); lg_Lsn := lg_Lsn st;
       lg_TotalFailedCount := wrap64 (lg_TotalFailedCount st + 1);
       lg_LastFailedStats :=
         trimLogHistory (lg_LastFailedStats st ++ [newLog (li_Log info)]) (li_LogLimit info);
       lg_TotalSucceededCount := lg_TotalSucceededCount st;
       lg_LastSucceededStats := lg_LastSucceededStats st;
       lg_LastLogRetentionStats := lg_LastLogRetentionStats st |}.

Definition UpdateSnapshot (name namespace : string) (info : LogInfo) : M (option error) :=
  let info := clamp info in
  r ← InitSnapshotComponentsStatus name namespace;
  match r with
  | Err e => mret (Some e)
  | Ok snapshot =>
      let component := log_component snapshot in
      let stats := record_log (default empty_LogStats (comp_LogStats component)) info in
      let component := {| comp_Phase := comp_Phase component; comp_LogStats := Some stats;
                          comp_Rest := comp_Rest component |} in
      comps ← gm_write (sn_Components (snap_Status snapshot)) ComponentLog component;
      '(_, err) ← updateSnapshotStatus (set_Components comps snapshot);
      mret err
  end.

Section Server.
Context `{Crypto} `{JsonCodec} `{SnapshotJson}.

Definition GetSnapshot (name namespace : string) : M (res string) :=
  r ← call (OpGet KSnapshot (mkKey namespace name));
  match r with
  | Err e => mret (Err e)
  | Ok snapshot =>
      match marshal_snapshot snapshot with
      | Ok data => mret (Ok data)
      | Err e => mret (Err (WrapError ("marshal snapshot " +:+ namespace +:+ "/" +:+ name +:+ ": ") e))
      end
  end.

(** ** Authentication ([grpc.go]) *)

Definition grpcKeys (namespace sidekickName : string) : M (res (string * string)) :=
  r ← call (OpGet KSecret (mkKey namespace (SigningSecretName sidekickName)));
  match r with
  | Err e => mret (Err e)
  | Ok secret =>
      let sign := gm_str (sec_Data secret) SigningSecretKey in
      let snap := gm_str (sec_Data secret) SnapshotSecretKey in
      if String.eqb sign "" || String.eqb snap "" then
        mret (Err (PlainError ("grpc keys missing in secret " +:+ namespace +:+ "/"
                                 +:+ SigningSecretName sidekickName)))
      else mret (Ok (sign, snap))
  end.

Definition bindingDigest (snap : SnapShot) : string := RequestDigest (BindingPayload snap).

Definition authenticate (seen : cache) (snap : SnapShot) : M (res Claims * cache) :=
  r ← grpcKeys (ss_NameSpace snap) (ss_SidekickName snap);
  match r with
  | Err e => mret (Err (WrapError "load grpc keys: " e), seen)
  | Ok (signingKey, snapshotKey) =>
      match Open signingKey (ss_Token snap) with
      | Err e => mret (Err e, seen)
      | Ok claims =>
          let digest := bindingDigest snap in
          now ← call OpNow;
          match Verify claims now (ss_SidekickName snap) (ss_NameSpace snap) digest with
          | Some e => mret (Err e, seen)
          | None =>
              match DecryptString snapshotKey (ss_SnapshotToken snap) with
              | Err e => mret (Err (WrapError "decrypt snapshot grant: " e), seen)
              | Ok granted =>
                  if String.eqb granted "" || negb (String.eqb granted (SnapshotName claims)) then
                    mret (Err (PlainError ("snapshot " +:+ quote (SnapshotName claims) +:+
                      " not authorized for sidekick " +:+ ss_NameSpace snap +:+ "/" +:+
                      ss_SidekickName snap)), seen)
                  else
                    '(ok, seen) ← accept seen (Nonce claims) (ExpiresAt claims);
                    if (ok : bool) then mret (Ok claims, seen)
                    else mret (Err (PlainError "nonce already used"), seen)
              end
          end
      end
  end.

Definition ExecuteCommand (seen : cache) (req : CommandRequest) : M (CommandResponse * cache) :=
  match unmarshal_envelope (rq_Data req) with
  | None => mret (authError, seen)
  | Some snap =>
      '(r, seen) ← authenticate seen snap;
      match r with
      | Err _ => mret (authError, seen)
      | Ok claims =>
          if String.eqb (rq_Command req) CommandUpdateSnapshot then
            err ← UpdateSnapshot (SnapshotName claims) (ss_NameSpace snap) (ss_LogInfo snap);
            match err with
            | Some e => mret (getError e, seen)
            | None => mret ({| rs_Status := "success"; rs_Output := ""; rs_Error := "" |}, seen)
            end
          else if String.eqb (rq_Command req) CommandGetSnapshot then
            r ← GetSnapshot (SnapshotName claims) (ss_NameSpace snap);
            match r with
            | Err e => mret (getError e, seen)
            | Ok data => mret ({| rs_Status := "success"; rs_Output := data; rs_Error := "" |}, seen)
            end
          else mret ({| rs_Status := "error"; rs_Output := "";
                        rs_Error := "unknown command: " +:+ quote (rq_Command req) |}, seen)
      end
  end.
End Server.
