(* ===== verification/SnapshotProps.v ===== *)
(** * Properties of the snapshot server *)

From S2P Require Import Prelude Effects Types Cluster Kmodules Codec Token SnapshotServer Server.

(** ** Authentication *)

(** The clock readings of a trace. *)
Definition clock_reads (tr : list apievent) : list Z :=
  omap (λ e, match e with
             | Ev op r => match op return answer op → option Z with OpNow => Some | _ => λ _, None end r
             end) tr.

Section Auth.
Context `{Crypto} `{JsonCodec} `{SnapshotJson}.

(** What [Verify] accepts. *)
Lemma Verify_None c now sk ns dig :
  Verify c now sk ns dig = None ↔
  ExpiresAt c ≠ 0 ∧ now < ExpiresAt c ∧ SidekickName c = sk ∧ cl_Namespace c = ns ∧
  Digest c ≠ "" ∧ Digest c = dig ∧ Nonce c ≠ "".
Proof.
  unfold Verify.
  destruct (Z.eqb_spec (ExpiresAt c) 0), (Z.leb_spec (ExpiresAt c) now); simpl;
    try (split; [done|lia]).
  destruct (String.eqb_spec (SidekickName c) sk), (String.eqb_spec (cl_Namespace c) ns); simpl;
    try (split; [done|tauto]).
  destruct (String.eqb_spec (Digest c) ""), (String.eqb_spec (Digest c) dig); simpl;
    try (split; [done|tauto]).
  destruct (String.eqb_spec (Nonce c) ""); (split; [done|]); tauto.
Qed.

(** The keys a Secret gives for a request. *)
Definition signing_key (s : Secret) : string := gm_str (sec_Data s) SigningSecretKey.
Definition snapshot_key (s : Secret) : string := gm_str (sec_Data s) SnapshotSecretKey.

(** Everything an accepted request has been checked for. *)
Definition authorized (seen seen' : cache) (snap : SnapShot) (secret : Secret) (t1 t2 : Z)
    (c : Claims) : Prop :=
  Open (signing_key secret) (ss_Token snap) = Ok c ∧
  ExpiresAt c ≠ 0 ∧ t1 < ExpiresAt c ∧ SidekickName c = ss_SidekickName snap ∧ cl_Namespace c = ss_NameSpace snap ∧
  Digest c = bindingDigest snap ∧ Nonce c ≠ "" ∧
  DecryptString (snapshot_key secret) (ss_SnapshotToken snap) = Ok (SnapshotName c) ∧
  SnapshotName c ≠ "" ∧ accept_at t2 seen (Nonce c) (ExpiresAt c) = (true, seen').

(** What every execution of [authenticate] does: it writes nothing and returns;
    a refusal leaves the cache, up to expired entries, as it was. *)
Definition auth_post (seen : cache) (snap : SnapShot) (tr : list apievent)
    (o : outcome (res Claims * cache)) : Prop :=
  Forall (λ e, is_write e = false) tr ∧
  ∃ r seen', o = Returned (r, seen') ∧
    match r with
    | Ok c => ∃ secret t1 t2,
        tr = [Ev (OpGet KSecret (mkKey (ss_NameSpace snap) (SigningSecretName (ss_SidekickName snap))))
                (Ok secret); Ev OpNow t1; Ev OpNow t2] ∧
        authorized seen seen' snap secret t1 t2 c
    | Err _ => seen' = seen ∨ ∃ t, t ∈ clock_reads tr ∧ seen' = purge t seen
    end.

Lemma authenticate_wp seen snap : wp (authenticate seen snap) (auth_post seen snap).
Proof.
  assert (Hno : ∀ (tr : list apievent) e, Forall (λ e, is_write e = false) tr →
    auth_post seen snap tr (Returned (Err e, seen))).
  { intros tr e Ht. split; [done|]. eexists _, _. split; [reflexivity|]. by left. }
  unfold authenticate, grpcKeys, accept.
  intros [secret|e]; simpl; [|by apply Hno; repeat constructor].
  fold (signing_key secret) (snapshot_key secret).
  destruct (String.eqb (signing_key secret) "" || _); simpl; [by apply Hno; repeat constructor|].
  destruct (Open (signing_key secret) (ss_Token snap)) as [c|e] eqn:Eo; simpl;
    [|by apply Hno; repeat constructor].
  intros t1. destruct (Verify _ _ _ _ _) eqn:Ev; simpl; [by apply Hno; repeat constructor|].
  apply Verify_None in Ev as (Hz & Ht & Hs & Hn & _ & Hd & Hnn).
  destruct (DecryptString (snapshot_key secret) (ss_SnapshotToken snap)) as [g|e] eqn:Eg;
    simpl; [|by apply Hno; repeat constructor].
  destruct (String.eqb_spec g ""), (String.eqb_spec g (SnapshotName c)); simpl;
    try by apply Hno; repeat constructor.
  intros t2. simpl. destruct (accept_at t2 seen (Nonce c) (ExpiresAt c)) as [ok seen'] eqn:Ea; simpl.
  destruct ok; simpl; (split; [by repeat constructor|]); eexists _, _; (split; [reflexivity|]).
  - subst g. eexists secret, t1, t2. split; [done|]. by repeat split.
  - right. exists t2. unfold accept_at in Ea. case_match; simplify_eq. split; [set_solver|done].
Qed.

Lemma authenticate_complete seen snap secret t1 t2 c seen' :
  authorized seen seen' snap secret t1 t2 c →
  exec (authenticate seen snap)
    [Ev (OpGet KSecret (mkKey (ss_NameSpace snap) (SigningSecretName (ss_SidekickName snap))))
       (Ok secret); Ev OpNow t1; Ev OpNow t2] (Returned (Ok c, seen')).
Proof.
  intros (Ho & Hz & Ht & Hs & Hn & Hd & Hno & Hg & Hne & Ha).
  assert (Hk1 : String.eqb (signing_key secret) "" = false).
  { unfold Open, open_sealed in Ho. by destruct (String.eqb _ _). }
  assert (Hk2 : String.eqb (snapshot_key secret) "" = false).
  { unfold DecryptString, open_sealed in Hg. by destruct (String.eqb _ _). }
  assert (Hv : Verify c t1 (ss_SidekickName snap) (ss_NameSpace snap) (bindingDigest snap) = None).
  { apply Verify_None. repeat split; try done. rewrite Hd. unfold bindingDigest, RequestDigest.
    pose proof (sha256_length (BindingPayload snap)) as Hl. by destruct (sha256 _) as [|? [|? [|? ?]]]. }
  unfold authenticate, grpcKeys.
  apply (exec_call (OpGet KSecret (mkKey (ss_NameSpace snap)
           (SigningSecretName (ss_SidekickName snap)))) _ (Ok secret)).
  cbn [prog_bind]. fold (signing_key secret) (snapshot_key secret). rewrite Hk1, Hk2. simpl.
  rewrite Ho. apply (exec_call OpNow _ t1). simpl. rewrite Hv, Hg.
  rewrite (proj2 (String.eqb_neq _ _) Hne), String.eqb_refl. simpl.
  apply (exec_call OpNow _ t2). simpl. rewrite Ha. apply exec_ret.
Qed.

(** C9. Authentication accepts exactly the authorized requests: a request is
    accepted if and only if its token opens under the signing key stored for
    the Sidekick it names, has not expired at the first clock reading, names
    that Sidekick and namespace, is bound to the digest of this very payload,
    carries a nonce the cache does not hold, and its forwarded grant decrypts
    under the stored snapshot key to exactly the (non-empty) Snapshot name of
    the token. *)
Theorem authenticate_iff seen snap tr c seen' :
  exec (authenticate seen snap) tr (Returned (Ok c, seen')) ↔
  ∃ secret t1 t2,
    tr = [Ev (OpGet KSecret (mkKey (ss_NameSpace snap) (SigningSecretName (ss_SidekickName snap))))
            (Ok secret); Ev OpNow t1; Ev OpNow t2] ∧
    authorized seen seen' snap secret t1 t2 c.
Proof.
  split; [|intros (secret & t1 & t2 & -> & Ha); by apply authenticate_complete].
  intros He. destruct (proj1 (wp_exec _ _) (authenticate_wp seen snap) _ _ He)
    as (_ & r & s & Eo & Hr). by simplify_eq.
Qed.
End Auth.

(** ** Replays *)

Lemma purge_lookup now seen n e : purge now seen !! n = Some e ↔ seen !! n = Some e ∧ now < e.
Proof. unfold purge. rewrite map_lookup_filter_Some. simpl. rewrite Z.nle_gt. done. Qed.

(** A recorded nonce stays recorded while its token is alive. *)
Lemma accept_at_keeps now seen n e n' e' ok seen' :
  accept_at now seen n' e' = (ok, seen') → seen !! n = Some e → now < e → seen' !! n = Some e.
Proof.
  unfold accept_at. intros Ha Hn Ht.
  assert (Hp : purge now seen !! n = Some e) by (by apply purge_lookup).
  case_match; simplify_eq; [done|]. rewrite lookup_insert_ne; [done|]. congruence.
Qed.

Section Sessions.
Context `{Crypto} `{JsonCodec} `{SnapshotJson}.

(** A request the server accepted: its claims, when [Verify] and when [accept]
    read the clock. *)
Record acceptance := { ac_claims : Claims; ac_verified : Z; ac_recorded : Z }.

(** Requests served one after the other (in the order in which they enter
    [accept]), with the acceptances they produce.  [t] is a clock reading no
    later reading precedes. *)
Inductive session : Z → cache → list acceptance → cache → Prop :=
| session_nil t seen : session t seen [] seen
| session_refused t seen snap tr e seen1 t' accs seen2 :
    exec (authenticate seen snap) tr (Returned (Err e, seen1)) →
    Forall (λ x, t ≤ x ≤ t') (clock_reads tr) → t ≤ t' →
    session t' seen1 accs seen2 → session t seen accs seen2
| session_accepted t seen snap tr c seen1 t1 t2 accs seen2 :
    exec (authenticate seen snap) tr (Returned (Ok c, seen1)) →
    clock_reads tr = [t1; t2] → t1 ≤ t2 → t ≤ t2 →
    session t2 seen1 accs seen2 →
    session t seen ({| ac_claims := c; ac_verified := t1; ac_recorded := t2 |} :: accs) seen2.

Lemma session_times t seen accs seen' :
  session t seen accs seen' → ∀ a, a ∈ accs → t ≤ ac_recorded a.
Proof.
  induction 1 as [| |t seen snap tr c seen1 t1 t2 accs seen2 Hx Hc H12 Ht Hs IH];
    intros a Ha; [by apply elem_of_nil in Ha| |].
  - etrans; [|by apply IHsession]. done.
  - apply elem_of_cons in Ha as [->|Ha]; [done|]. etrans; [|by apply IH]. done.
Qed.

(** What an accepted request did to the cache. *)
Lemma accepted_cache seen snap tr c seen1 t1 t2 :
  exec (authenticate seen snap) tr (Returned (Ok c, seen1)) → clock_reads tr = [t1; t2] →
  t1 < ExpiresAt c ∧ accept_at t2 seen (Nonce c) (ExpiresAt c) = (true, seen1).
Proof.
  intros Hx Hc. destruct (proj1 (wp_exec _ _) (authenticate_wp seen snap) _ _ Hx)
    as (_ & r & s & Eo & Hr).
  simplify_eq. destruct Hr as (secret & t1' & t2' & -> & Ha). simpl in Hc. simplify_eq.
  by destruct Ha as (_ & _ & ? & _ & _ & _ & _ & _ & _ & ?).
Qed.

(** While the first token with a nonce is alive, the nonce is not accepted
    again. *)
Lemma session_excludes t seen accs seen' n e :
  session t seen accs seen' → seen !! n = Some e →
  ∀ a, a ∈ accs → Nonce (ac_claims a) = n → e ≤ ac_recorded a.
Proof.
  induction 1 as [|t seen snap tr err seen1 t' accs seen2 Hx Hc Ht Hs IH
                  |t seen snap tr c seen1 t1 t2 accs seen2 Hx Hc H12 Ht Hs IH]; intros Hn a Ha Hna.
  - by apply elem_of_nil in Ha.
  - destruct (proj1 (wp_exec _ _) (authenticate_wp seen snap) _ _ Hx) as (_ & r & s & Eo & Hr).
    simplify_eq. destruct Hr as [->|(tp & Htp & ->)]; [by apply IH|].
    rewrite Forall_forall in Hc. apply Hc in Htp.
    destruct (Z_lt_le_dec tp e); [by apply IH; [apply purge_lookup|..]|].
    pose proof (session_times _ _ _ _ Hs a Ha). lia.
  - destruct (accepted_cache _ _ _ _ _ _ _ Hx Hc) as [Hexp Hacc].
    destruct (Z_lt_le_dec t2 e) as [Hlt|Hle].
    + apply elem_of_cons in Ha as [->|Ha].
      * exfalso. simpl in Hna. subst n. unfold accept_at in Hacc.
        rewrite (proj2 (purge_lookup t2 seen _ e) (conj Hn Hlt)) in Hacc. done.
      * apply IH; [|done..]. by eapply accept_at_keeps.
    + apply elem_of_cons in Ha as [->|Ha]; [done|].
      pose proof (session_times _ _ _ _ Hs a Ha). lia.
Qed.

(** C10. No replay.  In any sequence of requests to the server, if a nonce is
    accepted twice then the first token had expired when the second request
    entered [accept].  In particular the same token can be accepted twice only
    if it expires between the clock reading of [Verify] and the one of [accept]
    of its second use; if these readings fall in the same second, never. *)
Theorem replay_only_after_expiry t seen accs seen' l1 a l2 b l3 :
  session t seen accs seen' → accs = l1 ++ a :: l2 ++ b :: l3 →
  Nonce (ac_claims a) = Nonce (ac_claims b) →
  ExpiresAt (ac_claims a) ≤ ac_recorded b ∧
  (ac_claims a = ac_claims b →
   ac_verified b < ExpiresAt (ac_claims b) ≤ ac_recorded b) ∧
  (ac_claims a = ac_claims b → ac_verified b ≠ ac_recorded b).
Proof.
  intros Hs E Hn.
  assert (Hfst : ExpiresAt (ac_claims a) ≤ ac_recorded b).
  { revert l1 E. induction Hs as [|t seen snap tr err seen1 t' accs seen2 Hx Hc Ht Hs IH
                  |t seen snap tr c seen1 t1 t2 accs seen2 Hx Hc H12 Ht Hs IH]; intros l1 E.
    - by destruct l1.
    - by apply (IH l1).
    - destruct l1 as [|a0 l1]; simplify_eq/=; [|by apply (IH l1)].
      apply (session_excludes _ _ _ _ (Nonce c) (ExpiresAt c) Hs); [|set_solver|done].
      apply (accepted_cache _ _ _ _ _ _ _ Hx) in Hc as [_ Hacc].
      unfold accept_at in Hacc. case_match; simplify_eq. apply lookup_insert_eq. }
  assert (Hver : ac_verified b < ExpiresAt (ac_claims b)).
  { assert (Hb : b ∈ accs) by set_solver. clear -Hs Hb.
    induction Hs as [| |t seen snap tr c seen1 t1 t2 accs seen2 Hx Hc H12 Ht Hs IH];
      [by apply elem_of_nil in Hb|by auto|].
    apply elem_of_cons in Hb as [->|Hb]; [|by auto].
    by apply (accepted_cache _ _ _ _ _ _ _ Hx) in Hc as [? _]. }
  split; [done|]. split; intros Ec; rewrite Ec in Hfst; lia.
Qed.
End Sessions.

(** ** Which objects the server writes *)

(** Answers carry the object asked for, and a status patch of a Snapshot is
    answered with the components it sent. *)
Definition keyed (e : apievent) : Prop :=
  match e with
  | Ev op r =>
      match op return answer op → Prop with
      | OpGet k key => λ r, match r with Ok o => obj_key o = key | Err _ => True end
      | OpStatusPatch k _ md => λ r,
          match r with
          | Ok o => obj_key o = obj_key md ∧
                    match as_snapshot o, as_snapshot md with
                    | Some a, Some b =>
                        sn_Components (snap_Status a) = sn_Components (snap_Status b)
                    | _, _ => True
                    end
          | Err _ => True
          end
      | _ => λ _, True
      end r
  end.

(** A call that writes nothing, or the status of that Snapshot. *)
Definition confined (key : NamespacedName) (e : apievent) : Prop :=
  match e with
  | Ev op _ =>
      match op with
      | OpStatusPatch KSnapshot cur _ => obj_key cur = key
      | _ => is_write e = false
      end
  end.

Lemma updateSnapshotStatus_total key s :
  @obj_key KSnapshot s = key →
  total keyed (confined key)
    (λ p, @obj_key KSnapshot p.1 = key ∧
          sn_Components (snap_Status p.1) = sn_Components (snap_Status s))
    (updateSnapshotStatus s).
Proof.
  intros Hk. unfold updateSnapshotStatus, PatchStatus. rewrite Hk.
  total_step.
  { intros r Hr. split; [done|]. exact Hr. }
  intros [cur|e] Hc; [|by apply total_ret].
  total_step.
  { intros r Hr. split; [exact Hc|]. exact Hr. }
  intros [md|e] Hr; apply total_ret; [|done]. destruct Hr as [Hr1 Hr2].
  split; [|exact Hr2]. simpl in *. rewrite Hr1. exact Hc.
Qed.

Lemma UpdateSnapshot_total name ns info :
  total keyed (confined (mkKey ns name)) (λ _, True) (UpdateSnapshot name ns info).
Proof.
  unfold UpdateSnapshot.
  eapply (total_bind _ _ (λ r, match r with
      | Ok s => @obj_key KSnapshot s = mkKey ns name ∧ is_Some (sn_Components (snap_Status s))
      | Err _ => True end)).
  - unfold InitSnapshotComponentsStatus. total_step.
    { intros r Hr. split; [done|]. exact Hr. }
    intros [s|e] Hk; [|by apply total_ret].
    eapply total_bind; [by apply updateSnapshotStatus_total|].
    intros [s' [e|]] [Hk' Hc]; apply total_ret; [done|]. split; [done|].
    simpl in Hc. rewrite Hc. eauto.
  - intros [s|e]; [|intros; by apply total_ret]. intros [Hk [m Hm]]. rewrite Hm. simpl gm_write.
    apply (total_bind _ _ (λ _, True)); [by apply total_ret|]. intros comps _.
    eapply total_bind; [by apply updateSnapshotStatus_total|]. intros [] _. by apply total_ret.
Qed.

Section Confine.
Context `{Crypto} `{JsonCodec} `{SnapshotJson}.

(** The request's grant, under the snapshot key the trace read for its
    Sidekick, names this Snapshot of its namespace. *)
Definition granted (req : CommandRequest) (tr : list apievent) (key : NamespacedName) : Prop :=
  ∃ snap secret name,
    unmarshal_envelope (rq_Data req) = Some snap ∧
    Ev (OpGet KSecret (mkKey (ss_NameSpace snap) (SigningSecretName (ss_SidekickName snap))))
       (Ok secret) ∈ tr ∧
    DecryptString (snapshot_key secret) (ss_SnapshotToken snap) = Ok name ∧
    key = mkKey (ss_NameSpace snap) name.

Lemma confined_weaken key (e : apievent) : is_write e = false → confined key e.
Proof. destruct e as [op r]. by destruct op. Qed.

Lemma ExecuteCommand_wpE seen req :
  wpE keyed (ExecuteCommand seen req) (λ tr o,
    ∃ resp seen', o = Returned (resp, seen') ∧
    (Forall (λ e, is_write e = false) tr ∧ resp = authError ∨
     ∃ key, granted req tr key ∧ Forall (confined key) tr)).
Proof.
  unfold ExecuteCommand.
  destruct (unmarshal_envelope (rq_Data req)) as [snap|] eqn:Eu;
    [|apply wpE_ret; eexists _, _; split; [done|]; by left].
  apply wpE_bind. eapply wp_mono; [|apply authenticate_wp].
  intros tr o (Hnw & r & seen1 & -> & Hr) _.
  destruct r as [c|e]; [|apply wpE_ret; rewrite app_nil_r; eexists _, _; split; [done|]; by left].
  destruct Hr as (secret & t1 & t2 & Htr & Ha).
  set (key := mkKey (ss_NameSpace snap) (SnapshotName c)).
  assert (Hg : ∀ tr', granted req (tr ++ tr') key).
  { intros tr'. exists snap, secret, (SnapshotName c). split; [done|].
    split; [subst tr; set_solver|]. split; [|done]. by destruct Ha as (_&_&_&_&_&_&_&?&_). }
  assert (Hc : Forall (confined key) tr).
  { eapply Forall_impl; [exact Hnw|]. apply confined_weaken. }
  assert (Hfin : ∀ A (p : M A) (f : A → M (CommandResponse * cache)),
    total keyed (confined key) (λ _, True) p → (∀ a, ∃ resp, f a = mret (resp, seen1)) →
    wpE keyed (p ≫= f) (λ tr' o, ∃ resp seen', o = Returned (resp, seen') ∧
      (Forall (λ e, is_write e = false) (tr ++ tr') ∧ resp = authError ∨
       ∃ key, granted req (tr ++ tr') key ∧ Forall (confined key) (tr ++ tr')))).
  { intros A p f Hp Hf. apply wpE_bind. eapply wpE_mono; [|exact Hp].
    intros tr' [a|m] [Ht' Ho]; [|done]. destruct (Hf a) as [resp ->]. apply wpE_ret.
    rewrite app_nil_r. eexists _, _. split; [done|]. right. exists key. split; [done|].
    by apply Forall_app. }
  destruct (String.eqb (rq_Command req) CommandUpdateSnapshot).
  { apply Hfin; [apply UpdateSnapshot_total|]. intros [e|]; eauto. }
  destruct (String.eqb (rq_Command req) CommandGetSnapshot).
  { apply Hfin; [|intros [data|e]; eauto]. unfold GetSnapshot.
    total_step; [by split; [|exact I]|]. intros [s|e] _; [|by apply total_ret].
    by destruct (marshal_snapshot s); apply total_ret. }
  apply wpE_ret. eexists _, _. split; [done|]. right. exists key. rewrite app_nil_r.
  split; [by rewrite <- (app_nil_r tr); apply Hg|done].
Qed.

(** C8. A request changes nothing but the granted Snapshot.  In every execution
    the handler returns (no panic), and every call that writes is a status
    patch of the one Snapshot whose name the forwarded grant decrypts to under
    the snapshot key stored for the Sidekick; a handler that wrote nothing
    because authentication failed answers with the one uniform error. *)
Theorem command_confined_to_grant seen req tr o :
  exec (ExecuteCommand seen req) tr o → Forall keyed tr →
  ∃ resp seen', o = Returned (resp, seen') ∧
    (resp = authError ∧ Forall (λ e, is_write e = false) tr ∨
     ∃ key, granted req tr key ∧ Forall (confined key) tr).
Proof.
  intros He HE.
  destruct (proj1 (wpE_exec _ _ _) (ExecuteCommand_wpE seen req) _ _ He HE)
    as (resp & seen' & -> & [[? ?]|?]); eauto 10.
Qed.
End Confine.

(** ** What a report records *)

(** Histories of at most [maxLogLimit] entries, each error at most [maxLogBytes]. *)
Definition history_ok (st : LogStats) : Prop :=
  Z.of_nat (length (lg_LastFailedStats st)) ≤ maxLogLimit ∧
  Z.of_nat (length (lg_LastSucceededStats st)) ≤ maxLogLimit ∧
  Forall (λ l, go_len (log_Error l) ≤ maxLogBytes) (lg_LastFailedStats st).

Lemma clamp_spec info :
  0 ≤ li_LogLimit (clamp info) ≤ maxLogLimit ∧ go_len (li_Log (clamp info)) ≤ maxLogBytes.
Proof.
  unfold clamp. simpl. split.
  - destruct (Z.ltb_spec maxLogLimit (li_LogLimit info)); [done|].
    destruct (Z.ltb_spec (li_LogLimit info) 0); unfold maxLogLimit in *; lia.
  - destruct (Z.ltb_spec maxLogBytes (go_len (li_Log info))) as [Hl|Hl]; [|done].
    unfold go_len in *. rewrite str_take_length; unfold maxLogBytes in *; lia.
Qed.

Lemma trim_length logs x limit :
  0 ≤ limit →
  Z.of_nat (length (trimLogHistory (logs ++ [x]) limit)) =
  if limit <? Z.of_nat (length logs) + 1 then Z.of_nat (length logs) else Z.of_nat (length logs) + 1.
Proof.
  intros Hl. unfold trimLogHistory. rewrite length_app, Nat2Z.inj_add. simpl.
  destruct (Z.ltb_spec limit (Z.of_nat (length logs) + 1)) as [Hlt|Hge].
  - rewrite (proj2 (Z.ltb_lt _ _)) by lia. destruct logs as [|y logs]; [done|]. simpl.
    rewrite length_app. simpl. lia.
  - rewrite (proj2 (Z.ltb_ge _ _)) by lia. rewrite length_app. simpl. lia.
Qed.

Lemma trim_Forall (P : Log → Prop) logs limit : Forall P logs → Forall P (trimLogHistory logs limit).
Proof. intros HP. unfold trimLogHistory. case_match; [|done]. by destruct HP. Qed.

(** C39. The stored history stays bounded whatever the caller asks for: if both
    histories hold at most 100 entries and every stored error at most 4096
    bytes, the same is true after a report with any limit and any log text; one
    report adds at most one entry. *)
Theorem report_history_bounded st info :
  history_ok st →
  history_ok (record_log st (clamp info)) ∧
  (length (lg_LastFailedStats (record_log st (clamp info))) +
   length (lg_LastSucceededStats (record_log st (clamp info))) ≤
   S (length (lg_LastFailedStats st) + length (lg_LastSucceededStats st)))%nat.
Proof.
  intros (Hf & Hs & He). destruct (clamp_spec info) as [Hl Hb].
  assert (Htrim : ∀ logs x, Z.of_nat (length logs) ≤ maxLogLimit →
    Z.of_nat (length (trimLogHistory (logs ++ [x]) (li_LogLimit (clamp info)))) ≤ maxLogLimit ∧
    (length (trimLogHistory (logs ++ [x]) (li_LogLimit (clamp info))) ≤ S (length logs))%nat).
  { intros logs x Hx. pose proof (trim_length logs x (li_LogLimit (clamp info)) ltac:(lia)) as E.
    destruct (Z.ltb_spec (li_LogLimit (clamp info)) (Z.of_nat (length logs) + 1)); lia. }
  unfold history_ok, record_log. destruct (String.eqb (li_Type (clamp info)) "success");
    cbn [lg_LastFailedStats lg_LastSucceededStats].
  - destruct (Htrim _ {| log_Start := Some (li_StartTime (clamp info));
      log_End := Some (li_EndTime (clamp info)); log_Error := "" |} Hs). repeat split; [done..|lia].
  - destruct (Htrim _ {| log_Start := Some (li_StartTime (clamp info));
      log_End := Some (li_EndTime (clamp info)); log_Error := li_Log (clamp info) |} Hf).
    repeat split; [done|done| |lia].
    apply trim_Forall, Forall_app. split; [done|]. by constructor.
Qed.

(** The history never shrinks: a report with a smaller limit than before
    drops one entry for the one it adds, so a history of [n] entries above the
    limit keeps [n] entries for ever. *)
Theorem lowered_limit_keeps_history st info :
  li_Type info ≠ "success" →
  li_LogLimit (clamp info) <= Z.of_nat (length (lg_LastFailedStats st)) →
  length (lg_LastFailedStats (record_log st (clamp info))) = length (lg_LastFailedStats st).
Proof.
  intros Ht Hl. destruct (clamp_spec info) as [Hr _]. unfold record_log.
  rewrite (proj2 (String.eqb_neq (li_Type (clamp info)) "success")) by done.
  cbn [lg_LastFailedStats].
  set (x := {| log_Start := _ |}).
  pose proof (trim_length (lg_LastFailedStats st) x (li_LogLimit (clamp info)) ltac:(lia)) as E.
  destruct (Z.ltb_spec (li_LogLimit (clamp info)) (Z.of_nat (length (lg_LastFailedStats st)) + 1)); lia.
Qed.

(** The Snapshot a report leaves. *)
Definition with_log (c : Component) (s : Snapshot) : Snapshot :=
  set_Components (Some (<[ComponentLog := c]> (default ∅ (sn_Components (snap_Status s))))) s.

Section Report.
Context `{ApiServer W}.

Lemma updateSnapshotStatus_run key s cur (w : W) :
  @obj_key KSnapshot s = key → stored KSnapshot w key = Some cur → @obj_key KSnapshot cur = key →
  sn_StatusRest (snap_Status s) = sn_StatusRest (snap_Status cur) →
  ∃ w', run serve (updateSnapshotStatus s) w =
          (Returned (@obj_set_status KSnapshot s cur, None), w') ∧
    stored KSnapshot w' key = Some (@obj_set_status KSnapshot s cur).
Proof.
  intros <- Hs Hk Hr. unfold updateSnapshotStatus.
  destruct (PatchStatus_stored KSnapshot s cur s (λ inn : Snapshot,
    {| snap_Meta := snap_Meta inn; snap_SpecRest := snap_SpecRest inn;
       snap_Status := {| sn_TotalComponents := sn_TotalComponents (snap_Status s);
                         sn_Components := sn_Components (snap_Status s);
                         sn_StatusRest := sn_StatusRest (snap_Status inn) |} |}) w Hs Hk)
    as (w' & Hrun & Hst & _); [|by exists w'].
  simpl. rewrite <- Hr. by destruct (snap_Status s).
Qed.

(** What an accepted report does: on a stored Snapshot, [UpdateSnapshot]
    succeeds and changes exactly the component [log]: its phase becomes
    Running and its statistics are the old ones (or empty ones) with the
    clamped report recorded; metadata, spec and all other components stay. *)
Theorem report_recorded name ns info s (w : W) :
  stored KSnapshot w (mkKey ns name) = Some s → @obj_key KSnapshot s = mkKey ns name →
  ∃ w', run serve (UpdateSnapshot name ns info) w = (Returned None, w') ∧
    stored KSnapshot w' (mkKey ns name) =
      Some (with_log {| comp_Phase := ComponentPhaseRunning;
                        comp_LogStats := Some (record_log
                          (default empty_LogStats (comp_LogStats (log_component s))) (clamp info));
                        comp_Rest := comp_Rest (log_component s) |} s).
Proof.
  intros Hs Hk. unfold UpdateSnapshot, InitSnapshotComponentsStatus.
  set (c1 := {| comp_Phase := ComponentPhaseRunning;
                comp_LogStats := Some (default empty_LogStats (comp_LogStats (log_component s)));
                comp_Rest := comp_Rest (log_component s) |}).
  destruct (updateSnapshotStatus_run (mkKey ns name) (with_log c1 s) s w Hk Hs Hk eq_refl)
    as (w1 & Hr1 & Hs1).
  assert (E1 : @obj_set_status KSnapshot (with_log c1 s) s = with_log c1 s) by done.
  rewrite E1 in *.
  assert (Hlc : log_component (with_log c1 s) = c1).
  { unfold log_component, with_log. simpl. by rewrite lookup_insert_eq. }
  set (c2 := {| comp_Phase := ComponentPhaseRunning;
                comp_LogStats := Some (record_log
                  (default empty_LogStats (comp_LogStats (log_component s))) (clamp info));
                comp_Rest := comp_Rest (log_component s) |}).
  destruct (updateSnapshotStatus_run (mkKey ns name) (with_log c2 (with_log c1 s)) (with_log c1 s)
              w1 Hk Hs1 Hk eq_refl) as (w2 & Hr2 & Hs2).
  exists w2. rewrite !run_bind, (run_call serve (OpGet KSnapshot (mkKey ns name))).
  rewrite (serve_get KSnapshot (mkKey ns name) w s Hs). cbn [fst snd].
  rewrite run_bind. fold c1. change (set_Components _ s) with (with_log c1 s). rewrite Hr1, run_ret.
  rewrite Hlc. simpl gm_write. rewrite run_bind, run_ret.
  change (set_Components _ (with_log c1 s)) with (with_log c2 (with_log c1 s)).
  rewrite run_bind, Hr2, run_ret. split; [done|]. rewrite Hs2. f_equal.
  unfold with_log, set_Components. simpl. by rewrite insert_insert_eq.
Qed.
End Report.
