(* ===== verification/SnapshotWitness.v ===== *)
(** * Concrete requests to the snapshot server

    Concrete instances of the library interfaces of [Token.v] and
    [SnapshotServer.v], and runs of the server on them. *)

From S2P Require Import Prelude Effects Types Cluster Kmodules Codec Token SnapshotServer Fixtures Server Store SnapshotProps.

(** ** A transparent cipher *)

(** Cut or fill up to 32 bytes. *)
Definition fit32 (s : string) : string :=
  str_take 32 (s +:+ "................................").

Lemma fit32_length s : String.length (fit32 s) = 32%nat.
Proof. apply str_take_length. rewrite str_length_app. simpl. lia. Qed.

Fixpoint strip_prefix (p s : string) : option string :=
  match p, s with
  | "", _ => Some s
  | String a p, String b s => if Ascii.eqb a b then strip_prefix p s else None
  | _, _ => None
  end.

Lemma strip_prefix_iff p s r : strip_prefix p s = Some r ↔ s = p +:+ r.
Proof.
  revert s. induction p as [|a p IH]; intros s; simpl.
  { change ("" +:+ r) with r. split; congruence. }
  rewrite str_app_cons. destruct s as [|b s]; [done|].
  destruct (Ascii.eqb_spec a b) as [->|Hne]; [|split; congruence].
  rewrite IH. split; congruence.
Qed.

#[export, refine] Instance ex_Crypto : Crypto := {|
  sha256 := fit32;
  hmac_sha256 k s := fit32 s;
  gcm_seal k iv p := (k +:+ iv) +:+ p;
  gcm_open k iv ct := strip_prefix (k +:+ iv) ct
|}.
Proof.
  - apply fit32_length.
  - intros _ s. apply fit32_length.
  - intros k iv ct p. apply strip_prefix_iff.
Defined.

(** ** A binary codec *)

Fixpoint pos_str (p : positive) : string :=
  match p with
  | xH => ""
  | xO p => String "0" (pos_str p)
  | xI p => String "1" (pos_str p)
  end.

Fixpoint str_pos (s : string) : positive :=
  match s with
  | "" => xH
  | String c s => if Ascii.eqb c "0" then xO (str_pos s) else xI (str_pos s)
  end.

Lemma str_pos_str p : str_pos (pos_str p) = p.
Proof. induction p as [p IH|p IH|]; simpl; by rewrite ?IH. Qed.

Definition claims_tuple (c : Claims) :=
  (SnapshotName c, SidekickName c, cl_Namespace c, Digest c, Nonce c, ExpiresAt c).

#[export, refine] Instance ex_JsonCodec : JsonCodec := {|
  marshal_claims c := pos_str (encode (claims_tuple c));
  unmarshal_claims s :=
    match decode (str_pos s) with
    | Some (a, b, c, d, e, f) =>
        Ok {| SnapshotName := a; SidekickName := b; cl_Namespace := c; Digest := d; Nonce := e;
              ExpiresAt := f |}
    | None => Err (PlainError "invalid input")
    end;
  marshal_payload sk ns info :=
    sk +:+ "/" +:+ ns +:+ "/" +:+ li_Type info +:+ "/" +:+ li_Log info +:+ "/"
      +:+ pretty (li_LogLimit info) +:+ "/" +:+ li_StartTime info +:+ "/" +:+ li_EndTime info
|}.
Proof. intros c _ _. rewrite str_pos_str, decode_encode. by destruct c. Defined.

(** ** A request *)

Definition ex_claims (dig : string) (exp : Z) : Claims :=
  {| SnapshotName := "s"; SidekickName := "a"; cl_Namespace := "d"; Digest := dig; Nonce := "n";
     ExpiresAt := exp |}.

Definition ex_info : LogInfo :=
  {| li_Type := "f"; li_Log := "e"; li_LogLimit := 5; li_StartTime := "1"; li_EndTime := "2" |}.

Definition ok_or {A} (d : A) (r : res A) : A := match r with Ok a => a | Err _ => d end.

(** The envelope for a token with that expiry, signed and granted. *)
Definition ex_envelope (exp : Z) : SnapShot :=
  let unsigned tok := {| ss_LogInfo := ex_info; ss_SidekickName := "a"; ss_NameSpace := "d";
                         ss_Token := tok;
                         ss_SnapshotToken := ok_or "" (EncryptString "grant-key" "s") |} in
  let c := ex_claims (bindingDigest (unsigned "")) exp in
  unsigned (Base64.EncodeToString ("iviviviviviv" +:+
    gcm_seal (deriveKey "sign-key") "iviviviviviv" (marshal_claims c))).

Definition ex_bound_claims (exp : Z) : Claims := ex_claims (bindingDigest (ex_envelope exp)) exp.

Definition ex_keys : Secret :=
  {| sec_Meta := ex_meta "d" "a-grpc-key" "uid-s" [] None None;
     sec_Data := Some {[ SigningSecretKey := "sign-key"; SnapshotSecretKey := "grant-key" ]} |}.

#[export] Instance ex_SnapshotJson : SnapshotJson := {|
  unmarshal_envelope s := if String.eqb s "envelope" then Some (ex_envelope 100) else None;
  marshal_snapshot _ := Ok "{}";
  quote s := s
|}.

Definition ex_get_keys : apievent := Ev (OpGet KSecret (mkKey "d" "a-grpc-key")) (Ok ex_keys).

(** The trace of an accepted request with the two clock readings. *)
Definition ex_auth_trace (t1 t2 : Z) : list apievent := [ex_get_keys; Ev OpNow t1; Ev OpNow t2].

(** A token of expiry 100 is authorized when its nonce is free. *)
Lemma ex_authorized (t1 t2 : Z) (seen : cache) :
  t1 < 100 → purge t2 seen !! "n" = None →
  authorized seen (<["n" := 100]> (purge t2 seen)) (ex_envelope 100) ex_keys t1 t2
    (ex_bound_claims 100).
Proof.
  intros Ht Hn. split; [vm_compute; reflexivity|]. split; [done|]. split; [done|].
  split; [done|]. split; [done|]. split; [vm_compute; reflexivity|]. split; [done|].
  split; [vm_compute; reflexivity|]. split; [done|].
  unfold accept_at. change (Nonce (ex_bound_claims 100)) with "n". by rewrite Hn.
Qed.

Definition ex_first_cache : cache := <["n" := 100]> (purge 50 ∅).

Lemma ex_free_first : purge 50 (∅ : cache) !! "n" = None.
Proof. reflexivity. Qed.
Lemma ex_free_again : purge 100 ex_first_cache !! "n" = None.
Proof. vm_compute. reflexivity. Qed.

Lemma mint_open_roundtrip_witness :
  ∃ tok, exec (Mint "key" (ex_claims "dig" 100)) [Ev (OpRand NonceSize) (Ok "iviviviviviv")]
           (Returned (Ok tok)) ∧ Open "key" tok = Ok (ex_claims "dig" 100).
Proof.
  apply (mint_open_roundtrip "key" (ex_claims "dig" 100) "iviviviviviv");
    [congruence|reflexivity|reflexivity|]. vm_compute. split; congruence.
Defined.

Lemma grant_roundtrip_witness :
  (∃ blob, EncryptString "key" "snap" = Ok blob ∧ DecryptString "key" blob = Ok "snap") ∧
  ∀ blob p, DecryptString "key" blob = Ok p →
    ∃ iv, String.length iv = NonceSize ∧
      Base64.DecodeString blob = Ok (iv +:+ gcm_seal (deriveKey "key") iv p).
Proof. apply (grant_roundtrip "key" "snap"). congruence. Defined.

Lemma authenticate_iff_witness :
  exec (authenticate ∅ (ex_envelope 100)) (ex_auth_trace 50 50)
    (Returned (Ok (ex_bound_claims 100), ex_first_cache)).
Proof.
  apply (authenticate_iff ∅ (ex_envelope 100) (ex_auth_trace 50 50) (ex_bound_claims 100)
           ex_first_cache).
  exists ex_keys, 50, 50. split; [reflexivity|].
  apply ex_authorized; [lia|exact ex_free_first].
Defined.

(** The first use of the token at time 50, and its second use, verified at 99 and
    recorded at 100. *)
Definition ex_use (t1 t2 : Z) : acceptance :=
  {| ac_claims := ex_bound_claims 100; ac_verified := t1; ac_recorded := t2 |}.

Lemma ex_session : session 0 ∅ [ex_use 50 50; ex_use 99 100] (<["n" := 100]> (purge 100 ex_first_cache)).
Proof.
  apply (session_accepted 0 ∅ (ex_envelope 100) (ex_auth_trace 50 50) (ex_bound_claims 100)
           ex_first_cache 50 50); [|done|lia|lia|].
  - apply authenticate_complete, ex_authorized; [lia|exact ex_free_first].
  - apply (session_accepted 50 ex_first_cache (ex_envelope 100) (ex_auth_trace 99 100)
             (ex_bound_claims 100) (<["n" := 100]> (purge 100 ex_first_cache)) 99 100);
      [|done|lia|lia|constructor].
    apply authenticate_complete, ex_authorized; [lia|exact ex_free_again].
Qed.

Lemma replay_only_after_expiry_witness :
  100 ≤ 100 ∧
  (ex_bound_claims 100 = ex_bound_claims 100 → 99 < 100 ≤ 100) ∧
  (ex_bound_claims 100 = ex_bound_claims 100 → 99 ≠ 100).
Proof.
  apply (replay_only_after_expiry 0 ∅ [ex_use 50 50; ex_use 99 100]
           (<["n" := 100]> (purge 100 ex_first_cache)) [] (ex_use 50 50) [] (ex_use 99 100) []);
    [exact ex_session|reflexivity|reflexivity].
Defined.

(** The window is real: the two clock readings of one request are separate, so
    a token whose second expires between them is accepted a second time, although
    the first use recorded its nonce. *)
Theorem token_reused_across_expiry :
  ∃ seen' a b, session 0 ∅ [a; b] seen' ∧ ac_claims a = ac_claims b ∧
    ac_recorded a < ac_verified b < ac_recorded b.
Proof.
  eexists _, _, _. split; [exact ex_session|]. split; [done|]. simpl. lia.
Qed.

(** ** The whole handler on the concrete server *)

Definition ex_snapshot : Snapshot :=
  {| snap_Meta := ex_meta "d" "s" "uid-snap" [] None None; snap_SpecRest := JNull;
     snap_Status := {| sn_TotalComponents := 1; sn_Components := None; sn_StatusRest := JNull |} |}.

Definition ex_snap_world : store :=
  let w := put (k := KSnapshot) ex_snapshot (put (k := KSecret) ex_keys empty_store) in
  {| s_pods := s_pods w; s_sidekicks := s_sidekicks w; s_secrets := s_secrets w;
     s_works := s_works w; s_exports := s_exports w; s_snapshots := s_snapshots w;
     s_namespaces := s_namespaces w; s_next := s_next w; s_clock := 50 |}.

Definition ex_request : CommandRequest :=
  {| rq_Command := "UpdateSnapshot"; rq_Data := "envelope" |}.

Definition ex_handled := run serve (ExecuteCommand ∅ ex_request) ex_snap_world.

Example request_succeeds :
  match ex_handled.1 with Returned (r, _) => rs_Status r | Panicked _ => "" end = "success".
Proof. vm_compute. reflexivity. Qed.

Lemma ex_handled_keyed : Forall keyed (run_trace serve (ExecuteCommand ∅ ex_request) ex_snap_world).
Proof. vm_compute. repeat constructor. Qed.

Lemma command_confined_to_grant_witness :
  ∃ resp seen', ex_handled.1 = Returned (resp, seen') ∧
    (resp = authError ∧
     Forall (λ e, is_write e = false) (run_trace serve (ExecuteCommand ∅ ex_request) ex_snap_world) ∨
     ∃ key, granted ex_request (run_trace serve (ExecuteCommand ∅ ex_request) ex_snap_world) key ∧
       Forall (confined key) (run_trace serve (ExecuteCommand ∅ ex_request) ex_snap_world)).
Proof.
  apply (command_confined_to_grant ∅ ex_request
           (run_trace serve (ExecuteCommand ∅ ex_request) ex_snap_world) ex_handled.1).
  - apply run_exec.
  - exact ex_handled_keyed.
Defined.

Lemma report_history_bounded_witness :
  history_ok (record_log empty_LogStats (clamp ex_info)) ∧
  (length (lg_LastFailedStats (record_log empty_LogStats (clamp ex_info))) +
   length (lg_LastSucceededStats (record_log empty_LogStats (clamp ex_info))) ≤ 1)%nat.
Proof.
  apply (report_history_bounded empty_LogStats ex_info).
  split; [vm_compute; congruence|]. split; [vm_compute; congruence|constructor].
Defined.

Definition ex_zero_info : LogInfo :=
  {| li_Type := "f"; li_Log := "e"; li_LogLimit := 0; li_StartTime := "1"; li_EndTime := "2" |}.

Lemma lowered_limit_keeps_history_witness :
  length (lg_LastFailedStats (record_log
    (record_log empty_LogStats (clamp ex_info)) (clamp ex_zero_info))) = 1%nat.
Proof.
  apply (lowered_limit_keeps_history (record_log empty_LogStats (clamp ex_info)) ex_zero_info);
    vm_compute; congruence.
Defined.

Lemma report_recorded_witness :
  ∃ w', run serve (UpdateSnapshot "s" "d" ex_info) ex_snap_world = (Returned None, w') ∧
    stored KSnapshot w' (mkKey "d" "s") =
      Some (with_log {| comp_Phase := ComponentPhaseRunning;
                        comp_LogStats := Some (record_log
                          (default empty_LogStats (comp_LogStats (log_component ex_snapshot)))
                          (clamp ex_info));
                        comp_Rest := comp_Rest (log_component ex_snapshot) |} ex_snapshot).
Proof.
  apply (report_recorded (W := store) "s" "d" ex_info ex_snapshot ex_snap_world); reflexivity.
Defined.
