(* ===== verification/GrpcWiring.v ===== *)
(** * Wiring an archiver to the snapshot server ([grpc_wiring.go])

    The reconciler of distributed Sidekicks creates the per-Sidekick keys,
    hands the archiver (the container [wal-g]) what it needs through its
    environment, and exports the server on the slice network. *)

From S2P Require Import Prelude Effects GoStd GoStrings Types Cluster Kmodules PodBuilder Codec Token SnapshotServer.

Definition envSliceName : string := "SLICE_NAME".
Definition envPodName : string := "POD_NAME".
Definition envPodNamespace : string := "POD_NAMESPACE".
Definition envGRPCServerAddress : string := "GRPC_SERVER_ADDRESS".
Definition envGRPCTokenSecret : string := "GRPC_TOKEN_SECRET".
Definition envGRPCSnapshotToken : string := "GRPC_SNAPSHOT_TOKEN".
Definition envSnapshotName : string := "SNAPSHOT_NAME".
Definition signingKeyBytes : nat := 32.
Definition kubeSliceDomainSuffix : string := "slice.local".

(** ** Keys *)

Definition randomKey : M (res string) :=
  r ← call (OpRand signingKeyBytes);
  match r with
  | Err e => mret (Err (WrapError "generate key: " e))
  | Ok raw => mret (Ok (Base64.EncodeToString raw))
  end.

(** Fill in a key only where there is none. *)
Definition fill_key (k fresh : string) (data : gmap string string) : gmap string string :=
  if String.eqb (gm_str (Some data) k) "" then <[k := fresh]> data else data.

(** The transform of [ensureGRPCKeys]. *)
Definition fill_keys (sidekick : Sidekick) (freshSigning freshSnapshot : string) (s : Secret) : Secret :=
  {| sec_Meta := set_OwnerReferences
       [NewControllerRef (sk_Meta sidekick) SchemeGroupVersion_String "Sidekick"] (sec_Meta s);
     sec_Data := Some (fill_key SnapshotSecretKey freshSnapshot
                        (fill_key SigningSecretKey freshSigning (default ∅ (sec_Data s)))) |}.

(** Both keys of a Secret, if it has both. *)
Definition secret_keys (s : Secret) : option (string * string) :=
  let sign := gm_str (sec_Data s) SigningSecretKey in
  let snap := gm_str (sec_Data s) SnapshotSecretKey in
  if String.eqb sign "" || String.eqb snap "" then None else Some (sign, snap).

Definition keys_key (sidekick : Sidekick) : NamespacedName :=
  mkKey (Namespace (sk_Meta sidekick)) (SigningSecretName (Name (sk_Meta sidekick))).

(** The re-read after the write: a racing reconcile may have won. *)
Definition rereadKeys (sidekick : Sidekick) : M (res (string * string)) :=
  try (call (OpGet KSecret (keys_key sidekick))) (λ existing,
    match secret_keys existing with
    | Some ks => mret (Ok ks)
    | None => mret (Err (PlainError ("grpc keys empty in secret "
        +:+ Namespace (sk_Meta sidekick) +:+ "/" +:+ SigningSecretName (Name (sk_Meta sidekick))
        +:+ " after ensure")))
    end).

(** From the generation of fresh keys on. *)
Definition createKeys (sidekick : Sidekick) : M (res (string * string)) :=
  try randomKey (λ freshSigning,
  try randomKey (λ freshSnapshot,
    '(_, err) ← CreateOrPatch KSecret
      {| sec_Meta := new_meta (Namespace (sk_Meta sidekick))
                       (SigningSecretName (Name (sk_Meta sidekick))); sec_Data := None |}
      (λ s _, fill_keys sidekick freshSigning freshSnapshot s);
    match err with
    | Some e => mret (Err e)
    | None => rereadKeys sidekick
    end)).

Definition ensureGRPCKeys (sidekick : Sidekick) : M (res (string * string)) :=
  r ← call (OpGet KSecret (keys_key sidekick));
  match r with
  | Ok existing =>
      match secret_keys existing with
      | Some ks => mret (Ok ks)
      | None => createKeys sidekick
      end
  | Err e => if IsNotFound e then createKeys sidekick else mret (Err e)
  end.

(** ** The environment of the archiver *)

Definition getEnv (cont : Container) (name : string) : string :=
  match List.find (λ e, String.eqb (env_Name e) name) (c_Env cont) with
  | Some e => env_Value e
  | None => ""
  end.

Fixpoint set_env (env : list EnvVar) (name value : string) : list EnvVar :=
  match env with
  | [] => [{| env_Name := name; env_Value := value; env_ValueFrom := None |}]
  | e :: env' =>
      if String.eqb (env_Name e) name then
        {| env_Name := env_Name e; env_Value := value; env_ValueFrom := env_ValueFrom e |} :: env'
      else e :: set_env env' name value
  end.

Definition setEnv (cont : Container) (name value : string) : Container :=
  set_c_Env (set_env (c_Env cont) name value) cont.

Definition is_walg (c : Container) : bool := String.eqb (c_Name c) "wal-g".

Definition getSidekickContainer (sk : Sidekick) : option Container :=
  List.find is_walg (sp_Containers (sk_Spec sk)).

(** Writing through the pointer [getSidekickContainer] returns. *)
Fixpoint upd_first {A} (p : A → bool) (f : A → A) (l : list A) : list A :=
  match l with
  | [] => []
  | x :: l' => if p x then f x :: l' else x :: upd_first p f l'
  end.

Definition upd_container (f : Container → Container) (sk : Sidekick) : Sidekick :=
  set_sk_Spec (set_Containers (upd_first is_walg f (sp_Containers (sk_Spec sk))) (sk_Spec sk)) sk.

Definition no_walg : error := PlainError "wal-g container not found".

Definition setSigningKey (sidekick : Sidekick) (key : string) : res Sidekick :=
  match getSidekickContainer sidekick with
  | None => Err no_walg
  | Some _ => Ok (upd_container (λ c, setEnv c envGRPCTokenSecret key) sidekick)
  end.

Section Grant.
Context `{Crypto}.

Definition setSnapshotGrant (sidekick : Sidekick) (snapshotKey : string) : res Sidekick :=
  match getSidekickContainer sidekick with
  | None => Err no_walg
  | Some cont =>
      let snapshotName := getEnv cont envSnapshotName in
      if String.eqb snapshotName "" then Ok sidekick
      else
        match EncryptString snapshotKey snapshotName with
        | Err e => Err (WrapError "encrypt snapshot grant: " e)
        | Ok grant => Ok (upd_container (λ c, setEnv c envGRPCSnapshotToken grant) sidekick)
        end
  end.
End Grant.

(** ** Addresses *)

Definition deploymentNameForPod (podName : string) : string :=
  let parts := Split podName dash in
  if (length parts <=? 2)%nat then podName
  else Join (take (length parts - 2) parts) dash.

Definition sliceDNS (svcName namespace : string) : string :=
  svcName +:+ "." +:+ namespace +:+ ".svc." +:+ kubeSliceDomainSuffix.

Definition grpcSliceAddress : M (res string) :=
  podName ← call (OpGetenv envPodName);
  namespace ← call (OpGetenv envPodNamespace);
  if String.eqb podName "" || String.eqb namespace "" then
    mret (Err (PlainError (envPodName +:+ "/" +:+ envPodNamespace
      +:+ " env not set; cannot derive gRPC slice address")))
  else mret (Ok (sliceDNS (deploymentNameForPod podName) namespace)).

Definition setGRPCAddress (sidekick : Sidekick) : M (res Sidekick) :=
  match getSidekickContainer sidekick with
  | None => mret (Err no_walg)
  | Some _ =>
      try grpcSliceAddress (λ addr,
        let addr := addr +:+ ":" +:+ pretty GRPCPort in
        mret (Ok (upd_container (λ c, setEnv c envGRPCServerAddress addr) sidekick)))
  end.

(** ** The cluster domain *)

Definition resolv_conf : string := "/etc/resolv.conf".

(** The loop over the scanned lines: the outcome of the first [search] line. *)
Fixpoint search_domain (lines : list string) : option (res string) :=
  match lines with
  | [] => None
  | l :: lines' =>
      let line := TrimSpace l in
      if String.eqb line "" || HasPrefix line "#" then search_domain lines'
      else if HasPrefix line "search " then
        match List.find (λ f, HasPrefix f "svc." && negb (HasPrefix f "svc.svc.")) (Fields line) with
        | Some f => Some (Ok (TrimPrefix f "svc."))
        | None => Some (Err (PlainError ("failed to find domain: " +:+ line)))
        end
      else search_domain lines'
  end.

Definition resolveDomain : M (res string) :=
  r ← call (OpReadFile resolv_conf);
  match r with
  | Err e => mret (Err (PlainError ("failed to open " +:+ resolv_conf +:+ ": " +:+ Error e)))
  | Ok content =>
      let '(lines, err) := Scan content in
      match search_domain lines with
      | Some r => mret r
      | None =>
          match err with
          | Some e => mret (Err (PlainError ("error reading " +:+ resolv_conf +:+ ": " +:+ Error e)))
          | None => mret (Err (PlainError ("no suitable domain found in " +:+ resolv_conf)))
          end
      end
  end.

(** [clusterDomain] and its [sync.Once]: resolved at the first use. *)
Definition findDomain (clusterDomain : option string) : M (string * option string) :=
  match clusterDomain with
  | Some d => mret (d, Some d)
  | None =>
      r ← resolveDomain;
      let d := match r with Ok d => d | Err _ => "cluster.local" end in
      mret (d, Some d)
  end.

(** ** The service export *)

Definition getSliceName (sidekick : Sidekick) : res string :=
  match getSidekickContainer sidekick with
  | None => Err no_walg
  | Some cont =>
      match List.find (λ e, String.eqb (env_Name e) envSliceName) (c_Env cont) with
      | Some e => Ok (env_Value e)
      | None => Err (PlainError ("no " +:+ envSliceName +:+ " env in wal-g container"))
      end
  end.

Definition volatile (k : string) : bool :=
  existsb (String.eqb k)
    ["pod-template-hash"; "controller-revision-hash"; "statefulset.kubernetes.io/pod-name";
     "apps.kubernetes.io/pod-index"].

Definition stableSelectorLabels (labels : gomap string) : gmap string string :=
  filter (λ kv, volatile kv.1 = false) (default ∅ labels).

(** The transform of [ensureServiceExport], the domain already resolved. *)
Definition export_spec (sliceName svcName namespace domain : string) (self : Pod)
    (inn : ServiceExport) : ServiceExport :=
  {| se_Meta := se_Meta inn; se_Slice := sliceName;
     se_Selector := Some {| MatchLabels := Some (stableSelectorLabels (Labels (pod_Meta self)));
                            MatchExpressions := [] |};
     se_Aliases := [svcName +:+ "." +:+ namespace +:+ ".svc." +:+ domain;
                    sliceDNS svcName namespace];
     se_Ports := [{| sport_Name := "grpc"; sport_ContainerPort := GRPCPort;
                     sport_Protocol := "TCP" |}] |}.

Definition empty_export (ns name : string) : ServiceExport :=
  {| se_Meta := new_meta ns name; se_Slice := ""; se_Selector := None; se_Aliases := [];
     se_Ports := [] |}.

(** Returns the error and the domain cache; the transform resolves the domain,
    so the file is read between the get and the write of [CreateOrPatch]. *)
Definition ensureServiceExport (sidekick : Sidekick) (clusterDomain : option string)
    : M (option error * option string) :=
  match getSliceName sidekick with
  | Err e => mret (Some e, clusterDomain)
  | Ok sliceName =>
      podName ← call (OpGetenv envPodName);
      namespace ← call (OpGetenv envPodNamespace);
      if String.eqb podName "" || String.eqb namespace "" then
        mret (Some (PlainError (envPodName +:+ "/" +:+ envPodNamespace
          +:+ " env not set; cannot locate gRPC server pod")), clusterDomain)
      else
        r ← call (OpGet KPod (mkKey namespace podName));
        match r with
        | Err e => mret (Some (WrapError ("failed to get operator pod " +:+ namespace +:+ "/"
                                 +:+ podName +:+ ": ") e), clusterDomain)
        | Ok self =>
            let svcName := deploymentNameForPod podName in
            let export := empty_export namespace svcName in
            r ← call (OpGet KServiceExport (obj_key (k := KServiceExport) export));
            match r with
            | Err e =>
                if IsNotFound e then
                  '(domain, clusterDomain) ← findDomain clusterDomain;
                  r ← call (OpCreate KServiceExport
                        (export_spec sliceName svcName namespace domain self export));
                  mret (res_err r, clusterDomain)
                else mret (Some e, clusterDomain)
            | Ok cur =>
                '(domain, clusterDomain) ← findDomain clusterDomain;
                r ← call (OpPatch KServiceExport cur
                      (export_spec sliceName svcName namespace domain self cur));
                mret (res_err r, clusterDomain)
            end
        end
  end.
