(* ===== verification/Distributed.v ===== *)
(** * Distributed Sidekicks ([distributed.go])

    A distributed Sidekick runs its pod in another cluster: the pod travels in a
    ManifestWork in the namespace of that cluster, and its status comes back as
    feedback values.  The leader pods are found in ManifestWorks, too. *)

From S2P Require Import Prelude Effects GoStd Types Cluster Kmodules Leader Phase PodBuilder Local Codec Token SnapshotServer GrpcWiring.

Definition ManifestWorkClusterNameLabel : string := "open-cluster-management.io/cluster-name".

(** [encoding/json], the unstructured converter and [metav1.FormatLabelSelector].
    [unstructured_pod] is the decoding of [ExtractPodFromManifestWork]: bytes to
    a generic map, map to a Pod. *)
Class WorkJson := {
  unmarshal_pod : string → res Pod;
  unstructured_pod : string → res Pod;
  unmarshal_condition : string → option json;
  unmarshal_int32s : string → option (list Z);
  FormatLabelSelector : LabelSelector → string
}.

(** ** Feedback *)

Definition all_values (mw : ManifestWork) : list FeedbackValue :=
  concat (map mc_Values (mw_ResourceStatus mw)).

(** The last phase the first manifest reports. *)
Definition extractPodStatusFromMW (mw : ManifestWork) : string :=
  match mw_ResourceStatus mw with
  | [] => ""
  | m :: _ =>
      fold_left (λ podPhase v,
        if String.eqb (fb_Name v) "PodPhase" then
          match fb_String v with Some s => s | None => podPhase end
        else podPhase) (mc_Values m) ""
  end.

Definition getPodPhase (podPhase : string) : string :=
  if String.eqb podPhase "Pending" then PodPending
  else if String.eqb podPhase "Running" then PodRunning
  else if String.eqb podPhase "Succeeded" then PodSucceeded
  else if String.eqb podPhase "Failed" then PodFailed
  else if String.eqb podPhase "Unknown" then PodUnknown
  else PodUnknown.

Definition isDistributedSidekickPodRunning (mw : option ManifestWork) : bool :=
  match mw with
  | None => false
  | Some mw =>
      match DeletionTimestamp (mw_Meta mw) with
      | Some _ => false
      | None =>
          match List.find (λ v, String.eqb (fb_Name v) "PodPhase" &&
                                bool_decide (is_Some (fb_String v))) (all_values mw) with
          | Some v => bool_decide (fb_String v = Some PodRunning)
          | None => false
          end
      end
  end.

Definition reports_succeeded (mw : ManifestWork) : bool :=
  existsb (λ v, String.eqb (fb_Name v) "PodPhase" && bool_decide (fb_String v = Some "Succeeded"))
    (all_values mw).

(** ** Deleting a ManifestWork *)

Definition set_mw_Meta (m : ObjectMeta) (mw : ManifestWork) : ManifestWork :=
  obj_set_meta (k := KManifestWork) m mw.

Definition annotate_mw_initiator (mw : ManifestWork) : ManifestWork :=
  set_mw_Meta (set_Annotations
    (Some (<[deletionInitiatorKey := deletionInitiatesBySidekickOperator]>
             (default ∅ (Annotations (mw_Meta mw))))) (mw_Meta mw)) mw.

Definition setMWDeletionInitiatorAnnotation (mw : ManifestWork) : M (ManifestWork * option error) :=
  CreateOrPatch KManifestWork mw (λ po _, annotate_mw_initiator po).

Definition deleteMW (mw : ManifestWork) : M (option error) :=
  '(mw, err) ← setMWDeletionInitiatorAnnotation mw;
  match err with
  | Some e => mret (Some e)
  | None =>
      r ← call (OpDelete KManifestWork (meta_key (mw_Meta mw)));
      mret (res_err r)
  end.

(** ** Finding the ManifestWork of a Sidekick *)

Definition list_namespaces : M (res (list NamespaceObj)) := call (OpList KNamespace None None).

(** The loop of [getDistributedPodNamespace]. *)
Fixpoint probe_namespaces (mwName : string) (items : list NamespaceObj) (notFound : option error)
    : M (string * option error) :=
  match items with
  | [] => mret ("", notFound)
  | ns :: items =>
      r ← call (OpOCMGet (Name (ns_Meta ns)) mwName);
      match r with
      | Err e => if IsNotFound e then probe_namespaces mwName items (Some e) else mret ("", Some e)
      | Ok mw => mret (Namespace (mw_Meta mw), None)
      end
  end.

Definition getDistributedPodNamespace (mwName : string) : M (string * option error) :=
  r ← list_namespaces;
  match r with
  | Err e => mret ("", Some e)
  | Ok items => probe_namespaces mwName items None
  end.

(** The loop of [getDistributedSidekickCurrentLeader]; [err] is the outer
    variable. *)
Fixpoint probe_current (name : string) (items : list NamespaceObj) (err : option error)
    : M (option ManifestWork * option error) :=
  match items with
  | [] => mret (None, err)
  | ns :: items =>
      r ← call (OpOCMGet (Name (ns_Meta ns)) name);
      match r with
      | Err err2 => if negb (IsNotFound err2) then mret (None, err)
                    else probe_current name items (Some err2)
      | Ok mw => mret (Some mw, None)
      end
  end.

Definition getDistributedSidekickCurrentLeader (sidekick : Sidekick)
    : M (option ManifestWork * option error) :=
  r ← list_namespaces;
  match r with
  | Err e => mret (None, Some e)
  | Ok items => probe_current (Name (sk_Meta sidekick)) items None
  end.

Section Work.
Context `{WorkJson}.

(** Indexing an empty slice panics. *)
Definition ExtractPodFromManifestWork (mw : ManifestWork) : M (res Pod) :=
  match mw_Manifests mw with
  | [] => Panic "index out of range"
  | manifest :: _ => mret (unstructured_pod (raw_Raw manifest))
  end.

(** ** Restart counts *)

Definition extractRestartCountFromJSONRaw (value : string) : Z :=
  match unmarshal_int32s value with
  | Some counts => fold_left (λ acc c, wrap32 (acc + c)) counts 0
  | None => 0
  end.

Definition getDistributedContainerRestartCounts (mw : ManifestWork) : Z :=
  match mw_ResourceStatus mw with
  | [] => 0
  | m :: _ =>
      fold_left (λ acc v,
        if String.eqb (fb_Name v) "ContainerRestartCount" ||
           String.eqb (fb_Name v) "InitContainerRestartCount" then
          match fb_JsonRaw v with
          | Some raw => wrap32 (acc + extractRestartCountFromJSONRaw raw)
          | None => acc
          end
        else acc) (mc_Values m) 0
  end.

(** ** Phase *)

Definition getDistributedSidekickPhase (sidekick : Sidekick) (mw : option ManifestWork)
    : string * Sidekick :=
  let degraded_or_current :=
    if negb (isDistributedSidekickPodRunning mw) then SideKickPhaseDegraded
    else SideKickPhaseCurrent in
  if String.eqb (sp_RestartPolicy (sk_Spec sidekick)) RestartPolicyAlways then
    (degraded_or_current, sidekick)
  else if String.eqb (st_Phase (sk_Status sidekick)) SidekickPhaseSucceeded then
    (SidekickPhaseSucceeded, sidekick)
  else if match mw with Some mw => reports_succeeded mw | None => false end then
    (SidekickPhaseSucceeded, sidekick)
  else
    let '(over, sidekick) := over_limit sidekick in
    if over then (SideKickPhaseFailed, sidekick) else (degraded_or_current, sidekick).

Definition updateDistributedSidekickStatus (sidekick : Sidekick) : M (Sidekick * option error) :=
  PatchStatus KSidekick sidekick (λ sk, set_sk_Status (sk_Status sidekick) sk).

(** The block that accounts for the current ManifestWork. *)
Definition observe_mw (leader : ManifestWork) (sidekick : Sidekick) : Sidekick :=
  let podUID := UID (mw_Meta leader) in
  let sidekick := put_restarts podUID (getDistributedContainerRestartCounts leader) sidekick in
  if String.eqb (extractPodStatusFromMW leader) PodFailed &&
     bool_decide (DeletionTimestamp (mw_Meta leader) = None) then
    let sidekick := put_failure podUID true sidekick in
    if negb (String.eqb (sp_RestartPolicy (sk_Spec sidekick)) RestartPolicyNever) then
      let '(over, sidekick) := over_limit sidekick in
      if over then put_failure podUID false sidekick else sidekick
    else sidekick
  else sidekick.

(** From the phase on. *)
Definition recordDistributedPhase (leader : option ManifestWork) (sidekick : Sidekick)
    : M (res string * Sidekick) :=
  let '(phase, sidekick) := getDistributedSidekickPhase sidekick leader in
  let sidekick := upd_status (set_Phase phase) sidekick in
  '(sidekick, err) ← updateDistributedSidekickStatus sidekick;
  match err with
  | Some e => mret (Err e, sidekick)
  | None => mret (Ok phase, sidekick)
  end.

Definition calculateDistributedSidekickPhase (sidekick : Sidekick) : M (res string * Sidekick) :=
  let sidekick := init_counters sidekick in
  '(leader, err) ← getDistributedSidekickCurrentLeader sidekick;
  match err, leader with
  | Some e, _ =>
      if IsNotFound e then recordDistributedPhase leader sidekick else mret (Err e, sidekick)
  | None, Some mw => recordDistributedPhase leader (observe_mw mw sidekick)
  | None, None => recordDistributedPhase leader sidekick
  end.

Definition updateDistributedSidekickPhase (req : NamespacedName) (sidekick : Sidekick)
    : M (bool * option error * Sidekick) :=
  '(phase, sidekick) ← calculateDistributedSidekickPhase sidekick;
  match phase with
  | Err e => mret (false, Some e, sidekick)
  | Ok phase => dropIfTerminal req phase sidekick
  end.
End Work.

(** ** Leaders *)

(** What the feedback loop of [findDistributedLeader] accumulates. *)
Record Feedback := {
  f_Phase : string;
  f_PodIP : string;
  f_Conditions : list json;
  f_primary : bool;
  f_nodeName : string
}.

Section Leaders.
Context `{WorkJson}.

Definition feedback_step (f : Feedback) (v : FeedbackValue) : Feedback :=
  if String.eqb (fb_Name v) "PodPhase" then
    match fb_String v with
    | Some s => {| f_Phase := s; f_PodIP := f_PodIP f; f_Conditions := f_Conditions f;
                   f_primary := f_primary f; f_nodeName := f_nodeName f |}
    | None => f
    end
  else if String.eqb (fb_Name v) "PodIP" then
    match fb_String v with
    | Some s => {| f_Phase := f_Phase f; f_PodIP := s; f_Conditions := f_Conditions f;
                   f_primary := f_primary f; f_nodeName := f_nodeName f |}
    | None => f
    end
  else if String.eqb (fb_Name v) "ReadyCondition" then
    match fb_JsonRaw v with
    | Some raw =>
        match unmarshal_condition raw with
        | Some c => {| f_Phase := f_Phase f; f_PodIP := f_PodIP f;
                       f_Conditions := f_Conditions f ++ [c]; f_primary := f_primary f;
                       f_nodeName := f_nodeName f |}
        | None => f
        end
    | None => f
    end
  else if String.eqb (fb_Name v) "PodRoleLabel" then
    if bool_decide (fb_String v = Some "Primary") then
      {| f_Phase := f_Phase f; f_PodIP := f_PodIP f; f_Conditions := f_Conditions f;
         f_primary := true; f_nodeName := f_nodeName f |}
    else f
  else if String.eqb (fb_Name v) "NodeName" then
    match fb_String v with
    | Some s => {| f_Phase := f_Phase f; f_PodIP := f_PodIP f; f_Conditions := f_Conditions f;
                   f_primary := f_primary f; f_nodeName := s |}
    | None => f
    end
  else f.

Definition read_feedback (removeRole : bool) (values : list FeedbackValue) : Feedback :=
  fold_left feedback_step values
    {| f_Phase := ""; f_PodIP := ""; f_Conditions := []; f_primary := negb removeRole;
       f_nodeName := "" |}.

Definition set_ps_NodeName (n : string) (sp : PodSpec) : PodSpec :=
  {| ps_Volumes := ps_Volumes sp; ps_InitContainers := ps_InitContainers sp;
     ps_Containers := ps_Containers sp; ps_EphemeralContainers := ps_EphemeralContainers sp;
     ps_RestartPolicy := ps_RestartPolicy sp;
     ps_TerminationGracePeriodSeconds := ps_TerminationGracePeriodSeconds sp;
     ps_ActiveDeadlineSeconds := ps_ActiveDeadlineSeconds sp; ps_DNSPolicy := ps_DNSPolicy sp;
     ps_NodeSelector := ps_NodeSelector sp; ps_ServiceAccountName := ps_ServiceAccountName sp;
     ps_DeprecatedServiceAccount := ps_DeprecatedServiceAccount sp;
     ps_AutomountServiceAccountToken := ps_AutomountServiceAccountToken sp;
     ps_NodeName := n; ps_HostNetwork := ps_HostNetwork sp; ps_HostPID := ps_HostPID sp;
     ps_HostIPC := ps_HostIPC sp; ps_ShareProcessNamespace := ps_ShareProcessNamespace sp;
     ps_SecurityContext := ps_SecurityContext sp; ps_ImagePullSecrets := ps_ImagePullSecrets sp;
     ps_Hostname := ps_Hostname sp; ps_Subdomain := ps_Subdomain sp; ps_Affinity := ps_Affinity sp;
     ps_SchedulerName := ps_SchedulerName sp; ps_Tolerations := ps_Tolerations sp;
     ps_HostAliases := ps_HostAliases sp; ps_PriorityClassName := ps_PriorityClassName sp;
     ps_Priority := ps_Priority sp; ps_DNSConfig := ps_DNSConfig sp;
     ps_ReadinessGates := ps_ReadinessGates sp; ps_RuntimeClassName := ps_RuntimeClassName sp;
     ps_EnableServiceLinks := ps_EnableServiceLinks sp;
     ps_PreemptionPolicy := ps_PreemptionPolicy sp; ps_Overhead := ps_Overhead sp;
     ps_TopologySpreadConstraints := ps_TopologySpreadConstraints sp;
     ps_SetHostnameAsFQDN := ps_SetHostnameAsFQDN sp; ps_OS := ps_OS sp;
     ps_HostUsers := ps_HostUsers sp |}.

(** One iteration of the loop over all ManifestWorks: the candidate it yields. *)
Definition candidate (removeRole : bool) (mw : ManifestWork) : option Pod :=
  match mw_Manifests mw with
  | [] => None
  | manifest :: _ =>
      match unmarshal_pod (raw_Raw manifest) with
      | Err _ => None
      | Ok pod =>
          match mw_ResourceStatus mw with
          | [] => None
          | m :: _ =>
              let f := read_feedback removeRole (mc_Values m) in
              let pod :=
                {| pod_APIVersion := pod_APIVersion pod; pod_Kind := pod_Kind pod;
                   pod_Meta := set_Annotations
                     (Some (<[ManifestWorkClusterNameLabel := Namespace (mw_Meta mw)]>
                              (default ∅ (Annotations (pod_Meta pod))))) (pod_Meta pod);
                   pod_Spec := set_ps_NodeName (f_nodeName f) (pod_Spec pod);
                   pod_Status := {| pst_Phase := f_Phase f; pst_PodIP := f_PodIP f;
                                    pst_Conditions := f_Conditions f;
                                    pst_ContainerStatuses := []; pst_InitContainerStatuses := [] |} |} in
              if f_primary f then Some pod else None
          end
      end
  end.

(** The selector without [kubedb.com/role], and whether it had that label. *)
Definition strip_role (sel : LabelSelector) : bool * LabelSelector :=
  match MatchLabels sel with
  | Some m =>
      match m !! "kubedb.com/role" with
      | Some _ => (true, {| MatchLabels := Some (delete "kubedb.com/role" m);
                            MatchExpressions := MatchExpressions sel |})
      | None => (false, sel)
      end
  | None => (false, sel)
  end.

Fixpoint list_works (labelSelector : string) (items : list NamespaceObj) (acc : list ManifestWork)
    : M (res (list ManifestWork)) :=
  match items with
  | [] => mret (Ok acc)
  | ns :: items =>
      try (call (OpOCMList (Name (ns_Meta ns)) labelSelector)) (λ l,
        list_works labelSelector items (acc ++ l))
  end.

Context `{SortSlice}.

Definition rank_leaders (leaders : list Pod) : res (list Pod) :=
  match leaders with
  | [] => Err (NewNotFound "pods" "")
  | [p] => Ok [p]
  | _ => Ok (sort_slice pod_less leaders)
  end.

Definition findDistributedLeader (sidekick : Sidekick) : M (res (list Pod)) :=
  let ldr := sp_Leader (sk_Spec sidekick) in
  if negb (String.eqb (ls_Name ldr) "") then
    '(ns, err) ← getDistributedPodNamespace (Name (sk_Meta sidekick));
    match err with
    | Some e => mret (Err e)
    | None =>
        try (call (OpOCMGet ns (ls_Name ldr))) (λ mw,
          try (ExtractPodFromManifestWork mw) (λ leader, mret (Ok [leader])))
    end
  else
    let '(removeRole, labelSelector) :=
      match ls_Selector ldr with
      | Some sel => let '(rr, sel) := strip_role sel in (rr, FormatLabelSelector sel)
      | None => (false, "")
      end in
    try list_namespaces (λ items,
      try (list_works labelSelector items []) (λ allMW,
        mret (rank_leaders (omap (candidate removeRole) allMW)))).

Definition getDistributedLeader (sidekick : Sidekick) : M (res Pod) :=
  try (findDistributedLeader sidekick)
    (pick_leader (ls_SelectionPolicy (sp_Leader (sk_Spec sidekick)))).
End Leaders.

(** ** Finalizers *)

Definition terminateManifestWork (sidekick : Sidekick) : M (Sidekick * option error) :=
  '(ns, err) ← getDistributedPodNamespace (Name (sk_Meta sidekick));
  let remove : M (Sidekick * option error) :=
    CreateOrPatch KSidekick sidekick
      (λ sk _, set_sk_Meta (RemoveFinalizer (sk_Meta sk) getFinalizerName) sk) in
  match IgnoreNotFound err with
  | Some e => mret (sidekick, Some e)
  | None =>
      if negb (String.eqb ns "") then
        r ← call (OpDelete KManifestWork (mkKey ns (Name (sk_Meta sidekick))));
        match IgnoreNotFound (res_err r) with
        | Some e => mret (sidekick, Some e)
        | None => remove
        end
      else remove
  end.

Definition handleDistributedSidekickFinalizer (sidekick : Sidekick) : M (Sidekick * option error) :=
  if bool_decide (is_Some (DeletionTimestamp (sk_Meta sidekick))) &&
     HasFinalizer (sk_Meta sidekick) getFinalizerName
  then terminateManifestWork sidekick
  else CreateOrPatch KSidekick sidekick
         (λ sk _, set_sk_Meta (AddFinalizer (sk_Meta sk) getFinalizerName) sk).

(** ** The ManifestWork of the pod *)

Definition json_path (name path : string) : json :=
  JObj [("name", JStr name); ("path", JStr path)].

(** [Spec.ManifestConfigs]: which fields of the pod are reported back, and
    server-side apply that leaves the labels of the pod alone. *)
Definition manifest_configs (pod : Pod) : json :=
  JArr [JObj [
    ("resourceIdentifier", JObj [("group", JStr ""); ("resource", JStr "pods");
       ("name", JStr (Name (pod_Meta pod))); ("namespace", JStr (Namespace (pod_Meta pod)))]);
    ("feedbackRules", JArr [JObj [("type", JStr "JSONPaths");
       ("jsonPaths", JArr [
          json_path "PodPhase" ".status.phase";
          json_path "PodIP" ".status.podIP";
          json_path "ReadyCondition" ".status.conditions[?(@.type=='Ready')]";
          json_path "NodeName" ".spec.nodeName";
          json_path "ContainerRestartCount" ".status.containerStatuses[*].restartCount";
          json_path "InitContainerRestartCount" ".status.initContainerStatuses[*].restartCount"])]]);
    ("updateStrategy", JObj [("type", JStr "ServerSideApply");
       ("serverSideApply", JObj [("force", JBool true);
          ("ignoreFields", JArr [JObj [("condition", JStr "OnSpokePresent");
             ("jsonPaths", JArr [JStr "$.metadata.labels"])]])])])]].

(** The pod as it is put into the ManifestWork. *)
Definition manifest_pod (pod : Pod) : Pod :=
  {| pod_APIVersion := "v1"; pod_Kind := "Pod";
     pod_Meta := set_OwnerReferences [] (set_GenerateName "" (pod_Meta pod));
     pod_Spec := pod_Spec pod; pod_Status := pod_Status pod |}.

Definition mw_labels (sidekick : Sidekick) : gmap string string :=
  <["sidekick-name" := Name (sk_Meta sidekick)]> (default ∅ (Labels (sk_Meta sidekick))).

(** Returns the error and the Sidekick, whose label map, unless nil, has been
    written through. *)
Definition ensurePodManifestWork (sidekick : Sidekick) (pod : Pod) : M (option error * Sidekick) :=
  let namespace := gm_str (Annotations (pod_Meta pod)) ManifestWorkClusterNameLabel in
  if String.eqb namespace "" then
    mret (Some (PlainError (ManifestWorkClusterNameLabel +:+ " annotation is empty for pod "
            +:+ Namespace (pod_Meta pod) +:+ "/" +:+ Name (pod_Meta pod))), sidekick)
  else
    let labels := Some (mw_labels sidekick) in
    let sidekick :=
      match Labels (sk_Meta sidekick) with
      | Some _ => set_sk_Meta (set_Labels labels (sk_Meta sidekick)) sidekick
      | None => sidekick
      end in
    let mw :=
      {| mw_Meta := set_Labels labels (new_meta namespace (Name (pod_Meta pod)));
         mw_Manifests := [{| raw_Raw := ""; raw_Object := Some (manifest_pod pod) |}];
         mw_ManifestConfigs := manifest_configs pod; mw_ResourceStatus := [] |} in
    '(_, err) ← CreateOrPatch KManifestWork mw (λ inn _,
      {| mw_Meta := set_Labels (Labels (mw_Meta mw)) (mw_Meta inn);
         mw_Manifests := mw_Manifests mw; mw_ManifestConfigs := mw_ManifestConfigs mw;
         mw_ResourceStatus := mw_ResourceStatus inn |});
    mret (err, sidekick).

(** ** Reconcile *)

(** What the process keeps between reconciles: whether the gRPC server has been
    started, and the resolved cluster domain. *)
Record Proc := { grpcOnce : bool; clusterDomain : option string }.

(** [getDistributedPodNamespace] and then the cached get. *)
Definition lookupMW (req : NamespacedName) (sidekick : Sidekick) : M (res ManifestWork) :=
  '(ns, err2) ← getDistributedPodNamespace (key_Name req);
  match err2 with
  | Some e => mret (Err e)
  | None => call (OpGet KManifestWork (mkKey ns (Name (sk_Meta sidekick))))
  end.

Definition deleteMWAndResetStatus (sidekick : Sidekick) (mw : ManifestWork) : M (option error) :=
  err ← deleteMW mw;
  match err with
  | Some e => mret (Some e)
  | None => '(_, err) ← updateDistributedSidekickStatus (reset_status sidekick); mret err
  end.

Section Reconcile.
Context `{Mergo} `{ObjectHasher} `{SortSlice} `{WorkJson} `{Crypto}.

(** The four steps that hand the archiver its keys, grant and address. *)
Definition wireArchiver (sidekick : Sidekick) : M (res Sidekick) :=
  try (ensureGRPCKeys sidekick) (λ '(signingKey, snapshotKey),
    match setSigningKey sidekick signingKey with
    | Err e => mret (Err e)
    | Ok sidekick =>
        match setSnapshotGrant sidekick snapshotKey with
        | Err e => mret (Err e)
        | Ok sidekick => setGRPCAddress sidekick
        end
    end).

(** A fresh map: the Sidekick's annotations, overridden by the leader's, then the
    two keys of the operator. *)
Definition distributed_annotations (sidekick : Sidekick) (leader : Pod) : gmap string string :=
  <[keyLeader := Name (pod_Meta leader)]>
    (<[keyHash := GenerationHash (sk_Meta sidekick)]>
      (default ∅ (Annotations (pod_Meta leader)) ∪ default ∅ (Annotations (sk_Meta sidekick)))).

Definition distributed_pod (sidekick : Sidekick) (leader : Pod) (cs ics : list CoreContainer) : Pod :=
  {| pod_APIVersion := ""; pod_Kind := "";
     pod_Meta :=
       {| Name := Name (sk_Meta sidekick); GenerateName := "";
          Namespace := Namespace (sk_Meta sidekick); UID := ""; Generation := 0;
          DeletionTimestamp := None; Labels := Labels (sk_Meta sidekick);
          Annotations := Some (distributed_annotations sidekick leader);
          OwnerReferences := [NewControllerRef (sk_Meta sidekick) SchemeGroupVersion_String "Sidekick"];
          Finalizers := [] |};
     pod_Spec := sidekick_PodSpec (sk_Spec sidekick) (listVolumes leader sidekick)
                   (ps_NodeName (pod_Spec leader)) cs ics;
     pod_Status := empty_status |}.

(** The last part of the reconcile: no ManifestWork exists, create one. *)
Definition createManifestWork (sidekick : Sidekick) (leader : Pod) : M (option error) :=
  r ← wireArchiver sidekick;
  match r with
  | Err e => mret (Some e)
  | Ok sidekick =>
      match convContainers leader (sk_Spec sidekick) with
      | Err e => mret (Some e)
      | Ok (cs, ics) =>
          let pod := distributed_pod sidekick leader cs ics in
          '(err, sidekick) ← ensurePodManifestWork sidekick pod;
          match err with
          | Some e => mret (Some e)
          | None =>
              '(_, err) ← updateDistributedSidekickStatus (upd_status (λ st,
                set_ObservedGeneration (Generation (sk_Meta sidekick))
                  (set_Pod (pst_Phase (pod_Status pod))
                    (set_Leader (Name (pod_Meta leader)) st))) sidekick);
              mret err
          end
      end
  end.

(** The pod in a ManifestWork no longer matches the Sidekick or its leader. *)
Definition mwNeedsRecreate (sidekick : Sidekick) (leader pod : Pod) (podPhase : string) : bool :=
  negb (String.eqb (GenerationHash (sk_Meta sidekick)) (gm_str (Annotations (pod_Meta pod)) keyHash)) ||
  negb (String.eqb (Name (pod_Meta leader)) (gm_str (Annotations (pod_Meta pod)) keyLeader)) ||
  negb (String.eqb (ps_NodeName (pod_Spec leader)) (ps_NodeName (pod_Spec pod))) ||
  (String.eqb podPhase PodFailed &&
   String.eqb (sp_RestartPolicy (sk_Spec sidekick)) RestartPolicyNever).

(** The block for an existing ManifestWork. *)
Definition syncManifestWork (sidekick : Sidekick) (leader : Pod) (mw : ManifestWork)
    : M (Result * option error) :=
  let podPhase := extractPodStatusFromMW mw in
  r ← ExtractPodFromManifestWork mw;
  match r with
  | Err e => mret (no_requeue, Some e)
  | Ok pod =>
      let nodeName := ps_NodeName (pod_Spec pod) in
      if String.eqb nodeName "" || String.eqb podPhase "" then
        mret ({| Requeue := true; RequeueAfter := 0 |}, None)
      else if mwNeedsRecreate sidekick leader pod podPhase then
        sidekick ← (if negb (String.eqb (ps_NodeName (pod_Spec leader)) nodeName) then
                      m ← gm_write (st_FailureCount (sk_Status sidekick)) (UID (mw_Meta mw)) true;
                      mret (upd_status (set_FailureCount m) sidekick)
                    else mret sidekick);
        err ← deleteMWAndResetStatus sidekick mw;
        mret (no_requeue, err)
      else
        '(_, err) ← updateDistributedSidekickStatus (upd_status (λ st,
          set_ObservedGeneration (Generation (sk_Meta sidekick))
            (set_Pod (getPodPhase podPhase) st)) sidekick);
        mret (no_requeue, err)
  end.

(** The second half of the reconcile, with the leader at hand. *)
Definition syncOrCreateMW (req : NamespacedName) (sidekick : Sidekick) (leader : Pod)
    : M (Result * option error) :=
  r ← lookupMW req sidekick;
  match r with
  | Ok mw => syncManifestWork sidekick leader mw
  | Err e2 =>
      if negb (IsNotFound e2) then mret (no_requeue, IgnoreNotFound (Some e2))
      else err ← createManifestWork sidekick leader; mret (no_requeue, err)
  end.

(** From the election on. *)
Definition reconcileDistributedLeader (req : NamespacedName) (sidekick : Sidekick)
    : M (Result * option error) :=
  lr ← getDistributedLeader sidekick;
  let gone_or_changed :=
    match lr with
    | Err e => IsNotFound e
    | Ok leader => negb (String.eqb (Name (pod_Meta leader)) (lst_Name (st_Leader (sk_Status sidekick))))
    end in
  if gone_or_changed then
    r ← lookupMW req sidekick;
    match r with
    | Ok mw => err ← deleteMWAndResetStatus sidekick mw; mret (no_requeue, err)
    | Err _ =>
        match lr with
        | Err e => mret (requeue_10s, IgnoreNotFound (Some e))
        | Ok leader => syncOrCreateMW req sidekick leader
        end
    end
  else
    match lr with
    | Err e => mret (no_requeue, IgnoreNotFound (Some e))
    | Ok leader => syncOrCreateMW req sidekick leader
    end.

(** [r.grpcOnce.Do]: the server goroutine is started and the export written, at
    the first distributed reconcile of the process; an error is only logged. *)
Definition startGRPCOnce (proc : Proc) (sidekick : Sidekick) : M Proc :=
  if grpcOnce proc then mret proc
  else
    '(_, domain) ← ensureServiceExport sidekick (clusterDomain proc);
    mret {| grpcOnce := true; clusterDomain := domain |}.

(** From the fetched Sidekick on. *)
Definition reconcileDistributed (proc : Proc) (req : NamespacedName) (sidekick : Sidekick)
    : M (Result * option error * Proc) :=
  proc ← startGRPCOnce proc sidekick;
  '(sidekick, err) ← handleDistributedSidekickFinalizer sidekick;
  match err with
  | Some e => mret (no_requeue, Some e, proc)
  | None =>
      '(dropKey, err, sidekick) ← updateDistributedSidekickPhase req sidekick;
      match err with
      | Some e => mret (no_requeue, Some e, proc)
      | None =>
          if (dropKey : bool) then mret (no_requeue, None, proc)
          else '(res, err) ← reconcileDistributedLeader req sidekick; mret (res, err, proc)
      end
  end.

Definition ReconcileDistributedSidekick (proc : Proc) (req : NamespacedName)
    : M (Result * option error * Proc) :=
  r ← call (OpGet KSidekick req);
  match r with
  | Err e => mret (no_requeue, IgnoreNotFound (Some e), proc)
  | Ok sidekick => reconcileDistributed proc req sidekick
  end.
End Reconcile.
