(* ===== verification/Controller.v ===== *)
(** * The controller ([sidekick_controller.go])

    [Reconcile] as controller-runtime calls it, and the event handlers and the
    predicate that [SetupWithManager] installs. *)

From S2P Require Import Prelude Effects GoStd Types Cluster Kmodules Leader Phase PodBuilder Local Codec Token SnapshotServer GrpcWiring Distributed.

Section Controller.
Context `{Mergo} `{ObjectHasher} `{SortSlice} `{LabelSelectors} `{WorkJson} `{Crypto}.

Definition Reconcile (proc : Proc) (req : NamespacedName) : M (Result * option error * Proc) :=
  '(isPodFinalizerRemoved, err) ← removePodFinalizerIfMarkedForDeletion req;
  match err with
  | Some e => mret (no_requeue, Some e, proc)
  | None =>
      if (isPodFinalizerRemoved : bool) then mret (no_requeue, None, proc)
      else
        r ← call (OpGet KSidekick req);
        match r with
        | Err e => mret (no_requeue, IgnoreNotFound (Some e), proc)
        | Ok sidekick =>
            if sp_Distributed (sk_Spec sidekick) then ReconcileDistributedSidekick proc req
            else '(res, err) ← reconcileLocal req sidekick; mret (res, err, proc)
        end
  end.
End Controller.

(** ** Event handlers *)

(** [leaderHandler]: a pod event reaches the Sidekicks that follow that pod. *)
Definition leaderHandler (a : ObjectMeta) : M (list NamespacedName) :=
  r ← call (OpList KSidekick (Some (Namespace a)) None);
  match r with
  | Err _ => mret []
  | Ok items =>
      mret (map (λ sk, meta_key (sk_Meta sk))
              (List.filter (λ sk, String.eqb (lst_Name (st_Leader (sk_Status sk))) (Name a)) items))
  end.

(** [mwHandler]: a ManifestWork event reaches the Sidekicks of that name, in any
    namespace. *)
Definition mwHandler (a : ObjectMeta) : M (list NamespacedName) :=
  r ← call (OpList KSidekick None None);
  match r with
  | Err _ => mret []
  | Ok items =>
      mret (map (λ sk, meta_key (sk_Meta sk))
              (List.filter (λ sk, String.eqb (Name (sk_Meta sk)) (Name a)) items))
  end.

(** The predicate on Sidekick events. *)
Definition sidekickPredicate (sk : Sidekick) : bool := negb (AlreadyReconciled sk).
