(* ===== verification/WiringProps.v ===== *)
(** * Properties of the wiring *)

From S2P Require Import Prelude Effects GoStd GoStrings Types Cluster Kmodules PodBuilder Codec Token SnapshotServer SnapshotProps GrpcWiring Distributed.

(** ** Names *)

(** A pod of a Deployment gives back the Deployment's name: for a pod named
    [<deployment>-<hash>-<suffix>], hash and suffix without dashes, the two
    generated parts are stripped, whatever dashes the Deployment's own name
    has. *)
Theorem deployment_name_roundtrip d hash suffix :
  str_free dash hash = true → str_free dash suffix = true →
  deploymentNameForPod (d +:+ String dash (hash +:+ String dash suffix)) = d.
Proof.
  intros Hh Hs. unfold deploymentNameForPod. rewrite !Split_app, (Split_free hash), (Split_free suffix) by done.
  pose proof (Split_nonempty d dash) as Hne. rewrite !length_app. simpl.
  replace (_ <=? 2)%nat with false; [|symmetry; apply Nat.leb_gt; destruct (Split d dash); simpl; [done|lia]].
  replace (length (Split d dash) + 2 - 2)%nat with (length (Split d dash)) by lia.
  rewrite take_app_length. apply Join_Split.
Qed.

(** ** Environment variables *)

Lemma find_set_env env n v m :
  List.find (λ e, String.eqb (env_Name e) m) (set_env env n v) =
  if String.eqb m n then
    Some {| env_Name := n; env_Value := v;
            env_ValueFrom := match List.find (λ e, String.eqb (env_Name e) n) env with
                             | Some e => env_ValueFrom e | None => None end |}
  else List.find (λ e, String.eqb (env_Name e) m) env.
Proof.
  induction env as [|e env IH]; simpl.
  - rewrite String.eqb_sym. by destruct (String.eqb m n).
  - destruct (String.eqb_spec (env_Name e) n) as [En|En]; simpl.
    + rewrite En. rewrite String.eqb_sym. by destruct (String.eqb_spec m n).
    + rewrite IH. destruct (String.eqb_spec (env_Name e) m) as [Em|Em]; [|done].
      destruct (String.eqb_spec m n); [congruence|done].
Qed.

Lemma getEnv_setEnv c n v m : getEnv (setEnv c n v) m = if String.eqb m n then v else getEnv c m.
Proof. unfold getEnv, setEnv. simpl. rewrite find_set_env. by destruct (String.eqb m n). Qed.

Lemma set_env_idem env n v : set_env (set_env env n v) n v = set_env env n v.
Proof.
  induction env as [|e env IH]; simpl; [by rewrite String.eqb_refl|].
  destruct (String.eqb_spec (env_Name e) n) as [E|E]; simpl.
  - by rewrite E, String.eqb_refl.
  - rewrite (proj2 (String.eqb_neq _ _) E). by rewrite IH.
Qed.

Lemma find_upd_first {A} (p : A → bool) f l :
  (∀ x, p (f x) = p x) → List.find p (upd_first p f l) = f <$> List.find p l.
Proof.
  intros Hp. induction l as [|x l IH]; simpl; [done|].
  destruct (p x) eqn:E; simpl; rewrite ?Hp, E; done.
Qed.

Lemma getSidekickContainer_upd f sk :
  (∀ c, c_Name (f c) = c_Name c) →
  getSidekickContainer (upd_container f sk) = f <$> getSidekickContainer sk.
Proof.
  intros Hf. unfold getSidekickContainer, upd_container. simpl. apply find_upd_first.
  intros c. unfold is_walg. by rewrite Hf.
Qed.

(** The containers other than the archiver, and everything but the spec's
    containers, stay as they are. *)
Definition only_archiver (sk sk' : Sidekick) : Prop :=
  sk_Meta sk' = sk_Meta sk ∧ sk_Status sk' = sk_Status sk ∧
  List.filter (λ c, negb (is_walg c)) (sp_Containers (sk_Spec sk')) =
    List.filter (λ c, negb (is_walg c)) (sp_Containers (sk_Spec sk)) ∧
  map c_Name (sp_Containers (sk_Spec sk')) = map c_Name (sp_Containers (sk_Spec sk)) ∧
  set_Containers [] (sk_Spec sk') = set_Containers [] (sk_Spec sk).

#[export] Instance only_archiver_po : PreOrder only_archiver.
Proof.
  split; [by repeat split|]. intros a b c (H1 & H2 & H3 & H4 & H5) (K1 & K2 & K3 & K4 & K5).
  repeat split; congruence.
Qed.

Lemma upd_container_only f sk :
  (∀ c, c_Name (f c) = c_Name c) → only_archiver sk (upd_container f sk).
Proof.
  intros Hf. repeat split; simpl.
  - induction (sp_Containers (sk_Spec sk)) as [|c l IH]; simpl; [done|].
    destruct (is_walg c) eqn:E; simpl; unfold is_walg in *; rewrite ?Hf, ?E; simpl; [done|].
    by rewrite IH.
  - induction (sp_Containers (sk_Spec sk)) as [|c l IH]; simpl; [done|].
    destruct (is_walg c); simpl; [by rewrite Hf|by rewrite IH].
Qed.

(** ** Keys *)

(** What [ensureGRPCKeys] and its parts guarantee: keys returned were read
    together from the Sidekick's Secret; a key already in the Secret is never
    overwritten; nothing else is written. *)
Definition keys_write_ok (sk : Sidekick) (e : apievent) : Prop :=
  match e with
  | Ev op _ =>
      match op with
      | OpPatch KSecret cur md =>
          ∀ k, gm_str (sec_Data cur) k ≠ "" → gm_str (sec_Data md) k = gm_str (sec_Data cur) k
      | OpCreate KSecret md => obj_key (k := KSecret) md = keys_key sk
      | _ => is_write e = false
      end
  end.

Definition keys_post (sk : Sidekick) (tr : list apievent) (o : outcome (res (string * string))) : Prop :=
  Forall (keys_write_ok sk) tr ∧
  ∃ r, o = Returned r ∧
    match r with
    | Ok ks => ∃ secret, Ev (OpGet KSecret (keys_key sk)) (Ok secret) ∈ tr ∧ secret_keys secret = Some ks
    | Err _ => True
    end.

Lemma keys_post_app sk tr tr' o :
  Forall (keys_write_ok sk) tr → keys_post sk tr' o → keys_post sk (tr ++ tr') o.
Proof.
  intros Ht (Ht' & r & -> & Hr). split; [by apply Forall_app|]. eexists. split; [done|].
  destruct r; [|done]. destruct Hr as (s & Hin & Hs). exists s. split; [set_solver|done].
Qed.

Lemma keys_post_err sk (tr : list apievent) e :
  Forall (keys_write_ok sk) tr → keys_post sk tr (Returned (Err e)).
Proof. intros Ht. split; [done|]. by eexists. Qed.

Lemma secret_keys_Some s a b :
  secret_keys s = Some (a, b) →
  a ≠ "" ∧ b ≠ "" ∧ gm_str (sec_Data s) SigningSecretKey = a ∧
  gm_str (sec_Data s) SnapshotSecretKey = b.
Proof.
  unfold secret_keys. destruct (String.eqb_spec (gm_str (sec_Data s) SigningSecretKey) ""),
    (String.eqb_spec (gm_str (sec_Data s) SnapshotSecretKey) ""); intros E; by simplify_eq/=.
Qed.

Lemma fill_key_keeps k fresh data n :
  gm_str (Some data) n ≠ "" → gm_str (Some (fill_key k fresh data)) n = gm_str (Some data) n.
Proof.
  intros Hn. unfold fill_key. destruct (String.eqb_spec (gm_str (Some data) k) "") as [E|]; [|done].
  unfold gm_str, gm_lookup in *. rewrite lookup_insert_ne; [done|]. intros ->. done.
Qed.

Lemma fill_keys_keeps sk a b s n :
  gm_str (sec_Data s) n ≠ "" → gm_str (sec_Data (fill_keys sk a b s)) n = gm_str (sec_Data s) n.
Proof.
  intros Hn. simpl. destruct (sec_Data s) as [m|]; [|done]. simpl default.
  rewrite !fill_key_keeps; rewrite ?fill_key_keeps; done.
Qed.

Lemma rereadKeys_wp sk : wp (rereadKeys sk) (keys_post sk).
Proof.
  unfold rereadKeys, try. intros [s|e]; simpl; [|by apply keys_post_err; repeat constructor].
  destruct (secret_keys s) as [ks|] eqn:E; simpl; [|by apply keys_post_err; repeat constructor].
  split; [by repeat constructor|]. eexists. split; [done|]. exists s. split; [left|done].
Qed.

Lemma createKeys_wp sk : wp (createKeys sk) (keys_post sk).
Proof.
  unfold createKeys, randomKey, CreateOrPatch, try.
  intros [r1|e]; simpl; [|by apply keys_post_err; repeat constructor].
  intros [r2|e]; simpl; [|by apply keys_post_err; repeat constructor].
  assert (Hfin : ∀ tr, Forall (keys_write_ok sk) tr →
    wp (rereadKeys sk) (λ tr' o, keys_post sk (tr ++ tr') o)).
  { intros tr Ht. eapply wp_mono; [|apply rereadKeys_wp]. intros. by apply keys_post_app. }
  intros [cur|e]; simpl.
  - intros [md|e]; simpl;
      [apply (Hfin [_; _; _; _])|apply keys_post_err]; repeat constructor; intros k; apply fill_keys_keeps.
  - destruct (IsNotFound e); simpl; [|by apply keys_post_err; repeat constructor].
    intros [md|e']; simpl; [apply (Hfin [_; _; _; _])|apply keys_post_err]; by repeat constructor.
Qed.

Lemma ensureGRPCKeys_wp sk : wp (ensureGRPCKeys sk) (keys_post sk).
Proof.
  unfold ensureGRPCKeys. intros r. simpl.
  assert (Hgo : wp (createKeys sk) (λ tr o, keys_post sk (Ev (OpGet KSecret (keys_key sk)) r :: tr) o)).
  { eapply wp_mono; [|apply createKeys_wp]. intros tr o Hp.
    apply (keys_post_app sk [_]); [by repeat constructor|done]. }
  destruct r as [s|e].
  - destruct (secret_keys s) as [ks|] eqn:E; [|done].
    split; [by repeat constructor|]. eexists. split; [done|]. exists s. split; [left|done].
  - destruct (IsNotFound e); [done|]. by apply keys_post_err; repeat constructor.
Qed.


(** ** The wired archiver *)

Section Wired.
Context `{Crypto}.

(** What the archiver finds in its environment after the wiring. *)
Definition wired (sk : Sidekick) (tr : list apievent) (sk' : Sidekick) : Prop :=
  ∃ cont cont' secret signingKey snapshotKey addr,
    getSidekickContainer sk = Some cont ∧ getSidekickContainer sk' = Some cont' ∧
    only_archiver sk sk' ∧
    Ev (OpGet KSecret (keys_key sk)) (Ok secret) ∈ tr ∧
    secret_keys secret = Some (signingKey, snapshotKey) ∧
    getEnv cont' envGRPCTokenSecret = signingKey ∧
    getEnv cont' envGRPCServerAddress = addr +:+ ":50051" ∧
    (getEnv cont envSnapshotName ≠ "" →
     DecryptString snapshotKey (getEnv cont' envGRPCSnapshotToken) = Ok (getEnv cont envSnapshotName)) ∧
    (∀ n, n ≠ envGRPCTokenSecret → n ≠ envGRPCServerAddress → n ≠ envGRPCSnapshotToken →
       getEnv cont' n = getEnv cont n).

Lemma setSigningKey_spec sk key sk' :
  setSigningKey sk key = Ok sk' →
  ∃ c, getSidekickContainer sk = Some c ∧
    getSidekickContainer sk' = Some (setEnv c envGRPCTokenSecret key) ∧ only_archiver sk sk'.
Proof.
  unfold setSigningKey. destruct (getSidekickContainer sk) as [c|] eqn:E; [|done].
  intros ?. simplify_eq. exists c. split; [done|]. split; [|by apply upd_container_only].
  by rewrite getSidekickContainer_upd, E.
Qed.

Lemma setSnapshotGrant_spec sk key sk' :
  key ≠ "" → setSnapshotGrant sk key = Ok sk' →
  ∃ c c', getSidekickContainer sk = Some c ∧ getSidekickContainer sk' = Some c' ∧
    only_archiver sk sk' ∧
    (getEnv c envSnapshotName ≠ "" →
     DecryptString key (getEnv c' envGRPCSnapshotToken) = Ok (getEnv c envSnapshotName)) ∧
    (∀ n, n ≠ envGRPCSnapshotToken → getEnv c' n = getEnv c n).
Proof.
  intros Hk. unfold setSnapshotGrant. destruct (getSidekickContainer sk) as [c|] eqn:E; [|done].
  destruct (String.eqb_spec (getEnv c envSnapshotName) "") as [En|En].
  { intros ?. simplify_eq. exists c, c. repeat split; try done. }
  destruct (EncryptString key _) as [g|] eqn:Eg; [|done]. intros ?. simplify_eq.
  exists c, (setEnv c envGRPCSnapshotToken g). split; [done|].
  rewrite getSidekickContainer_upd, E by done. split; [done|].
  split; [by apply upd_container_only|]. rewrite getEnv_setEnv, String.eqb_refl. split.
  - intros _. unfold EncryptString in Eg. rewrite (proj2 (String.eqb_neq _ _) Hk), newGCM_ok in Eg.
    simplify_eq. apply open_sealed_seal; [done|]. apply deterministicNonce_length.
  - intros n Hn. by rewrite getEnv_setEnv, (proj2 (String.eqb_neq _ _) Hn).
Qed.

Lemma setGRPCAddress_wp sk :
  wp (setGRPCAddress sk) (λ tr o, ∃ r, o = Returned r ∧
    match r with
    | Ok sk' => ∃ c addr, getSidekickContainer sk = Some c ∧ only_archiver sk sk' ∧
        getSidekickContainer sk' = Some (setEnv c envGRPCServerAddress (addr +:+ ":50051"))
    | Err _ => True
    end).
Proof.
  unfold setGRPCAddress, grpcSliceAddress, try.
  destruct (getSidekickContainer sk) as [c|] eqn:E; [|by eexists].
  intros p ns. simpl. destruct (String.eqb p "" || String.eqb ns ""); simpl; [by eexists|].
  eexists. split; [done|]. exists c, (sliceDNS (deploymentNameForPod p) ns).
  split; [done|]. split; [by apply upd_container_only|]. by rewrite getSidekickContainer_upd, E.
Qed.

Lemma wireArchiver_wp sk :
  wp (wireArchiver sk) (λ tr o, ∃ r, o = Returned r ∧
    match r with Ok sk' => wired sk tr sk' | Err _ => True end).
Proof.
  unfold wireArchiver, try. apply wp_bind. eapply wp_mono; [|apply ensureGRPCKeys_wp].
  intros tr o (_ & r & -> & Hr). destruct r as [[sign snap]|e]; [|by eexists].
  destruct Hr as (secret & Hin & Hks).
  pose proof (secret_keys_Some _ _ _ Hks) as (_ & Hsnap & _).
  destruct (setSigningKey sk sign) as [sk1|] eqn:E1; [|by eexists].
  destruct (setSnapshotGrant sk1 snap) as [sk2|] eqn:E2; [|by eexists].
  apply setSigningKey_spec in E1 as (c & Hc & Hc1 & Ho1).
  apply setSnapshotGrant_spec in E2 as (c1 & c2 & Hc1' & Hc2 & Ho2 & Hg & Hn); [|done].
  rewrite Hc1 in Hc1'. injection Hc1' as <-.
  eapply wp_mono; [|apply setGRPCAddress_wp]. intros tr' o (r & -> & Hr). eexists. split; [done|].
  destruct r as [sk3|]; [|done]. destruct Hr as (c2' & addr & Hc2' & Ho3 & Hc3).
  rewrite Hc2 in Hc2'. injection Hc2' as <-.
  eexists c, _, secret, sign, snap, addr. split; [done|]. split; [done|].
  split; [by etrans; [|etrans]|]. split; [set_solver|]. split; [done|].
  rewrite !getEnv_setEnv. simpl. split; [by rewrite Hn, getEnv_setEnv|]. split; [done|]. split.
  - intros Hsn. rewrite getEnv_setEnv in Hg. by apply Hg.
  - intros n H1 H2 H3. rewrite getEnv_setEnv, (proj2 (String.eqb_neq _ _) H2), Hn by done.
    by rewrite getEnv_setEnv, (proj2 (String.eqb_neq _ _) H1).
Qed.

(** The wiring touches only the archiver and gives it what it needs: every
    successful run leaves metadata, status and all other containers alone; the
    archiver's environment holds the signing key of the Sidekick's Secret, an
    address with the server's port, and, when a Snapshot is named, a grant
    that decrypts under the Secret's snapshot key to that name; every other
    variable is unchanged. *)
Theorem archiver_wired sk tr sk' :
  exec (wireArchiver sk) tr (Returned (Ok sk')) → wired sk tr sk'.
Proof.
  intros He. destruct (proj1 (wp_exec _ _) (wireArchiver_wp sk) _ _ He) as (r & E & Hr).
  by simplify_eq.
Qed.
End Wired.

Section Served.
Context `{Crypto} `{JsonCodec} `{SnapshotJson}.

(** The request an archiver of the Sidekick sends, and the claims of its token. *)
Definition archiver_request (sk : Sidekick) (cont : Container) (info : LogInfo) (tok : string)
    : SnapShot :=
  {| ss_LogInfo := info; ss_SidekickName := Name (sk_Meta sk);
     ss_NameSpace := Namespace (sk_Meta sk); ss_Token := tok;
     ss_SnapshotToken := getEnv cont envGRPCSnapshotToken |}.

Definition archiver_claims (sk : Sidekick) (cont : Container) (info : LogInfo) (nonce : string)
    (exp : Z) : Claims :=
  {| SnapshotName := getEnv cont envSnapshotName; SidekickName := Name (sk_Meta sk);
     cl_Namespace := Namespace (sk_Meta sk);
     Digest := bindingDigest (archiver_request sk cont info ""); Nonce := nonce; ExpiresAt := exp |}.

(** C14. The two halves fit together: an archiver wired by the operator is served.
    With the variables the wiring left in its environment it can mint a token
    for any report, and the server, reading the same Secret, accepts the
    request for the Snapshot the archiver was configured with, as long as the
    token is alive and its nonce unused. *)
Theorem wired_archiver_is_served sk tr sk' :
  exec (wireArchiver sk) tr (Returned (Ok sk')) →
  ∃ cont secret, getSidekickContainer sk' = Some cont ∧
    Ev (OpGet KSecret (keys_key sk)) (Ok secret) ∈ tr ∧
    ∀ info nonce iv t1 t2 exp seen,
      let c := archiver_claims sk' cont info nonce exp in
      claims_utf8 c = true → in_int64 exp → SnapshotName c ≠ "" → nonce ≠ "" →
      String.length iv = NonceSize → exp ≠ 0 → t1 < exp → purge t2 seen !! nonce = None →
      ∃ tok,
        exec (Mint (getEnv cont envGRPCTokenSecret) c) [Ev (OpRand NonceSize) (Ok iv)]
          (Returned (Ok tok)) ∧
        exec (authenticate seen (archiver_request sk' cont info tok))
          [Ev (OpGet KSecret (keys_key sk)) (Ok secret); Ev OpNow t1; Ev OpNow t2]
          (Returned (Ok c, <[nonce := exp]> (purge t2 seen))).
Proof.
  intros He. destruct (proj1 (wp_exec _ _) (wireArchiver_wp sk) _ _ He) as (r & E & Hr).
  simplify_eq. destruct Hr as (c0 & cont & secret & sign & snap & addr & Hc0 & Hc & Ho & Hin & Hks & Hs & _ & Hg & Hn).
  exists cont, secret. split; [done|]. split; [done|].
  intros info nonce iv t1 t2 exp seen c Hutf Hint Hsn Hno Hiv Hz Ht Hfree.
  destruct Ho as (Hmeta & _).
  assert (Hname : getEnv cont envSnapshotName = getEnv c0 envSnapshotName)
    by (apply Hn; intros E; vm_compute in E; discriminate E).
  assert (Hsign : signing_key secret = sign ∧ snapshot_key secret = snap ∧ sign ≠ "").
  { by apply secret_keys_Some in Hks as (? & _ & ? & ?). }
  destruct Hsign as (Hk1 & Hk2 & Hne).
  destruct (mint_opens sign c iv Hne Hiv Hutf Hint) as (tok & Hmint & Hopen).
  exists tok. rewrite Hs. split; [done|].
  assert (Hkey : keys_key sk = keys_key sk') by (unfold keys_key; by rewrite Hmeta).
  rewrite Hkey. apply (authenticate_complete seen (archiver_request sk' cont info tok)).
  repeat split; try done.
  - by rewrite Hk1.
  - rewrite Hk2. simpl in Hsn |- *. rewrite Hname in *. by apply Hg.
  - unfold accept_at. simpl Nonce. by rewrite Hfree.
Qed.
End Served.

(** ** The service export *)

(** The ServiceExport a call sends. *)
Definition sent_export (e : apievent) : option ServiceExport :=
  match e with
  | Ev op _ =>
      match op with
      | OpCreate KServiceExport md => Some md
      | OpPatch KServiceExport _ md => Some md
      | _ => None
      end
  end.

(** The operator's own identity in the environment. *)
Definition env_identity (podName ns : string) (e : apievent) : Prop :=
  match e with
  | Ev op r =>
      match op return answer op → Prop with
      | OpGetenv n => λ r, (n = envPodName → r = podName) ∧ (n = envPodNamespace → r = ns)
      | _ => λ _, True
      end r
  end.

(** The export of a server at that address: reachable under it, on the port the
    server listens on, and selecting pods by non-volatile labels. *)
Definition advertises (addr : string) (e : apievent) : Prop :=
  ∀ md, sent_export e = Some md →
    addr ∈ se_Aliases md ∧ map sport_ContainerPort (se_Ports md) = [GRPCPort] ∧
    ∃ sel labels, se_Selector md = Some sel ∧ MatchLabels sel = Some labels ∧
      ∀ k, is_Some (labels !! k) → volatile k = false.

Lemma export_spec_advertises slice svc ns d self inn :
  let md := export_spec slice svc ns d self inn in
  sliceDNS svc ns ∈ se_Aliases md ∧ map sport_ContainerPort (se_Ports md) = [GRPCPort] ∧
  ∃ sel labels, se_Selector md = Some sel ∧ MatchLabels sel = Some labels ∧
    ∀ k, is_Some (labels !! k) → volatile k = false.
Proof.
  split; [set_solver|]. split; [done|]. eexists _, _. split; [done|]. split; [done|].
  intros k [v Hv]. unfold stableSelectorLabels in Hv. by apply map_lookup_filter_Some in Hv as [_ ?].
Qed.

Lemma resolveDomain_total E addr : total E (advertises addr) (λ _, True) resolveDomain.
Proof.
  unfold resolveDomain. total_step; [by intros r _; split; [intros md|exact I]|]. intros [content|e] _; [|by apply total_ret].
  destruct (Scan content) as [lines err]. destruct (search_domain lines); [by apply total_ret|].
  by destruct err; apply total_ret.
Qed.

Lemma findDomain_total E addr dom : total E (advertises addr) (λ _, True) (findDomain dom).
Proof.
  unfold findDomain. destruct dom; [by apply total_ret|].
  eapply total_bind; [apply resolveDomain_total|]. intros. by apply total_ret.
Qed.

(** The server is advertised where archivers are told to find it: in every
    execution of [ensureServiceExport], each export sent lists among its
    aliases exactly the slice address [grpcSliceAddress] derives from the same
    environment, exposes the port the server listens on, and selects pods only
    by labels that survive a rollout; and the function never panics. *)
Theorem export_advertises_address podName ns sk dom tr o :
  podName ≠ "" → ns ≠ "" →
  exec (ensureServiceExport sk dom) tr o → Forall (env_identity podName ns) tr →
  let addr := sliceDNS (deploymentNameForPod podName) ns in
  exec grpcSliceAddress [Ev (OpGetenv envPodName) podName; Ev (OpGetenv envPodNamespace) ns]
    (Returned (Ok addr)) ∧
  Forall (advertises addr) tr ∧ ∃ r, o = Returned r.
Proof.
  intros Hp Hn He HE addr. split.
  { unfold grpcSliceAddress. apply (exec_call (OpGetenv envPodName) _ podName).
    apply (exec_call (OpGetenv envPodNamespace) _ ns). simpl.
    rewrite (proj2 (String.eqb_neq _ _) Hp), (proj2 (String.eqb_neq _ _) Hn). apply exec_ret. }
  assert (Ht : total (env_identity podName ns) (advertises addr) (λ _, True) (ensureServiceExport sk dom)).
  { unfold ensureServiceExport. destruct (getSliceName sk) as [slice|e]; [|by apply total_ret].
    eapply (total_bind _ _ (λ p, p = podName)).
    { apply (total_call _ _ (OpGetenv envPodName)). intros r [Hr _].
      split; [by intros md|]. by apply Hr. }
    intros p ->. eapply (total_bind _ _ (λ p, p = ns)).
    { apply (total_call _ _ (OpGetenv envPodNamespace)). intros r [_ Hr].
      split; [by intros md|]. by apply Hr. }
    intros p ->. rewrite (proj2 (String.eqb_neq _ _) Hp), (proj2 (String.eqb_neq _ _) Hn). simpl orb.
    cbv iota. total_step; [by intros r _; split; [intros md|exact I]|]. intros [self|e] _; [|by apply total_ret].
    total_step; [by intros r _; split; [intros md|exact I]|].
    assert (Hsend : ∀ (op : apiop) (md : ServiceExport), (∀ r, sent_export (Ev op r) = Some md) →
      (∃ inn slice d, md = export_spec slice (deploymentNameForPod podName) ns d self inn) →
      total (env_identity podName ns) (advertises addr) (λ _, True) (call op)).
    { intros op md Hop (inn & sl & d & ->). apply total_call. intros r _. split; [|done].
      intros md' Hmd. rewrite Hop in Hmd. injection Hmd as <-. apply export_spec_advertises. }
    intros [cur|e] _.
    - eapply total_bind; [apply findDomain_total|]. intros [d dom'] _.
      eapply total_bind; [eapply Hsend; [done|by eauto]|]. intros. by apply total_ret.
    - destruct (IsNotFound e); [|by apply total_ret].
      eapply total_bind; [apply findDomain_total|]. intros [d dom'] _.
      eapply total_bind; [eapply Hsend; [done|by eauto]|]. intros. by apply total_ret. }
  destruct (proj1 (wpE_exec _ _ _) Ht tr o He HE) as [Hf Ho]. split; [done|].
  destruct o; [eauto|done].
Qed.
