(* ===== verification/DistributedProps.v ===== *)
(** * Properties of the distributed reconciler *)

From S2P Require Import Prelude Effects GoStd GoStrings Types Cluster Kmodules Leader Phase PodBuilder Local LocalProps Codec Token SnapshotServer SnapshotProps GrpcWiring Distributed WiringProps.

(** ** Looking a ManifestWork up *)

(** The environment lists these namespaces and answers a get of a ManifestWork by
    this function. *)
Definition hub_answers (items : list NamespaceObj) (works : string → string → res ManifestWork)
    (e : apievent) : Prop :=
  match e with
  | Ev op r =>
      match op return answer op → Prop with
      | OpOCMGet ns n => λ r, r = works ns n
      | OpList KNamespace _ _ => λ r, r = Ok items
      | _ => λ _, True
      end r
  end.

(** How a search through the namespaces ends: at a ManifestWork, at an error that
    is not NotFound, or nowhere; with the last NotFound before. *)
Inductive search_end :=
| Found (mw : ManifestWork)
| Broken (e : error) (before : option error)
| Nowhere (last : option error).

Fixpoint search (works : string → string → res ManifestWork) (name : string)
    (items : list NamespaceObj) (before : option error) : search_end :=
  match items with
  | [] => Nowhere before
  | ns :: items =>
      match works (Name (ns_Meta ns)) name with
      | Ok mw => Found mw
      | Err e => if IsNotFound e then search works name items (Some e) else Broken e before
      end
  end.

Lemma probe_namespaces_wpE items works name l nf :
  wpE (hub_answers items works) (probe_namespaces name l nf) (λ _ o, o = Returned
    match search works name l nf with
    | Found mw => (Namespace (mw_Meta mw), None)
    | Broken e _ => ("", Some e)
    | Nowhere last => ("", last)
    end).
Proof.
  revert nf. induction l as [|ns l IH]; intros nf;
    cbn [probe_namespaces search]; [by apply wpE_ret|].
  apply wpE_bind. intros r Hr. apply Forall_cons in Hr as [Hr _]. simpl in Hr. subst r.
  destruct (works (Name (ns_Meta ns)) name) as [mw|e]; [by apply wpE_ret|].
  destruct (IsNotFound e); [|by apply wpE_ret]. eapply wpE_mono; [|apply IH]. done.
Qed.

Lemma probe_current_wpE items works name l err :
  wpE (hub_answers items works) (probe_current name l err) (λ _ o, o = Returned
    match search works name l err with
    | Found mw => (Some mw, None)
    | Broken _ before => (None, before)
    | Nowhere last => (None, last)
    end).
Proof.
  revert err. induction l as [|ns l IH]; intros err;
    cbn [probe_current search]; [by apply wpE_ret|].
  apply wpE_bind. intros r Hr. apply Forall_cons in Hr as [Hr _]. simpl in Hr. subst r.
  destruct (works (Name (ns_Meta ns)) name) as [mw|e]; [by apply wpE_ret|].
  destruct (IsNotFound e); simpl; [|by apply wpE_ret]. eapply wpE_mono; [|apply IH]. done.
Qed.

Lemma search_broken works name l before e b :
  search works name l before = Broken e b → (∀ x, before = Some x → IsNotFound x = true) →
  IsNotFound e = false ∧ (∀ x, b = Some x → IsNotFound x = true).
Proof.
  revert before. induction l as [|ns l IH]; intros before; simpl; [done|].
  destruct (works (Name (ns_Meta ns)) name) as [mw|e']; [done|].
  destruct (IsNotFound e') eqn:En; intros E Hb; [|by simplify_eq].
  eapply IH; [exact E|]. by intros x [= <-].
Qed.

Lemma getDistributedPodNamespace_wpE items works name :
  wpE (hub_answers items works) (getDistributedPodNamespace name) (λ _ o, o = Returned
    match search works name items None with
    | Found mw => (Namespace (mw_Meta mw), None)
    | Broken e _ => ("", Some e)
    | Nowhere last => ("", last)
    end).
Proof.
  unfold getDistributedPodNamespace, list_namespaces. apply wpE_bind.
  intros r Hr. apply Forall_cons in Hr as [Hr _]. simpl in Hr. subst r. apply probe_namespaces_wpE.
Qed.

Lemma getDistributedSidekickCurrentLeader_wpE items works sk :
  wpE (hub_answers items works) (getDistributedSidekickCurrentLeader sk) (λ _ o, o = Returned
    match search works (Name (sk_Meta sk)) items None with
    | Found mw => (Some mw, None)
    | Broken _ before => (None, before)
    | Nowhere last => (None, last)
    end).
Proof.
  unfold getDistributedSidekickCurrentLeader, list_namespaces. apply wpE_bind.
  intros r Hr. apply Forall_cons in Hr as [Hr _]. simpl in Hr. subst r. apply probe_current_wpE.
Qed.

(** Both searches for the ManifestWork of a Sidekick stop at the first
    namespace that has it; when a probe fails with an error other than NotFound,
    [getDistributedPodNamespace] reports that error, but
    [getDistributedSidekickCurrentLeader] drops it and reports no error or an
    earlier NotFound, so a failing API server looks like a missing pod. *)
Theorem current_leader_drops_errors items works sk tr tr' o o' :
  exec (getDistributedPodNamespace (Name (sk_Meta sk))) tr o → Forall (hub_answers items works) tr →
  exec (getDistributedSidekickCurrentLeader sk) tr' o' → Forall (hub_answers items works) tr' →
  match search works (Name (sk_Meta sk)) items None with
  | Found mw => o = Returned (Namespace (mw_Meta mw), None) ∧ o' = Returned (Some mw, None)
  | Nowhere last => o = Returned ("", last) ∧ o' = Returned (None, last)
  | Broken e before =>
      o = Returned ("", Some e) ∧ IsNotFound e = false ∧
      o' = Returned (None, before) ∧ (∀ x, before = Some x → IsNotFound x = true)
  end.
Proof.
  intros He HE He' HE'.
  pose proof (proj1 (wpE_exec _ _ _)
    (getDistributedPodNamespace_wpE items works (Name (sk_Meta sk))) _ _ He HE) as Ho.
  pose proof (proj1 (wpE_exec _ _ _)
    (getDistributedSidekickCurrentLeader_wpE items works sk) _ _ He' HE') as Ho'.
  cbv beta in Ho, Ho'.
  destruct (search works (Name (sk_Meta sk)) items None) as [mw|e b|l] eqn:Es; [done| |done].
  apply search_broken in Es as [? ?]; done.
Qed.

(** ** Marked deletions *)

(** The call stored the operator's deletion mark on a ManifestWork. *)
Definition marks_mw_initiator (e : apievent) : bool :=
  match written_work e with
  | Some mw => bool_decide (gm_lookup (Annotations (mw_Meta mw)) deletionInitiatorKey =
                            Some deletionInitiatesBySidekickOperator)
  | None => false
  end.

Abbreviation works_marked := (preceded (is_delete KManifestWork) marks_mw_initiator).

#[local] Hint Extern 1 (preceded _ _ [_]) => apply preceded_one; reflexivity : core.

Lemma annotate_mw_initiator_marks mw :
  gm_lookup (Annotations (mw_Meta (annotate_mw_initiator mw))) deletionInitiatorKey =
  Some deletionInitiatesBySidekickOperator.
Proof. simpl. apply lookup_insert_eq. Qed.

Lemma deleteMW_marked mw : traces works_marked (deleteMW mw).
Proof.
  unfold deleteMW, setMWDeletionInitiatorAnnotation, CreateOrPatch, traces. simpl.
  intros [cur|e]; simpl.
  - intros [md'|e]; simpl; [|by auto using preceded_cons]. intros r. apply preceded_cons; [done|].
    apply preceded_mark; [|done]. unfold marks_mw_initiator, written_work.
    simpl as_work. cbv iota beta. by rewrite annotate_mw_initiator_marks, bool_decide_eq_true_2.
  - destruct (IsNotFound e); simpl; [|by auto].
    intros [md'|e']; simpl; [|by auto using preceded_cons].
    intros r. apply preceded_cons; [done|]. apply preceded_mark; [|done]. unfold marks_mw_initiator, written_work.
    simpl as_work. cbv iota beta. by rewrite annotate_mw_initiator_marks, bool_decide_eq_true_2.
Qed.

Lemma status_marked sk : traces works_marked (updateDistributedSidekickStatus sk).
Proof. unfold updateDistributedSidekickStatus, PatchStatus. traces_auto. Qed.
#[local] Hint Resolve deleteMW_marked status_marked : core.

Lemma deleteMWAndResetStatus_marked sk mw : traces works_marked (deleteMWAndResetStatus sk mw).
Proof. unfold deleteMWAndResetStatus. traces_auto. Qed.

Lemma probe_marked name l nf : traces works_marked (probe_namespaces name l nf).
Proof. revert nf. induction l as [|ns l IH]; intros nf;
  cbn [probe_namespaces]; traces_auto. Qed.
#[local] Hint Resolve deleteMWAndResetStatus_marked probe_marked : core.

Lemma lookupMW_marked req sk : traces works_marked (lookupMW req sk).
Proof. unfold lookupMW, getDistributedPodNamespace, list_namespaces. traces_auto. Qed.
#[local] Hint Resolve lookupMW_marked : core.

Section DMarked.
Context `{Mergo} `{ObjectHasher} `{SortSlice} `{WorkJson} `{Crypto}.

Lemma wireArchiver_marked sk : traces works_marked (wireArchiver sk).
Proof.
  unfold wireArchiver, ensureGRPCKeys, createKeys, rereadKeys, randomKey, CreateOrPatch,
    setGRPCAddress, grpcSliceAddress, try. traces_auto.
Qed.

Lemma createManifestWork_marked sk leader : traces works_marked (createManifestWork sk leader).
Proof.
  pose proof wireArchiver_marked.
  unfold createManifestWork, ensurePodManifestWork, CreateOrPatch. traces_auto.
Qed.

Lemma syncManifestWork_marked sk leader mw : traces works_marked (syncManifestWork sk leader mw).
Proof. unfold syncManifestWork, ExtractPodFromManifestWork, gm_write. traces_auto. Qed.
#[local] Hint Resolve createManifestWork_marked syncManifestWork_marked : core.

Lemma syncOrCreateMW_marked req sk leader : traces works_marked (syncOrCreateMW req sk leader).
Proof. unfold syncOrCreateMW. traces_auto. Qed.

Lemma list_works_marked sel l acc : traces works_marked (list_works sel l acc).
Proof. revert acc. induction l as [|ns l IH]; intros acc; cbn [list_works]; unfold try; traces_auto. Qed.
#[local] Hint Resolve syncOrCreateMW_marked list_works_marked : core.

Lemma getDistributedLeader_marked sk : traces works_marked (getDistributedLeader sk).
Proof.
  unfold getDistributedLeader, findDistributedLeader, pick_leader, getDistributedPodNamespace,
    list_namespaces, ExtractPodFromManifestWork, try. traces_auto.
Qed.
#[local] Hint Resolve getDistributedLeader_marked : core.

(** Distributed pods are deleted by mark, too: in every execution of the part
    of the distributed reconcile that manages the ManifestWork of a live
    Sidekick, each deletion of a ManifestWork comes after a successful write of
    the deletion-initiator annotation on a ManifestWork. *)
Theorem work_deletions_are_marked req sk tr o :
  exec (reconcileDistributedLeader req sk) tr o →
  preceded (is_delete KManifestWork) marks_mw_initiator tr.
Proof.
  apply (proj1 (wp_exec _ (λ tr _, works_marked tr))).
  change (traces works_marked (reconcileDistributedLeader req sk)).
  unfold reconcileDistributedLeader. traces_auto.
Qed.
End DMarked.

(** ** Panics and terminal phases *)

(** Status patches are echoed, and ManifestWorks come with a manifest. *)
Definition sound_hub (e : apievent) : Prop :=
  echoes_status e ∧
  match e with
  | Ev op r =>
      match op return answer op → Prop with
      | OpOCMGet _ _ => λ r, match r with Ok mw => mw_Manifests mw ≠ [] | Err _ => True end
      | OpGet KManifestWork _ => λ r,
          match r with Ok mw => mw_Manifests mw ≠ [] | Err _ => True end
      | _ => λ _, True
      end r
  end.

Lemma total_weaken {A} (P : apievent → Prop) (R : A → Prop) (p : M A) :
  total echoes_status P R p → total sound_hub P R p.
Proof.
  intros Hp. apply wp_exec. intros tr o He HE. apply (proj1 (wpE_exec _ _ _) Hp tr o He).
  eapply Forall_impl; [exact HE|]. by intros e [].
Qed.

Lemma wpE_weaken {A} (Q : list apievent → outcome A → Prop) (p : M A) :
  wpE echoes_status p Q → wpE sound_hub p Q.
Proof.
  intros Hp. apply wp_exec. intros tr o He HE. apply (proj1 (wpE_exec _ _ _) Hp tr o He).
  eapply Forall_impl; [exact HE|]. by intros e [].
Qed.

(** A read that records nothing. *)
Ltac live_call := total_step; [by intros r _; split; [|exact I]|].

Lemma probe_namespaces_live (P : apievent → Prop) name l nf :
  (∀ ns n r, P (Ev (OpOCMGet ns n) r)) →
  total echoes_status P (λ _, True) (probe_namespaces name l nf).
Proof.
  intros HP. revert nf. induction l as [|ns l IH]; intros nf; cbn [probe_namespaces]; [by apply total_ret|].
  total_step; [by intros r _; split; [|exact I]|]. intros [mw|e] _; [by apply total_ret|].
  by destruct (IsNotFound e); [|apply total_ret].
Qed.

Lemma getDistributedPodNamespace_live (P : apievent → Prop) name :
  (∀ ns n r, P (Ev (OpOCMGet ns n) r)) → (∀ r, P (Ev (OpList KNamespace None None) r)) →
  total echoes_status P (λ _, True) (getDistributedPodNamespace name).
Proof.
  intros HP HL. unfold getDistributedPodNamespace, list_namespaces.
  total_step; [by intros r _; split; [|exact I]|]. intros [items|e] _; [|by apply total_ret].
  by apply probe_namespaces_live.
Qed.

Lemma current_live sk :
  total echoes_status (λ e, quiet e ∧ live e) (λ _, True) (getDistributedSidekickCurrentLeader sk).
Proof.
  unfold getDistributedSidekickCurrentLeader, list_namespaces. live_call.
  intros [items|e] _; [|by apply total_ret].
  assert (Hp : ∀ err, total echoes_status (λ e, quiet e ∧ live e) (λ _, True)
                 (probe_current (Name (sk_Meta sk)) items err)); [|done].
  induction items as [|ns l IH]; intros err; cbn [probe_current]; [by apply total_ret|].
  live_call. intros [mw|e] _; [by apply total_ret|].
  destruct (IsNotFound e); cbn [negb]; [apply IH|by apply total_ret].
Qed.

Section Sound.
Context `{WorkJson}.

Lemma getDistributedSidekickPhase_status sk mw :
  sk_Status (getDistributedSidekickPhase sk mw).2 = sk_Status sk.
Proof.
  unfold getDistributedSidekickPhase. destruct (String.eqb (sp_RestartPolicy _) _); [done|].
  destruct (String.eqb (st_Phase _) _); [done|].
  destruct (match mw with Some _ => _ | None => _ end); [done|].
  pose proof (over_limit_snd sk) as (Hst & _).
  by destruct (over_limit sk) as [[] sk'].
Qed.

Lemma recordDistributedPhase_wpE mw sk :
  counted sk → wpE echoes_status (recordDistributedPhase mw sk) phase_post.
Proof.
  intros Hc. unfold recordDistributedPhase.
  pose proof (getDistributedSidekickPhase_status sk mw) as Hst.
  destruct (getDistributedSidekickPhase sk mw) as [ph s2]. simpl in Hst.
  apply (store_phase_wpE ph s2). unfold counted. by rewrite Hst.
Qed.

Lemma counted_observe_mw mw sk : counted sk → counted (observe_mw mw sk).
Proof.
  intros Hc. unfold observe_mw. destruct (_ && _); [|done].
  set (s := put_failure _ _ _). assert (Hs : counted s) by by apply counted_put.
  destruct (negb _); [|done]. apply counted_over_limit in Hs.
  destruct (over_limit s) as [[] s']; simpl in *; [by apply counted_put|done].
Qed.

Lemma phase_post_app tr tr' o :
  Forall quiet tr → Forall live tr → phase_post tr' o → phase_post (tr ++ tr') o.
Proof.
  intros Hq Hl (Hq' & r & sk' & -> & Hc & Hr). split; [by apply Forall_app|].
  eexists _, _. split; [done|]. split; [done|]. destruct r; [|done]. destruct Hr as [? Hr].
  split; [done|]. intros Ht. apply Forall_app. auto.
Qed.

Lemma calculateDistributedSidekickPhase_wpE sk :
  wpE echoes_status (calculateDistributedSidekickPhase sk) phase_post.
Proof.
  unfold calculateDistributedSidekickPhase. pose proof (counted_init sk) as Hs.
  apply wpE_bind. eapply wpE_mono; [|apply current_live].
  intros tr [[leader err]|m] [Ht Ho]; [|done]. apply Forall_and in Ht as [Hq Hl].
  assert (Hrec : ∀ l s, counted s → wpE echoes_status (recordDistributedPhase l s)
    (λ tr' o, phase_post (tr ++ tr') o)).
  { intros l s Hc. eapply wpE_mono; [|by apply recordDistributedPhase_wpE].
    intros. by apply phase_post_app. }
  destruct err as [e|].
  - destruct (IsNotFound e); [by apply Hrec|]. apply wpE_ret. rewrite app_nil_r.
    split; [done|]. eauto.
  - destruct leader as [mw|]; apply Hrec; [by apply counted_observe_mw|done].
Qed.

Lemma updateDistributedSidekickPhase_wpE req sk :
  wpE echoes_status (updateDistributedSidekickPhase req sk) gate_post.
Proof. apply gate_wpE, calculateDistributedSidekickPhase_wpE. Qed.

Lemma lookupMW_live req sk :
  total sound_hub live (λ r, match r with Ok mw => mw_Manifests mw ≠ [] | Err _ => True end)
    (lookupMW req sk).
Proof.
  unfold lookupMW. eapply total_bind; [apply total_weaken; by apply getDistributedPodNamespace_live|].
  intros [ns [e|]] _; [by apply total_ret|].
  apply (total_call _ _ (OpGet KManifestWork _)). intros r [_ Hr]. split; [done|exact Hr].
Qed.

Lemma distributed_status_live sk :
  is_terminal (st_Phase (sk_Status sk)) = false →
  total sound_hub live (λ _, True) (updateDistributedSidekickStatus sk).
Proof. intros Hp. apply total_weaken. exact (updateSidekickStatus_live sk Hp). Qed.

Lemma deleteMWAndResetStatus_live sk mw :
  is_terminal (st_Phase (sk_Status sk)) = false →
  total sound_hub live (λ _, True) (deleteMWAndResetStatus sk mw).
Proof.
  intros Hp. unfold deleteMWAndResetStatus, deleteMW, setMWDeletionInitiatorAnnotation.
  eapply (total_bind _ _ (λ _, True)).
  - apply total_weaken. eapply total_bind; [by apply CreateOrPatch_total|].
    intros [mw' [e|]] _; [by apply total_ret|]. live_call. intros r _. by apply total_ret.
  - intros [e|] _; [by apply total_ret|].
    eapply total_bind; [by apply distributed_status_live|]. intros [] _. by apply total_ret.
Qed.
End Sound.

Section SoundReconcile.
Context `{Mergo} `{ObjectHasher} `{SortSlice} `{WorkJson} `{Crypto}.

Lemma rank_leaders_nonempty l ls : rank_leaders l = Ok ls → ls ≠ [].
Proof.
  unfold rank_leaders. destruct l as [|p [|q l]]; intros E; simplify_eq/=; [done|].
  intros E. pose proof (sort_slice_perm pod_less (p :: q :: l)) as Hp.
  rewrite E in Hp. by apply Permutation_nil in Hp.
Qed.

Lemma list_works_live sel l acc : total sound_hub live (λ _, True) (list_works sel l acc).
Proof.
  revert acc. induction l as [|ns l IH]; intros acc; cbn [list_works]; [by apply total_ret|].
  unfold try. live_call. intros [x|e] _; [apply IH|by apply total_ret].
Qed.

Lemma findDistributedLeader_live sk :
  total sound_hub live (λ r, match r with Ok ls => ls ≠ [] | Err _ => True end)
    (findDistributedLeader sk).
Proof.
  unfold findDistributedLeader, try. destruct (negb _).
  - eapply total_bind; [apply total_weaken; by apply getDistributedPodNamespace_live|].
    intros [ns [e|]] _; [by apply total_ret|].
    eapply (total_bind _ _ (λ r, match r with Ok mw => mw_Manifests mw ≠ [] | Err _ => True end)).
    { apply (total_call _ _ (OpOCMGet _ _)). intros r [_ Hr]. split; [done|exact Hr]. }
    intros [mw|e] Hm; [|by apply total_ret]. unfold ExtractPodFromManifestWork.
    destruct (mw_Manifests mw) as [|m ms]; [done|].
    apply (total_bind _ _ (λ _, True)); [by apply total_ret|].
    intros [leader|e] _; by apply total_ret.
  - destruct (match ls_Selector _ with Some _ => _ | None => _ end) as [rr sel].
    unfold list_namespaces. live_call. intros [items|e] _; [|by apply total_ret].
    eapply total_bind; [apply list_works_live|]. intros [allMW|e] _; [|by apply total_ret].
    apply total_ret. destruct (rank_leaders _) as [ls|] eqn:E; [|done].
    by apply rank_leaders_nonempty in E.
Qed.

Lemma getDistributedLeader_live sk : total sound_hub live (λ _, True) (getDistributedLeader sk).
Proof.
  unfold getDistributedLeader, try. eapply total_bind; [apply findDistributedLeader_live|].
  intros [ls|e] Hls; [|by apply total_ret].
  destruct (pick_leader_total (ls_SelectionPolicy (sp_Leader (sk_Spec sk))) ls Hls) as (p & _ & ->).
  by apply total_ret.
Qed.

Lemma wireArchiver_live sk :
  total sound_hub live (λ r, match r with Ok sk' => sk_Status sk' = sk_Status sk | Err _ => True end)
    (wireArchiver sk).
Proof.
  unfold wireArchiver, try.
  assert (Hkeys : total echoes_status live (λ _, True) (ensureGRPCKeys sk)).
  { assert (Hre : total echoes_status live (λ _, True) (rereadKeys sk)).
    { unfold rereadKeys, try. live_call. intros [s|e] _; [|by apply total_ret].
      by destruct (secret_keys s); apply total_ret. }
    assert (Hrand : total echoes_status live (λ _, True) randomKey).
    { unfold randomKey. live_call. intros [s|e] _; by apply total_ret. }
    assert (Hcr : total echoes_status live (λ _, True) (createKeys sk)).
    { unfold createKeys, try. eapply total_bind; [exact Hrand|]. intros [a|e] _; [|by apply total_ret].
      eapply total_bind; [exact Hrand|]. intros [b|e] _; [|by apply total_ret].
      eapply total_bind; [by apply CreateOrPatch_total|]. by intros [s [e|]] _; [apply total_ret|]. }
    unfold ensureGRPCKeys. live_call. intros [s|e] _.
    - by destruct (secret_keys s); [apply total_ret|].
    - by destruct (IsNotFound e); [|apply total_ret]. }
  eapply total_bind; [apply total_weaken, Hkeys|]. intros [[a b]|e] _; [|by apply total_ret].
  destruct (setSigningKey sk a) as [sk1|] eqn:E1; [|by apply total_ret].
  destruct (setSnapshotGrant sk1 b) as [sk2|] eqn:E2; [|by apply total_ret].
  assert (Hst : sk_Status sk2 = sk_Status sk).
  { unfold setSigningKey in E1. unfold setSnapshotGrant in E2. repeat case_match; by simplify_eq/=. }
  unfold setGRPCAddress, grpcSliceAddress, try.
  destruct (getSidekickContainer sk2); [|by apply total_ret].
  apply (total_bind _ _ (λ _, True)).
  { live_call. intros p _. live_call. intros n _. by destruct (_ || _); apply total_ret. }
  intros [addr|e] _; by apply total_ret.
Qed.

Lemma createManifestWork_live sk leader :
  is_terminal (st_Phase (sk_Status sk)) = false →
  total sound_hub live (λ _, True) (createManifestWork sk leader).
Proof.
  intros Hp. unfold createManifestWork. eapply total_bind; [apply wireArchiver_live|].
  intros [sk1|e] Hs; [|by apply total_ret].
  destruct (convContainers leader (sk_Spec sk1)) as [[cs ics]|e]; [|by apply total_ret].
  apply (total_bind _ _ (λ p, sk_Status p.2 = sk_Status sk1)).
  - unfold ensurePodManifestWork. destruct (String.eqb _ ""); [by apply total_ret|].
    eapply total_bind; [apply total_weaken; by apply CreateOrPatch_total|].
    intros [mw err] _. apply total_ret. simpl. by destruct (Labels (sk_Meta sk1)).
  - intros [[e|] sk2] Hs2; [by apply total_ret|]. simpl in Hs2.
    eapply total_bind; [apply distributed_status_live; simpl; by rewrite Hs2, Hs|].
    intros [] _. by apply total_ret.
Qed.

Lemma syncManifestWork_live sk leader mw :
  is_terminal (st_Phase (sk_Status sk)) = false → counted sk → mw_Manifests mw ≠ [] →
  total sound_hub live (λ _, True) (syncManifestWork sk leader mw).
Proof.
  intros Hp [m Hm] Hne. unfold syncManifestWork, ExtractPodFromManifestWork.
  destruct (mw_Manifests mw) as [|raw ms]; [done|].
  apply (total_bind _ _ (λ _, True)); [by apply total_ret|]. intros [pod|e] _; [|by apply total_ret].
  destruct (_ || _); [by apply total_ret|]. destruct (mwNeedsRecreate _ _ _ _).
  - eapply (total_bind _ _ (λ s, is_terminal (st_Phase (sk_Status s)) = false)).
    + destruct (negb _); [|by apply total_ret]. rewrite Hm. simpl. by apply total_ret.
    + intros s Hs. eapply total_bind; [by apply deleteMWAndResetStatus_live|].
      intros. by apply total_ret.
  - eapply total_bind; [by apply distributed_status_live|]. intros [] _. by apply total_ret.
Qed.

Lemma syncOrCreateMW_live req sk leader :
  is_terminal (st_Phase (sk_Status sk)) = false → counted sk →
  total sound_hub live (λ _, True) (syncOrCreateMW req sk leader).
Proof.
  intros Hp Hc. unfold syncOrCreateMW. eapply total_bind; [apply lookupMW_live|].
  intros [mw|e] Hm; [by apply syncManifestWork_live|].
  destruct (IsNotFound e); cbn [negb]; [|by apply total_ret].
  eapply total_bind; [by apply createManifestWork_live|]. intros. by apply total_ret.
Qed.

Lemma reconcileDistributedLeader_live req sk :
  is_terminal (st_Phase (sk_Status sk)) = false → counted sk →
  total sound_hub live (λ _, True) (reconcileDistributedLeader req sk).
Proof.
  intros Hp Hc. unfold reconcileDistributedLeader. eapply total_bind; [apply getDistributedLeader_live|].
  intros lr _. destruct (match lr with Ok _ => _ | Err _ => _ end).
  - eapply total_bind; [apply lookupMW_live|]. intros [mw|e] _.
    + eapply total_bind; [by apply deleteMWAndResetStatus_live|]. intros. by apply total_ret.
    + destruct lr; [by apply syncOrCreateMW_live|by apply total_ret].
  - destruct lr; [by apply syncOrCreateMW_live|by apply total_ret].
Qed.
End SoundReconcile.

Section SoundTop.
Context `{Mergo} `{ObjectHasher} `{SortSlice} `{WorkJson} `{Crypto}.

Lemma startGRPCOnce_live proc sk :
  total sound_hub (λ e, live e ∧ quiet e) (λ _, True) (startGRPCOnce proc sk).
Proof.
  assert (Hdom : ∀ d, total echoes_status (λ e, live e ∧ quiet e) (λ _, True) (findDomain d)).
  { intros [d|]; [by apply total_ret|]. unfold findDomain, resolveDomain.
    apply (total_bind _ _ (λ _, True)); [|intros; by apply total_ret].
    live_call. intros [content|e] _; [|by apply total_ret]. destruct (Scan content) as [lines err].
    destruct (search_domain lines); [by apply total_ret|]. by destruct err; apply total_ret. }
  apply total_weaken. unfold startGRPCOnce. destruct (grpcOnce proc); [by apply total_ret|].
  apply (total_bind _ _ (λ _, True)); [|intros [e d] _; by apply total_ret].
  unfold ensureServiceExport. destruct (getSliceName sk); [|by apply total_ret].
  live_call. intros p _. live_call. intros n _. destruct (_ || _); [by apply total_ret|].
  live_call. intros [self|e] _; [|by apply total_ret].
  live_call. intros [cur|e] _.
  - eapply total_bind; [apply Hdom|]. intros [d' dom] _. live_call. intros. by apply total_ret.
  - destruct (IsNotFound e); [|by apply total_ret].
    eapply total_bind; [apply Hdom|]. intros [d' dom] _. live_call. intros. by apply total_ret.
Qed.

Lemma handleDistributedSidekickFinalizer_live sk :
  total sound_hub
    (λ e, live e ∧ (DeletionTimestamp (sk_Meta sk) = None → quiet e)) (λ _, True)
    (handleDistributedSidekickFinalizer sk).
Proof.
  apply total_weaken. unfold handleDistributedSidekickFinalizer, terminateManifestWork.
  destruct (DeletionTimestamp (sk_Meta sk)) eqn:Ed.
  - destruct (_ && _); [|by apply CreateOrPatch_total].
    eapply total_bind; [by apply getDistributedPodNamespace_live|]. intros [ns err] _.
    destruct (IgnoreNotFound err); [by apply total_ret|].
    destruct (negb _); [|by apply CreateOrPatch_total].
    live_call. intros r _. destruct (IgnoreNotFound _); [by apply total_ret|].
    by apply CreateOrPatch_total.
  - by apply CreateOrPatch_total.
Qed.

Lemma reconcileDistributed_wpE proc req sk :
  wpE sound_hub (reconcileDistributed proc req sk) (λ tr o,
    (∃ r, o = Returned r) ∧
    (Forall live tr ∨ (DeletionTimestamp (sk_Meta sk) = None → Forall quiet tr))).
Proof.
  unfold reconcileDistributed. apply wpE_bind. eapply wpE_mono; [|apply startGRPCOnce_live].
  intros tr0 [proc'|m] [Hg Ho]; [|done]. apply Forall_and in Hg as [Hl0 Hq0]. clear Ho.
  apply wpE_bind. eapply wpE_mono; [|apply handleDistributedSidekickFinalizer_live].
  intros tr1 [[sk0 err]|m] [Ht1 Ho]; [|done]. apply Forall_and in Ht1 as [Hl1 Hq1]. clear Ho.
  assert (Hl01 : Forall live (tr0 ++ tr1)) by (by apply Forall_app).
  destruct err; [by apply wpE_ret; rewrite app_nil_r; eauto|].
  apply wpE_bind. eapply wpE_mono; [|apply wpE_weaken, updateDistributedSidekickPhase_wpE].
  intros tr2 o (Hq2 & drop & err & sk1 & -> & Hc & Hgo).
  assert (Hquiet : DeletionTimestamp (sk_Meta sk) = None → Forall quiet (tr0 ++ tr1 ++ tr2)).
  { intros Hd. rewrite !Forall_app. split; [done|]. split; [|done].
    eapply Forall_impl; [exact Hq1|]. auto. }
  destruct err; [by apply wpE_ret; rewrite app_nil_r; eauto|].
  destruct drop; [by apply wpE_ret; rewrite app_nil_r; eauto|].
  destruct (Hgo eq_refl eq_refl) as [Hp Hl2].
  apply wpE_bind. eapply wpE_mono; [|by apply reconcileDistributedLeader_live].
  intros tr3 [[r e]|m] [Hl3 Hr]; [|done]. apply wpE_ret. rewrite app_nil_r. split; [eauto|]. left.
  rewrite !Forall_app. apply Forall_app in Hl01 as []. done.
Qed.

End SoundTop.

(** ** Phase *)

(** What the feedback of a ManifestWork says about the abstract phase. *)
Definition mw_view (sidekick : Sidekick) (mw : option ManifestWork) : PhaseView :=
  {| v_always := String.eqb (sp_RestartPolicy (sk_Spec sidekick)) RestartPolicyAlways;
     v_was_succeeded := String.eqb (st_Phase (sk_Status sidekick)) SidekickPhaseSucceeded;
     v_pod_succeeded := match mw with Some mw => reports_succeeded mw | None => false end;
     v_backoffs := backoffs sidekick;
     v_limit := limit sidekick;
     v_running := isDistributedSidekickPodRunning mw |}.


(** ** The pod that travels *)

(** The ManifestWork a call sends. *)
Definition sent_work (e : apievent) : option ManifestWork :=
  match e with
  | Ev op _ =>
      match op with
      | OpCreate k md => as_work md
      | OpPatch k _ md => as_work md
      | _ => None
      end
  end.

Section Travel.
Context `{Mergo} `{ObjectHasher} `{SortSlice} `{WorkJson} `{Crypto}.

(** A pod built for this Sidekick and leader. *)
Definition built_for (sk : Sidekick) (leader pod : Pod) : Prop :=
  Name (pod_Meta pod) = Name (sk_Meta sk) ∧ Namespace (pod_Meta pod) = Namespace (sk_Meta sk) ∧
  Annotations (pod_Meta pod) = Some (distributed_annotations sk leader) ∧
  ps_NodeName (pod_Spec pod) = ps_NodeName (pod_Spec leader).

(** A ManifestWork sent for the Sidekick: in the namespace of the leader's
    cluster, under the Sidekick's name, carrying such a pod. *)
Definition carries (sk : Sidekick) (leader : Pod) (e : apievent) : Prop :=
  ∀ w, sent_work e = Some w → ∃ pod, mw_Manifests w = [{| raw_Raw := ""; raw_Object := Some pod |}] ∧
    built_for sk leader pod.

Lemma distributed_annotations_meta sk sk' leader :
  sk_Meta sk' = sk_Meta sk → distributed_annotations sk' leader = distributed_annotations sk leader.
Proof. intros E. unfold distributed_annotations. by rewrite E. Qed.

Lemma built_current sk leader pod phase :
  Annotations (pod_Meta pod) = Some (distributed_annotations sk leader) →
  ps_NodeName (pod_Spec pod) = ps_NodeName (pod_Spec leader) →
  (phase = PodFailed → sp_RestartPolicy (sk_Spec sk) ≠ RestartPolicyNever) →
  mwNeedsRecreate sk leader pod phase = false.
Proof.
  intros Ha Hn Hf. unfold mwNeedsRecreate. rewrite Ha, Hn. unfold gm_str, distributed_annotations.
  simpl gm_lookup. rewrite lookup_insert_ne, !lookup_insert_eq by done. simpl default.
  rewrite !String.eqb_refl. simpl.
  destruct (String.eqb_spec phase PodFailed); [|done].
  destruct (String.eqb_spec (sp_RestartPolicy (sk_Spec sk)) RestartPolicyNever); [|done].
  exfalso. by apply Hf.
Qed.

#[local] Hint Extern 1 (Forall (carries _ _) [_]) =>
  constructor; [by (intros ? ?)|constructor] : core.

Lemma wireArchiver_carries sk0 leader sk : traces (Forall (carries sk0 leader)) (wireArchiver sk).
Proof.
  unfold wireArchiver, ensureGRPCKeys, createKeys, rereadKeys, randomKey, CreateOrPatch,
    setGRPCAddress, grpcSliceAddress, try. traces_auto.
Qed.

Lemma ensurePodManifestWork_carries sk leader sk1 pod :
  built_for sk leader pod → traces (Forall (carries sk leader)) (ensurePodManifestWork sk1 pod).
Proof.
  intros Hb. unfold ensurePodManifestWork, CreateOrPatch.
  assert (Hs : ∀ (op : apiop) r w, sent_work (Ev op r) = Some w →
    mw_Manifests w = [{| raw_Raw := ""; raw_Object := Some (manifest_pod pod) |}] →
    Forall (carries sk leader) [Ev op r]).
  { intros op r w Hw Hm. constructor; [|constructor]. intros w' Hw'.
    rewrite Hw in Hw'. injection Hw' as <-. exists (manifest_pod pod). split; [done|].
    destruct Hb as (? & ? & ? & ?). by repeat split. }
  repeat trace_step; try (by auto); by (eapply Hs; [reflexivity|reflexivity]).
Qed.

Lemma createManifestWork_carries sk leader :
  traces (Forall (carries sk leader)) (createManifestWork sk leader).
Proof.
  unfold createManifestWork. apply wp_bind.
  eapply wp_mono; [|apply wp_and; [apply wireArchiver_wp|apply (wireArchiver_carries sk leader)]].
  intros tr o [(r & -> & Hr) Ht]. destruct r as [sk1|e]; [|by apply wp_ret; rewrite app_nil_r].
  destruct Hr as (_ & _ & _ & _ & _ & _ & _ & _ & (Hm & _) & _).
  assert (Happ : ∀ (p : M (option error)), traces (Forall (carries sk leader)) p →
    wp p (λ tr' _, Forall (carries sk leader) (tr ++ tr'))).
  { intros p Hp. eapply wp_mono; [|exact Hp]. intros. by apply Forall_app. }
  apply Happ. destruct (convContainers leader (sk_Spec sk1)) as [[cs ics]|e]; [|by apply traces_ret; apply _].
  apply traces_bind; [apply _| |].
  - apply ensurePodManifestWork_carries. unfold built_for. simpl. rewrite Hm.
    split; [done|]. split; [done|]. split; [|done]. f_equal. by apply distributed_annotations_meta.
  - intros [[e|] sk2]; [by apply traces_ret; apply _|].
    unfold updateDistributedSidekickStatus, PatchStatus. traces_auto.
Qed.

(** A distributed pod, once created, is left alone.  Every ManifestWork the
    creation sends carries one pod with the Sidekick's name, the leader's node
    and the hash and leader annotations, even if the leader's own annotations
    (copied too) contain those keys.  When such a pod comes back in a
    ManifestWork and has not failed for good, no execution of the next pass
    deletes that ManifestWork.  If the leader's node is unknown, the pass stops
    before looking at anything and requeues, for ever. *)
Theorem distributed_pod_is_kept sk leader tr o mw raw pod :
  exec (createManifestWork sk leader) tr o →
  Forall (carries sk leader) tr ∧
  (mw_Manifests mw = [raw] → unstructured_pod (raw_Raw raw) = Ok pod → built_for sk leader pod →
   (extractPodStatusFromMW mw = PodFailed → sp_RestartPolicy (sk_Spec sk) ≠ RestartPolicyNever) →
   ∀ tr' o', exec (syncManifestWork sk leader mw) tr' o' →
     Forall (λ e, is_delete KManifestWork e = false) tr' ∧
     (ps_NodeName (pod_Spec leader) = "" →
      tr' = [] ∧ o' = Returned ({| Requeue := true; RequeueAfter := 0 |}, None))).
Proof.
  intros He. split; [exact (proj1 (wp_exec _ _) (createManifestWork_carries sk leader) _ _ He)|].
  intros Hmw Hraw (_ & _ & Ha & Hn) Hf. apply wp_exec.
  unfold syncManifestWork, ExtractPodFromManifestWork. rewrite Hmw. apply wp_bind, wp_ret.
  rewrite Hraw, Hn. destruct (String.eqb_spec (ps_NodeName (pod_Spec leader)) "") as [En|En].
  { by apply wp_ret. }
  assert (Hrest : ∀ (p : M (Result * option error)),
    traces (Forall (λ e, is_delete KManifestWork e = false)) p →
    wp p (λ tr' o', Forall (λ e, is_delete KManifestWork e = false) tr' ∧
      (ps_NodeName (pod_Spec leader) = "" →
       tr' = [] ∧ o' = Returned ({| Requeue := true; RequeueAfter := 0 |}, None)))).
  { intros p Hp. eapply wp_mono; [|exact Hp]. intros tr' o' Ht. split; [done|]. by intros. }
  apply Hrest. destruct (_ || _); [by apply traces_ret; apply _|].
  rewrite built_current by done. unfold updateDistributedSidekickStatus, PatchStatus.
  repeat trace_step; repeat constructor.
Qed.
End Travel.
