(* ===== verification/DistributedWitness.v ===== *)
(** * Concrete distributed Sidekicks

    A hub with two cluster namespaces, an archiver Sidekick and its leader. *)

From S2P Require Import Prelude Effects GoStd GoStrings Types Cluster Kmodules Leader Fixtures Phase PodBuilder Local LocalProps Server Store LocalWitness Codec Token SnapshotServer SnapshotProps SnapshotWitness GrpcWiring Distributed WiringProps DistributedProps.
Import InsertionSort.

(** ** Objects *)

Definition ex_walg : Container :=
  {| c_Name := "wal-g"; c_Image := "img"; c_Command := []; c_Args := []; c_WorkingDir := "";
     c_Ports := []; c_EnvFrom := [];
     c_Env := [{| env_Name := "SNAPSHOT_NAME"; env_Value := "s"; env_ValueFrom := None |};
               {| env_Name := "SLICE_NAME"; env_Value := "slice"; env_ValueFrom := None |}];
     c_Resources := JNull; c_VolumeMounts := [];
     c_VolumeDevices := []; c_LivenessProbe := None; c_ReadinessProbe := None;
     c_StartupProbe := None; c_Lifecycle := None; c_TerminationMessagePath := "";
     c_TerminationMessagePolicy := ""; c_ImagePullPolicy := ""; c_SecurityContext := None;
     c_Stdin := false; c_StdinOnce := false; c_TTY := false |}.

Definition ex_dsk (ns : string) : Sidekick :=
  {| sk_Meta := ex_meta ns "arch" ("uid-" +:+ ns) [getFinalizerName] None None;
     sk_Spec := ex_Spec ex_leader_sel "Always" None [ex_walg] true;
     sk_Status := empty_SidekickStatus |}.

(** The leader as it travels in a ManifestWork. *)
Definition ex_dleader : Pod :=
  {| pod_APIVersion := "v1"; pod_Kind := "Pod";
     pod_Meta := ex_meta "a" "db-0" "uid-db-0" [] None
                   (Some {[ ManifestWorkClusterNameLabel := "c1" ]});
     pod_Spec := ex_PodSpec "n0" [] []; pod_Status := ex_status "Running" |}.

(** The archiver's pod as it is built. *)
Definition ex_dpod (ns : string) : Pod := distributed_pod (ex_dsk ns) ex_dleader [] [].

(** Manifests are named by a key. *)
#[export] Instance ex_WorkJson : WorkJson := {|
  unmarshal_pod s := if String.eqb s "leader" then Ok ex_dleader else Err (PlainError "bad JSON");
  unstructured_pod s := if String.eqb s "arch" then Ok (ex_dpod "a") else Err (PlainError "bad JSON");
  unmarshal_condition _ := None;
  unmarshal_int32s s := if String.eqb s "[1,2]" then Some [1; 2] else None;
  FormatLabelSelector _ := "app=db"
|}.

Definition ex_feedback (phase node : string) : list ManifestCondition :=
  [{| mc_Values := [{| fb_Name := "PodPhase"; fb_String := Some phase; fb_JsonRaw := None |};
                    {| fb_Name := "NodeName"; fb_String := Some node; fb_JsonRaw := None |}] |}].

Definition ex_work (ns name raw phase node : string) : ManifestWork :=
  {| mw_Meta := ex_meta ns name ("uid-mw-" +:+ name) ["ocm"] None None;
     mw_Manifests := [{| raw_Raw := raw; raw_Object := None |}];
     mw_ManifestConfigs := JNull; mw_ResourceStatus := ex_feedback phase node |}.

Definition ex_ns (n : string) : NamespaceObj := {| ns_Meta := ex_meta "" n "" [] None None |}.

Definition ex_hub : store :=
  put (k := KNamespace) (ex_ns "c1") (put (k := KNamespace) (ex_ns "c2")
  (put (k := KManifestWork) (ex_work "c1" "db-0" "leader" "Running" "n0")
  (put (k := KSidekick) (ex_dsk "a") empty_store))).

(** ** Wiring *)

Lemma deployment_name_roundtrip_witness :
  deploymentNameForPod "kubedb-sidekick-5f9d777f8f-rjvdq" = "kubedb-sidekick".
Proof. apply (deployment_name_roundtrip "kubedb-sidekick" "5f9d777f8f" "rjvdq"); reflexivity. Defined.

Definition ex_keys_trace : list apievent := run_trace serve (ensureGRPCKeys (ex_dsk "a")) ex_hub.


Definition ex_wire_trace : list apievent := run_trace serve (wireArchiver (ex_dsk "a")) ex_hub.
Definition ex_wired : Sidekick :=
  match (run serve (wireArchiver (ex_dsk "a")) ex_hub).1 with
  | Returned (Ok sk) => sk
  | _ => ex_dsk ""
  end.

Lemma ex_wired_exec : exec (wireArchiver (ex_dsk "a")) ex_wire_trace (Returned (Ok ex_wired)).
Proof.
  assert (E : (run serve (wireArchiver (ex_dsk "a")) ex_hub).1 = Returned (Ok ex_wired)).
  { vm_compute. reflexivity. }
  rewrite <- E. apply run_exec.
Qed.

Lemma archiver_wired_witness : wired (ex_dsk "a") ex_wire_trace ex_wired.
Proof. apply (archiver_wired (ex_dsk "a") ex_wire_trace ex_wired). exact ex_wired_exec. Defined.

Lemma wired_archiver_is_served_witness :
  ∃ cont secret, getSidekickContainer ex_wired = Some cont ∧
    Ev (OpGet KSecret (keys_key (ex_dsk "a"))) (Ok secret) ∈ ex_wire_trace ∧
    ∃ tok,
      exec (authenticate ∅ (archiver_request ex_wired cont ex_info tok))
        [Ev (OpGet KSecret (keys_key (ex_dsk "a"))) (Ok secret); Ev OpNow 10; Ev OpNow 11]
        (Returned (Ok (archiver_claims ex_wired cont ex_info "n" 100), <["n" := 100]> (purge 11 ∅))).
Proof.
  destruct (wired_archiver_is_served (ex_dsk "a") ex_wire_trace ex_wired ex_wired_exec)
    as (cont & secret & Hc & Hin & Hserve).
  exists cont, secret. split; [exact Hc|]. split; [exact Hin|].
  assert (Hcont : getSidekickContainer ex_wired =
    Some (default ex_walg (getSidekickContainer ex_wired))) by (vm_compute; reflexivity).
  rewrite Hcont in Hc. injection Hc as <-.
  destruct (Hserve ex_info "n" "iviviviviviv" 10 11 100 ∅) as (tok & _ & Ha);
    [vm_compute; reflexivity|vm_compute; split; congruence|vm_compute; congruence|congruence
    |reflexivity|lia|lia|reflexivity|].
  exists tok. exact Ha.
Defined.

Definition ex_export_prog := ensureServiceExport (ex_dsk "a") None.

Definition ex_operator : Pod :=
  {| pod_APIVersion := "v1"; pod_Kind := "Pod";
     pod_Meta := set_Labels (Some {[ "app" := "sidekick"; "pod-template-hash" := "5f9d777f8f" ]})
       (ex_meta "kubedb" "kubedb-sidekick-5f9d777f8f-rjvdq" "uid-op" [] None None);
     pod_Spec := ex_PodSpec "n9" [] []; pod_Status := ex_status "Running" |}.

Definition ex_op_hub : store := put (k := KPod) ex_operator ex_hub.

Lemma ex_export_identity :
  Forall (env_identity "kubedb-sidekick-5f9d777f8f-rjvdq" "kubedb")
    (run_trace serve ex_export_prog ex_op_hub).
Proof. vm_compute. repeat constructor; discriminate. Qed.

Lemma export_advertises_address_witness :
  exec grpcSliceAddress
    [Ev (OpGetenv envPodName) "kubedb-sidekick-5f9d777f8f-rjvdq"; Ev (OpGetenv envPodNamespace) "kubedb"]
    (Returned (Ok "kubedb-sidekick.kubedb.svc.slice.local")) ∧
  Forall (advertises "kubedb-sidekick.kubedb.svc.slice.local")
    (run_trace serve ex_export_prog ex_op_hub) ∧
  ∃ r, (run serve ex_export_prog ex_op_hub).1 = Returned r.
Proof.
  apply (export_advertises_address "kubedb-sidekick-5f9d777f8f-rjvdq" "kubedb" (ex_dsk "a") None
           (run_trace serve ex_export_prog ex_op_hub));
    [congruence|congruence|apply run_exec|exact ex_export_identity].
Defined.

(** ** Searching *)

(** The second cluster namespace fails. *)
Definition ex_flaky (ns name : string) : res ManifestWork :=
  if String.eqb ns "c1" then Err (NewNotFound "manifestworks" name)
  else Err (ApiError ReasonOther "internal error").

Definition ex_items : list NamespaceObj := [ex_ns "c1"; ex_ns "c2"].

Definition ex_probe_trace : list apievent :=
  [Ev (OpList KNamespace None None) (Ok ex_items);
   Ev (OpOCMGet "c1" "arch") (ex_flaky "c1" "arch"); Ev (OpOCMGet "c2" "arch") (ex_flaky "c2" "arch")].

Lemma ex_probe_hub : Forall (hub_answers ex_items ex_flaky) ex_probe_trace.
Proof. by repeat constructor. Qed.

Lemma current_leader_drops_errors_witness :
  Returned ("", Some (ApiError ReasonOther "internal error")) =
    Returned ("", Some (ApiError ReasonOther "internal error")) ∧
  IsNotFound (ApiError ReasonOther "internal error") = false ∧
  Returned (None : option ManifestWork, Some (NewNotFound "manifestworks" "arch")) =
    Returned (None, Some (NewNotFound "manifestworks" "arch")) ∧
  (∀ x, Some (NewNotFound "manifestworks" "arch") = Some x → IsNotFound x = true).
Proof.
  apply (current_leader_drops_errors ex_items ex_flaky (ex_dsk "a") ex_probe_trace ex_probe_trace).
  - apply (exec_call (OpList KNamespace None None) _ (Ok ex_items)).
    apply (exec_call (OpOCMGet "c1" "arch") _ (ex_flaky "c1" "arch")).
    apply (exec_call (OpOCMGet "c2" "arch") _ (ex_flaky "c2" "arch")). apply exec_ret.
  - exact ex_probe_hub.
  - apply (exec_call (OpList KNamespace None None) _ (Ok ex_items)).
    apply (exec_call (OpOCMGet "c1" "arch") _ (ex_flaky "c1" "arch")).
    apply (exec_call (OpOCMGet "c2" "arch") _ (ex_flaky "c2" "arch")). apply exec_ret.
  - exact ex_probe_hub.
Defined.

(** ** Reconciling *)

(** The archiver of [a] runs in cluster [c1]. *)
Definition ex_running : store :=
  put (k := KManifestWork) (ex_work "c1" "arch" "arch" "Running" "n0") ex_hub.

(** The Sidekick [b/arch], of the same name in another namespace. *)
Definition ex_twin : Sidekick := ex_dsk "b".
Definition ex_twin_req : NamespacedName := mkKey "b" "arch".
Definition ex_twins : store := put (k := KSidekick) ex_twin ex_running.

Lemma work_deletions_are_marked_witness :
  existsb (is_delete KManifestWork) (run_trace serve (reconcileDistributedLeader ex_twin_req ex_twin) ex_twins) = true ∧
  preceded (is_delete KManifestWork) marks_mw_initiator
    (run_trace serve (reconcileDistributedLeader ex_twin_req ex_twin) ex_twins).
Proof.
  split; [vm_compute; reflexivity|].
  apply (work_deletions_are_marked ex_twin_req ex_twin _
           (run serve (reconcileDistributedLeader ex_twin_req ex_twin) ex_twins).1).
  apply run_exec.
Defined.

(** Sidekicks of one name in two namespaces collide: a ManifestWork is looked up by the
    Sidekick's name alone, so reconciling the new Sidekick [b/arch] finds the
    running ManifestWork of [a/arch], takes it for its own outdated one, and
    deletes it. *)
Theorem same_name_sidekicks_collide :
  stored KManifestWork ex_twins (mkKey "c1" "arch") = Some (ex_work "c1" "arch" "arch" "Running" "n0") ∧
  (unstructured_pod "arch" = Ok (ex_dpod "a") ∧ Namespace (pod_Meta (ex_dpod "a")) = "a") ∧
  ∃ mw, stored KManifestWork
          (run serve (reconcileDistributedLeader ex_twin_req ex_twin) ex_twins).2 (mkKey "c1" "arch") = Some mw ∧
    is_Some (DeletionTimestamp (mw_Meta mw)).
Proof.
  split; [vm_compute; reflexivity|]. split; [done|].
  destruct (stored KManifestWork (run serve (reconcileDistributedLeader ex_twin_req ex_twin) ex_twins).2
    (mkKey "c1" "arch")) as [mw|] eqn:E; [|vm_compute in E; discriminate E].
  exists mw. split; [done|].
  assert (Hd : match stored KManifestWork
      (run serve (reconcileDistributedLeader ex_twin_req ex_twin) ex_twins).2 (mkKey "c1" "arch")
      with Some mw => DeletionTimestamp (mw_Meta mw) | None => None end = Some 1000)
    by (vm_compute; reflexivity).
  rewrite E in Hd. rewrite Hd. eauto.
Qed.

Definition ex_proc : Proc := {| grpcOnce := false; clusterDomain := None |}.
Definition ex_drec := reconcileDistributed ex_proc (mkKey "a" "arch") (ex_dsk "a").

Lemma ex_drec_sound : Forall sound_hub (run_trace serve ex_drec ex_op_hub).
Proof.
  assert (He : Forall echoes_status (run_trace serve ex_drec ex_op_hub)) by apply store_trace_echoes.
  assert (Hm : forallb (λ e, match e with
    | Ev op r => match op return answer op → bool with
                 | OpOCMGet _ _ => λ r, match r with Ok mw => negb (Nat.eqb (length (mw_Manifests mw)) 0) | Err _ => true end
                 | OpGet KManifestWork _ => λ r, match r with Ok mw => negb (Nat.eqb (length (mw_Manifests mw)) 0) | Err _ => true end
                 | _ => λ _, true
                 end r end) (run_trace serve ex_drec ex_op_hub) = true) by (vm_compute; reflexivity).
  rewrite forallb_forall in Hm. rewrite Forall_forall in He. apply Forall_forall. intros e Hin.
  split; [by apply He|]. apply list_elem_of_In, Hm in Hin. destruct e as [op r].
  destruct op; try done; [destruct k; try done|]; destruct r as [mw|]; try done;
    by intros E; rewrite E in Hin.
Qed.


(** The reconcile creates the ManifestWork in the leader's cluster. *)
Example distributed_creates_work :
  ((λ w, length (mw_Manifests w)) <$> s_works (run serve ex_drec ex_op_hub).2 !! mkKey "c1" "arch") = Some 1%nat.
Proof. vm_compute. reflexivity. Qed.


Definition ex_create := createManifestWork (ex_dsk "a") ex_dleader.

Lemma distributed_pod_is_kept_witness :
  Forall (carries (ex_dsk "a") ex_dleader) (run_trace serve ex_create ex_op_hub) ∧
  ∀ tr' o', exec (syncManifestWork (ex_dsk "a") ex_dleader (ex_work "c1" "arch" "arch" "Running" "n0")) tr' o' →
    Forall (λ e, is_delete KManifestWork e = false) tr'.
Proof.
  destruct (distributed_pod_is_kept (ex_dsk "a") ex_dleader (run_trace serve ex_create ex_op_hub)
    (run serve ex_create ex_op_hub).1 (ex_work "c1" "arch" "arch" "Running" "n0")
    {| raw_Raw := "arch"; raw_Object := None |} (ex_dpod "a")) as [Hc Hk]; [apply run_exec|].
  split; [exact Hc|]. intros tr' o' Hx.
  apply (Hk eq_refl eq_refl) with (o' := o');
    [repeat split|intros E; vm_compute in E; discriminate E|exact Hx].
Defined.
