(* ===== verification/ControllerProps.v ===== *)
(** * Properties of the controller *)

From S2P Require Import Prelude Effects GoStd Types Cluster Kmodules Leader Fixtures Phase PodBuilder Local LocalProps Server Store LocalWitness Codec Token SnapshotServer SnapshotWitness GrpcWiring Distributed Controller DistributedProps DistributedWitness.

Section Returns.
Context `{Mergo} `{ObjectHasher} `{SortSlice} `{LabelSelectors} `{WorkJson} `{Crypto}.

(** Executions that end without a panic. *)
Abbreviation returns := (total sound_hub (λ _, True) (λ _, True)).

Lemma returns_wpE {A} (p : M A) (Q : list apievent → outcome A → Prop) :
  wpE sound_hub p Q → (∀ tr o, Q tr o → ∃ r, o = Returned r) → returns p.
Proof.
  intros Hp HQ. eapply wpE_mono; [|exact Hp]. intros tr o Ho. split; [by apply Forall_true|].
  by destruct (HQ tr o Ho) as [r ->].
Qed.

Lemma CreateOrPatch_returns k (o : obj k) f : returns (CreateOrPatch k o f).
Proof. by apply CreateOrPatch_total. Qed.

Lemma removePodFinalizerIfMarkedForDeletion_returns req :
  returns (removePodFinalizerIfMarkedForDeletion req).
Proof.
  unfold removePodFinalizerIfMarkedForDeletion. total_step; [by split; [|exact I]|].
  intros [pod|e] _; [|by apply total_ret].
  destruct (DeletionTimestamp _); [|by apply total_ret].
  apply (total_bind _ _ (λ _, True)).
  - destruct (gm_lookup _ _); [by apply total_ret|]. unfold countExternalDeletion.
    total_step; [by split; [|exact I]|]. intros [sk|e] _; [|by apply total_ret].
    destruct (DeletionTimestamp _); [by apply total_ret|].
    unfold updateSidekickStatus, PatchStatus.
    apply (total_bind _ _ (λ _, True)); [|intros [] _; by apply total_ret].
    total_step; [by split; [|exact I]|]. intros [cur|e] _; [|by apply total_ret].
    total_step; [by split; [|exact I]|]. intros [md|e] _; by apply total_ret.
  - intros [e|] _; [by apply total_ret|]. destruct (HasFinalizer _ _); [|by apply total_ret].
    unfold removePodFinalizer. apply (total_bind _ _ (λ _, True)); [|intros [e|] _; by apply total_ret].
    eapply total_bind; [apply CreateOrPatch_returns|]. intros [] _. by apply total_ret.
Qed.

End Returns.

Import InsertionSort.

Lemma ex_reconcile_sound :
  Forall sound_hub (run_trace serve (Reconcile ex_proc ex_req) ex_orphaned).
Proof.
  assert (He : Forall echoes_status (run_trace serve (Reconcile ex_proc ex_req) ex_orphaned))
    by apply store_trace_echoes.
  assert (Hm : forallb (λ e, match e with
    | Ev op _ => match op with OpOCMGet _ _ => false | OpGet KManifestWork _ => false | _ => true end
    end) (run_trace serve (Reconcile ex_proc ex_req) ex_orphaned) = true) by (vm_compute; reflexivity).
  rewrite forallb_forall in Hm. rewrite Forall_forall in He. apply Forall_forall. intros e Hin.
  split; [by apply He|]. apply list_elem_of_In, Hm in Hin. destruct e as [op r].
  destruct op; try done. by destruct k.
Qed.

