(* ===== verification/Startup.v ===== *)
(** * Start of the process ([pkg/cmds/run.go], [SetupWithManager], [RunGRPCServer])

    The [run] command: its flags, and the sequence of constructions that ends
    with the manager running.  What the process asks of controller-runtime, the
    certificate watcher and the network are the calls of a second instance of
    the programs of [Effects]; [os.Exit] ends the program with its code.  The
    controller handed to the manager carries the handlers and the predicate of
    [Controller]. *)

From Stdlib Require Import QArith.
From S2P Require Import Prelude Effects GoStd Types Cluster Kmodules Codec Token SnapshotServer GrpcWiring Distributed Controller.
Open Scope Z_scope.

(** ** Flags *)

(** The variables [NewCmdRun] binds to flags.  [QPS] is a (finite) float32. *)
Record RunFlags := {
  QPS : Q;
  Burst : Z;
  metricsAddr : string;
  certDir : string;
  enableLeaderElection : bool;
  probeAddr : string;
  secureMetrics : bool;
  enableHTTP2 : bool
}.

Definition default_flags : RunFlags :=
  {| QPS := inject_Z 1000000; Burst := 1000000; metricsAddr := "0"; certDir := "";
     enableLeaderElection := false; probeAddr := ":8081"; secureMetrics := true;
     enableHTTP2 := false |}.

(** A flag value after pflag has parsed its text. *)
Inductive FlagValue := FlagFloat (q : Q) | FlagInt (z : Z) | FlagString (s : string) | FlagBool (b : bool).

(** The variable a flag of the command sets; [None] for an unknown flag or a
    value of another type. *)
Definition set_flag (name : string) (v : FlagValue) (f : RunFlags) : option RunFlags :=
  let '{| QPS := q; Burst := bu; metricsAddr := ma; certDir := cd; enableLeaderElection := le;
          probeAddr := pa; secureMetrics := se; enableHTTP2 := h2 |} := f in
  match v with
  | FlagFloat q' =>
      if String.eqb name "qps" then Some (Build_RunFlags q' bu ma cd le pa se h2) else None
  | FlagInt b' =>
      if String.eqb name "burst" then Some (Build_RunFlags q b' ma cd le pa se h2) else None
  | FlagString s =>
      if String.eqb name "metrics-bind-address" then Some (Build_RunFlags q bu s cd le pa se h2)
      else if String.eqb name "health-probe-bind-address" then Some (Build_RunFlags q bu ma cd le s se h2)
      else if String.eqb name "cert-dir" then Some (Build_RunFlags q bu ma s le pa se h2)
      else None
  | FlagBool b =>
      if String.eqb name "leader-elect" then Some (Build_RunFlags q bu ma cd b pa se h2)
      else if String.eqb name "metrics-secure" then Some (Build_RunFlags q bu ma cd le pa b h2)
      else if String.eqb name "enable-http2" then Some (Build_RunFlags q bu ma cd le pa se b)
      else None
  end.

(** The command line, flag by flag. *)
Fixpoint set_flags (args : list (string * FlagValue)) (f : RunFlags) : option RunFlags :=
  match args with
  | [] => Some f
  | (n, v) :: args' =>
      match set_flag n v f with Some f' => set_flags args' f' | None => None end
  end.

(** ** TLS *)

(** The handle of a certificate watcher. *)
Definition CertWatcher := nat.

(** The fields of [tls.Config] the process sets. *)
Record TLSConfig := { NextProtos : list string; GetCertificate : option CertWatcher }.

Definition disableHTTP2 (c : TLSConfig) : TLSConfig :=
  {| NextProtos := ["http/1.1"]; GetCertificate := GetCertificate c |}.

Definition useCertWatcher (w : CertWatcher) (c : TLSConfig) : TLSConfig :=
  {| NextProtos := NextProtos c; GetCertificate := Some w |}.

(** A server applies its options to its configuration, in order. *)
Definition configure (opts : list (TLSConfig → TLSConfig)) (c : TLSConfig) : TLSConfig :=
  fold_left (λ c f, f c) opts c.

(** ** What the process builds *)

(** [rest.Config], with the fields the command changes. *)
Record RestConfig := { cfg_QPS : Q; cfg_Burst : Z; cfg_Rest : json }.

(** [metricsserver.Options]; the filter is authentication and authorization. *)
Record MetricsOptions := {
  BindAddress : string;
  SecureServing : bool;
  mo_TLSOpts : list (TLSConfig → TLSConfig);
  FilterProvider : bool
}.

Record ManagerOptions := {
  Metrics : MetricsOptions;
  WebhookTLSOpts : list (TLSConfig → TLSConfig);
  HealthProbeBindAddress : string;
  LeaderElection : bool;
  LeaderElectionID : string
}.

(** What [ctrl.NewControllerManagedBy(mgr)] collects before [Complete]. *)
Record ControllerSpec := {
  ForPredicate : Sidekick → bool;
  Owns : list kind;
  Watches : list (kind * (ObjectMeta → M (list NamespacedName)));
  MaxConcurrentReconciles : Z
}.

(** The server of the snapshot service: its replay cache. *)
Record CommandServer := { replay : gmap string Z }.

(** Paths are given as the elements handed to [filepath.Join]. *)
Inductive SetupOp :=
| OpGetConfig
| OpNewCertWatcher (cert key : list string)
| OpNewManager (cfg : RestConfig) (o : ManagerOptions)
| OpNewOCMClient (cfg : RestConfig)
| OpRESTMapping (group kind version : string)
| OpComplete (ctl : ControllerSpec)
| OpAddRunnable (w : CertWatcher)
| OpAddHealthzCheck (name : string)
| OpAddReadyzCheck (name : string)
| OpStart
| OpListen (network address : string)
| OpServe (maxRecvMsgSize : Z) (srv : CommandServer).

(** [GetConfigOrDie] answers [None] when it ends the process itself. *)
Definition SetupAns (op : SetupOp) : Type :=
  match op with
  | OpGetConfig => option RestConfig
  | OpNewCertWatcher _ _ => res CertWatcher
  | OpNewManager _ _ => option error
  | _ => option error
  end.

Definition Setup := prog SetupAns.

Inductive exit_status := Finished | Exited (code : Z).

(** ** SetupWithManager *)

Definition workGroupName : string := "work.open-cluster-management.io".

(** The controller: Sidekicks that are not reconciled yet, their pods, leaders
    and, where the API server knows the kind, ManifestWorks. *)
Definition controller_spec (works : bool) : ControllerSpec :=
  {| ForPredicate := sidekickPredicate;
     Owns := [KPod];
     Watches := (KPod, leaderHandler) :: (if works then [(KManifestWork, mwHandler)] else []);
     MaxConcurrentReconciles := 5 |}.

Definition SetupWithManager : Setup (option error) :=
  err ← call (OpRESTMapping workGroupName "ManifestWork" "v1");
  call (OpComplete (controller_spec (match (err : option error) with None => true | Some _ => false end))).

(** ** NewCmdRun *)

Definition TLSCertKey : string := "tls.crt".
Definition TLSPrivateKeyKey : string := "tls.key".

(** The optional certificate watcher. *)
Definition newCertWatcher (f : RunFlags) : Setup (res (option CertWatcher)) :=
  if String.eqb (certDir f) "" then mret (Ok None)
  else
    r ← call (OpNewCertWatcher [certDir f; TLSCertKey] [certDir f; TLSPrivateKeyKey]);
    match (r : res CertWatcher) with Ok w => mret (Ok (Some w)) | Err e => mret (Err e) end.

(** [tlsOpts], and then [webhookTLSOpts] or [metricsTLSOpts]: both are appended to
    the same slice, which is full, so the second [append] does not write over the
    first. *)
Definition tls_options (f : RunFlags) (w : option CertWatcher) : list (TLSConfig → TLSConfig) :=
  (if enableHTTP2 f then [] else [disableHTTP2]) ++
  match w with Some w => [useCertWatcher w] | None => [] end.

Definition manager_options (f : RunFlags) (w : option CertWatcher) : ManagerOptions :=
  {| Metrics := {| BindAddress := metricsAddr f; SecureServing := secureMetrics f;
                   mo_TLSOpts := tls_options f w; FilterProvider := secureMetrics f |};
     WebhookTLSOpts := tls_options f w;
     HealthProbeBindAddress := probeAddr f;
     LeaderElection := enableLeaderElection f;
     LeaderElectionID := "74b1e3a7.k8s.appscode.com" |}.

(** [if err != nil { os.Exit(1) }] *)
Definition or_exit (p : Setup (option error)) (k : Setup exit_status) : Setup exit_status :=
  err ← p; match (err : option error) with Some _ => mret (Exited 1) | None => k end.

(** From the running manager's point of view: controller, watcher, probes, start. *)
Definition start_manager (w : option CertWatcher) : Setup exit_status :=
  or_exit SetupWithManager (
  or_exit (match w with Some w => call (OpAddRunnable w) | None => mret None end) (
  or_exit (call (OpAddHealthzCheck "healthz")) (
  or_exit (call (OpAddReadyzCheck "readyz")) (
  or_exit (call OpStart) (mret Finished))))).

(** The [Run] function of the command. *)
Definition Run (f : RunFlags) : Setup exit_status :=
  r ← call OpGetConfig;
  match (r : option RestConfig) with
  | None => mret (Exited 1)
  | Some cfg =>
      let cfg := {| cfg_QPS := QPS f; cfg_Burst := Burst f; cfg_Rest := cfg_Rest cfg |} in
      r ← newCertWatcher f;
      match r with
      | Err _ => mret (Exited 1)
      | Ok certWatcher =>
          or_exit (call (OpNewManager cfg (manager_options f certWatcher))) (
          or_exit (call (OpNewOCMClient cfg)) (
          start_manager certWatcher))
      end
  end.

(** ** RunGRPCServer *)

Definition maxRecvMsgBytes : Z := 64 * 1024.

Definition RunGRPCServer : Setup (option error) :=
  err ← call (OpListen "tcp" (":" +:+ pretty GRPCPort));
  match (err : option error) with
  | Some e => mret (Some (WrapError ("failed to listen on :" +:+ pretty GRPCPort +:+ ": ") e))
  | None => call (OpServe maxRecvMsgBytes {| replay := newReplayCache |})
  end.

(** ** Theorems *)

Abbreviation Event := (event SetupAns).

(** The call succeeded. *)
Definition succeeded (e : Event) : bool :=
  match e with
  | Ev op r =>
      match op as op return SetupAns op → bool with
      | OpGetConfig => λ r, match r with Some _ => true | None => false end
      | OpNewCertWatcher _ _ => λ r, match r with Ok _ => true | Err _ => false end
      | OpRESTMapping _ _ _ => λ _, true
      | _ => λ r, match r with None => true | Some _ => false end
      end r
  end.

Definition is_start (e : Event) : bool := match e with Ev OpStart _ => true | _ => false end.

(** The configuration a server of the process ends up with. *)
Definition secured (f : RunFlags) (tr : list Event) (opts : list (TLSConfig → TLSConfig)) : Prop :=
  ∀ c, NextProtos (configure opts c) = (if enableHTTP2 f then NextProtos c else ["http/1.1"]) ∧
    (certDir f = "" → GetCertificate (configure opts c) = GetCertificate c) ∧
    (certDir f ≠ "" → ∃ w cert key, GetCertificate (configure opts c) = Some w ∧
       Ev (OpNewCertWatcher cert key) (Ok w) ∈ tr).

(** The servers a call builds. *)
Definition builds_secured (f : RunFlags) (tr : list Event) (e : Event) : Prop :=
  match e with
  | Ev (OpNewManager _ o) _ =>
      secured f tr (WebhookTLSOpts o) ∧ secured f tr (mo_TLSOpts (Metrics o)) ∧
      SecureServing (Metrics o) = secureMetrics f ∧
      (SecureServing (Metrics o) = true → FilterProvider (Metrics o) = true)
  | _ => True
  end.

(** Everything the manager needs is in place, and nothing failed. *)
Definition ready (f : RunFlags) (tr : list Event) : Prop :=
  forallb succeeded tr = true ∧
  (∃ works, Ev (OpComplete (controller_spec works)) None ∈ tr) ∧
  Ev (OpAddHealthzCheck "healthz") None ∈ tr ∧ Ev (OpAddReadyzCheck "readyz") None ∈ tr ∧
  (certDir f ≠ "" → ∃ w cert key,
     Ev (OpNewCertWatcher cert key) (Ok w) ∈ tr ∧ Ev (OpAddRunnable w) None ∈ tr).

Lemma ready_split f tr tr1 e tr2 b :
  existsb is_start tr = false → ready f tr →
  tr ++ [Ev OpStart b] = tr1 ++ e :: tr2 → is_start e = true → tr2 = [] ∧ ready f tr1.
Proof.
  intros Hno Hr E Hs. destruct tr2 as [|e2 tr2].
  - apply app_inj_tail in E as [-> _]. by split.
  - exfalso. assert (Hin : e ∈ tr).
    { destruct (exists_last (l := e2 :: tr2)) as (l & x & El); [done|]. rewrite El in E.
      rewrite app_comm_cons, app_assoc in E. apply app_inj_tail in E as [-> _].
      apply elem_of_app. right. left. }
    apply not_true_iff_false in Hno. apply Hno, existsb_exists.
    exists e. by rewrite <- list_elem_of_In.
Qed.

Lemma no_start_split (tr tr1 : list Event) e tr2 :
  existsb is_start tr = false → tr = tr1 ++ e :: tr2 → is_start e = true → False.
Proof.
  intros Hno -> Hs. rewrite existsb_app in Hno. apply orb_false_elim in Hno as [_ Hno].
  simpl in Hno. by rewrite Hs in Hno.
Qed.

(** The traces of [Run]: either no start was attempted, something failed and the
    process exited with code 1, or everything was ready and [Start] came last. *)
Definition run_shape (f : RunFlags) (tr : list Event) (o : outcome exit_status) : Prop :=
  existsb is_start tr = false ∧ o = Returned (Exited 1) ∧
    forallb succeeded tr = false ∨
  ∃ tr0 err, tr = tr0 ++ [Ev OpStart err] ∧ existsb is_start tr0 = false ∧ ready f tr0 ∧
    o = Returned (match (err : option error) with None => Finished | Some _ => Exited 1 end).

Ltac in_trace := repeat first [left; reflexivity | right].

(** A leaf of [Run]: exited early, or started with [tr0] behind it. *)
Ltac failed_early := left; split; [reflexivity|split; reflexivity].

Ltac started :=
  right;
  lazymatch goal with
  | |- ex (λ tr0, ex (λ err, ex (λ works, ?tr = _ ∧ _))) =>
      let tr0 := eval cbn in (removelast tr) in exists tr0
  end;
  do 2 eexists; split; [reflexivity|split_and!; [reflexivity|reflexivity|in_trace..| |reflexivity]].

Lemma start_manager_shape w :
  wp (start_manager w) (λ tr o,
    existsb is_start tr = false ∧ o = Returned (Exited 1) ∧ forallb succeeded tr = false ∨
    ∃ tr0 err works, tr = tr0 ++ [Ev OpStart err] ∧ existsb is_start tr0 = false ∧
      forallb succeeded tr0 = true ∧ Ev (OpComplete (controller_spec works)) None ∈ tr0 ∧
      Ev (OpAddHealthzCheck "healthz") None ∈ tr0 ∧ Ev (OpAddReadyzCheck "readyz") None ∈ tr0 ∧
      (∀ x, w = Some x → Ev (OpAddRunnable x) None ∈ tr0) ∧
      o = Returned (match (err : option error) with None => Finished | Some _ => Exited 1 end)).
Proof.
  unfold start_manager, SetupWithManager, or_exit. cbn. intros works [e|]; [failed_early|].
  destruct w as [w|]; cbn; [intros [e|]; [failed_early|]|].
  all: intros [e|]; [failed_early|]; intros [e|]; [failed_early|]; intros [err|].
  1,2: started; intros ? [= ->]; in_trace.
  1,2: by started.
Qed.

(** Calls before [start_manager] that all succeeded do not change the shape. *)
Lemma shape_prefix f pre w :
  existsb is_start pre = false → forallb succeeded pre = true →
  (certDir f ≠ "" → ∃ x cert key, w = Some x ∧ Ev (OpNewCertWatcher cert key) (Ok x) ∈ pre) →
  wp (start_manager w) (λ tr o, run_shape f (pre ++ tr) o).
Proof.
  intros Hs Hok Hw. eapply wp_mono; [|apply start_manager_shape].
  intros tr o [(Hns & -> & Hf)|(tr0 & err & works & -> & Hns & Hok0 & Hc & Hh & Hr & Ha & ->)].
  - left. rewrite existsb_app, forallb_app, Hs, Hok, Hns. done.
  - right. exists (pre ++ tr0), err. rewrite existsb_app, Hs, Hns, app_assoc.
    split_and!; try done. unfold ready. rewrite forallb_app, Hok, Hok0.
    split_and!; try (apply elem_of_app; by right); [done|exists works; apply elem_of_app; by right|].
    intros Hd. destruct (Hw Hd) as (x & cert & key & -> & Hin). exists x, cert, key.
    split; apply elem_of_app; [by left|right; by apply Ha].
Qed.

Lemma Run_shape f : wp (Run f) (run_shape f).
Proof.
  unfold Run, newCertWatcher.
  intros [cfg|]; [|failed_early].
  destruct (String.eqb_spec (certDir f) "") as [Hc|Hc]; [|intros [w|e]; [|failed_early]].
  all: intros [e|]; [failed_early|]; intros [e|]; [failed_early|].
  - eapply (shape_prefix f [_; _; _]); [reflexivity..|]. done.
  - eapply (shape_prefix f [_; _; _; _]); [reflexivity..|].
    intros _. eexists w, _, _. split; [done|]. in_trace.
Qed.

(** C40. The start of the operator is ordered and fails fast: every execution of the
    [run] command ends with the manager having finished or with exit code 1; the
    manager is started at most once, as the last step, after the controller was
    registered with its handlers, both probes were added, the certificate watcher
    was created and added when a directory is given, and no call failed; the
    command finishes normally only if no call failed at all. *)
Theorem startup_fails_fast f tr o :
  exec (Run f) tr o →
  (o = Returned Finished ∨ o = Returned (Exited 1)) ∧
  (o = Returned Finished ↔ forallb succeeded tr = true) ∧
  ∀ tr1 e tr2, tr = tr1 ++ e :: tr2 → is_start e = true → tr2 = [] ∧ ready f tr1.
Proof.
  intros He. destruct (proj1 (wp_exec _ _) (Run_shape f) tr o He)
    as [(Hns & -> & Hf)|(tr0 & err & -> & Hns & Hr & ->)].
  - split; [by right|]. split; [by rewrite Hf|]. intros tr1 e tr2 E Hs.
    by destruct (no_start_split tr tr1 e tr2).
  - split; [destruct err; auto|]. split.
    + rewrite forallb_app, (proj1 Hr). by destruct err.
    + intros tr1 e tr2. by apply ready_split.
Qed.

Lemma secured_options f w tr :
  (certDir f = "" → w = None) →
  (certDir f ≠ "" → ∃ x cert key, w = Some x ∧ Ev (OpNewCertWatcher cert key) (Ok x) ∈ tr) →
  secured f tr (tls_options f w).
Proof.
  intros Hn Hw c. unfold tls_options, configure.
  split_and!; [destruct (enableHTTP2 f), w; reflexivity|intros Hc|intros Hc].
  - rewrite (Hn Hc). by destruct (enableHTTP2 f).
  - destruct (Hw Hc) as (x & cert & key & -> & Hin). exists x, cert, key.
    split; [by destruct (enableHTTP2 f)|done].
Qed.

(** Only the creation of the manager builds servers. *)
Lemma start_manager_builds f tr0 w :
  wp (start_manager w) (λ tr _, Forall (builds_secured f tr0) tr).
Proof.
  unfold start_manager, SetupWithManager, or_exit. cbn.
  intros works [e|]; [by repeat constructor|].
  destruct w as [w|]; cbn; [intros [e|]; [by repeat constructor|]|].
  all: repeat (intros [e|]; [by repeat constructor|]); by repeat constructor.
Qed.

(** Only the manager's event has something to show. *)
Ltac built Hm :=
  repeat (apply Forall_cons; split; [first [exact I | apply Hm; [congruence|first [done|eauto]]]|]); try apply Forall_nil_2.

Lemma Run_builds f : wp (Run f) (λ tr _, Forall (builds_secured f tr) tr).
Proof.
  unfold Run, newCertWatcher.
  intros [cfg|]; [|by repeat constructor].
  destruct (String.eqb_spec (certDir f) "") as [Hc|Hc]; [|intros [w|e]; [|by repeat constructor]].
  all: intros r; assert (Hm : ∀ w tr, (certDir f = "" → w = None) →
    (certDir f ≠ "" → ∃ x cert key, w = Some x ∧ Ev (OpNewCertWatcher cert key) (Ok x) ∈ tr) →
    builds_secured f tr (Ev (OpNewManager {| cfg_QPS := QPS f; cfg_Burst := Burst f;
       cfg_Rest := cfg_Rest cfg |} (manager_options f w)) r))
    by (intros; split_and!; [by apply secured_options..|done|done]).
  - destruct r as [e|]; [built Hm|].
    intros [e|]; [built Hm|].
    apply wp_exec. intros tr o He.
    built Hm. exact (proj1 (wp_exec _ _) (start_manager_builds f _ None) tr o He).
  - assert (Hin : ∀ tr : list Event, certDir f ≠ "" → ∃ x cert key, Some w = Some x ∧
      Ev (OpNewCertWatcher cert key) (Ok x) ∈ (Ev OpGetConfig (Some cfg) : Event) ::
        Ev (OpNewCertWatcher [certDir f; TLSCertKey] [certDir f; TLSPrivateKeyKey]) (Ok w : SetupAns (OpNewCertWatcher _ _)) :: tr)
      by (intros tr _; eexists w, _, _; split; [done|]; in_trace).
    destruct r as [e|]; [built Hm|].
    intros [e|]; [built Hm|].
    apply wp_exec. intros tr o He.
    built Hm. exact (proj1 (wp_exec _ _) (start_manager_builds f _ (Some w)) tr o He).
Qed.

(** A flag changes no variable but its own. *)
Lemma set_flag_frame n v f f' :
  set_flag n v f = Some f' →
  (enableHTTP2 f' = enableHTTP2 f ∨ (n = "enable-http2" ∧ v = FlagBool (enableHTTP2 f'))) ∧
  (secureMetrics f' = secureMetrics f ∨ (n = "metrics-secure" ∧ v = FlagBool (secureMetrics f'))).
Proof.
  destruct f, v; simpl; intros Hs;
    repeat match type of Hs with
    | context [String.eqb n ?x] => destruct (String.eqb_spec n x)
    end; simplify_eq/=; auto.
Qed.

Lemma set_flags_frame args f f' :
  set_flags args f = Some f' →
  (enableHTTP2 f' = enableHTTP2 f ∨ ("enable-http2", FlagBool (enableHTTP2 f')) ∈ args) ∧
  (secureMetrics f' = secureMetrics f ∨ ("metrics-secure", FlagBool (secureMetrics f')) ∈ args).
Proof.
  revert f. induction args as [|[n v] args IH]; simpl; intros f Hs; [simplify_eq; auto|].
  destruct (set_flag n v f) as [f1|] eqn:E; [|done].
  destruct (IH _ Hs) as [H1 H2]. destruct (set_flag_frame _ _ _ _ E) as [F1 F2].
  rewrite !elem_of_cons. split.
  - destruct H1 as [H1|]; [|auto]. rewrite H1. destruct F1 as [|[-> ->]]; auto.
  - destruct H2 as [H2|]; [|auto]. rewrite H2. destruct F2 as [|[-> ->]]; auto.
Qed.

(** Every server of the process is configured as the flags say: in any execution
    the webhook and the metrics server speak only HTTP/1.1 unless HTTP/2 was
    enabled, take their certificates from the watcher created for the directory
    given (and otherwise leave them alone), and metrics served securely are behind
    authentication and authorization.  HTTP/2 is enabled only by its own flag. *)
Theorem servers_secured args f tr o :
  set_flags args default_flags = Some f →
  exec (Run f) tr o →
  Forall (builds_secured f tr) tr ∧
  (("enable-http2", FlagBool true) ∉ args → enableHTTP2 f = false) ∧
  (("metrics-secure", FlagBool false) ∉ args → secureMetrics f = true).
Proof.
  intros Hf He. split; [exact (proj1 (wp_exec _ _) (Run_builds f) tr o He)|].
  destruct (set_flags_frame _ _ _ Hf) as [H1 H2]. split; intros Hn.
  - destruct (enableHTTP2 f) eqn:E; [|done]. by destruct H1.
  - destruct (secureMetrics f) eqn:E; [done|]. by destruct H2.
Qed.

(** ** Witnesses *)

(** An environment that grants every call. *)
Definition grant (op : SetupOp) (w : unit) : SetupAns op * unit :=
  (match op as op return SetupAns op with
   | OpGetConfig => Some {| cfg_QPS := inject_Z 20; cfg_Burst := 30; cfg_Rest := JNull |}
   | OpNewCertWatcher _ _ => Ok 7%nat
   | _ => None
   end, w).

Definition ex_args : list (string * FlagValue) :=
  [("cert-dir", FlagString "/certs"); ("leader-elect", FlagBool true)].

Definition ex_flags : RunFlags := default (default_flags) (set_flags ex_args default_flags).

Lemma startup_fails_fast_witness :
  (run grant (Run ex_flags) tt).1 = Returned Finished ∧
  (∀ tr1 e tr2, run_trace grant (Run ex_flags) tt = tr1 ++ e :: tr2 → is_start e = true →
     tr2 = [] ∧ ready ex_flags tr1) ∧
  existsb is_start (run_trace grant (Run ex_flags) tt) = true.
Proof.
  destruct (startup_fails_fast ex_flags (run_trace grant (Run ex_flags) tt)
              (run grant (Run ex_flags) tt).1 (run_exec grant _ tt)) as (_ & Hf & Hs).
  split; [by apply Hf|]. split; [exact Hs|reflexivity].
Defined.

Lemma servers_secured_witness :
  set_flags ex_args default_flags = Some ex_flags ∧
  Forall (builds_secured ex_flags (run_trace grant (Run ex_flags) tt)) (run_trace grant (Run ex_flags) tt) ∧
  enableHTTP2 ex_flags = false ∧ secureMetrics ex_flags = true.
Proof.
  split; [reflexivity|].
  destruct (servers_secured ex_args ex_flags (run_trace grant (Run ex_flags) tt)
              (run grant (Run ex_flags) tt).1 eq_refl (run_exec grant _ tt)) as (Hb & H1 & H2).
  split; [exact Hb|split; [apply H1|apply H2]]; unfold ex_args;
    by intros [?|[?|[]%elem_of_nil]%elem_of_cons]%elem_of_cons.
Defined.
