(* ===== verification/Protobuf.v ===== *)
(** * Protocol buffers ([google.golang.org/protobuf], as vendored)

    The wire format and the fast-path codec of a message, as far as the messages of
    [grpc/protogen/api.pb.go] use it: fields of kind [string] and [bytes].  A
    message is the list of the values of its fields, in the order of their
    descriptors, and the bytes of the fields it does not know. *)

From S2P Require Import Prelude GoStd Codec Token.

(** ** Bytes *)

Definition byteZ (c : ascii) : Z := Z.of_N (byte_of c).
Definition to_byte (z : Z) : ascii := ascii_of_N (Z.to_N z).

(** ** [encoding/protowire] *)

Definition MinValidNumber : Z := 1.
Definition MaxValidNumber : Z := 2 ^ 29 - 1.
Definition DefaultRecursionLimit : Z := 10000.

Definition VarintType : Z := 0.
Definition Fixed64Type : Z := 1.
Definition BytesType : Z := 2.
Definition StartGroupType : Z := 3.
Definition EndGroupType : Z := 4.
Definition Fixed32Type : Z := 5.

(** The negative lengths the parsers return; [errCodeFuel] is none of theirs. *)
Inductive parse_error :=
| errCodeTruncated
| errCodeFieldNumber
| errCodeOverflow
| errCodeReserved
| errCodeEndGroup
| errCodeRecursionDepth
| errCodeFuel.

#[export] Instance parse_error_eq_dec : EqDecision parse_error.
Proof. solve_decision. Defined.

(** A parser returns its value and the bytes that follow. *)
Definition parsed (A : Type) : Type := parse_error + (A * string).

(** The cases of the switch, one byte for each seven bits; a [uint64] needs at most
    ten. *)
Fixpoint append_varint (n : nat) (v : Z) : string :=
  match n with
  | O => ""
  | S n =>
      if v <? 128 then String (to_byte v) ""
      else String (to_byte (Z.lor (Z.land v 127) 128)) (append_varint n (Z.shiftr v 7))
  end.

Definition AppendVarint (b : string) (v : Z) : string := b +:+ append_varint 10 v.

(** Byte after byte; of the tenth only one bit is left. *)
Fixpoint consume_varint (n : nat) (shift v : Z) (b : string) : parsed Z :=
  match b with
  | "" => inl errCodeTruncated
  | String c b =>
      let y := byteZ c in
      match n with
      | O => if y <? 2 then inr (v + Z.shiftl y shift, b) else inl errCodeOverflow
      | S n =>
          if y <? 128 then inr (v + Z.shiftl y shift, b)
          else consume_varint n (shift + 7) (v + Z.shiftl y shift - Z.shiftl 128 shift) b
      end
  end.

Definition ConsumeVarint (b : string) : parsed Z := consume_varint 9 0 0 b.

Definition EncodeTag (num typ : Z) : Z := Z.lor (Z.shiftl num 3) (Z.land typ 7).
Definition DecodeTag (x : Z) : Z * Z :=
  if 2 ^ 31 - 1 <? Z.shiftr x 3 then (-1, 0) else (Z.shiftr x 3, Z.land x 7).

Definition AppendTag (b : string) (num typ : Z) : string := AppendVarint b (EncodeTag num typ).

Definition ConsumeTag (b : string) : parsed (Z * Z) :=
  match ConsumeVarint b with
  | inl e => inl e
  | inr (v, b) =>
      let '(num, typ) := DecodeTag v in
      if num <? MinValidNumber then inl errCodeFieldNumber else inr ((num, typ), b)
  end.

Definition AppendBytes (b v : string) : string := AppendVarint b (go_len v) +:+ v.

Definition ConsumeBytes (b : string) : parsed string :=
  match ConsumeVarint b with
  | inl e => inl e
  | inr (m, b) =>
      if go_len b <? m then inl errCodeTruncated
      else inr (str_take (Z.to_nat m) b, str_drop (Z.to_nat m) b)
  end.

(** [ConsumeFixed32], [ConsumeFixed64]: only the length matters. *)
Definition consume_fixed (n : nat) (b : string) : parse_error + string :=
  if (String.length b <? n)%nat then inl errCodeTruncated else inr (str_drop n b).

(** The loop of [consumeFieldValueD] over the fields of a group; every round takes at
    least the byte of a tag. *)
Fixpoint consume_group (skip : Z → Z → string → parse_error + string) (num : Z) (n : nat) (b : string)
    : parse_error + string :=
  match n with
  | O => inl errCodeFuel
  | S n =>
      match ConsumeTag b with
      | inl e => inl e
      | inr ((num2, typ2), b) =>
          if typ2 =? EndGroupType then
            if negb (num =? num2) then inl errCodeEndGroup else inr b
          else
            match skip num2 typ2 b with
            | inl e => inl e
            | inr b => consume_group skip num n b
            end
      end
  end.

(** What follows the value of a field. *)
Fixpoint consumeFieldValueD (fuel : nat) (depth num typ : Z) (b : string) : parse_error + string :=
  match fuel with
  | O => inl errCodeFuel
  | S fuel =>
      if typ =? VarintType then
        match ConsumeVarint b with inl e => inl e | inr (_, b) => inr b end
      else if typ =? Fixed32Type then consume_fixed 4 b
      else if typ =? Fixed64Type then consume_fixed 8 b
      else if typ =? BytesType then
        match ConsumeBytes b with inl e => inl e | inr (_, b) => inr b end
      else if typ =? StartGroupType then
        if depth <? 0 then inl errCodeRecursionDepth
        else consume_group (λ num typ b, consumeFieldValueD fuel (depth - 1) num typ b) num (S (String.length b)) b
      else if typ =? EndGroupType then inl errCodeEndGroup
      else inl errCodeReserved
  end.

Definition ConsumeFieldValue (num typ : Z) (b : string) : parse_error + string :=
  consumeFieldValueD (S (String.length b)) DefaultRecursionLimit num typ b.

(** ** The codec of a message ([internal/impl]) *)

Inductive fieldKind := StringKind | BytesKind.

(** [coderFieldInfo]: the number of a field and its coder. *)
Record coderFieldInfo := { cf_num : Z; cf_kind : fieldKind }.

Definition wiretag (f : coderFieldInfo) : Z := EncodeTag (cf_num f) BytesType.

Record message := { m_values : list string; m_unknown : string }.

Inductive proto_error := errDecode | errInvalidUTF8 | errFuel.

(** [appendStringNoZeroValidateUTF8] and [appendBytesNoZero]. *)
Definition append_field (f : coderFieldInfo) (b v : string) : proto_error + string :=
  if String.eqb v "" then inr b
  else
    let b := AppendBytes (AppendVarint b (wiretag f)) v in
    match cf_kind f with
    | StringKind => if UTF8.ValidString v then inr b else inl errInvalidUTF8
    | BytesKind => inr b
    end.

(** The loop of [marshalAppendPointer] over the fields. *)
Fixpoint append_fields (fs : list coderFieldInfo) (vs : list string) (b : string) : proto_error + string :=
  match fs, vs with
  | f :: fs, v :: vs =>
      match append_field f b v with
      | inl e => inl e
      | inr b => append_fields fs vs b
      end
  | _, _ => inr b
  end.

Definition marshalAppendPointer (fs : list coderFieldInfo) (m : message) : proto_error + string :=
  match append_fields fs (m_values m) "" with
  | inl e => inl e
  | inr b => inr (b +:+ m_unknown m)
  end.

(** The field of a number, with its position. *)
Fixpoint find_field (fs : list coderFieldInfo) (num : Z) : option (nat * coderFieldInfo) :=
  match fs with
  | [] => None
  | f :: fs =>
      if cf_num f =? num then Some (0%nat, f)
      else match find_field fs num with Some (i, f) => Some (S i, f) | None => None end
  end.

(** An unknown field, or a known one of another wire type, is kept as it is. *)
Definition keep_unknown (m : message) (num wtyp : Z) (b : string) : proto_error + (message * string) :=
  match ConsumeFieldValue num wtyp b with
  | inl errCodeFuel => inl errFuel
  | inl _ => inl errDecode
  | inr rest =>
      inr ({| m_values := m_values m;
              m_unknown := AppendTag (m_unknown m) num wtyp
                             +:+ str_take (String.length b - String.length rest) b |}, rest)
  end.

(** One round of the loop of [unmarshalPointerEager].  Its two fast paths for tags
    are the first two cases of [ConsumeVarint]. *)
Definition unmarshal_field (fs : list coderFieldInfo) (m : message) (b : string)
    : proto_error + (message * string) :=
  match ConsumeVarint b with
  | inl _ => inl errDecode
  | inr (tag, b) =>
      let num := Z.shiftr tag 3 in
      if (num <? MinValidNumber) || (MaxValidNumber <? num) then inl errDecode
      else
        let wtyp := Z.land tag 7 in
        if wtyp =? EndGroupType then inl errDecode
        else
          match find_field fs num with
          | Some (i, f) =>
              if negb (wtyp =? BytesType) then keep_unknown m num wtyp b
              else
                match ConsumeBytes b with
                | inl _ => inl errDecode
                | inr (v, b) =>
                    let m := {| m_values := <[i := v]> (m_values m); m_unknown := m_unknown m |} in
                    match cf_kind f with
                    | StringKind => if UTF8.ValidString v then inr (m, b) else inl errInvalidUTF8
                    | BytesKind => inr (m, b)
                    end
                end
          | None => keep_unknown m num wtyp b
          end
  end.

Fixpoint unmarshal_loop (fuel : nat) (fs : list coderFieldInfo) (m : message) (b : string)
    : proto_error + message :=
  match b with
  | "" => inr m
  | _ =>
      match fuel with
      | O => inl errFuel
      | S fuel =>
          match unmarshal_field fs m b with
          | inl e => inl e
          | inr (m, b) => unmarshal_loop fuel fs m b
          end
      end
  end.

Definition unmarshalPointerEager (fs : list coderFieldInfo) (m : message) (b : string)
    : proto_error + message :=
  unmarshal_loop (String.length b) fs m b.

(** [proto.Unmarshal] resets the message first. *)
Definition zero_message (fs : list coderFieldInfo) : message :=
  {| m_values := map (λ _, "") fs; m_unknown := "" |}.
Definition Unmarshal (fs : list coderFieldInfo) (b : string) : proto_error + message :=
  unmarshalPointerEager fs (zero_message fs) b.

(** 624485, the customary example. *)
Example varint_624485 :
  AppendVarint "" 624485 = String "229" (String "142" (String "038" "")) ∧
  ConsumeVarint (AppendVarint "" 624485) = inr (624485, "") ∧
  ConsumeVarint (AppendVarint "" (2 ^ 64 - 1)) = inr (2 ^ 64 - 1, "").
Proof. vm_compute. done. Qed.
