(* ===== verification/ProtobufProps.v ===== *)
(** * The codec of protocol buffers: fuel, concatenation, round trip *)

From S2P Require Import Prelude GoStd Codec Token Protobuf.

(** ** Varints *)

Lemma byteZ_to_byte z : 0 ≤ z < 256 → byteZ (to_byte z) = z.
Proof.
  intros Hz. unfold byteZ, to_byte, byte_of. rewrite N_ascii_embedding by lia. lia.
Qed.

Lemma byteZ_range c : 0 ≤ byteZ c < 256.
Proof. unfold byteZ. pose proof (byte_of_range c). lia. Qed.

(** The low seven bits with the continuation bit. *)
Lemma continued v : 0 ≤ v → Z.lor (Z.land v 127) 128 = v mod 128 + 128.
Proof.
  intros Hv. change 127 with (Z.ones 7). rewrite Z.land_ones by lia. change (2 ^ 7) with 128.
  assert (Hz : Z.land (v mod 128) (2 ^ 7) = 0).
  { apply Z.bits_inj'. intros n Hn. rewrite Z.land_spec, Z.bits_0, Z.pow2_bits_eqb by lia.
    destruct (Z.eqb_spec 7 n) as [<-|]; [|by rewrite andb_false_r].
    change 128 with (2 ^ 7). by rewrite Z.mod_pow2_bits_high by lia. }
  pose proof (Z.add_lor_land (v mod 128) (2 ^ 7)) as Ha. change (2 ^ 7) with 128 in *. lia.
Qed.

Lemma append_varint_S n v :
  append_varint (S n) v =
  if v <? 128 then String (to_byte v) ""
  else String (to_byte (Z.lor (Z.land v 127) 128)) (append_varint n (Z.shiftr v 7)).
Proof. done. Qed.

(** Reading back a varint. *)
Lemma consume_append n shift acc v rest :
  0 ≤ shift → shift + 7 * Z.of_nat n = 63 → 0 ≤ v < 2 ^ (64 - shift) →
  consume_varint n shift acc (append_varint (S n) v +:+ rest) = inr (acc + Z.shiftl v shift, rest).
Proof.
  revert shift acc v. induction n as [|n IH]; intros shift acc v Hs Hn Hv.
  - assert (shift = 63) as -> by lia. change (2 ^ (64 - 63)) with 2 in Hv. rewrite append_varint_S.
    destruct (Z.ltb_spec v 128); [|lia]. rewrite str_app_cons. cbn [consume_varint].
    rewrite byteZ_to_byte by lia. destruct (Z.ltb_spec v 2); [done|lia].
  - rewrite append_varint_S. destruct (Z.ltb_spec v 128) as [Hlt|Hge]; rewrite str_app_cons; cbn [consume_varint].
    + rewrite byteZ_to_byte by lia. by destruct (Z.ltb_spec v 128); [|lia].
    + rewrite continued by lia. pose proof (Z.mod_pos_bound v 128).
      rewrite byteZ_to_byte by lia. destruct (Z.ltb_spec (v mod 128 + 128) 128); [lia|].
      rewrite (IH (shift + 7)); [|lia|lia|].
      * f_equal. f_equal. rewrite !Z.shiftl_mul_pow2, Z.shiftr_div_pow2, Z.pow_add_r by lia.
        rewrite (Z.div_mod v 128) at 3 by lia. change (2 ^ 7) with 128. ring.
      * rewrite Z.shiftr_div_pow2 by lia. change (2 ^ 7) with 128.
        replace (64 - shift) with (64 - (shift + 7) + 7) in Hv by lia. rewrite Z.pow_add_r in Hv by lia.
        change (2 ^ 7) with 128 in Hv. split; [apply Z.div_pos; lia|apply Z.div_lt_upper_bound; lia].
Qed.

Lemma ConsumeVarint_append v rest :
  0 ≤ v < 2 ^ 64 → ConsumeVarint (append_varint 10 v +:+ rest) = inr (v, rest).
Proof.
  intros Hv. unfold ConsumeVarint. rewrite (consume_append 9 0 0) by (simpl; lia). by rewrite Z.shiftl_0_r.
Qed.

(** What follows is not looked at, and at least one byte is consumed. *)
Lemma consume_varint_spec n shift acc b v rest :
  consume_varint n shift acc b = inr (v, rest) →
  (String.length rest < String.length b)%nat ∧
  ∀ t, consume_varint n shift acc (b +:+ t) = inr (v, rest +:+ t).
Proof.
  revert shift acc b. induction n as [|n IH]; intros shift acc [|c b] E; simpl in E; try done;
    (destruct (_ <? _) eqn:El; [injection E as <- <-; split; [simpl; lia|]; intros t; rewrite str_app_cons; simpl; by rewrite El|]).
  - done.
  - destruct (IH _ _ _ E) as [Hl Ht]. split; [simpl; lia|]. intros t. rewrite str_app_cons. simpl. by rewrite El, Ht.
Qed.

Lemma ConsumeVarint_spec b v rest :
  ConsumeVarint b = inr (v, rest) →
  (String.length rest < String.length b)%nat ∧ ∀ t, ConsumeVarint (b +:+ t) = inr (v, rest +:+ t).
Proof. apply consume_varint_spec. Qed.

(** The decoded value is not negative. *)
Lemma consume_varint_nonneg n shift acc b v rest :
  0 ≤ shift → 0 ≤ acc → consume_varint n shift acc b = inr (v, rest) → 0 ≤ v.
Proof.
  revert shift acc b. induction n as [|n IH]; intros shift acc [|c b] Hs Ha E; simpl in E; try done;
    pose proof (byteZ_range c) as Hc; pose proof (proj2 (Z.shiftl_nonneg (byteZ c) shift)) as Hy;
    destruct (_ <? _) eqn:El; try (injection E as <- <-; lia); try done.
  apply (IH (shift + 7)) in E; [done|lia|].
  apply Z.ltb_ge in El. rewrite !Z.shiftl_mul_pow2 in * by lia. pose proof (Z.pow_pos_nonneg 2 shift). nia.
Qed.

(** ** Values of fields *)

Lemma str_take_app_le n a t : (n ≤ String.length a)%nat → str_take n (a +:+ t) = str_take n a.
Proof.
  unfold str_take. revert a. induction n as [|n IH]; intros [|c a] Hn; simpl in *; [by destruct t|done|lia|].
  by rewrite IH by lia.
Qed.

Lemma str_drop_app_le n a t : (n ≤ String.length a)%nat → str_drop n (a +:+ t) = str_drop n a +:+ t.
Proof.
  revert a. induction n as [|n IH]; intros [|c a] Hn; simpl in *; [done..|lia|].
  by rewrite IH by lia.
Qed.

Lemma str_drop_length n a : String.length (str_drop n a) = (String.length a - n)%nat.
Proof. revert a. induction n as [|n IH]; intros [|c a]; simpl; [done..|]. apply IH. Qed.

(** What a parser promises: it consumes, and does not look at what follows. *)
Definition consumes {A} (p : string → parsed A) : Prop :=
  ∀ b v rest, p b = inr (v, rest) →
    (String.length rest < String.length b)%nat ∧ ∀ t, p (b +:+ t) = inr (v, rest +:+ t).

Lemma ConsumeVarint_consumes : consumes ConsumeVarint.
Proof. exact ConsumeVarint_spec. Qed.

Lemma ConsumeTag_consumes : consumes ConsumeTag.
Proof.
  intros b [num typ] rest. unfold ConsumeTag. destruct (ConsumeVarint b) as [|[v b']] eqn:Ev; [done|].
  destruct (ConsumeVarint_spec _ _ _ Ev) as [Hl Ht]. destruct (DecodeTag v) as [n ty] eqn:Ed.
  destruct (_ <? _) eqn:El; [done|]. intros [= <- <- <-]. split; [done|]. intros t. by rewrite Ht, Ed, El.
Qed.

Lemma ConsumeBytes_consumes : consumes ConsumeBytes.
Proof.
  intros b v rest. unfold ConsumeBytes. destruct (ConsumeVarint b) as [|[m b']] eqn:Ev; [done|].
  destruct (ConsumeVarint_spec _ _ _ Ev) as [Hl Ht]. destruct (Z.ltb_spec (go_len b') m) as [|Hge]; [done|].
  intros [= <- <-]. split; [rewrite str_drop_length; lia|]. intros t. rewrite Ht. unfold go_len in *.
  rewrite str_length_app. destruct (Z.ltb_spec (Z.of_nat (String.length b' + String.length t)) m); [lia|].
  by rewrite str_take_app_le, str_drop_app_le by lia.
Qed.

Lemma ConsumeBytes_append v rest :
  go_len v < 2 ^ 64 → ConsumeBytes (AppendBytes "" v +:+ rest) = inr (v, rest).
Proof.
  intros Hv. unfold ConsumeBytes, AppendBytes, AppendVarint. rewrite str_app_assoc.
  change ("" +:+ append_varint 10 (go_len v)) with (append_varint 10 (go_len v)).
  rewrite ConsumeVarint_append by (unfold go_len in *; lia). unfold go_len. rewrite str_length_app.
  destruct (Z.ltb_spec (Z.of_nat (String.length v + String.length rest)) (Z.of_nat (String.length v))); [lia|].
  by rewrite Nat2Z.id, str_take_app, str_drop_app.
Qed.

Lemma consume_fixed_spec n b rest :
  consume_fixed n b = inr rest →
  (String.length rest ≤ String.length b)%nat ∧ ∀ t, consume_fixed n (b +:+ t) = inr (rest +:+ t).
Proof.
  unfold consume_fixed. destruct (Nat.ltb_spec (String.length b) n) as [|Hge]; [done|]. intros [= <-].
  split; [rewrite str_drop_length; lia|]. intros t. rewrite str_length_app.
  destruct (Nat.ltb_spec (String.length b + String.length t) n); [lia|]. by rewrite str_drop_app_le.
Qed.

(** The same for what skips a value; [skip'] may have more fuel. *)
Definition skips (skip skip' : Z → Z → string → parse_error + string) : Prop :=
  ∀ num typ b rest, skip num typ b = inr rest →
    (String.length rest ≤ String.length b)%nat ∧ ∀ t, skip' num typ (b +:+ t) = inr (rest +:+ t).

Lemma consume_group_spec skip skip' num n b rest :
  skips skip skip' → consume_group skip num n b = inr rest →
  (String.length rest ≤ String.length b)%nat ∧
  ∀ t n', (n ≤ n')%nat → consume_group skip' num n' (b +:+ t) = inr (rest +:+ t).
Proof.
  intros Hs. revert b. induction n as [|n IH]; intros b E; simpl in E; [done|].
  destruct (ConsumeTag b) as [|[[num2 typ2] b1]] eqn:Et; [done|].
  destruct (ConsumeTag_consumes _ _ _ Et) as [Hl Ht]. destruct (typ2 =? EndGroupType) eqn:Ee.
  - destruct (negb (num =? num2)) eqn:En; [done|]. injection E as <-. split; [lia|].
    intros t [|n'] Hn; [lia|]. simpl. by rewrite Ht, Ee, En.
  - destruct (skip num2 typ2 b1) as [|b2] eqn:Eb; [done|]. destruct (Hs _ _ _ _ Eb) as [Hl2 Ht2].
    destruct (IH _ E) as [Hl3 Ht3]. split; [lia|]. intros t [|n'] Hn; [lia|]. simpl.
    rewrite Ht, Ee, Ht2. apply Ht3. lia.
Qed.

Lemma consumeFieldValueD_spec fuel fuel' depth :
  (fuel ≤ fuel')%nat → skips (consumeFieldValueD fuel depth) (consumeFieldValueD fuel' depth).
Proof.
  revert fuel' depth. induction fuel as [|fuel IH]; intros fuel' depth Hf num typ b rest E; cbn [consumeFieldValueD] in E; [done|].
  destruct fuel' as [|fuel']; [lia|]. cbn [consumeFieldValueD]. destruct (typ =? VarintType).
  { destruct (ConsumeVarint b) as [|[v b1]] eqn:Ev; [done|]. injection E as <-.
    destruct (ConsumeVarint_spec _ _ _ Ev) as [Hl Ht]. split; [lia|]. intros t. by rewrite Ht. }
  destruct (typ =? Fixed32Type); [by apply consume_fixed_spec|].
  destruct (typ =? Fixed64Type); [by apply consume_fixed_spec|]. destruct (typ =? BytesType).
  { destruct (ConsumeBytes b) as [|[v b1]] eqn:Ev; [done|]. injection E as <-.
    destruct (ConsumeBytes_consumes _ _ _ Ev) as [Hl Ht]. split; [lia|]. intros t. by rewrite Ht. }
  destruct (typ =? StartGroupType); [|by destruct (_ =? _)]. destruct (_ <? _); [done|].
  destruct (consume_group_spec _ _ _ _ _ _ (IH fuel' (depth - 1) ltac:(lia)) E) as [Hl Ht].
  split; [done|]. intros t. apply Ht. rewrite str_length_app. lia.
Qed.

(** *** Fuel *)

Lemma ConsumeVarint_no_fuel b : ConsumeVarint b ≠ inl errCodeFuel.
Proof.
  unfold ConsumeVarint. generalize 0 at 2 as acc. generalize 0 as shift. generalize 9%nat as n.
  intros n. revert b. induction n as [|n IH]; intros [|c b] shift acc; simpl; try done; destruct (_ <? _); done || apply IH.
Qed.

Lemma ConsumeTag_no_fuel b : ConsumeTag b ≠ inl errCodeFuel.
Proof.
  unfold ConsumeTag. pose proof (ConsumeVarint_no_fuel b) as Hv. destruct (ConsumeVarint b) as [|[v b']]; [congruence|].
  destruct (DecodeTag v). by destruct (_ <? _).
Qed.

Lemma ConsumeBytes_no_fuel b : ConsumeBytes b ≠ inl errCodeFuel.
Proof.
  unfold ConsumeBytes. pose proof (ConsumeVarint_no_fuel b) as Hv. destruct (ConsumeVarint b) as [|[v b']]; [congruence|].
  by destruct (_ <? _).
Qed.

Lemma consume_group_no_fuel skip num n b :
  (String.length b < n)%nat → skips skip skip →
  (∀ num typ b', (String.length b' < String.length b)%nat → skip num typ b' ≠ inl errCodeFuel) →
  consume_group skip num n b ≠ inl errCodeFuel.
Proof.
  intros Hn Hs. revert b Hn. induction n as [|n IH]; intros b Hn Hk; [lia|]. simpl.
  pose proof (ConsumeTag_no_fuel b) as Htag. destruct (ConsumeTag b) as [|[[num2 typ2] b1]] eqn:Et; [congruence|].
  destruct (ConsumeTag_consumes _ _ _ Et) as [Hl _]. destruct (typ2 =? EndGroupType); [by destruct (negb _)|].
  pose proof (Hk num2 typ2 b1 Hl) as Hv. destruct (skip num2 typ2 b1) as [|b2] eqn:Eb; [congruence|].
  destruct (Hs _ _ _ _ Eb) as [Hl2 _]. apply IH; [lia|]. intros num3 typ3 b3 Hl3. apply Hk. lia.
Qed.

Lemma consumeFieldValueD_no_fuel fuel depth num typ b :
  (String.length b < fuel)%nat → consumeFieldValueD fuel depth num typ b ≠ inl errCodeFuel.
Proof.
  revert depth num typ b. induction fuel as [|fuel IH]; intros depth num typ b Hf; [lia|]. cbn [consumeFieldValueD].
  destruct (typ =? VarintType).
  { pose proof (ConsumeVarint_no_fuel b). destruct (ConsumeVarint b) as [|[? ?]]; congruence. }
  destruct (typ =? Fixed32Type); [unfold consume_fixed; by destruct (_ <? _)%nat|].
  destruct (typ =? Fixed64Type); [unfold consume_fixed; by destruct (_ <? _)%nat|]. destruct (typ =? BytesType).
  { pose proof (ConsumeBytes_no_fuel b). destruct (ConsumeBytes b) as [|[? ?]]; congruence. }
  destruct (typ =? StartGroupType); [|by destruct (_ =? _)]. destruct (_ <? _); [done|].
  apply consume_group_no_fuel; [lia|by apply consumeFieldValueD_spec|]. intros num' typ' b' Hl. apply IH. lia.
Qed.

(** ** Messages *)

Lemma keep_unknown_spec m num wtyp b m' rest :
  keep_unknown m num wtyp b = inr (m', rest) →
  (String.length rest ≤ String.length b)%nat ∧ ∀ t, keep_unknown m num wtyp (b +:+ t) = inr (m', rest +:+ t).
Proof.
  unfold keep_unknown, ConsumeFieldValue. destruct (consumeFieldValueD _ _ _ _ b) as [[]|b1] eqn:E; try done.
  intros [= <- <-]. destruct (consumeFieldValueD_spec _ (S (String.length b)) _ (Nat.le_refl _) _ _ _ _ E) as [Hl _].
  split; [done|]. intros t.
  assert (Hf : (S (String.length b) ≤ S (String.length (b +:+ t)))%nat) by (rewrite str_length_app; lia).
  destruct (consumeFieldValueD_spec _ _ DefaultRecursionLimit Hf _ _ _ _ E) as [_ Ht].
  rewrite Ht, !str_length_app.
  replace (String.length b + String.length t - (String.length b1 + String.length t))%nat
    with (String.length b - String.length b1)%nat by lia.
  by rewrite str_take_app_le by lia.
Qed.

Lemma keep_unknown_no_fuel m num wtyp b : keep_unknown m num wtyp b ≠ inl errFuel.
Proof.
  unfold keep_unknown, ConsumeFieldValue.
  pose proof (consumeFieldValueD_no_fuel (S (String.length b)) DefaultRecursionLimit num wtyp b (Nat.lt_succ_diag_r _)).
  destruct (consumeFieldValueD _ _ _ _ b) as [[]|]; congruence.
Qed.

Lemma unmarshal_field_spec fs m b m' rest :
  unmarshal_field fs m b = inr (m', rest) →
  (String.length rest < String.length b)%nat ∧ ∀ t, unmarshal_field fs m (b +:+ t) = inr (m', rest +:+ t).
Proof.
  unfold unmarshal_field. destruct (ConsumeVarint b) as [|[tag b1]] eqn:Ev; [done|].
  destruct (ConsumeVarint_spec _ _ _ Ev) as [Hl Ht]. destruct (_ || _) eqn:Er; [done|].
  destruct (_ =? EndGroupType) eqn:Ee; [done|].
  assert (Hun : ∀ num wtyp, keep_unknown m num wtyp b1 = inr (m', rest) →
    (String.length rest < String.length b)%nat ∧
    ∀ t, keep_unknown m num wtyp (b1 +:+ t) = inr (m', rest +:+ t)).
  { intros num wtyp E. destruct (keep_unknown_spec _ _ _ _ _ _ E) as [Hl1 Ht1]. split; [lia|done]. }
  destruct (find_field fs _) as [[i f]|] eqn:Ef.
  - destruct (negb _) eqn:En; [intros [Hl1 Ht1]%Hun|destruct (ConsumeBytes b1) as [|[v b2]] eqn:Eb; [done|]].
    + split; [done|]. intros t. by rewrite Ht, Er, Ee, Ef, En.
    + destruct (ConsumeBytes_consumes _ _ _ Eb) as [Hl2 Ht2]. destruct (cf_kind f) eqn:Ek;
        [destruct (UTF8.ValidString v) eqn:Eu; [|done]|]; intros [= <- <-]; (split; [lia|]); intros t;
        rewrite Ht, Er, Ee, Ef, En, Ht2, Ek; by rewrite ?Eu.
  - intros [Hl1 Ht1]%Hun. split; [done|]. intros t. by rewrite Ht, Er, Ee, Ef.
Qed.

Lemma unmarshal_field_no_fuel fs m b : unmarshal_field fs m b ≠ inl errFuel.
Proof.
  unfold unmarshal_field. destruct (ConsumeVarint b) as [|[tag b1]]; [done|]. destruct (_ || _); [done|].
  destruct (_ =? EndGroupType); [done|]. destruct (find_field fs _) as [[i f]|]; [|apply keep_unknown_no_fuel].
  destruct (negb _); [apply keep_unknown_no_fuel|]. destruct (ConsumeBytes b1) as [|[v b2]]; [done|].
  destruct (cf_kind f); [by destruct (UTF8.ValidString v)|done].
Qed.

(** The loop never runs out of fuel, and more fuel changes nothing. *)
Lemma unmarshal_loop_fuel fuel fuel' fs m b :
  (String.length b ≤ fuel)%nat → (String.length b ≤ fuel')%nat →
  unmarshal_loop fuel fs m b = unmarshal_loop fuel' fs m b ∧ unmarshal_loop fuel fs m b ≠ inl errFuel.
Proof.
  revert fuel' m b. induction fuel as [|fuel IH]; intros fuel' m b Hf Hf'.
  { destruct b; [by destruct fuel'|simpl in Hf; lia]. }
  destruct b as [|c b]; [by destruct fuel'|]. destruct fuel' as [|fuel']; [simpl in Hf'; lia|].
  cbn [unmarshal_loop]. pose proof (unmarshal_field_no_fuel fs m (String c b)) as Hn.
  destruct (unmarshal_field fs m (String c b)) as [e|[m1 b1]] eqn:E; [split; congruence|].
  destruct (unmarshal_field_spec _ _ _ _ _ E) as [Hl _]. apply IH; lia.
Qed.

Lemma unmarshal_step fs m b m1 b1 :
  unmarshal_field fs m b = inr (m1, b1) →
  unmarshalPointerEager fs m b = unmarshalPointerEager fs m1 b1.
Proof.
  intros E. destruct (unmarshal_field_spec _ _ _ _ _ E) as [Hl _]. unfold unmarshalPointerEager.
  destruct b as [|c b]; [simpl in Hl; lia|]. cbn [String.length unmarshal_loop]. rewrite E.
  apply unmarshal_loop_fuel; simpl in Hl; lia.
Qed.

(** Decoding a concatenation is decoding into the message decoded so far. *)
Lemma unmarshal_app fs m b t m' :
  unmarshalPointerEager fs m b = inr m' →
  unmarshalPointerEager fs m (b +:+ t) = unmarshalPointerEager fs m' t.
Proof.
  unfold unmarshalPointerEager at 1. generalize (String.length b) as fuel. intros fuel. revert m b.
  induction fuel as [|fuel IH]; intros m [|c b] E; try (by injection E as <-); [done|].
  cbn [unmarshal_loop] in E. destruct (unmarshal_field fs m (String c b)) as [|[m1 b1]] eqn:Ef; [done|].
  destruct (unmarshal_field_spec _ _ _ _ _ Ef) as [_ Ht]. rewrite (unmarshal_step _ _ _ _ _ (Ht t)). by apply IH.
Qed.

(** ** The round trip *)

(** What the code generator guarantees of the fields of a message. *)
Definition fields_ok (fs : list coderFieldInfo) : Prop :=
  NoDup (map cf_num fs) ∧ Forall (λ f, MinValidNumber ≤ cf_num f ≤ MaxValidNumber) fs.

(** A value that can be marshalled. *)
Definition encodable (f : coderFieldInfo) (v : string) : bool :=
  match cf_kind f with StringKind => UTF8.ValidString v | BytesKind => true end.

(** The bytes of a field. *)
Definition field_bytes (f : coderFieldInfo) (v : string) : string :=
  if String.eqb v "" then "" else append_varint 10 (wiretag f) +:+ AppendBytes "" v.

Lemma append_field_spec f b v :
  append_field f b v = if encodable f v then inr (b +:+ field_bytes f v) else inl errInvalidUTF8.
Proof.
  unfold append_field, encodable, field_bytes. destruct (String.eqb_spec v "") as [->|Hv].
  { rewrite str_app_nil_r. by destruct (cf_kind f). }
  unfold AppendBytes, AppendVarint. rewrite !str_app_assoc. by destruct (cf_kind f).
Qed.

Lemma wiretag_parts f :
  0 ≤ cf_num f → Z.shiftr (wiretag f) 3 = cf_num f ∧ Z.land (wiretag f) 7 = BytesType.
Proof.
  intros Hn. unfold wiretag, EncodeTag. change (Z.land BytesType 7) with 2. split.
  - rewrite Z.shiftr_lor, Z.shiftr_shiftl_l by lia. change (3 - 3) with 0. rewrite Z.shiftl_0_r.
    change (Z.shiftr 2 3) with 0. apply Z.lor_0_r.
  - rewrite Z.land_lor_distr_l. change 7 with (Z.ones 3) at 1. rewrite Z.land_ones, Z.shiftl_mul_pow2 by lia.
    rewrite Z.mod_mul by lia. done.
Qed.

Lemma wiretag_range f : 0 ≤ cf_num f ≤ MaxValidNumber → 0 ≤ wiretag f < 2 ^ 64.
Proof.
  intros Hn. destruct (wiretag_parts f) as [Hs _]; [lia|]. unfold MaxValidNumber in Hn.
  assert (H0 : 0 ≤ wiretag f).
  { unfold wiretag, EncodeTag. apply Z.lor_nonneg. split; [apply Z.shiftl_nonneg; lia|done]. }
  split; [done|]. rewrite Z.shiftr_div_pow2 in Hs by lia. change (2 ^ 3) with 8 in Hs.
  pose proof (Z.div_mod (wiretag f) 8 ltac:(lia)). pose proof (Z.mod_pos_bound (wiretag f) 8 ltac:(lia)).
  change (2 ^ 29 - 1) with 536870911 in Hn. change (2 ^ 64) with 18446744073709551616. lia.
Qed.

Lemma find_field_app fs1 f fs2 :
  NoDup (map cf_num (fs1 ++ f :: fs2)) → find_field (fs1 ++ f :: fs2) (cf_num f) = Some (length fs1, f).
Proof.
  induction fs1 as [|g fs1 IH]; simpl; [intros _; by rewrite Z.eqb_refl|]. intros [Hg Hn]%NoDup_cons.
  destruct (Z.eqb_spec (cf_num g) (cf_num f)) as [E|_]; [|by rewrite IH].
  exfalso. apply Hg. rewrite E, map_app. apply elem_of_app. right. left.
Qed.

(** Decoding the bytes of one field. *)
Lemma unmarshal_field_bytes fs1 f fs2 m v rest :
  fields_ok (fs1 ++ f :: fs2) → v ≠ "" → go_len v < 2 ^ 64 → encodable f v = true →
  unmarshal_field (fs1 ++ f :: fs2) m (field_bytes f v +:+ rest) =
  inr ({| m_values := <[length fs1 := v]> (m_values m); m_unknown := m_unknown m |}, rest).
Proof.
  intros [Hnd Hr] Hv Hl He. unfold field_bytes. rewrite (proj2 (String.eqb_neq _ _) Hv).
  apply Forall_app in Hr as [_ Hr]. apply Forall_cons in Hr as [Hr _].
  pose proof (Hr : 1 ≤ cf_num f ≤ MaxValidNumber) as Hr'.
  destruct (wiretag_parts f) as [Hs Ht]; [lia|].
  unfold unmarshal_field. rewrite str_app_assoc, ConsumeVarint_append by (apply wiretag_range; lia).
  rewrite Hs, Ht, (proj2 (Z.ltb_ge _ _)), (proj2 (Z.ltb_ge _ _)) by (unfold MinValidNumber; lia). cbn [orb].
  change (BytesType =? EndGroupType) with false. rewrite find_field_app by done.
  change (negb (BytesType =? BytesType)) with false. rewrite ConsumeBytes_append by done.
  unfold encodable in He. destruct (cf_kind f); by rewrite ?He.
Qed.

(** The values of a message that can be marshalled, and their bytes. *)
Definition encodables (fs : list coderFieldInfo) (vs : list string) : bool :=
  forallb (λ fv, encodable fv.1 fv.2) (zip fs vs).

Fixpoint fields_bytes (fs : list coderFieldInfo) (vs : list string) : string :=
  match fs, vs with
  | f :: fs, v :: vs => field_bytes f v +:+ fields_bytes fs vs
  | _, _ => ""
  end.

Lemma append_fields_spec fs vs b :
  append_fields fs vs b = if encodables fs vs then inr (b +:+ fields_bytes fs vs) else inl errInvalidUTF8.
Proof.
  revert vs b. induction fs as [|f fs IH]; intros [|v vs] b; cbn [append_fields fields_bytes];
    try (by rewrite str_app_nil_r).
  unfold encodables. cbn [zip zip_with forallb fst snd]. rewrite append_field_spec. destruct (encodable f v); [|done].
  rewrite IH, str_app_assoc. done.
Qed.

(** The decoder, the fields [fs1] behind it. *)
Lemma unmarshal_fields fs1 fs2 vs1 vs2 u :
  fields_ok (fs1 ++ fs2) → length vs1 = length fs1 → length vs2 = length fs2 →
  encodables fs2 vs2 = true → Forall (λ v, go_len v < 2 ^ 64) vs2 →
  unmarshalPointerEager (fs1 ++ fs2) {| m_values := vs1 ++ map (λ _, "") fs2; m_unknown := u |} (fields_bytes fs2 vs2) =
  inr {| m_values := vs1 ++ vs2; m_unknown := u |}.
Proof.
  revert fs1 vs1 vs2. induction fs2 as [|f fs2 IH]; intros fs1 vs1 [|v vs2] Hok Hl1 Hl2 He Hs; [done..|].
  injection Hl2 as Hl2. apply andb_true_iff in He as [He He2]. apply Forall_cons in Hs as [Hs Hs2].
  cbn [fields_bytes map]. specialize (IH (fs1 ++ [f]) (vs1 ++ [v]) vs2).
  rewrite <- !app_assoc in IH. cbn [app] in IH.
  assert (Hl : length (vs1 ++ [v]) = length (fs1 ++ [f])) by (rewrite !length_app; simpl; lia).
  destruct (String.eqb_spec v "") as [->|Hv]; [by apply IH|].
  erewrite unmarshal_step; [by apply IH|]. simpl in He. rewrite unmarshal_field_bytes by done. cbn [m_values m_unknown].
  rewrite <- Hl1, insert_app_r_alt by lia. by rewrite Nat.sub_diag.
Qed.

Lemma marshal_spec fs m :
  marshalAppendPointer fs m =
  if encodables fs (m_values m) then inr (fields_bytes fs (m_values m) +:+ m_unknown m) else inl errInvalidUTF8.
Proof. unfold marshalAppendPointer. rewrite append_fields_spec. by destruct (encodables fs (m_values m)). Qed.

Lemma message_roundtrip fs m b :
  fields_ok fs → length (m_values m) = length fs → Forall (λ v, go_len v < 2 ^ 64) (m_values m) →
  m_unknown m = "" → marshalAppendPointer fs m = inr b → Unmarshal fs b = inr m.
Proof.
  intros Hok Hl Hs Hu. rewrite marshal_spec, Hu, str_app_nil_r. destruct (encodables fs (m_values m)) eqn:He; [|done].
  intros [= <-]. destruct m as [vs u]. simpl in *. subst u.
  exact (unmarshal_fields [] fs [] vs "" Hok eq_refl Hl He Hs).
Qed.
