(* ===== verification/Rpc.v ===== *)
(** * The gRPC service ([grpc/protogen])

    The messages and the descriptor of [api.pb.go], the client and server stubs of
    [api_grpc.pb.go], and of [google.golang.org/grpc], as vendored, the path of a
    unary call: registration, dispatch by the method path, the limit on the size of
    a message, decoding, the handler, and the encoding of its reply.  There are no
    interceptors, compressors, stats handlers or binary logs: the operator installs
    none. *)

From S2P Require Import Prelude Effects GoStd Types Cluster Codec Token SnapshotServer Startup Protobuf.

(** ** Messages ([api.pb.go]) *)

(** The struct tags of [CommandRequest] and [CommandResponse]. *)
Definition request_fields : list coderFieldInfo :=
  [{| cf_num := 1; cf_kind := StringKind |}; {| cf_num := 2; cf_kind := BytesKind |}].
Definition response_fields : list coderFieldInfo :=
  [{| cf_num := 1; cf_kind := StringKind |}; {| cf_num := 2; cf_kind := BytesKind |};
   {| cf_num := 3; cf_kind := StringKind |}].

(** The getters, nil pointers included. *)
Definition GetCommand (x : option CommandRequest) : string :=
  match x with Some x => rq_Command x | None => "" end.
Definition GetData (x : option CommandRequest) : string :=
  match x with Some x => rq_Data x | None => "" end.
Definition GetStatus (x : option CommandResponse) : string :=
  match x with Some x => rs_Status x | None => "" end.
Definition GetOutput (x : option CommandResponse) : string :=
  match x with Some x => rs_Output x | None => "" end.
Definition GetError (x : option CommandResponse) : string :=
  match x with Some x => rs_Error x | None => "" end.

(** [new(CommandRequest)], and [Reset]. *)
Definition zero_request : CommandRequest := {| rq_Command := ""; rq_Data := "" |}.
Definition zero_response : CommandResponse := {| rs_Status := ""; rs_Output := ""; rs_Error := "" |}.

(** The structs as messages of the codec.  A struct also keeps the bytes of unknown
    fields, which nothing reads. *)
Definition of_request (x : CommandRequest) : message :=
  {| m_values := [rq_Command x; rq_Data x]; m_unknown := "" |}.
Definition to_request (m : message) : CommandRequest :=
  match m_values m with
  | [c; d] => {| rq_Command := c; rq_Data := d |}
  | _ => zero_request
  end.
Definition of_response (x : CommandResponse) : message :=
  {| m_values := [rs_Status x; rs_Output x; rs_Error x]; m_unknown := "" |}.
Definition to_response (m : message) : CommandResponse :=
  match m_values m with
  | [s; o; e] => {| rs_Status := s; rs_Output := o; rs_Error := e |}
  | _ => zero_response
  end.

(** *** The descriptor *)

Definition chr (n : nat) : string := String (ascii_of_nat n) "".

Definition file_api_proto_rawDesc : string :=
  chr 10 +:+
  chr 9 +:+ "api.proto" +:+ chr 18 +:+ chr 5 +:+ "proto" +:+ chr 34 +:+ ">" +:+ chr 10 +:+
  chr 14 +:+ "CommandRequest" +:+ chr 18 +:+ chr 24 +:+ chr 10 +:+
  chr 7 +:+ "command" +:+ chr 24 +:+ chr 1 +:+ " " +:+ chr 1 +:+ "(" +:+ chr 9 +:+ "R" +:+ chr 7 +:+ "command" +:+ chr 18 +:+ chr 18 +:+ chr 10 +:+
  chr 4 +:+ "data" +:+ chr 24 +:+ chr 2 +:+ " " +:+ chr 1 +:+ "(" +:+ chr 12 +:+ "R" +:+ chr 4 +:+ "data" +:+ chr 34 +:+ "W" +:+ chr 10 +:+
  chr 15 +:+ "CommandResponse" +:+ chr 18 +:+ chr 22 +:+ chr 10 +:+
  chr 6 +:+ "status" +:+ chr 24 +:+ chr 1 +:+ " " +:+ chr 1 +:+ "(" +:+ chr 9 +:+ "R" +:+ chr 6 +:+ "status" +:+ chr 18 +:+ chr 22 +:+ chr 10 +:+
  chr 6 +:+ "output" +:+ chr 24 +:+ chr 2 +:+ " " +:+ chr 1 +:+ "(" +:+ chr 12 +:+ "R" +:+ chr 6 +:+ "output" +:+ chr 18 +:+ chr 20 +:+ chr 10 +:+
  chr 5 +:+ "error" +:+ chr 24 +:+ chr 3 +:+ " " +:+ chr 1 +:+ "(" +:+ chr 9 +:+ "R" +:+ chr 5 +:+ "error2Q" +:+ chr 10 +:+
  chr 14 +:+ "CommandService" +:+ chr 18 +:+ "?" +:+ chr 10 +:+
  chr 14 +:+ "ExecuteCommand" +:+ chr 18 +:+ chr 21 +:+ ".proto.CommandRequest" +:+ chr 26 +:+ chr 22 +:+ ".proto.CommandResponseB" +:+ chr 34 +:+ "Z pkg/utils/grpc/sidekick/protogenb" +:+ chr 6 +:+ "proto3".

(** [NumMessages], [NumServices] and the indexes of [file_api_proto_depIdxs] for the
    one method: its input and output among [file_api_proto_goTypes]. *)
Definition NumMessages : nat := 2.
Definition NumServices : nat := 1.
Definition file_api_proto_goTypes : list string := ["CommandRequest"; "CommandResponse"].
Definition file_api_proto_depIdxs : list nat := [0; 1; 1; 0; 0; 0; 0]%nat.

(** ** The service ([api_grpc.pb.go]) *)

Definition CommandService_ExecuteCommand_FullMethodName : string := "/proto.CommandService/ExecuteCommand".

(** [status.Error]. *)
Definition status_Error (code desc : string) : error :=
  PlainError ("rpc error: code = " +:+ code +:+ " desc = " +:+ desc).

Section Service.
Context {St : Type}.

(** An implementation of [CommandServiceServer], with the state it keeps. *)
Definition CommandServiceServer : Type := St → CommandRequest → M (res CommandResponse * St).

Definition UnimplementedCommandServiceServer : CommandServiceServer := λ st _,
  mret (Err (status_Error "Unimplemented" "method ExecuteCommand not implemented"), st).

(** [grpc.UnaryServerInterceptor]: the request, the full method name, the handler. *)
Definition UnaryServerInterceptor : Type :=
  St → CommandRequest → string → CommandServiceServer → M (res CommandResponse * St).

Definition _CommandService_ExecuteCommand_Handler (srv : CommandServiceServer) (dec : res CommandRequest)
    (interceptor : option UnaryServerInterceptor) (st : St) : M (res CommandResponse * St) :=
  match dec with
  | Err e => mret (Err e, st)
  | Ok inn =>
      match interceptor with
      | None => srv st inn
      | Some interceptor => interceptor st inn CommandService_ExecuteCommand_FullMethodName srv
      end
  end.

(** [grpc.MethodDesc], [grpc.ServiceDesc]. *)
Record MethodDesc := {
  MethodName : string;
  Handler : CommandServiceServer → res CommandRequest → option UnaryServerInterceptor → St →
            M (res CommandResponse * St)
}.
Record ServiceDesc := { ServiceName : string; Methods : list MethodDesc; Metadata : string }.

Definition CommandService_ServiceDesc : ServiceDesc :=
  {| ServiceName := "proto.CommandService";
     Methods := [{| MethodName := "ExecuteCommand"; Handler := _CommandService_ExecuteCommand_Handler |}];
     Metadata := "api.proto" |}.

(** *** The server ([grpc/server.go]) *)

Record serviceInfo := { serviceImpl : CommandServiceServer; methods : gmap string MethodDesc }.
Record Server := { services : gmap string serviceInfo; maxReceiveMessageSize : Z }.

Definition NewServer (maxRecv : Z) : Server := {| services := ∅; maxReceiveMessageSize := maxRecv |}.

(** A second registration of a name ends the process. *)
Definition register (s : Server) (sd : ServiceDesc) (ss : CommandServiceServer) : option Server :=
  match services s !! ServiceName sd with
  | Some _ => None
  | None =>
      let info := {| serviceImpl := ss;
                     methods := foldl (λ ms d, <[MethodName d := d]> ms) ∅ (Methods sd) |} in
      Some {| services := <[ServiceName sd := info]> (services s);
              maxReceiveMessageSize := maxReceiveMessageSize s |}
  end.

(** The embedded [UnimplementedCommandServiceServer] is a value, so the test at the
    start does nothing. *)
Definition RegisterCommandServiceServer (s : Server) (srv : CommandServiceServer) : option Server :=
  register s CommandService_ServiceDesc srv.

(** The parts before and after the last slash. *)
Fixpoint split_last (s : string) : option (string * string) :=
  match s with
  | "" => None
  | String c s' =>
      match split_last s' with
      | Some (a, b) => Some (String c a, b)
      | None => if Ascii.eqb c "/" then Some ("", s') else None
      end
  end.

(** The text of an error, for the status; nothing depends on it. *)
Definition proto_error_text (e : proto_error) : string :=
  match e with
  | errDecode => "proto: cannot parse invalid wire-format data"
  | errInvalidUTF8 => "proto: string field contains invalid UTF-8"
  | errFuel => "out of fuel"
  end.

(** [encode]: a message too long for the header is refused. *)
Definition encode (fs : list coderFieldInfo) (m : message) : res string :=
  match marshalAppendPointer fs m with
  | inl e => Err (status_Error "Internal" ("grpc: error while marshaling: " +:+ proto_error_text e))
  | inr b =>
      if 2 ^ 32 - 1 <? go_len b then
        Err (status_Error "ResourceExhausted" ("grpc: message too large (" +:+ pretty (go_len b) +:+ " bytes)"))
      else Ok b
  end.

(** [recvMsg], on either side. *)
Definition recv (max : Z) (payload : string) : res string :=
  if max <? go_len payload then
    Err (status_Error "ResourceExhausted" ("grpc: received message larger than max ("
           +:+ pretty (go_len payload) +:+ " vs. " +:+ pretty max +:+ ")"))
  else Ok payload.

(** The default limit of server and client. *)
Definition maxSendMessageSize : Z := 2 ^ 31 - 1.

Definition sendResponse (reply : CommandResponse) : res string :=
  match encode response_fields (of_response reply) with
  | Err e => Err e
  | Ok b =>
      if maxSendMessageSize <? go_len b then
        Err (status_Error "ResourceExhausted" ("grpc: trying to send message larger than max ("
               +:+ pretty (go_len b) +:+ " vs. " +:+ pretty maxSendMessageSize +:+ ")"))
      else Ok b
  end.

(** [df]: the decoder handed to the handler. *)
Definition decode_request (payload : string) : res CommandRequest :=
  match Unmarshal request_fields payload with
  | inl e => Err (status_Error "Internal" ("grpc: error unmarshalling request: " +:+ proto_error_text e))
  | inr m => Ok (to_request m)
  end.

Definition processUnaryRPC (s : Server) (info : serviceInfo) (md : MethodDesc) (payload : string) (st : St)
    : M (res string * St) :=
  match recv (maxReceiveMessageSize s) payload with
  | Err e => mret (Err e, st)
  | Ok d =>
      '(reply, st) ← Handler md (serviceImpl info) (decode_request d) None st;
      match reply with
      | Err e => mret (Err e, st)
      | Ok reply => mret (sendResponse reply, st)
      end
  end.

Context `{SnapshotJson}.

Definition malformed (path : string) : error :=
  status_Error "Unimplemented" ("malformed method name: " +:+ quote path).

(** The bytes of the reply, or the status. *)
Definition handleStream (s : Server) (path payload : string) (st : St) : M (res string * St) :=
  match path with
  | String "/" sm =>
      match split_last sm with
      | None => mret (Err (malformed path), st)
      | Some (service, method) =>
          match services s !! service with
          | Some srv =>
              match methods srv !! method with
              | Some md => processUnaryRPC s srv md payload st
              | None => mret (Err (status_Error "Unimplemented"
                          ("unknown method " +:+ method +:+ " for service " +:+ service)), st)
              end
          | None => mret (Err (status_Error "Unimplemented" ("unknown service " +:+ service)), st)
          end
      end
  | _ => mret (Err (malformed path), st)
  end.

(** *** The client *)

(** A connection, over which bytes travel unchanged. *)
Definition ClientConnInterface : Type := string → string → St → M (res string * St).

(** [Invoke]: [SendMsg], then [RecvMsg]. *)
Definition Invoke (cc : ClientConnInterface) (max : Z) (method : string) (inn : CommandRequest) (st : St)
    : M (res CommandResponse * St) :=
  match encode request_fields (of_request inn) with
  | Err e => mret (Err e, st)
  | Ok b =>
      if maxSendMessageSize <? go_len b then
        mret (Err (status_Error "ResourceExhausted" ("trying to send message larger than max ("
                     +:+ pretty (go_len b) +:+ " vs. " +:+ pretty maxSendMessageSize +:+ ")")), st)
      else
        '(r, st) ← cc method b st;
        match r with
        | Err e => mret (Err e, st)
        | Ok data =>
            match recv max data with
            | Err e => mret (Err e, st)
            | Ok data =>
                match Unmarshal response_fields data with
                | inl e => mret (Err (status_Error "Internal"
                                   ("grpc: failed to unmarshal the received message: " +:+ proto_error_text e)), st)
                | inr m => mret (Ok (to_response m), st)
                end
            end
        end
  end.

Definition commandServiceClient_ExecuteCommand (cc : ClientConnInterface) (max : Z) (inn : CommandRequest) (st : St)
    : M (res CommandResponse * St) :=
  Invoke cc max CommandService_ExecuteCommand_FullMethodName inn st.
End Service.

(** ** The server of the operator ([RunGRPCServer]) *)

Section Operator.
Context `{Crypto} `{JsonCodec} `{SnapshotJson}.

(** The method of [CommandServer]: it reports its failures in the response. *)
Definition command_service : CommandServiceServer (St := cache) := λ seen req,
  '(resp, seen) ← ExecuteCommand seen req; mret (Ok resp, seen).

Definition command_server : option (Server (St := cache)) :=
  RegisterCommandServiceServer (NewServer maxRecvMsgBytes) command_service.
End Operator.
