(* ===== verification/RpcProps.v ===== *)
(** * Properties of the gRPC service *)

From S2P Require Import Prelude Effects GoStd Types Cluster Codec Token SnapshotServer SnapshotProps Startup Protobuf ProtobufProps Rpc.

(** ** The descriptor *)

(** The fields of an encoded message: varints and length-prefixed values. *)
Fixpoint parse_fields (fuel : nat) (b : string) : option (list (Z * (Z + string))) :=
  match b, fuel with
  | "", _ => Some []
  | _, O => None
  | _, S fuel =>
      match ConsumeTag b with
      | inl _ => None
      | inr ((num, typ), b) =>
          if typ =? VarintType then
            match ConsumeVarint b with
            | inl _ => None
            | inr (v, b) => fs ← parse_fields fuel b; Some ((num, inl v) :: fs)
            end
          else if typ =? BytesType then
            match ConsumeBytes b with
            | inl _ => None
            | inr (v, b) => fs ← parse_fields fuel b; Some ((num, inr v) :: fs)
            end
          else None
      end
  end.

Definition parse (b : string) : list (Z * (Z + string)) := default [] (parse_fields (String.length b) b).

(** The values of a field of an encoded message. *)
Definition values_of (num : Z) (b : string) : list string :=
  omap (λ f : Z * (Z + string), if f.1 =? num then match f.2 with inr s => Some s | inl _ => None end else None) (parse b).
Definition value_of (num : Z) (b : string) : string := default "" (head (values_of num b)).
Definition number_of (num : Z) (b : string) : Z :=
  default 0 (head (omap (λ f : Z * (Z + string), if f.1 =? num then match f.2 with inl v => Some v | inr _ => None end else None) (parse b))).

(** [descriptor.proto]: FieldDescriptorProto has name 1, number 3, type 5, where
    type 9 is string and 12 is bytes; DescriptorProto has name 1 and field 2;
    FileDescriptorProto has package 2, message_type 4, service 6 and options 8;
    MethodDescriptorProto has name 1, input_type 2 and output_type 3. *)
Definition field_desc (b : string) : option coderFieldInfo :=
  if number_of 5 b =? 9 then Some {| cf_num := number_of 3 b; cf_kind := StringKind |}
  else if number_of 5 b =? 12 then Some {| cf_num := number_of 3 b; cf_kind := BytesKind |}
  else None.
Definition message_desc (b : string) : string * list (option coderFieldInfo) :=
  (value_of 1 b, map field_desc (values_of 2 b)).
Definition method_desc (b : string) : string * string * string := (value_of 1 b, value_of 2 b, value_of 3 b).


(** The bytes are those of an older version of [api.proto]. *)
Example descriptor_go_package : value_of 11 (value_of 8 file_api_proto_rawDesc) = "pkg/utils/grpc/sidekick/protogen".
Proof. vm_compute. reflexivity. Qed.

(** ** Messages *)

Lemma request_fields_ok : fields_ok request_fields.
Proof. split; [vm_compute; apply (bool_decide_unpack _); reflexivity|repeat constructor; vm_compute; congruence]. Qed.

Lemma response_fields_ok : fields_ok response_fields.
Proof. split; [vm_compute; apply (bool_decide_unpack _); reflexivity|repeat constructor; vm_compute; congruence]. Qed.

(** A value is not longer than the bytes of its message. *)
Lemma field_bytes_length f v : (String.length v ≤ String.length (field_bytes f v))%nat.
Proof.
  unfold field_bytes. destruct (String.eqb_spec v "") as [->|]; [simpl; lia|].
  unfold AppendBytes. rewrite !str_length_app. lia.
Qed.

Lemma fields_bytes_length fs vs :
  length vs = length fs → Forall (λ v, (String.length v ≤ String.length (fields_bytes fs vs))%nat) vs.
Proof.
  revert vs. induction fs as [|f fs IH]; intros [|v vs] Hl; try done. injection Hl as Hl.
  pose proof (field_bytes_length f v) as Hv. cbn [fields_bytes]. rewrite str_length_app. constructor; [lia|].
  eapply Forall_impl; [by apply IH|]. simpl. intros. lia.
Qed.

Lemma encode_Ok fs m b :
  encode fs m = Ok b → encodables fs (m_values m) = true ∧ b = fields_bytes fs (m_values m) +:+ m_unknown m ∧ go_len b < 2 ^ 32.
Proof.
  unfold encode. rewrite marshal_spec. destruct (encodables fs (m_values m)); [|done].
  destruct (Z.ltb_spec (2 ^ 32 - 1) (go_len (fields_bytes fs (m_values m) +:+ m_unknown m))); [done|].
  intros [= <-]. split; [done|]. split; [done|]. lia.
Qed.

Lemma encode_roundtrip fs m b :
  fields_ok fs → length (m_values m) = length fs → m_unknown m = "" → encode fs m = Ok b → Unmarshal fs b = inr m.
Proof.
  intros Hok Hl Hu E. apply encode_Ok in E as (He & -> & Hs). rewrite Hu, str_app_nil_r in *.
  apply message_roundtrip; [done|done| |done|by rewrite marshal_spec, He, Hu, str_app_nil_r].
  eapply Forall_impl; [by apply fields_bytes_length|]. simpl. unfold go_len in *. intros v Hv. lia.
Qed.

Lemma encode_iff fs m :
  m_unknown m = "" →
  (∃ b, encode fs m = Ok b) ↔
    encodables fs (m_values m) = true ∧ go_len (fields_bytes fs (m_values m)) < 2 ^ 32.
Proof.
  intros Hu. split.
  - intros [b E]. apply encode_Ok in E as (He & -> & Hs). by rewrite Hu, str_app_nil_r in Hs.
  - intros [He Hs]. unfold encode. rewrite marshal_spec, He, Hu, str_app_nil_r.
    destruct (Z.ltb_spec (2 ^ 32 - 1) (go_len (fields_bytes fs (m_values m)))); [lia|by eexists].
Qed.

Lemma request_roundtrip req b :
  encode request_fields (of_request req) = Ok b → Unmarshal request_fields b = inr (of_request req).
Proof. by apply encode_roundtrip; [apply request_fields_ok|..]. Qed.

Lemma response_roundtrip resp b :
  encode response_fields (of_response resp) = Ok b → Unmarshal response_fields b = inr (of_response resp).
Proof. by apply encode_roundtrip; [apply response_fields_ok|..]. Qed.

(** C13. Requests and responses survive the wire.  Encoding fails exactly when a text
    field is not valid UTF-8 or the bytes are too long for a message header;
    otherwise decoding gives the same request or response back, whatever bytes its
    data hold. *)
Theorem command_messages_roundtrip (req : CommandRequest) (resp : CommandResponse) :
  (∀ b, encode request_fields (of_request req) = Ok b →
     Unmarshal request_fields b = inr (of_request req) ∧ to_request (of_request req) = req) ∧
  (∀ b, encode response_fields (of_response resp) = Ok b →
     Unmarshal response_fields b = inr (of_response resp) ∧ to_response (of_response resp) = resp) ∧
  ((∃ b, encode request_fields (of_request req) = Ok b) ↔
     UTF8.ValidString (rq_Command req) = true ∧
     go_len (fields_bytes request_fields [rq_Command req; rq_Data req]) < 2 ^ 32) ∧
  ((∃ b, encode response_fields (of_response resp) = Ok b) ↔
     UTF8.ValidString (rs_Status resp) = true ∧ UTF8.ValidString (rs_Error resp) = true ∧
     go_len (fields_bytes response_fields [rs_Status resp; rs_Output resp; rs_Error resp]) < 2 ^ 32).
Proof.
  split; [intros b E; split; [by apply request_roundtrip|by destruct req]|].
  split; [intros b E; split; [by apply response_roundtrip|by destruct resp]|].
  rewrite !encode_iff by done. unfold encodables, encodable. simpl. rewrite !andb_true_r, !andb_true_iff. tauto.
Qed.

(** ** Calls *)

Lemma split_last_spec s a b : split_last s = Some (a, b) → s = a +:+ "/" +:+ b.
Proof.
  revert a. induction s as [|c s IH]; intros a E; simpl in E; [done|].
  destruct (split_last s) as [[a' b']|]; [injection E as <- <-; by rewrite str_app_cons, (IH a')|].
  destruct (Ascii.eqb_spec c "/") as [->|]; [|done]. by injection E as <- <-.
Qed.

Section Calls.
Context `{Crypto} `{JsonCodec} `{SnapshotJson}.

(** The server the operator runs. *)
Lemma command_server_services s :
  command_server = Some s → maxReceiveMessageSize s = maxRecvMsgBytes ∧
  services s = {[ "proto.CommandService" := {| serviceImpl := command_service;
     methods := {[ "ExecuteCommand" := {| MethodName := "ExecuteCommand"; Handler := _CommandService_ExecuteCommand_Handler |} ]} |} ]}.
Proof. by intros [= <-]. Qed.

(** Whatever bytes arrive, the stream is refused without a call to the API server or
    it is a call of [ExecuteCommand]. *)
Lemma stream_is_call s path payload seen tr o :
  command_server = Some s → exec (handleStream s path payload seen) tr o →
  (tr = [] ∧ ∃ e, o = Returned (Err e, seen)) ∨
  (path = CommandService_ExecuteCommand_FullMethodName ∧ go_len payload ≤ 64 * 1024 ∧
   ∃ req, decode_request payload = Ok req ∧
     ∃ o', exec (ExecuteCommand seen req) tr o' ∧
       match o' with
       | Returned (resp, seen') => o = Returned (sendResponse resp, seen')
       | Panicked msg => o = Panicked msg
       end).
Proof.
  intros [Hmax Hs]%command_server_services. revert tr o. apply wp_exec.
  assert (Herr : ∀ e P, wp (mret (Err e, seen) : M (res string * cache))
    (λ tr o, (tr = [] ∧ ∃ e, o = Returned (Err e, seen)) ∨ P tr o)).
  { intros e P. apply wp_ret. left. by split; [|eexists]. }
  unfold handleStream. destruct path as [|c sm]; [apply Herr|].
  destruct (Ascii.eqb_spec c "/") as [->|Hc]; [|destruct c as [[] [] [] [] [] [] [] []]; done || apply Herr].
  destruct (split_last sm) as [[svc meth]|] eqn:Esp; [|apply Herr]. apply split_last_spec in Esp as ->. rewrite Hs.
  destruct (decide (svc = "proto.CommandService")) as [->|Hsvc]; [|by rewrite lookup_singleton_ne].
  rewrite lookup_singleton_eq. cbn [methods].
  destruct (decide (meth = "ExecuteCommand")) as [->|Hm]; [|by rewrite lookup_singleton_ne].
  rewrite lookup_singleton_eq. unfold processUnaryRPC, recv. rewrite Hmax.
  destruct (Z.ltb_spec maxRecvMsgBytes (go_len payload)) as [|Hle]; [apply Herr|].
  cbn [Handler serviceImpl]. unfold _CommandService_ExecuteCommand_Handler.
  destruct (decode_request payload) as [req|e] eqn:Ed; [|apply wp_bind, wp_ret; apply (Herr e)].
  unfold command_service. apply wp_bind, wp_bind, wp_exec. intros tr o' Hx.
  destruct o' as [[resp seen']|msg].
  - apply wp_ret, wp_ret. rewrite !app_nil_r. right. split; [done|]. split; [exact Hle|]. exists req. split; [done|].
    by exists (Returned (resp, seen')).
  - right. split; [done|]. split; [exact Hle|]. exists req. split; [done|]. by exists (Panicked msg).
Qed.

(** C11. What the port accepts.  Whatever bytes arrive under whatever method path, the
    server answers (no panic).  Either the answer is an error, without a call to the
    API server and with the replay cache unchanged, or the path is that of
    [ExecuteCommand], the message is within the limit of 64 KiB and decodes to a
    request, the answer is the encoded response of [ExecuteCommand] to that request,
    and every write is a status patch of the one Snapshot the request has a grant
    for; without one there is no write and the response is the uniform error. *)
Theorem rpc_surface s path payload seen tr o :
  command_server = Some s → exec (handleStream s path payload seen) tr o → Forall keyed tr →
  ∃ r seen', o = Returned (r, seen') ∧
    (tr = [] ∧ (∃ e, r = Err e) ∧ seen' = seen ∨
     path = CommandService_ExecuteCommand_FullMethodName ∧ go_len payload ≤ 64 * 1024 ∧
     ∃ req resp, decode_request payload = Ok req ∧
       exec (ExecuteCommand seen req) tr (Returned (resp, seen')) ∧ r = sendResponse resp ∧
       (resp = authError ∧ Forall (λ e, is_write e = false) tr ∨
        ∃ key, granted req tr key ∧ Forall (confined key) tr)).
Proof.
  intros Hs Hx HE.
  destruct (stream_is_call s path payload seen tr o Hs Hx) as [[-> [e ->]]|(-> & Hl & req & Hd & o' & Hc & Ho)].
  { eexists _, _. split; [done|]. left. by split; [|split; [eexists|]]. }
  destruct (proj1 (wpE_exec _ _ _) (ExecuteCommand_wpE seen req) _ _ Hc HE) as (resp & seen' & -> & Hcf).
  eexists _, _. split; [exact Ho|]. right. split; [done|]. split; [done|]. exists req, resp.
  destruct Hcf as [[? ?]|?]; eauto 8.
Qed.

(** The response as the client gets it. *)
Definition deliver (max : Z) (resp : CommandResponse) : res CommandResponse :=
  match sendResponse resp with
  | Err e => Err e
  | Ok b => match recv max b with Err e => Err e | Ok _ => Ok resp end
  end.

Lemma delivered max resp :
  UTF8.ValidString (rs_Status resp) = true → UTF8.ValidString (rs_Error resp) = true →
  go_len (fields_bytes response_fields [rs_Status resp; rs_Output resp; rs_Error resp]) ≤ Z.min max maxSendMessageSize →
  deliver max resp = Ok resp.
Proof.
  intros Hs He Hl. unfold deliver, sendResponse, encode, maxSendMessageSize in *. rewrite marshal_spec.
  unfold encodables, encodable. simpl. rewrite Hs, He. simpl. rewrite str_app_nil_r.
  change (field_bytes {| cf_num := 1; cf_kind := StringKind |} (rs_Status resp) +:+
    field_bytes {| cf_num := 2; cf_kind := BytesKind |} (rs_Output resp) +:+
    field_bytes {| cf_num := 3; cf_kind := StringKind |} (rs_Error resp) +:+ "")
    with (fields_bytes response_fields [rs_Status resp; rs_Output resp; rs_Error resp]).
  set (b := fields_bytes _ _) in *. unfold recv.
  destruct (Z.ltb_spec (2 ^ 32 - 1) (go_len b)); [lia|]. destruct (Z.ltb_spec (2 ^ 31 - 1) (go_len b)); [lia|].
  by destruct (Z.ltb_spec max (go_len b)); [lia|].
Qed.

(** The server's half of a call. *)
Lemma server_run {W} (serve : ∀ op, W → answer op * W) s b req seen w :
  command_server = Some s → go_len b ≤ maxRecvMsgBytes → decode_request b = Ok req →
  run serve (handleStream s CommandService_ExecuteCommand_FullMethodName b seen) w =
  match run serve (ExecuteCommand seen req) w with
  | (Returned (resp, seen'), w') => (Returned (sendResponse resp, seen'), w')
  | (Panicked msg, w') => (Panicked msg, w')
  end.
Proof.
  intros [Hmax Hs]%command_server_services Hl Hd. unfold handleStream, CommandService_ExecuteCommand_FullMethodName.
  change (split_last "proto.CommandService/ExecuteCommand") with (Some ("proto.CommandService", "ExecuteCommand")). cbn iota.
  rewrite Hs, lookup_singleton_eq. cbn [methods]. rewrite lookup_singleton_eq.
  unfold processUnaryRPC, recv. rewrite Hmax. destruct (Z.ltb_spec maxRecvMsgBytes (go_len b)); [lia|].
  cbn [Handler serviceImpl]. rewrite Hd. cbn [_CommandService_ExecuteCommand_Handler]. unfold command_service.
  rewrite !run_bind. by destruct (run serve (ExecuteCommand seen req) w) as [[[resp seen']|msg] w'].
Qed.

Lemma client_run {W} (serve : ∀ op, W → answer op * W) s max req seen w :
  command_server = Some s → UTF8.ValidString (rq_Command req) = true →
  go_len (fields_bytes request_fields [rq_Command req; rq_Data req]) ≤ maxRecvMsgBytes →
  run serve (commandServiceClient_ExecuteCommand (handleStream s) max req seen) w =
  match run serve (ExecuteCommand seen req) w with
  | (Returned (resp, seen'), w') => (Returned (deliver max resp, seen'), w')
  | (Panicked msg, w') => (Panicked msg, w')
  end.
Proof.
  intros Hs Hu Hl. unfold commandServiceClient_ExecuteCommand, Invoke.
  destruct (proj2 (encode_iff request_fields (of_request req) eq_refl)) as [b Eb].
  { split; [unfold encodables, encodable; simpl; by rewrite Hu|unfold maxRecvMsgBytes in Hl; simpl m_values; lia]. }
  rewrite Eb. pose proof (request_roundtrip _ _ Eb) as Hrt. apply encode_Ok in Eb as (_ & Eb & _).
  cbn [m_values m_unknown of_request] in Eb. rewrite str_app_nil_r in Eb.
  assert (Hd : decode_request b = Ok req) by (unfold decode_request; rewrite Hrt; by destruct req).
  assert (Hb : go_len b ≤ maxRecvMsgBytes) by (by rewrite Eb).
  destruct (Z.ltb_spec maxSendMessageSize (go_len b)); [unfold maxSendMessageSize, maxRecvMsgBytes in *; lia|].
  rewrite run_bind, (server_run serve s b req seen w Hs Hb Hd).
  destruct (run serve (ExecuteCommand seen req) w) as [[[resp seen']|msg] w']; [|done]. unfold deliver.
  destruct (sendResponse resp) as [rb|e] eqn:Er; [|done]. destruct (recv max rb) as [rb'|e] eqn:Ev; [|done].
  assert (rb' = rb) as -> by (unfold recv in Ev; destruct (_ <? _); congruence).
  unfold sendResponse in Er. destruct (encode response_fields (of_response resp)) as [rb1|] eqn:Ee; [|done].
  destruct (_ <? _); [done|]. injection Er as ->. rewrite (response_roundtrip _ _ Ee). by destruct resp.
Qed.

(** C12. A remote call is a call.  An archiver that sends a request with a command in
    valid UTF-8, within the limit of the server, through the generated client over a
    connection that delivers bytes unchanged has the same effect as [ExecuteCommand]
    on that request, on the API server and on the replay cache, and it gets the very
    response, provided its texts are valid UTF-8 and it fits the limits; otherwise
    the call fails although the command was executed. *)
Theorem remote_call_is_call {W} (serve : ∀ op, W → answer op * W) s max req seen w resp seen' w' :
  command_server = Some s → UTF8.ValidString (rq_Command req) = true →
  go_len (fields_bytes request_fields [rq_Command req; rq_Data req]) ≤ maxRecvMsgBytes →
  run serve (ExecuteCommand seen req) w = (Returned (resp, seen'), w') →
  ∃ r, run serve (commandServiceClient_ExecuteCommand (handleStream s) max req seen) w = (Returned (r, seen'), w') ∧
    (r = Ok resp ∨ ∃ e, r = Err e) ∧
    (UTF8.ValidString (rs_Status resp) = true → UTF8.ValidString (rs_Error resp) = true →
     go_len (fields_bytes response_fields [rs_Status resp; rs_Output resp; rs_Error resp])
       ≤ Z.min max maxSendMessageSize → r = Ok resp).
Proof.
  intros Hs Hu Hl Hr. exists (deliver max resp). rewrite (client_run serve s max req seen w Hs Hu Hl), Hr.
  split; [done|]. split; [|by apply delivered].
  unfold deliver. destruct (sendResponse resp) as [b|e]; [|by right; eexists]. destruct (recv max b); [by left|by right; eexists].
Qed.
End Calls.
