(* ===== verification/RpcWitness.v ===== *)
(** * A remote call on the concrete server *)

From S2P Require Import Prelude Effects Types Cluster Codec Token SnapshotServer Fixtures Server Store SnapshotProps SnapshotWitness Startup Protobuf ProtobufProps Rpc RpcProps.

Definition ex_response : CommandResponse := {| rs_Status := "success"; rs_Output := "{}"; rs_Error := "" |}.

Definition ex_request_bytes : string := ok_or "" (encode request_fields (of_request ex_request)).
Definition ex_response_bytes : string := ok_or "" (encode response_fields (of_response ex_response)).

Lemma command_messages_roundtrip_witness :
  Unmarshal request_fields ex_request_bytes = inr (of_request ex_request) ∧
  Unmarshal response_fields ex_response_bytes = inr (of_response ex_response).
Proof.
  destruct (command_messages_roundtrip ex_request ex_response) as (Hq & Hs & _).
  split; [apply (Hq ex_request_bytes)|apply (Hs ex_response_bytes)]; vm_compute; reflexivity.
Defined.

Definition ex_server : Server (St := cache) :=
  default (NewServer 0) command_server.

Lemma ex_server_command : command_server = Some ex_server.
Proof. reflexivity. Qed.

(** The request of [SnapshotWitness.v], as bytes on the port. *)
Definition ex_stream := handleStream ex_server CommandService_ExecuteCommand_FullMethodName ex_request_bytes ∅.

Lemma ex_stream_keyed : Forall keyed (run_trace serve ex_stream ex_snap_world).
Proof. vm_compute. repeat constructor. Qed.

Lemma rpc_surface_witness :
  ∃ r seen', (run serve ex_stream ex_snap_world).1 = Returned (r, seen') ∧
    ∃ req resp, decode_request ex_request_bytes = Ok req ∧
      exec (ExecuteCommand ∅ req) (run_trace serve ex_stream ex_snap_world) (Returned (resp, seen')) ∧
      r = sendResponse resp.
Proof.
  destruct (rpc_surface ex_server CommandService_ExecuteCommand_FullMethodName ex_request_bytes ∅
    (run_trace serve ex_stream ex_snap_world) (run serve ex_stream ex_snap_world).1
    ex_server_command (run_exec _ _ _) ex_stream_keyed) as (r & seen' & Ho & [[Ht _]|(_ & _ & req & resp & Hd & Hx & Hr & _)]).
  - vm_compute in Ht. discriminate Ht.
  - exists r, seen'. split; [exact Ho|]. exists req, resp. split; [exact Hd|]. split; [exact Hx|exact Hr].
Defined.

(** A path that names no method of the service. *)
Example unknown_path_refused :
  run_trace serve (handleStream ex_server "/proto.CommandService/Execute" ex_request_bytes ∅) ex_snap_world = [].
Proof. vm_compute. reflexivity. Qed.

Definition ex_reply : CommandResponse :=
  match ex_handled.1 with Returned (r, _) => r | Panicked _ => zero_response end.
Definition ex_seen : cache :=
  match ex_handled.1 with Returned (_, c) => c | Panicked _ => ∅ end.

Lemma ex_handled_eq : run serve (ExecuteCommand ∅ ex_request) ex_snap_world = (Returned (ex_reply, ex_seen), ex_handled.2).
Proof. vm_compute. reflexivity. Qed.

Lemma remote_call_is_call_witness :
  ∃ r, run serve (commandServiceClient_ExecuteCommand (handleStream ex_server) (4 * 1024 * 1024) ex_request ∅) ex_snap_world
         = (Returned (r, ex_seen), ex_handled.2) ∧ r = Ok ex_reply ∧ rs_Status ex_reply = "success".
Proof.
  destruct (remote_call_is_call serve ex_server (4 * 1024 * 1024) ex_request ∅ ex_snap_world ex_reply ex_seen ex_handled.2
    ex_server_command ltac:(vm_compute; reflexivity) ltac:(vm_compute; congruence) ex_handled_eq) as (r & Hr & _ & Hok).
  exists r. split; [exact Hr|]. split; [apply Hok; vm_compute; congruence|vm_compute; reflexivity].
Defined.
