(* ===== verification/Crds.v ===== *)
(** * The embedded resource definition ([crds/lib.go], [crds.go])

    The operator ships the definition of its resource as an embedded YAML file
    named after group and resource.  The embedded files and the YAML decoder are
    an interface: the build embeds the first, the second is a library. *)

From S2P Require Import Prelude Effects GoStd Types.

Record GroupVersionResource := { gvr_Group : string; gvr_Version : string; gvr_Resource : string }.

Definition GroupName : string := "apps.k8s.appscode.com".
Definition ResourceKindSidekick : string := "Sidekick".
Definition ResourceSidekick : string := "sidekick".
Definition ResourceSidekicks : string := "sidekicks".
Definition SchemeGroupVersion : string * string := (GroupName, "v1alpha1").

(** [embed.FS] and [yaml.Unmarshal] into a pointer, which stays nil on the null
    document. *)
Class EmbeddedCRDs := {
  crd_file : string → option string;
  UnmarshalCRD : string → res (option json)
}.

Section Crds.
Context `{EmbeddedCRDs}.

Definition load (filename : string) : res (option json) :=
  match crd_file filename with
  | None => Err (PlainError ("open " +:+ filename +:+ ": file does not exist"))
  | Some data => UnmarshalCRD data
  end.

Definition gvr_String (gvr : GroupVersionResource) : string :=
  gvr_Group gvr +:+ "/" +:+ gvr_Version gvr +:+ ", Resource=" +:+ gvr_Resource gvr.

(** The name of the file of a resource. *)
Definition v1file (gvr : GroupVersionResource) : string :=
  gvr_Group gvr +:+ "_" +:+ gvr_Resource gvr +:+ ".yaml".

Definition CustomResourceDefinition (gvr : GroupVersionResource) : res json :=
  match load (v1file gvr) with
  | Err e => Err e
  | Ok None => Err (PlainError ("missing crd yamls for gvr: " +:+ gvr_String gvr))
  | Ok (Some crd) => Ok crd
  end.

Definition MustCustomResourceDefinition (gvr : GroupVersionResource) : outcome json :=
  match CustomResourceDefinition gvr with
  | Err e => Panicked (Error e)
  | Ok crd => Returned crd
  end.

(** [Sidekick.CustomResourceDefinition] *)
Definition Sidekick_CustomResourceDefinition : outcome json :=
  MustCustomResourceDefinition {| gvr_Group := SchemeGroupVersion.1; gvr_Version := SchemeGroupVersion.2;
                                  gvr_Resource := ResourceSidekicks |}.

(** The definition of the resource is available exactly when the build embedded
    the file [apps.k8s.appscode.com_sidekicks.yaml] and it decodes to a document
    that is not null. *)
Theorem sidekick_crd_available crd :
  Sidekick_CustomResourceDefinition = Returned crd ↔
  ∃ data, crd_file "apps.k8s.appscode.com_sidekicks.yaml" = Some data ∧ UnmarshalCRD data = Ok (Some crd).
Proof.
  unfold Sidekick_CustomResourceDefinition, MustCustomResourceDefinition, CustomResourceDefinition, load.
  change (v1file _) with "apps.k8s.appscode.com_sidekicks.yaml".
  destruct (crd_file _) as [data|]; [|naive_solver].
  destruct (UnmarshalCRD data) as [[c|]|e] eqn:E; naive_solver congruence.
Qed.
End Crds.
