(* ===== verification/LocalPass.v ===== *)
(** * A pass over a local Sidekick

    What one call of [Reconcile] does to a live, local Sidekick on a well-behaved
    server, up to the point where its phase is recorded, and what the steps after
    that do.  The metadata, the spec and the elected leader are fixed; the status
    and the pod are arbitrary.  [Convergence.v] and [Retries.v] build on it. *)

From S2P Require Import Prelude Effects GoStd Types Cluster Kmodules Leader Phase PodBuilder Local LocalProps Server LocalRun Codec Token SnapshotServer GrpcWiring Distributed Controller.

Lemma observe_pod_leader pod sk :
  st_Leader (sk_Status (observe_pod pod sk)) = st_Leader (sk_Status sk).
Proof.
  unfold observe_pod, over_limit, getTotalBackOffCounts.
  destruct (_ && _); [|done]. destruct (negb _); [|done]. simpl.
  destruct (sp_BackoffLimit (sk_Spec sk)); simpl; by case_match.
Qed.

Lemma getSidekickPhase_meta sk pod : sk_Meta (getSidekickPhase sk pod).2 = sk_Meta sk.
Proof.
  unfold getSidekickPhase. repeat (case_match; try done); pose proof (over_limit_snd sk) as (_ & Hm & _);
    by match goal with H : over_limit _ = _ |- _ => rewrite H in Hm end.
Qed.

Section Pass.
Context `{ApiServer W} `{Mergo} `{ObjectHasher} `{SortSlice} `{LabelSelectors} `{WorkJson} `{Crypto}.
Implicit Types (w : W) (sk : Sidekick) (p : Pod).

(** ** The setting *)

Context (proc : Proc) (req : NamespacedName) (m : ObjectMeta) (spec : SidekickSpec) (leader : Pod).

(** The Sidekick [sk] has the metadata and the spec of the setting. *)
Definition about (sk : Sidekick) : Prop := sk_Meta sk = m ∧ sk_Spec sk = spec.

(** Pods other than the Sidekick's own are as in [w]. *)
Definition same_others (w w' : W) : Prop :=
  ∀ key, key ≠ req → stored KPod w' key = stored KPod w key.

(** The election of [leader] depends on the other pods only. *)
Definition elects (w : W) : Prop :=
  ∀ w' sk, same_others w w' → about sk → run serve (getLeader sk) w' = (Returned (Ok leader), w').

(** What does not change from pass to pass. *)
Record setting : Prop := {
  set_key : meta_key m = req;
  set_live : DeletionTimestamp m = None;
  set_held : HasFinalizer m getFinalizerName = true;
  set_local : sp_Distributed spec = false;
  set_builds : ∃ cs, convContainers leader spec = Ok cs
}.

(** One pass, and several. *)
Definition pass (w : W) : W := (run serve (Reconcile proc req) w).2.
Definition passes (n : nat) (w : W) : W := Nat.iter n pass w.

(** Both reconcilers start with these two steps. *)
Lemma not_terminating_run w :
  (∀ p, stored KPod w req = Some p → DeletionTimestamp (pod_Meta p) = None) →
  run serve (removePodFinalizerIfMarkedForDeletion req) w = (Returned (false, None), w).
Proof.
  intros Hnd. unfold removePodFinalizerIfMarkedForDeletion. rewrite run_bind, (run_call serve (OpGet KPod req)).
  destruct (stored KPod w req) as [p|] eqn:Hp.
  - rewrite (serve_get KPod req w p Hp). cbn [fst snd]. by rewrite (Hnd p).
  - destruct (serve_get_missing KPod req w Hp) as (e & He & Hg). rewrite Hg. cbn [fst snd]. by rewrite He.
Qed.

Lemma meta_patch_refl : meta_patch m m.
Proof. split; [by destruct m|by left]. Qed.

Lemma add_finalizer_run w sk :
  meta_key m = req → DeletionTimestamp m = None → HasFinalizer m getFinalizerName = true →
  stored KSidekick w req = Some sk → sk_Meta sk = m →
  ∃ w', run serve (CreateOrPatch KSidekick sk
          (λ sk _, set_sk_Meta (AddFinalizer (sk_Meta sk) getFinalizerName) sk)) w = (Returned (sk, None), w') ∧
    stored KSidekick w' req = Some sk ∧
    ∀ k' key', (k', key') ≠ (KSidekick, req) → stored k' w' key' = stored k' w key'.
Proof.
  intros Hk Hl Hh Hs Hm.
  assert (Hadd : AddFinalizer m getFinalizerName = m) by (unfold AddFinalizer; by rewrite Hh).
  destruct (CreateOrPatch_stored KSidekick sk sk
    (λ sk _, set_sk_Meta (AddFinalizer (sk_Meta sk) getFinalizerName) sk) m w) as (w1 & Hr1 & Hs1 & Hf1).
  { unfold obj_key. simpl. by rewrite Hm, Hk. }
  { done. }
  { simpl. by rewrite Hm, Hadd. }
  { simpl. rewrite Hm. apply meta_patch_refl. }
  unfold released in Hs1. rewrite Hl in Hs1. simpl in Hs1.
  unfold obj_key in Hs1, Hf1. simpl in Hs1, Hf1, Hr1. rewrite Hm, Hk in Hs1, Hf1.
  assert (Esk : set_sk_Meta m sk = sk) by (rewrite <- Hm; by destruct sk).
  rewrite Esk in Hs1, Hr1. by exists w1.
Qed.

Context (Hset : setting).

Lemma elects_frame w w' : same_others w w' → elects w → elects w'.
Proof.
  intros Hs He w'' sk Hs' Ha. apply He; [|done].
  intros key Hk. by rewrite Hs', Hs.
Qed.

Lemma release_frees p :
  Finalizers (pod_Meta p) = [getFinalizerName] → is_Some (DeletionTimestamp (pod_Meta p)) →
  released (pod_Meta (release_pod p)) = true.
Proof.
  intros Hf Hd. unfold released. simpl. rewrite Hf. simpl. by rewrite bool_decide_eq_true_2.
Qed.

Lemma held_by_operator p :
  Finalizers (pod_Meta p) = [getFinalizerName] → HasFinalizer (pod_Meta p) getFinalizerName = true.
Proof. intros Hf. apply HasFinalizer_spec. rewrite Hf. by apply list_elem_of_singleton. Qed.

(** ** A terminating pod *)

(** A terminating pod that only the operator holds is released; if nobody marked
    it, its failure is recorded. *)
Lemma terminating_release w sk p :
  stored KSidekick w req = Some sk → about sk → stored KPod w req = Some p →
  meta_key (pod_Meta p) = req → Finalizers (pod_Meta p) = [getFinalizerName] →
  is_Some (DeletionTimestamp (pod_Meta p)) →
  ∃ w', run serve (removePodFinalizerIfMarkedForDeletion req) w = (Returned (true, None), w') ∧
    stored KPod w' req = None ∧
    stored KSidekick w' req =
      Some (match gm_lookup (Annotations (pod_Meta p)) deletionInitiatorKey with
            | Some _ => sk
            | None => record_failure (UID (pod_Meta p)) sk
            end) ∧
    same_others w w'.
Proof.
  intros Hs [Ha1 Ha2] Hp Hk Hf Hd.
  destruct (gm_lookup (Annotations (pod_Meta p)) deletionInitiatorKey) eqn:Hm.
  - destruct (marked_deletion_run req p w Hp Hk Hd) as (w' & Hr & Hp' & Hfr);
      [by eexists|by apply held_by_operator|].
    rewrite release_frees in Hp' by done. exists w'.
    split; [done|]. split; [done|]. split; [by rewrite Hfr|]. intros key Hne. apply Hfr. congruence.
  - destruct (external_deletion_run req p sk w Hp Hk Hs) as (w' & Hr & Hs' & Hp' & Hfr);
      [by rewrite Ha1; apply set_key|done|by rewrite Ha1; apply set_live|done|].
    rewrite held_by_operator in Hr, Hp' by done. rewrite release_frees in Hp' by done.
    exists w'. do 3 (split; [done|]). intros key Hne. by apply Hfr.
Qed.

(** Nothing else happens in that pass. *)
Lemma terminating_run w sk p :
  stored KSidekick w req = Some sk → about sk → stored KPod w req = Some p →
  meta_key (pod_Meta p) = req → Finalizers (pod_Meta p) = [getFinalizerName] →
  is_Some (DeletionTimestamp (pod_Meta p)) →
  ∃ w', run serve (Reconcile proc req) w = (Returned (no_requeue, None, proc), w') ∧
    stored KPod w' req = None ∧
    stored KSidekick w' req =
      Some (match gm_lookup (Annotations (pod_Meta p)) deletionInitiatorKey with
            | Some _ => sk
            | None => record_failure (UID (pod_Meta p)) sk
            end) ∧
    same_others w w'.
Proof.
  intros Hs Ha Hp Hk Hf Hd. destruct (terminating_release w sk p Hs Ha Hp Hk Hf Hd) as (w' & Hr & Hrest).
  exists w'. split; [|done]. unfold Reconcile. by rewrite run_bind, Hr.
Qed.

(** A pass over a Sidekick whose pod is not terminating is [reconcileLocal]. *)
Lemma live_run w sk :
  stored KSidekick w req = Some sk → about sk →
  (∀ p, stored KPod w req = Some p → DeletionTimestamp (pod_Meta p) = None) →
  run serve (Reconcile proc req) w =
  run serve ('(res, err) ← reconcileLocal req sk; mret (res, err, proc)) w.
Proof.
  intros Hs [Ha1 Ha2] Hnd. unfold Reconcile. rewrite run_bind, not_terminating_run by done. cbn iota beta.
  rewrite run_bind, (run_call serve (OpGet KSidekick req)), (serve_get KSidekick req w sk Hs). cbn [fst snd].
  by rewrite Ha2, (set_local Hset).
Qed.

(** ** Up to the phase *)

Lemma recordPhase_run p sk w cur :
  sk_Meta sk = m → stored KSidekick w req = Some cur → about cur →
  let phase := (getSidekickPhase sk (Some p)).1 in
  let sk' := set_sk_Status (set_Phase phase (sk_Status sk)) cur in
  ∃ w', run serve (recordPhase p sk) w = (Returned (Ok phase, sk'), w') ∧
    stored KSidekick w' req = Some (obj_norm (k := KSidekick) sk') ∧
    ∀ key, stored KPod w' key = stored KPod w key.
Proof.
  intros Hm Hs [Ha1 Ha2]. unfold recordPhase.
  pose proof (getSidekickPhase_status sk (Some p)) as Hst.
  pose proof (getSidekickPhase_meta sk (Some p)) as Hmeta.
  destruct (getSidekickPhase sk (Some p)) as [phase sk1]. cbn [fst snd] in Hst, Hmeta |- *.
  destruct (updateSidekickStatus_run (upd_status (set_Phase phase) sk1) cur req w)
    as (w' & Hr & Hs' & Hf);
    [by simpl; rewrite Hmeta, Hm; apply set_key|done|by rewrite Ha1; apply set_key|].
  exists w'. rewrite run_bind, Hr, run_ret. simpl in Hs' |- *. rewrite Hst in Hs' |- *.
  split; [done|]. split; [done|]. intros key. by apply (Hf KPod).
Qed.

(** The Sidekick with its counters brought up to date. *)
Definition seen (pod : option Pod) (sk : Sidekick) : Sidekick :=
  match pod with
  | Some p => observe_pod p (init_counters sk)
  | None => init_counters sk
  end.

(** The phase that is recorded, and the Sidekick the rest of the pass works with. *)
Definition seen_phase (pod : option Pod) (sk : Sidekick) : string :=
  (getSidekickPhase (seen pod sk) (Some (default zero_Pod pod))).1.
Definition recorded (pod : option Pod) (sk : Sidekick) : Sidekick :=
  set_sk_Status (set_Phase (seen_phase pod sk) (sk_Status (seen pod sk))) sk.

Lemma recorded_about pod sk : about sk → about (recorded pod sk).
Proof. done. Qed.

Lemma recorded_leader pod sk :
  st_Leader (sk_Status (recorded pod sk)) = st_Leader (sk_Status sk).
Proof. destruct pod as [p|]; simpl; [by rewrite observe_pod_leader|done]. Qed.

Lemma calculateSidekickPhase_run sk w :
  stored KSidekick w req = Some sk → about sk →
  let pod := stored KPod w req in
  ∃ w', run serve (calculateSidekickPhase sk) w =
      (Returned (Ok (seen_phase pod sk), recorded pod sk), w') ∧
    stored KSidekick w' req = Some (obj_norm (k := KSidekick) (recorded pod sk)) ∧
    ∀ key, stored KPod w' key = stored KPod w key.
Proof.
  intros Hs Ha. pose proof Ha as [Ha1 Ha2]. unfold calculateSidekickPhase.
  change (meta_key (sk_Meta (init_counters sk))) with (meta_key (sk_Meta sk)).
  rewrite Ha1, (set_key Hset), run_bind, (run_call serve (OpGet KPod req)).
  destruct (stored KPod w req) as [p|] eqn:Hp.
  - rewrite (serve_get KPod req w p Hp). cbn [fst snd].
    destruct (observe_pod_spec p (init_counters sk)) as (_ & _ & _ & Hmeta).
    apply (recordPhase_run p (observe_pod p (init_counters sk)) w sk); [by rewrite Hmeta|done..].
  - destruct (serve_get_missing KPod req w Hp) as (e & He & Hg). rewrite Hg. cbn [fst snd]. rewrite He.
    by apply (recordPhase_run zero_Pod (init_counters sk) w sk).
Qed.

(** What is left of a pass once the phase is recorded. *)
Definition after_phase (phase : string) (sk : Sidekick) : M (Result * option error * Proc) :=
  '(dropKey, err, sk) ← dropIfTerminal req phase sk;
  '(res, err) ← (match err with
    | Some e => mret (no_requeue, Some e)
    | None => if (dropKey : bool) then mret (no_requeue, None) else reconcileLeader req sk
    end);
  mret (res, err, proc).

(** A pass over a Sidekick whose pod is not terminating records its phase. *)
Lemma reaches_phase w sk :
  stored KSidekick w req = Some sk → about sk →
  (∀ p, stored KPod w req = Some p → DeletionTimestamp (pod_Meta p) = None) →
  let pod := stored KPod w req in
  ∃ w', run serve (Reconcile proc req) w =
      run serve (after_phase (seen_phase pod sk) (recorded pod sk)) w' ∧
    stored KSidekick w' req = Some (obj_norm (k := KSidekick) (recorded pod sk)) ∧
    (∀ key, stored KPod w' key = stored KPod w key) ∧ served w w'.
Proof.
  intros Hs Ha Hnd pod. pose proof Ha as [Ha1 Ha2].
  destruct (add_finalizer_run w sk (set_key Hset) (set_live Hset) (set_held Hset) Hs Ha1) as (w1 & Hr1 & Hs1 & Hf1).
  destruct (calculateSidekickPhase_run sk w1 Hs1 Ha) as (w2 & Hr2 & Hs2 & Hf2).
  rewrite Hf1 in Hr2, Hs2 by done. fold pod in Hr2, Hs2.
  assert (E2 : run serve (handleSidekickFinalizer sk) w = (Returned (sk, None), w1)).
  { unfold handleSidekickFinalizer. rewrite bool_decide_eq_false_2.
    - exact Hr1.
    - rewrite Ha1, (set_live Hset). by intros []. }
  exists w2. split; [|split; [done|split]].
  - rewrite (live_run w sk Hs Ha Hnd). unfold reconcileLocal, after_phase.
    rewrite run_bind, run_bind, E2. unfold updateSidekickPhase. rewrite !run_bind, Hr2. cbn iota beta.
    destruct (run serve (dropIfTerminal _ _ _) w2) as [[[[d e] s]|msg] w3]; [|done].
    by rewrite run_bind.
  - intros key. rewrite Hf2. by apply Hf1.
  - etransitivity; [by eapply run_served_eq|]. by eapply run_served_eq.
Qed.

(** A phase that is not terminal leads to the election. *)
Lemma after_live_phase phase sk w :
  phase ≠ SideKickPhaseFailed → st_Phase (sk_Status sk) ≠ SidekickPhaseSucceeded →
  run serve (after_phase phase sk) w =
  run serve ('(res, err) ← reconcileLeader req sk; mret (res, err, proc)) w.
Proof.
  intros Hnf Hns. unfold after_phase, dropIfTerminal.
  rewrite (proj2 (String.eqb_neq _ _) Hnf), (proj2 (String.eqb_neq _ _) Hns).
  by rewrite run_bind, run_ret.
Qed.

(** The pod with its phase set to Failed. *)
Definition fail_pod (p : Pod) : Pod :=
  set_pod_Status {| pst_Phase := PodFailed; pst_PodIP := pst_PodIP (pod_Status p);
    pst_Conditions := pst_Conditions (pod_Status p);
    pst_ContainerStatuses := pst_ContainerStatuses (pod_Status p);
    pst_InitContainerStatuses := pst_InitContainerStatuses (pod_Status p) |} p.

(** A terminal phase ends the pass; at most the phase of the pod changes. *)
Lemma after_terminal_phase phase sk w :
  phase = SideKickPhaseFailed ∨ phase = SidekickPhaseSucceeded → st_Phase (sk_Status sk) = phase →
  (∀ p, stored KPod w req = Some p → meta_key (pod_Meta p) = req) →
  ∃ w', run serve (after_phase phase sk) w = (Returned (no_requeue, None, proc), w') ∧
    stored KSidekick w' req = stored KSidekick w req ∧ same_others w w' ∧
    (stored KPod w' req = stored KPod w req ∨
     ∃ p, stored KPod w req = Some p ∧ stored KPod w' req = Some (fail_pod p)).
Proof.
  intros Hph Hst Hk. unfold after_phase, dropIfTerminal.
  destruct (String.eqb_spec phase SideKickPhaseFailed) as [->|Hne].
  - destruct (stored KPod w req) as [p|] eqn:Hp.
    + destruct (String.eqb (pst_Phase (pod_Status p)) PodRunning) eqn:Hrun.
      * destruct (serve_status_update KPod (fail_pod p) p w) as (w' & Hu & Hp');
          [unfold obj_key; simpl; by rewrite (Hk p)|].
        unfold obj_key in Hp'. simpl in Hp'. rewrite (Hk p) in Hp' by done.
        pose proof (serve_frame (OpStatusUpdate KPod (fail_pod p)) w) as Hfr. rewrite Hu in Hfr.
        change (op_target _) with (Some (KPod, meta_key (pod_Meta p))) in Hfr. rewrite (Hk p) in Hfr by done.
        exists w'. rewrite run_bind, run_bind, (run_call serve (OpGet KPod req)), (serve_get KPod req w p Hp).
        cbn [fst snd]. rewrite Hrun. cbn zeta. fold (fail_pod p).
        rewrite run_bind, (run_call serve (OpStatusUpdate KPod (fail_pod p))), Hu.
        split; [done|]. split; [apply Hfr; congruence|].
        split; [intros key Hne; apply Hfr; congruence|]. right. by exists p.
      * exists w. rewrite run_bind, run_bind, (run_call serve (OpGet KPod req)), (serve_get KPod req w p Hp).
        cbn [fst snd]. rewrite Hrun. split; [done|]. split; [done|]. split; [done|]. by left.
    + destruct (serve_get_missing KPod req w Hp) as (e & He & Hg).
      exists w. rewrite run_bind, run_bind, (run_call serve (OpGet KPod req)), Hg. cbn [fst snd].
      unfold IgnoreNotFound. rewrite He. split; [done|]. split; [done|]. split; [done|]. by left.
  - destruct Hph as [?| ->]; [done|]. rewrite Hst, String.eqb_refl. exists w.
    split; [done|]. split; [done|]. split; [done|]. by left.
Qed.

(** ** From the election on *)

(** The counters of [sk] are those of the status [cur] the server stores. *)
Definition same_counters (sk cur : Sidekick) : Prop :=
  st_FailureCount (sk_Status cur) = non_empty (st_FailureCount (sk_Status sk)) ∧
  st_ContainerRestartCountsPerPod (sk_Status cur) =
    non_empty (st_ContainerRestartCountsPerPod (sk_Status sk)).

Lemma creates_pod w sk cur :
  stored KPod w req = None → about sk → stored KSidekick w req = Some cur → about cur →
  ∃ w' p cur', run serve (createSidekickPod sk leader) w = (Returned None, w') ∧
    stored KSidekick w' req = Some cur' ∧ about cur' ∧ same_counters sk cur' ∧
    lst_Name (st_Leader (sk_Status cur')) = Name (pod_Meta leader) ∧ same_others w w' ∧
    stored KPod w' req = Some p ∧ meta_key (pod_Meta p) = req ∧
    Finalizers (pod_Meta p) = [getFinalizerName] ∧ DeletionTimestamp (pod_Meta p) = None ∧
    Annotations (pod_Meta p) = Some (pod_annotations sk leader) ∧
    ps_NodeName (pod_Spec p) = ps_NodeName (pod_Spec leader) ∧
    pst_Phase (pod_Status p) = "Pending" ∧ getContainerRestartCounts p = 0 ∧
    ∃ md w1, serve (OpCreate KPod md) w = (Ok p, w1) ∧ served w1 w'.
Proof.
  intros Hp [Ha1 Ha2] Hs [Hc1 Hc2]. destruct (set_builds Hset) as [[cs ics] Hb].
  destruct (newSidekickPod sk leader) as [r sk'] eqn:E.
  assert (Hr : ∃ pod, r = Ok pod ∧ Finalizers (pod_Meta pod) = []).
  { unfold newSidekickPod in E. rewrite Ha2, Hb in E. simplify_eq. by eexists. }
  destruct Hr as (pod & -> & Hnf).
  destruct (createSidekickPod_run req sk cur leader pod sk' w E) as
    (w2 & p & cur2 & Hr & Hp2 & Hcr & Hs2 & Hm2 & Hsp2 & Hl2 & _ & Hfr & Hcf & Hcn & Hu);
    [by rewrite Ha1; apply set_key|done|done|by rewrite Hc1; apply set_key|].
  destruct Hcr as (Hk & Hd & Han & Hf & _ & Hn & Hph & Hcst & Hicst). simpl in Hd, Han, Hf, Hn, Hph, Hcst, Hicst.
  pose proof (newSidekickPod_ok _ _ _ _ E) as (cs' & ics' & _ & _ & Hpod).
  assert (Hadd : AddFinalizer (pod_Meta pod) getFinalizerName =
                 set_Finalizers [getFinalizerName] (pod_Meta pod)).
  { unfold AddFinalizer, HasFinalizer. by rewrite Hnf. }
  unfold obj_key in Hk. simpl in Hk. rewrite Hadd in Hk, Han, Hf.
  exists w2, p, cur2. subst pod. split_and!; try done.
  - split; [by rewrite Hm2|by rewrite Hsp2].
  - intros key Hne. by apply Hfr.
  - rewrite Hk. unfold meta_key. simpl. rewrite Ha1. apply (set_key Hset).
  - unfold getContainerRestartCounts. by rewrite Hcst, Hicst.
Qed.

Lemma takes_down w sk cur p :
  stored KPod w req = Some p → meta_key (pod_Meta p) = req →
  Finalizers (pod_Meta p) = [getFinalizerName] →
  about sk → stored KSidekick w req = Some cur → about cur →
  ∃ w' t cur', run serve (deletePodAndResetStatus sk p) w = (Returned None, w') ∧
    stored KSidekick w' req = Some cur' ∧ about cur' ∧ same_counters sk cur' ∧ same_others w w' ∧
    stored KPod w' req = Some (set_pod_Meta (mark_deleted t (pod_Meta (annotate_initiator p))) p).
Proof.
  intros Hp Hk Hf [Ha1 Ha2] Hs [Hc1 Hc2].
  destruct (deletePod_run p req w Hk Hp (held_by_operator p Hf)) as (t & w1 & Hr1 & Hp1 & Hf1).
  destruct (updateSidekickStatus_run (reset_status sk) cur req w1) as (w2 & Hr2 & Hs2 & Hf2);
    [by simpl; rewrite Ha1; apply set_key|by rewrite Hf1|by rewrite Hc1; apply set_key|].
  eexists w2, t, _. unfold deletePodAndResetStatus. rewrite run_bind, Hr1, run_bind, Hr2.
  split; [done|]. split; [exact Hs2|]. split; [done|]. split; [done|]. split.
  { intros key Hne. rewrite Hf2, Hf1; [done|congruence..]. }
  rewrite Hf2; done.
Qed.

(** With a leader and no pod, the pass creates one. *)
Lemma leader_creates_run w w' sk :
  run serve (getLeader sk) w = (Returned (Ok leader), w) → stored KPod w req = None →
  run serve (createSidekickPod sk leader) w = (Returned None, w') →
  run serve (reconcileLeader req sk) w = (Returned (no_requeue, None), w').
Proof.
  intros Hl Hp Hr. destruct (serve_get_missing KPod req w Hp) as (e & He & Hg).
  assert (Hsync : run serve (syncOrCreate req sk leader) w = (Returned (no_requeue, None), w')).
  { unfold syncOrCreate. rewrite run_bind, (run_call serve (OpGet KPod req)), Hg. cbn [fst snd].
    by rewrite He, run_bind, Hr. }
  unfold reconcileLeader. rewrite run_bind, Hl. destruct (negb _); [|done].
  by rewrite run_bind, (run_call serve (OpGet KPod req)), Hg.
Qed.

(** A pod of another node is charged as a failure before it is taken down. *)
Definition charge_move (sk : Sidekick) (p : Pod) : Sidekick :=
  if negb (String.eqb (ps_NodeName (pod_Spec leader)) (ps_NodeName (pod_Spec p))) &&
     negb (String.eqb (ps_NodeName (pod_Spec p)) "")
  then put_failure (UID (pod_Meta p)) true sk else sk.

(** With a leader and a pod, the pass takes the pod down or refreshes the status. *)
Lemma leader_pod_run w sk p :
  run serve (getLeader sk) w = (Returned (Ok leader), w) → stored KPod w req = Some p →
  counted sk →
  let sk' := if String.eqb (Name (pod_Meta leader)) (lst_Name (st_Leader (sk_Status sk)))
             then charge_move sk p else sk in
  let down := negb (String.eqb (Name (pod_Meta leader)) (lst_Name (st_Leader (sk_Status sk)))) ||
              podNeedsRecreate sk leader p in
  let refresh := upd_status (λ st, set_ObservedGeneration (Generation (sk_Meta sk))
                   (set_Pod (pst_Phase (pod_Status p)) st)) sk in
  run serve (reconcileLeader req sk) w =
  run serve (err ← (if down then deletePodAndResetStatus sk' p
                    else '(_, err) ← updateSidekickStatus refresh; mret err);
             mret (no_requeue, err)) w.
Proof.
  intros Hl Hp [mf Hmf]. unfold reconcileLeader. rewrite run_bind, Hl.
  assert (Hg : ∀ {B} (f : res Pod → M B), run serve (r ← call (OpGet KPod req); f r) w = run serve (f (Ok p)) w).
  { intros B f. by rewrite run_bind, (run_call serve (OpGet KPod req)), (serve_get KPod req w p Hp). }
  destruct (String.eqb _ _); cbn [negb orb].
  - unfold syncOrCreate. rewrite Hg. unfold syncExistingPod, charge_move, put_failure.
    destruct (podNeedsRecreate sk leader p); [|done].
    destruct (negb _ && negb _); [|done].
    rewrite !run_bind. unfold gm_write. rewrite Hmf, !run_ret.
    unfold upd_status. by rewrite Hmf.
  - by rewrite Hg.
Qed.
End Pass.
