(* ===== verification/Retries.v ===== *)
(** * The number of retries is bounded

    A Sidekick that is not restarted for ever (policy Never or OnFailure) makes a
    bounded number of pods: every pod that goes is charged as a failure, and once
    the charges exceed the backoff limit no pod is created.  The environment may
    change the status of the pod, restart its containers within a bound, and
    delete the pod, between any two passes and any number of times. *)

From S2P Require Import Prelude Effects GoStd Types Cluster Kmodules Leader Phase PodBuilder Local LocalProps Server LocalRun Codec Token SnapshotServer GrpcWiring Distributed Controller LocalPass.

(** ** Counters, less those of one pod *)

Definition fcounts (sk : Sidekick) : gmap string bool := default ∅ (st_FailureCount (sk_Status sk)).
Definition rcounts (sk : Sidekick) : gmap string Z :=
  default ∅ (st_ContainerRestartCountsPerPod (sk_Status sk)).

(** The failures charged so far, the current pod [u] counted as if it had failed. *)
Definition spent (u : option string) (sk : Sidekick) : Z :=
  match u with
  | None => failures sk
  | Some u => 1 + map_sum (λ b : bool, if b then 1 else 0) (Some (delete u (fcounts sk)))
  end.

(** The restarts of the pods before the current one. *)
Definition past_restarts (u : option string) (sk : Sidekick) : Z :=
  match u with
  | None => restarts sk
  | Some u => map_sum (λ n : Z, n) (Some (delete u (rcounts sk)))
  end.

Lemma default_non_empty {A} (m : gomap A) : default ∅ (non_empty m) = default ∅ m.
Proof. destruct m as [m|]; [|done]. simpl. case_decide; by subst. Qed.

Lemma same_counters_maps sk cur :
  same_counters sk cur → fcounts cur = fcounts sk ∧ rcounts cur = rcounts sk.
Proof. intros [Hf Hr]. unfold fcounts, rcounts. by rewrite Hf, Hr, !default_non_empty. Qed.

(** Charges and restarts depend on the two maps only. *)
Lemma spent_ext u sk sk' : fcounts sk' = fcounts sk → spent u sk' = spent u sk.
Proof. intros E. destruct u; simpl; [by rewrite E|]. unfold failures, map_sum. by fold (fcounts sk') (fcounts sk); rewrite E. Qed.

Lemma past_restarts_ext u sk sk' : rcounts sk' = rcounts sk → past_restarts u sk' = past_restarts u sk.
Proof. intros E. destruct u; simpl; [by rewrite E|]. unfold restarts, map_sum. by fold (rcounts sk') (rcounts sk); rewrite E. Qed.

(** A charged pod that goes leaves the total as it is. *)
Lemma spent_charged u sk : fcounts sk !! u = Some true → failures sk = spent (Some u) sk.
Proof. intros E. unfold failures. exact (map_sum_delete _ _ u true E). Qed.

(** A new pod costs one. *)
Lemma spent_new u sk : fcounts sk !! u = None → spent (Some u) sk = failures sk + 1.
Proof. intros E. simpl. rewrite delete_id by done. unfold failures. unfold map_sum at 2. fold (fcounts sk). unfold map_sum. simpl. lia. Qed.

Lemma past_restarts_new u sk : rcounts sk !! u = None → past_restarts (Some u) sk = restarts sk.
Proof. intros E. simpl. by rewrite delete_id. Qed.

Lemma past_restarts_gone u sk r :
  (∀ v, rcounts sk !! u = Some v → 0 ≤ v ≤ r) → 0 ≤ r →
  past_restarts (Some u) sk ≤ restarts sk ≤ past_restarts (Some u) sk + r.
Proof.
  intros Hv Hr. destruct (rcounts sk !! u) as [v|] eqn:E.
  - unfold restarts. pose proof (map_sum_delete (λ n : Z, n) (rcounts sk) u v E) as Hs.
    change (map_sum _ (st_ContainerRestartCountsPerPod (sk_Status sk)))
      with (map_sum (λ n : Z, n) (Some (rcounts sk))). simpl in *.
    specialize (Hv v eq_refl). lia.
  - rewrite past_restarts_new by done. lia.
Qed.

(** What the observation of a pod does to the counters: only its own entries
    change, and under policy Never a failed pod is charged. *)
Lemma observe_pod_fcounts p sk :
  delete (UID (pod_Meta p)) (fcounts (observe_pod p sk)) = delete (UID (pod_Meta p)) (fcounts sk).
Proof.
  assert (Hput : ∀ b s, delete (UID (pod_Meta p)) (fcounts (put_failure (UID (pod_Meta p)) b s)) =
                        delete (UID (pod_Meta p)) (fcounts s)).
  { intros b s. unfold fcounts, put_failure. simpl.
    destruct (st_FailureCount (sk_Status s)); simpl; [by rewrite delete_insert_eq|done]. }
  unfold observe_pod. destruct (_ && _); [|done]. destruct (negb _); [|by rewrite Hput].
  set (s := put_failure _ _ _). pose proof (over_limit_snd s) as (Hst & _).
  assert (E : fcounts (over_limit s).2 = fcounts s) by (unfold fcounts; by rewrite Hst).
  destruct (over_limit s) as [[] s']; simpl in E; [rewrite Hput|]; rewrite E; unfold s; by rewrite Hput.
Qed.

Lemma observe_pod_rcounts p sk :
  is_Some (st_ContainerRestartCountsPerPod (sk_Status sk)) →
  rcounts (observe_pod p sk) = <[UID (pod_Meta p) := getContainerRestartCounts p]> (rcounts sk).
Proof.
  intros [mr Hmr].
  assert (E : ∀ b s, rcounts (put_failure (UID (pod_Meta p)) b s) = rcounts s) by done.
  assert (E0 : rcounts (put_restarts (UID (pod_Meta p)) (getContainerRestartCounts p) sk) =
    <[UID (pod_Meta p) := getContainerRestartCounts p]> (rcounts sk)).
  { unfold rcounts, put_restarts. simpl. by rewrite Hmr. }
  unfold observe_pod. destruct (_ && _); [|done]. destruct (negb _); [|by rewrite E].
  set (s := put_failure _ _ _). pose proof (over_limit_snd s) as (Hst & _).
  assert (E' : rcounts (over_limit s).2 = rcounts s) by (unfold rcounts; by rewrite Hst).
  destruct (over_limit s) as [[] s']; simpl in E'; [rewrite E|]; rewrite E'; unfold s; by rewrite E.
Qed.

Lemma observe_pod_charged p sk :
  is_Some (st_FailureCount (sk_Status sk)) → pst_Phase (pod_Status p) = PodFailed →
  DeletionTimestamp (pod_Meta p) = None → sp_RestartPolicy (sk_Spec sk) = RestartPolicyNever →
  fcounts (observe_pod p sk) !! UID (pod_Meta p) = Some true.
Proof.
  intros [mf Hmf] Hph Hd Hn. unfold observe_pod. rewrite Hph, Hd, String.eqb_refl.
  change (sp_RestartPolicy (sk_Spec (put_failure _ _ _))) with (sp_RestartPolicy (sk_Spec sk)).
  rewrite Hn, String.eqb_refl. unfold fcounts, put_failure. simpl. rewrite Hmf. simpl.
  by rewrite lookup_insert_eq.
Qed.

Section Retries.
Context `{ApiServer W, !FreshUids W} `{Mergo} `{ObjectHasher} `{SortSlice} `{LabelSelectors} `{WorkJson} `{Crypto}.
Implicit Types (w : W) (sk : Sidekick) (p : Pod).
Context (proc : Proc) (req : NamespacedName) (m : ObjectMeta) (spec : SidekickSpec) (leader : Pod).
(** The most container restarts a pod ever reports. *)
Context (r : Z).

Abbreviation about := (about m spec).
Abbreviation elects := (elects req m spec leader).
Abbreviation pass := (pass proc req).
Abbreviation lim := (default 0 (sp_BackoffLimit spec)).
Abbreviation norm := (obj_norm (k := KSidekick)).

(** ** Executions *)

Definition uid_at (w : W) : option string := (λ p : Pod, UID (pod_Meta p)) <$> stored KPod w req.

(** What happens to the pod outside the operator: its status changes, or its
    deletion is requested (the operator's finalizer still holds it). *)
Inductive pod_moves : option Pod → option Pod → Prop :=
| moves_none : pod_moves None None
| moves_status p st :
    0 ≤ getContainerRestartCounts (set_pod_Status st p) ≤ r →
    pod_moves (Some p) (Some (set_pod_Status st p))
| moves_deleted p t :
    pod_moves (Some p) (Some (set_pod_Meta (mark_deleted t (pod_Meta p)) p)).

Record env_step (w w' : W) : Prop := {
  env_sk : stored KSidekick w' req = stored KSidekick w req;
  env_pod : pod_moves (stored KPod w req) (stored KPod w' req);
  env_elects : elects w';
  env_used : ∀ u, used w u → used w' u
}.

(** Whether the pass leaves a pod that was not there before. *)
Definition creates (w : W) : Z :=
  match uid_at (pass w) with
  | Some u => if bool_decide (uid_at w = Some u) then 0 else 1
  | None => 0
  end.

(** [reach w0 n w]: an execution from [w0] to [w] in which [n] pods were created. *)
Inductive reach (w0 : W) : Z → W → Prop :=
| reach_start : reach w0 0 w0
| reach_env n w w' : reach w0 n w → env_step w w' → reach w0 n w'
| reach_pass n w : reach w0 n w → reach w0 (n + creates w) (pass w).

(** The uids the counters mention are in use. *)
Definition keys_used (w : W) (sk : Sidekick) : Prop :=
  ∀ u, is_Some (fcounts sk !! u) ∨ is_Some (rcounts sk !! u) → used w u.

(** The start: no pod, [f0] failures and [r0] restarts on the books. *)
Record start (f0 r0 : Z) (w : W) : Prop := {
  start_sk : ∃ sk, stored KSidekick w req = Some sk ∧ about sk ∧ keys_used w sk ∧
    failures sk = f0 ∧ restarts sk = r0;
  start_pod : stored KPod w req = None;
  start_elects : elects w
}.

(** ** The invariant *)

Definition marked (p : Pod) : Prop :=
  is_Some (gm_lookup (Annotations (pod_Meta p)) deletionInitiatorKey).

(** The pod is as the operator built it, for [leader]. *)
Definition as_built (sk : Sidekick) (p : Pod) : Prop :=
  Annotations (pod_Meta p) = Some (pod_annotations sk leader) ∧
  ps_NodeName (pod_Spec p) = ps_NodeName (pod_Spec leader) ∧
  lst_Name (st_Leader (sk_Status sk)) = Name (pod_Meta leader).

Record pod_ok (w : W) (sk : Sidekick) (p : Pod) : Prop := {
  po_key : meta_key (pod_Meta p) = req;
  po_held : Finalizers (pod_Meta p) = [getFinalizerName];
  po_used : used w (UID (pod_Meta p));
  po_restarts : 0 ≤ getContainerRestartCounts p ≤ r;
  po_recorded : ∀ v, rcounts sk !! UID (pod_Meta p) = Some v → 0 ≤ v ≤ r;
  po_state : (marked p ∧ is_Some (DeletionTimestamp (pod_Meta p)) ∧
              fcounts sk !! UID (pod_Meta p) = Some true) ∨
             (¬ marked p ∧ as_built sk p)
}.

Record books (f0 r0 n : Z) (w : W) (sk : Sidekick) : Prop := {
  bk_sk : stored KSidekick w req = Some sk;
  bk_about : about sk;
  bk_keys : keys_used w sk;
  bk_spent : spent (uid_at w) sk = n + f0;
  bk_restarts : 0 ≤ past_restarts (uid_at w) sk ≤
    r0 + r * (n - if bool_decide (is_Some (uid_at w)) then 1 else 0);
  bk_pod : ∀ p, stored KPod w req = Some p → pod_ok w sk p;
  bk_elects : elects w
}.

Definition bounded (f0 n : Z) : Prop := 0 ≤ n ∧ (n = 0 ∨ n + f0 ≤ lim + 1).

Context (Hset : setting req m spec leader) (Hr : 0 ≤ r).
Context (Hpol : sp_RestartPolicy spec ≠ RestartPolicyAlways).
Context (Hunmarked : gm_lookup (Annotations m) deletionInitiatorKey = None).

Lemma keys_used_mono w w' sk sk' :
  (∀ u, used w u → used w' u) → fcounts sk' = fcounts sk → rcounts sk' = rcounts sk →
  keys_used w sk → keys_used w' sk'.
Proof. intros Hu Ef Er Hk u. rewrite Ef, Er. intros Hi. by apply Hu, Hk. Qed.

Lemma pass_used w u : used w u → used (pass w) u.
Proof. apply served_used. apply run_served. Qed.

(** The environment keeps the books. *)
Lemma env_books f0 r0 n w w' sk : books f0 r0 n w sk → env_step w w' → books f0 r0 n w' sk.
Proof.
  intros [Hs Ha Hk Hsp Hre Hp He] [Es Ep Ee Eu].
  assert (Hu : uid_at w' = uid_at w) by (unfold uid_at; by destruct Ep).
  split; rewrite ?Es, ?Hu; try done; [intros u Hi; by apply Eu, Hk|].
  intros p' Hp'. rewrite Hp' in Ep. inversion Ep as [|p st Hst E1 E2|p t E1 E2]; subst p';
    destruct (Hp p) as [G1 G2 G3 G4 G5 G6]; try done; split; try done; try by apply Eu.
  destruct G6 as [(? & ? & ?)|?]; [left; split_and!; [done|by eexists|done]|by right].
Qed.

(** What a pass has to keep. *)
Definition kept (f0 r0 n : Z) (w : W) : Prop :=
  ∃ sk, books f0 r0 (n + creates w) (pass w) sk ∧ bounded f0 (n + creates w).

Lemma creates_same w : uid_at (pass w) = uid_at w → creates w = 0.
Proof.
  unfold creates. intros ->. destruct (uid_at w); [|done]. by rewrite bool_decide_eq_true_2.
Qed.

Lemma creates_gone w : uid_at (pass w) = None → creates w = 0.
Proof. unfold creates. by intros ->. Qed.

(** ** A terminating pod *)

Lemma record_failure_maps u sk :
  fcounts (record_failure u sk) = <[u := true]> (fcounts sk) ∧
  rcounts (record_failure u sk) = rcounts sk.
Proof.
  split; [unfold fcounts; by rewrite record_failure_map|].
  unfold rcounts, record_failure. simpl. apply default_non_empty.
Qed.

Lemma terminating_kept f0 r0 n w sk p :
  books f0 r0 n w sk → bounded f0 n → stored KPod w req = Some p →
  is_Some (DeletionTimestamp (pod_Meta p)) → kept f0 r0 n w.
Proof.
  intros Hb Hn Hp Hd. destruct (bk_pod _ _ _ _ _ Hb p Hp) as [Pk Pf Pu Pr Prec Pst].
  destruct (terminating_run proc req m spec leader Hset w sk p (bk_sk _ _ _ _ _ Hb)
    (bk_about _ _ _ _ _ Hb) Hp Pk Pf Hd) as (w' & E & Hp' & Hs' & Ho).
  assert (Ew : pass w = w') by (unfold LocalPass.pass; by rewrite E).
  assert (Hu : uid_at w = Some (UID (pod_Meta p))) by (unfold uid_at; by rewrite Hp).
  assert (Hu' : uid_at (pass w) = None) by (unfold uid_at; by rewrite Ew, Hp').
  pose proof (bk_spent _ _ _ _ _ Hb) as Hsp. pose proof (bk_restarts _ _ _ _ _ Hb) as Hre.
  rewrite Hu in Hsp, Hre. rewrite bool_decide_eq_true_2 in Hre by done.
  set (sk' := match gm_lookup _ _ with Some _ => sk | None => _ end) in Hs'.
  assert (Hmaps : failures sk' = spent (Some (UID (pod_Meta p))) sk ∧ rcounts sk' = rcounts sk ∧
    (∀ u, is_Some (fcounts sk' !! u) → u = UID (pod_Meta p) ∨ is_Some (fcounts sk !! u)) ∧ about sk').
  { unfold sk'. destruct Pst as [([i Hi] & _ & Hc)|[Hnm _]].
    - rewrite Hi. split; [by apply spent_charged|]. pose proof (bk_about _ _ _ _ _ Hb). auto.
    - destruct (gm_lookup (Annotations (pod_Meta p)) _) eqn:Hi;
        [by destruct Hnm; eexists; exact Hi|].
      destruct (record_failure_maps (UID (pod_Meta p)) sk) as [Ef Er].
      split; [|split; [exact Er|split; [|exact (bk_about _ _ _ _ _ Hb)]]].
      + rewrite (spent_charged (UID (pod_Meta p))) by (rewrite Ef; apply lookup_insert_eq).
        simpl. by rewrite Ef, delete_insert_eq.
      + intros u. rewrite Ef. destruct (decide (u = UID (pod_Meta p))) as [->|Hne]; [by left|].
        rewrite lookup_insert_ne by done. by right. }
  destruct Hmaps as (Mf & Mr & Mk & Ma). exists sk'. rewrite (creates_gone w Hu'), Z.add_0_r.
  split; [|done]. split; rewrite ?Hu'; try done.
  - by rewrite Ew.
  - intros u [[->|Hi]%Mk|Hi]; [by apply pass_used| |]; apply pass_used, (bk_keys _ _ _ _ _ Hb);
      [by left|right; by rewrite <- Mr].
  - simpl. by rewrite Mf.
  - rewrite bool_decide_eq_false_2 by (intros [? ?]; done).
    rewrite (past_restarts_ext None sk sk') by done.
    pose proof (past_restarts_gone (UID (pod_Meta p)) sk r Prec Hr). simpl in *. lia.
  - intros p' Hq. rewrite Ew, Hp' in Hq. done.
  - rewrite Ew. by eapply elects_frame; [|apply Hb].
Qed.

(** ** No pod *)

Lemma annotations_about sk sk' :
  about sk → about sk' → pod_annotations sk leader = pod_annotations sk' leader.
Proof. intros [Ha _] [Ha' _]. unfold pod_annotations. by rewrite Ha, Ha'. Qed.

Lemma built_unmarked sk p :
  about sk → Annotations (pod_Meta p) = Some (pod_annotations sk leader) → ¬ marked p.
Proof.
  intros [Ha _] Han. unfold marked. rewrite Han. unfold pod_annotations. simpl.
  rewrite !lookup_insert_ne, Ha by done. unfold gm_lookup in Hunmarked.
  destruct (Annotations m); simpl in *; [rewrite Hunmarked|]; by intros [].
Qed.

Lemma norm_maps sk : fcounts (norm sk) = fcounts sk ∧ rcounts (norm sk) = rcounts sk.
Proof. split; apply default_non_empty. Qed.

(** A phase that is not terminal, with no pod, means that the charges are within
    the limit. *)
Lemma live_phase_within sk :
  about sk → 0 ≤ restarts sk → in_int32 (backoffs sk) →
  seen_phase None sk ≠ SideKickPhaseFailed → seen_phase None sk ≠ SidekickPhaseSucceeded →
  failures sk ≤ lim.
Proof.
  intros [Ha1 Ha2] Hre Hin Hf Hs. unfold seen_phase, seen in *. cbn [default] in *.
  assert (Hl : limit (init_counters sk) = lim) by (unfold limit; simpl; by rewrite Ha2).
  assert (Hbk : backoffs (init_counters sk) = backoffs sk) by reflexivity.
  revert Hf Hs. unfold getSidekickPhase.
  change (sk_Spec (init_counters sk)) with (sk_Spec sk). rewrite Ha2, (proj2 (String.eqb_neq _ _) Hpol).
  destruct (String.eqb (st_Phase _) _); [done|].
  pose proof (over_limit_exact (init_counters sk)) as Hov. rewrite Hbk, Hl in Hov.
  destruct (over_limit (init_counters sk)) as [[] ?]; [done|]. intros _ _.
  specialize (Hov Hin). simpl in Hov. symmetry in Hov. apply Z.ltb_ge in Hov.
  unfold backoffs in Hov. lia.
Qed.

(** The room the counters need. *)
Definition room (f0 r0 : Z) : Prop :=
  0 ≤ f0 ∧ 0 ≤ r0 ∧ f0 + r0 + (r + 1) * Z.max 0 (lim + 1) < 2 ^ 31.

Lemma room_fits f0 r0 n sk :
  room f0 r0 → bounded f0 n → failures sk = n + f0 → 0 ≤ restarts sk ≤ r0 + r * n →
  in_int32 (backoffs sk).
Proof.
  intros (Hf0 & Hr0 & Hroom) (Hn & Hb) Hf Hre. unfold in_int32, backoffs. rewrite Hf.
  assert (n ≤ Z.max 0 (lim + 1)) by lia.
  assert (r * n ≤ r * Z.max 0 (lim + 1)) by (apply Z.mul_le_mono_nonneg_l; lia). lia.
Qed.

Lemma same_pod_kept f0 r0 n w sk sk' :
  books f0 r0 n w sk → bounded f0 n → stored KPod (pass w) req = None → uid_at w = None →
  stored KSidekick (pass w) req = Some sk' → about sk' → elects (pass w) →
  fcounts sk' = fcounts sk → rcounts sk' = rcounts sk → kept f0 r0 n w.
Proof.
  intros Hb Hn Hp Hu Hs Ha He Ef Er. exists sk'.
  assert (Hu' : uid_at (pass w) = None) by (unfold uid_at; by rewrite Hp).
  rewrite (creates_gone w Hu'), Z.add_0_r. split; [|done]. destruct Hb as [? ? Bk Bs Br ? ?].
  split; try done.
  - by eapply keys_used_mono; [apply pass_used|..].
  - by rewrite Hu', <- Hu, (spent_ext _ sk).
  - by rewrite Hu', <- Hu, (past_restarts_ext _ sk).
  - by rewrite Hp.
Qed.

(** The new pod is charged in advance. *)
Lemma created_kept f0 r0 n w sk cur p :
  books f0 r0 n w sk → bounded f0 n → uid_at w = None → failures sk ≤ lim →
  stored KSidekick (pass w) req = Some cur → about cur → elects (pass w) →
  fcounts cur = fcounts sk → rcounts cur = rcounts sk → stored KPod (pass w) req = Some p →
  meta_key (pod_Meta p) = req → Finalizers (pod_Meta p) = [getFinalizerName] →
  getContainerRestartCounts p = 0 → ¬ used w (UID (pod_Meta p)) → used (pass w) (UID (pod_Meta p)) →
  as_built cur p → kept f0 r0 n w.
Proof.
  intros Hb Hn Hu Hle Hs Ha He Cf Cr Hp Hk Hfin Hzero Hfr Hused Has.
  destruct Hb as [Bs Ba Bk Bsp Bre _ Be]. rewrite Hu in Bsp, Bre.
  rewrite bool_decide_eq_false_2 in Bre by (intros [? ?]; done). simpl in Bsp, Bre.
  assert (Hnkf : fcounts sk !! UID (pod_Meta p) = None).
  { apply eq_None_not_Some. intros Hx. apply Hfr, Bk. auto. }
  assert (Hnkr : rcounts sk !! UID (pod_Meta p) = None).
  { apply eq_None_not_Some. intros Hx. apply Hfr, Bk. auto. }
  assert (Hu2 : uid_at (pass w) = Some (UID (pod_Meta p))) by (unfold uid_at; by rewrite Hp).
  assert (Hone : creates w = 1) by (unfold creates; by rewrite Hu2, Hu).
  exists cur. rewrite Hone. split; [|destruct Hn; split; [lia|right; lia]].
  split; rewrite ?Hu2; try done.
  - by eapply keys_used_mono; [apply pass_used|..].
  - rewrite (spent_ext _ sk) by done. rewrite spent_new by done. lia.
  - rewrite (past_restarts_ext _ sk) by done. rewrite past_restarts_new by done.
    rewrite bool_decide_eq_true_2 by done. lia.
  - intros p' Hp'. rewrite Hp in Hp'. injection Hp' as <-. split; rewrite ?Hzero; try done.
    + rewrite Cr. by rewrite Hnkr.
    + right. split; [|done]. apply (built_unmarked cur); [done|apply Has].
Qed.

Lemma missing_kept f0 r0 n w sk :
  room f0 r0 → books f0 r0 n w sk → bounded f0 n → stored KPod w req = None → kept f0 r0 n w.
Proof.
  intros Hroom Hb Hn Hp. pose proof Hb as [Bs Ba _ Bsp Bre _ Be].
  assert (Hu : uid_at w = None) by (unfold uid_at; by rewrite Hp).
  rewrite Hu, bool_decide_eq_false_2, Z.sub_0_r in Bre by (intros [? ?]; done).
  rewrite Hu in Bsp. simpl in Bsp, Bre.
  destruct (reaches_phase proc req m spec leader Hset w sk Bs Ba) as (w1 & E & Hs1 & Hf1 & Hv1);
    [by rewrite Hp|]. rewrite Hp in E, Hs1. change (obj KPod) with Pod in E, Hs1.
  destruct (norm_maps (recorded None sk)) as [Nf Nr].
  assert (Hp1 : stored KPod w1 req = None) by by rewrite Hf1.
  assert (Ho1 : same_others req w w1) by (intros key _; apply Hf1).
  destruct (decide (seen_phase None sk = SideKickPhaseFailed ∨ seen_phase None sk = SidekickPhaseSucceeded))
    as [Ht|Hl].
  - destruct (after_terminal_phase proc req (seen_phase None sk) (recorded None sk) w1 Ht eq_refl)
      as (w2 & E2 & Hs2 & Ho2 & Hp2); [by rewrite Hp1|].
    assert (Ew : pass w = w2) by (unfold LocalPass.pass; by rewrite E, E2).
    eapply (same_pod_kept f0 r0 n w sk (norm (recorded None sk))); rewrite ?Ew; try done.
    + rewrite Hp1 in Hp2. by destruct Hp2 as [->|(p & ? & _)].
    + by rewrite Hs2.
    + eapply elects_frame; [|exact Be]. intros key Hk. by rewrite Ho2, Ho1.
  - apply Decidable.not_or in Hl as [Hnf Hns]. rewrite after_live_phase in E by done.
    destruct (creates_pod req m spec leader Hset w1 (recorded None sk) _ Hp1 Ba Hs1 Ba)
      as (w2 & p & cur & Hc & Hs2 & Ha2 & Hcnt & Hld & Ho & Hp2 & Hk & Hfin & Hd & Han & Hnode & Hph & Hzero &
          md & w3 & Hcreate & Hv3).
    destruct (serve_create_uid KPod md w1 p w3 Hcreate) as [Hfresh Hused].
    apply same_counters_maps in Hcnt as [Cf Cr].
    assert (Hel : run serve (getLeader (recorded None sk)) w1 = (Returned (Ok leader), w1)) by by apply Be.
    rewrite run_bind, (leader_creates_run req leader w1 w2 _ Hel Hp1 Hc) in E.
    assert (Ew : pass w = w2) by (unfold LocalPass.pass; by rewrite E). rewrite <- Ew in Hs2, Hp2, Hv3, Ho.
    apply (created_kept f0 r0 n w sk cur p); try done.
    + apply live_phase_within; try done; [lia|]. by eapply room_fits.
    + eapply elects_frame; [|exact Be]. intros key Hk'. by rewrite Ho, Ho1.
    + intros Hx. apply Hfresh. by apply (served_used w).
    + by eapply served_used.
    + split; [|done]. rewrite Han. f_equal. by apply annotations_about.
Qed.

(** ** A live pod *)

Lemma recorded_maps p sk :
  delete (UID (pod_Meta p)) (fcounts (recorded (Some p) sk)) = delete (UID (pod_Meta p)) (fcounts sk) ∧
  rcounts (recorded (Some p) sk) = <[UID (pod_Meta p) := getContainerRestartCounts p]> (rcounts sk).
Proof.
  split; [exact (observe_pod_fcounts p (init_counters sk))|].
  apply (observe_pod_rcounts p (init_counters sk)). by eexists.
Qed.

(** A pass that only observes the pod, and perhaps marks it, keeps the books. *)
Lemma observed_kept f0 r0 n w sk p sk' p' :
  books f0 r0 n w sk → bounded f0 n → stored KPod w req = Some p →
  stored KSidekick (pass w) req = Some sk' → about sk' → elects (pass w) →
  fcounts sk' = fcounts (recorded (Some p) sk) → rcounts sk' = rcounts (recorded (Some p) sk) →
  stored KPod (pass w) req = Some p' → meta_key (pod_Meta p') = req →
  Finalizers (pod_Meta p') = [getFinalizerName] → UID (pod_Meta p') = UID (pod_Meta p) →
  getContainerRestartCounts p' = getContainerRestartCounts p →
  (marked p' ∧ is_Some (DeletionTimestamp (pod_Meta p')) ∧ fcounts sk' !! UID (pod_Meta p) = Some true) ∨
  (¬ marked p' ∧ as_built sk' p') →
  kept f0 r0 n w.
Proof.
  intros Hb Hn Hp Hs' Ha' He' Ef Er Hp' Hk' Hf' Eu Erc Hst.
  destruct (recorded_maps p sk) as [Rf Rr]. rewrite <- Ef in Rf. rewrite <- Er in Rr.
  destruct (bk_pod _ _ _ _ _ Hb p Hp) as [Pk Pf Pu Pr Prec _].
  assert (Hu : uid_at w = Some (UID (pod_Meta p))) by (unfold uid_at; by rewrite Hp).
  assert (Hu' : uid_at (pass w) = Some (UID (pod_Meta p))) by (unfold uid_at; rewrite Hp'; simpl; by rewrite Eu).
  exists sk'. rewrite (creates_same w), Z.add_0_r by by rewrite Hu'. split; [|done].
  destruct Hb as [Bs Ba Bk Bsp Bre Bp Be]. rewrite Hu in Bsp, Bre. split; rewrite ?Hu'; try done.
  - intros u Hi. destruct (decide (u = UID (pod_Meta p))) as [->|Hne]; [by apply pass_used|].
    apply pass_used, Bk. rewrite Rr, lookup_insert_ne in Hi by done.
    by rewrite <- (lookup_delete_ne (fcounts sk') (UID (pod_Meta p))), Rf, lookup_delete_ne in Hi by done.
  - simpl. by rewrite Rf.
  - simpl. by rewrite Rr, delete_insert_eq.
  - intros p2 Hp2. rewrite Hp' in Hp2. injection Hp2 as <-. split; rewrite ?Eu, ?Erc; try done.
    + by apply pass_used.
    + rewrite Rr. intros v Hv. rewrite lookup_insert_eq in Hv. by simplify_eq.
Qed.

(** The pod is in step with the leader: it is taken down only when it failed under
    policy Never, and then its failure was recorded in the same pass. *)
Lemma synced_kept f0 r0 n w w1 sk p :
  let sk1 := recorded (Some p) sk in
  books f0 r0 n w sk → bounded f0 n → stored KPod w req = Some p →
  DeletionTimestamp (pod_Meta p) = None → ¬ marked p → as_built sk p →
  run serve (Reconcile proc req) w =
    run serve ('(res, err) ← reconcileLeader req sk1; mret (res, err, proc)) w1 →
  stored KSidekick w1 req = Some (norm sk1) → (∀ key, stored KPod w1 key = stored KPod w key) →
  kept f0 r0 n w.
Proof.
  intros sk1 Hb Hn Hp Hd Pm (Pa & Pn & Pl) E Hs1 Hf1. pose proof Hb as [Bs Ba _ _ _ Bp Be].
  destruct (Bp p Hp) as [Pk Pf _ _ _ _]. rewrite <- Hf1 in Hp.
  assert (Hl1 : lst_Name (st_Leader (sk_Status sk1)) = Name (pod_Meta leader)).
  { rewrite <- Pl. f_equal. exact (recorded_leader (Some p) sk). }
  assert (Ho1 : same_others req w w1) by (intros key _; apply Hf1).
  assert (Hcnt : counted sk1) by (apply counted_observe, counted_init).
  rewrite run_bind, (leader_pod_run req leader w1 sk1 p) in E; [|by apply Be|done..].
  assert (Hmove : charge_move leader sk1 p = sk1).
  { unfold charge_move. by rewrite Pn, String.eqb_refl. }
  rewrite Hl1, String.eqb_refl, Hmove, run_bind in E. cbn [negb orb] in E.
  rewrite (pod_is_current sk) in E by done. rewrite (proj2 Ba) in E.
  destruct (String.eqb _ _ && String.eqb _ _) eqn:Hdown.
  - apply andb_true_iff in Hdown as [Hfail%String.eqb_eq Hnever%String.eqb_eq].
    destruct (takes_down req m spec leader Hset w1 sk1 _ p Hp Pk Pf Ba Hs1 Ba)
      as (w2 & t & cur2 & Hr2 & Hs2 & Ha2 & Hcnt2 & Ho2 & Hp2).
    rewrite Hr2 in E. assert (Ew : pass w = w2) by (unfold LocalPass.pass; by rewrite E).
    apply same_counters_maps in Hcnt2 as [Cf Cr]. rewrite <- Ew in Hs2, Hp2, Ho2. rewrite Hf1 in Hp.
    eapply (observed_kept f0 r0 n w sk p cur2); try done.
    { eapply elects_frame; [|exact Be]. intros key Hk. by rewrite Ho2, Ho1. }
    left. split; [by eexists; apply lookup_insert_eq|]. split; [by eexists|].
    rewrite Cf. apply (observe_pod_charged p (init_counters sk)); try done.
    simpl. by destruct Ba as [_ ->].
  - set (sk2 := upd_status _ sk1) in E.
    destruct (status_update_run sk2 (norm sk1) req w1)
      as (w2 & Hr2 & (cur2 & Hs2 & Hm2 & Hsp2 & Hl2 & _ & _ & Hst2) & Hf2);
      [by simpl; rewrite (proj1 Ba); eapply set_key|done|by simpl; rewrite (proj1 Ba); eapply set_key|].
    rewrite Hr2 in E. assert (Ew : pass w = w2) by (unfold LocalPass.pass; by rewrite E).
    assert (Ha2 : about cur2) by (destruct Ba; split; [by rewrite Hm2|by rewrite Hsp2]).
    rewrite <- Ew in Hs2, Hf2.
    eapply (observed_kept f0 r0 n w sk p cur2 p); try done; [by rewrite <- Hf1|..].
    + eapply elects_frame; [|exact Be]. intros key Hk. by rewrite Hf2, Ho1.
    + unfold fcounts. rewrite Hst2. apply default_non_empty.
    + unfold rcounts. rewrite Hst2. apply default_non_empty.
    + by rewrite Hf2.
    + right. split; [done|]. split; [by rewrite Pa, (annotations_about sk cur2)|].
      split; [done|]. by rewrite Hl2.
Qed.

Lemma live_kept f0 r0 n w sk p :
  books f0 r0 n w sk → bounded f0 n → stored KPod w req = Some p →
  DeletionTimestamp (pod_Meta p) = None → kept f0 r0 n w.
Proof.
  intros Hb Hn Hp Hd. pose proof Hb as [Bs Ba _ _ _ Bp Be].
  destruct (Bp p Hp) as [Pk Pf _ _ _ [(_ & [t Ht] & _)|[Pm Pb]]]; [by rewrite Hd in Ht|].
  destruct (reaches_phase proc req m spec leader Hset w sk Bs Ba) as (w1 & E & Hs1 & Hf1 & _);
    [by intros p' Hp'; rewrite Hp in Hp'; injection Hp' as <-|].
  rewrite Hp in E, Hs1. change (obj KPod) with Pod in E, Hs1.
  destruct (decide (seen_phase (Some p) sk = SideKickPhaseFailed ∨ seen_phase (Some p) sk = SidekickPhaseSucceeded))
    as [Ht|[Hnf Hns]%Decidable.not_or].
  2:{ rewrite after_live_phase in E by done. by apply (synced_kept f0 r0 n w w1 sk p). }
  set (sk1 := recorded (Some p) sk) in *. destruct (norm_maps sk1) as [Nf Nr].
  destruct (after_terminal_phase proc req (seen_phase (Some p) sk) sk1 w1 Ht eq_refl)
    as (w2 & E2 & Hs2 & Ho2 & Hp2); [intros p'; rewrite Hf1, Hp; by intros [= <-]|].
  assert (Ew : pass w = w2) by (unfold LocalPass.pass; by rewrite E, E2).
  rewrite <- Ew in Hs2, Hp2, Ho2. rewrite Hf1, Hp in Hp2. rewrite Hs1 in Hs2.
  assert (He2 : elects (pass w)).
  { eapply elects_frame; [|exact Be]. intros key Hk. by rewrite Ho2, Hf1. }
  assert (Hb1 : as_built (norm sk1) p).
  { destruct Pb as (Pa & Pn & Pl). split; [done|]. split; [done|]. rewrite <- Pl.
    simpl. f_equal. exact (recorded_leader (Some p) sk). }
  destruct Hp2 as [Hp2|(p2 & [= <-] & Hp2)];
    eapply (observed_kept f0 r0 n w sk p (norm sk1)); try done; by right.
Qed.

(** ** The bound *)

Lemma pass_kept f0 r0 n w sk : room f0 r0 → books f0 r0 n w sk → bounded f0 n → kept f0 r0 n w.
Proof.
  intros Hroom Hb Hn. destruct (stored KPod w req) as [p|] eqn:Hp; [|by eapply missing_kept].
  destruct (DeletionTimestamp (pod_Meta p)) eqn:Hd; [|by eapply live_kept].
  eapply terminating_kept; try done.
Qed.

Lemma reach_books f0 r0 n w0 w :
  room f0 r0 → start f0 r0 w0 → reach w0 n w → (∃ sk, books f0 r0 n w sk) ∧ bounded f0 n.
Proof.
  intros Hroom Hst. induction 1 as [|n w w' _ [[sk Hb] Hn] He|n w _ [[sk Hb] Hn]].
  - destruct Hst as [(sk & Hs & Ha & Hk & Hf & Hre) Hp He]. split; [|split; [done|by left]].
    assert (Hu : uid_at w0 = None) by (unfold uid_at; by rewrite Hp).
    exists sk. split; rewrite ?Hu, ?Hp; try done.
    rewrite bool_decide_eq_false_2 by (intros [? ?]; done). simpl. destruct Hroom. lia.
  - split; [|done]. exists sk. by eapply env_books.
  - by destruct (pass_kept f0 r0 n w sk Hroom Hb Hn) as (sk' & ? & ?); eauto.
Qed.

End Retries.
