(* ===== verification/Confinement.v ===== *)
(** * Where a local pass writes

    A pass over a local Sidekick writes to two objects only, the Sidekick and the
    pod of its name.  The first part shows it for every execution; the second
    turns it into a frame for passes on a server, on which [Fleet.v] builds. *)

From S2P Require Import Prelude Effects GoStd Types Cluster Kmodules Leader Phase PodBuilder Local LocalProps Server LocalRun.
From S2P Require Import Codec Token SnapshotServer GrpcWiring Distributed Controller.

(** ** Addresses *)

(** The answer is about the object that was addressed. *)
Definition addressed_answer (e : apievent) : Prop :=
  match e with
  | Ev op r =>
      match op return answer op → Prop with
      | OpGet k key => λ r, match r with Ok o => obj_key o = key | Err _ => True end
      | OpCreate k o => λ r, match r with Ok o' => obj_key o' = obj_key o | Err _ => True end
      | OpPatch k cur _ => λ r, match r with Ok o => obj_key o = obj_key cur | Err _ => True end
      | OpStatusPatch k cur _ => λ r, match r with Ok o => obj_key o = obj_key cur | Err _ => True end
      | _ => λ _, True
      end r
  end.

(** A patch does not change the address of its object. *)
Definition well_addressed (op : apiop) : Prop :=
  match op with
  | OpPatch k cur md | OpStatusPatch k cur md => obj_key md = obj_key cur
  | _ => True
  end.

(** The call changes nothing but the Sidekick [req] and the pod of its name. *)
Definition within (req : NamespacedName) (op : apiop) : Prop :=
  well_addressed op ∧
  match op_target op with Some (k, key) => key = req ∧ (k = KPod ∨ k = KSidekick) | None => True end.

(** ** The pieces of a pass *)

Section Confined.
Context (E : apievent → Prop) (HE : ∀ e, E e → addressed_answer e) (req : NamespacedName).

Abbreviation confined := (guarded E (within req)).
Abbreviation at_req := (λ sk : Sidekick, meta_key (sk_Meta sk) = req).

Lemma CreateOrPatch_confined k (o : obj k) transform :
  k = KPod ∨ k = KSidekick → obj_key o = req →
  (∀ o b, obj_key o = req → obj_key (transform o b) = req) →
  confined (λ r, obj_key r.1 = req) (CreateOrPatch k o transform).
Proof.
  intros Hk Ho Ht. unfold CreateOrPatch. guard_step; [done|intros r Hr%HE; exact Hr|].
  intros [cur|e] Hr.
  - guard_step; [|intros r Hp%HE; exact Hp|].
    + split; simpl; [rewrite Ht; simpl in Hr; congruence|]. simpl in Hr. split; [congruence|done].
    + intros [md|e] Hp; apply guarded_ret; simpl in *; congruence.
  - destruct (IsNotFound e); [|by apply guarded_ret]. guard_step; [|intros r Hp%HE; exact Hp|].
    + split; [done|]. simpl. by rewrite Ht.
    + intros [md|e'] Hp; apply guarded_ret; simpl in *; [rewrite Hp; by apply Ht|done].
Qed.

Lemma updateSidekickStatus_confined sk :
  at_req sk → confined (λ r, at_req r.1) (updateSidekickStatus sk).
Proof.
  intros Hk. unfold updateSidekickStatus, PatchStatus. guard_step; [done|intros r Hr%HE; exact Hr|].
  intros [cur|e] Hr; [|by apply guarded_ret]. simpl in Hr. guard_step; [|intros r Hp%HE; exact Hp|].
  - split; [done|]. simpl. unfold obj_key in *. simpl in *. split; [congruence|by right].
  - intros [md|e] Hp; apply guarded_ret; [|done]. simpl in Hp. unfold obj_key in *. simpl in *. congruence.
Qed.

(** A bind whose first half keeps the Sidekick or pod in place. *)
Ltac guard_with H := eapply guarded_bind; [apply H|].

Lemma ignored {A} (R : A → Prop) p : confined R p → confined (λ _, True) p.
Proof. by apply guarded_mono. Qed.

Lemma removePodFinalizer_confined pod :
  meta_key (pod_Meta pod) = req → confined (λ _, True) (removePodFinalizer pod).
Proof.
  intros Hk. unfold removePodFinalizer. guard_with (CreateOrPatch_confined KPod pod); [by left|done|done|].
  intros [? ?] _. by apply guarded_ret.
Qed.

Lemma countExternalDeletion_confined pod : confined (λ _, True) (countExternalDeletion req pod).
Proof.
  unfold countExternalDeletion. guard_step; [done|intros r Hr%HE; exact Hr|].
  intros [sk|e] Hr; [|by apply guarded_ret]. guard_step; [by apply guarded_ret|].
  guard_with updateSidekickStatus_confined; [exact Hr|]. intros [? ?] _. by apply guarded_ret.
Qed.

Lemma removePodFinalizerIfMarked_confined :
  confined (λ _, True) (removePodFinalizerIfMarkedForDeletion req).
Proof.
  unfold removePodFinalizerIfMarkedForDeletion. guard_step; [done|intros r Hr%HE; exact Hr|].
  intros [pod|e] Hr; [|by apply guarded_ret]. guard_step; [|by apply guarded_ret].
  eapply (guarded_bind _ _ (λ _, True)).
  { guard_step; [by apply guarded_ret|apply countExternalDeletion_confined]. }
  intros [e|] _; [by apply guarded_ret|]. guard_step; [|by apply guarded_ret].
  guard_with removePodFinalizer_confined; [exact Hr|]. intros [e|] _; by apply guarded_ret.
Qed.

Lemma deletePod_confined pod : meta_key (pod_Meta pod) = req → confined (λ _, True) (deletePod pod).
Proof.
  intros Hk. unfold deletePod, setDeletionInitiatorAnnotation.
  guard_with (CreateOrPatch_confined KPod pod); [by left|done|done|].
  intros [p [e|]] Hp; [by apply guarded_ret|]. guard_step; [|intros ? _; exact I|intros; by apply guarded_ret].
  split; [done|]. simpl. split; [exact Hp|by left].
Qed.

Lemma deletePodAndResetStatus_confined sk pod :
  at_req sk → meta_key (pod_Meta pod) = req → confined (λ _, True) (deletePodAndResetStatus sk pod).
Proof.
  intros Hs Hp. unfold deletePodAndResetStatus. guard_with deletePod_confined; [done|].
  intros [e|] _; [by apply guarded_ret|]. guard_with updateSidekickStatus_confined; [done|].
  intros [? ?] _. by apply guarded_ret.
Qed.

Lemma handleSidekickFinalizer_confined sk :
  at_req sk → confined (λ r, at_req r.1) (handleSidekickFinalizer sk).
Proof.
  intros Hk. assert (Hpatch : ∀ f, (∀ m, meta_key (f m) = meta_key m) →
    confined (λ r, at_req r.1) (CreateOrPatch KSidekick sk (λ sk _, set_sk_Meta (f (sk_Meta sk)) sk))).
  { intros f Hf. apply CreateOrPatch_confined; [by right|done|].
    intros o b Ho. unfold obj_key in *. simpl in *. by rewrite Hf. }
  unfold handleSidekickFinalizer. guard_step; [|apply (Hpatch (λ m, AddFinalizer m getFinalizerName))].
  - unfold terminate. guard_step; [|intros ? _; exact I|].
    + split; [done|]. simpl. split; [exact Hk|by left].
    + intros r _. guard_step; [by apply guarded_ret|]. by apply (Hpatch (λ m, RemoveFinalizer m getFinalizerName)).
  - intros m. cbn beta. unfold AddFinalizer, meta_key. by destruct (HasFinalizer m getFinalizerName).
Qed.

(** ** The phase *)

Lemma phase_at sk pod : at_req sk → at_req (getSidekickPhase sk pod).2.
Proof.
  intros Hk. unfold getSidekickPhase. repeat (case_match; try done); pose proof (over_limit_snd sk) as (_ & Hm & _);
    match goal with H : over_limit _ = _ |- _ => rewrite H in Hm end; simpl in *; by rewrite Hm.
Qed.

Lemma recordPhase_confined pod sk : at_req sk → confined (λ r, at_req r.2) (recordPhase pod sk).
Proof.
  intros Hk. unfold recordPhase. pose proof (phase_at sk (Some pod) Hk) as Hp.
  destruct (getSidekickPhase sk (Some pod)) as [phase sk']. guard_with updateSidekickStatus_confined; [done|].
  intros [sk2 [e|]] Hs; by apply guarded_ret.
Qed.

Lemma updateSidekickPhase_confined sk :
  at_req sk → confined (λ r, at_req r.2) (updateSidekickPhase req sk).
Proof.
  intros Hk. unfold updateSidekickPhase. eapply (guarded_bind _ _ (λ r, at_req r.2)).
  - unfold calculateSidekickPhase. guard_step; [done|intros ? _; exact I|].
    intros [pod|e] _; [|guard_step; [|by apply guarded_ret]]; apply recordPhase_confined; [|done].
    by destruct (observe_pod_spec pod (init_counters sk)) as (_ & _ & _ & ->).
  - intros [[phase|e] sk'] Hs; [|by apply guarded_ret]. unfold dropIfTerminal.
    guard_step; [|guard_step; by apply guarded_ret]. guard_step; [done|intros r Hr%HE; exact Hr|].
    intros [pod|e] Hr; [|by apply guarded_ret]. guard_step; [|by apply guarded_ret].
    guard_step; [|intros ? _; exact I|intros [?|?] _; by apply guarded_ret].
    split; [done|]. simpl. split; [exact Hr|by left].
Qed.

(** ** The pod *)

Section Pods.
Context `{Mergo} `{ObjectHasher} `{SortSlice} `{LabelSelectors}.

Lemma syncExistingPod_confined sk leader pod :
  at_req sk → meta_key (pod_Meta pod) = req → confined (λ _, True) (syncExistingPod sk leader pod).
Proof.
  intros Hs Hp. unfold syncExistingPod. guard_step.
  - eapply (guarded_bind _ _ at_req); [|intros sk' Hs'; by apply deletePodAndResetStatus_confined].
    guard_step; [|by apply guarded_ret]. unfold gm_write. destruct (st_FailureCount _); [|done].
    by apply guarded_ret.
  - guard_with updateSidekickStatus_confined; [done|]. intros [? ?] _. by apply guarded_ret.
Qed.

Lemma createSidekickPod_confined sk leader : at_req sk → confined (λ _, True) (createSidekickPod sk leader).
Proof.
  intros Hs. unfold createSidekickPod. destruct (newSidekickPod sk leader) as [[pod|e] sk'] eqn:En;
    [|by apply guarded_ret].
  pose proof (newSidekickPod_snd_meta _ _ _ _ En) as [Hk' _].
  pose proof (newSidekickPod_ok _ _ _ _ En) as (cs & ics & _ & _ & Hpod).
  guard_with (CreateOrPatch_confined KPod pod); [by left|by subst pod| |].
  - intros o b Ho. unfold obj_key, AddFinalizer in *. simpl in *. by destruct (HasFinalizer _ _).
  - intros [p [e|]] _; [by apply guarded_ret|].
    guard_with updateSidekickStatus_confined; [simpl; congruence|]. intros [? ?] _. by apply guarded_ret.
Qed.

Lemma syncOrCreate_confined sk leader : at_req sk → confined (λ _, True) (syncOrCreate req sk leader).
Proof.
  intros Hs. unfold syncOrCreate. guard_step; [done|intros r Hr%HE; exact Hr|]. intros [pod|e] Hr.
  - guard_with syncExistingPod_confined; [done|exact Hr|]. intros ? _. by apply guarded_ret.
  - guard_step; [|by apply guarded_ret]. guard_with createSidekickPod_confined; [done|].
    intros ? _. by apply guarded_ret.
Qed.

Lemma getLeader_confined sk : confined (λ _, True) (getLeader sk).
Proof.
  unfold getLeader. guard_step; [by apply guarded_call|]. guard_step; [|by apply guarded_ret].
  guard_step; [done|intros ? _; exact I|]. intros [items|e] _; [|by apply guarded_ret].
  unfold select_leader, pick_leader. by repeat case_match.
Qed.

Lemma reconcileLocal_confined sk : at_req sk → confined (λ _, True) (reconcileLocal req sk).
Proof.
  intros Hs. unfold reconcileLocal. guard_with handleSidekickFinalizer_confined; [done|].
  intros [sk1 [e|]] Hs1; [by apply guarded_ret|]. guard_with updateSidekickPhase_confined; [exact Hs1|].
  intros [[drop [e|]] sk2] Hs2; [by apply guarded_ret|]. guard_step; [by apply guarded_ret|].
  unfold reconcileLeader. guard_with getLeader_confined. intros lr _. cbn zeta. guard_step.
  - guard_step; [done|intros r Hr%HE; exact Hr|]. intros [pod|e] Hr.
    + guard_with deletePodAndResetStatus_confined; [done|exact Hr|]. intros ? _. by apply guarded_ret.
    + destruct lr; [by apply syncOrCreate_confined|by apply guarded_ret].
  - destruct lr; [by apply syncOrCreate_confined|by apply guarded_ret].
Qed.
End Pods.
End Confined.

(** ** A pass *)

Section Reconcile.
Context `{Mergo} `{ObjectHasher} `{SortSlice} `{LabelSelectors} `{WorkJson} `{Crypto}.

(** The Sidekick, wherever it is read, is not distributed. *)
Definition reads_local (req : NamespacedName) (e : apievent) : Prop :=
  match e with
  | Ev op r =>
      match op return answer op → Prop with
      | OpGet KSidekick key => λ r,
          match r with Ok sk => key = req → sp_Distributed (sk_Spec sk) = false | Err _ => True end
      | _ => λ _, True
      end r
  end.

Lemma Reconcile_confined proc req :
  guarded (λ e, addressed_answer e ∧ reads_local req e) (within req) (λ _, True) (Reconcile proc req).
Proof.
  set (E := λ e, _). assert (HE : ∀ e, E e → addressed_answer e) by (by intros e []).
  unfold Reconcile. eapply guarded_bind; [by apply removePodFinalizerIfMarked_confined|].
  intros [removed [e|]] _; [by apply guarded_ret|]. guard_step; [by apply guarded_ret|].
  guard_step; [done|intros r Hr; exact Hr|]. intros [sk|e] [Hk Hl]; [|by apply guarded_ret].
  rewrite (Hl eq_refl). eapply guarded_bind; [by apply reconcileLocal_confined|].
  intros [? ?] _. by apply guarded_ret.
Qed.

(** C5. A pass over a local Sidekick stays at home.  In every execution of
    [Reconcile] in which the server answers about the objects it was asked about
    and the Sidekick is not distributed, every write, whether it succeeds or not,
    is to that Sidekick or to the pod of its name, and no patch moves an object. *)
Theorem local_reconcile_confined proc req tr o :
  exec (Reconcile proc req) tr o → Forall addressed_answer tr → Forall (reads_local req) tr →
  Forall (λ e, match e with Ev op _ => within req op end) tr.
Proof.
  intros Hx Ha Hl. eapply guarded_exec; [exact Hx|apply Reconcile_confined|].
  rewrite Forall_forall in Ha, Hl |- *. auto.
Qed.
End Reconcile.

(** ** On a server *)

(** A server that answers about the objects it is asked about, as long as no patch
    moves an object. *)
Class AddressedServer (W : Type) `{ApiServer W} := {
  placed : W → Prop;
  serve_placed : ∀ op w, placed w → well_addressed op →
    addressed_answer (Ev op (serve op w).1) ∧ placed (serve op w).2
}.

Lemma guarded_run `{AddressedServer W} {A} req (R : A → Prop) (p : M A) (w : W) :
  placed w → guarded addressed_answer (within req) R p →
  placed (run serve p w).2 ∧ ∀ k key, key ≠ req → stored k (run serve p w).2 key = stored k w key.
Proof.
  revert w. induction p as [a|m|op c IH]; intros w Hw; simpl; [done..|].
  intros [[Hwa Ht] Hk]. destruct (serve_placed op w Hw Hwa) as [Ha Hw'].
  pose proof (serve_frame op w) as Hf.
  destruct (serve op w) as [r w']. simpl in Ha, Hw', Hf. destruct (IH r w' Hw' (Hk r Ha)) as [Hw'' Hf'].
  split; [done|]. intros k key Hne. rewrite Hf' by done. apply Hf.
  destruct (op_target op) as [[k' key']|]; [|done]. destruct Ht as [-> _]. congruence.
Qed.
