(* ===== verification/Hub.v ===== *)
(** * A hub that serves distributed Sidekicks

    What the distributed reconciler needs of the API server beyond [Server.v]: the
    list of namespaces, the uncached reads of the OCM client, random bytes, and a
    server that keeps what is put into a ManifestWork or a Secret.  The lemmas run
    the pieces of [distributed.go] and [grpc_wiring.go] against it. *)

From S2P Require Import Prelude Effects GoStd Types Cluster Kmodules Leader Phase PodBuilder Local LocalProps Server LocalRun.
From S2P Require Import GoStrings Codec Token SnapshotServer GrpcWiring Distributed WiringProps DistributedProps.

Class HubServer (W : Type) `{ApiServer W} `{WorkJson} := {
  namespaces : W → list NamespaceObj;
  (** The list is a function of the namespaces that are stored. *)
  namespaces_ext : ∀ w w', (∀ key, stored KNamespace w' key = stored KNamespace w key) → namespaces w' = namespaces w;
  serve_namespaces : ∀ w, serve (OpList KNamespace None None) w = (Ok (namespaces w), w);

  (** Reads of the OCM client. *)
  serve_ocm_get : ∀ ns name w mw,
    stored KManifestWork w (mkKey ns name) = Some mw → serve (OpOCMGet ns name) w = (Ok mw, w);
  serve_ocm_get_missing : ∀ ns name w,
    stored KManifestWork w (mkKey ns name) = None →
    ∃ e, IsNotFound e = true ∧ serve (OpOCMGet ns name) w = (Err e, w);

  (** Nothing holds an object without finalizers. *)
  serve_delete_free : ∀ k key w o,
    stored k w key = Some o → Finalizers (obj_meta o) = [] →
    ∃ w', serve (OpDelete k key) w = (Ok tt, w') ∧ stored k w' key = None;

  (** A manifest comes back as JSON, from which the pod is read again. *)
  serve_create_work : ∀ md pod w mw w',
    mw_Manifests md = [{| raw_Raw := ""; raw_Object := Some pod |}] →
    serve (OpCreate KManifestWork md) w = (Ok mw, w') →
    mw_ResourceStatus mw = [] ∧
    ∃ raw pod', mw_Manifests mw = [raw] ∧ unstructured_pod (raw_Raw raw) = Ok pod' ∧
      Annotations (pod_Meta pod') = Annotations (pod_Meta pod) ∧
      ps_NodeName (pod_Spec pod') = ps_NodeName (pod_Spec pod);

  (** The data of a Secret are kept. *)
  serve_create_secret : ∀ md w s w',
    serve (OpCreate KSecret md) w = (Ok s, w') → sec_Data s = sec_Data md;

  (** There are random bytes, and the operator knows its own pod. *)
  serve_rand : ∀ n w, ∃ raw w', serve (OpRand n) w = (Ok raw, w') ∧ raw ≠ "";
  serve_identity : ∀ n w, n ∈ [envPodName; envPodNamespace] → (serve (OpGetenv n) w).1 ≠ ""
}.

Section Hub.
Context `{HubServer W}.
Implicit Types (w : W) (sk : Sidekick).

(** ** Finding a work by its name *)

(** The first work of that name in the namespaces. *)
Fixpoint found (name : string) (items : list NamespaceObj) w : option ManifestWork :=
  match items with
  | [] => None
  | ns :: items =>
      match stored KManifestWork w (mkKey (Name (ns_Meta ns)) name) with
      | Some mw => Some mw
      | None => found name items w
      end
  end.

Definition ns_names w : list string := map (λ ns, Name (ns_Meta ns)) (namespaces w).

Lemma found_stored name items w mw :
  found name items w = Some mw →
  ∃ ns, ns ∈ map (λ ns, Name (ns_Meta ns)) items ∧ stored KManifestWork w (mkKey ns name) = Some mw.
Proof.
  induction items as [|ns items IH]; simpl; [done|]. destruct (stored KManifestWork w _) as [mw'|] eqn:E.
  - intros [= <-]. eexists. split; [left|done].
  - intros (ns' & Hin & Hs)%IH. exists ns'. split; [by right|done].
Qed.

Lemma found_none name items w :
  found name items w = None ↔
  ∀ ns, ns ∈ map (λ ns, Name (ns_Meta ns)) items → stored KManifestWork w (mkKey ns name) = None.
Proof.
  induction items as [|ns items IH]; simpl.
  - split; [intros _ ns Hin; by apply elem_of_nil in Hin|done].
  - destruct (stored KManifestWork w _) as [mw'|] eqn:E.
    + split; [done|]. intros Hn. specialize (Hn _ ltac:(left)). congruence.
    + rewrite IH. split; intros Hn ns' Hin; [|by apply Hn; right].
      apply elem_of_cons in Hin as [->|Hin]; [done|by apply Hn].
Qed.

Lemma found_ext name items w w' :
  (∀ ns, stored KManifestWork w' (mkKey ns name) = stored KManifestWork w (mkKey ns name)) →
  found name items w' = found name items w.
Proof. intros E. induction items as [|ns items IH]; simpl; [done|]. by rewrite E, IH. Qed.

(** Both searches stop at the first hit; without one they report NotFound. *)
Lemma probe_run name items w e0 :
  items ≠ [] ∨ (∃ e, e0 = Some e ∧ IsNotFound e = true) →
  match found name items w with
  | Some mw => run serve (probe_namespaces name items e0) w = (Returned (Namespace (mw_Meta mw), None), w) ∧
               run serve (probe_current name items e0) w = (Returned (Some mw, None), w)
  | None => ∃ e, IsNotFound e = true ∧ run serve (probe_namespaces name items e0) w = (Returned ("", Some e), w) ∧
               run serve (probe_current name items e0) w = (Returned (None, Some e), w)
  end.
Proof.
  revert e0. induction items as [|ns items IH]; intros e0 He; simpl.
  { destruct He as [?|(e & -> & He)]; [done|]. by exists e. }
  destruct (stored KManifestWork w (mkKey (Name (ns_Meta ns)) name)) as [mw|] eqn:E.
  - by rewrite (serve_ocm_get _ _ w mw E).
  - destruct (serve_ocm_get_missing _ _ w E) as (e & Hnf & ->). rewrite Hnf. apply IH. right. by exists e.
Qed.

Lemma namespace_run name w :
  namespaces w ≠ [] →
  match found name (namespaces w) w with
  | Some mw => run serve (getDistributedPodNamespace name) w = (Returned (Namespace (mw_Meta mw), None), w)
  | None => ∃ e, IsNotFound e = true ∧ run serve (getDistributedPodNamespace name) w = (Returned ("", Some e), w)
  end.
Proof.
  intros Hn. pose proof (probe_run name (namespaces w) w None (or_introl Hn)) as Hp.
  unfold getDistributedPodNamespace, list_namespaces. rewrite run_bind, (run_call serve (OpList KNamespace None None)).
  rewrite serve_namespaces. cbn [fst snd]. destruct (found _ _ _); [apply Hp|].
  destruct Hp as (e & He & Hp & _). eauto.
Qed.

Lemma current_run sk w :
  namespaces w ≠ [] →
  match found (Name (sk_Meta sk)) (namespaces w) w with
  | Some mw => run serve (getDistributedSidekickCurrentLeader sk) w = (Returned (Some mw, None), w)
  | None => ∃ e, IsNotFound e = true ∧
      run serve (getDistributedSidekickCurrentLeader sk) w = (Returned (None, Some e), w)
  end.
Proof.
  intros Hn. pose proof (probe_run (Name (sk_Meta sk)) (namespaces w) w None (or_introl Hn)) as Hp.
  unfold getDistributedSidekickCurrentLeader, list_namespaces.
  rewrite run_bind, (run_call serve (OpList KNamespace None None)), serve_namespaces. cbn [fst snd].
  destruct (found _ _ _); [apply Hp|]. destruct Hp as (e & He & _ & Hp). eauto.
Qed.

Lemma lookupMW_run req sk w :
  namespaces w ≠ [] → key_Name req = Name (sk_Meta sk) →
  (∀ ns mw, stored KManifestWork w (mkKey ns (Name (sk_Meta sk))) = Some mw → Namespace (mw_Meta mw) = ns) →
  match found (Name (sk_Meta sk)) (namespaces w) w with
  | Some mw => run serve (lookupMW req sk) w = (Returned (Ok mw), w)
  | None => ∃ e, IsNotFound e = true ∧ run serve (lookupMW req sk) w = (Returned (Err e), w)
  end.
Proof.
  intros Hn Hr Hp. pose proof (namespace_run (Name (sk_Meta sk)) w Hn) as Hr'. unfold lookupMW. rewrite Hr.
  destruct (found _ _ _) as [mw|] eqn:E.
  - rewrite run_bind, Hr'. destruct (found_stored _ _ _ _ E) as (ns & _ & Hs). rewrite (Hp ns mw Hs).
    by rewrite (run_call serve (OpGet KManifestWork _)), (serve_get KManifestWork _ w mw Hs).
  - destruct Hr' as (e & He & Hr'). exists e. split; [done|]. by rewrite run_bind, Hr'.
Qed.

(** ** The first distributed pass of a process *)

(** The object of a call is within [T]. *)
Definition targets (T : kind → NamespacedName → Prop) (e : apievent) : Prop :=
  match e with Ev op _ => match op_target op with Some (k, key) => T k key | None => True end end.

Lemma run_trace_frame {A} (T : kind → NamespacedName → Prop) (p : M A) w k key :
  Forall (targets T) (run_trace serve p w) → ¬ T k key → stored k (run serve p w).2 key = stored k w key.
Proof.
  intros Ht Hn. revert w Ht. induction p as [a|s|op c IH]; intros w; simpl; [done..|].
  pose proof (serve_frame op w k key) as Hf. destruct (serve op w) as [r w']. simpl in Hf.
  intros [Ho Ht]%Forall_cons. rewrite IH by done. apply Hf. intros E. simpl in Ho. by rewrite E in Ho.
Qed.

(** A program that never panics returns, and leaves everything else alone. *)
Lemma total_run {A} T (R : A → Prop) (p : M A) w :
  total (λ _, True) (targets T) R p →
  ∃ a w', run serve p w = (Returned a, w') ∧ R a ∧ ∀ k key, ¬ T k key → stored k w' key = stored k w key.
Proof.
  intros Ht. pose proof (run_exec serve p w) as Hx.
  apply (proj1 (wpE_exec _ _ _) Ht) in Hx as [HP Ho]; [|by apply Forall_true].
  pose proof (λ k key, run_trace_frame T p w k key HP) as Hf.
  destruct (run serve p w) as [[a|s] w']; [|done]. by exists a, w'.
Qed.

Lemma startGRPCOnce_run proc sk w :
  ∃ proc' w', run serve (startGRPCOnce proc sk) w = (Returned proc', w') ∧
    ∀ k key, k ≠ KServiceExport → stored k w' key = stored k w key.
Proof.
  set (T := λ k (_ : NamespacedName), k = KServiceExport).
  enough (Ht : total (λ _, True) (targets T) (λ _, True) (startGRPCOnce proc sk)).
  { destruct (total_run T _ _ w Ht) as (a & w' & Hr & _ & Hf). exists a, w'. split; [done|].
    intros k key Hk. by apply Hf. }
  assert (Hc : ∀ op, targets T (Ev op (serve op w).1) → total (λ _, True) (targets T) (λ _, True) (call op)).
  { intros op Hop. by apply total_call. }
  assert (Hdom : ∀ d, total (λ _, True) (targets T) (λ _, True) (findDomain d)).
  { intros [d|]; [by apply total_ret|]. unfold findDomain, resolveDomain.
    apply (total_bind _ _ (λ _, True)); [|intros; by apply total_ret].
    eapply total_bind; [by apply Hc|]. intros [content|e] _; [|by apply total_ret].
    destruct (Scan content) as [lines err].
    destruct (search_domain lines); [by apply total_ret|]. by destruct err; apply total_ret. }
  unfold startGRPCOnce. destruct (grpcOnce proc); [by apply total_ret|].
  apply (total_bind _ _ (λ _, True)); [|intros [e d] _; by apply total_ret].
  unfold ensureServiceExport. destruct (getSliceName sk); [|by apply total_ret].
  do 2 (eapply total_bind; [by apply Hc|]; intros ? _). destruct (_ || _); [by apply total_ret|].
  eapply total_bind; [by apply Hc|]. intros [self|e] _; [|by apply total_ret].
  eapply total_bind; [by apply Hc|]. intros [cur|e] _; [|destruct (IsNotFound e); [|by apply total_ret]];
    (eapply total_bind; [apply Hdom|]; intros [d' dom] _; eapply total_bind; [by apply Hc|];
     intros; by apply total_ret).
Qed.

(** ** Deleting a work *)

(** A work that is marked for deletion and the agent of its cluster still holds. *)
Definition going (mw mw' : ManifestWork) : Prop :=
  is_Some (DeletionTimestamp (mw_Meta mw')) ∧ Finalizers (mw_Meta mw') ≠ [] ∧
  meta_key (mw_Meta mw') = meta_key (mw_Meta mw) ∧ mw_Manifests mw' = mw_Manifests mw ∧
  mw_ResourceStatus mw' = mw_ResourceStatus mw.

Definition gone_or_going (mw : ManifestWork) w : Prop :=
  ∀ mw', stored KManifestWork w (meta_key (mw_Meta mw)) = Some mw' → going mw mw'.

(** A work that nobody holds is gone at once, another one is marked. *)
Lemma deleteMW_run mw w :
  let key := meta_key (mw_Meta mw) in
  stored KManifestWork w key = Some mw →
  DeletionTimestamp (mw_Meta mw) = None ∨ Finalizers (mw_Meta mw) ≠ [] →
  ∃ w', run serve (deleteMW mw) w = (Returned None, w') ∧ gone_or_going mw w' ∧
    ∀ k' key', (k', key') ≠ (KManifestWork, key) → stored k' w' key' = stored k' w key'.
Proof.
  intros key Hs Hheld.
  destruct (CreateOrPatch_stored KManifestWork mw mw (λ po _, annotate_mw_initiator po)
    (mw_Meta (annotate_mw_initiator mw)) w) as (w1 & Hr & Hs1 & Hf1); [done..| |].
  { split; [by destruct mw as [[] ? ? ?]|]. right. simpl. rewrite decide_False by apply insert_non_empty. eauto. }
  change (@obj_key KManifestWork mw) with key in Hs1, Hf1.
  assert (Hrel : released (mw_Meta (annotate_mw_initiator mw)) = false).
  { unfold released. simpl. destruct Hheld as [-> |Hn]; [done|].
    by rewrite (bool_decide_eq_false_2 (_ = [])), andb_false_r. }
  rewrite Hrel in Hs1.
  assert (Hr' : run serve (setMWDeletionInitiatorAnnotation mw) w = (Returned (annotate_mw_initiator mw, None), w1))
    by exact Hr.
  assert (Hdel : ∃ w2, serve (OpDelete KManifestWork key) w1 = (Ok tt, w2) ∧ gone_or_going mw w2).
  { destruct (Finalizers (mw_Meta mw)) as [|f fs] eqn:Hfin.
    - destruct (serve_delete_free KManifestWork key w1 _ Hs1) as (w2 & Hr2 & Hs2); [done|].
      exists w2. split; [done|]. intros mw'. fold key. by rewrite Hs2.
    - destruct (serve_delete_held KManifestWork key w1 _ Hs1) as (t & w2 & Hr2 & Hs2); [simpl; by rewrite Hfin|].
      exists w2. split; [done|]. intros mw'. fold key. rewrite Hs2. intros [= <-].
      split; [by eexists|]. split; [simpl; by rewrite Hfin|done]. }
  destruct Hdel as (w2 & Hr2 & Hg).
  pose proof (serve_frame (OpDelete KManifestWork key) w1) as Hf2. rewrite Hr2 in Hf2. simpl in Hf2.
  exists w2. unfold deleteMW. rewrite run_bind, Hr'.
  change (meta_key (mw_Meta (annotate_mw_initiator mw))) with key.
  rewrite run_bind, (run_call serve (OpDelete KManifestWork key)), Hr2. split; [done|]. split; [done|].
  intros k' key' Hne. rewrite Hf2, Hf1; [done|done|congruence].
Qed.

(** ** Wiring *)

(** The Secret of the keys is missing or complete. *)
Definition keys_ready sk w : Prop :=
  match stored KSecret w (keys_key sk) with Some s => is_Some (secret_keys s) | None => True end.

Lemma encode_nonempty raw : raw ≠ "" → Base64.EncodeToString raw ≠ "".
Proof.
  intros Hr E. pose proof (Base64.DecodeEncode raw) as Hd. rewrite E in Hd. vm_compute in Hd. congruence.
Qed.

Lemma randomKey_run w :
  ∃ k w', run serve randomKey w = (Returned (Ok k), w') ∧ k ≠ "" ∧ ∀ k' key, stored k' w' key = stored k' w key.
Proof.
  destruct (serve_rand signingKeyBytes w) as (raw & w' & Hr & Hne).
  pose proof (serve_frame (OpRand signingKeyBytes) w) as Hf. rewrite Hr in Hf. simpl in Hf.
  exists (Base64.EncodeToString raw), w'. unfold randomKey.
  rewrite run_bind, (run_call serve (OpRand signingKeyBytes)), Hr. split; [done|].
  split; [by apply encode_nonempty|]. intros k' key. by apply Hf.
Qed.

Lemma fill_key_filled k fresh data : fresh ≠ "" → gm_str (Some (fill_key k fresh data)) k ≠ "".
Proof.
  intros Hf. unfold fill_key. destruct (String.eqb_spec (gm_str (Some data) k) "") as [E|E]; [|done].
  unfold gm_str. simpl. by rewrite lookup_insert_eq.
Qed.

Lemma filled_keys sk a b s : a ≠ "" → b ≠ "" → is_Some (secret_keys (fill_keys sk a b s)).
Proof.
  intros Ha Hb. unfold secret_keys. cbn [sec_Data fill_keys].
  rewrite (proj2 (String.eqb_neq _ "")), (proj2 (String.eqb_neq _ "")); [by eexists|by apply fill_key_filled|].
  rewrite fill_key_keeps; by apply fill_key_filled.
Qed.

(** Only the Secret of the keys may differ. *)
Definition same_but_keys sk w w' : Prop :=
  ∀ k key, (k, key) ≠ (KSecret, keys_key sk) → stored k w' key = stored k w key.

Lemma ensureGRPCKeys_run sk w :
  keys_ready sk w →
  ∃ a b w', run serve (ensureGRPCKeys sk) w = (Returned (Ok (a, b)), w') ∧ b ≠ "" ∧
    keys_ready sk w' ∧ same_but_keys sk w w'.
Proof.
  unfold keys_ready at 1. destruct (stored KSecret w (keys_key sk)) as [s|] eqn:Es.
  - intros [[a b] Hk]. exists a, b, w. unfold ensureGRPCKeys.
    rewrite run_bind, (run_call serve (OpGet KSecret _)), (serve_get KSecret _ w s Es). cbn [fst snd].
    rewrite Hk. split; [done|]. split; [by apply secret_keys_Some in Hk as (_ & ? & _)|].
    split; [|done]. unfold keys_ready. rewrite Es. by eexists.
  - intros _. destruct (serve_get_missing KSecret _ w Es) as (e & He & Hg).
    destruct (randomKey_run w) as (ka & w1 & Hr1 & Ha & Hf1).
    destruct (randomKey_run w1) as (kb & w2 & Hr2 & Hb & Hf2).
    set (s0 := {| sec_Meta := new_meta (Namespace (sk_Meta sk)) (SigningSecretName (Name (sk_Meta sk)));
                  sec_Data := None |}).
    destruct (CreateOrPatch_missing KSecret s0 (λ s _, fill_keys sk ka kb s) w2)
      as (s & w3 & Hr3 & _ & Hs3 & Hc3 & Hf3); [by rewrite Hf2, Hf1|done|done|].
    pose proof (serve_create_secret _ _ _ _ Hc3) as Hdata.
    destruct (filled_keys sk ka kb s0 Ha Hb) as [[a b] Hk].
    assert (Hk' : secret_keys s = Some (a, b)) by (unfold secret_keys in *; by rewrite Hdata).
    exists a, b, w3. unfold ensureGRPCKeys.
    rewrite run_bind, (run_call serve (OpGet KSecret _)), Hg. cbn [fst snd]. rewrite He.
    unfold createKeys, try. rewrite run_bind, Hr1, run_bind, Hr2. fold s0. rewrite run_bind, Hr3.
    unfold rereadKeys, try.
    change (@obj_key KSecret s0) with (keys_key sk) in Hs3, Hf3.
    rewrite run_bind, (run_call serve (OpGet KSecret _)), (serve_get KSecret _ w3 s Hs3). cbn [fst snd].
    rewrite Hk'. split; [done|]. split; [by apply secret_keys_Some in Hk as (_ & ? & _)|].
    split; [unfold keys_ready; rewrite Hs3; by eexists|].
    intros k key Hne. by rewrite Hf3, Hf2, Hf1.
Qed.
(** The containers can be built for the leader. *)
Definition buildable (leader : Pod) sk : Prop := ∃ r, convContainers leader (sk_Spec sk) = Ok r.

Lemma Forall_upd_first {A} (P : A → Prop) (p : A → bool) f l :
  (∀ x, P x → P (f x)) → Forall P l → Forall P (upd_first p f l).
Proof.
  intros Hf Hl. induction Hl as [|x l Hx Hl IH]; simpl; [constructor|].
  destruct (p x); constructor; auto.
Qed.

Lemma upd_container_buildable leader f sk :
  (∀ c, c_VolumeMounts (f c) = c_VolumeMounts c) → buildable leader sk →
  buildable leader (upd_container f sk).
Proof.
  intros Hf. unfold buildable. rewrite !convContainers_ok_iff. simpl. intros [Hc Hi]. split; [|done].
  apply Forall_upd_first; [|done]. intros c. by rewrite !convContainer_ok_iff, Hf.
Qed.

(** What the wiring keeps. *)
Definition wires (leader : Pod) sk sk' : Prop :=
  sk_Meta sk' = sk_Meta sk ∧ sk_Status sk' = sk_Status sk ∧
  is_Some (getSidekickContainer sk') ∧ buildable leader sk'.

Lemma upd_container_wires leader n v sk :
  is_Some (getSidekickContainer sk) → buildable leader sk →
  wires leader sk (upd_container (λ c, setEnv c n v) sk).
Proof.
  intros Hc Hb. split; [done|]. split; [done|]. split; [|by apply upd_container_buildable].
  rewrite getSidekickContainer_upd by done. by apply fmap_is_Some.
Qed.

Section Wire.
Context `{Mergo} `{ObjectHasher} `{SortSlice} `{Crypto}.

Lemma setSnapshotGrant_wires leader sk key :
  key ≠ "" → is_Some (getSidekickContainer sk) → buildable leader sk →
  ∃ sk', setSnapshotGrant sk key = Ok sk' ∧ wires leader sk sk'.
Proof.
  intros Hk [c Hc] Hb. unfold setSnapshotGrant. rewrite Hc.
  destruct (String.eqb _ _); [by exists sk|].
  unfold EncryptString. rewrite (proj2 (String.eqb_neq _ _) Hk), newGCM_ok.
  eexists. split; [done|]. by apply upd_container_wires.
Qed.

Lemma setGRPCAddress_run leader sk w :
  is_Some (getSidekickContainer sk) → buildable leader sk →
  ∃ sk' w', run serve (setGRPCAddress sk) w = (Returned (Ok sk'), w') ∧ wires leader sk sk' ∧
    ∀ k key, stored k w' key = stored k w key.
Proof.
  intros [c Hc] Hb. unfold setGRPCAddress, grpcSliceAddress, try. rewrite Hc, run_bind, run_bind, (run_call serve (OpGetenv envPodName)).
  set (w1 := (serve (OpGetenv envPodName) w).2). rewrite run_bind, (run_call serve (OpGetenv envPodNamespace)).
  set (w2 := (serve (OpGetenv envPodNamespace) w1).2).
  rewrite (proj2 (String.eqb_neq _ _) (serve_identity envPodName w ltac:(set_solver))).
  rewrite (proj2 (String.eqb_neq _ _) (serve_identity envPodNamespace w1 ltac:(set_solver))).
  eexists _, w2. split; [done|]. split; [by apply upd_container_wires|].
  intros k key. unfold w2, w1. by rewrite !serve_frame.
Qed.

Lemma wireArchiver_run leader sk w :
  is_Some (getSidekickContainer sk) → buildable leader sk → keys_ready sk w →
  ∃ sk' w', run serve (wireArchiver sk) w = (Returned (Ok sk'), w') ∧ wires leader sk sk' ∧
    keys_ready sk w' ∧ same_but_keys sk w w'.
Proof.
  intros Hc Hb Hk. destruct (ensureGRPCKeys_run sk w Hk) as (a & b & w1 & Hr & Hbne & Hk1 & Hf1).
  unfold wireArchiver, try. rewrite run_bind, Hr. unfold setSigningKey.
  destruct Hc as [c Hc]. rewrite Hc.
  destruct (upd_container_wires leader envGRPCTokenSecret a sk) as (Hm1 & Hs1 & Hc1 & Hb1); [by eexists|done|].
  destruct (setSnapshotGrant_wires leader _ b Hbne Hc1 Hb1) as (sk2 & -> & Hm2 & Hs2 & Hc2 & Hb2).
  destruct (setGRPCAddress_run leader sk2 w1 Hc2 Hb2) as (sk3 & w2 & Hr3 & (Hm3 & Hs3 & Hc3 & Hb3) & Hf3).
  exists sk3, w2. split; [done|]. split; [split; [by rewrite Hm3, Hm2|]; split; [by rewrite Hs3, Hs2|done]|].
  split; [unfold keys_ready in *; by rewrite Hf3|]. intros k key Hne. by rewrite Hf3, Hf1.
Qed.
(** ** The status *)

Lemma status_run req sk cur w :
  meta_key (sk_Meta sk) = req → stored KSidekick w req = Some cur → meta_key (sk_Meta cur) = req →
  ∃ w', let sk' := set_sk_Status (sk_Status sk) cur in
    run serve (updateDistributedSidekickStatus sk) w = (Returned (sk', None), w') ∧
    stored KSidekick w' req = Some (obj_norm (k := KSidekick) sk') ∧
    ∀ k' key', (k', key') ≠ (KSidekick, req) → stored k' w' key' = stored k' w key'.
Proof. intros <- Hs Hk. exact (PatchStatus_stored KSidekick sk cur sk _ w Hs Hk eq_refl). Qed.

(** ** Creating the work *)

(** A work as it is stored right after its creation for [leader]. *)
Definition fresh_work (meta : ObjectMeta) (leader : Pod) (mw : ManifestWork) : Prop :=
  Finalizers (mw_Meta mw) = [] ∧ DeletionTimestamp (mw_Meta mw) = None ∧ mw_ResourceStatus mw = [] ∧
  ∃ raw pod, mw_Manifests mw = [raw] ∧ unstructured_pod (raw_Raw raw) = Ok pod ∧
    (∀ sk, sk_Meta sk = meta →
       Annotations (pod_Meta pod) = Some (distributed_annotations sk leader)) ∧
    ps_NodeName (pod_Spec pod) = ps_NodeName (pod_Spec leader).

Lemma ensurePodManifestWork_run sk leader cs ics w :
  let pod := distributed_pod sk leader cs ics in
  let ns := gm_str (Annotations (pod_Meta pod)) ManifestWorkClusterNameLabel in
  let key := mkKey ns (Name (sk_Meta sk)) in
  ns ≠ "" → stored KManifestWork w key = None →
  ∃ sk' mw w', run serve (ensurePodManifestWork sk pod) w = (Returned (None, sk'), w') ∧
    sk_Status sk' = sk_Status sk ∧ meta_key (sk_Meta sk') = meta_key (sk_Meta sk) ∧
    stored KManifestWork w' key = Some mw ∧ meta_key (mw_Meta mw) = key ∧ fresh_work (sk_Meta sk) leader mw ∧
    ∀ k' key', (k', key') ≠ (KManifestWork, key) → stored k' w' key' = stored k' w key'.
Proof.
  intros pod ns key Hns Hw. unfold ensurePodManifestWork. fold pod. fold ns.
  rewrite (proj2 (String.eqb_neq _ _) Hns).
  match goal with |- context [CreateOrPatch KManifestWork ?mw ?f] =>
    destruct (CreateOrPatch_missing KManifestWork mw f w) as (mw' & w' & Hr & Hcr & Hs & Hc & Hf);
      [exact Hw|done|done|]
  end.
  destruct (λ E, serve_create_work _ (manifest_pod pod) _ _ _ E Hc) as (Hst & raw & pod' & Hraw & Hun & Han & Hn);
    [reflexivity|].
  destruct Hcr as (Hk & Hd & _ & Hfin & _).
  eexists _, mw', w'. rewrite run_bind, Hr. split; [done|]. split; [by destruct (Labels (sk_Meta sk))|].
  split; [by destruct (Labels (sk_Meta sk))|]. split; [done|]. split; [done|]. split; [|done].
  split; [done|]. split; [done|]. split; [done|]. exists raw, pod'. split; [done|]. split; [done|].
  split; [|done]. intros sk0 E. rewrite Han. simpl. f_equal. by apply distributed_annotations_meta.
Qed.

Lemma createManifestWork_run req sk cur leader ns w :
  meta_key (sk_Meta sk) = req → stored KSidekick w req = Some cur → meta_key (sk_Meta cur) = req →
  is_Some (getSidekickContainer sk) → buildable leader sk → keys_ready sk w →
  let key := mkKey ns (Name (sk_Meta sk)) in
  gm_str (Some (distributed_annotations sk leader)) ManifestWorkClusterNameLabel = ns →
  ns ≠ "" → stored KManifestWork w key = None →
  ∃ mw cur' w', run serve (createManifestWork sk leader) w = (Returned None, w') ∧
    stored KManifestWork w' key = Some mw ∧ meta_key (mw_Meta mw) = key ∧ fresh_work (sk_Meta sk) leader mw ∧
    stored KSidekick w' req = Some cur' ∧ sk_Meta cur' = sk_Meta cur ∧ sk_Spec cur' = sk_Spec cur ∧
    lst_Name (st_Leader (sk_Status cur')) = Name (pod_Meta leader) ∧ keys_ready sk w' ∧
    ∀ k' key', (k', key') ≠ (KManifestWork, key) → (k', key') ≠ (KSidekick, req) →
      (k', key') ≠ (KSecret, keys_key sk) → stored k' w' key' = stored k' w key'.
Proof.
  intros Hk Hs Hc Hwal Hb Hkeys key Hns Hne Hw.
  destruct (wireArchiver_run leader sk w Hwal Hb Hkeys) as (sk1 & w1 & Hr1 & (Hm1 & Hs1 & _ & [[cs ics] Hb1]) & Hk1 & Hf1).
  destruct (ensurePodManifestWork_run sk1 leader cs ics w1) as (sk2 & mw & w2 & Hr2 & Hs2 & Hk2 & Hmw & Hmk & Hfw & Hf2).
  { simpl. rewrite (distributed_annotations_meta sk sk1) by done. by rewrite Hns. }
  { simpl. rewrite (distributed_annotations_meta sk sk1), Hns, Hm1 by done. by rewrite Hf1. }
  simpl in Hmw, Hmk, Hf2. rewrite (distributed_annotations_meta sk sk1), Hns, Hm1 in Hmw, Hmk, Hf2 by done.
  set (sk3 := upd_status (λ st, set_ObservedGeneration (Generation (sk_Meta sk2))
                  (set_Pod (pst_Phase empty_status) (set_Leader (Name (pod_Meta leader)) st))) sk2).
  destruct (status_run req sk3 cur w2) as (w3 & Hr3 & Hs3 & Hf3).
  { change (meta_key (sk_Meta sk2) = req). by rewrite Hk2, Hm1, Hk. }
  { by rewrite Hf2, Hf1. }
  { done. }
  eexists mw, _, w3. unfold createManifestWork. rewrite run_bind, Hr1, Hb1, run_bind, Hr2. cbn zeta.
  change (pst_Phase (pod_Status (distributed_pod sk1 leader cs ics))) with (pst_Phase empty_status).
  fold sk3. rewrite run_bind, Hr3. split; [done|].
  split; [by rewrite Hf3|]. split; [done|]. split; [by rewrite <- Hm1|]. split; [exact Hs3|].
  do 3 (split; [done|]). split; [unfold keys_ready in *; by rewrite Hf3, Hf2|].
  intros k' key' Hn1 Hn2 Hn3. by rewrite Hf3, Hf2, Hf1.
Qed.
End Wire.
End Hub.
