(* ===== verification/DistributedPass.v ===== *)
(** * A pass over a distributed Sidekick

    What one call of [Reconcile] does to a live, distributed Sidekick with restart
    policy Always on a hub, up to the election of its leader.  The metadata and the
    spec are fixed; the status and the works are arbitrary. *)

From S2P Require Import Prelude Effects GoStd Types Cluster Kmodules Leader Phase PodBuilder Local LocalProps Server LocalRun.
From S2P Require Import GoStrings Codec Token SnapshotServer GrpcWiring Distributed Controller WiringProps DistributedProps LocalPass Hub.

Lemma observe_mw_kept `{WorkJson} mw sk :
  sk_Meta (observe_mw mw sk) = sk_Meta sk ∧
  sp_RestartPolicy (sk_Spec (observe_mw mw sk)) = sp_RestartPolicy (sk_Spec sk) ∧
  st_Leader (sk_Status (observe_mw mw sk)) = st_Leader (sk_Status sk).
Proof.
  unfold observe_mw. destruct (_ && _); [|done]. destruct (negb _); [|done].
  set (s := put_failure _ _ _). pose proof (over_limit_snd s) as (Hst & Hm & _ & Hp).
  destruct (over_limit s) as [[] s']; simpl in *; rewrite ?Hst, ?Hm, ?Hp; done.
Qed.

Section Pass.
Context `{HubServer W} `{Mergo} `{ObjectHasher} `{SortSlice} `{LabelSelectors} `{Crypto}.
Implicit Types (w : W) (sk : Sidekick) (mw : ManifestWork) (proc : Proc).

(** ** The setting *)

Context (req : NamespacedName) (m : ObjectMeta) (spec : SidekickSpec).

Abbreviation about := (about m spec).
Abbreviation name := (key_Name req).

(** What does not change from pass to pass. *)
Record hub_sidekick : Prop := {
  hs_key : meta_key m = req;
  hs_live : DeletionTimestamp m = None;
  hs_held : HasFinalizer m getFinalizerName = true;
  hs_distributed : sp_Distributed spec = true;
  hs_always : sp_RestartPolicy spec = RestartPolicyAlways
}.

(** The work of the Sidekick. *)
Definition own w : option ManifestWork := found name (namespaces w) w.

(** The namespaces and the works of other names are as in [w]. *)
Definition same_hub w w' : Prop :=
  (∀ key, stored KNamespace w' key = stored KNamespace w key) ∧
  (∀ key, key_Name key ≠ name → stored KManifestWork w' key = stored KManifestWork w key).

Context (Hset : hub_sidekick).

Lemma about_name sk : about sk → Name (sk_Meta sk) = name ∧ meta_key (sk_Meta sk) = req.
Proof. intros [-> _]. rewrite <- (hs_key Hset). done. Qed.

(** ** Up to the election *)

(** Only the Sidekick and exports of services differ. *)
Definition calm w w' : Prop :=
  ∀ k key, (k, key) ≠ (KSidekick, req) → k ≠ KServiceExport → stored k w' key = stored k w key.

Lemma calm_hub w w' : calm w w' → same_hub w w' ∧ own w' = own w ∧ namespaces w' = namespaces w.
Proof.
  intros Hc. assert (Hn : namespaces w' = namespaces w) by (apply namespaces_ext; intros key; by apply Hc).
  split; [split; intros key; intros; by apply Hc|]. split; [|done]. unfold own. rewrite Hn.
  apply found_ext. intros ns. by apply Hc.
Qed.

(** The phase of a Sidekick with policy Always is recorded and is not terminal. *)
Lemma record_run l sk0 sk w :
  stored KSidekick w req = Some sk → about sk →
  sk_Meta sk0 = m → sp_RestartPolicy (sk_Spec sk0) = RestartPolicyAlways → counted sk0 →
  ∃ w' sk' phase, run serve (recordDistributedPhase l sk0) w = (Returned (Ok phase, sk'), w') ∧
    phase ≠ SideKickPhaseFailed ∧ st_Phase (sk_Status sk') ≠ SidekickPhaseSucceeded ∧
    about sk' ∧ st_Leader (sk_Status sk') = st_Leader (sk_Status sk0) ∧ counted sk' ∧
    stored KSidekick w' req = Some (obj_norm (k := KSidekick) sk') ∧
    ∀ k' key', (k', key') ≠ (KSidekick, req) → stored k' w' key' = stored k' w key'.
Proof.
  intros Hs Ha Hm Hp Hc. unfold recordDistributedPhase, getDistributedSidekickPhase.
  rewrite Hp, String.eqb_refl. set (phase := if negb _ then _ else _).
  destruct (status_run req (upd_status (set_Phase phase) sk0) sk w) as (w' & Hr & Hs' & Hf);
    [by simpl; rewrite Hm; apply hs_key|done|by apply about_name|].
  eexists w', _, phase. rewrite run_bind, Hr. split; [done|].
  split; [by unfold phase; destruct (negb _)|]. split; [by unfold phase; simpl; destruct (negb _)|].
  split; [exact Ha|]. split; [done|]. split; [exact Hc|]. split; [exact Hs'|exact Hf].
Qed.

(** Whatever work is found, the rest of the computation is [recordDistributedPhase]. *)
Lemma calculate_run sk w :
  about sk → namespaces w ≠ [] →
  ∃ l sk0, run serve (calculateDistributedSidekickPhase sk) w = run serve (recordDistributedPhase l sk0) w ∧
    sk_Meta sk0 = m ∧ sp_RestartPolicy (sk_Spec sk0) = RestartPolicyAlways ∧
    st_Leader (sk_Status sk0) = st_Leader (sk_Status sk) ∧ counted sk0.
Proof.
  intros Ha Hn. pose proof (current_run (init_counters sk) w Hn) as Hcur. unfold calculateDistributedSidekickPhase.
  assert (Hpol : sp_RestartPolicy (sk_Spec (init_counters sk)) = RestartPolicyAlways).
  { change (sk_Spec (init_counters sk)) with (sk_Spec sk). rewrite (proj2 Ha). apply hs_always, Hset. }
  destruct (found _ _ _) as [mw|].
  - exists (Some mw), (observe_mw mw (init_counters sk)). rewrite run_bind, Hcur. split; [done|].
    destruct (observe_mw_kept mw (init_counters sk)) as (E1 & E2 & E3). rewrite E1, E2, E3.
    split; [apply Ha|]. split; [done|]. split; [done|]. apply counted_observe_mw, counted_init.
  - destruct Hcur as (e & He & Hcur). exists None, (init_counters sk). rewrite run_bind, Hcur, He. split; [done|].
    split; [apply Ha|]. split; [done|]. split; [done|]. apply counted_init.
Qed.

(** A pass gets to the election. *)
Lemma reaches_hub_election proc w sk :
  (∀ p, stored KPod w req = Some p → DeletionTimestamp (pod_Meta p) = None) → namespaces w ≠ [] →
  stored KSidekick w req = Some sk → about sk →
  ∃ proc' w' sk', run serve (Reconcile proc req) w =
      run serve ('(res, err) ← reconcileDistributedLeader req sk'; mret (res, err, proc')) w' ∧
    about sk' ∧ st_Leader (sk_Status sk') = st_Leader (sk_Status sk) ∧ counted sk' ∧
    stored KSidekick w' req = Some (obj_norm (k := KSidekick) sk') ∧ calm w w'.
Proof.
  intros Hpod Hne Hs Ha. destruct (startGRPCOnce_run proc sk w) as (proc' & w1 & Hr1 & Hf1).
  destruct (add_finalizer_run req m w1 sk (hs_key Hset) (hs_live Hset) (hs_held Hset)) as (w2 & Hr2 & Hs2 & Hf2);
    [by rewrite Hf1|apply Ha|].
  assert (Hc2 : calm w w2) by (intros k key Hk Hse; by rewrite Hf2, Hf1).
  destruct (calculate_run sk w2 Ha) as (l & sk0 & Hcalc & Hm & Hp & Hl & Hc).
  { by rewrite (proj2 (proj2 (calm_hub w w2 Hc2))). }
  destruct (record_run l sk0 sk w2 Hs2 Ha Hm Hp Hc) as (w3 & sk3 & phase & Hr3 & Hnf & Hns & Ha3 & Hl3 & Hc3 & Hs3 & Hf3).
  assert (Hfin : run serve (handleDistributedSidekickFinalizer sk) w1 = (Returned (sk, None), w2)).
  { unfold handleDistributedSidekickFinalizer.
    rewrite bool_decide_eq_false_2 by (rewrite (proj1 Ha), (hs_live Hset); by intros []). exact Hr2. }
  exists proc', w3, sk3. split.
  - unfold Reconcile. rewrite run_bind, not_terminating_run by exact Hpod. cbn iota beta.
    rewrite run_bind, (run_call serve (OpGet KSidekick req)), (serve_get KSidekick req w sk Hs). cbn [fst snd].
    rewrite (proj2 Ha), (hs_distributed Hset). unfold ReconcileDistributedSidekick.
    rewrite run_bind, (run_call serve (OpGet KSidekick req)), (serve_get KSidekick req w sk Hs). cbn [fst snd].
    unfold reconcileDistributed. rewrite run_bind, Hr1, run_bind, Hfin.
    unfold updateDistributedSidekickPhase. rewrite !run_bind, Hcalc, Hr3.
    unfold dropIfTerminal. rewrite (proj2 (String.eqb_neq _ _) Hnf), (proj2 (String.eqb_neq _ _) Hns), run_ret. by rewrite run_bind.
  - split; [done|]. split; [by rewrite Hl3|]. split; [done|]. split; [done|].
    intros k key Hk Hse. rewrite Hf3, Hc2; done.
Qed.
End Pass.
