(* ===== verification/DistributedConvergence.v ===== *)
(** * Convergence of the distributed reconciler

    A distributed Sidekick with restart policy Always, whose leader is elected and
    whose containers can be built for it, gets the ManifestWork for that leader,
    whatever work of its name is stored at the start: a stale one is deleted, a
    missing one created, a current one kept.

    The operator does not act alone.  Between two passes the agent of the cluster
    reports the status of the work, and a work that it holds by a finalizer goes
    away only when it releases it.  So the system is a relation: a step is a pass
    of [Reconcile], a report or a release. *)

From S2P Require Import Prelude Effects GoStd Types Cluster Kmodules Leader Phase PodBuilder Local LocalProps Server LocalRun.
From S2P Require Import GoStrings Codec Token SnapshotServer GrpcWiring Distributed Controller WiringProps DistributedProps LocalPass Hub DistributedPass.

(** A work that reports no role.  The operator's own works do not: their feedback
    rules ([manifest_configs]) do not ask for it. *)
Definition passive (mw : ManifestWork) : Prop :=
  Forall (λ v, fb_Name v ≠ "PodRoleLabel") (all_values mw).

(** Where the election goes by role, such a work is not a candidate. *)
Lemma passive_no_candidate `{WorkJson} mw : passive mw → candidate true mw = None.
Proof.
  unfold passive, all_values, candidate. intros Hp. destruct (mw_Manifests mw) as [|raw rest]; [done|].
  destruct (unmarshal_pod _); [|done]. destruct (mw_ResourceStatus mw) as [|mc mcs]; [done|].
  simpl in Hp. apply Forall_app in Hp as [Hp _]. unfold read_feedback.
  assert (Hf : ∀ f, f_primary f = false → f_primary (fold_left feedback_step (mc_Values mc) f) = false).
  { induction Hp as [|v vs Hv _ IH]; intros f Hf; simpl; [done|]. apply IH. unfold feedback_step.
    rewrite (proj2 (String.eqb_neq _ _) Hv). by repeat case_match. }
  by rewrite Hf.
Qed.

Section Convergence.
Context `{HubServer W} `{Mergo} `{ObjectHasher} `{SortSlice} `{LabelSelectors} `{Crypto}.
Implicit Types (w : W) (sk : Sidekick) (mw : ManifestWork) (proc : Proc).

(** ** The setting *)

Context (req : NamespacedName) (m : ObjectMeta) (spec : SidekickSpec) (leader : Pod).

Abbreviation about := (about m spec).
Abbreviation name := (key_Name req).
Abbreviation own := (own req).
Abbreviation same_hub := (same_hub req).
Abbreviation calm := (calm req).

(** The cluster of the leader; its namespace on the hub. *)
Definition leader_ns : string := gm_str (Annotations (pod_Meta leader)) ManifestWorkClusterNameLabel.

(** What does not change from pass to pass. *)
Record hub_setting : Prop := {
  hs_sidekick : hub_sidekick req m spec;
  hs_archiver : is_Some (List.find is_walg (sp_Containers spec));
  hs_builds : ∃ cs, convContainers leader spec = Ok cs;
  hs_cluster : leader_ns ≠ ""
}.

(** A work of the Sidekick's name, stored under [key]. *)
Record own_work (key : NamespacedName) mw : Prop := {
  ow_key : meta_key (mw_Meta mw) = key;
  ow_held : DeletionTimestamp (mw_Meta mw) = None ∨ Finalizers (mw_Meta mw) ≠ [];
  ow_passive : passive mw;
  ow_decodes : ∃ raw rest pod, mw_Manifests mw = raw :: rest ∧ unstructured_pod (raw_Raw raw) = Ok pod
}.

(** The election of [leader] depends on those only, as long as the works of the
    Sidekick report no role. *)
Definition elects w : Prop :=
  ∀ w' sk, same_hub w w' → (∀ ns mw, stored KManifestWork w' (mkKey ns name) = Some mw → passive mw) →
    about sk → run serve (getDistributedLeader sk) w' = (Returned (Ok leader), w').

(** At most one namespace has a work of the Sidekick's name. *)
Definition only_at (ns : string) w : Prop :=
  ∀ ns', ns' ≠ ns → stored KManifestWork w (mkKey ns' name) = None.

Record inv w : Prop := {
  inv_sk : ∃ sk, stored KSidekick w req = Some sk ∧ about sk;
  inv_pod : ∀ p, stored KPod w req = Some p → DeletionTimestamp (pod_Meta p) = None;
  inv_cluster : leader_ns ∈ ns_names w;
  inv_work : ∃ ns, ns ∈ ns_names w ∧ only_at ns w ∧
    ∀ mw, stored KManifestWork w (mkKey ns name) = Some mw → own_work (mkKey ns name) mw;
  inv_keys : ∀ sk, about sk → keys_ready sk w;
  inv_elects : elects w
}.

Lemma own_at ns w :
  ns ∈ ns_names w → only_at ns w → own w = stored KManifestWork w (mkKey ns name).
Proof.
  intros Hn Ho. unfold own. destruct (found name (namespaces w) w) as [mw|] eqn:E.
  - apply found_stored in E as (ns' & _ & Hs). destruct (decide (ns' = ns)) as [->|Hne]; [done|].
    by rewrite (Ho ns' Hne) in Hs.
  - symmetry. apply (proj1 (found_none _ _ _) E). exact Hn.
Qed.

(** ** The distance *)

(** The pod of the work matches the Sidekick and the leader. *)
Definition work_current sk mw : bool :=
  match mw_Manifests mw with
  | [] => false
  | raw :: _ =>
      match unstructured_pod (raw_Raw raw) with
      | Ok pod => negb (mwNeedsRecreate sk leader pod (extractPodStatusFromMW mw))
      | Err _ => false
      end
  end.

(** The agent has reported a phase, and the manifest names a node. *)
Definition reported mw : bool :=
  match mw_Manifests mw with
  | [] => false
  | raw :: _ =>
      match unstructured_pod (raw_Raw raw) with
      | Ok pod => negb (String.eqb (ps_NodeName (pod_Spec pod)) "" || String.eqb (extractPodStatusFromMW mw) "")
      | Err _ => false
      end
  end.

Definition terminating mw : bool := bool_decide (is_Some (DeletionTimestamp (mw_Meta mw))).

(** The status names the leader. *)
Definition recorded_leader sk : bool :=
  String.eqb (Name (pod_Meta leader)) (lst_Name (st_Leader (sk_Status sk))).

(** How many passes are left. *)
Definition distance w : nat :=
  match own w, stored KSidekick w req with
  | Some mw, Some sk => if terminating mw then 1 else if recorded_leader sk && work_current sk mw then 0 else 2
  | _, _ => 1
  end%nat.

(** The next pass has to wait for the agent: the work is going away, or it is
    stale and has not been reported on. *)
Definition blocked w : bool :=
  match own w, stored KSidekick w req with
  | Some mw, Some sk => terminating mw || (recorded_leader sk && negb (work_current sk mw) && negb (reported mw))
  | _, _ => false
  end.

(** The Sidekick has a work, not going away, whose pod is the one for [leader],
    and the status says so. *)
Definition settled w : Prop :=
  ∃ mw sk raw rest pod, own w = Some mw ∧ DeletionTimestamp (mw_Meta mw) = None ∧
    stored KSidekick w req = Some sk ∧ lst_Name (st_Leader (sk_Status sk)) = Name (pod_Meta leader) ∧
    mw_Manifests mw = raw :: rest ∧ unstructured_pod (raw_Raw raw) = Ok pod ∧
    mwNeedsRecreate sk leader pod (extractPodStatusFromMW mw) = false.

Lemma hub_distance_settled w : distance w = 0%nat ↔ settled w.
Proof.
  unfold distance, settled, terminating, recorded_leader, work_current. split.
  - destruct (own w) as [mw|]; [|done]. destruct (stored KSidekick w req) as [sk|]; [|done].
    destruct (bool_decide_reflect (is_Some (DeletionTimestamp (mw_Meta mw)))) as [|Hd]; [done|].
    destruct (String.eqb_spec (Name (pod_Meta leader)) (lst_Name (st_Leader (sk_Status sk)))); [|done].
    destruct (mw_Manifests mw) as [|raw rest] eqn:Em; [done|].
    destruct (unstructured_pod (raw_Raw raw)) as [pod|] eqn:Eu; [|done].
    destruct (mwNeedsRecreate _ _ _ _) eqn:En; [done|]. intros _.
    exists mw, sk, raw, rest, pod. rewrite <- eq_None_not_Some in Hd. by split_and!.
  - intros (mw & sk & raw & rest & pod & -> & Hd & -> & -> & -> & -> & ->).
    rewrite bool_decide_eq_false_2 by (rewrite Hd; by intros []). by rewrite String.eqb_refl.
Qed.

Lemma hub_distance_bound w : (distance w ≤ 2)%nat.
Proof. unfold distance. repeat case_match; lia. Qed.

(** The distance is about the work and the status. *)
Lemma distance_keep w w' sk sk' :
  own w' = own w → stored KSidekick w req = Some sk → stored KSidekick w' req = Some sk' →
  about sk → about sk' → st_Leader (sk_Status sk') = st_Leader (sk_Status sk) → distance w' = distance w.
Proof.
  intros Ho Hs Hs' [Ha1 Ha2] [Hb1 Hb2] Hl. unfold distance. rewrite Ho, Hs, Hs'. unfold recorded_leader. rewrite Hl.
  destruct (own w) as [mw|]; [|done]. unfold work_current, mwNeedsRecreate. by rewrite Ha1, Ha2, Hb1, Hb2.
Qed.

Context (Hset : hub_setting).

Abbreviation about_name := (about_name req m spec (hs_sidekick Hset)).

Lemma namespaces_nonempty w : inv w → namespaces w ≠ [].
Proof.
  intros Hi E. pose proof (inv_cluster w Hi) as Hin. unfold ns_names in Hin. rewrite E in Hin.
  by apply elem_of_nil in Hin.
Qed.

(** ** From the election on *)

(** The invariant after a pass: what it wrote is the Sidekick, its Secret and the
    work in one namespace. *)
Lemma inv_intro w w' sk ns :
  inv w → stored KSidekick w' req = Some sk → about sk →
  (∀ key, stored KPod w' key = stored KPod w key) → same_hub w w' →
  (∀ sk, about sk → keys_ready sk w') → ns ∈ ns_names w → only_at ns w' →
  (∀ mw, stored KManifestWork w' (mkKey ns name) = Some mw → own_work (mkKey ns name) mw) → inv w'.
Proof.
  intros Hi Hs Ha Hp [Hn Ho] Hk Hin Hat Hw.
  assert (En : ns_names w' = ns_names w) by (unfold ns_names; by rewrite (namespaces_ext w w' Hn)).
  split.
  - by exists sk.
  - intros p. rewrite Hp. apply (inv_pod w Hi).
  - rewrite En. apply (inv_cluster w Hi).
  - exists ns. by rewrite En.
  - done.
  - intros w'' sk'' [Hn' Ho'] Hpass Ha''. apply (inv_elects w Hi); [|done..].
    split; intros key; intros; [by rewrite Hn', Hn|by rewrite Ho', Ho].
Qed.

(** A pass keeps the invariant, does not fail, moves nothing away from the settled
    state and, unless it has to wait, brings it nearer. *)
Definition advances w (r : outcome (Result * option error * Proc) * W) : Prop :=
  (∃ res proc', r.1 = Returned (res, None, proc')) ∧ inv r.2 ∧
  (distance r.2 ≤ distance w)%nat ∧ (blocked w = false → (distance r.2 ≤ pred (distance w))%nat).

Lemma only_at_own ns w mw : inv w → own w = Some mw → Namespace (mw_Meta mw) = ns →
  ns ∈ ns_names w ∧ only_at ns w ∧ own_work (mkKey ns name) mw ∧ stored KManifestWork w (mkKey ns name) = Some mw.
Proof.
  intros Hi Ho Hns. destruct (inv_work w Hi) as (ns' & Hin & Hat & Hw). rewrite (own_at ns') in Ho by done.
  pose proof (Hw mw Ho) as Hown. pose proof (ow_key _ _ Hown) as Hk. unfold meta_key in Hk. injection Hk as Hk _.
  rewrite Hk in Hns. by subst ns'.
Qed.

(** The search sees the same works after the first half of a pass. *)
Lemma calm_lookup w w' sk :
  inv w → calm w w' → about sk →
  match own w with
  | Some mw => run serve (lookupMW req sk) w' = (Returned (Ok mw), w')
  | None => ∃ e, IsNotFound e = true ∧ run serve (lookupMW req sk) w' = (Returned (Err e), w')
  end.
Proof.
  intros Hi Hc Ha. destruct (calm_hub req w w' Hc) as (_ & Ho & Hn). destruct (about_name sk Ha) as [Hname _].
  pose proof (lookupMW_run req sk w') as Hl. rewrite Hname in Hl. fold (own w') in Hl. rewrite Ho in Hl.
  apply Hl; [rewrite Hn; by apply namespaces_nonempty|done|].
  intros ns mw Hs. rewrite Hc in Hs by done. destruct (inv_work w Hi) as (ns' & Hin & Hat & Hw).
  destruct (decide (ns = ns')) as [->|Hne]; [|by rewrite (Hat ns Hne) in Hs].
  pose proof (ow_key _ _ (Hw mw Hs)) as Hk. unfold meta_key in Hk. by injection Hk.
Qed.

Lemma calm_elects w w' sk :
  inv w → calm w w' → about sk → run serve (getDistributedLeader sk) w' = (Returned (Ok leader), w').
Proof.
  intros Hi Hc Ha. apply (inv_elects w Hi); [by apply (calm_hub req)| |done].
  intros ns mw Hs. rewrite Hc in Hs by done. destruct (inv_work w Hi) as (ns' & _ & Hat & Hw).
  destruct (decide (ns = ns')) as [->|Hne]; [|by rewrite (Hat ns Hne) in Hs].
  by apply (ow_passive _ _ (Hw mw Hs)).
Qed.

(** A work is deleted and the status reset. *)
Lemma work_taken_down w sk cur mw :
  own_work (meta_key (mw_Meta mw)) mw → stored KManifestWork w (meta_key (mw_Meta mw)) = Some mw →
  about sk → stored KSidekick w req = Some cur → about cur →
  ∃ w' cur', run serve (deleteMWAndResetStatus sk mw) w = (Returned None, w') ∧
    stored KSidekick w' req = Some cur' ∧ about cur' ∧ gone_or_going mw w' ∧
    ∀ k key, (k, key) ≠ (KManifestWork, meta_key (mw_Meta mw)) → (k, key) ≠ (KSidekick, req) →
      stored k w' key = stored k w key.
Proof.
  intros Hown Hs Ha Hc Hac. destruct (deleteMW_run mw w Hs (ow_held _ _ Hown)) as (w1 & Hr1 & Hg & Hf1).
  destruct (status_run req (reset_status sk) cur w1) as (w2 & Hr2 & Hs2 & Hf2);
    [exact (proj2 (about_name sk Ha))|by rewrite Hf1|by apply about_name|].
  eexists w2, _. unfold deleteMWAndResetStatus. rewrite run_bind, Hr1, run_bind, Hr2. split; [done|].
  split; [exact Hs2|]. split; [exact Hac|]. split; [|intros k key Hn1 Hn2; by rewrite Hf2, Hf1].
  intros mw' Hmw'. rewrite Hf2 in Hmw' by done. by apply Hg.
Qed.
Lemma leader_run w w' sk :
  inv w → calm w w' → about sk →
  run serve (reconcileDistributedLeader req sk) w' =
  run serve (match own w with
             | None => err ← createManifestWork sk leader; mret (no_requeue, err)
             | Some mw => if recorded_leader sk then syncManifestWork sk leader mw
                          else err ← deleteMWAndResetStatus sk mw; mret (no_requeue, err)
             end) w'.
Proof.
  intros Hi Hc Ha. pose proof (calm_lookup w w' sk Hi Hc Ha) as Hl. unfold reconcileDistributedLeader.
  rewrite run_bind, (calm_elects w w' sk Hi Hc Ha). unfold recorded_leader, syncOrCreateMW.
  destruct (own w) as [mw|].
  - destruct (String.eqb _ _); cbn [negb]; by rewrite run_bind, Hl.
  - destruct Hl as (e & He & Hl). destruct (String.eqb _ _); cbn [negb]; rewrite run_bind, Hl;
      [|rewrite run_bind, Hl]; by rewrite He.
Qed.

Lemma going_own_work mw mw' key : own_work key mw → going mw mw' → own_work key mw'.
Proof.
  intros [Hk _ Hp Hd] (_ & Hf & Hk' & Hm & Hst).
  split; [by rewrite Hk'|by right|unfold passive, all_values; by rewrite Hst|by rewrite Hm].
Qed.

Lemma keys_about sk sk' w : about sk → about sk' → keys_ready sk w → keys_ready sk' w.
Proof. intros [E _] [E' _]. unfold keys_ready, keys_key. by rewrite E, E'. Qed.

Lemma deletion_advances w w' sk cur mw proc :
  inv w → calm w w' → own w = Some mw → about sk → stored KSidekick w' req = Some cur → about cur →
  distance w ≠ 0%nat →
  advances w (run serve ('(res, err) ← (err ← deleteMWAndResetStatus sk mw; mret (no_requeue, err));
                         mret (res, err, proc)) w').
Proof.
  intros Hi Hc Ho Ha Hs Hcur Hd.
  destruct (only_at_own (Namespace (mw_Meta mw)) w mw Hi Ho eq_refl) as (Hin & Hat & Hown & Hst).
  set (ns := Namespace (mw_Meta mw)) in *. pose proof (ow_key _ _ Hown) as Hk.
  destruct (work_taken_down w' sk cur mw) as (w2 & cur2 & Hr & Hs2 & Ha2 & Hg & Hf);
    [by rewrite Hk|rewrite Hk; by rewrite Hc|done..|].
  unfold gone_or_going in Hg. rewrite Hk in Hg, Hf. rewrite !run_bind, Hr.
  change (advances w (Returned (no_requeue, None, proc), w2)).
  assert (Hhub : same_hub w w2).
  { split; intros key; intros; rewrite Hf, Hc; try done. intros E. simplify_eq/=. }
  assert (Hat2 : only_at ns w2).
  { intros ns' Hne. rewrite Hf by congruence. rewrite Hc by done. by apply Hat. }
  assert (Hi2 : inv w2).
  { apply (inv_intro w w2 cur2 ns Hi); try done.
    - intros key. by rewrite Hf, Hc.
    - intros sk' Ha'. unfold keys_ready. rewrite Hf, Hc by done. by apply (inv_keys w Hi).
    - intros mw' Hmw'. by eapply going_own_work, Hg. }
  split; [by eexists _, _|]. split; [exact Hi2|]. unfold snd.
  assert (Hd2 : (distance w2 ≤ 1)%nat).
  { unfold distance. rewrite (own_at ns); [|unfold ns_names; by rewrite (namespaces_ext w w2 (proj1 Hhub))|done].
    rewrite Hs2. destruct (stored KManifestWork w2 (mkKey ns name)) as [mw'|]; [|done].
    unfold terminating. rewrite bool_decide_eq_true_2; [done|]. by apply Hg. }
  split; [lia|]. intros Hb. assert (Hd1 : distance w = 2%nat); [|lia].
  unfold blocked in Hb. unfold distance in Hd |- *. rewrite Ho in Hb, Hd |- *.
  destruct (inv_sk w Hi) as (sk0 & Hs0 & _). rewrite Hs0 in Hb, Hd |- *.
  apply orb_false_iff in Hb as [Ht _]. rewrite Ht in Hd |- *. by destruct (_ && _).
Qed.
(** A pass that leaves the work alone and keeps the leader on record. *)
Lemma keeping_advances w w' sk cur res proc :
  inv w → calm w w' → stored KSidekick w req = Some sk → about sk → stored KSidekick w' req = Some cur → about cur →
  st_Leader (sk_Status cur) = st_Leader (sk_Status sk) → blocked w = true ∨ distance w = 0%nat →
  advances w (Returned (res, None, proc), w').
Proof.
  intros Hi Hc Hs Ha Hs' Ha' Hl Hb. destruct (calm_hub req w w' Hc) as (Hhub & Ho & Hn).
  assert (Hd : distance w' = distance w) by by eapply distance_keep.
  destruct (inv_work w Hi) as (ns & Hin & Hat & Hw).
  split; [by eexists _, _|]. unfold snd. split.
  - apply (inv_intro w w' cur ns Hi); try done.
    + intros key. by apply Hc.
    + intros sk' Ha''. unfold keys_ready. rewrite Hc by done. by apply (inv_keys w Hi).
    + intros ns' Hne. rewrite Hc by done. by apply Hat.
    + intros mw. rewrite Hc by done. apply Hw.
  - rewrite Hd. split; [done|]. intros Hb'. destruct Hb as [Hb|Hb]; [congruence|]. rewrite Hb. done.
Qed.

(** The pod of the leader's work carries the namespace of its cluster. *)
Lemma cluster_annotation sk :
  gm_str (Some (distributed_annotations sk leader)) ManifestWorkClusterNameLabel = leader_ns.
Proof.
  pose proof (hs_cluster Hset) as Hne. unfold leader_ns, gm_str in *. unfold distributed_annotations. cbn [gm_lookup].
  rewrite !lookup_insert_ne by done. destruct (Annotations (pod_Meta leader)) as [a|]; [|done].
  cbn [default gm_lookup] in *. unfold id in *. by destruct (a !! ManifestWorkClusterNameLabel) as [v|] eqn:E;
    [erewrite lookup_union_Some_l|].
Qed.

Lemma missing_work_advances w w' sk cur proc :
  inv w → calm w w' → own w = None → about sk → stored KSidekick w' req = Some cur → about cur →
  advances w (run serve ('(res, err) ← (err ← createManifestWork sk leader; mret (no_requeue, err));
                         mret (res, err, proc)) w').
Proof.
  intros Hi Hc Ho Ha Hs Hcur. destruct (about_name sk Ha) as [Hname Hk].
  assert (Hnone : ∀ ns, stored KManifestWork w' (mkKey ns name) = None).
  { intros ns. rewrite Hc by done. destruct (inv_work w Hi) as (ns' & Hin & Hat & _).
    destruct (decide (ns = ns')) as [->|Hne]; [by rewrite <- (own_at ns' w Hin Hat)|by apply Hat]. }
  destruct (createManifestWork_run req sk cur leader leader_ns w')
    as (mw & cur2 & w2 & Hr & Hmw & Hmk & (Hfin & Hdel & Hst & raw & pod & Hman & Hun & Han & Hno) & Hs2 & Hm2 & Hsp2 & Hl2 & Hk2 & Hf);
    [done|done|by apply about_name| | | |by apply cluster_annotation|by apply hs_cluster|by rewrite Hname|].
  { unfold getSidekickContainer. rewrite (proj2 Ha). apply hs_archiver, Hset. }
  { unfold buildable. rewrite (proj2 Ha). apply hs_builds, Hset. }
  { unfold keys_ready. rewrite Hc by done. by apply (inv_keys w Hi). }
  rewrite Hname in Hmw, Hmk, Hf. rewrite !run_bind, Hr. change (advances w (Returned (no_requeue, None, proc), w2)).
  assert (Ha2 : about cur2) by (split; [by rewrite Hm2; apply Hcur|by rewrite Hsp2; apply Hcur]).
  assert (Hhub : same_hub w w2).
  { split; intros key; intros; rewrite Hf, Hc; try done. intros E. simplify_eq/=. }
  assert (Hat2 : only_at leader_ns w2) by (intros ns Hne; rewrite Hf by congruence; apply Hnone).
  assert (Hi2 : inv w2).
  { apply (inv_intro w w2 cur2 leader_ns Hi); try done.
    - intros key. by rewrite Hf, Hc.
    - intros sk' Ha'. by apply (keys_about sk).
    - by apply inv_cluster.
    - intros mw' Hmw'. rewrite Hmw in Hmw'. injection Hmw' as <-.
      split; [done|by left|unfold passive, all_values; rewrite Hst; constructor|by eexists _, _, _]. }
  assert (Hz : distance w2 = 0%nat).
  { apply hub_distance_settled. exists mw, cur2, raw, [], pod.
    split; [rewrite (own_at leader_ns); [done|by apply inv_cluster|done]|].
    do 5 (split; [done|]). apply built_current; [|done|].
    - apply Han. by rewrite (proj1 Ha), (proj1 Ha2).
    - intros _. rewrite (proj2 Ha2), (hs_always _ _ _ (hs_sidekick Hset)). done. }
  split; [by eexists _, _|]. split; [exact Hi2|]. unfold snd. rewrite Hz. split; [lia|]. intros _. lia.
Qed.
(** A work that is current, or that the pass has to wait for. *)
Lemma waiting_or_settled w sk mw :
  own w = Some mw → stored KSidekick w req = Some sk → recorded_leader sk = true →
  work_current sk mw = true ∨ reported mw = false → blocked w = true ∨ distance w = 0%nat.
Proof.
  intros Ho Hs Hl Hw. unfold blocked, distance. rewrite Ho, Hs, Hl. destruct (terminating mw); [by left|].
  destruct (work_current sk mw); [by right|]. destruct Hw as [?|Hr]; [done|]. rewrite Hr. by left.
Qed.

(** A stale work is charged to the Sidekick when it ran on another node. *)
Lemma charge_run w sk mw (pod : Pod) :
  counted sk → about sk →
  ∃ sk', run serve (if negb (String.eqb (ps_NodeName (pod_Spec leader)) (ps_NodeName (pod_Spec pod))) then
                      mf ← gm_write (st_FailureCount (sk_Status sk)) (UID (mw_Meta mw)) true;
                      mret (upd_status (set_FailureCount mf) sk)
                    else mret sk) w = (Returned sk', w) ∧ about sk'.
Proof.
  intros [mf Hmf] Ha. destruct (negb _); [|by exists sk]. unfold gm_write. rewrite Hmf. by eexists.
Qed.

Lemma sync_advances w w' sk0 sk mw proc :
  inv w → calm w w' → own w = Some mw → stored KSidekick w req = Some sk0 → about sk0 →
  about sk → counted sk → st_Leader (sk_Status sk) = st_Leader (sk_Status sk0) → recorded_leader sk0 = true →
  stored KSidekick w' req = Some (obj_norm (k := KSidekick) sk) →
  advances w (run serve ('(res, err) ← syncManifestWork sk leader mw; mret (res, err, proc)) w').
Proof.
  intros Hi Hc Ho Hs0 Ha0 Ha Hcnt Hl Hrec Hs.
  destruct (only_at_own (Namespace (mw_Meta mw)) w mw Hi Ho eq_refl) as (_ & _ & Hown & _).
  destruct (ow_decodes _ _ Hown) as (raw & rest & pod & Hman & Hun).
  assert (Hneed : mwNeedsRecreate sk leader pod (extractPodStatusFromMW mw) = negb (work_current sk0 mw)).
  { unfold work_current. rewrite Hman, Hun, negb_involutive. unfold mwNeedsRecreate.
    by rewrite (proj1 Ha), (proj2 Ha), (proj1 Ha0), (proj2 Ha0). }
  pose proof (waiting_or_settled w sk0 mw Ho Hs0 Hrec) as Hwait. unfold reported in Hwait. rewrite Hman, Hun in Hwait.
  unfold syncManifestWork, ExtractPodFromManifestWork. rewrite Hman, run_bind, run_bind, run_ret, Hun, Hneed.
  destruct (_ || _) eqn:Hrep.
  { by eapply keeping_advances; [..|apply Hwait; right]. }
  destruct (work_current sk0 mw) eqn:Hcur; cbn [negb].
  - set (sk1 := upd_status _ sk).
    destruct (status_run req sk1 (obj_norm (k := KSidekick) sk) w') as (w2 & Hr & Hs2 & Hf);
      [by apply about_name|done|by apply (about_name (obj_norm (k := KSidekick) sk))|].
    rewrite run_bind, Hr.
    eapply (keeping_advances w w2 sk0); [done| |done|done|exact Hs2|exact Ha|exact Hl|apply Hwait; by left].
    intros k key Hne Hse. by rewrite Hf, Hc.
  - destruct (charge_run w' sk mw pod Hcnt Ha) as (sk1 & Hr & Ha1). rewrite run_bind, Hr.
    assert (Hgoal := deletion_advances w w' sk1 (obj_norm (k := KSidekick) sk) mw proc Hi Hc Ho Ha1 Hs Ha).
    rewrite run_bind in Hgoal. apply Hgoal. unfold distance. rewrite Ho, Hs0, Hcur, andb_false_r. by destruct (terminating mw).
Qed.

Lemma hub_pass_advances proc w : inv w → advances w (run serve (Reconcile proc req) w).
Proof.
  intros Hi. destruct (inv_sk w Hi) as (sk & Hs & Ha).
  destruct (reaches_hub_election req m spec (hs_sidekick Hset) proc w sk (inv_pod w Hi) (namespaces_nonempty w Hi) Hs Ha) as (proc' & w' & sk' & Hr & Ha' & Hl & Hcnt & Hs' & Hc).
  rewrite Hr, run_bind, (leader_run w w' sk' Hi Hc Ha'). destruct (own w) as [mw|] eqn:Ho.
  - unfold recorded_leader at 1. rewrite Hl. fold (recorded_leader sk). destruct (recorded_leader sk) eqn:Hrec; rewrite <- run_bind.
    + by eapply (sync_advances w w' sk).
    + eapply (deletion_advances w w' sk'); try done. unfold distance. rewrite Ho, Hs, Hrec. by destruct (terminating mw).
  - rewrite <- run_bind. by eapply (missing_work_advances w w' sk').
Qed.

(** ** The system *)

(** The agent reports on the work of the Sidekick. *)
Definition reports w w' : Prop :=
  ∃ key mw st, key_Name key = name ∧ stored KManifestWork w key = Some mw ∧
    let mw' := {| mw_Meta := mw_Meta mw; mw_Manifests := mw_Manifests mw;
                  mw_ManifestConfigs := mw_ManifestConfigs mw; mw_ResourceStatus := st |} in
    passive mw' ∧ stored KManifestWork w' key = Some mw' ∧
    ∀ k key', (k, key') ≠ (KManifestWork, key) → stored k w' key' = stored k w key'.

(** The agent lets go of a work that is marked for deletion. *)
Definition releases w w' : Prop :=
  ∃ key mw, key_Name key = name ∧ stored KManifestWork w key = Some mw ∧
    is_Some (DeletionTimestamp (mw_Meta mw)) ∧ stored KManifestWork w' key = None ∧
    ∀ k key', (k, key') ≠ (KManifestWork, key) → stored k w' key' = stored k w key'.

(** [history n s s']: from [s] to [s'] by passes and steps of the agent; [n] passes
    did not have to wait. *)
Inductive history : nat → Proc * W → Proc * W → Prop :=
| history_nil s : history 0 s s
| history_pass n s proc w res err proc' w' :
    history n s (proc, w) → run serve (Reconcile proc req) w = (Returned (res, err, proc'), w') →
    history (if blocked w then n else S n) s (proc', w')
| history_report n s proc w w' : history n s (proc, w) → reports w w' → history n s (proc, w')
| history_release n s proc w w' : history n s (proc, w) → releases w w' → history n s (proc, w').

(** The agent keeps the invariant and the distance. *)
Lemma agent_frame w w' key mw :
  inv w → key_Name key = name → stored KManifestWork w key = Some mw →
  (∀ k key', (k, key') ≠ (KManifestWork, key) → stored k w' key' = stored k w key') →
  (∀ mw', stored KManifestWork w' key = Some mw' → own_work key mw') →
  inv w' ∧ own w = Some mw ∧ own w' = stored KManifestWork w' key ∧
  stored KSidekick w' req = stored KSidekick w req.
Proof.
  intros Hi Hn Hs Hf Hw. destruct (inv_work w Hi) as (ns & Hin & Hat & _).
  assert (key = mkKey ns name) as ->.
  { destruct key as [ns' n]. simpl in Hn. subst n. destruct (decide (ns' = ns)) as [->|Hne]; [done|].
    by rewrite (Hat ns' Hne) in Hs. }
  assert (Hhub : same_hub w w') by (split; intros key; intros; rewrite Hf; try done; intros E; simplify_eq/=).
  assert (Hat' : only_at ns w') by (intros ns' Hne; rewrite Hf by congruence; by apply Hat).
  destruct (inv_sk w Hi) as (sk & Hsk & Ha). split.
  - apply (inv_intro w w' sk ns Hi); try done; [by rewrite Hf|intros key; by rewrite Hf|].
    intros sk' Ha'. unfold keys_ready. rewrite Hf by done. by apply (inv_keys w Hi).
  - split; [by rewrite (own_at ns)|]. split; [|by rewrite Hf].
    apply own_at; [|done]. unfold ns_names. by rewrite (namespaces_ext w w' (proj1 Hhub)).
Qed.
(** With policy Always the phase does not make a work stale. *)
Lemma current_manifest sk mw mw' :
  about sk → mw_Manifests mw' = mw_Manifests mw → work_current sk mw' = work_current sk mw.
Proof.
  intros Ha Hm. unfold work_current, mwNeedsRecreate. rewrite Hm, (proj2 Ha), (hs_always _ _ _ (hs_sidekick Hset)).
  change (String.eqb RestartPolicyAlways RestartPolicyNever) with false. by rewrite !andb_false_r.
Qed.

Lemma report_keeps w w' : inv w → reports w w' → inv w' ∧ distance w' = distance w.
Proof.
  intros Hi (key & mw & st & Hn & Hs & Hpass & Hs' & Hf). set (mw' := {| mw_ResourceStatus := st |}) in *.
  destruct (inv_work w Hi) as (ns & Hin & Hat & Hw).
  assert (Hown : own_work key mw).
  { destruct key as [ns' n]. simpl in Hn. subst n. destruct (decide (ns' = ns)) as [->|Hne]; [by apply Hw|].
    by rewrite (Hat ns' Hne) in Hs. }
  destruct (agent_frame w w' key mw Hi Hn Hs Hf) as (Hi' & Ho & Ho' & Hsk).
  { intros mw1 E. rewrite Hs' in E. injection E as <-. by destruct Hown. }
  split; [done|]. destruct (inv_sk w Hi) as (sk & Hk & Ha). unfold distance. rewrite Ho, Ho', Hs', Hsk, Hk.
  by rewrite (current_manifest sk mw mw').
Qed.

Lemma release_keeps w w' : inv w → releases w w' → inv w' ∧ distance w' = distance w.
Proof.
  intros Hi (key & mw & Hn & Hs & Hd & Hs' & Hf).
  destruct (agent_frame w w' key mw Hi Hn Hs Hf) as (Hi' & Ho & Ho' & Hsk); [by rewrite Hs'|].
  split; [done|]. unfold distance. rewrite Ho, Ho', Hs'. unfold terminating.
  rewrite bool_decide_eq_true_2 by done. by destruct (stored KSidekick w req).
Qed.

Lemma history_advances n s s' :
  history n s s' → inv s.2 → inv s'.2 ∧ (distance s'.2 ≤ distance s.2 - n)%nat.
Proof.
  induction 1 as [s|n s proc w res err proc' w' _ IH Hr|n s proc w w' _ IH Hr|n s proc w w' _ IH Hr]; intros Hi.
  - split; [done|lia].
  - destruct (IH Hi) as [Hi1 Hd]. destruct (hub_pass_advances proc w Hi1) as (_ & Hi2 & Hle & Hlt).
    rewrite Hr in Hi2, Hle, Hlt. simpl in *. split; [done|].
    destruct (blocked w); [lia|]. specialize (Hlt eq_refl). lia.
  - destruct (IH Hi) as [Hi1 Hd]. destruct (report_keeps w w' Hi1 Hr) as [Hi2 Hd2]. simpl in *. rewrite Hd2. done.
  - destruct (IH Hi) as [Hi1 Hd]. destruct (release_keeps w w' Hi1 Hr) as [Hi2 Hd2]. simpl in *. rewrite Hd2. done.
Qed.

End Convergence.
