(* ===== verification/NamedLeader.v ===== *)
(** * A distributed Sidekick with a named leader

    [findDistributedLeader] takes the namespace of a leader given by name from the
    Sidekick's own ManifestWork.  That work is created only once a leader has been
    found. *)

From S2P Require Import Prelude Effects GoStd Types Cluster Kmodules Leader Phase PodBuilder Local LocalProps Server LocalRun.
From S2P Require Import Codec Token SnapshotServer GrpcWiring Distributed Controller WiringProps DistributedProps LocalPass Hub DistributedPass.

Section Named.
Context `{HubServer W} `{Mergo} `{ObjectHasher} `{SortSlice} `{LabelSelectors} `{Crypto}.
Context (req : NamespacedName) (m : ObjectMeta) (spec : SidekickSpec).
Implicit Types (w : W) (sk : Sidekick).

Abbreviation about := (about m spec).
Abbreviation own := (own req).

(** A pass with the memory of the process. *)
Definition hub_pass (s : Proc * W) : Proc * W :=
  match run serve (Reconcile s.1 req) s.2 with
  | (Returned (_, _, proc), w) => (proc, w)
  | (Panicked _, w) => (s.1, w)
  end.

Context (Hset : hub_sidekick req m spec) (Hnamed : ls_Name (sp_Leader spec) ≠ "").

(** No work of the Sidekick's name: no namespace, no leader. *)
Lemma named_leader_missing w sk :
  about sk → namespaces w ≠ [] → own w = None →
  run serve (reconcileDistributedLeader req sk) w = (Returned (requeue_10s, None), w).
Proof.
  intros Ha Hn Ho. destruct (about_name req m spec Hset sk Ha) as [Hname _].
  pose proof (namespace_run (key_Name req) w Hn) as Hns. fold (own w) in Hns. rewrite Ho in Hns.
  destruct Hns as (e & He & Hns).
  assert (Hl : run serve (lookupMW req sk) w = (Returned (Err e), w)).
  { unfold lookupMW. by rewrite run_bind, Hns. }
  unfold reconcileDistributedLeader, getDistributedLeader, findDistributedLeader, try.
  rewrite (proj2 Ha), (proj2 (String.eqb_neq _ _) Hnamed). cbn [negb].
  rewrite !run_bind, Hname, Hns, run_ret. cbn iota beta. rewrite run_ret. cbn iota beta zeta. rewrite He, run_bind, Hl.
  unfold IgnoreNotFound. by rewrite He.
Qed.

(** What every pass finds again. *)
Record waits w : Prop := {
  wt_sk : ∃ sk, stored KSidekick w req = Some sk ∧ about sk;
  wt_pod : ∀ p, stored KPod w req = Some p → DeletionTimestamp (pod_Meta p) = None;
  wt_ns : namespaces w ≠ [];
  wt_none : own w = None
}.

Lemma waiting_pass proc w :
  waits w →
  ∃ proc' w', run serve (Reconcile proc req) w = (Returned (requeue_10s, None, proc'), w') ∧ waits w' ∧ calm req w w'.
Proof.
  intros [(sk & Hs & Ha) Hp Hn Ho].
  destruct (reaches_hub_election req m spec Hset proc w sk Hp Hn Hs Ha) as (proc' & w' & sk' & Hr & Ha' & _ & _ & Hs' & Hc).
  destruct (calm_hub req w w' Hc) as (_ & Ho' & Hn').
  exists proc', w'. rewrite Hr, run_bind, named_leader_missing by (done || by rewrite ?Ho', ?Hn').
  split; [done|]. split; [|done]. split; [by eexists|by intros p; rewrite Hc by done; apply Hp|by rewrite Hn'|by rewrite Ho'].
Qed.

End Named.
