(* ===== verification/Convergence.v ===== *)
(** * Convergence of the local reconciler

    A Sidekick with restart policy Always, whose leader is elected and whose pod
    can be built, reaches the state in which its pod runs for that leader,
    whatever pod is stored at the start: a stale pod is taken down, a terminating
    one is released, a missing one is created.  A pass of [Reconcile] is one step;
    the distance to the settled state is at most three passes.

    The second part follows a Sidekick that is being deleted until nothing of it
    is left. *)

From S2P Require Import Prelude Effects GoStd Types Cluster Kmodules Leader Phase PodBuilder Local LocalProps Server LocalRun Codec Token SnapshotServer GrpcWiring Distributed Controller LocalPass.

Section Convergence.
Context `{ApiServer W} `{Mergo} `{ObjectHasher} `{SortSlice} `{LabelSelectors} `{WorkJson} `{Crypto}.
Implicit Types (w : W) (sk : Sidekick) (p : Pod).

(** ** The setting *)

Context (proc : Proc) (req : NamespacedName) (m : ObjectMeta) (spec : SidekickSpec) (leader : Pod).

Abbreviation about := (about m spec).
Abbreviation same_others := (same_others req).
Abbreviation elects := (elects req m spec leader).
Abbreviation pass := (pass proc req).
Abbreviation passes := (passes proc req).

(** What every pass preserves: the Sidekick is stored, its pod, if any, is held
    by the operator's finalizer alone, and the election is stable. *)
Record inv (w : W) : Prop := {
  inv_sk : ∃ sk, stored KSidekick w req = Some sk ∧ about sk;
  inv_pod : ∀ p, stored KPod w req = Some p →
    meta_key (pod_Meta p) = req ∧ Finalizers (pod_Meta p) = [getFinalizerName];
  inv_elects : elects w
}.

(** The stored pod is the one for [leader], and the status says so. *)
Definition settled_pod (w : W) (p : Pod) : bool :=
  match stored KSidekick w req with
  | Some sk => String.eqb (Name (pod_Meta leader)) (lst_Name (st_Leader (sk_Status sk))) &&
               negb (podNeedsRecreate sk leader p)
  | None => false
  end.

(** How many passes are left. *)
Definition distance (w : W) : nat :=
  match stored KPod w req with
  | None => 1
  | Some p =>
      match DeletionTimestamp (pod_Meta p) with
      | Some _ => 2
      | None => if settled_pod w p then 0 else 3
      end
  end%nat.

Definition settled (w : W) : Prop :=
  ∃ p sk, stored KPod w req = Some p ∧ DeletionTimestamp (pod_Meta p) = None ∧
    stored KSidekick w req = Some sk ∧
    lst_Name (st_Leader (sk_Status sk)) = Name (pod_Meta leader) ∧
    podNeedsRecreate sk leader p = false.

Lemma distance_settled w : distance w = 0%nat ↔ settled w.
Proof.
  unfold distance, settled, settled_pod. split.
  - destruct (stored KPod w req) as [p|]; [|done].
    destruct (DeletionTimestamp (pod_Meta p)) eqn:Hd; [done|].
    destruct (stored KSidekick w req) as [sk|]; [|done].
    destruct (String.eqb_spec (Name (pod_Meta leader)) (lst_Name (st_Leader (sk_Status sk)))); [|done].
    destruct (podNeedsRecreate sk leader p) eqn:Hn; [done|]. intros _. exists p, sk. auto.
  - intros (p & sk & -> & -> & -> & -> & ->). by rewrite String.eqb_refl.
Qed.

(** A pass keeps the invariant, succeeds, and brings the settled state nearer. *)
Definition advances (w : W) (r : outcome (Result * option error * Proc) * W) : Prop :=
  r.1 = Returned (no_requeue, None, proc) ∧ inv r.2 ∧ (distance r.2 ≤ pred (distance w))%nat.

Context (Hset : setting req m spec leader).
Context (Halways : sp_RestartPolicy spec = RestartPolicyAlways).

(** ** The two halves of a pass *)

Lemma inv_no_pod w w' sk :
  inv w → stored KPod w' req = None → stored KSidekick w' req = Some sk → about sk →
  same_others w w' → inv w'.
Proof.
  intros [_ _ He] Hp Hs Ha Ho. split; [by exists sk|by rewrite Hp|by eapply elects_frame].
Qed.

(** A terminating pod is released, and nothing else happens in that pass. *)
Lemma terminating_advances w p :
  inv w → stored KPod w req = Some p → is_Some (DeletionTimestamp (pod_Meta p)) →
  advances w (run serve (Reconcile proc req) w).
Proof.
  intros Hi Hp Hd. destruct (inv_sk w Hi) as (sk & Hs & Ha). destruct (inv_pod w Hi p Hp) as [Hk Hf].
  destruct (terminating_run proc req m spec leader Hset w sk p Hs Ha Hp Hk Hf Hd) as (w' & E & Hp' & Hs' & Ho).
  unfold advances. rewrite E. simpl. split; [done|].
  split; [by eapply (inv_no_pod w w'); [..|exact Hs'|destruct (gm_lookup _ _)|]|].
  unfold distance. rewrite Hp', Hp. destruct Hd as [t ->]. simpl. lia.
Qed.

(** ** From the election on *)

(** The phase of a Sidekick with policy Always is never terminal, so the pass gets
    to the election. *)
Lemma reaches_election w sk :
  stored KSidekick w req = Some sk → about sk →
  (∀ p, stored KPod w req = Some p → DeletionTimestamp (pod_Meta p) = None) →
  ∃ w', let sk' := recorded (stored KPod w req) sk in
    run serve (Reconcile proc req) w =
      run serve ('(res, err) ← reconcileLeader req sk'; mret (res, err, proc)) w' ∧
    is_Some (st_FailureCount (sk_Status sk')) ∧
    stored KSidekick w' req = Some (obj_norm (k := KSidekick) sk') ∧
    ∀ key, stored KPod w' key = stored KPod w key.
Proof.
  intros Hs Ha Hnd.
  destruct (reaches_phase proc req m spec leader Hset w sk Hs Ha Hnd) as (w' & E & Hs' & Hf & _).
  assert (Hph : seen_phase (stored KPod w req) sk ≠ SideKickPhaseFailed ∧
                seen_phase (stored KPod w req) sk ≠ SidekickPhaseSucceeded).
  { assert (Hal : sp_RestartPolicy (sk_Spec (seen (stored KPod w req) sk)) = RestartPolicyAlways).
    { rewrite <- Halways, <- (proj2 Ha). destruct (stored KPod w req); [|done].
      apply (observe_pod_spec _ (init_counters sk)). }
    unfold seen_phase, getSidekickPhase. rewrite Hal, String.eqb_refl. by case_match. }
  exists w'. rewrite E, after_live_phase by apply Hph. split; [done|]. split; [|done].
  simpl. destruct (stored KPod w req); [apply counted_observe|]; apply counted_init.
Qed.

(** The rest of a pass, given what the election and the pod decided. *)
Lemma advances_intro w w' sk p :
  inv w → stored KSidekick w' req = Some sk → about sk → same_others w w' →
  stored KPod w' req = Some p → meta_key (pod_Meta p) = req →
  Finalizers (pod_Meta p) = [getFinalizerName] →
  (distance w' ≤ pred (distance w))%nat →
  advances w (Returned (no_requeue, None, proc), w').
Proof.
  intros Hi Hs Ha Ho Hp Hk Hf Hd. split; [done|]. split; [|done].
  split; [by exists sk| |by eapply elects_frame; [|apply Hi]].
  simpl. intros p' Hp'. simplify_eq. done.
Qed.

Lemma distance_terminating w p :
  stored KPod w req = Some p → is_Some (DeletionTimestamp (pod_Meta p)) → distance w = 2%nat.
Proof. unfold distance. by intros -> [t ->]. Qed.

(** The stored counterpart of the Sidekick in memory. *)
Abbreviation norm := (obj_norm (k := KSidekick)).

Lemma missing_advances w :
  inv w → stored KPod w req = None → advances w (run serve (Reconcile proc req) w).
Proof.
  intros Hi Hp. destruct (inv_sk w Hi) as (sk & Hs & Ha).
  destruct (reaches_election w sk Hs Ha) as (w1 & E & _ & Hs1 & Hf1); [by rewrite Hp|].
  set (sk1 := recorded _ sk) in *. assert (Hp1 : stored KPod w1 req = None) by by rewrite Hf1.
  destruct (creates_pod req m spec leader Hset w1 sk1 (norm sk1) Hp1 Ha Hs1 Ha)
    as (w2 & p & cur2 & Hr & Hs2 & Ha2 & _ & Hl2 & Ho & Hp2 & Hk & Hfin & Hd & Han & Hn & Hph & _ & _).
  assert (Hl : run serve (reconcileLeader req sk1) w1 = (Returned (no_requeue, None), w2)).
  { apply (leader_creates_run req leader); [|done..]. apply (inv_elects w Hi); [|done].
    intros key _. apply Hf1. }
  rewrite E, run_bind, Hl. apply (advances_intro w w2 cur2 p); try done.
  - intros key Hne. by rewrite Ho, Hf1.
  - assert (Hz : distance w2 = 0%nat); [|lia]. apply distance_settled. exists p, cur2.
    split_and!; try done. destruct Ha as [Ha1' Ha2'], Ha2 as [E1 E2].
    rewrite (pod_is_current sk1) by (try done; by rewrite ?E1, ?E2). by rewrite Hph.
Qed.

Lemma live_advances w p :
  inv w → stored KPod w req = Some p → DeletionTimestamp (pod_Meta p) = None →
  advances w (run serve (Reconcile proc req) w).
Proof.
  intros Hi Hp Hd. destruct (inv_sk w Hi) as (sk & Hs & Ha). destruct (inv_pod w Hi p Hp) as [Hk Hf].
  destruct (reaches_election w sk Hs Ha) as (w1 & E & Hmf & Hs1 & Hf1); [by intros p' Hp'; simplify_eq|].
  set (sk1 := recorded _ sk) in *.
  assert (Hl1 : st_Leader (sk_Status sk1) = st_Leader (sk_Status sk)) by apply recorded_leader.
  assert (Hp1 : stored KPod w1 req = Some p) by by rewrite Hf1.
  assert (Ho1 : same_others w w1) by (intros key _; apply Hf1).
  rewrite E, run_bind, (leader_pod_run req leader w1 sk1 p (inv_elects w Hi w1 sk1 Ho1 Ha) Hp1 Hmf).
  rewrite Hl1. change (podNeedsRecreate sk1 leader p) with (podNeedsRecreate sk leader p).
  set (sk2 := if String.eqb _ _ then charge_move leader sk1 p else sk1).
  assert (Ha2 : about sk2) by (unfold sk2, charge_move; by repeat case_match).
  destruct (negb _ || _) eqn:Hdown; rewrite run_bind.
  - destruct (takes_down req m spec leader Hset w1 sk2 (norm sk1) p Hp1 Hk Hf Ha2 Hs1 Ha)
      as (w2 & t & cur2 & Hr & Hs2 & Hc2 & _ & Ho & Hp2).
    rewrite Hr. eapply (advances_intro w w2 cur2); [..|exact Hp2|done|done|]; try done.
    + intros key Hne. by rewrite Ho, Ho1.
    + rewrite (distance_terminating w2 _ Hp2) by by eexists.
      unfold distance, settled_pod. rewrite Hp, Hd, Hs.
      apply orb_true_iff in Hdown as [Hdown|Hdown]; [apply negb_true_iff in Hdown|];
        rewrite Hdown; rewrite ?andb_false_r; simpl; lia.
  - apply orb_false_iff in Hdown as [Hn%negb_false_iff%String.eqb_eq Hrec].
    set (sk3 := upd_status _ sk1).
    destruct (status_update_run sk3 (norm sk1) req w1)
      as (w2 & Hr2 & (cur2 & Hs2 & Hm2 & Hsp2 & Hl2 & _) & Hf2);
      [by simpl; rewrite (proj1 Ha); eapply set_key|done|by simpl; rewrite (proj1 Ha); eapply set_key|].
    rewrite Hr2. assert (Hc2 : about cur2) by (destruct Ha; split; [by rewrite Hm2|by rewrite Hsp2]).
    apply (advances_intro w w2 cur2 p); try done.
    + intros key Hne. rewrite Hf2 by done. apply Hf1.
    + by rewrite Hf2.
    + assert (Hz : distance w2 = 0%nat); [|lia]. apply distance_settled.
      exists p, cur2. split; [by rewrite Hf2|]. split; [done|]. split; [done|].
      split; [rewrite Hl2; simpl; rewrite Hn; f_equal; exact Hl1|].
      rewrite <- Hrec. unfold podNeedsRecreate.
      by rewrite (proj1 Hc2), (proj2 Hc2), (proj1 Ha), (proj2 Ha).
Qed.

Lemma pass_advances w : inv w → advances w (run serve (Reconcile proc req) w).
Proof.
  intros Hi. destruct (stored KPod w req) as [p|] eqn:Hp; [|by apply missing_advances].
  destruct (DeletionTimestamp (pod_Meta p)) eqn:Hd.
  - apply (terminating_advances w p); [done..|by rewrite Hd].
  - by apply (live_advances w p).
Qed.

Lemma passes_advance w n :
  inv w → inv (passes n w) ∧ (distance (passes n w) ≤ distance w - n)%nat.
Proof.
  intros Hi. induction n as [|n [IHi IHd]]; [split; [done|simpl; lia]|].
  change (passes (S n) w) with (pass (passes n w)).
  destruct (pass_advances _ IHi) as (_ & Hi' & Hd'). split; [done|]. unfold pass. lia.
Qed.

Lemma distance_bound w : (distance w ≤ 3)%nat.
Proof. unfold distance. repeat case_match; lia. Qed.

(** The local reconciler converges.  Take a live, local Sidekick with restart
    policy Always whose pod can be built for the elected leader, in any state in
    which its pod, if there is one, is held by the operator's finalizer alone
    (missing, up to date, for another leader or generation or node, terminating
    by the operator's or by somebody else's hand).  Then every pass succeeds
    without requeue, and after three passes, and for ever after, the stored pod
    is the one for that leader, not terminating, and the status names the
    leader. *)
Theorem reconcile_converges w n :
  inv w →
  (run serve (Reconcile proc req) (passes n w)).1 = Returned (no_requeue, None, proc) ∧
  ((3 ≤ n)%nat → settled (passes n w)).
Proof.
  intros Hi. destruct (passes_advance w n Hi) as [Hin Hd]. split.
  - apply (pass_advances _ Hin).
  - intros Hn. apply distance_settled. pose proof (distance_bound w). lia.
Qed.
End Convergence.

(** ** Deletion *)

Section Deletion.
Context `{ApiServer W} `{Mergo} `{ObjectHasher} `{SortSlice} `{LabelSelectors} `{WorkJson} `{Crypto}.
Context (proc : Proc) (req : NamespacedName).
Implicit Types (w : W) (sk : Sidekick) (p : Pod).

(** [terminate]: the pod is marked for deletion and the Sidekick released. *)
Lemma terminate_run w sk p :
  stored KSidekick w req = Some sk → meta_key (sk_Meta sk) = req →
  is_Some (DeletionTimestamp (sk_Meta sk)) → Finalizers (sk_Meta sk) = [getFinalizerName] →
  stored KPod w req = Some p → Finalizers (pod_Meta p) = [getFinalizerName] →
  ∃ w' sk' t, run serve (terminate sk) w = (Returned (sk', None), w') ∧
    meta_key (sk_Meta sk') = req ∧ stored KSidekick w' req = None ∧
    stored KPod w' req = Some (set_pod_Meta (mark_deleted t (pod_Meta p)) p) ∧
    ∀ k key, key ≠ req → stored k w' key = stored k w key.
Proof.
  intros Hs Hk Hd Hf Hp Hpf.
  destruct (serve_delete_held KPod req w p Hp) as (t & w1 & Hr1 & Hp1); [simpl; by rewrite Hpf|].
  pose proof (serve_frame (OpDelete KPod req) w) as Hf1. rewrite Hr1 in Hf1. simpl in Hf1.
  assert (Hs1 : stored KSidekick w1 req = Some sk) by (rewrite Hf1; [done|congruence]).
  destruct (CreateOrPatch_stored KSidekick sk sk
    (λ sk _, set_sk_Meta (RemoveFinalizer (sk_Meta sk) getFinalizerName) sk)
    (RemoveFinalizer (sk_Meta sk) getFinalizerName) w1) as (w2 & Hr2 & Hs2 & Hf2);
    [by unfold obj_key; simpl; rewrite Hk|done|done| |].
  { split; [by simpl; destruct (sk_Meta sk)|by left]. }
  unfold released in Hs2. simpl in Hs2. rewrite Hf, (bool_decide_eq_true_2 _ Hd) in Hs2. simpl in Hs2.
  unfold obj_key in Hs2, Hf2. simpl in Hs2, Hf2. rewrite Hk in Hs2, Hf2.
  eexists w2, _, t. unfold terminate. rewrite Hk, run_bind, (run_call serve (OpDelete KPod req)), Hr1.
  cbn [fst snd]. split; [exact Hr2|]. split; [done|]. split; [done|]. split; [rewrite Hf2; done|].
  intros k key Hne. rewrite Hf2, Hf1; [done|congruence..].
Qed.

(** The phase of a Sidekick that is gone cannot be recorded. *)
Lemma calculate_gone_run w sk p :
  meta_key (sk_Meta sk) = req → stored KSidekick w req = None → stored KPod w req = Some p →
  ∃ e sk', IsNotFound e = true ∧
    run serve (calculateSidekickPhase sk) w = (Returned (Err e, sk'), w).
Proof.
  intros Hk Hs Hp. destruct (serve_get_missing KSidekick req w Hs) as (e & He & Hg).
  exists e. unfold calculateSidekickPhase.
  change (meta_key (sk_Meta (init_counters sk))) with (meta_key (sk_Meta sk)).
  rewrite Hk, run_bind, (run_call serve (OpGet KPod req)), (serve_get KPod req w p Hp). cbn [fst snd].
  destruct (observe_pod_spec p (init_counters sk)) as (_ & _ & _ & Hm).
  unfold recordPhase. destruct (getSidekickPhase _ _) as [phase sk1] eqn:E1.
  assert (Hk1 : meta_key (sk_Meta sk1) = req).
  { revert E1. unfold getSidekickPhase, over_limit, getTotalBackOffCounts.
    intros E1; repeat case_match_hyp E1; simplify_eq/=; by rewrite Hm. }
  unfold updateSidekickStatus, PatchStatus. rewrite !run_bind.
  change (@obj_key KSidekick (upd_status (set_Phase phase) sk1)) with (meta_key (sk_Meta sk1)).
  rewrite Hk1, (run_call serve (OpGet KSidekick req)), Hg. cbn [fst snd]. rewrite run_ret.
  by eexists.
Qed.

Lemma orphan_run w p :
  stored KSidekick w req = None → stored KPod w req = Some p → meta_key (pod_Meta p) = req →
  is_Some (DeletionTimestamp (pod_Meta p)) → Finalizers (pod_Meta p) = [getFinalizerName] →
  ∃ w', run serve (removePodFinalizerIfMarkedForDeletion req) w = (Returned (true, None), w') ∧
    stored KPod w' req = None ∧ ∀ k key, (k, key) ≠ (KPod, req) → stored k w' key = stored k w key.
Proof.
  intros Hs Hp Hk Hd Hf.
  destruct (removePodFinalizer_run p w) as (w' & Hr & Hp' & Hfr); [by rewrite Hk|].
  rewrite release_frees in Hp' by done. rewrite Hk in Hp', Hfr. exists w'. split; [|done].
  destruct (serve_get_missing KSidekick req w Hs) as (e & He & Hg). destruct Hd as [t Hd].
  unfold removePodFinalizerIfMarkedForDeletion.
  rewrite run_bind, (run_call serve (OpGet KPod req)), (serve_get KPod req w p Hp). cbn [fst snd].
  rewrite Hd, run_bind. destruct (gm_lookup _ _).
  - by rewrite run_ret, held_by_operator, run_bind, Hr.
  - unfold countExternalDeletion. rewrite run_bind, (run_call serve (OpGet KSidekick req)), Hg.
    cbn [fst snd]. by rewrite He, run_ret, held_by_operator, run_bind, Hr.
Qed.

End Deletion.
