(* ===== verification/Fleet.v ===== *)
(** * Many Sidekicks

    The operator reconciles many Sidekicks, one pass at a time per name, in
    whatever order events arrive.  Passes over different Sidekicks do not
    interfere: each Sidekick converges as if it were alone ([Convergence.v]),
    provided nobody follows the pod of another Sidekick. *)

From S2P Require Import Prelude Effects GoStd Types Cluster Kmodules Leader Phase PodBuilder Local LocalProps Server LocalRun.
From S2P Require Import Codec Token SnapshotServer GrpcWiring Distributed Controller LocalPass Confinement Convergence.

Section Fleet.
Context `{AddressedServer W} `{Mergo} `{ObjectHasher} `{SortSlice} `{LabelSelectors} `{WorkJson} `{Crypto}.
Implicit Types (w : W).

(** ** The frame of a pass *)

Section Frame.
Context (proc : Proc) (req : NamespacedName) (m : ObjectMeta) (spec : SidekickSpec) (leader : Pod).
Context (Hset : setting req m spec leader).

Lemma pass_frame w :
  placed w → inv req m spec leader w →
  placed (pass proc req w) ∧ ∀ k key, key ≠ req → stored k (pass proc req w) key = stored k w key.
Proof.
  intros Hw Hi. unfold pass. destruct (inv_sk _ _ _ _ w Hi) as (sk & Hs & Ha).
  assert (Hlive : (∀ p, stored KPod w req = Some p → DeletionTimestamp (pod_Meta p) = None) →
    placed (run serve (Reconcile proc req) w).2 ∧
    ∀ k key, key ≠ req → stored k (run serve (Reconcile proc req) w).2 key = stored k w key).
  { intros Hnd. rewrite (live_run proc req m spec leader Hset w sk Hs Ha Hnd).
    apply (guarded_run req (λ _, True)); [done|].
    eapply guarded_bind; [apply reconcileLocal_confined; [done|]|by intros [? ?] _].
    rewrite (proj1 Ha). apply (set_key _ _ _ _ Hset). }
  destruct (stored KPod w req) as [p|] eqn:Hp; [|by apply Hlive].
  destruct (DeletionTimestamp (pod_Meta p)) eqn:Hd; [|apply Hlive; by intros p' [= <-]].
  destruct (inv_pod _ _ _ _ w Hi p Hp) as [Hk Hf].
  destruct (terminating_release req m spec leader Hset w sk p Hs Ha Hp Hk Hf) as (w' & Hr & _); [by eexists|].
  pose proof (removePodFinalizerIfMarked_confined addressed_answer (λ _ H, H) req) as Hc.
  destruct (guarded_run req _ _ w Hw Hc) as [Hw1 Hf1]. unfold Reconcile. rewrite run_bind.
  by rewrite Hr in Hw1, Hf1 |- *.
Qed.
End Frame.

(** ** The fleet *)

(** A Sidekick: its name, what is fixed of it, and the leader it follows. *)
Record member := { mb_req : NamespacedName; mb_meta : ObjectMeta; mb_spec : SidekickSpec; mb_leader : Pod }.

Context (proc : Proc) (fleet : list member).

Definition fleet_keys : list NamespacedName := map mb_req fleet.

(** Pods that belong to no Sidekick are as in [w]. *)
Definition same_outside (w w' : W) : Prop :=
  ∀ key, key ∉ fleet_keys → stored KPod w' key = stored KPod w key.

(** The leader of [mb] is elected, whatever the pods of the Sidekicks are. *)
Definition follows_outsider (mb : member) (w : W) : Prop :=
  ∀ w' sk, same_outside w w' → about (mb_meta mb) (mb_spec mb) sk →
    run serve (getLeader sk) w' = (Returned (Ok (mb_leader mb)), w').

Record fleet_inv (w : W) : Prop := {
  fl_placed : placed w;
  fl_sk : ∀ mb, mb ∈ fleet → ∃ sk, stored KSidekick w (mb_req mb) = Some sk ∧ about (mb_meta mb) (mb_spec mb) sk;
  fl_pod : ∀ mb p, mb ∈ fleet → stored KPod w (mb_req mb) = Some p →
    meta_key (pod_Meta p) = mb_req mb ∧ Finalizers (pod_Meta p) = [getFinalizerName];
  fl_elects : ∀ mb, mb ∈ fleet → follows_outsider mb w
}.

Abbreviation inv_of := (λ mb, inv (mb_req mb) (mb_meta mb) (mb_spec mb) (mb_leader mb)).
Abbreviation distance_of := (λ mb, distance (W := W) (mb_req mb) (mb_leader mb)).

Context (Hfleet : ∀ mb, mb ∈ fleet →
  setting (mb_req mb) (mb_meta mb) (mb_spec mb) (mb_leader mb) ∧
  sp_RestartPolicy (mb_spec mb) = RestartPolicyAlways).
Context (Hnames : NoDup fleet_keys).

Lemma in_keys mb : mb ∈ fleet → mb_req mb ∈ fleet_keys.
Proof. apply (list_elem_of_fmap_2 mb_req). Qed.

Lemma same_member mb mb' : mb ∈ fleet → mb' ∈ fleet → mb_req mb = mb_req mb' → mb = mb'.
Proof.
  intros (i & Hi)%list_elem_of_lookup (j & Hj)%list_elem_of_lookup E.
  assert (i = j) as ->; [|congruence]. apply (NoDup_lookup fleet_keys i j (mb_req mb) Hnames).
  - unfold fleet_keys. by rewrite list_lookup_fmap, Hi.
  - unfold fleet_keys. by rewrite list_lookup_fmap, Hj, E.
Qed.

Lemma member_inv mb w : fleet_inv w → mb ∈ fleet → inv_of mb w.
Proof.
  intros Hw Hmb. split; [by apply fl_sk|intros p; by apply (fl_pod w Hw)|].
  intros w' sk Hs Ha. apply (fl_elects w Hw mb Hmb); [|done]. intros key Hk. apply Hs.
  intros ->. by apply Hk, in_keys.
Qed.

(** A pass over [mb] brings it nearer to its goal and leaves the others alone. *)
Lemma fleet_pass mb w :
  fleet_inv w → mb ∈ fleet →
  let w' := pass proc (mb_req mb) w in
  (run serve (Reconcile proc (mb_req mb)) w).1 = Returned (no_requeue, None, proc) ∧ fleet_inv w' ∧
  (distance_of mb w' ≤ pred (distance_of mb w))%nat ∧
  ∀ mb', mb' ∈ fleet → mb' ≠ mb → distance_of mb' w' = distance_of mb' w.
Proof.
  intros Hw Hmb w'. destruct (Hfleet mb Hmb) as [Hset Hal]. pose proof (member_inv mb w Hw Hmb) as Hi.
  destruct (pass_advances proc _ _ _ _ Hset Hal w Hi) as (Hr & Hi' & Hd).
  destruct (pass_frame proc _ _ _ _ Hset w (fl_placed w Hw) Hi) as [Hp Hf].
  change (run serve (Reconcile proc (mb_req mb)) w).2 with w' in Hi', Hd. fold w' in Hp, Hf.
  assert (Hoth : ∀ mb', mb' ∈ fleet → mb' ≠ mb → mb_req mb' ≠ mb_req mb).
  { intros mb' Hmb' Hne E. by apply Hne, same_member. }
  split; [done|]. split; [|split; [done|]].
  - split; [done|..].
    + intros mb' Hmb'. destruct (decide (mb_req mb' = mb_req mb)) as [E|Hne].
      * assert (mb' = mb) as -> by by apply same_member. apply (inv_sk _ _ _ _ w' Hi').
      * rewrite Hf by done. by apply fl_sk.
    + intros mb' p Hmb'. destruct (decide (mb_req mb' = mb_req mb)) as [E|Hne].
      * assert (mb' = mb) as -> by by apply same_member. apply (inv_pod _ _ _ _ w' Hi').
      * rewrite Hf by done. by apply fl_pod.
    + intros mb' Hmb' w'' sk Hs Ha. apply (fl_elects w Hw mb' Hmb'); [|done].
      intros key Hk. rewrite Hs by done. apply Hf. intros ->. by apply Hk, in_keys.
  - intros mb' Hmb' Hne. unfold distance, settled_pod. by rewrite !Hf by by apply Hoth.
Qed.

(** ** Schedules *)

Definition run_schedule (schedule : list member) (w : W) : W :=
  foldl (λ w mb, pass proc (mb_req mb) w) w schedule.

(** How often it is the turn of [mb]. *)
Definition turns (mb : member) (schedule : list member) : nat :=
  length (filter (λ mb', mb_req mb' = mb_req mb) schedule).

Lemma fleet_schedule schedule w :
  Forall (λ mb, mb ∈ fleet) schedule → fleet_inv w →
  fleet_inv (run_schedule schedule w) ∧
  ∀ mb, mb ∈ fleet → (distance_of mb (run_schedule schedule w) ≤ distance_of mb w - turns mb schedule)%nat.
Proof.
  intros Hs. revert w. induction Hs as [|mb schedule Hmb _ IH]; intros w Hw.
  { split; [done|]. intros mb _. unfold run_schedule, turns. simpl. lia. }
  destruct (fleet_pass mb w Hw Hmb) as (_ & Hw' & Hd & Ho). destruct (IH _ Hw') as [Hw'' Hd''].
  split; [done|]. intros mb' Hmb'. specialize (Hd'' mb' Hmb'). unfold turns in *. simpl.
  change (run_schedule (mb :: schedule) w) with (run_schedule schedule (pass proc (mb_req mb) w)).
  rewrite filter_cons. case_decide as E.
  - assert (mb = mb') as -> by by apply same_member. simpl. lia.
  - rewrite Ho in Hd'' by (done || congruence). done.
Qed.

End Fleet.
