(* ===== verification/ConvergenceWitness.v ===== *)
(** * Concrete passes

    The theorems of [Convergence.v] on the server of [Store.v]: a Sidekick that
    follows a pod by name, with a stale pod of its own, and one that is deleted. *)

From S2P Require Import Prelude Effects GoStd Types Cluster Kmodules Leader Fixtures Phase PodBuilder Local LocalProps Server Store LocalRun LocalWitness Codec Token SnapshotServer SnapshotWitness GrpcWiring Distributed Controller DistributedWitness LocalPass Convergence.
Import InsertionSort.

Definition ex_follow_db : LeaderSpec :=
  {| ls_Name := "db-0"; ls_Selector := None; ls_SelectionPolicy := "First" |}.
Definition ex_c_meta : ObjectMeta := ex_meta "demo" "side" "uid-side" [getFinalizerName] None None.
Definition ex_c_spec : SidekickSpec := ex_Spec ex_follow_db "Always" None [ex_container] false.

(** The Sidekick still records the leader [old], and its pod was built for it. *)
Definition ex_c_side : Sidekick :=
  {| sk_Meta := ex_c_meta; sk_Spec := ex_c_spec;
     sk_Status := set_Leader "old" empty_SidekickStatus |}.
Definition ex_c_world : store :=
  put (k := KSidekick) ex_c_side (put (k := KPod) ex_sidepod (put (k := KPod) ex_db empty_store)).

Lemma ex_c_setting : setting ex_req ex_c_meta ex_c_spec ex_db.
Proof. split; try reflexivity. eexists. vm_compute. reflexivity. Qed.

Lemma ex_c_inv : inv (W := store) ex_req ex_c_meta ex_c_spec ex_db ex_c_world.
Proof.
  split.
  - exists ex_c_side. repeat split; reflexivity.
  - intros p Hp. vm_compute in Hp. injection Hp as <-. split; reflexivity.
  - intros w' sk Ho [Ha1 Ha2]. unfold getLeader. rewrite Ha1, Ha2.
    change (negb (String.eqb (ls_Name (sp_Leader ex_c_spec)) "")) with true. cbn iota.
    rewrite (run_call serve (OpGet KPod (mkKey "demo" "db-0"))).
    rewrite (serve_get KPod (mkKey "demo" "db-0") w' ex_db); [reflexivity|].
    rewrite (Ho (mkKey "demo" "db-0")); [vm_compute; reflexivity|by vm_compute].
Qed.

Lemma reconcile_converges_witness :
  distance (W := store) ex_req ex_db ex_c_world = 3%nat ∧
  (run serve (Reconcile ex_proc ex_req) (passes ex_proc ex_req 3 ex_c_world)).1 =
    Returned (no_requeue, None, ex_proc) ∧
  settled (W := store) ex_req ex_db (passes ex_proc ex_req 3 ex_c_world).
Proof.
  split; [vm_compute; reflexivity|].
  destruct (reconcile_converges ex_proc ex_req ex_c_meta ex_c_spec ex_db ex_c_setting
              eq_refl ex_c_world 3 ex_c_inv) as [Hr Hs].
  split; [exact Hr|]. apply Hs. lia.
Defined.

Definition ex_going : Sidekick :=
  {| sk_Meta := ex_meta "demo" "side" "uid-side" [getFinalizerName] (Some 7) None;
     sk_Spec := ex_c_spec; sk_Status := empty_SidekickStatus |}.
Definition ex_going_world : store :=
  put (k := KSidekick) ex_going (put (k := KPod) ex_sidepod empty_store).

