(* ===== verification/HubWitness.v ===== *)
(** * A concrete hub and a history of a distributed Sidekick on it

    The server of [Store.v] with what a hub adds: the pod of a ManifestWork is
    stored as the bytes it travels in.  It implements the interfaces of [Server.v]
    and [Hub.v]; of a pod it writes the annotations and the node.  On it the
    theorems of [DistributedConvergence.v] and [NamedLeader.v]: two clusters, a
    database pod that reports to be the primary, and an archiver whose work was made
    for an older generation and is held by the agent. *)

From S2P Require Import Prelude Effects GoStd Types Cluster Kmodules Leader Fixtures Phase PodBuilder Local Server Store LocalWitness.
From S2P Require Import Codec Token SnapshotServer SnapshotWitness GrpcWiring Distributed Controller WiringProps DistributedProps DistributedWitness.
From S2P Require Import LocalPass Hub DistributedPass DistributedConvergence NamedLeader.
Import InsertionSort.

(** ** The bytes of a pod *)

Definition pod_bytes (pod : Pod) : string :=
  pos_str (encode (Annotations (pod_Meta pod), ps_NodeName (pod_Spec pod))).

Definition bytes_pod (s : string) : res Pod :=
  match decode (str_pos s) with
  | Some (annots, node) =>
      Ok {| pod_APIVersion := "v1"; pod_Kind := "Pod"; pod_Meta := set_Annotations annots (new_meta "" "");
            pod_Spec := ex_PodSpec node [] []; pod_Status := ex_status "" |}
  | None => Err (PlainError "bad JSON")
  end.

Lemma bytes_pod_bytes pod :
  ∃ pod', bytes_pod (pod_bytes pod) = Ok pod' ∧ Annotations (pod_Meta pod') = Annotations (pod_Meta pod) ∧
    ps_NodeName (pod_Spec pod') = ps_NodeName (pod_Spec pod).
Proof. unfold bytes_pod, pod_bytes. rewrite str_pos_str, decode_encode. by eexists. Qed.

(** The manifest of the leader is named by a key. *)
Definition hub_json : WorkJson := {|
  unmarshal_pod s := if String.eqb s "leader" then Ok ex_dleader else bytes_pod s;
  unstructured_pod := bytes_pod;
  unmarshal_condition _ := None;
  unmarshal_int32s s := if String.eqb s "[1,2]" then Some [1; 2] else None;
  FormatLabelSelector _ := "app=db"
|}.

(** ** The server *)

Record hub := Hub { hub_store : store }.

Definition wire_manifest (r : RawExtension) : RawExtension :=
  match raw_Object r with
  | Some pod => {| raw_Raw := pod_bytes pod; raw_Object := None |}
  | None => r
  end.

Definition wire {k : kind} : obj k → obj k :=
  match k return obj k → obj k with
  | KManifestWork => λ mw,
      {| mw_Meta := mw_Meta mw; mw_Manifests := map wire_manifest (mw_Manifests mw);
         mw_ManifestConfigs := mw_ManifestConfigs mw; mw_ResourceStatus := [] |}
  | _ => λ o, o
  end.

Definition hub_serve (op : apiop) (h : hub) : answer op * hub :=
  match op return answer op * hub with
  | OpCreate k md => let '(r, s) := store_serve (OpCreate k (wire md)) (hub_store h) in (r, Hub s)
  | OpRand _ => (Ok ("key" +:+ pretty (s_next (hub_store h))), Hub (tick (hub_store h)))
  | op => let '(r, s) := store_serve op (hub_store h) in (r, Hub s)
  end.

Lemma wire_meta k (o : obj k) : obj_meta (wire o) = obj_meta o ∧ obj_key (wire o) = obj_key o.
Proof. by destruct k. Qed.

Lemma hub_frame op h k key :
  op_target op ≠ Some (k, key) → objs k (hub_store (hub_serve op h).2) !! key = objs k (hub_store h) !! key.
Proof.
  intros Hne. assert (∃ op', op_target op' = op_target op ∧
    hub_store (hub_serve op h).2 = (store_serve op' (hub_store h)).2) as (op' & Ht & ->).
  { destruct op; try (eexists; split; [reflexivity|unfold hub_serve; by destruct (store_serve _ _)]);
      [|by exists (OpRand n)].
    exists (OpCreate k0 (wire o)). split; [simpl; by rewrite (proj2 (wire_meta k0 o))|].
    unfold hub_serve. by destruct (store_serve _ _). }
  apply store_frame. by rewrite Ht.
Qed.

Lemma wire_created k n (md : obj k) :
  Annotations (obj_meta md) ≠ Some ∅ → created md (fresh n (wire md)).
Proof. intros Ha. pose proof (fresh_created k n md Ha) as Hc. destruct k; exact Hc. Qed.

#[export, refine] Instance hub_server : ApiServer hub := {|
  serve := hub_serve;
  stored k h key := objs k (hub_store h) !! key;
  serve_frame := hub_frame
|}.
Proof.
  - intros k key h o Hs. simpl. by rewrite Hs; destruct h.
  - intros k key h Hs. exists not_found. simpl. by rewrite Hs; destruct h.
  - intros k md h Hs Ha. simpl. rewrite (proj2 (wire_meta k md)), Hs. eexists _, _. split; [done|].
    split; [by apply wire_created|]. simpl. by rewrite objs_tick, objs_set_eq, lookup_insert_eq.
  - intros k cur m' h Hs Hm. simpl. rewrite Hs, obj_meta_set. eexists. split; [done|]. simpl.
    rewrite objs_set_eq. destruct (released m'); [apply lookup_delete_eq|apply lookup_insert_eq].
  - intros k cur src h Hs. simpl. rewrite Hs, status_set_idem. eexists. split; [done|]. simpl.
    by rewrite objs_set_eq, lookup_insert_eq.
  - intros k o cur h Hs. simpl. rewrite Hs. eexists. split; [done|]. simpl.
    by rewrite objs_set_eq, lookup_insert_eq.
  - intros k key h o Hs Hf. simpl. rewrite Hs. eexists _, _. split; [done|]. simpl.
    rewrite objs_set_eq, bool_decide_eq_false_2 by done. apply lookup_insert_eq.
Defined.

#[export] Existing Instance hub_json.

#[export, refine] Instance hub_hub : HubServer hub := {|
  namespaces h := list_objs KNamespace None None (hub_store h)
|}.
Proof.
  - intros h h' E. unfold list_objs. assert (Em : objs KNamespace (hub_store h') = objs KNamespace (hub_store h));
      [apply map_eq; exact E|]. by rewrite Em.
  - intros h. simpl. by destruct h.
  - intros ns name h mw Hs. simpl in *. by rewrite Hs; destruct h.
  - intros ns name h Hs. exists not_found. simpl in *. by rewrite Hs; destruct h.
  - intros k key h o Hs Hf. simpl in *. rewrite Hs, bool_decide_eq_true_2 by done. eexists. split; [done|].
    simpl. rewrite objs_set_eq. apply lookup_delete_eq.
  - intros md pod h mw h' Hm Hc. simpl in Hc. destruct (s_works _ !! _); [done|]. injection Hc as <- _.
    split; [done|]. simpl. rewrite Hm. destruct (bytes_pod_bytes pod) as (pod' & Hb & Ha & Hn).
    eexists _, pod'. by split_and!.
  - intros md h s h' Hc. simpl in Hc. destruct (s_secrets _ !! _); [done|]. by injection Hc as <- _.
  - intros n h. eexists _, _. split; [done|]. done.
  - intros n h Hn. rewrite !elem_of_cons, elem_of_nil in Hn. by destruct Hn as [->|[->|[]]].
Defined.

(** ** A history *)

Definition ex_primary_sel : LeaderSpec :=
  {| ls_Name := "";
     ls_Selector := Some {| MatchLabels := Some {[ "app" := "db"; "kubedb.com/role" := "primary" ]};
                            MatchExpressions := [] |};
     ls_SelectionPolicy := "First" |}.

Definition ex_h_meta : ObjectMeta := ex_meta "a" "arch" "uid-a" [getFinalizerName] None None.
Definition ex_h_spec : SidekickSpec := ex_Spec ex_primary_sel "Always" None [ex_walg] true.
Definition ex_h_side : Sidekick :=
  {| sk_Meta := ex_h_meta; sk_Spec := ex_h_spec; sk_Status := set_Leader "db-0" empty_SidekickStatus |}.
Definition ex_h_req : NamespacedName := mkKey "a" "arch".

(** The database pod of cluster [c1]. *)
Definition ex_h_db : ManifestWork :=
  {| mw_Meta := ex_meta "c1" "db-0" "uid-mw-db" ["ocm"] None None;
     mw_Manifests := [{| raw_Raw := "leader"; raw_Object := None |}]; mw_ManifestConfigs := JNull;
     mw_ResourceStatus :=
       [{| mc_Values := [{| fb_Name := "PodPhase"; fb_String := Some "Running"; fb_JsonRaw := None |};
                         {| fb_Name := "NodeName"; fb_String := Some "n0"; fb_JsonRaw := None |};
                         {| fb_Name := "PodRoleLabel"; fb_String := Some "Primary"; fb_JsonRaw := None |}] |}] |}.
Definition ex_h_leader : Pod := default ex_dleader (candidate true ex_h_db).

(** The archiver's pod of the generation before. *)
Definition ex_h_stale : ManifestWork :=
  {| mw_Meta := ex_meta "c2" "arch" "uid-mw-arch" ["ocm"] None None;
     mw_Manifests := [{| raw_Raw := pod_bytes {| pod_APIVersion := "v1"; pod_Kind := "Pod";
       pod_Meta := ex_meta "a" "arch" "" [] None (Some {[ keyHash := "0/0"; keyLeader := "db-0" ]});
       pod_Spec := ex_PodSpec "n0" [] []; pod_Status := ex_status "" |}; raw_Object := None |}];
     mw_ManifestConfigs := JNull; mw_ResourceStatus := ex_feedback "Running" "n0" |}.

Definition ex_h0 : hub := Hub
  (put (k := KNamespace) (ex_ns "c1") (put (k := KNamespace) (ex_ns "c2")
  (put (k := KManifestWork) ex_h_db (put (k := KManifestWork) ex_h_stale
  (put (k := KSidekick) ex_h_side empty_store))))).

Lemma ex_h_setting : hub_setting ex_h_req ex_h_meta ex_h_spec ex_h_leader.
Proof. split; [split; reflexivity|by eexists|by eexists; vm_compute|by vm_compute]. Qed.

(** ** The election *)

(** Among the entries of a map only one yields a candidate. *)
Lemma sole_candidate {A B} (f : A → option B) (g : A → bool) (m : gmap NamespacedName A) k x y :
  m !! k = Some x → f x = Some y → (∀ k' x', k' ≠ k → m !! k' = Some x' → f x' = None) →
  omap f (List.filter g (map snd (map_to_list m))) = if g x then [y] else [].
Proof.
  intros Hk Hy Hn. set (h := λ e : NamespacedName * A, if g e.2 then f e.2 else None).
  assert (Hh : ∀ l, omap f (List.filter g (map snd l)) = omap h l).
  { intros l. induction l as [|[k' x'] l IH]; simpl; [done|]. unfold h at 1. simpl.
    destruct (g x'); simpl; [destruct (f x'); [f_equal|]|]; exact IH. }
  assert (Hd : omap h (map_to_list (delete k m)) = []).
  { assert (Hl : Forall (λ e, h e = None) (map_to_list (delete k m))).
    { apply Forall_forall. intros [k' x'] [Hne Hl]%elem_of_map_to_list%lookup_delete_Some.
      unfold h. simpl. rewrite (Hn k' x') by done. by destruct (g x'). }
    induction Hl as [|e l He _ IH]; simpl; [done|]. by rewrite He. }
  rewrite Hh. pose proof (map_to_list_insert (delete k m) k x (lookup_delete_eq _ _)) as Hp.
  rewrite insert_delete_id in Hp by done. apply (omap_Permutation h) in Hp.
  assert (Hc : omap h ((k, x) :: map_to_list (delete k m)) = if g x then [y] else []).
  { change (omap h ((k, x) :: map_to_list (delete k m))) with
      (match h (k, x) with Some z => z :: omap h (map_to_list (delete k m)) | None => omap h (map_to_list (delete k m)) end).
    rewrite Hd. unfold h. simpl. destruct (g x); [by rewrite Hy|done]. }
  rewrite Hc in Hp. destruct (g x); [by apply Permutation_singleton_r|by apply Permutation_nil_r].
Qed.

Lemma list_works_run sel items acc (h : hub) :
  run serve (list_works sel items acc) h =
  (Returned (Ok (acc ++ concat (map (λ ns, list_objs KManifestWork (Some (Name (ns_Meta ns))) None (hub_store h)) items))), h).
Proof.
  revert acc. induction items as [|ns items IH]; intros acc; cbn [list_works map concat];
    [by rewrite app_nil_r|].
  unfold try. rewrite run_bind, (run_call serve (OpOCMList _ _)). destruct h as [s].
  change ((serve (OpOCMList (Name (ns_Meta ns)) sel) (Hub s))) with
    (Ok (list_objs KManifestWork (Some (Name (ns_Meta ns))) None s), Hub s).
  cbn [fst snd]. rewrite IH. by rewrite <- app_assoc.
Qed.

(** Only the database work is a candidate. *)
Lemma ex_h_candidates (w : hub) ns :
  same_hub ex_h_req ex_h0 w →
  (∀ ns mw, stored KManifestWork w (mkKey ns (key_Name ex_h_req)) = Some mw → passive mw) →
  omap (candidate true) (list_objs KManifestWork (Some ns) None (hub_store w)) =
    if String.eqb ns "c1" then [ex_h_leader] else [].
Proof.
  intros [_ Ho] Hp. unfold list_objs. rewrite (sole_candidate _ _ _ (mkKey "c1" "db-0") ex_h_db ex_h_leader).
  - simpl. by rewrite andb_true_r.
  - change (stored KManifestWork w (mkKey "c1" "db-0") = Some ex_h_db). rewrite Ho; [vm_compute; reflexivity|done].
  - vm_compute. reflexivity.
  - intros [ns' n] mw Hne Hmw. change (stored KManifestWork w (mkKey ns' n) = Some mw) in Hmw.
    destruct (decide (n = "arch")) as [->|Hna]; [by apply passive_no_candidate, (Hp ns')|].
    rewrite Ho in Hmw by done. exfalso. revert Hmw.
    change (stored KManifestWork ex_h0 (mkKey ns' n)) with
      ((<[mkKey "c1" "db-0" := ex_h_db]> (<[mkKey "c2" "arch" := ex_h_stale]> ∅) :
         gmap NamespacedName ManifestWork) !! mkKey ns' n).
    rewrite !lookup_insert_ne by congruence. by rewrite lookup_empty.
Qed.

Lemma ex_h_elects : elects ex_h_req ex_h_meta ex_h_spec ex_h_leader ex_h0.
Proof.
  intros w sk Hhub Hp [_ Ha]. unfold getDistributedLeader, findDistributedLeader, list_namespaces, try. rewrite Ha.
  change (negb (String.eqb (ls_Name (sp_Leader ex_h_spec)) "")) with false. cbn iota.
  change (match ls_Selector (sp_Leader ex_h_spec) with
          | Some sel => let '(rr, sel0) := strip_role sel in (rr, FormatLabelSelector sel0)
          | None => (false, "") end) with (true, "app=db"). cbn iota beta.
  rewrite run_bind, run_bind, (run_call serve (OpList KNamespace None None)), (serve_namespaces (W := hub)). cbn [fst snd].
  rewrite run_bind, list_works_run. rewrite (namespaces_ext ex_h0 w (proj1 Hhub)).
  change (namespaces ex_h0) with (list_objs KNamespace None None (hub_store ex_h0)).
  set (items := list_objs _ _ _ _). assert (Hi : items = [ex_ns "c1"; ex_ns "c2"]) by (vm_compute; reflexivity). rewrite Hi.
  cbn [map concat app]. rewrite app_nil_r, omap_app, !ex_h_candidates by done. vm_compute. reflexivity.
Qed.

(** ** The history *)

Lemma ex_h_inv : inv ex_h_req ex_h_meta ex_h_spec ex_h_leader ex_h0.
Proof.
  split.
  - exists ex_h_side. repeat split; reflexivity.
  - intros p Hp. vm_compute in Hp. discriminate Hp.
  - vm_compute. left.
  - exists "c2". split; [vm_compute; right; left|]. split.
    + intros ns Hne. change (stored KManifestWork ex_h0 (mkKey ns (key_Name ex_h_req))) with
        ((<[mkKey "c1" "db-0" := ex_h_db]> (<[mkKey "c2" "arch" := ex_h_stale]> ∅) :
           gmap NamespacedName ManifestWork) !! mkKey ns "arch").
      rewrite !lookup_insert_ne by congruence. apply lookup_empty.
    + intros mw Hmw. assert (mw = ex_h_stale) as -> by (vm_compute in Hmw |- *; congruence).
      split; [reflexivity|by left| |].
      * unfold passive. vm_compute. repeat constructor; congruence.
      * destruct (bytes_pod_bytes {| pod_APIVersion := "v1"; pod_Kind := "Pod";
          pod_Meta := ex_meta "a" "arch" "" [] None (Some {[ keyHash := "0/0"; keyLeader := "db-0" ]});
          pod_Spec := ex_PodSpec "n0" [] []; pod_Status := ex_status "" |}) as (pod & Hb & _).
        eexists _, _, pod. split; [reflexivity|exact Hb].
  - intros sk [Ha _]. unfold keys_ready, keys_key. rewrite Ha. vm_compute. exact I.
  - exact ex_h_elects.
Qed.

(** The stale work is marked; the agent still holds it, and a pass waits; it is
    released; the next pass creates the work for the leader. *)
Definition ex_h_proc : Proc := {| grpcOnce := true; clusterDomain := None |}.
Definition ex_h1 : hub := (run serve (Reconcile ex_proc ex_h_req) ex_h0).2.
Definition ex_h2 : hub := (run serve (Reconcile ex_h_proc ex_h_req) ex_h1).2.
Definition ex_h3 : hub :=
  Hub (set_objs KManifestWork (delete (mkKey "c2" "arch") (s_works (hub_store ex_h2))) (hub_store ex_h2)).
Definition ex_h4 : hub := (run serve (Reconcile ex_h_proc ex_h_req) ex_h3).2.

Lemma ex_h_pass n s proc (h : hub) b :
  history ex_h_req ex_h_leader n s (proc, h) →
  (run serve (Reconcile proc ex_h_req) h).1 = Returned (no_requeue, None, ex_h_proc) →
  blocked ex_h_req ex_h_leader h = b →
  history ex_h_req ex_h_leader (if b then n else S n) s (ex_h_proc, (run serve (Reconcile proc ex_h_req) h).2).
Proof.
  intros Hh Hr <-. apply (history_pass ex_h_req ex_h_leader n s proc h no_requeue None); [done|].
  rewrite <- Hr. by destruct (run serve (Reconcile proc ex_h_req) h).
Qed.

Lemma ex_h_releases : releases ex_h_req ex_h2 ex_h3.
Proof.
  destruct (stored KManifestWork ex_h2 (mkKey "c2" "arch")) as [mw|] eqn:E; [|vm_compute in E; discriminate E].
  exists (mkKey "c2" "arch"), mw. split; [reflexivity|]. split; [exact E|]. split.
  - assert (Hd : match stored KManifestWork ex_h2 (mkKey "c2" "arch") with
                 | Some mw => DeletionTimestamp (mw_Meta mw) | None => None end = Some 1000)
      by (vm_compute; reflexivity).
    rewrite E in Hd. rewrite Hd. by eexists.
  - split; [apply lookup_delete_eq|]. intros k key Hne.
    apply (set_objs_frame KManifestWork (mkKey "c2" "arch")); [|congruence].
    intros x Hx. by apply lookup_delete_ne.
Qed.

Definition ex_h_end : Proc * hub := (ex_h_proc, ex_h4).

Lemma ex_h_history : history ex_h_req ex_h_leader 2 (ex_proc, ex_h0) ex_h_end.
Proof.
  apply (ex_h_pass 1 _ _ ex_h3 false); [|vm_compute; reflexivity..].
  apply (history_release ex_h_req ex_h_leader 1 _ ex_h_proc ex_h2); [|exact ex_h_releases].
  apply (ex_h_pass 1 _ _ ex_h1 true); [|vm_compute; reflexivity..].
  apply (ex_h_pass 0 _ _ ex_h0 false); [constructor|vm_compute; reflexivity..].
Qed.


(** ** A named leader *)

Definition ex_n_spec : SidekickSpec :=
  ex_Spec {| ls_Name := "db-0"; ls_Selector := None; ls_SelectionPolicy := "First" |} "Always" None [ex_walg] true.
Definition ex_n_side : Sidekick :=
  {| sk_Meta := ex_h_meta; sk_Spec := ex_n_spec; sk_Status := empty_SidekickStatus |}.
Definition ex_n_hub : hub := Hub
  (put (k := KNamespace) (ex_ns "c1") (put (k := KManifestWork) ex_h_db
  (put (k := KSidekick) ex_n_side empty_store))).

Lemma ex_n_waits : waits ex_h_req ex_h_meta ex_n_spec ex_n_hub.
Proof.
  split.
  - exists ex_n_side. repeat split; reflexivity.
  - intros p Hp. vm_compute in Hp. discriminate Hp.
  - vm_compute. congruence.
  - vm_compute. reflexivity.
Qed.

