(* ===== verification/FleetWitness.v ===== *)
(** * Two Sidekicks on one server *)

From S2P Require Import Prelude Effects GoStd Types Cluster Kmodules Leader Fixtures Phase PodBuilder Local LocalProps Server Store LocalRun.
From S2P Require Import LocalWitness Codec Token SnapshotServer SnapshotWitness GrpcWiring Distributed Controller DistributedWitness LocalPass Confinement Convergence ConvergenceWitness Fleet.
Import InsertionSort.

(** ** The store keeps objects under their names *)

Definition in_place (s : store) : Prop := ∀ k key o, objs k s !! key = Some o → obj_key o = key.

Lemma obj_key_set_status k (src o : obj k) : obj_key (obj_set_status src o) = obj_key o.
Proof. by destruct k. Qed.
Lemma obj_key_norm k (o : obj k) : obj_key (obj_norm o) = obj_key o.
Proof. by destruct k. Qed.
Lemma obj_key_fresh k n (o : obj k) : obj_key (fresh n o) = obj_key o.
Proof. by destruct k. Qed.
Lemma obj_key_deleted k t (o : obj k) : obj_key (obj_set_meta (mark_deleted t (obj_meta o)) o) = obj_key o.
Proof. by destruct k. Qed.

Lemma in_place_set k key (f : gmap NamespacedName (obj k)) s :
  in_place s → (∀ key' o, f !! key' = Some o → key' = key ∨ objs k s !! key' = Some o) →
  (∀ o, f !! key = Some o → obj_key o = key) → in_place (set_objs k f s).
Proof.
  intros Hs Hf Hk k' key' o. destruct (decide (k' = k)) as [->|Hne].
  - rewrite objs_set_eq. intros Ho. destruct (decide (key' = key)) as [->|]; [by apply Hk|].
    destruct (Hf key' o Ho) as [?|Ho']; [done|]. by apply Hs.
  - rewrite objs_set_ne by done. apply Hs.
Qed.

Lemma in_place_insert k key o s :
  in_place s → obj_key o = key → in_place (set_objs k (<[key := o]> (objs k s)) s).
Proof.
  intros Hs Ho. apply (in_place_set k key); [done|..].
  - intros key' o' [[-> _]|[_ ?]]%lookup_insert_Some; auto.
  - intros o'. rewrite lookup_insert_eq. by intros [= <-].
Qed.

Lemma in_place_delete k key s : in_place s → in_place (set_objs k (delete key (objs k s)) s).
Proof.
  intros Hs. apply (in_place_set k key); [done|..].
  - intros key' o' [_ ?]%lookup_delete_Some. auto.
  - intros o'. by rewrite lookup_delete_eq.
Qed.

Lemma in_place_tick s : in_place s → in_place (tick s).
Proof. intros Hs k key o. rewrite objs_tick. apply Hs. Qed.

#[export, refine] Instance store_addressed : AddressedServer store := {| placed := in_place |}.
Proof.
  intros op s Hs Hw. destruct op as [k key|k ns sel|k o|k cur md|k cur md|k o|k key|ns name|ns sel| |n|name|path];
    simpl; try (split; [done|first [done|by apply in_place_tick]]).
  - destruct (objs k s !! key) as [o|] eqn:E; simpl; [|done]. split; [by apply Hs|done].
  - destruct (objs k s !! obj_key o) eqn:E; simpl; [done|]. split; [apply obj_key_fresh|].
    apply in_place_tick, in_place_insert; [done|apply obj_key_fresh].
  - destruct (objs k s !! obj_key cur) eqn:E; simpl; [|done]. split; [done|].
    destruct (released _); [by apply in_place_delete|by apply in_place_insert].
  - destruct (objs k s !! obj_key cur) as [o|] eqn:E; simpl; [|done]. split; [apply obj_key_set_status|].
    apply in_place_insert; [done|]. rewrite obj_key_norm, obj_key_set_status. by apply Hs.
  - destruct (objs k s !! obj_key o) as [o'|] eqn:E; simpl; [|done]. split; [done|].
    apply in_place_insert; [done|]. rewrite obj_key_norm, obj_key_set_status. by apply Hs.
  - destruct (objs k s !! key) as [o|] eqn:E; simpl; [|done]. split; [done|].
    case_bool_decide; [by apply in_place_delete|]. apply in_place_insert; [done|].
    rewrite obj_key_deleted. by apply Hs.
Defined.

(** ** Confinement *)

(** The pass that takes down the stale pod of [ConvergenceWitness.v]. *)
Lemma local_reconcile_confined_witness :
  existsb is_write (run_trace serve (Reconcile ex_proc ex_req) ex_c_world) = true ∧
  Forall (λ e, match e with Ev op _ => within ex_req op end)
    (run_trace serve (Reconcile ex_proc ex_req) ex_c_world).
Proof.
  split; [vm_compute; reflexivity|].
  apply (local_reconcile_confined ex_proc ex_req _ _ (run_exec serve (Reconcile ex_proc ex_req) ex_c_world)).
  - vm_compute. repeat (constructor; [done|]). constructor.
  - vm_compute. repeat (constructor; [done|]). constructor.
Defined.

(** ** A fleet of two *)

(** Beside the Sidekick with the stale pod, a second one without a pod. *)
Definition ex_f_meta : ObjectMeta := ex_meta "demo" "second" "uid-second" [getFinalizerName] None None.
Definition ex_f_req : NamespacedName := mkKey "demo" "second".
Definition ex_f_side : Sidekick :=
  {| sk_Meta := ex_f_meta; sk_Spec := ex_c_spec; sk_Status := empty_SidekickStatus |}.
Definition ex_first : member :=
  {| mb_req := ex_req; mb_meta := ex_c_meta; mb_spec := ex_c_spec; mb_leader := ex_db |}.
Definition ex_second : member :=
  {| mb_req := ex_f_req; mb_meta := ex_f_meta; mb_spec := ex_c_spec; mb_leader := ex_db |}.
Definition ex_fleet : list member := [ex_first; ex_second].
Definition ex_f_world : store := put (k := KSidekick) ex_f_side ex_c_world.

Lemma ex_fleet_all (P : member → Prop) : Forall P ex_fleet → ∀ mb, mb ∈ ex_fleet → P mb.
Proof. intros HP mb. by apply Forall_forall. Qed.

Lemma ex_fleet_setting mb : mb ∈ ex_fleet →
  setting (mb_req mb) (mb_meta mb) (mb_spec mb) (mb_leader mb) ∧ sp_RestartPolicy (mb_spec mb) = RestartPolicyAlways.
Proof.
  revert mb. apply ex_fleet_all.
  repeat constructor; simpl; try reflexivity; eexists; vm_compute; reflexivity.
Qed.

Lemma ex_fleet_elects mb : mb ∈ ex_fleet → follows_outsider (W := store) ex_fleet mb ex_f_world.
Proof.
  revert mb. apply ex_fleet_all. repeat constructor; intros w' sk Ho [Ha1 Ha2]; simpl in Ha1, Ha2;
    unfold getLeader; rewrite Ha1, Ha2;
    change (negb (String.eqb (ls_Name (sp_Leader ex_c_spec)) "")) with true; cbn iota;
    rewrite (run_call serve (OpGet KPod (mkKey "demo" "db-0")));
    (rewrite (serve_get KPod (mkKey "demo" "db-0") w' ex_db); [reflexivity|]);
    (rewrite (Ho (mkKey "demo" "db-0")); [vm_compute; reflexivity|]);
    apply (bool_decide_eq_true_1 _); vm_compute; reflexivity.
Qed.

Lemma ex_fleet_inv : fleet_inv (W := store) ex_fleet ex_f_world.
Proof.
  split; [| | |apply ex_fleet_elects].
  - repeat apply in_place_insert; try reflexivity.
    intros k key o Ho. exfalso. revert Ho. destruct k; apply lookup_empty_Some.
  - apply ex_fleet_all. repeat constructor; eexists; (split; [vm_compute; reflexivity|split; reflexivity]).
  - intros mb p Hmb. apply list_elem_of_In in Hmb as [<-|[<-|[]]]; intros Hp; vm_compute in Hp; [|discriminate].
    injection Hp as <-. split; reflexivity.
Qed.

