(* ===== verification/RetriesWitness.v ===== *)
(** * Concrete retries

    The bound of [Retries.v] on the server of [Store.v]: a Sidekick with policy
    Never and backoff limit 1 whose pods fail makes two pods and gives up. *)

From S2P Require Import Prelude Effects GoStd Types Cluster Kmodules Leader Fixtures Phase PodBuilder Local LocalProps Server Store LocalRun LocalWitness Codec Token SnapshotServer SnapshotWitness GrpcWiring Distributed Controller DistributedWitness LocalPass Retries ConvergenceWitness.
Import InsertionSort.

Definition ex_r_spec : SidekickSpec := ex_Spec ex_follow_db "Never" (Some 1) [ex_container] false.
Definition ex_r_world : store :=
  put (k := KSidekick)
    {| sk_Meta := ex_c_meta; sk_Spec := ex_r_spec; sk_Status := empty_SidekickStatus |}
    (put (k := KPod) ex_db empty_store).

(** The kubelet reports that the sidekick pod failed. *)
Definition ex_failed : PodStatus :=
  {| pst_Phase := PodFailed; pst_PodIP := ""; pst_Conditions := [];
     pst_ContainerStatuses := []; pst_InitContainerStatuses := [] |}.
Definition ex_fail (s : store) : store :=
  match s_pods s !! ex_req with
  | Some p => put (k := KPod) (set_pod_Status ex_failed p) s
  | None => s
  end.

Abbreviation ex_pass := (pass (W := store) ex_proc ex_req).

(** Pod one fails, is taken down and released; pod two is created and fails; the
    last pass gives up. *)
Definition ex_retry (s : store) : store := ex_pass (ex_pass (ex_fail (ex_pass s))).
Definition ex_end : store := ex_pass (ex_fail (ex_pass (ex_retry ex_r_world))).

Lemma ex_r_setting : setting ex_req ex_c_meta ex_r_spec ex_db.
Proof. split; try reflexivity. eexists. vm_compute. reflexivity. Qed.

Lemma ex_r_elects (s : store) :
  stored KPod s (mkKey "demo" "db-0") = Some ex_db → elects ex_req ex_c_meta ex_r_spec ex_db s.
Proof.
  intros Hs w' sk Ho [Ha1 Ha2]. unfold getLeader. rewrite Ha1, Ha2.
  change (negb (String.eqb (ls_Name (sp_Leader ex_r_spec)) "")) with true. cbn iota.
  rewrite (run_call serve (OpGet KPod (mkKey "demo" "db-0"))).
  rewrite (serve_get KPod (mkKey "demo" "db-0") w' ex_db); [reflexivity|].
  rewrite (Ho (mkKey "demo" "db-0")); [exact Hs|by vm_compute].
Qed.

Lemma ex_fail_env (s : store) (p : Pod) :
  stored KPod s (mkKey "demo" "db-0") = Some ex_db → stored KPod s ex_req = Some p →
  meta_key (pod_Meta p) = ex_req →
  env_step (W := store) ex_req ex_c_meta ex_r_spec ex_db 0 s (ex_fail s).
Proof.
  intros Hdb Hp Hk. change (s_pods s !! ex_req = Some p) in Hp.
  assert (E : ex_fail s = put (k := KPod) (set_pod_Status ex_failed p) s) by (unfold ex_fail; by rewrite Hp).
  assert (Hs : ∀ key, stored KPod (ex_fail s) key =
    if decide (key = ex_req) then Some (set_pod_Status ex_failed p) else stored KPod s key).
  { intros key. rewrite E. simpl. unfold obj_key. simpl. rewrite Hk.
    case_decide; [subst; apply lookup_insert_eq|by apply lookup_insert_ne]. }
  split.
  - by rewrite E.
  - rewrite Hs, decide_True by done. change (stored KPod s ex_req) with (s_pods s !! ex_req).
    rewrite Hp. constructor. by split.
  - apply ex_r_elects. rewrite Hs, decide_False; [done|by vm_compute].
  - intros u (n & -> & Hn). exists n. split; [done|]. by rewrite E.
Qed.

Lemma ex_r_start : start (W := store) ex_req ex_c_meta ex_r_spec ex_db 0 0 ex_r_world.
Proof.
  split; [|reflexivity|by apply ex_r_elects].
  eexists. split; [vm_compute; reflexivity|]. split; [by split|]. split; [|by split].
  intros u [[b Hu]|[b Hu]]; by vm_compute in Hu.
Qed.

Abbreviation ex_reaches := (reach (W := store) ex_proc ex_req ex_c_meta ex_r_spec ex_db 0 ex_r_world).

Lemma ex_by_pass n k s :
  creates (W := store) ex_proc ex_req s = k → ex_reaches n s → ex_reaches (n + k) (ex_pass s).
Proof. intros <-. apply reach_pass. Qed.

Lemma ex_by_fail n s (p : Pod) :
  stored KPod s (mkKey "demo" "db-0") = Some ex_db → stored KPod s ex_req = Some p →
  meta_key (pod_Meta p) = ex_req → ex_reaches n s → ex_reaches n (ex_fail s).
Proof. intros Hdb Hp Hk Hre. eapply reach_env; [exact Hre|]. by apply (ex_fail_env s p). Qed.

(** The execution: six passes and two failures. *)
Lemma ex_reach : ex_reaches 2 ex_end.
Proof.
  unfold ex_end, ex_retry.
  apply (ex_by_pass 2 0); [vm_compute; reflexivity|].
  eapply ex_by_fail; [vm_compute; reflexivity..|].
  apply (ex_by_pass 1 1); [vm_compute; reflexivity|].
  apply (ex_by_pass 1 0); [vm_compute; reflexivity|].
  apply (ex_by_pass 1 0); [vm_compute; reflexivity|].
  eapply ex_by_fail; [vm_compute; reflexivity..|].
  apply (ex_by_pass 0 1); [vm_compute; reflexivity|].
  constructor.
Qed.

