(* ===== verification/DistributedElection.v ===== *)
(** * Election and termination of distributed Sidekicks

    The leader of a distributed Sidekick is elected among the pods of
    ManifestWorks; [distributed_election_agrees] relates that election to the
    local one.  A distributed Sidekick that is deleted takes its ManifestWork
    with it before it is released. *)

From S2P Require Import Prelude Effects GoStd Types Cluster Kmodules Leader Phase PodBuilder Local Codec Token SnapshotServer GrpcWiring Distributed DistributedProps.

(** ** Election *)

(** The environment lists these namespaces, and these ManifestWorks for a
    namespace and a label selector. *)
Definition hub_lists (items : list NamespaceObj) (works : string → string → list ManifestWork)
    (e : apievent) : Prop :=
  match e with
  | Ev op r =>
      match op return answer op → Prop with
      | OpOCMList ns sel => λ r, r = Ok (works ns sel)
      | OpList KNamespace _ _ => λ r, r = Ok items
      | _ => λ _, True
      end r
  end.

Section Election.
Context `{WorkJson} `{SortSlice} `{LabelSelectors}.

(** The selector sent to the hub, and whether the role label was taken out of it. *)
Definition hub_selector (ldr : LeaderSpec) : bool * string :=
  match ls_Selector ldr with
  | Some sel => let '(rr, sel) := strip_role sel in (rr, FormatLabelSelector sel)
  | None => (false, "")
  end.

(** The pods the election is about. *)
Definition candidates (ldr : LeaderSpec) (items : list NamespaceObj)
    (works : string → string → list ManifestWork) : list Pod :=
  let '(rr, sel) := hub_selector ldr in
  omap (candidate rr) (concat (map (λ ns, works (Name (ns_Meta ns)) sel) items)).

Lemma list_works_wpE items works sel l acc :
  wpE (hub_lists items works) (list_works sel l acc) (λ _ o,
    o = Returned (Ok (acc ++ concat (map (λ ns, works (Name (ns_Meta ns)) sel) l)))).
Proof.
  revert acc. induction l as [|ns l IH]; intros acc; cbn [list_works map concat].
  { apply wpE_ret. by rewrite app_nil_r. }
  unfold try. apply wpE_bind. intros r Hr. apply Forall_cons in Hr as [Hr _]. simpl in Hr. subst r.
  eapply wpE_mono; [|apply IH]. simpl. intros tr o ->. by rewrite <- app_assoc.
Qed.

Lemma filter_all {A} (f : A → bool) l : Forall (λ x, f x = true) l → List.filter f l = l.
Proof. induction 1 as [|x l Hx _ IH]; simpl; [done|]. by rewrite Hx, IH. Qed.

(** Choosing among ranked leaders is the local election when all of them run. *)
Lemma rank_then_pick policy l :
  Forall (λ p, pod_running p = true) l →
  match rank_leaders l with Ok leaders => pick_leader policy leaders | Err e => mret (Err e) end =
  select_leader policy l.
Proof.
  intros Hr. unfold select_leader, rank_leaders. rewrite (filter_all _ _ Hr).
  destruct l as [|p [|q l]]; [done| |done]. unfold pick_leader. simpl.
  by destruct (String.eqb policy PodSelectionPolicyFirst).
Qed.

Lemma findDistributedLeader_wpE items works sk :
  ls_Name (sp_Leader (sk_Spec sk)) = "" →
  wpE (hub_lists items works) (findDistributedLeader sk) (λ _ o,
    o = Returned (rank_leaders (candidates (sp_Leader (sk_Spec sk)) items works))).
Proof.
  intros Hn. unfold findDistributedLeader. rewrite Hn. cbn [negb String.eqb].
  unfold candidates. change (match ls_Selector (sp_Leader (sk_Spec sk)) with
    | Some sel => let '(rr, sel0) := strip_role sel in (rr, FormatLabelSelector sel0)
    | None => (false, "") end) with (hub_selector (sp_Leader (sk_Spec sk))).
  destruct (hub_selector (sp_Leader (sk_Spec sk))) as [rr sel].
  unfold try at 1. apply wpE_bind. intros r Hr. apply Forall_cons in Hr as [Hr _]. simpl in Hr. subst r.
  unfold try. apply wpE_bind. eapply wpE_mono; [|apply list_works_wpE].
  simpl. intros tr o ->. by apply wpE_ret.
Qed.

(** C23. The two elections agree: on a hub whose candidates for the selector all run,
    the distributed reconciler elects exactly the pod the local reconciler would
    elect among them (NotFound included).  Unlike the local one it does not look
    at their phase: a single candidate is elected whatever its phase is. *)
Theorem distributed_election_agrees items works sk tr o :
  ls_Name (sp_Leader (sk_Spec sk)) = "" →
  exec (getDistributedLeader sk) tr o → Forall (hub_lists items works) tr →
  let l := candidates (sp_Leader (sk_Spec sk)) items works in
  (Forall (λ p, pod_running p = true) l →
   exec (select_leader (ls_SelectionPolicy (sp_Leader (sk_Spec sk))) l) [] o) ∧
  (∀ p, l = [p] → o = Returned (Ok p)).
Proof.
  intros Hn He Htr l.
  assert (Hw : wpE (hub_lists items works) (getDistributedLeader sk) (λ _ o,
    exec (match rank_leaders l with
          | Ok leaders => pick_leader (ls_SelectionPolicy (sp_Leader (sk_Spec sk))) leaders
          | Err e => mret (Err e)
          end) [] o)).
  { unfold getDistributedLeader, try. apply wpE_bind.
    eapply wpE_mono; [|apply findDistributedLeader_wpE; done]. simpl. intros tr' o' ->. fold l.
    destruct (rank_leaders l) as [leaders|e]; [|apply wpE_ret; constructor].
    unfold pick_leader. by destruct (if String.eqb _ _ then head leaders else last leaders);
      intros _; constructor. }
  apply wpE_exec with (tr := tr) (o := o) in Hw; [|done..]. split.
  - intros Hr. by rewrite <- (rank_then_pick _ _ Hr).
  - intros p E. rewrite E in Hw. unfold rank_leaders, pick_leader in Hw. simpl in Hw.
    destruct (String.eqb _ _); apply exec_inv in Hw as [_ Hw]; done.
Qed.
End Election.

(** ** Termination *)

(** The work is gone or going. *)
Definition delete_accepted (r : res unit) : Prop :=
  r = Ok tt ∨ ∃ e, r = Err e ∧ IsNotFound e = true.

Definition writes_sidekick (e : apievent) : bool :=
  match e with
  | Ev op _ =>
      match op with
      | OpPatch KSidekick _ _ | OpCreate KSidekick _ | OpStatusPatch KSidekick _ _
      | OpStatusUpdate KSidekick _ | OpDelete KSidekick _ => true
      | _ => false
      end
  end.

Lemma probe_reads name l nf :
  wp (probe_namespaces name l nf) (λ tr _, Forall (λ e, writes_sidekick e = false) tr).
Proof.
  revert nf. induction l as [|ns l IH]; intros nf; cbn [probe_namespaces]; [apply wp_ret; constructor|].
  apply wp_bind. intros [mw|e]; simpl; [by apply Forall_singleton|].
  destruct (IsNotFound e); [|by apply Forall_singleton].
  eapply wp_mono; [|apply IH]. intros tr o Ht. by constructor.
Qed.

Lemma getDistributedPodNamespace_reads name :
  wp (getDistributedPodNamespace name) (λ tr _, Forall (λ e, writes_sidekick e = false) tr).
Proof.
  unfold getDistributedPodNamespace, list_namespaces. apply wp_bind. intros [items|e]; simpl; [|by apply Forall_singleton].
  eapply wp_mono; [|apply probe_reads]. intros tr o Ht. by constructor.
Qed.

(** The ManifestWork the search ends at was deleted before the Sidekick was
    written. *)
Definition work_deleted_first (items : list NamespaceObj) (works : string → string → res ManifestWork)
    (sk : Sidekick) (tr : list apievent) : Prop :=
  match search works (Name (sk_Meta sk)) items None with
  | Found mw =>
      Namespace (mw_Meta mw) = "" ∨
      ∃ tr1 r tr2,
        tr = tr1 ++ Ev (OpDelete KManifestWork (mkKey (Namespace (mw_Meta mw)) (Name (sk_Meta sk)))) r :: tr2 ∧
        delete_accepted r ∧ Forall (λ e, writes_sidekick e = false) tr1
  | Broken _ _ => False
  | Nowhere _ => True
  end.

Lemma reads_only tr :
  Forall (λ e, writes_sidekick e = false) tr → existsb writes_sidekick tr = false.
Proof. induction 1 as [|e tr He _ IH]; simpl; [done|]. by rewrite He, IH. Qed.

