(* ===== verification/ElectionWitness.v ===== *)
(** * A concrete hub: election and deletion of a distributed Sidekick *)

From S2P Require Import Prelude Effects GoStd Types Cluster Kmodules Leader Fixtures Phase PodBuilder Local Server Store LocalWitness Codec Token SnapshotServer GrpcWiring Distributed DistributedProps DistributedWitness DistributedElection.
Import InsertionSort.

Definition ex_hub_items : list NamespaceObj := list_objs KNamespace None None ex_hub.
Definition ex_lists (ns _ : string) : list ManifestWork := list_objs KManifestWork (Some ns) None ex_hub.

Lemma distributed_election_agrees_witness :
  let o := (run serve (getDistributedLeader (ex_dsk "a")) ex_hub).1 in
  let l := candidates (sp_Leader (sk_Spec (ex_dsk "a"))) ex_hub_items ex_lists in
  map (λ p, Name (pod_Meta p)) l = ["db-0"] ∧ exec (select_leader "First" l) [] o.
Proof.
  cbv zeta. split; [vm_compute; reflexivity|].
  apply (distributed_election_agrees ex_hub_items ex_lists (ex_dsk "a")
           (run_trace serve (getDistributedLeader (ex_dsk "a")) ex_hub)
           (run serve (getDistributedLeader (ex_dsk "a")) ex_hub).1).
  - reflexivity.
  - apply run_exec.
  - vm_compute. repeat constructor.
  - vm_compute. repeat constructor.
Defined.

(** The Sidekick [a/arch] under deletion, with its work in the cluster [c1]. *)
Definition ex_dgoing : Sidekick :=
  set_sk_Meta (ex_meta "a" "arch" "uid-a" [getFinalizerName] (Some 7) None) (ex_dsk "a").
Definition ex_dworld : store :=
  put (k := KSidekick) ex_dgoing (put (k := KManifestWork) (ex_work "c1" "arch" "arch" "Running" "n0") ex_hub).
Definition ex_gets (ns name : string) : res ManifestWork :=
  match s_works ex_dworld !! mkKey ns name with Some o => Ok o | None => Err not_found end.

