(* ===== verification/Json.v ===== *)
(** * encoding/json on Go structs

    Marshalling and unmarshalling of Go values as JSON trees, by struct tags.  A
    [vcodec] is the encoding of a Go type; a [codec] is a struct field with its
    tag ([omitempty] or not, pointer or not), which may be absent.  Every codec
    carries the values it is defined for and what a round trip makes of them, and
    the proof of that round trip, so that the codec of a struct is put together
    from those of its fields.  Trees stand for the text: strings are taken to be
    valid UTF-8. *)

From S2P Require Import Prelude Types.

(** ** Objects *)

Abbreviation entries := (list (string * json)) (only parsing).

(** The value of a key; a later entry overrides an earlier one. *)
Fixpoint get (k : string) (l : entries) : option json :=
  match l with
  | [] => None
  | (k', v) :: l' =>
      match get k l' with
      | Some v' => Some v'
      | None => if String.eqb k k' then Some v else None
      end
  end.

(** The fields of a struct in order, absent ones included. *)
Abbreviation fields := (list (string * option json)) (only parsing).

Definition present (kv : string * option json) : option (string * json) := pair kv.1 <$> kv.2.

Definition obj_of (fs : fields) : json := JObj (omap present fs).

Definition NoDupb (l : list string) : bool := bool_decide (NoDup l).

Lemma omap_present_some k v (fs : fields) :
  omap present ((k, Some v) :: fs) = (k, v) :: omap present fs.
Proof. done. Qed.

Lemma omap_present_none k (fs : fields) : omap present ((k, None) :: fs) = omap present fs.
Proof. done. Qed.

Lemma get_absent k fs : k ∉ map fst fs → get k (omap present fs) = None.
Proof.
  induction fs as [|[k' o] fs IH]; [done|]. cbn [map fst]. intros [Hk Hn]%not_elem_of_cons.
  specialize (IH Hn). destruct o as [v|]; [|done]. rewrite omap_present_some. cbn [get]. rewrite IH.
  by rewrite (proj2 (String.eqb_neq _ _) Hk).
Qed.

(** The value under a key of an object with distinct keys. *)
Lemma get_present k o fs :
  NoDupb (map fst fs) = true → (k, o) ∈ fs → get k (omap present fs) = o.
Proof.
  intros Hnd%bool_decide_eq_true Hin. induction fs as [|[k' o'] fs IH]; [by apply elem_of_nil in Hin|].
  cbn [map fst] in Hnd. apply NoDup_cons in Hnd as [Hk Hnd].
  apply elem_of_cons in Hin as [[= <- <-]|Hin].
  - destruct o as [v|]; [|exact (get_absent k fs Hk)]. rewrite omap_present_some. cbn [get].
    by rewrite get_absent, String.eqb_refl.
  - specialize (IH Hnd Hin). destruct o' as [v|]; [|exact IH]. rewrite omap_present_some. cbn [get].
    rewrite IH. destruct o; [done|]. rewrite (proj2 (String.eqb_neq _ _)); [done|].
    intros ->. apply Hk. by apply (list_elem_of_fmap_2 fst fs (k', None)).
Qed.

Definition type_error : error := PlainError "json: cannot unmarshal".

(** ** Codecs *)

(** The encoding of a type: [vgood] are the values it is defined for, [vcanon] is
    what a round trip makes of them and [vzero] is the zero value of the type. *)
Record vcodec (A : Type) := VCodec {
  to_json : A → json;
  of_json : json → res A;
  vzero : A;
  vgood : A → Prop;
  vcanon : A → A;
  to_json_not_null : ∀ a, vgood a → to_json a ≠ JNull;
  of_to_json : ∀ a, vgood a → of_json (to_json a) = Ok (vcanon a)
}.
Arguments VCodec {A}.
Arguments to_json {A} _ _.
Arguments of_json {A} _ _.
Arguments vzero {A} _.
Arguments vgood {A} _ _.
Arguments vcanon {A} _ _.
Arguments to_json_not_null {A} _ _ _.
Arguments of_to_json {A} _ _ _.

(** Unmarshalling into a fresh variable: null leaves the zero value. *)
Definition unmarshal {A} (c : vcodec A) (j : json) : res A :=
  match j with JNull => Ok (vzero c) | _ => of_json c j end.

Lemma unmarshal_to_json {A} (c : vcodec A) a :
  vgood c a → unmarshal c (to_json c a) = Ok (vcanon c a).
Proof.
  intros Ha. pose proof (to_json_not_null c a Ha). pose proof (of_to_json c a Ha).
  unfold unmarshal. by destruct (to_json c a).
Qed.

(** The encoding of a struct field; [None] is a key that is absent. *)
Record codec (A : Type) := Codec {
  enc : A → option json;
  dec : option json → res A;
  fzero : A;
  good : A → Prop;
  canon : A → A;
  dec_enc : ∀ a, good a → dec (enc a) = Ok (canon a)
}.
Arguments Codec {A}.
Arguments enc {A} _ _.
Arguments dec {A} _ _.
Arguments fzero {A} _.
Arguments good {A} _ _.
Arguments canon {A} _ _.
Arguments dec_enc {A} _ _ _.

(** ** Values *)

#[refine] Definition string_v : vcodec string :=
  VCodec JStr (λ j, match j with JStr s => Ok s | _ => Err type_error end)
    "" (λ _, True) id _ _.
Proof. all: done. Defined.

#[refine] Definition bool_v : vcodec bool :=
  VCodec JBool (λ j, match j with JBool b => Ok b | _ => Err type_error end)
    false (λ _, True) id _ _.
Proof. all: done. Defined.

(** A [w]-bit integer: a number out of range is an error. *)
#[refine] Definition int_v (w : Z) : vcodec Z :=
  VCodec JNum (λ j, match j with
                    | JNum z => if bool_decide (in_int w z) then Ok z else Err type_error
                    | _ => Err type_error
                    end)
    0 (in_int w) id _ _.
Proof. - done. - intros z Hz. simpl. by rewrite bool_decide_eq_true_2. Defined.

(** A value of a library type, kept as it is; [z] is the tree of its zero value. *)
#[refine] Definition opaque_v (z : json) : vcodec json :=
  VCodec id Ok z (λ j, j ≠ JNull) id _ _.
Proof. all: done. Defined.

Lemma res_map_roundtrip {A} (c : vcodec A) l :
  Forall (vgood c) l → res_map (unmarshal c) (map (to_json c) l) = Ok (map (vcanon c) l).
Proof. induction 1 as [|a l Ha _ IH]; simpl; [done|]. by rewrite unmarshal_to_json, IH. Qed.

#[refine] Definition list_v {A} (c : vcodec A) : vcodec (list A) :=
  VCodec (λ l, JArr (map (to_json c) l))
    (λ j, match j with JArr l => res_map (unmarshal c) l | _ => Err type_error end)
    [] (Forall (vgood c)) (map (vcanon c)) _ _.
Proof. - done. - intros l Hl. by apply res_map_roundtrip. Defined.

(** A map, its keys in order. *)
Definition key_le (a b : string * json) : Prop := String.leb a.1 b.1 = true.
#[export] Instance key_le_dec a b : Decision (key_le a b).
Proof. unfold key_le. apply _. Defined.

Definition of_entry {A} (c : vcodec A) (kv : string * json) : res (string * A) :=
  match unmarshal c kv.2 with Ok a => Ok (kv.1, a) | Err e => Err e end.

Definition map_entries {A} (c : vcodec A) (m : gmap string A) : entries :=
  merge_sort key_le (map (prod_map id (to_json c)) (map_to_list m)).

Lemma res_map_entries {A} (c : vcodec A) (l : list (string * A)) l' :
  Forall (λ kv, vgood c kv.2) l → map (prod_map id (to_json c)) l ≡ₚ l' →
  ∃ l'', res_map (of_entry c) l' = Ok l'' ∧ map (prod_map id (vcanon c)) l ≡ₚ l''.
Proof.
  intros Hg Hp. assert (H' : ∃ l1, l ≡ₚ l1 ∧ l' = map (prod_map id (to_json c)) l1).
  { symmetry in Hp. apply Permutation_map_inv in Hp as (l1 & -> & Hp). eauto. }
  destruct H' as (l1 & Hp1 & ->). rewrite Hp1 in Hg. exists (map (prod_map id (vcanon c)) l1). split.
  - clear Hp Hp1. induction Hg as [|[k a] l1 Ha _ IH]; simpl; [done|].
    unfold of_entry at 1. simpl. by rewrite unmarshal_to_json, IH.
  - by rewrite Hp1.
Qed.

#[refine] Definition map_v {A} (c : vcodec A) : vcodec (gmap string A) :=
  VCodec (λ m, JObj (map_entries c m))
    (λ j, match j with
          | JObj l => match res_map (of_entry c) l with
                      | Ok l => Ok (list_to_map (rev l))
                      | Err e => Err e
                      end
          | _ => Err type_error
          end)
    ∅ (map_Forall (λ _ a, vgood c a)) (fmap (vcanon c)) _ _.
Proof.
  - done.
  - intros m Hm. unfold map_entries.
    destruct (res_map_entries c (map_to_list m) (merge_sort key_le (map (prod_map id (to_json c)) (map_to_list m))))
      as (l & -> & Hl).
    + apply Forall_forall. intros [k a] Hin. apply elem_of_map_to_list in Hin. by apply (Hm k).
    + symmetry. apply merge_sort_Permutation.
    + f_equal. rewrite <- (list_to_map_to_list (vcanon c <$> m)). symmetry.
      assert (Hp : map_to_list (vcanon c <$> m) ≡ₚ rev l).
      { rewrite map_to_list_fmap. etrans; [exact Hl|]. apply Permutation_rev. }
      apply list_to_map_proper; [apply NoDup_fst_map_to_list|exact Hp].
Defined.

(** ** Fields *)

(** A field that is always written: one without [omitempty], or of a struct type,
    which [omitempty] does not omit. *)
#[refine] Definition required {A} (c : vcodec A) : codec A :=
  Codec (λ a, Some (to_json c a))
    (λ o, match o with None => Ok (vzero c) | Some j => unmarshal c j end)
    (vzero c) (vgood c) (vcanon c) _.
Proof. intros a Ha. by apply unmarshal_to_json. Defined.

(** A field with [omitempty] of a type whose zero value can be told. *)
Record zero_test {A} (c : vcodec A) := ZeroTest {
  is_zero : A → bool;
  zero_canon : ∀ a, is_zero a = true → vcanon c a = vzero c
}.
Arguments ZeroTest {A c}.
Arguments is_zero {A c} _ _.
Arguments zero_canon {A c} _ _ _.

#[refine] Definition omitempty {A} {c : vcodec A} (t : zero_test c) : codec A :=
  Codec (λ a, if is_zero t a then None else Some (to_json c a))
    (dec (required c)) (vzero c) (vgood c) (vcanon c) _.
Proof.
  intros a Ha. destruct (is_zero t a) eqn:E; [simpl; by rewrite (zero_canon t a E)|].
  exact (dec_enc (required c) a Ha).
Defined.

#[refine] Definition string_zero : zero_test string_v := ZeroTest (λ s, String.eqb s "") _.
Proof. intros s. apply String.eqb_eq. Defined.
#[refine] Definition bool_zero : zero_test bool_v := ZeroTest negb _.
Proof. by intros []. Defined.
#[refine] Definition int_zero w : zero_test (int_v w) := ZeroTest (λ z, z =? 0) _.
Proof. intros z. apply Z.eqb_eq. Defined.
#[refine] Definition list_zero {A} (c : vcodec A) : zero_test (list_v c) :=
  ZeroTest (λ l, match l with [] => true | _ => false end) _.
Proof. by intros []. Defined.

Definition string_f : codec string := omitempty string_zero.
Definition bool_f : codec bool := omitempty bool_zero.
Definition int_f (w : Z) : codec Z := omitempty (int_zero w).
Definition list_f {A} (c : vcodec A) : codec (list A) := omitempty (list_zero c).

(** A slice without [omitempty]: a nil slice is null. *)
#[refine] Definition slice_f {A} (c : vcodec A) : codec (list A) :=
  Codec (λ l, match l with [] => Some JNull | _ => Some (to_json (list_v c) l) end)
    (dec (required (list_v c))) [] (Forall (vgood c)) (map (vcanon c)) _.
Proof. intros [|a l] Hl; [done|]. exact (dec_enc (required (list_v c)) (a :: l) Hl). Defined.

(** A pointer with [omitempty]. *)
#[refine] Definition pointer_f {A} (c : vcodec A) : codec (option A) :=
  Codec (λ o, to_json c <$> o)
    (λ o, match o with
          | None | Some JNull => Ok None
          | Some j => match of_json c j with Ok a => Ok (Some a) | Err e => Err e end
          end) None (λ o, ∀ a, o = Some a → vgood c a) (fmap (vcanon c)) _.
Proof.
  intros [a|] Ha; [|done]. specialize (Ha a eq_refl). simpl.
  pose proof (to_json_not_null c a Ha). pose proof (of_to_json c a Ha) as Hr.
  destruct (to_json c a); try done; by rewrite Hr.
Defined.

(** A map with [omitempty]: nil and empty maps are absent, so an empty map comes
    back nil. *)
#[refine] Definition map_f {A} (c : vcodec A) : codec (gomap A) :=
  Codec (λ o, match o with
              | Some m => if bool_decide (m = ∅) then None else Some (to_json (map_v c) m)
              | None => None
              end)
    (dec (pointer_f (map_v c))) None (λ o, ∀ m, o = Some m → vgood (map_v c) m)
    (λ o, non_empty (match o with Some m => Some (vcanon c <$> m) | None => None end)) _.
Proof.
  intros [m|] Hm; [|done]. specialize (Hm m eq_refl). simpl. case_bool_decide as E.
  - subst m. rewrite fmap_empty. by rewrite decide_True.
  - pose proof (of_to_json (map_v c) m Hm) as Hd. cbn in Hd. rewrite Hd.
    rewrite decide_False; [done|]. intros H'. apply E. by apply fmap_empty_iff in H'.
Defined.

(** ** Structs *)

(** A tagged field of a struct type [A]. *)
Record tag (A B : Type) := Tag { t_key : string; t_get : A → B; t_codec : codec B }.
Arguments Tag {A B}.
Arguments t_key {A B} _.
Arguments t_get {A B} _ _.
Arguments t_codec {A B} _.

(** The first fields of a struct [A], whose constructor then still has the type [R]. *)
Record part (A R : Type) := Part {
  p_fields : A → fields;
  p_decode : (string → option json) → res R;
  p_zero : R;
  p_good : A → Prop;
  p_canon : A → R;
  p_round : ∀ a f, p_good a → (∀ k o, (k, o) ∈ p_fields a → f k = o) →
    p_decode f = Ok (p_canon a)
}.
Arguments Part {A R}.
Arguments p_fields {A R} _ _.
Arguments p_decode {A R} _ _.
Arguments p_zero {A R} _.
Arguments p_good {A R} _ _.
Arguments p_canon {A R} _ _.
Arguments p_round {A R} _ _ _ _ _.

#[refine] Definition constructor_of {R} (A : Type) (build : R) : part A R :=
  Part (λ _, []) (λ _, Ok build) build (λ _, True) (λ _, build) _.
Proof. done. Defined.

#[refine] Definition and_tag {A B R} (p : part A (B → R)) (t : tag A B) : part A R :=
  Part (λ a, p_fields p a ++ [(t_key t, enc (t_codec t) (t_get t a))])
    (λ f, build ← p_decode p f; b ← dec (t_codec t) (f (t_key t)); Ok (build b))
    (p_zero p (fzero (t_codec t)))
    (λ a, p_good p a ∧ good (t_codec t) (t_get t a))
    (λ a, p_canon p a (canon (t_codec t) (t_get t a))) _.
Proof.
  intros a f [Hp Hc] Hf. rewrite (p_round p a f Hp) by set_solver. cbn.
  rewrite (Hf _ (enc (t_codec t) (t_get t a))) by set_solver. by rewrite dec_enc.
Defined.

Declare Scope tag_scope.
Delimit Scope tag_scope with tags.
Notation "p ⊛ t" := (and_tag p t) (at level 50, left associativity) : tag_scope.

(** A struct type with all its fields, under distinct keys. *)
#[refine] Definition struct_v {A} (p : part A A)
    (Hkeys : ∀ a, NoDupb (map fst (p_fields p a)) = true) : vcodec A :=
  VCodec (λ a, obj_of (p_fields p a))
    (λ j, match j with JObj l => p_decode p (λ k, get k l) | _ => Err type_error end)
    (p_zero p) (p_good p) (p_canon p) _ _.
Proof.
  - done.
  - intros a Ha. apply (p_round p a); [done|]. intros k o. by apply get_present.
Defined.
