(* ===== verification/SidekickJson.v ===== *)
(** * The Sidekick resource as JSON ([apis/apps/v1alpha1/sidekick_types.go])

    The struct tags of the Sidekick types, field by field: the JSON name, whether
    the field is a pointer and whether it is omitted when empty.  Values of library
    types the operator only passes on are kept as trees, and the text of a
    [metav1.Time] is an interface.  The round trip shows what a stored resource
    looks like when it is read back: empty maps have become nil and nothing else
    has changed. *)

From S2P Require Import Prelude Types Json Server.

Open Scope tag_scope.

(** ** Library types *)

(** [metav1.LabelSelectorRequirement]. *)
Definition LabelSelectorRequirement_fields : part LabelSelectorRequirement LabelSelectorRequirement :=
  (constructor_of LabelSelectorRequirement Build_LabelSelectorRequirement
   ⊛ Tag "key" lsr_Key (required string_v)
   ⊛ Tag "operator" lsr_Operator (required string_v)
   ⊛ Tag "values" lsr_Values (list_f string_v))%tags.
Definition LabelSelectorRequirement_v : vcodec LabelSelectorRequirement := struct_v LabelSelectorRequirement_fields (λ _, eq_refl).

(** [metav1.LabelSelector]. *)
Definition LabelSelector_fields : part LabelSelector LabelSelector :=
  (constructor_of LabelSelector Build_LabelSelector
   ⊛ Tag "matchLabels" MatchLabels (map_f string_v)
   ⊛ Tag "matchExpressions" MatchExpressions (list_f LabelSelectorRequirement_v))%tags.
Definition LabelSelector_v : vcodec LabelSelector := struct_v LabelSelector_fields (λ _, eq_refl).

(** [core.EnvVar]. *)
Definition EnvVar_fields : part EnvVar EnvVar :=
  (constructor_of EnvVar Build_EnvVar
   ⊛ Tag "name" env_Name (required string_v)
   ⊛ Tag "value" env_Value string_f
   ⊛ Tag "valueFrom" env_ValueFrom (pointer_f (opaque_v JNull)))%tags.
Definition EnvVar_v : vcodec EnvVar := struct_v EnvVar_fields (λ _, eq_refl).

(** [metav1.OwnerReference]. *)
Definition OwnerReference_fields : part OwnerReference OwnerReference :=
  (constructor_of OwnerReference Build_OwnerReference
   ⊛ Tag "apiVersion" or_APIVersion (required string_v)
   ⊛ Tag "kind" or_Kind (required string_v)
   ⊛ Tag "name" or_Name (required string_v)
   ⊛ Tag "uid" or_UID (required string_v)
   ⊛ Tag "controller" or_Controller (pointer_f bool_v)
   ⊛ Tag "blockOwnerDeletion" or_BlockOwnerDeletion (pointer_f bool_v))%tags.
Definition OwnerReference_v : vcodec OwnerReference := struct_v OwnerReference_fields (λ _, eq_refl).

(** [core.Volume]: its source is an inlined field. *)
Definition Volume_fields (v : Volume) : fields :=
  ("name", Some (JStr (vol_Name v))) ::
  match vol_Source v with Some (k, j) => [(k, Some j)] | None => [] end.

Definition Volume_of (l : list (string * json)) : res Volume :=
  n ← dec (required string_v) (get "name" l);
  Ok {| vol_Name := n; vol_Source := List.find (λ kv, negb (String.eqb kv.1 "name")) l |}.

#[refine] Definition Volume_v : vcodec Volume :=
  VCodec (λ v, obj_of (Volume_fields v))
    (λ j, match j with JObj l => Volume_of l | _ => Err type_error end)
    {| vol_Name := ""; vol_Source := None |}
    (λ v, ∀ k j, vol_Source v = Some (k, j) → k ≠ "name") id _ _.
Proof.
  - done.
  - intros [n [[k j]|]] Hk; [|done]. specialize (Hk k j eq_refl).
    assert (E1 : ("name" =? k)%string = false) by (apply String.eqb_neq; congruence).
    assert (E2 : (k =? "name")%string = false) by by apply String.eqb_neq.
    unfold obj_of, Volume_fields, Volume_of. cbn -[String.eqb]. rewrite E1, E2. reflexivity.
Defined.

(** An empty map is taken for nil. *)
Definition non_empty_list (j : json) : json := match j with JObj [] => JNull | j => j end.

(** [core.ResourceList] with [omitempty]: the map of quantities is kept as it is. *)
#[refine] Definition overhead_f : codec json :=
  Codec (λ j, match j with JNull | JObj [] => None | j => Some j end)
    (λ o, match o with
          | None | Some JNull => Ok JNull
          | Some (JObj l) => Ok (JObj l)
          | Some _ => Err type_error
          end) JNull
    (λ j, match j with JNull | JObj _ => True | _ => False end) non_empty_list _.
Proof. by intros [| | | | |[]]. Defined.

(** ** The types of the resource *)

(** [LeaderSpec]. *)
Definition LeaderSpec_fields : part LeaderSpec LeaderSpec :=
  (constructor_of LeaderSpec Build_LeaderSpec
   ⊛ Tag "name" ls_Name string_f
   ⊛ Tag "selector" ls_Selector (pointer_f LabelSelector_v)
   ⊛ Tag "selectionPolicy" ls_SelectionPolicy string_f)%tags.
Definition LeaderSpec_v : vcodec LeaderSpec := struct_v LeaderSpec_fields (λ _, eq_refl).

(** [VolumeMount]. *)
Definition VolumeMount_fields : part VolumeMount VolumeMount :=
  (constructor_of VolumeMount Build_VolumeMount
   ⊛ Tag "name" vm_Name (required string_v)
   ⊛ Tag "readOnly" vm_ReadOnly bool_f
   ⊛ Tag "mountPath" vm_MountPath string_f
   ⊛ Tag "subPath" vm_SubPath string_f
   ⊛ Tag "mountPropagation" vm_MountPropagation (pointer_f string_v)
   ⊛ Tag "subPathExpr" vm_SubPathExpr string_f)%tags.
Definition VolumeMount_v : vcodec VolumeMount := struct_v VolumeMount_fields (λ _, eq_refl).

(** [Container]. *)
Definition Container_fields : part Container Container :=
  (constructor_of Container Build_Container
   ⊛ Tag "name" c_Name (required string_v)
   ⊛ Tag "image" c_Image string_f
   ⊛ Tag "command" c_Command (list_f string_v)
   ⊛ Tag "args" c_Args (list_f string_v)
   ⊛ Tag "workingDir" c_WorkingDir string_f
   ⊛ Tag "ports" c_Ports (list_f (opaque_v JNull))
   ⊛ Tag "envFrom" c_EnvFrom (list_f (opaque_v JNull))
   ⊛ Tag "env" c_Env (list_f EnvVar_v)
   ⊛ Tag "resources" c_Resources (required (opaque_v (JObj [])))
   ⊛ Tag "volumeMounts" c_VolumeMounts (list_f VolumeMount_v)
   ⊛ Tag "volumeDevices" c_VolumeDevices (list_f (opaque_v JNull))
   ⊛ Tag "livenessProbe" c_LivenessProbe (pointer_f (opaque_v JNull))
   ⊛ Tag "readinessProbe" c_ReadinessProbe (pointer_f (opaque_v JNull))
   ⊛ Tag "startupProbe" c_StartupProbe (pointer_f (opaque_v JNull))
   ⊛ Tag "lifecycle" c_Lifecycle (pointer_f (opaque_v JNull))
   ⊛ Tag "terminationMessagePath" c_TerminationMessagePath string_f
   ⊛ Tag "terminationMessagePolicy" c_TerminationMessagePolicy string_f
   ⊛ Tag "imagePullPolicy" c_ImagePullPolicy string_f
   ⊛ Tag "securityContext" c_SecurityContext (pointer_f (opaque_v JNull))
   ⊛ Tag "stdin" c_Stdin bool_f
   ⊛ Tag "stdinOnce" c_StdinOnce bool_f
   ⊛ Tag "tty" c_TTY bool_f)%tags.
Definition Container_v : vcodec Container := struct_v Container_fields (λ _, eq_refl).

(** [SidekickSpec]: the leader, the containers and the scheduling fields up to
    [imagePullSecrets]. *)
Definition SidekickSpec_fields_1 : part SidekickSpec _ :=
  (constructor_of SidekickSpec Build_SidekickSpec
   ⊛ Tag "leader" sp_Leader (required LeaderSpec_v)
   ⊛ Tag "initContainers" sp_InitContainers (list_f Container_v)
   ⊛ Tag "containers" sp_Containers (slice_f Container_v)
   ⊛ Tag "ephemeralContainers" sp_EphemeralContainers (list_f (opaque_v JNull))
   ⊛ Tag "restartPolicy" sp_RestartPolicy string_f
   ⊛ Tag "backoffLimit" sp_BackoffLimit (pointer_f (int_v 32))
   ⊛ Tag "terminationGracePeriodSeconds" sp_TerminationGracePeriodSeconds (pointer_f (int_v 64))
   ⊛ Tag "activeDeadlineSeconds" sp_ActiveDeadlineSeconds (pointer_f (int_v 64))
   ⊛ Tag "dnsPolicy" sp_DNSPolicy string_f
   ⊛ Tag "nodeSelector" sp_NodeSelector (map_f string_v)
   ⊛ Tag "serviceAccountName" sp_ServiceAccountName string_f
   ⊛ Tag "serviceAccount" sp_DeprecatedServiceAccount string_f
   ⊛ Tag "automountServiceAccountToken" sp_AutomountServiceAccountToken (pointer_f bool_v)
   ⊛ Tag "nodeName" sp_NodeName string_f
   ⊛ Tag "hostNetwork" sp_HostNetwork bool_f
   ⊛ Tag "hostPID" sp_HostPID bool_f
   ⊛ Tag "hostIPC" sp_HostIPC bool_f
   ⊛ Tag "shareProcessNamespace" sp_ShareProcessNamespace (pointer_f bool_v)
   ⊛ Tag "securityContext" sp_SecurityContext (pointer_f (opaque_v JNull))
   ⊛ Tag "imagePullSecrets" sp_ImagePullSecrets (list_f (opaque_v JNull)))%tags.

(** [SidekickSpec]: the fields from [hostname] on. *)
Definition SidekickSpec_fields : part SidekickSpec SidekickSpec :=
  (SidekickSpec_fields_1
   ⊛ Tag "hostname" sp_Hostname string_f
   ⊛ Tag "subdomain" sp_Subdomain string_f
   ⊛ Tag "affinity" sp_Affinity (pointer_f (opaque_v JNull))
   ⊛ Tag "schedulerName" sp_SchedulerName string_f
   ⊛ Tag "tolerations" sp_Tolerations (list_f (opaque_v JNull))
   ⊛ Tag "hostAliases" sp_HostAliases (list_f (opaque_v JNull))
   ⊛ Tag "priorityClassName" sp_PriorityClassName string_f
   ⊛ Tag "priority" sp_Priority (pointer_f (int_v 32))
   ⊛ Tag "dnsConfig" sp_DNSConfig (pointer_f (opaque_v JNull))
   ⊛ Tag "readinessGates" sp_ReadinessGates (list_f (opaque_v JNull))
   ⊛ Tag "runtimeClassName" sp_RuntimeClassName (pointer_f string_v)
   ⊛ Tag "enableServiceLinks" sp_EnableServiceLinks (pointer_f bool_v)
   ⊛ Tag "preemptionPolicy" sp_PreemptionPolicy (pointer_f string_v)
   ⊛ Tag "overhead" sp_Overhead overhead_f
   ⊛ Tag "topologySpreadConstraints" sp_TopologySpreadConstraints (list_f (opaque_v JNull))
   ⊛ Tag "setHostnameAsFQDN" sp_SetHostnameAsFQDN (pointer_f bool_v)
   ⊛ Tag "os" sp_OS (pointer_f (opaque_v JNull))
   ⊛ Tag "hostUsers" sp_HostUsers (pointer_f bool_v)
   ⊛ Tag "volumes" sp_Volumes (list_f Volume_v)
   ⊛ Tag "distributed" sp_Distributed bool_f
   ⊛ Tag "extraArgs" sp_ExtraArgs (map_f (opaque_v JNull)))%tags.
Definition SidekickSpec_v : vcodec SidekickSpec := struct_v SidekickSpec_fields (λ _, eq_refl).

(** [LeaderStatus]. *)
Definition LeaderStatus_fields : part LeaderStatus LeaderStatus :=
  (constructor_of LeaderStatus Build_LeaderStatus
   ⊛ Tag "name" lst_Name string_f)%tags.
Definition LeaderStatus_v : vcodec LeaderStatus := struct_v LeaderStatus_fields (λ _, eq_refl).

(** [SidekickStatus]. *)
Definition SidekickStatus_fields : part SidekickStatus SidekickStatus :=
  (constructor_of SidekickStatus Build_SidekickStatus
   ⊛ Tag "leader" st_Leader (required LeaderStatus_v)
   ⊛ Tag "pod" st_Pod string_f
   ⊛ Tag "phase" st_Phase string_f
   ⊛ Tag "observedGeneration" st_ObservedGeneration (int_f 64)
   ⊛ Tag "conditions" st_Conditions (list_f (opaque_v JNull))
   ⊛ Tag "containerRestartCountsPerPod" st_ContainerRestartCountsPerPod (map_f (int_v 32))
   ⊛ Tag "failureCount" st_FailureCount (map_f bool_v))%tags.
Definition SidekickStatus_v : vcodec SidekickStatus := struct_v SidekickStatus_fields (λ _, eq_refl).

(** ** The resource *)

Section Sidekick.

(** The text of a [metav1.Time]. *)
Context (time_v : vcodec Z).

(** [metav1.ObjectMeta], the fields the operator reads or writes. *)
Definition ObjectMeta_fields : part ObjectMeta ObjectMeta :=
  (constructor_of ObjectMeta Build_ObjectMeta
   ⊛ Tag "name" Name string_f
   ⊛ Tag "generateName" GenerateName string_f
   ⊛ Tag "namespace" Namespace string_f
   ⊛ Tag "uid" UID string_f
   ⊛ Tag "generation" Generation (int_f 64)
   ⊛ Tag "deletionTimestamp" DeletionTimestamp (pointer_f time_v)
   ⊛ Tag "labels" Labels (map_f string_v)
   ⊛ Tag "annotations" Annotations (map_f string_v)
   ⊛ Tag "ownerReferences" OwnerReferences (list_f OwnerReference_v)
   ⊛ Tag "finalizers" Finalizers (list_f string_v))%tags.
Definition ObjectMeta_v : vcodec ObjectMeta := struct_v ObjectMeta_fields (λ _, eq_refl).

(** [Sidekick]: the inlined type, which the encoder fills in and the decoder
    drops, the metadata, the spec and the status. *)
Definition Sidekick_fields : part Sidekick Sidekick :=
  (constructor_of Sidekick (λ _ _, Build_Sidekick)
   ⊛ Tag "kind" (λ _, "Sidekick") string_f
   ⊛ Tag "apiVersion" (λ _, "apps.k8s.appscode.com/v1alpha1") string_f
   ⊛ Tag "metadata" sk_Meta (required ObjectMeta_v)
   ⊛ Tag "spec" sk_Spec (required SidekickSpec_v)
   ⊛ Tag "status" sk_Status (required SidekickStatus_v))%tags.
Definition Sidekick_v : vcodec Sidekick := struct_v Sidekick_fields (λ _, eq_refl).

(** ** What a round trip changes *)

(** Empty maps are not written, so they come back nil. *)
Definition normalize_selector (s : LabelSelector) : LabelSelector :=
  {| MatchLabels := non_empty (MatchLabels s); MatchExpressions := MatchExpressions s |}.

Definition normalize_leader (l : LeaderSpec) : LeaderSpec :=
  {| ls_Name := ls_Name l; ls_Selector := normalize_selector <$> ls_Selector l;
     ls_SelectionPolicy := ls_SelectionPolicy l |}.

Definition normalize_spec (s : SidekickSpec) : SidekickSpec :=
  {| sp_Leader := normalize_leader (sp_Leader s);
     sp_InitContainers := sp_InitContainers s;
     sp_Containers := sp_Containers s;
     sp_EphemeralContainers := sp_EphemeralContainers s;
     sp_RestartPolicy := sp_RestartPolicy s;
     sp_BackoffLimit := sp_BackoffLimit s;
     sp_TerminationGracePeriodSeconds := sp_TerminationGracePeriodSeconds s;
     sp_ActiveDeadlineSeconds := sp_ActiveDeadlineSeconds s;
     sp_DNSPolicy := sp_DNSPolicy s;
     sp_NodeSelector := non_empty (sp_NodeSelector s);
     sp_ServiceAccountName := sp_ServiceAccountName s;
     sp_DeprecatedServiceAccount := sp_DeprecatedServiceAccount s;
     sp_AutomountServiceAccountToken := sp_AutomountServiceAccountToken s;
     sp_NodeName := sp_NodeName s;
     sp_HostNetwork := sp_HostNetwork s;
     sp_HostPID := sp_HostPID s;
     sp_HostIPC := sp_HostIPC s;
     sp_ShareProcessNamespace := sp_ShareProcessNamespace s;
     sp_SecurityContext := sp_SecurityContext s;
     sp_ImagePullSecrets := sp_ImagePullSecrets s;
     sp_Hostname := sp_Hostname s;
     sp_Subdomain := sp_Subdomain s;
     sp_Affinity := sp_Affinity s;
     sp_SchedulerName := sp_SchedulerName s;
     sp_Tolerations := sp_Tolerations s;
     sp_HostAliases := sp_HostAliases s;
     sp_PriorityClassName := sp_PriorityClassName s;
     sp_Priority := sp_Priority s;
     sp_DNSConfig := sp_DNSConfig s;
     sp_ReadinessGates := sp_ReadinessGates s;
     sp_RuntimeClassName := sp_RuntimeClassName s;
     sp_EnableServiceLinks := sp_EnableServiceLinks s;
     sp_PreemptionPolicy := sp_PreemptionPolicy s;
     sp_Overhead := non_empty_list (sp_Overhead s);
     sp_TopologySpreadConstraints := sp_TopologySpreadConstraints s;
     sp_SetHostnameAsFQDN := sp_SetHostnameAsFQDN s;
     sp_OS := sp_OS s;
     sp_HostUsers := sp_HostUsers s;
     sp_Volumes := sp_Volumes s;
     sp_Distributed := sp_Distributed s;
     sp_ExtraArgs := non_empty (sp_ExtraArgs s) |}.

(** Timestamps lose what their text does not hold. *)
Definition normalize_meta (m : ObjectMeta) : ObjectMeta :=
  {| Name := Name m; GenerateName := GenerateName m; Namespace := Namespace m; UID := UID m;
     Generation := Generation m; DeletionTimestamp := vcanon time_v <$> DeletionTimestamp m;
     Labels := non_empty (Labels m); Annotations := non_empty (Annotations m);
     OwnerReferences := OwnerReferences m; Finalizers := Finalizers m |}.

Definition normalize (s : Sidekick) : Sidekick :=
  {| sk_Meta := normalize_meta (sk_Meta s); sk_Spec := normalize_spec (sk_Spec s);
     sk_Status := norm_status (sk_Status s) |}.

End Sidekick.

(** Codecs that give back the very value. *)
Definition exact {A} (c : codec A) : Prop := ∀ a, canon c a = a.
Definition vexact {A} (c : vcodec A) : Prop := ∀ a, vcanon c a = a.

Lemma list_exact {A} (c : vcodec A) : vexact c → vexact (list_v c).
Proof. intros H l. simpl. induction l as [|a l IH]; simpl; [done|]. by rewrite H, IH. Qed.
Lemma list_f_exact {A} (c : vcodec A) : vexact c → exact (list_f c).
Proof. intros H. exact (list_exact c H). Qed.
Lemma slice_f_exact {A} (c : vcodec A) : vexact c → exact (slice_f c).
Proof. intros H. exact (list_exact c H). Qed.
Lemma pointer_f_exact {A} (c : vcodec A) : vexact c → exact (pointer_f c).
Proof. intros H [a|]; simpl; [by rewrite H|done]. Qed.
Lemma pointer_f_canon {A} (c : vcodec A) g o :
  (∀ a, vcanon c a = g a) → canon (pointer_f c) o = g <$> o.
Proof. intros H. destruct o as [a|]; simpl; [by rewrite H|done]. Qed.
Lemma required_exact {A} (c : vcodec A) : vexact c → exact (required c).
Proof. intros H a. apply H. Qed.

(** A field map keeps its entries, an empty one becomes nil. *)
Lemma map_f_canon {A} (c : vcodec A) m : vexact c → canon (map_f c) m = non_empty m.
Proof.
  intros H. destruct m as [m|]; [|done]. cbn [canon map_f]. f_equal. f_equal.
  rewrite <- (map_fmap_id m) at 2. apply map_fmap_ext. intros k a _. apply H.
Qed.

Lemma string_exact : vexact string_v. Proof. done. Qed.
Lemma bool_exact : vexact bool_v. Proof. done. Qed.
Lemma int_exact w : vexact (int_v w). Proof. done. Qed.
Lemma opaque_exact z : vexact (opaque_v z). Proof. done. Qed.
Lemma Volume_exact : vexact Volume_v. Proof. done. Qed.

Create HintDb exact_db.
#[export] Hint Resolve list_exact list_f_exact slice_f_exact pointer_f_exact required_exact
  string_exact bool_exact int_exact opaque_exact Volume_exact : exact_db.

(** The canonical form of a struct, field by field. *)
Lemma struct_canon {A} (p : part A A) H a : vcanon (struct_v p H) a = p_canon p a.
Proof. done. Qed.
Lemma tag_canon {A B R} (p : part A (B → R)) k get c a :
  p_canon (p ⊛ Tag k get c) a = p_canon p a (canon c (get a)).
Proof. done. Qed.
Lemma new_canon {A R} (build : R) (a : A) : p_canon (constructor_of A build) a = build.
Proof. done. Qed.
Ltac exact_field :=
  match goal with
  | |- canon (map_f ?c) _ = _ => refine (map_f_canon c _ _); solve [auto with exact_db]
  | |- canon ?c _ = _ => first [refine ((_ : exact c) _); solve [done|auto 6 with exact_db]|idtac]
  | _ => idtac
  end.
Ltac exact_fields v p :=
  unfold v, p; rewrite struct_canon, ?tag_canon, new_canon; f_equal; exact_field.

Lemma LabelSelectorRequirement_exact : vexact LabelSelectorRequirement_v.
Proof. intros []. exact_fields LabelSelectorRequirement_v LabelSelectorRequirement_fields. Qed.
Lemma EnvVar_exact : vexact EnvVar_v.
Proof. intros []. exact_fields EnvVar_v EnvVar_fields. Qed.
Lemma OwnerReference_exact : vexact OwnerReference_v.
Proof. intros []. exact_fields OwnerReference_v OwnerReference_fields. Qed.
Lemma VolumeMount_exact : vexact VolumeMount_v.
Proof. intros []. exact_fields VolumeMount_v VolumeMount_fields. Qed.
Lemma LeaderStatus_exact : vexact LeaderStatus_v.
Proof. intros []. exact_fields LeaderStatus_v LeaderStatus_fields. Qed.
#[export] Hint Resolve LabelSelectorRequirement_exact EnvVar_exact OwnerReference_exact
  VolumeMount_exact LeaderStatus_exact : exact_db.
Lemma Container_exact : vexact Container_v.
Proof. intros []. exact_fields Container_v Container_fields. Qed.
#[export] Hint Resolve Container_exact : exact_db.

Lemma LabelSelector_canon s : vcanon LabelSelector_v s = normalize_selector s.
Proof. destruct s. unfold normalize_selector. exact_fields LabelSelector_v LabelSelector_fields. Qed.

Lemma LeaderSpec_canon l : vcanon LeaderSpec_v l = normalize_leader l.
Proof.
  unfold normalize_leader. exact_fields LeaderSpec_v LeaderSpec_fields.
  apply pointer_f_canon, LabelSelector_canon.
Qed.

Lemma SidekickSpec_canon s : vcanon SidekickSpec_v s = normalize_spec s.
Proof.
  unfold normalize_spec, SidekickSpec_v, SidekickSpec_fields.
  exact_fields SidekickSpec_fields_1 SidekickSpec_fields_1. apply LeaderSpec_canon.
Qed.

Lemma SidekickStatus_canon s : vcanon SidekickStatus_v s = norm_status s.
Proof.
  destruct s as [[n] p ph g c m f]. unfold norm_status, set_FailureCount, set_RestartCounts.
  exact_fields SidekickStatus_v SidekickStatus_fields.
Qed.

Lemma ObjectMeta_canon tv m : vcanon (ObjectMeta_v tv) m = normalize_meta tv m.
Proof. unfold normalize_meta. exact_fields ObjectMeta_v ObjectMeta_fields. Qed.

(** C25. A Sidekick written to the API server and read back is the same resource,
    except that maps that were empty are nil: the node selector, the extra
    arguments, the overhead, the labels of the leader's selector, the labels and
    annotations, and the two counters of the status. *)
Theorem sidekick_json_roundtrip tv s :
  vgood (Sidekick_v tv) s →
  of_json (Sidekick_v tv) (to_json (Sidekick_v tv) s) = Ok (normalize tv s).
Proof.
  intros Hg. rewrite of_to_json by done. f_equal. unfold normalize.
  exact_fields Sidekick_v Sidekick_fields; simpl.
  - apply ObjectMeta_canon.
  - apply SidekickSpec_canon.
  - apply SidekickStatus_canon.
Qed.
