(* ===== verification/Schema.v ===== *)
(** * OpenAPI schemas

    The part of [spec.Schema] and [common.OpenAPIDefinition] (kube-openapi) that
    the published definitions use, and what it means for a JSON tree to conform to
    a schema.  Descriptions are left out. *)

From S2P Require Import Prelude Types Json.

#[local] Set Warnings "-register-all".

(** ** Schemas *)

(** An empty type stands for none.  [s_v2] is the value of the extension
    [x-kubernetes-v2-schema], which is itself a schema. *)
Inductive schema := Schema {
  s_type : string;
  s_format : string;
  s_ref : option string;
  s_default : option json;
  s_enum : list string;
  s_items : option schema;
  s_additional : option schema;
  s_properties : list (string * schema);
  s_required : list string;
  s_extensions : list (string * json);
  s_one_of : list schema;
  s_v2 : option schema
}.

Record definition := { def_schema : schema; def_dependencies : list string }.

Definition typed (t f : string) : schema :=
  {| s_type := t; s_format := f; s_ref := None; s_default := None;
     s_enum := []; s_items := None; s_additional := None;
     s_properties := []; s_required := [];
     s_extensions := []; s_one_of := []; s_v2 := None |}.
Definition reference (r : string) : schema :=
  {| s_type := ""; s_format := ""; s_ref := Some r; s_default := None;
     s_enum := []; s_items := None; s_additional := None;
     s_properties := []; s_required := [];
     s_extensions := []; s_one_of := []; s_v2 := None |}.
Definition array_of (s : schema) : schema :=
  {| s_type := "array"; s_format := ""; s_ref := None; s_default := None;
     s_enum := []; s_items := Some s; s_additional := None;
     s_properties := []; s_required := [];
     s_extensions := []; s_one_of := []; s_v2 := None |}.
Definition map_of (s : schema) : schema :=
  {| s_type := "object"; s_format := ""; s_ref := None; s_default := None;
     s_enum := []; s_items := None; s_additional := Some s;
     s_properties := []; s_required := [];
     s_extensions := []; s_one_of := []; s_v2 := None |}.
Definition object_of (ps : list (string * schema)) (req : list string) : schema :=
  {| s_type := "object"; s_format := ""; s_ref := None; s_default := None;
     s_enum := []; s_items := None; s_additional := None;
     s_properties := ps; s_required := req;
     s_extensions := []; s_one_of := []; s_v2 := None |}.
Definition one_of_types (ts : list schema) (f : string) : schema :=
  {| s_type := ""; s_format := f; s_ref := None; s_default := None;
     s_enum := []; s_items := None; s_additional := None;
     s_properties := []; s_required := [];
     s_extensions := []; s_one_of := ts; s_v2 := None |}.
Definition with_default (d : json) (s : schema) : schema :=
  {| s_type := s_type s; s_format := s_format s; s_ref := s_ref s;
     s_default := Some d; s_enum := s_enum s; s_items := s_items s;
     s_additional := s_additional s; s_properties := s_properties s; s_required := s_required s;
     s_extensions := s_extensions s; s_one_of := s_one_of s; s_v2 := s_v2 s |}.
Definition with_enum (e : list string) (s : schema) : schema :=
  {| s_type := s_type s; s_format := s_format s; s_ref := s_ref s;
     s_default := s_default s; s_enum := e; s_items := s_items s;
     s_additional := s_additional s; s_properties := s_properties s; s_required := s_required s;
     s_extensions := s_extensions s; s_one_of := s_one_of s; s_v2 := s_v2 s |}.
Definition with_extensions (x : list (string * json)) (s : schema) : schema :=
  {| s_type := s_type s; s_format := s_format s; s_ref := s_ref s;
     s_default := s_default s; s_enum := s_enum s; s_items := s_items s;
     s_additional := s_additional s; s_properties := s_properties s; s_required := s_required s;
     s_extensions := x; s_one_of := s_one_of s; s_v2 := s_v2 s |}.
Definition with_v2 (v : schema) (s : schema) : schema :=
  {| s_type := s_type s; s_format := s_format s; s_ref := s_ref s;
     s_default := s_default s; s_enum := s_enum s; s_items := s_items s;
     s_additional := s_additional s; s_properties := s_properties s; s_required := s_required s;
     s_extensions := s_extensions s; s_one_of := s_one_of s; s_v2 := Some v |}.

(** [kube-openapi/pkg/common]: a second schema for clients of OpenAPI v2, and the
    alternatives of a union. *)
Definition EmbedOpenAPIDefinitionIntoV2Extension (main embedded : definition) : definition :=
  {| def_schema := with_v2 (def_schema embedded) (def_schema main);
     def_dependencies := def_dependencies main |}.

Definition GenerateOpenAPIV3OneOfSchema (types : list string) : list schema :=
  map (λ t, typed t "") types.

(** ** Conformance *)

(** The value has the type, in the format of integers. *)
Definition type_ok (t f : string) (j : json) : bool :=
  String.eqb t "" ||
  match j with
  | JNull => false
  | JBool _ => String.eqb t "boolean"
  | JNum z => String.eqb t "number" || String.eqb t "integer" &&
              bool_decide (in_int (if String.eqb f "int32" then 32 else 64) z)
  | JStr _ => String.eqb t "string"
  | JArr _ => String.eqb t "array"
  | JObj _ => String.eqb t "object"
  end.

Definition enum_ok (e : list string) (j : json) : bool :=
  match e, j with
  | [], _ => true
  | _, JStr s => existsb (String.eqb s) e
  | _, _ => false
  end.

Definition required_ok (req : list string) (l : list (string * json)) : bool :=
  forallb (λ k, existsb (String.eqb k) (map fst l)) req.

Fixpoint assoc {A} (k : string) (l : list (string * A)) : option A :=
  match l with
  | [] => None
  | (k', a) :: l => if String.eqb k k' then Some a else assoc k l
  end.

(** All results, or none. *)
Fixpoint collect {A} (l : list (option (list A))) : option (list A) :=
  match l with
  | [] => Some []
  | o :: l => a ← o; b ← collect l; Some (a ++ b)
  end.

Section Conformance.

Context (ref : string → string) (defs : list (string * definition)).

(** The definition a reference points to, if it is one of [defs]. *)
Definition resolve (r : string) : option definition :=
  snd <$> List.find (λ kd, String.eqb r (ref kd.1)) defs.

(** [None] when the tree breaks the schema; otherwise the values in it whose schema
    is not among [defs], each with the name of its schema.  A key that is not
    declared breaks the schema.  Every reference, alternative, array and object
    takes one unit of fuel. *)
Fixpoint check (fuel : nat) (s : schema) (j : json) : option (list (string * json)) :=
  match fuel with
  | O => None
  | S n =>
      match s_ref s with
      | Some r =>
          match resolve r with
          | Some d => check n (def_schema d) j
          | None => Some [(r, j)]
          end
      | None =>
          if type_ok (s_type s) (s_format s) j && enum_ok (s_enum s) j &&
             match s_one_of s with
             | [] => true
             | l => Nat.eqb (length (List.filter (λ s, bool_decide (is_Some (check n s j))) l)) 1
             end
          then
            match j with
            | JArr l =>
                match s_items s with
                | Some it => collect (map (check n it) l)
                | None => Some []
                end
            | JObj l =>
                match s_additional s with
                | Some ad => collect (map (λ kv, check n ad kv.2) l)
                | None =>
                    if required_ok (s_required s) l
                    then collect (map (λ kv, p ← assoc kv.1 (s_properties s); check n p kv.2) l)
                    else None
                end
            | _ => Some []
            end
          else None
      end
  end.

Definition conforms (fuel : nat) (s : schema) (j : json) : bool :=
  bool_decide (is_Some (check fuel s j)).

End Conformance.

(** ** What a definition declares *)

Definition properties (d : definition) : list string := map fst (s_properties (def_schema d)).

(** Every schema inside a schema, itself included. *)
Fixpoint sub_schemas (s : schema) : list schema :=
  s :: from_option sub_schemas [] (s_items s) ++ from_option sub_schemas [] (s_additional s) ++
  (fix go l := match l with [] => [] | (_, s) :: l => sub_schemas s ++ go l end) (s_properties s) ++
  (fix go l := match l with [] => [] | s :: l => sub_schemas s ++ go l end) (s_one_of s) ++
  from_option sub_schemas [] (s_v2 s).

(** The schemas directly inside. *)
Definition children (s : schema) : list schema :=
  option_list (s_items s) ++ option_list (s_additional s) ++ map snd (s_properties s) ++
  s_one_of s ++ option_list (s_v2 s).

Lemma sub_schemas_children s : sub_schemas s = s :: concat (map sub_schemas (children s)).
Proof.
  assert (Ho : ∀ o, from_option sub_schemas [] o = concat (map sub_schemas (option_list o))).
  { intros [x|]; [|done]. simpl. by rewrite app_nil_r. }
  assert (Hp : ∀ l : list (string * schema),
    (fix go l := match l with [] => [] | (_, s) :: l => sub_schemas s ++ go l end) l =
    concat (map sub_schemas (map snd l))).
  { induction l as [|[k x] l IH]; [done|]. simpl. by rewrite IH. }
  assert (Hl : ∀ l : list schema,
    (fix go l := match l with [] => [] | s :: l => sub_schemas s ++ go l end) l =
    concat (map sub_schemas l)).
  { induction l as [|x l IH]; [done|]. simpl. by rewrite IH. }
  unfold children. rewrite !map_app, !concat_app, <- !Ho, <- Hp, <- Hl. by destruct s.
Qed.

(** Induction over schemas. *)
Lemma schema_tree_ind (P : schema → Prop) :
  (∀ s, (∀ c, c ∈ children s → P c) → P s) → ∀ s, P s.
Proof.
  intros HP s. remember (length (sub_schemas s)) as n eqn:En. revert s En.
  induction (lt_wf n) as [n _ IH]. intros s ->. apply HP. intros c Hc. eapply IH; [|done].
  rewrite (sub_schemas_children s). simpl. apply Nat.lt_succ_r.
  induction (children s) as [|x l IHl]; [by apply elem_of_nil in Hc|]. simpl. rewrite length_app.
  apply elem_of_cons in Hc as [->|Hc]; [lia|]. specialize (IHl Hc). lia.
Qed.

(** The references in it. *)
Definition schema_refs (s : schema) : list string := omap s_ref (sub_schemas s).

Lemma schema_refs_children s r :
  r ∈ schema_refs s ↔ s_ref s = Some r ∨ ∃ c, c ∈ children s ∧ r ∈ schema_refs c.
Proof.
  unfold schema_refs. rewrite list_elem_of_omap, sub_schemas_children. split.
  - intros (x & [->|Hx]%elem_of_cons & Hr); [by left|right].
    apply list_elem_of_In, in_concat in Hx as (l & Hl & Hx).
    apply in_map_iff in Hl as (c & <- & Hc). exists c. split; [by apply list_elem_of_In|].
    apply list_elem_of_omap. exists x. split; [by apply list_elem_of_In|done].
  - intros [Hr|(c & Hc & (x & Hx & Hr)%list_elem_of_omap)]; [exists s; split; [left|done]|].
    exists x. split; [|done]. right. apply list_elem_of_In, in_concat. exists (sub_schemas c).
    split; [apply in_map|]; by apply list_elem_of_In.
Qed.

Definition same_names (l l' : list string) : bool :=
  forallb (λ r, existsb (String.eqb r) l') l && forallb (λ r, existsb (String.eqb r) l) l'.

Lemma existsb_names r (l : list string) : existsb (String.eqb r) l = true ↔ r ∈ l.
Proof.
  rewrite existsb_exists, list_elem_of_In. split.
  - intros (x & Hx & E). apply String.eqb_eq in E. by subst.
  - intros H. exists r. by rewrite String.eqb_refl.
Qed.

Lemma same_names_spec l l' : same_names l l' = true → ∀ r, r ∈ l ↔ r ∈ l'.
Proof.
  unfold same_names. rewrite andb_true_iff, !forallb_forall. intros [H1 H2] r.
  split; intros H; apply existsb_names; [apply H1|apply H2]; by apply list_elem_of_In.
Qed.
