(* ===== verification/OpenAPI.v ===== *)
(** * The published schemas of this API group ([apis/apps/v1alpha1/openapi_generated.go])

    The OpenAPI definitions of the Sidekick types as the repository publishes
    them.  The schemas of library types, which are published beside these, are in
    the files [Schemas*.v]. *)

From S2P Require Import Prelude Types Json Schema.

(** The schema of [VolumeMount]. *)
Definition schema_VolumeMount (ref : string → string) : definition :=
  {| def_schema := object_of
     ([("name", with_default (JStr "") (typed "string" ""));
      ("readOnly", typed "boolean" "");
      ("mountPath", typed "string" "");
      ("subPath", typed "string" "");
      ("mountPropagation", with_enum ["Bidirectional"; "HostToContainer"; "None"] (typed "string" ""));
      ("subPathExpr", typed "string" "")])
     ["name"];
     def_dependencies := [] |}.

(** The properties of [Container] from [name] to [resources]. *)
Definition schema_Container_1 (ref : string → string) : list (string * schema) :=
  [("name", with_default (JStr "") (typed "string" ""));
   ("image", typed "string" "");
   ("command", array_of (with_default (JStr "") (typed "string" "")));
   ("args", array_of (with_default (JStr "") (typed "string" "")));
   ("workingDir", typed "string" "");
   ("ports", with_extensions [("x-kubernetes-list-map-keys", JArr [JStr "containerPort"; JStr "protocol"]);
        ("x-kubernetes-list-type", JStr "map");
        ("x-kubernetes-patch-merge-key", JStr "containerPort");
        ("x-kubernetes-patch-strategy", JStr "merge")]
       (array_of (with_default (JObj []) (reference (ref "k8s.io/api/core/v1.ContainerPort")))));
   ("envFrom", array_of (with_default (JObj []) (reference (ref "k8s.io/api/core/v1.EnvFromSource"))));
   ("env", with_extensions [("x-kubernetes-patch-merge-key", JStr "name");
        ("x-kubernetes-patch-strategy", JStr "merge")]
       (array_of (with_default (JObj []) (reference (ref "k8s.io/api/core/v1.EnvVar")))));
   ("resources", with_default (JObj []) (reference (ref "k8s.io/api/core/v1.ResourceRequirements")))].

(** The properties of [Container] from [volumeMounts] to [tty]. *)
Definition schema_Container_2 (ref : string → string) : list (string * schema) :=
  [("volumeMounts", with_extensions [("x-kubernetes-patch-merge-key", JStr "mountPath");
        ("x-kubernetes-patch-strategy", JStr "merge")]
       (array_of (with_default (JObj []) (reference (ref "kubeops.dev/sidekick/apis/apps/v1alpha1.VolumeMount")))));
   ("volumeDevices", with_extensions [("x-kubernetes-patch-merge-key", JStr "devicePath");
        ("x-kubernetes-patch-strategy", JStr "merge")]
       (array_of (with_default (JObj []) (reference (ref "k8s.io/api/core/v1.VolumeDevice")))));
   ("livenessProbe", reference (ref "k8s.io/api/core/v1.Probe"));
   ("readinessProbe", reference (ref "k8s.io/api/core/v1.Probe"));
   ("startupProbe", reference (ref "k8s.io/api/core/v1.Probe"));
   ("lifecycle", reference (ref "k8s.io/api/core/v1.Lifecycle"));
   ("terminationMessagePath", typed "string" "");
   ("terminationMessagePolicy", with_enum ["FallbackToLogsOnError"; "File"] (typed "string" ""));
   ("imagePullPolicy", with_enum ["Always"; "IfNotPresent"; "Never"] (typed "string" ""));
   ("securityContext", reference (ref "k8s.io/api/core/v1.SecurityContext"));
   ("stdin", typed "boolean" "");
   ("stdinOnce", typed "boolean" "");
   ("tty", typed "boolean" "")].

(** The schema of [Container]. *)
Definition schema_Container (ref : string → string) : definition :=
  {| def_schema := object_of
     (schema_Container_1 ref ++ schema_Container_2 ref)
     ["name"];
     def_dependencies := ["k8s.io/api/core/v1.ContainerPort";
       "k8s.io/api/core/v1.EnvFromSource";
       "k8s.io/api/core/v1.EnvVar";
       "k8s.io/api/core/v1.Lifecycle";
       "k8s.io/api/core/v1.Probe";
       "k8s.io/api/core/v1.ResourceRequirements";
       "k8s.io/api/core/v1.SecurityContext";
       "k8s.io/api/core/v1.VolumeDevice";
       "kubeops.dev/sidekick/apis/apps/v1alpha1.VolumeMount"] |}.

(** The schema of [LeaderSpec]. *)
Definition schema_LeaderSpec (ref : string → string) : definition :=
  {| def_schema := object_of
     ([("name", typed "string" "");
      ("selector", reference (ref "k8s.io/apimachinery/pkg/apis/meta/v1.LabelSelector"));
      ("selectionPolicy", typed "string" "")])
     [];
     def_dependencies := ["k8s.io/apimachinery/pkg/apis/meta/v1.LabelSelector"] |}.

(** The properties of [SidekickSpec] from [leader] to [serviceAccountName]. *)
Definition schema_SidekickSpec_1 (ref : string → string) : list (string * schema) :=
  [("leader", with_default (JObj []) (reference (ref "kubeops.dev/sidekick/apis/apps/v1alpha1.LeaderSpec")));
   ("initContainers", with_extensions [("x-kubernetes-patch-merge-key", JStr "name");
        ("x-kubernetes-patch-strategy", JStr "merge")]
       (array_of (with_default (JObj []) (reference (ref "kubeops.dev/sidekick/apis/apps/v1alpha1.Container")))));
   ("containers", with_extensions [("x-kubernetes-patch-merge-key", JStr "name");
        ("x-kubernetes-patch-strategy", JStr "merge")]
       (array_of (with_default (JObj []) (reference (ref "kubeops.dev/sidekick/apis/apps/v1alpha1.Container")))));
   ("ephemeralContainers", with_extensions [("x-kubernetes-patch-merge-key", JStr "name");
        ("x-kubernetes-patch-strategy", JStr "merge")]
       (array_of (with_default (JObj []) (reference (ref "k8s.io/api/core/v1.EphemeralContainer")))));
   ("restartPolicy", with_enum ["Always"; "Never"; "OnFailure"] (typed "string" ""));
   ("backoffLimit", typed "integer" "int32");
   ("terminationGracePeriodSeconds", typed "integer" "int64");
   ("activeDeadlineSeconds", typed "integer" "int64");
   ("dnsPolicy", with_enum ["ClusterFirst"; "ClusterFirstWithHostNet"; "Default"; "None"] (typed "string" ""));
   ("nodeSelector", with_extensions [("x-kubernetes-map-type", JStr "atomic")]
       (map_of (with_default (JStr "") (typed "string" ""))));
   ("serviceAccountName", typed "string" "")].

(** The properties of [SidekickSpec] from [serviceAccount] to [tolerations]. *)
Definition schema_SidekickSpec_2 (ref : string → string) : list (string * schema) :=
  [("serviceAccount", typed "string" "");
   ("automountServiceAccountToken", typed "boolean" "");
   ("nodeName", typed "string" "");
   ("hostNetwork", typed "boolean" "");
   ("hostPID", typed "boolean" "");
   ("hostIPC", typed "boolean" "");
   ("shareProcessNamespace", typed "boolean" "");
   ("securityContext", reference (ref "k8s.io/api/core/v1.PodSecurityContext"));
   ("imagePullSecrets", with_extensions [("x-kubernetes-patch-merge-key", JStr "name");
        ("x-kubernetes-patch-strategy", JStr "merge")]
       (array_of (with_default (JObj []) (reference (ref "k8s.io/api/core/v1.LocalObjectReference")))));
   ("hostname", typed "string" "");
   ("subdomain", typed "string" "");
   ("affinity", reference (ref "k8s.io/api/core/v1.Affinity"));
   ("schedulerName", typed "string" "");
   ("tolerations", array_of (with_default (JObj []) (reference (ref "k8s.io/api/core/v1.Toleration"))))].

(** The properties of [SidekickSpec] from [hostAliases] to [hostUsers]. *)
Definition schema_SidekickSpec_3 (ref : string → string) : list (string * schema) :=
  [("hostAliases", with_extensions [("x-kubernetes-patch-merge-key", JStr "ip");
        ("x-kubernetes-patch-strategy", JStr "merge")]
       (array_of (with_default (JObj []) (reference (ref "k8s.io/api/core/v1.HostAlias")))));
   ("priorityClassName", typed "string" "");
   ("priority", typed "integer" "int32");
   ("dnsConfig", reference (ref "k8s.io/api/core/v1.PodDNSConfig"));
   ("readinessGates", array_of (with_default (JObj []) (reference (ref "k8s.io/api/core/v1.PodReadinessGate"))));
   ("runtimeClassName", typed "string" "");
   ("enableServiceLinks", typed "boolean" "");
   ("preemptionPolicy", with_enum ["Never"; "PreemptLowerPriority"] (typed "string" ""));
   ("overhead", map_of (reference (ref "k8s.io/apimachinery/pkg/api/resource.Quantity")));
   ("topologySpreadConstraints", with_extensions [("x-kubernetes-list-map-keys", JArr [JStr "topologyKey"; JStr "whenUnsatisfiable"]);
        ("x-kubernetes-list-type", JStr "map");
        ("x-kubernetes-patch-merge-key", JStr "topologyKey");
        ("x-kubernetes-patch-strategy", JStr "merge")]
       (array_of (with_default (JObj []) (reference (ref "k8s.io/api/core/v1.TopologySpreadConstraint")))));
   ("setHostnameAsFQDN", typed "boolean" "");
   ("os", reference (ref "k8s.io/api/core/v1.PodOS"));
   ("hostUsers", typed "boolean" "")].

(** The properties of [SidekickSpec] from [volumes] to [extraArgs]. *)
Definition schema_SidekickSpec_4 (ref : string → string) : list (string * schema) :=
  [("volumes", with_extensions [("x-kubernetes-patch-merge-key", JStr "name");
        ("x-kubernetes-patch-strategy", JStr "merge,retainKeys")]
       (array_of (with_default (JObj []) (reference (ref "k8s.io/api/core/v1.Volume")))));
   ("distributed", typed "boolean" "");
   ("extraArgs", map_of (reference (ref "k8s.io/apimachinery/pkg/runtime.RawExtension")))].

(** The schema of [SidekickSpec]. *)
Definition schema_SidekickSpec (ref : string → string) : definition :=
  {| def_schema := object_of
     (schema_SidekickSpec_1 ref ++ schema_SidekickSpec_2 ref ++ schema_SidekickSpec_3 ref ++ schema_SidekickSpec_4 ref)
     ["leader"; "containers"];
     def_dependencies := ["k8s.io/api/core/v1.Affinity";
       "k8s.io/api/core/v1.EphemeralContainer";
       "k8s.io/api/core/v1.HostAlias";
       "k8s.io/api/core/v1.LocalObjectReference";
       "k8s.io/api/core/v1.PodDNSConfig";
       "k8s.io/api/core/v1.PodOS";
       "k8s.io/api/core/v1.PodReadinessGate";
       "k8s.io/api/core/v1.PodSecurityContext";
       "k8s.io/api/core/v1.Toleration";
       "k8s.io/api/core/v1.TopologySpreadConstraint";
       "k8s.io/api/core/v1.Volume";
       "k8s.io/apimachinery/pkg/api/resource.Quantity";
       "k8s.io/apimachinery/pkg/runtime.RawExtension";
       "kubeops.dev/sidekick/apis/apps/v1alpha1.Container";
       "kubeops.dev/sidekick/apis/apps/v1alpha1.LeaderSpec"] |}.

(** The schema of [LeaderStatus]. *)
Definition schema_LeaderStatus (ref : string → string) : definition :=
  {| def_schema := object_of
     ([("name", typed "string" "")])
     [];
     def_dependencies := [] |}.

(** The schema of [SidekickStatus]. *)
Definition schema_SidekickStatus (ref : string → string) : definition :=
  {| def_schema := object_of
     ([("leader", with_default (JObj []) (reference (ref "kubeops.dev/sidekick/apis/apps/v1alpha1.LeaderStatus")));
      ("pod", with_enum ["Failed"; "Pending"; "Running"; "Succeeded"; "Unknown"] (typed "string" ""));
      ("phase", typed "string" "");
      ("observedGeneration", typed "integer" "int64");
      ("conditions", array_of (with_default (JObj []) (reference (ref "kmodules.xyz/client-go/api/v1.Condition"))));
      ("containerRestartCountsPerPod", map_of (with_default (JNum 0) (typed "integer" "int32")));
      ("failureCount", map_of (with_default (JBool false) (typed "boolean" "")))])
     [];
     def_dependencies := ["kmodules.xyz/client-go/api/v1.Condition";
       "kubeops.dev/sidekick/apis/apps/v1alpha1.LeaderStatus"] |}.

(** The schema of [Sidekick]. *)
Definition schema_Sidekick (ref : string → string) : definition :=
  {| def_schema := object_of
     ([("kind", typed "string" "");
      ("apiVersion", typed "string" "");
      ("metadata", with_default (JObj []) (reference (ref "k8s.io/apimachinery/pkg/apis/meta/v1.ObjectMeta")));
      ("spec", with_default (JObj []) (reference (ref "kubeops.dev/sidekick/apis/apps/v1alpha1.SidekickSpec")));
      ("status", with_default (JObj []) (reference (ref "kubeops.dev/sidekick/apis/apps/v1alpha1.SidekickStatus")))])
     [];
     def_dependencies := ["k8s.io/apimachinery/pkg/apis/meta/v1.ObjectMeta";
       "kubeops.dev/sidekick/apis/apps/v1alpha1.SidekickSpec";
       "kubeops.dev/sidekick/apis/apps/v1alpha1.SidekickStatus"] |}.

(** The schema of [SidekickList]. *)
Definition schema_SidekickList (ref : string → string) : definition :=
  {| def_schema := object_of
     ([("kind", typed "string" "");
      ("apiVersion", typed "string" "");
      ("metadata", with_default (JObj []) (reference (ref "k8s.io/apimachinery/pkg/apis/meta/v1.ListMeta")));
      ("items", array_of (with_default (JObj []) (reference (ref "kubeops.dev/sidekick/apis/apps/v1alpha1.Sidekick"))))])
     ["items"];
     def_dependencies := ["k8s.io/apimachinery/pkg/apis/meta/v1.ListMeta";
       "kubeops.dev/sidekick/apis/apps/v1alpha1.Sidekick"] |}.

(** [GetOpenAPIDefinitions], the entries of this API group. *)
Definition sidekick_definitions (ref : string → string) : list (string * definition) :=
  [("kubeops.dev/sidekick/apis/apps/v1alpha1.Container", schema_Container ref);
   ("kubeops.dev/sidekick/apis/apps/v1alpha1.LeaderSpec", schema_LeaderSpec ref);
   ("kubeops.dev/sidekick/apis/apps/v1alpha1.LeaderStatus", schema_LeaderStatus ref);
   ("kubeops.dev/sidekick/apis/apps/v1alpha1.Sidekick", schema_Sidekick ref);
   ("kubeops.dev/sidekick/apis/apps/v1alpha1.SidekickList", schema_SidekickList ref);
   ("kubeops.dev/sidekick/apis/apps/v1alpha1.SidekickSpec", schema_SidekickSpec ref);
   ("kubeops.dev/sidekick/apis/apps/v1alpha1.SidekickStatus", schema_SidekickStatus ref);
   ("kubeops.dev/sidekick/apis/apps/v1alpha1.VolumeMount", schema_VolumeMount ref)].
