(* ===== verification/SchemaProps.v ===== *)
(** * Encoded resources against the published schemas

    What the JSON encoding of every Sidekick type makes of the schema published
    for it.  A pair of classes relates a codec and a schema by the values that are
    accepted; instances for the ways types and schemas are put together let the
    relation be found field by field. *)

From S2P Require Import Prelude Types Json Server SidekickJson Schema OpenAPI.

(** ** The checker *)

Lemma collect_some {A} (l : list (option (list A))) :
  bool_decide (is_Some (collect l)) = forallb (λ o, bool_decide (is_Some o)) l.
Proof.
  induction l as [|[a|] l IH]; [done| |done]. cbn [collect forallb].
  rewrite <- IH. by destruct (collect l).
Qed.

Lemma forallb_map {A B} (f : A → B) (p : B → bool) l : forallb p (map f l) = forallb (λ a, p (f a)) l.
Proof. induction l as [|a l IH]; simpl; [done|]. by rewrite IH. Qed.

Section Schema.

Context (ref : string → string) `{Hinj : !Inj (=) (=) ref}.
Abbreviation conforms := (conforms ref (sidekick_definitions ref)).

Lemma resolve_ref k : resolve ref (sidekick_definitions ref) (ref k) = assoc k (sidekick_definitions ref).
Proof.
  assert (H : ∀ l : list (string * definition),
    snd <$> List.find (λ kd, String.eqb (ref k) (ref kd.1)) l = assoc k l); [|apply H].
  induction l as [|[k' d] l IH]; [done|]. cbn [List.find assoc fst].
  destruct (String.eqb_spec (ref k) (ref k')) as [E|E], (String.eqb_spec k k') as [E'|E'];
    [done|by apply (inj ref) in E|by subst|done].
Qed.

Lemma conforms_default n d s j : conforms n (with_default d s) j = conforms n s j.
Proof. by destruct n. Qed.
Lemma conforms_extensions n x s j : conforms n (with_extensions x s) j = conforms n s j.
Proof. by destruct n. Qed.

(** A field against the declared properties. *)
Definition field_ok n ps (kv : string * option json) : bool :=
  match kv.2 with
  | None => true
  | Some j => match assoc kv.1 ps with Some p => conforms n p j | None => false end
  end.

(** The required keys among the fields that are there. *)
Definition present_in (fs : list (string * option json)) (k : string) : bool :=
  existsb (λ kv, String.eqb k kv.1 && match kv.2 with Some _ => true | None => false end) fs.

Lemma required_present req fs : required_ok req (omap present fs) = forallb (present_in fs) req.
Proof.
  induction req as [|k req IH]; [done|]. cbn [required_ok forallb]. fold (required_ok req (omap present fs)).
  rewrite IH. f_equal. clear. induction fs as [|[k' [j|]] fs IH]; [done| |].
  - rewrite omap_present_some. cbn [map existsb present_in fst snd]. by rewrite IH, andb_true_r.
  - rewrite omap_present_none, IH. cbn [present_in existsb fst snd]. by rewrite andb_false_r.
Qed.

Lemma conforms_object n ps req fs :
  conforms (S n) (object_of ps req) (obj_of fs) =
  forallb (present_in fs) req && forallb (field_ok n ps) fs.
Proof.
  rewrite <- required_present.
  unfold Schema.conforms. cbn -[required_ok assoc]. destruct (required_ok req _); [|done]. cbn [andb].
  rewrite collect_some, forallb_map.
  induction fs as [|[k [j|]] fs IH]; [done| |exact IH]. rewrite omap_present_some. cbn [forallb].
  rewrite IH. f_equal. unfold field_ok, Schema.conforms. cbn [fst snd]. by destruct (assoc k ps).
Qed.

(** ** Codecs and schemas *)

(** The values of a type that a schema accepts, from a fuel on. *)
Class Accepts {A} (n : nat) (s : schema) (c : vcodec A) (P : A → bool) : Prop :=
  accepts : ∀ m a, (n ≤ m)%nat → vgood c a → conforms m s (to_json c a) = P a.

(** The same of a field, which may be absent. *)
Class FieldAccepts {A} (n : nat) (s : schema) (c : codec A) (P : A → bool) : Prop :=
  field_accepts : ∀ m a, (n ≤ m)%nat → good c a →
    match enc c a with Some j => conforms m s j = P a | None => P a = true end.

#[export] Instance accepts_default {A} n d s (c : vcodec A) P :
  Accepts n s c P → Accepts n (with_default d s) c P.
Proof. intros H m a Hm Ha. rewrite conforms_default. by apply H. Qed.
#[export] Instance accepts_extensions {A} n x s (c : vcodec A) P :
  Accepts n s c P → Accepts n (with_extensions x s) c P.
Proof. intros H m a Hm Ha. rewrite conforms_extensions. by apply H. Qed.

#[export] Instance accepts_string : Accepts 1 (typed "string" "") string_v (λ _, true).
Proof. by intros [|m] a Hm _; [lia|]. Qed.
#[export] Instance accepts_bool : Accepts 1 (typed "boolean" "") bool_v (λ _, true).
Proof. by intros [|m] a Hm _; [lia|]. Qed.
#[export] Instance accepts_int32 : Accepts 1 (typed "integer" "int32") (int_v 32) (λ _, true).
Proof.
  intros [|m] a Hm Ha; [lia|]. unfold Schema.conforms. cbn -[in_int].
  by rewrite (bool_decide_eq_true_2 _ Ha).
Qed.
#[export] Instance accepts_int64 : Accepts 1 (typed "integer" "int64") (int_v 64) (λ _, true).
Proof.
  intros [|m] a Hm Ha; [lia|]. unfold Schema.conforms. cbn -[in_int].
  by rewrite (bool_decide_eq_true_2 _ Ha).
Qed.
#[export] Instance accepts_enum e es :
  Accepts 1 (with_enum (e :: es) (typed "string" "")) string_v (λ s, existsb (String.eqb s) (e :: es)).
Proof.
  intros [|m] a Hm Ha; [lia|]. unfold Schema.conforms. cbn -[String.eqb existsb].
  by destruct (existsb _ _).
Qed.

(** A schema of a library type is not looked into. *)
Lemma accepts_library {A} k (c : vcodec A) :
  assoc k (sidekick_definitions ref) = None → Accepts 1 (reference (ref k)) c (λ _, true).
Proof.
  intros Hk [|m] a Hm Ha; [lia|]. unfold Schema.conforms. cbn [check s_ref reference].
  by rewrite resolve_ref, Hk.
Qed.
Lemma accepts_reference {A} n k d (c : vcodec A) P :
  assoc k (sidekick_definitions ref) = Some d → Accepts n (def_schema d) c P →
  Accepts (S n) (reference (ref k)) c P.
Proof.
  intros Hk H [|m] a Hm Ha; [lia|]. unfold Schema.conforms. cbn [check s_ref reference].
  rewrite resolve_ref, Hk. apply H; [lia|done].
Qed.

#[export] Instance accepts_array {A} n s (c : vcodec A) P :
  Accepts n s c P → Accepts (S n) (array_of s) (list_v c) (forallb P).
Proof.
  intros H [|m] l Hm Hl; [lia|]. unfold Schema.conforms.
  change (check ref (sidekick_definitions ref) (S m) (array_of s) (to_json (list_v c) l))
    with (collect (map (check ref (sidekick_definitions ref) m s) (map (to_json c) l))). rewrite collect_some, !forallb_map.
  induction Hl as [|a l Ha _ IH]; cbn [forallb]; [done|]. rewrite IH. f_equal. apply H; [lia|done].
Qed.

(** A map, when every value of the type is accepted. *)
#[export] Instance accepts_map {A} n s (c : vcodec A) :
  Accepts n s c (λ _, true) → Accepts (S n) (map_of s) (map_v c) (λ _, true).
Proof.
  intros H [|m] M Hm HM; [lia|]. unfold Schema.conforms. cbn -[map_entries].
  rewrite collect_some, forallb_map. apply forallb_forall. intros [k j] Hin.
  apply list_elem_of_In in Hin. unfold map_entries in Hin.
  rewrite merge_sort_Permutation in Hin.
  apply list_elem_of_fmap in Hin as ([k' a] & [= -> ->] & Hin). apply elem_of_map_to_list in Hin.
  apply H; [lia|]. by apply (HM k').
Qed.

#[export] Instance field_required {A} n s (c : vcodec A) P :
  Accepts n s c P → FieldAccepts n s (required c) P.
Proof. intros H m a Hm Ha. by apply H. Qed.
#[export] Instance field_omitempty {A} n s (c : vcodec A) (t : zero_test c) P :
  Accepts n s c P → FieldAccepts n s (omitempty t) (λ a, is_zero t a || P a).
Proof. intros H m a Hm Ha. cbn. destruct (is_zero t a); [done|]. by apply H. Qed.
#[export] Instance field_list {A} n s (c : vcodec A) P :
  Accepts n s (list_v c) (forallb P) → FieldAccepts n s (list_f c) (forallb P) | 0.
Proof. intros H m [|a l] Hm Ha; [done|]. by apply H. Qed.
#[export] Instance field_pointer {A} n s (c : vcodec A) P :
  Accepts n s c P → FieldAccepts n s (pointer_f c) (from_option P true).
Proof. intros H m [a|] Hm Ha; [|done]. cbn. apply H; [done|]. by apply Ha. Qed.
#[export] Instance field_map {A} n s (c : vcodec A) :
  Accepts n s (map_v c) (λ _, true) → FieldAccepts n s (map_f c) (λ _, true).
Proof.
  intros H m [M|] Hm Ha; [|done]. cbn -[map_v]. destruct (bool_decide _); [done|].
  apply H; [done|]. by apply Ha.
Qed.
#[export] Instance field_extensions {A} n x s (c : codec A) P :
  FieldAccepts n s c P → FieldAccepts n (with_extensions x s) c P.
Proof.
  intros H m a Hm Ha. specialize (H m a Hm Ha). destruct (enc c a); [|done].
  by rewrite conforms_extensions.
Qed.
(** A nil slice is written as null, which no array schema accepts. *)
#[export] Instance field_slice {A} n s (c : vcodec A) P :
  Accepts n (array_of s) (list_v c) P →
  FieldAccepts n (array_of s) (slice_f c) (λ l, negb (is_zero (list_zero c) l) && P l).
Proof.
  intros H m [|a l] Hm Ha; [by destruct m|]. cbn [enc slice_f is_zero list_zero negb andb].
  by apply H.
Qed.

(** ** Structs *)

(** The first fields of a struct against the declared properties. *)
Definition part_accepts {A R} (n : nat) (ps : list (string * schema)) (p : part A R) (P : A → bool) : Prop :=
  ∀ m a, (n ≤ m)%nat → p_good p a → forallb (field_ok m ps) (p_fields p a) = P a.

Lemma part_new {A R} n ps (build : R) : part_accepts n ps (constructor_of A build) (λ _, true).
Proof. done. Qed.

Lemma part_tag {A B R} n n' ps (p : part A (B → R)) k get s (c : codec B) P P' :
  assoc k ps = Some s → FieldAccepts n' s c P' → (n' ≤ n)%nat → part_accepts n ps p P →
  part_accepts n ps (p ⊛ Tag k get c)%tags (λ a, P a && P' (get a)).
Proof.
  intros Hk Hc Hn Hp m a Hm [Hgp Hgc]. cbn [p_fields and_tag]. rewrite forallb_app, Hp by done.
  f_equal. cbn [forallb t_key t_codec t_get]. rewrite andb_true_r. unfold field_ok. cbn [fst snd].
  specialize (Hc m (get a) ltac:(lia) Hgc). destruct (enc c (get a)); [by rewrite Hk|done].
Qed.

Lemma accepts_struct {A} n ps req (p : part A A) H P Q :
  (∀ a, forallb (present_in (p_fields p a)) req = true) →
  part_accepts n ps p P → (∀ a, P a = Q a) →
  Accepts (S n) (object_of ps req) (struct_v p H) Q.
Proof.
  intros Hreq Hp HQ [|m] a Hm Ha; [lia|]. cbn [to_json struct_v]. rewrite conforms_object, Hreq.
  rewrite Hp by (done || lia). apply HQ.
Qed.

#[local] Hint Extern 0 (Accepts _ (reference (ref _)) _ _) =>
  first [simple eapply accepts_library; reflexivity
        |simple eapply accepts_reference; [reflexivity|]] : typeclass_instances.

Lemma forallb_const {A} (l : list A) : forallb (λ _, true) l = true.
Proof. by apply forallb_forall. Qed.
Lemma from_option_const {A} (o : option A) : from_option (λ _, true) true o = true.
Proof. by destruct o. Qed.

(** The fields of a struct one by one, and the conditions that are left. *)
Ltac part_fields :=
  repeat (eapply part_tag; [reflexivity|apply _|lia|]); apply part_new.
Ltac accepted :=
  cbn -[existsb forallb]; rewrite ?forallb_const, ?from_option_const, ?orb_true_r, ?andb_true_r;
  rewrite <- ?andb_assoc; cbn [andb].
Ltac struct_accepts := eapply accepts_struct; [done|part_fields|intros ?; accepted].

(** ** The types of the resource *)

(** Values of the enumerated types, empty when not given. *)
Definition one_of (e : list string) (s : string) : bool := String.eqb s "" || existsb (String.eqb s) e.

Definition mount_ok (m : VolumeMount) : bool :=
  from_option (λ p, existsb (String.eqb p) ["Bidirectional"; "HostToContainer"; "None"]) true
    (vm_MountPropagation m).

#[export] Instance accepts_VolumeMount :
  Accepts 2 (def_schema (schema_VolumeMount ref)) VolumeMount_v mount_ok.
Proof. struct_accepts. done. Qed.

Definition container_ok (c : Container) : bool :=
  forallb mount_ok (c_VolumeMounts c) &&
  one_of ["FallbackToLogsOnError"; "File"] (c_TerminationMessagePolicy c) &&
  one_of ["Always"; "IfNotPresent"; "Never"] (c_ImagePullPolicy c).

#[export] Instance accepts_Container :
  Accepts 5 (def_schema (schema_Container ref)) Container_v container_ok.
Proof. struct_accepts. unfold container_ok. by rewrite <- andb_assoc. Qed.

#[export] Instance accepts_LeaderSpec :
  Accepts 2 (def_schema (schema_LeaderSpec ref)) LeaderSpec_v (λ _, true).
Proof. struct_accepts. done. Qed.

Definition spec_ok (s : SidekickSpec) : bool :=
  forallb container_ok (sp_InitContainers s) &&
  negb (match sp_Containers s with [] => true | _ => false end) && forallb container_ok (sp_Containers s) &&
  one_of ["Always"; "Never"; "OnFailure"] (sp_RestartPolicy s) &&
  one_of ["ClusterFirst"; "ClusterFirstWithHostNet"; "Default"; "None"] (sp_DNSPolicy s) &&
  from_option (λ p, existsb (String.eqb p) ["Never"; "PreemptLowerPriority"]) true
    (sp_PreemptionPolicy s).

Lemma field_overhead k : assoc k (sidekick_definitions ref) = None →
  FieldAccepts 2 (map_of (reference (ref k))) overhead_f (λ _, true).
Proof.
  intros Hk [|[|m]] j Hm Hj; [lia..|]. destruct j as [| | | | |[|kv l]]; try done.
  cbn [enc overhead_f]. unfold Schema.conforms.
  change (check ref (sidekick_definitions ref) (S (S m)) (map_of (reference (ref k))) (JObj (kv :: l)))
    with (collect (map (λ kv, check ref (sidekick_definitions ref) (S m) (reference (ref k)) kv.2) (kv :: l))).
  rewrite collect_some, forallb_map. apply forallb_forall. intros x _.
  cbn [check s_ref reference]. by rewrite resolve_ref, Hk.
Qed.
#[local] Hint Extern 0 (FieldAccepts _ (map_of (reference (ref _))) overhead_f _) =>
  simple eapply field_overhead; reflexivity : typeclass_instances.

#[export] Instance accepts_SidekickSpec :
  Accepts 8 (def_schema (schema_SidekickSpec ref)) SidekickSpec_v spec_ok.
Proof.
  eapply accepts_struct; [by intros [? ? [|? ?]]|part_fields|intros a; accepted].
  unfold spec_ok. by rewrite <- !andb_assoc.
Qed.

#[export] Instance accepts_LeaderStatus :
  Accepts 2 (def_schema (schema_LeaderStatus ref)) LeaderStatus_v (λ _, true).
Proof. struct_accepts. done. Qed.

Definition status_ok (st : SidekickStatus) : bool :=
  one_of ["Failed"; "Pending"; "Running"; "Succeeded"; "Unknown"] (st_Pod st).

#[export] Instance accepts_SidekickStatus :
  Accepts 4 (def_schema (schema_SidekickStatus ref)) SidekickStatus_v status_ok.
Proof. struct_accepts. done. Qed.

#[export] Instance accepts_Sidekick tv :
  Accepts 10 (def_schema (schema_Sidekick ref)) (Sidekick_v tv)
    (λ s, spec_ok (sk_Spec s) && status_ok (sk_Status s)).
Proof. struct_accepts. done. Qed.

End Schema.


(** ** Declarations *)

(** The keys a struct may write. *)
Definition keys {A} (p : part A A) (ks : list string) : Prop :=
  ∀ a, map fst (p_fields p a) = ks.

(** The schemas and the Go types declare the same fields, in the same order, and
    every definition depends on exactly the definitions it refers to. *)
Theorem schemas_mirror_types ref tv :
  (keys Container_fields (properties (schema_Container ref)) ∧
   keys LeaderSpec_fields (properties (schema_LeaderSpec ref)) ∧
   keys LeaderStatus_fields (properties (schema_LeaderStatus ref)) ∧
   keys (Sidekick_fields tv) (properties (schema_Sidekick ref)) ∧
   keys SidekickSpec_fields (properties (schema_SidekickSpec ref)) ∧
   keys SidekickStatus_fields (properties (schema_SidekickStatus ref)) ∧
   keys VolumeMount_fields (properties (schema_VolumeMount ref))) ∧
  ∀ k d, (k, d) ∈ sidekick_definitions id →
    ∀ r, r ∈ schema_refs (def_schema d) ↔ r ∈ def_dependencies d.
Proof.
  split; [repeat split|]. intros k d Hin. apply same_names_spec.
  refine (proj1 (forallb_forall (λ kd, same_names (schema_refs (def_schema kd.2)) (def_dependencies kd.2)) _)
    _ (k, d) (proj1 (list_elem_of_In _ _) Hin)). vm_compute. reflexivity.
Qed.
