(* ===== verification/SchemasApps.v ===== *)
(** * Published schemas of library types: apps

    The definitions [openapi_generated.go] publishes for the apps group, without
    their descriptions. *)

From S2P Require Import Prelude Types Json Schema.

(** The schema of [ControllerRevision]. *)
Definition schema_k8sio_api_apps_v1_ControllerRevision (ref : string → string) : definition :=
  {| def_schema := object_of
     ([("kind", typed "string" "");
      ("apiVersion", typed "string" "");
      ("metadata", with_default (JObj []) (reference (ref "k8s.io/apimachinery/pkg/apis/meta/v1.ObjectMeta")));
      ("data", reference (ref "k8s.io/apimachinery/pkg/runtime.RawExtension"));
      ("revision", with_default (JNum 0) (typed "integer" "int64"))])
     ["revision"];
     def_dependencies := ["k8s.io/apimachinery/pkg/apis/meta/v1.ObjectMeta";
       "k8s.io/apimachinery/pkg/runtime.RawExtension"] |}.

(** The schema of [ControllerRevisionList]. *)
Definition schema_k8sio_api_apps_v1_ControllerRevisionList (ref : string → string) : definition :=
  {| def_schema := object_of
     ([("kind", typed "string" "");
      ("apiVersion", typed "string" "");
      ("metadata", with_default (JObj []) (reference (ref "k8s.io/apimachinery/pkg/apis/meta/v1.ListMeta")));
      ("items", array_of (with_default (JObj []) (reference (ref "k8s.io/api/apps/v1.ControllerRevision"))))])
     ["items"];
     def_dependencies := ["k8s.io/api/apps/v1.ControllerRevision";
       "k8s.io/apimachinery/pkg/apis/meta/v1.ListMeta"] |}.

(** The schema of [DaemonSet]. *)
Definition schema_k8sio_api_apps_v1_DaemonSet (ref : string → string) : definition :=
  {| def_schema := object_of
     ([("kind", typed "string" "");
      ("apiVersion", typed "string" "");
      ("metadata", with_default (JObj []) (reference (ref "k8s.io/apimachinery/pkg/apis/meta/v1.ObjectMeta")));
      ("spec", with_default (JObj []) (reference (ref "k8s.io/api/apps/v1.DaemonSetSpec")));
      ("status", with_default (JObj []) (reference (ref "k8s.io/api/apps/v1.DaemonSetStatus")))])
     [];
     def_dependencies := ["k8s.io/api/apps/v1.DaemonSetSpec";
       "k8s.io/api/apps/v1.DaemonSetStatus";
       "k8s.io/apimachinery/pkg/apis/meta/v1.ObjectMeta"] |}.

(** The schema of [DaemonSetCondition]. *)
Definition schema_k8sio_api_apps_v1_DaemonSetCondition (ref : string → string) : definition :=
  {| def_schema := object_of
     ([("type", with_default (JStr "") (typed "string" ""));
      ("status", with_default (JStr "") (typed "string" ""));
      ("lastTransitionTime", reference (ref "k8s.io/apimachinery/pkg/apis/meta/v1.Time"));
      ("reason", typed "string" "");
      ("message", typed "string" "")])
     ["type"; "status"];
     def_dependencies := ["k8s.io/apimachinery/pkg/apis/meta/v1.Time"] |}.

(** The schema of [DaemonSetList]. *)
Definition schema_k8sio_api_apps_v1_DaemonSetList (ref : string → string) : definition :=
  {| def_schema := object_of
     ([("kind", typed "string" "");
      ("apiVersion", typed "string" "");
      ("metadata", with_default (JObj []) (reference (ref "k8s.io/apimachinery/pkg/apis/meta/v1.ListMeta")));
      ("items", array_of (with_default (JObj []) (reference (ref "k8s.io/api/apps/v1.DaemonSet"))))])
     ["items"];
     def_dependencies := ["k8s.io/api/apps/v1.DaemonSet";
       "k8s.io/apimachinery/pkg/apis/meta/v1.ListMeta"] |}.

(** The schema of [DaemonSetSpec]. *)
Definition schema_k8sio_api_apps_v1_DaemonSetSpec (ref : string → string) : definition :=
  {| def_schema := object_of
     ([("selector", reference (ref "k8s.io/apimachinery/pkg/apis/meta/v1.LabelSelector"));
      ("template", with_default (JObj []) (reference (ref "k8s.io/api/core/v1.PodTemplateSpec")));
      ("updateStrategy", with_default (JObj []) (reference (ref "k8s.io/api/apps/v1.DaemonSetUpdateStrategy")));
      ("minReadySeconds", typed "integer" "int32");
      ("revisionHistoryLimit", typed "integer" "int32")])
     ["selector"; "template"];
     def_dependencies := ["k8s.io/api/apps/v1.DaemonSetUpdateStrategy";
       "k8s.io/api/core/v1.PodTemplateSpec";
       "k8s.io/apimachinery/pkg/apis/meta/v1.LabelSelector"] |}.

(** The schema of [DaemonSetStatus]. *)
Definition schema_k8sio_api_apps_v1_DaemonSetStatus (ref : string → string) : definition :=
  {| def_schema := object_of
     ([("currentNumberScheduled", with_default (JNum 0) (typed "integer" "int32"));
      ("numberMisscheduled", with_default (JNum 0) (typed "integer" "int32"));
      ("desiredNumberScheduled", with_default (JNum 0) (typed "integer" "int32"));
      ("numberReady", with_default (JNum 0) (typed "integer" "int32"));
      ("observedGeneration", typed "integer" "int64");
      ("updatedNumberScheduled", typed "integer" "int32");
      ("numberAvailable", typed "integer" "int32");
      ("numberUnavailable", typed "integer" "int32");
      ("collisionCount", typed "integer" "int32");
      ("conditions", with_extensions [("x-kubernetes-list-map-keys", JArr [JStr "type"]);
        ("x-kubernetes-list-type", JStr "map");
        ("x-kubernetes-patch-merge-key", JStr "type");
        ("x-kubernetes-patch-strategy", JStr "merge")]
       (array_of (with_default (JObj []) (reference (ref "k8s.io/api/apps/v1.DaemonSetCondition")))))])
     ["currentNumberScheduled"; "numberMisscheduled"; "desiredNumberScheduled"; "numberReady"];
     def_dependencies := ["k8s.io/api/apps/v1.DaemonSetCondition"] |}.

(** The schema of [DaemonSetUpdateStrategy]. *)
Definition schema_k8sio_api_apps_v1_DaemonSetUpdateStrategy (ref : string → string) : definition :=
  {| def_schema := object_of
     ([("type", with_enum ["OnDelete"; "RollingUpdate"] (typed "string" ""));
      ("rollingUpdate", reference (ref "k8s.io/api/apps/v1.RollingUpdateDaemonSet"))])
     [];
     def_dependencies := ["k8s.io/api/apps/v1.RollingUpdateDaemonSet"] |}.

(** The schema of [Deployment]. *)
Definition schema_k8sio_api_apps_v1_Deployment (ref : string → string) : definition :=
  {| def_schema := object_of
     ([("kind", typed "string" "");
      ("apiVersion", typed "string" "");
      ("metadata", with_default (JObj []) (reference (ref "k8s.io/apimachinery/pkg/apis/meta/v1.ObjectMeta")));
      ("spec", with_default (JObj []) (reference (ref "k8s.io/api/apps/v1.DeploymentSpec")));
      ("status", with_default (JObj []) (reference (ref "k8s.io/api/apps/v1.DeploymentStatus")))])
     [];
     def_dependencies := ["k8s.io/api/apps/v1.DeploymentSpec";
       "k8s.io/api/apps/v1.DeploymentStatus";
       "k8s.io/apimachinery/pkg/apis/meta/v1.ObjectMeta"] |}.

(** The schema of [DeploymentCondition]. *)
Definition schema_k8sio_api_apps_v1_DeploymentCondition (ref : string → string) : definition :=
  {| def_schema := object_of
     ([("type", with_default (JStr "") (typed "string" ""));
      ("status", with_default (JStr "") (typed "string" ""));
      ("lastUpdateTime", reference (ref "k8s.io/apimachinery/pkg/apis/meta/v1.Time"));
      ("lastTransitionTime", reference (ref "k8s.io/apimachinery/pkg/apis/meta/v1.Time"));
      ("reason", typed "string" "");
      ("message", typed "string" "")])
     ["type"; "status"];
     def_dependencies := ["k8s.io/apimachinery/pkg/apis/meta/v1.Time"] |}.

(** The schema of [DeploymentList]. *)
Definition schema_k8sio_api_apps_v1_DeploymentList (ref : string → string) : definition :=
  {| def_schema := object_of
     ([("kind", typed "string" "");
      ("apiVersion", typed "string" "");
      ("metadata", with_default (JObj []) (reference (ref "k8s.io/apimachinery/pkg/apis/meta/v1.ListMeta")));
      ("items", array_of (with_default (JObj []) (reference (ref "k8s.io/api/apps/v1.Deployment"))))])
     ["items"];
     def_dependencies := ["k8s.io/api/apps/v1.Deployment";
       "k8s.io/apimachinery/pkg/apis/meta/v1.ListMeta"] |}.

(** The schema of [DeploymentSpec]. *)
Definition schema_k8sio_api_apps_v1_DeploymentSpec (ref : string → string) : definition :=
  {| def_schema := object_of
     ([("replicas", typed "integer" "int32");
      ("selector", reference (ref "k8s.io/apimachinery/pkg/apis/meta/v1.LabelSelector"));
      ("template", with_default (JObj []) (reference (ref "k8s.io/api/core/v1.PodTemplateSpec")));
      ("strategy", with_extensions [("x-kubernetes-patch-strategy", JStr "retainKeys")]
       (with_default (JObj []) (reference (ref "k8s.io/api/apps/v1.DeploymentStrategy"))));
      ("minReadySeconds", typed "integer" "int32");
      ("revisionHistoryLimit", typed "integer" "int32");
      ("paused", typed "boolean" "");
      ("progressDeadlineSeconds", typed "integer" "int32")])
     ["selector"; "template"];
     def_dependencies := ["k8s.io/api/apps/v1.DeploymentStrategy";
       "k8s.io/api/core/v1.PodTemplateSpec";
       "k8s.io/apimachinery/pkg/apis/meta/v1.LabelSelector"] |}.

(** The schema of [DeploymentStatus]. *)
Definition schema_k8sio_api_apps_v1_DeploymentStatus (ref : string → string) : definition :=
  {| def_schema := object_of
     ([("observedGeneration", typed "integer" "int64");
      ("replicas", typed "integer" "int32");
      ("updatedReplicas", typed "integer" "int32");
      ("readyReplicas", typed "integer" "int32");
      ("availableReplicas", typed "integer" "int32");
      ("unavailableReplicas", typed "integer" "int32");
      ("terminatingReplicas", typed "integer" "int32");
      ("conditions", with_extensions [("x-kubernetes-list-map-keys", JArr [JStr "type"]);
        ("x-kubernetes-list-type", JStr "map");
        ("x-kubernetes-patch-merge-key", JStr "type");
        ("x-kubernetes-patch-strategy", JStr "merge")]
       (array_of (with_default (JObj []) (reference (ref "k8s.io/api/apps/v1.DeploymentCondition")))));
      ("collisionCount", typed "integer" "int32")])
     [];
     def_dependencies := ["k8s.io/api/apps/v1.DeploymentCondition"] |}.

(** The schema of [DeploymentStrategy]. *)
Definition schema_k8sio_api_apps_v1_DeploymentStrategy (ref : string → string) : definition :=
  {| def_schema := object_of
     ([("type", with_enum ["Recreate"; "RollingUpdate"] (typed "string" ""));
      ("rollingUpdate", reference (ref "k8s.io/api/apps/v1.RollingUpdateDeployment"))])
     [];
     def_dependencies := ["k8s.io/api/apps/v1.RollingUpdateDeployment"] |}.

(** The schema of [ReplicaSet]. *)
Definition schema_k8sio_api_apps_v1_ReplicaSet (ref : string → string) : definition :=
  {| def_schema := object_of
     ([("kind", typed "string" "");
      ("apiVersion", typed "string" "");
      ("metadata", with_default (JObj []) (reference (ref "k8s.io/apimachinery/pkg/apis/meta/v1.ObjectMeta")));
      ("spec", with_default (JObj []) (reference (ref "k8s.io/api/apps/v1.ReplicaSetSpec")));
      ("status", with_default (JObj []) (reference (ref "k8s.io/api/apps/v1.ReplicaSetStatus")))])
     [];
     def_dependencies := ["k8s.io/api/apps/v1.ReplicaSetSpec";
       "k8s.io/api/apps/v1.ReplicaSetStatus";
       "k8s.io/apimachinery/pkg/apis/meta/v1.ObjectMeta"] |}.

(** The schema of [ReplicaSetCondition]. *)
Definition schema_k8sio_api_apps_v1_ReplicaSetCondition (ref : string → string) : definition :=
  {| def_schema := object_of
     ([("type", with_default (JStr "") (typed "string" ""));
      ("status", with_default (JStr "") (typed "string" ""));
      ("lastTransitionTime", reference (ref "k8s.io/apimachinery/pkg/apis/meta/v1.Time"));
      ("reason", typed "string" "");
      ("message", typed "string" "")])
     ["type"; "status"];
     def_dependencies := ["k8s.io/apimachinery/pkg/apis/meta/v1.Time"] |}.

(** The schema of [ReplicaSetList]. *)
Definition schema_k8sio_api_apps_v1_ReplicaSetList (ref : string → string) : definition :=
  {| def_schema := object_of
     ([("kind", typed "string" "");
      ("apiVersion", typed "string" "");
      ("metadata", with_default (JObj []) (reference (ref "k8s.io/apimachinery/pkg/apis/meta/v1.ListMeta")));
      ("items", array_of (with_default (JObj []) (reference (ref "k8s.io/api/apps/v1.ReplicaSet"))))])
     ["items"];
     def_dependencies := ["k8s.io/api/apps/v1.ReplicaSet";
       "k8s.io/apimachinery/pkg/apis/meta/v1.ListMeta"] |}.

(** The schema of [ReplicaSetSpec]. *)
Definition schema_k8sio_api_apps_v1_ReplicaSetSpec (ref : string → string) : definition :=
  {| def_schema := object_of
     ([("replicas", typed "integer" "int32");
      ("minReadySeconds", typed "integer" "int32");
      ("selector", reference (ref "k8s.io/apimachinery/pkg/apis/meta/v1.LabelSelector"));
      ("template", with_default (JObj []) (reference (ref "k8s.io/api/core/v1.PodTemplateSpec")))])
     ["selector"];
     def_dependencies := ["k8s.io/api/core/v1.PodTemplateSpec";
       "k8s.io/apimachinery/pkg/apis/meta/v1.LabelSelector"] |}.

(** The schema of [ReplicaSetStatus]. *)
Definition schema_k8sio_api_apps_v1_ReplicaSetStatus (ref : string → string) : definition :=
  {| def_schema := object_of
     ([("replicas", with_default (JNum 0) (typed "integer" "int32"));
      ("fullyLabeledReplicas", typed "integer" "int32");
      ("readyReplicas", typed "integer" "int32");
      ("availableReplicas", typed "integer" "int32");
      ("terminatingReplicas", typed "integer" "int32");
      ("observedGeneration", typed "integer" "int64");
      ("conditions", with_extensions [("x-kubernetes-list-map-keys", JArr [JStr "type"]);
        ("x-kubernetes-list-type", JStr "map");
        ("x-kubernetes-patch-merge-key", JStr "type");
        ("x-kubernetes-patch-strategy", JStr "merge")]
       (array_of (with_default (JObj []) (reference (ref "k8s.io/api/apps/v1.ReplicaSetCondition")))))])
     ["replicas"];
     def_dependencies := ["k8s.io/api/apps/v1.ReplicaSetCondition"] |}.

(** The schema of [RollingUpdateDaemonSet]. *)
Definition schema_k8sio_api_apps_v1_RollingUpdateDaemonSet (ref : string → string) : definition :=
  {| def_schema := object_of
     ([("maxUnavailable", reference (ref "k8s.io/apimachinery/pkg/util/intstr.IntOrString"));
      ("maxSurge", reference (ref "k8s.io/apimachinery/pkg/util/intstr.IntOrString"))])
     [];
     def_dependencies := ["k8s.io/apimachinery/pkg/util/intstr.IntOrString"] |}.

(** The schema of [RollingUpdateDeployment]. *)
Definition schema_k8sio_api_apps_v1_RollingUpdateDeployment (ref : string → string) : definition :=
  {| def_schema := object_of
     ([("maxUnavailable", reference (ref "k8s.io/apimachinery/pkg/util/intstr.IntOrString"));
      ("maxSurge", reference (ref "k8s.io/apimachinery/pkg/util/intstr.IntOrString"))])
     [];
     def_dependencies := ["k8s.io/apimachinery/pkg/util/intstr.IntOrString"] |}.

(** The schema of [RollingUpdateStatefulSetStrategy]. *)
Definition schema_k8sio_api_apps_v1_RollingUpdateStatefulSetStrategy (ref : string → string) : definition :=
  {| def_schema := object_of
     ([("partition", typed "integer" "int32");
      ("maxUnavailable", reference (ref "k8s.io/apimachinery/pkg/util/intstr.IntOrString"))])
     [];
     def_dependencies := ["k8s.io/apimachinery/pkg/util/intstr.IntOrString"] |}.

(** The schema of [StatefulSet]. *)
Definition schema_k8sio_api_apps_v1_StatefulSet (ref : string → string) : definition :=
  {| def_schema := object_of
     ([("kind", typed "string" "");
      ("apiVersion", typed "string" "");
      ("metadata", with_default (JObj []) (reference (ref "k8s.io/apimachinery/pkg/apis/meta/v1.ObjectMeta")));
      ("spec", with_default (JObj []) (reference (ref "k8s.io/api/apps/v1.StatefulSetSpec")));
      ("status", with_default (JObj []) (reference (ref "k8s.io/api/apps/v1.StatefulSetStatus")))])
     [];
     def_dependencies := ["k8s.io/api/apps/v1.StatefulSetSpec";
       "k8s.io/api/apps/v1.StatefulSetStatus";
       "k8s.io/apimachinery/pkg/apis/meta/v1.ObjectMeta"] |}.

(** The schema of [StatefulSetCondition]. *)
Definition schema_k8sio_api_apps_v1_StatefulSetCondition (ref : string → string) : definition :=
  {| def_schema := object_of
     ([("type", with_default (JStr "") (typed "string" ""));
      ("status", with_default (JStr "") (typed "string" ""));
      ("lastTransitionTime", reference (ref "k8s.io/apimachinery/pkg/apis/meta/v1.Time"));
      ("reason", typed "string" "");
      ("message", typed "string" "")])
     ["type"; "status"];
     def_dependencies := ["k8s.io/apimachinery/pkg/apis/meta/v1.Time"] |}.

(** The schema of [StatefulSetList]. *)
Definition schema_k8sio_api_apps_v1_StatefulSetList (ref : string → string) : definition :=
  {| def_schema := object_of
     ([("kind", typed "string" "");
      ("apiVersion", typed "string" "");
      ("metadata", with_default (JObj []) (reference (ref "k8s.io/apimachinery/pkg/apis/meta/v1.ListMeta")));
      ("items", array_of (with_default (JObj []) (reference (ref "k8s.io/api/apps/v1.StatefulSet"))))])
     ["items"];
     def_dependencies := ["k8s.io/api/apps/v1.StatefulSet";
       "k8s.io/apimachinery/pkg/apis/meta/v1.ListMeta"] |}.

(** The schema of [StatefulSetOrdinals]. *)
Definition schema_k8sio_api_apps_v1_StatefulSetOrdinals (ref : string → string) : definition :=
  {| def_schema := object_of
     ([("start", with_default (JNum 0) (typed "integer" "int32"))])
     [];
     def_dependencies := [] |}.

(** The schema of [StatefulSetPersistentVolumeClaimRetentionPolicy]. *)
Definition schema_k8sio_api_apps_v1_StatefulSetPersistentVolumeClaimRetentionPolicy (ref : string → string) : definition :=
  {| def_schema := object_of
     ([("whenDeleted", typed "string" "");
      ("whenScaled", typed "string" "")])
     [];
     def_dependencies := [] |}.

(** The schema of [StatefulSetSpec]. *)
Definition schema_k8sio_api_apps_v1_StatefulSetSpec (ref : string → string) : definition :=
  {| def_schema := object_of
     ([("replicas", typed "integer" "int32");
      ("selector", reference (ref "k8s.io/apimachinery/pkg/apis/meta/v1.LabelSelector"));
      ("template", with_default (JObj []) (reference (ref "k8s.io/api/core/v1.PodTemplateSpec")));
      ("volumeClaimTemplates", with_extensions [("x-kubernetes-list-type", JStr "atomic")]
       (array_of (with_default (JObj []) (reference (ref "k8s.io/api/core/v1.PersistentVolumeClaim")))));
      ("serviceName", with_default (JStr "") (typed "string" ""));
      ("podManagementPolicy", with_enum ["OrderedReady"; "Parallel"] (typed "string" ""));
      ("updateStrategy", with_default (JObj []) (reference (ref "k8s.io/api/apps/v1.StatefulSetUpdateStrategy")));
      ("revisionHistoryLimit", typed "integer" "int32");
      ("minReadySeconds", typed "integer" "int32");
      ("persistentVolumeClaimRetentionPolicy", reference (ref "k8s.io/api/apps/v1.StatefulSetPersistentVolumeClaimRetentionPolicy"));
      ("ordinals", reference (ref "k8s.io/api/apps/v1.StatefulSetOrdinals"))])
     ["selector"; "template"];
     def_dependencies := ["k8s.io/api/apps/v1.StatefulSetOrdinals";
       "k8s.io/api/apps/v1.StatefulSetPersistentVolumeClaimRetentionPolicy";
       "k8s.io/api/apps/v1.StatefulSetUpdateStrategy";
       "k8s.io/api/core/v1.PersistentVolumeClaim";
       "k8s.io/api/core/v1.PodTemplateSpec";
       "k8s.io/apimachinery/pkg/apis/meta/v1.LabelSelector"] |}.

(** The schema of [StatefulSetStatus]. *)
Definition schema_k8sio_api_apps_v1_StatefulSetStatus (ref : string → string) : definition :=
  {| def_schema := object_of
     ([("observedGeneration", typed "integer" "int64");
      ("replicas", with_default (JNum 0) (typed "integer" "int32"));
      ("readyReplicas", typed "integer" "int32");
      ("currentReplicas", typed "integer" "int32");
      ("updatedReplicas", typed "integer" "int32");
      ("currentRevision", typed "string" "");
      ("updateRevision", typed "string" "");
      ("collisionCount", typed "integer" "int32");
      ("conditions", with_extensions [("x-kubernetes-list-map-keys", JArr [JStr "type"]);
        ("x-kubernetes-list-type", JStr "map");
        ("x-kubernetes-patch-merge-key", JStr "type");
        ("x-kubernetes-patch-strategy", JStr "merge")]
       (array_of (with_default (JObj []) (reference (ref "k8s.io/api/apps/v1.StatefulSetCondition")))));
      ("availableReplicas", with_default (JNum 0) (typed "integer" "int32"))])
     ["replicas"];
     def_dependencies := ["k8s.io/api/apps/v1.StatefulSetCondition"] |}.

(** The schema of [StatefulSetUpdateStrategy]. *)
Definition schema_k8sio_api_apps_v1_StatefulSetUpdateStrategy (ref : string → string) : definition :=
  {| def_schema := object_of
     ([("type", with_enum ["OnDelete"; "RollingUpdate"] (typed "string" ""));
      ("rollingUpdate", reference (ref "k8s.io/api/apps/v1.RollingUpdateStatefulSetStrategy"))])
     [];
     def_dependencies := ["k8s.io/api/apps/v1.RollingUpdateStatefulSetStrategy"] |}.

(** The entries of [GetOpenAPIDefinitions] for these types. *)
Definition apps_definitions (ref : string → string) : list (string * definition) :=
  [("k8s.io/api/apps/v1.ControllerRevision", schema_k8sio_api_apps_v1_ControllerRevision ref);
   ("k8s.io/api/apps/v1.ControllerRevisionList", schema_k8sio_api_apps_v1_ControllerRevisionList ref);
   ("k8s.io/api/apps/v1.DaemonSet", schema_k8sio_api_apps_v1_DaemonSet ref);
   ("k8s.io/api/apps/v1.DaemonSetCondition", schema_k8sio_api_apps_v1_DaemonSetCondition ref);
   ("k8s.io/api/apps/v1.DaemonSetList", schema_k8sio_api_apps_v1_DaemonSetList ref);
   ("k8s.io/api/apps/v1.DaemonSetSpec", schema_k8sio_api_apps_v1_DaemonSetSpec ref);
   ("k8s.io/api/apps/v1.DaemonSetStatus", schema_k8sio_api_apps_v1_DaemonSetStatus ref);
   ("k8s.io/api/apps/v1.DaemonSetUpdateStrategy", schema_k8sio_api_apps_v1_DaemonSetUpdateStrategy ref);
   ("k8s.io/api/apps/v1.Deployment", schema_k8sio_api_apps_v1_Deployment ref);
   ("k8s.io/api/apps/v1.DeploymentCondition", schema_k8sio_api_apps_v1_DeploymentCondition ref);
   ("k8s.io/api/apps/v1.DeploymentList", schema_k8sio_api_apps_v1_DeploymentList ref);
   ("k8s.io/api/apps/v1.DeploymentSpec", schema_k8sio_api_apps_v1_DeploymentSpec ref);
   ("k8s.io/api/apps/v1.DeploymentStatus", schema_k8sio_api_apps_v1_DeploymentStatus ref);
   ("k8s.io/api/apps/v1.DeploymentStrategy", schema_k8sio_api_apps_v1_DeploymentStrategy ref);
   ("k8s.io/api/apps/v1.ReplicaSet", schema_k8sio_api_apps_v1_ReplicaSet ref);
   ("k8s.io/api/apps/v1.ReplicaSetCondition", schema_k8sio_api_apps_v1_ReplicaSetCondition ref);
   ("k8s.io/api/apps/v1.ReplicaSetList", schema_k8sio_api_apps_v1_ReplicaSetList ref);
   ("k8s.io/api/apps/v1.ReplicaSetSpec", schema_k8sio_api_apps_v1_ReplicaSetSpec ref);
   ("k8s.io/api/apps/v1.ReplicaSetStatus", schema_k8sio_api_apps_v1_ReplicaSetStatus ref);
   ("k8s.io/api/apps/v1.RollingUpdateDaemonSet", schema_k8sio_api_apps_v1_RollingUpdateDaemonSet ref);
   ("k8s.io/api/apps/v1.RollingUpdateDeployment", schema_k8sio_api_apps_v1_RollingUpdateDeployment ref);
   ("k8s.io/api/apps/v1.RollingUpdateStatefulSetStrategy", schema_k8sio_api_apps_v1_RollingUpdateStatefulSetStrategy ref);
   ("k8s.io/api/apps/v1.StatefulSet", schema_k8sio_api_apps_v1_StatefulSet ref);
   ("k8s.io/api/apps/v1.StatefulSetCondition", schema_k8sio_api_apps_v1_StatefulSetCondition ref);
   ("k8s.io/api/apps/v1.StatefulSetList", schema_k8sio_api_apps_v1_StatefulSetList ref);
   ("k8s.io/api/apps/v1.StatefulSetOrdinals", schema_k8sio_api_apps_v1_StatefulSetOrdinals ref);
   ("k8s.io/api/apps/v1.StatefulSetPersistentVolumeClaimRetentionPolicy", schema_k8sio_api_apps_v1_StatefulSetPersistentVolumeClaimRetentionPolicy ref);
   ("k8s.io/api/apps/v1.StatefulSetSpec", schema_k8sio_api_apps_v1_StatefulSetSpec ref);
   ("k8s.io/api/apps/v1.StatefulSetStatus", schema_k8sio_api_apps_v1_StatefulSetStatus ref);
   ("k8s.io/api/apps/v1.StatefulSetUpdateStrategy", schema_k8sio_api_apps_v1_StatefulSetUpdateStrategy ref)].
