(* ===== verification/SchemasCore1.v ===== *)
(** * Published schemas of library types: core 1

    The definitions [openapi_generated.go] publishes for the core group, from [AWSElasticBlockStoreVolumeSource] to [EnvVar], without
    their descriptions. *)

From S2P Require Import Prelude Types Json Schema.

(** The schema of [AWSElasticBlockStoreVolumeSource]. *)
Definition schema_k8sio_api_core_v1_AWSElasticBlockStoreVolumeSource (ref : string → string) : definition :=
  {| def_schema := object_of
     ([("volumeID", with_default (JStr "") (typed "string" ""));
      ("fsType", typed "string" "");
      ("partition", typed "integer" "int32");
      ("readOnly", typed "boolean" "")])
     ["volumeID"];
     def_dependencies := [] |}.

(** The schema of [Affinity]. *)
Definition schema_k8sio_api_core_v1_Affinity (ref : string → string) : definition :=
  {| def_schema := object_of
     ([("nodeAffinity", reference (ref "k8s.io/api/core/v1.NodeAffinity"));
      ("podAffinity", reference (ref "k8s.io/api/core/v1.PodAffinity"));
      ("podAntiAffinity", reference (ref "k8s.io/api/core/v1.PodAntiAffinity"))])
     [];
     def_dependencies := ["k8s.io/api/core/v1.NodeAffinity";
       "k8s.io/api/core/v1.PodAffinity";
       "k8s.io/api/core/v1.PodAntiAffinity"] |}.

(** The schema of [AppArmorProfile]. *)
Definition schema_k8sio_api_core_v1_AppArmorProfile (ref : string → string) : definition :=
  {| def_schema := with_extensions [("x-kubernetes-unions", JArr [JObj [("discriminator", JStr "type"); ("fields-to-discriminateBy", JObj [("localhostProfile", JStr "LocalhostProfile")])]])] (object_of
     ([("type", with_enum ["Localhost"; "RuntimeDefault"; "Unconfined"] (with_default (JStr "") (typed "string" "")));
      ("localhostProfile", typed "string" "")])
     ["type"]);
     def_dependencies := [] |}.

(** The schema of [AttachedVolume]. *)
Definition schema_k8sio_api_core_v1_AttachedVolume (ref : string → string) : definition :=
  {| def_schema := object_of
     ([("name", with_default (JStr "") (typed "string" ""));
      ("devicePath", with_default (JStr "") (typed "string" ""))])
     ["name"; "devicePath"];
     def_dependencies := [] |}.

(** The schema of [AvoidPods]. *)
Definition schema_k8sio_api_core_v1_AvoidPods (ref : string → string) : definition :=
  {| def_schema := object_of
     ([("preferAvoidPods", with_extensions [("x-kubernetes-list-type", JStr "atomic")]
       (array_of (with_default (JObj []) (reference (ref "k8s.io/api/core/v1.PreferAvoidPodsEntry")))))])
     [];
     def_dependencies := ["k8s.io/api/core/v1.PreferAvoidPodsEntry"] |}.

(** The schema of [AzureDiskVolumeSource]. *)
Definition schema_k8sio_api_core_v1_AzureDiskVolumeSource (ref : string → string) : definition :=
  {| def_schema := object_of
     ([("diskName", with_default (JStr "") (typed "string" ""));
      ("diskURI", with_default (JStr "") (typed "string" ""));
      ("cachingMode", with_enum ["None"; "ReadOnly"; "ReadWrite"] (with_default (JStr "ReadWrite") (typed "string" "")));
      ("fsType", with_default (JStr "ext4") (typed "string" ""));
      ("readOnly", with_default (JBool false) (typed "boolean" ""));
      ("kind", with_enum ["Dedicated"; "Managed"; "Shared"] (with_default (JStr "Shared") (typed "string" "")))])
     ["diskName"; "diskURI"];
     def_dependencies := [] |}.

(** The schema of [AzureFilePersistentVolumeSource]. *)
Definition schema_k8sio_api_core_v1_AzureFilePersistentVolumeSource (ref : string → string) : definition :=
  {| def_schema := object_of
     ([("secretName", with_default (JStr "") (typed "string" ""));
      ("shareName", with_default (JStr "") (typed "string" ""));
      ("readOnly", typed "boolean" "");
      ("secretNamespace", typed "string" "")])
     ["secretName"; "shareName"];
     def_dependencies := [] |}.

(** The schema of [AzureFileVolumeSource]. *)
Definition schema_k8sio_api_core_v1_AzureFileVolumeSource (ref : string → string) : definition :=
  {| def_schema := object_of
     ([("secretName", with_default (JStr "") (typed "string" ""));
      ("shareName", with_default (JStr "") (typed "string" ""));
      ("readOnly", typed "boolean" "")])
     ["secretName"; "shareName"];
     def_dependencies := [] |}.

(** The schema of [Binding]. *)
Definition schema_k8sio_api_core_v1_Binding (ref : string → string) : definition :=
  {| def_schema := object_of
     ([("kind", typed "string" "");
      ("apiVersion", typed "string" "");
      ("metadata", with_default (JObj []) (reference (ref "k8s.io/apimachinery/pkg/apis/meta/v1.ObjectMeta")));
      ("target", with_default (JObj []) (reference (ref "k8s.io/api/core/v1.ObjectReference")))])
     ["target"];
     def_dependencies := ["k8s.io/api/core/v1.ObjectReference";
       "k8s.io/apimachinery/pkg/apis/meta/v1.ObjectMeta"] |}.

(** The schema of [CSIPersistentVolumeSource]. *)
Definition schema_k8sio_api_core_v1_CSIPersistentVolumeSource (ref : string → string) : definition :=
  {| def_schema := object_of
     ([("driver", with_default (JStr "") (typed "string" ""));
      ("volumeHandle", with_default (JStr "") (typed "string" ""));
      ("readOnly", typed "boolean" "");
      ("fsType", typed "string" "");
      ("volumeAttributes", map_of (with_default (JStr "") (typed "string" "")));
      ("controllerPublishSecretRef", reference (ref "k8s.io/api/core/v1.SecretReference"));
      ("nodeStageSecretRef", reference (ref "k8s.io/api/core/v1.SecretReference"));
      ("nodePublishSecretRef", reference (ref "k8s.io/api/core/v1.SecretReference"));
      ("controllerExpandSecretRef", reference (ref "k8s.io/api/core/v1.SecretReference"));
      ("nodeExpandSecretRef", reference (ref "k8s.io/api/core/v1.SecretReference"))])
     ["driver"; "volumeHandle"];
     def_dependencies := ["k8s.io/api/core/v1.SecretReference"] |}.

(** The schema of [CSIVolumeSource]. *)
Definition schema_k8sio_api_core_v1_CSIVolumeSource (ref : string → string) : definition :=
  {| def_schema := object_of
     ([("driver", with_default (JStr "") (typed "string" ""));
      ("readOnly", typed "boolean" "");
      ("fsType", typed "string" "");
      ("volumeAttributes", map_of (with_default (JStr "") (typed "string" "")));
      ("nodePublishSecretRef", reference (ref "k8s.io/api/core/v1.LocalObjectReference"))])
     ["driver"];
     def_dependencies := ["k8s.io/api/core/v1.LocalObjectReference"] |}.

(** The schema of [Capabilities]. *)
Definition schema_k8sio_api_core_v1_Capabilities (ref : string → string) : definition :=
  {| def_schema := object_of
     ([("add", with_extensions [("x-kubernetes-list-type", JStr "atomic")]
       (array_of (with_default (JStr "") (typed "string" ""))));
      ("drop", with_extensions [("x-kubernetes-list-type", JStr "atomic")]
       (array_of (with_default (JStr "") (typed "string" ""))))])
     [];
     def_dependencies := [] |}.

(** The schema of [CephFSPersistentVolumeSource]. *)
Definition schema_k8sio_api_core_v1_CephFSPersistentVolumeSource (ref : string → string) : definition :=
  {| def_schema := object_of
     ([("monitors", with_extensions [("x-kubernetes-list-type", JStr "atomic")]
       (array_of (with_default (JStr "") (typed "string" ""))));
      ("path", typed "string" "");
      ("user", typed "string" "");
      ("secretFile", typed "string" "");
      ("secretRef", reference (ref "k8s.io/api/core/v1.SecretReference"));
      ("readOnly", typed "boolean" "")])
     ["monitors"];
     def_dependencies := ["k8s.io/api/core/v1.SecretReference"] |}.

(** The schema of [CephFSVolumeSource]. *)
Definition schema_k8sio_api_core_v1_CephFSVolumeSource (ref : string → string) : definition :=
  {| def_schema := object_of
     ([("monitors", with_extensions [("x-kubernetes-list-type", JStr "atomic")]
       (array_of (with_default (JStr "") (typed "string" ""))));
      ("path", typed "string" "");
      ("user", typed "string" "");
      ("secretFile", typed "string" "");
      ("secretRef", reference (ref "k8s.io/api/core/v1.LocalObjectReference"));
      ("readOnly", typed "boolean" "")])
     ["monitors"];
     def_dependencies := ["k8s.io/api/core/v1.LocalObjectReference"] |}.

(** The schema of [CinderPersistentVolumeSource]. *)
Definition schema_k8sio_api_core_v1_CinderPersistentVolumeSource (ref : string → string) : definition :=
  {| def_schema := object_of
     ([("volumeID", with_default (JStr "") (typed "string" ""));
      ("fsType", typed "string" "");
      ("readOnly", typed "boolean" "");
      ("secretRef", reference (ref "k8s.io/api/core/v1.SecretReference"))])
     ["volumeID"];
     def_dependencies := ["k8s.io/api/core/v1.SecretReference"] |}.

(** The schema of [CinderVolumeSource]. *)
Definition schema_k8sio_api_core_v1_CinderVolumeSource (ref : string → string) : definition :=
  {| def_schema := object_of
     ([("volumeID", with_default (JStr "") (typed "string" ""));
      ("fsType", typed "string" "");
      ("readOnly", typed "boolean" "");
      ("secretRef", reference (ref "k8s.io/api/core/v1.LocalObjectReference"))])
     ["volumeID"];
     def_dependencies := ["k8s.io/api/core/v1.LocalObjectReference"] |}.

(** The schema of [ClientIPConfig]. *)
Definition schema_k8sio_api_core_v1_ClientIPConfig (ref : string → string) : definition :=
  {| def_schema := object_of
     ([("timeoutSeconds", typed "integer" "int32")])
     [];
     def_dependencies := [] |}.

(** The schema of [ClusterTrustBundleProjection]. *)
Definition schema_k8sio_api_core_v1_ClusterTrustBundleProjection (ref : string → string) : definition :=
  {| def_schema := object_of
     ([("name", typed "string" "");
      ("signerName", typed "string" "");
      ("labelSelector", reference (ref "k8s.io/apimachinery/pkg/apis/meta/v1.LabelSelector"));
      ("optional", typed "boolean" "");
      ("path", with_default (JStr "") (typed "string" ""))])
     ["path"];
     def_dependencies := ["k8s.io/apimachinery/pkg/apis/meta/v1.LabelSelector"] |}.

(** The schema of [ComponentCondition]. *)
Definition schema_k8sio_api_core_v1_ComponentCondition (ref : string → string) : definition :=
  {| def_schema := object_of
     ([("type", with_default (JStr "") (typed "string" ""));
      ("status", with_default (JStr "") (typed "string" ""));
      ("message", typed "string" "");
      ("error", typed "string" "")])
     ["type"; "status"];
     def_dependencies := [] |}.

(** The schema of [ComponentStatus]. *)
Definition schema_k8sio_api_core_v1_ComponentStatus (ref : string → string) : definition :=
  {| def_schema := object_of
     ([("kind", typed "string" "");
      ("apiVersion", typed "string" "");
      ("metadata", with_default (JObj []) (reference (ref "k8s.io/apimachinery/pkg/apis/meta/v1.ObjectMeta")));
      ("conditions", with_extensions [("x-kubernetes-list-map-keys", JArr [JStr "type"]);
        ("x-kubernetes-list-type", JStr "map");
        ("x-kubernetes-patch-merge-key", JStr "type");
        ("x-kubernetes-patch-strategy", JStr "merge")]
       (array_of (with_default (JObj []) (reference (ref "k8s.io/api/core/v1.ComponentCondition")))))])
     [];
     def_dependencies := ["k8s.io/api/core/v1.ComponentCondition";
       "k8s.io/apimachinery/pkg/apis/meta/v1.ObjectMeta"] |}.

(** The schema of [ComponentStatusList]. *)
Definition schema_k8sio_api_core_v1_ComponentStatusList (ref : string → string) : definition :=
  {| def_schema := object_of
     ([("kind", typed "string" "");
      ("apiVersion", typed "string" "");
      ("metadata", with_default (JObj []) (reference (ref "k8s.io/apimachinery/pkg/apis/meta/v1.ListMeta")));
      ("items", array_of (with_default (JObj []) (reference (ref "k8s.io/api/core/v1.ComponentStatus"))))])
     ["items"];
     def_dependencies := ["k8s.io/api/core/v1.ComponentStatus";
       "k8s.io/apimachinery/pkg/apis/meta/v1.ListMeta"] |}.

(** The schema of [ConfigMap]. *)
Definition schema_k8sio_api_core_v1_ConfigMap (ref : string → string) : definition :=
  {| def_schema := object_of
     ([("kind", typed "string" "");
      ("apiVersion", typed "string" "");
      ("metadata", with_default (JObj []) (reference (ref "k8s.io/apimachinery/pkg/apis/meta/v1.ObjectMeta")));
      ("immutable", typed "boolean" "");
      ("data", map_of (with_default (JStr "") (typed "string" "")));
      ("binaryData", map_of (typed "string" "byte"))])
     [];
     def_dependencies := ["k8s.io/apimachinery/pkg/apis/meta/v1.ObjectMeta"] |}.

(** The schema of [ConfigMapEnvSource]. *)
Definition schema_k8sio_api_core_v1_ConfigMapEnvSource (ref : string → string) : definition :=
  {| def_schema := object_of
     ([("name", with_default (JStr "") (typed "string" ""));
      ("optional", typed "boolean" "")])
     [];
     def_dependencies := [] |}.

(** The schema of [ConfigMapKeySelector]. *)
Definition schema_k8sio_api_core_v1_ConfigMapKeySelector (ref : string → string) : definition :=
  {| def_schema := with_extensions [("x-kubernetes-map-type", JStr "atomic")] (object_of
     ([("name", with_default (JStr "") (typed "string" ""));
      ("key", with_default (JStr "") (typed "string" ""));
      ("optional", typed "boolean" "")])
     ["key"]);
     def_dependencies := [] |}.

(** The schema of [ConfigMapList]. *)
Definition schema_k8sio_api_core_v1_ConfigMapList (ref : string → string) : definition :=
  {| def_schema := object_of
     ([("kind", typed "string" "");
      ("apiVersion", typed "string" "");
      ("metadata", with_default (JObj []) (reference (ref "k8s.io/apimachinery/pkg/apis/meta/v1.ListMeta")));
      ("items", array_of (with_default (JObj []) (reference (ref "k8s.io/api/core/v1.ConfigMap"))))])
     ["items"];
     def_dependencies := ["k8s.io/api/core/v1.ConfigMap";
       "k8s.io/apimachinery/pkg/apis/meta/v1.ListMeta"] |}.

(** The schema of [ConfigMapNodeConfigSource]. *)
Definition schema_k8sio_api_core_v1_ConfigMapNodeConfigSource (ref : string → string) : definition :=
  {| def_schema := object_of
     ([("namespace", with_default (JStr "") (typed "string" ""));
      ("name", with_default (JStr "") (typed "string" ""));
      ("uid", typed "string" "");
      ("resourceVersion", typed "string" "");
      ("kubeletConfigKey", with_default (JStr "") (typed "string" ""))])
     ["namespace"; "name"; "kubeletConfigKey"];
     def_dependencies := [] |}.

(** The schema of [ConfigMapProjection]. *)
Definition schema_k8sio_api_core_v1_ConfigMapProjection (ref : string → string) : definition :=
  {| def_schema := object_of
     ([("name", with_default (JStr "") (typed "string" ""));
      ("items", with_extensions [("x-kubernetes-list-type", JStr "atomic")]
       (array_of (with_default (JObj []) (reference (ref "k8s.io/api/core/v1.KeyToPath")))));
      ("optional", typed "boolean" "")])
     [];
     def_dependencies := ["k8s.io/api/core/v1.KeyToPath"] |}.

(** The schema of [ConfigMapVolumeSource]. *)
Definition schema_k8sio_api_core_v1_ConfigMapVolumeSource (ref : string → string) : definition :=
  {| def_schema := object_of
     ([("name", with_default (JStr "") (typed "string" ""));
      ("items", with_extensions [("x-kubernetes-list-type", JStr "atomic")]
       (array_of (with_default (JObj []) (reference (ref "k8s.io/api/core/v1.KeyToPath")))));
      ("defaultMode", typed "integer" "int32");
      ("optional", typed "boolean" "")])
     [];
     def_dependencies := ["k8s.io/api/core/v1.KeyToPath"] |}.

(** The properties of [Container] from [name] to [resources]. *)
Definition schema_k8sio_api_core_v1_Container_1 (ref : string → string) : list (string * schema) :=
  [("name", with_default (JStr "") (typed "string" ""));
   ("image", typed "string" "");
   ("command", with_extensions [("x-kubernetes-list-type", JStr "atomic")]
       (array_of (with_default (JStr "") (typed "string" ""))));
   ("args", with_extensions [("x-kubernetes-list-type", JStr "atomic")]
       (array_of (with_default (JStr "") (typed "string" ""))));
   ("workingDir", typed "string" "");
   ("ports", with_extensions [("x-kubernetes-list-map-keys", JArr [JStr "containerPort"; JStr "protocol"]);
        ("x-kubernetes-list-type", JStr "map");
        ("x-kubernetes-patch-merge-key", JStr "containerPort");
        ("x-kubernetes-patch-strategy", JStr "merge")]
       (array_of (with_default (JObj []) (reference (ref "k8s.io/api/core/v1.ContainerPort")))));
   ("envFrom", with_extensions [("x-kubernetes-list-type", JStr "atomic")]
       (array_of (with_default (JObj []) (reference (ref "k8s.io/api/core/v1.EnvFromSource")))));
   ("env", with_extensions [("x-kubernetes-list-map-keys", JArr [JStr "name"]);
        ("x-kubernetes-list-type", JStr "map");
        ("x-kubernetes-patch-merge-key", JStr "name");
        ("x-kubernetes-patch-strategy", JStr "merge")]
       (array_of (with_default (JObj []) (reference (ref "k8s.io/api/core/v1.EnvVar")))));
   ("resources", with_default (JObj []) (reference (ref "k8s.io/api/core/v1.ResourceRequirements")))].

(** The properties of [Container] from [resizePolicy] to [imagePullPolicy]. *)
Definition schema_k8sio_api_core_v1_Container_2 (ref : string → string) : list (string * schema) :=
  [("resizePolicy", with_extensions [("x-kubernetes-list-type", JStr "atomic")]
       (array_of (with_default (JObj []) (reference (ref "k8s.io/api/core/v1.ContainerResizePolicy")))));
   ("restartPolicy", typed "string" "");
   ("restartPolicyRules", with_extensions [("x-kubernetes-list-type", JStr "atomic")]
       (array_of (with_default (JObj []) (reference (ref "k8s.io/api/core/v1.ContainerRestartRule")))));
   ("volumeMounts", with_extensions [("x-kubernetes-list-map-keys", JArr [JStr "mountPath"]);
        ("x-kubernetes-list-type", JStr "map");
        ("x-kubernetes-patch-merge-key", JStr "mountPath");
        ("x-kubernetes-patch-strategy", JStr "merge")]
       (array_of (with_default (JObj []) (reference (ref "k8s.io/api/core/v1.VolumeMount")))));
   ("volumeDevices", with_extensions [("x-kubernetes-list-map-keys", JArr [JStr "devicePath"]);
        ("x-kubernetes-list-type", JStr "map");
        ("x-kubernetes-patch-merge-key", JStr "devicePath");
        ("x-kubernetes-patch-strategy", JStr "merge")]
       (array_of (with_default (JObj []) (reference (ref "k8s.io/api/core/v1.VolumeDevice")))));
   ("livenessProbe", reference (ref "k8s.io/api/core/v1.Probe"));
   ("readinessProbe", reference (ref "k8s.io/api/core/v1.Probe"));
   ("startupProbe", reference (ref "k8s.io/api/core/v1.Probe"));
   ("lifecycle", reference (ref "k8s.io/api/core/v1.Lifecycle"));
   ("terminationMessagePath", typed "string" "");
   ("terminationMessagePolicy", with_enum ["FallbackToLogsOnError"; "File"] (typed "string" ""));
   ("imagePullPolicy", with_enum ["Always"; "IfNotPresent"; "Never"] (typed "string" ""))].

(** The properties of [Container] from [securityContext] to [tty]. *)
Definition schema_k8sio_api_core_v1_Container_3 (ref : string → string) : list (string * schema) :=
  [("securityContext", reference (ref "k8s.io/api/core/v1.SecurityContext"));
   ("stdin", typed "boolean" "");
   ("stdinOnce", typed "boolean" "");
   ("tty", typed "boolean" "")].

(** The schema of [Container]. *)
Definition schema_k8sio_api_core_v1_Container (ref : string → string) : definition :=
  {| def_schema := object_of
     (schema_k8sio_api_core_v1_Container_1 ref ++ schema_k8sio_api_core_v1_Container_2 ref ++ schema_k8sio_api_core_v1_Container_3 ref)
     ["name"];
     def_dependencies := ["k8s.io/api/core/v1.ContainerPort";
       "k8s.io/api/core/v1.ContainerResizePolicy";
       "k8s.io/api/core/v1.ContainerRestartRule";
       "k8s.io/api/core/v1.EnvFromSource";
       "k8s.io/api/core/v1.EnvVar";
       "k8s.io/api/core/v1.Lifecycle";
       "k8s.io/api/core/v1.Probe";
       "k8s.io/api/core/v1.ResourceRequirements";
       "k8s.io/api/core/v1.SecurityContext";
       "k8s.io/api/core/v1.VolumeDevice";
       "k8s.io/api/core/v1.VolumeMount"] |}.

(** The schema of [ContainerExtendedResourceRequest]. *)
Definition schema_k8sio_api_core_v1_ContainerExtendedResourceRequest (ref : string → string) : definition :=
  {| def_schema := object_of
     ([("containerName", with_default (JStr "") (typed "string" ""));
      ("resourceName", with_default (JStr "") (typed "string" ""));
      ("requestName", with_default (JStr "") (typed "string" ""))])
     ["containerName"; "resourceName"; "requestName"];
     def_dependencies := [] |}.

(** The schema of [ContainerImage]. *)
Definition schema_k8sio_api_core_v1_ContainerImage (ref : string → string) : definition :=
  {| def_schema := object_of
     ([("names", with_extensions [("x-kubernetes-list-type", JStr "atomic")]
       (array_of (with_default (JStr "") (typed "string" ""))));
      ("sizeBytes", typed "integer" "int64")])
     [];
     def_dependencies := [] |}.

(** The schema of [ContainerPort]. *)
Definition schema_k8sio_api_core_v1_ContainerPort (ref : string → string) : definition :=
  {| def_schema := object_of
     ([("name", typed "string" "");
      ("hostPort", typed "integer" "int32");
      ("containerPort", with_default (JNum 0) (typed "integer" "int32"));
      ("protocol", with_enum ["SCTP"; "TCP"; "UDP"] (with_default (JStr "TCP") (typed "string" "")));
      ("hostIP", typed "string" "")])
     ["containerPort"];
     def_dependencies := [] |}.

(** The schema of [ContainerResizePolicy]. *)
Definition schema_k8sio_api_core_v1_ContainerResizePolicy (ref : string → string) : definition :=
  {| def_schema := object_of
     ([("resourceName", with_default (JStr "") (typed "string" ""));
      ("restartPolicy", with_default (JStr "") (typed "string" ""))])
     ["resourceName"; "restartPolicy"];
     def_dependencies := [] |}.

(** The schema of [ContainerRestartRule]. *)
Definition schema_k8sio_api_core_v1_ContainerRestartRule (ref : string → string) : definition :=
  {| def_schema := object_of
     ([("action", typed "string" "");
      ("exitCodes", reference (ref "k8s.io/api/core/v1.ContainerRestartRuleOnExitCodes"))])
     [];
     def_dependencies := ["k8s.io/api/core/v1.ContainerRestartRuleOnExitCodes"] |}.

(** The schema of [ContainerRestartRuleOnExitCodes]. *)
Definition schema_k8sio_api_core_v1_ContainerRestartRuleOnExitCodes (ref : string → string) : definition :=
  {| def_schema := object_of
     ([("operator", typed "string" "");
      ("values", with_extensions [("x-kubernetes-list-type", JStr "set")]
       (array_of (with_default (JNum 0) (typed "integer" "int32"))))])
     [];
     def_dependencies := [] |}.

(** The schema of [ContainerState]. *)
Definition schema_k8sio_api_core_v1_ContainerState (ref : string → string) : definition :=
  {| def_schema := object_of
     ([("waiting", reference (ref "k8s.io/api/core/v1.ContainerStateWaiting"));
      ("running", reference (ref "k8s.io/api/core/v1.ContainerStateRunning"));
      ("terminated", reference (ref "k8s.io/api/core/v1.ContainerStateTerminated"))])
     [];
     def_dependencies := ["k8s.io/api/core/v1.ContainerStateRunning";
       "k8s.io/api/core/v1.ContainerStateTerminated";
       "k8s.io/api/core/v1.ContainerStateWaiting"] |}.

(** The schema of [ContainerStateRunning]. *)
Definition schema_k8sio_api_core_v1_ContainerStateRunning (ref : string → string) : definition :=
  {| def_schema := object_of
     ([("startedAt", reference (ref "k8s.io/apimachinery/pkg/apis/meta/v1.Time"))])
     [];
     def_dependencies := ["k8s.io/apimachinery/pkg/apis/meta/v1.Time"] |}.

(** The schema of [ContainerStateTerminated]. *)
Definition schema_k8sio_api_core_v1_ContainerStateTerminated (ref : string → string) : definition :=
  {| def_schema := object_of
     ([("exitCode", with_default (JNum 0) (typed "integer" "int32"));
      ("signal", typed "integer" "int32");
      ("reason", typed "string" "");
      ("message", typed "string" "");
      ("startedAt", reference (ref "k8s.io/apimachinery/pkg/apis/meta/v1.Time"));
      ("finishedAt", reference (ref "k8s.io/apimachinery/pkg/apis/meta/v1.Time"));
      ("containerID", typed "string" "")])
     ["exitCode"];
     def_dependencies := ["k8s.io/apimachinery/pkg/apis/meta/v1.Time"] |}.

(** The schema of [ContainerStateWaiting]. *)
Definition schema_k8sio_api_core_v1_ContainerStateWaiting (ref : string → string) : definition :=
  {| def_schema := object_of
     ([("reason", typed "string" "");
      ("message", typed "string" "")])
     [];
     def_dependencies := [] |}.

(** The properties of [ContainerStatus] from [name] to [user]. *)
Definition schema_k8sio_api_core_v1_ContainerStatus_1 (ref : string → string) : list (string * schema) :=
  [("name", with_default (JStr "") (typed "string" ""));
   ("state", with_default (JObj []) (reference (ref "k8s.io/api/core/v1.ContainerState")));
   ("lastState", with_default (JObj []) (reference (ref "k8s.io/api/core/v1.ContainerState")));
   ("ready", with_default (JBool false) (typed "boolean" ""));
   ("restartCount", with_default (JNum 0) (typed "integer" "int32"));
   ("image", with_default (JStr "") (typed "string" ""));
   ("imageID", with_default (JStr "") (typed "string" ""));
   ("containerID", typed "string" "");
   ("started", typed "boolean" "");
   ("allocatedResources", map_of (reference (ref "k8s.io/apimachinery/pkg/api/resource.Quantity")));
   ("resources", reference (ref "k8s.io/api/core/v1.ResourceRequirements"));
   ("volumeMounts", with_extensions [("x-kubernetes-list-map-keys", JArr [JStr "mountPath"]);
        ("x-kubernetes-list-type", JStr "map");
        ("x-kubernetes-patch-merge-key", JStr "mountPath");
        ("x-kubernetes-patch-strategy", JStr "merge")]
       (array_of (with_default (JObj []) (reference (ref "k8s.io/api/core/v1.VolumeMountStatus")))));
   ("user", reference (ref "k8s.io/api/core/v1.ContainerUser"))].

(** The properties of [ContainerStatus] from [allocatedResourcesStatus] to [stopSignal]. *)
Definition schema_k8sio_api_core_v1_ContainerStatus_2 (ref : string → string) : list (string * schema) :=
  [("allocatedResourcesStatus", with_extensions [("x-kubernetes-list-map-keys", JArr [JStr "name"]);
        ("x-kubernetes-list-type", JStr "map");
        ("x-kubernetes-patch-merge-key", JStr "name");
        ("x-kubernetes-patch-strategy", JStr "merge")]
       (array_of (with_default (JObj []) (reference (ref "k8s.io/api/core/v1.ResourceStatus")))));
   ("stopSignal", with_enum ["SIGABRT"; "SIGALRM"; "SIGBUS"; "SIGCHLD"; "SIGCLD"; "SIGCONT"; "SIGFPE"; "SIGHUP"; "SIGILL"; "SIGINT"; "SIGIO"; "SIGIOT"; "SIGKILL"; "SIGPIPE"; "SIGPOLL"; "SIGPROF"; "SIGPWR"; "SIGQUIT"; "SIGRTMAX"; "SIGRTMAX-1"; "SIGRTMAX-10"; "SIGRTMAX-11"; "SIGRTMAX-12"; "SIGRTMAX-13"; "SIGRTMAX-14"; "SIGRTMAX-2"; "SIGRTMAX-3"; "SIGRTMAX-4"; "SIGRTMAX-5"; "SIGRTMAX-6"; "SIGRTMAX-7"; "SIGRTMAX-8"; "SIGRTMAX-9"; "SIGRTMIN"; "SIGRTMIN+1"; "SIGRTMIN+10"; "SIGRTMIN+11"; "SIGRTMIN+12"; "SIGRTMIN+13"; "SIGRTMIN+14"; "SIGRTMIN+15"; "SIGRTMIN+2"; "SIGRTMIN+3"; "SIGRTMIN+4"; "SIGRTMIN+5"; "SIGRTMIN+6"; "SIGRTMIN+7"; "SIGRTMIN+8"; "SIGRTMIN+9"; "SIGSEGV"; "SIGSTKFLT"; "SIGSTOP"; "SIGSYS"; "SIGTERM"; "SIGTRAP"; "SIGTSTP"; "SIGTTIN"; "SIGTTOU"; "SIGURG"; "SIGUSR1"; "SIGUSR2"; "SIGVTALRM"; "SIGWINCH"; "SIGXCPU"; "SIGXFSZ"] (typed "string" ""))].

(** The schema of [ContainerStatus]. *)
Definition schema_k8sio_api_core_v1_ContainerStatus (ref : string → string) : definition :=
  {| def_schema := object_of
     (schema_k8sio_api_core_v1_ContainerStatus_1 ref ++ schema_k8sio_api_core_v1_ContainerStatus_2 ref)
     ["name"; "ready"; "restartCount"; "image"; "imageID"];
     def_dependencies := ["k8s.io/api/core/v1.ContainerState";
       "k8s.io/api/core/v1.ContainerUser";
       "k8s.io/api/core/v1.ResourceRequirements";
       "k8s.io/api/core/v1.ResourceStatus";
       "k8s.io/api/core/v1.VolumeMountStatus";
       "k8s.io/apimachinery/pkg/api/resource.Quantity"] |}.

(** The schema of [ContainerUser]. *)
Definition schema_k8sio_api_core_v1_ContainerUser (ref : string → string) : definition :=
  {| def_schema := object_of
     ([("linux", reference (ref "k8s.io/api/core/v1.LinuxContainerUser"))])
     [];
     def_dependencies := ["k8s.io/api/core/v1.LinuxContainerUser"] |}.

(** The schema of [DaemonEndpoint]. *)
Definition schema_k8sio_api_core_v1_DaemonEndpoint (ref : string → string) : definition :=
  {| def_schema := object_of
     ([("Port", with_default (JNum 0) (typed "integer" "int32"))])
     ["Port"];
     def_dependencies := [] |}.

(** The schema of [DownwardAPIProjection]. *)
Definition schema_k8sio_api_core_v1_DownwardAPIProjection (ref : string → string) : definition :=
  {| def_schema := object_of
     ([("items", with_extensions [("x-kubernetes-list-type", JStr "atomic")]
       (array_of (with_default (JObj []) (reference (ref "k8s.io/api/core/v1.DownwardAPIVolumeFile")))))])
     [];
     def_dependencies := ["k8s.io/api/core/v1.DownwardAPIVolumeFile"] |}.

(** The schema of [DownwardAPIVolumeFile]. *)
Definition schema_k8sio_api_core_v1_DownwardAPIVolumeFile (ref : string → string) : definition :=
  {| def_schema := object_of
     ([("path", with_default (JStr "") (typed "string" ""));
      ("fieldRef", reference (ref "k8s.io/api/core/v1.ObjectFieldSelector"));
      ("resourceFieldRef", reference (ref "k8s.io/api/core/v1.ResourceFieldSelector"));
      ("mode", typed "integer" "int32")])
     ["path"];
     def_dependencies := ["k8s.io/api/core/v1.ObjectFieldSelector";
       "k8s.io/api/core/v1.ResourceFieldSelector"] |}.

(** The schema of [DownwardAPIVolumeSource]. *)
Definition schema_k8sio_api_core_v1_DownwardAPIVolumeSource (ref : string → string) : definition :=
  {| def_schema := object_of
     ([("items", with_extensions [("x-kubernetes-list-type", JStr "atomic")]
       (array_of (with_default (JObj []) (reference (ref "k8s.io/api/core/v1.DownwardAPIVolumeFile")))));
      ("defaultMode", typed "integer" "int32")])
     [];
     def_dependencies := ["k8s.io/api/core/v1.DownwardAPIVolumeFile"] |}.

(** The schema of [EmptyDirVolumeSource]. *)
Definition schema_k8sio_api_core_v1_EmptyDirVolumeSource (ref : string → string) : definition :=
  {| def_schema := object_of
     ([("medium", typed "string" "");
      ("sizeLimit", reference (ref "k8s.io/apimachinery/pkg/api/resource.Quantity"))])
     [];
     def_dependencies := ["k8s.io/apimachinery/pkg/api/resource.Quantity"] |}.

(** The schema of [EndpointAddress]. *)
Definition schema_k8sio_api_core_v1_EndpointAddress (ref : string → string) : definition :=
  {| def_schema := with_extensions [("x-kubernetes-map-type", JStr "atomic")] (object_of
     ([("ip", with_default (JStr "") (typed "string" ""));
      ("hostname", typed "string" "");
      ("nodeName", typed "string" "");
      ("targetRef", reference (ref "k8s.io/api/core/v1.ObjectReference"))])
     ["ip"]);
     def_dependencies := ["k8s.io/api/core/v1.ObjectReference"] |}.

(** The schema of [EndpointPort]. *)
Definition schema_k8sio_api_core_v1_EndpointPort (ref : string → string) : definition :=
  {| def_schema := with_extensions [("x-kubernetes-map-type", JStr "atomic")] (object_of
     ([("name", typed "string" "");
      ("port", with_default (JNum 0) (typed "integer" "int32"));
      ("protocol", with_enum ["SCTP"; "TCP"; "UDP"] (typed "string" ""));
      ("appProtocol", typed "string" "")])
     ["port"]);
     def_dependencies := [] |}.

(** The schema of [EndpointSubset]. *)
Definition schema_k8sio_api_core_v1_EndpointSubset (ref : string → string) : definition :=
  {| def_schema := object_of
     ([("addresses", with_extensions [("x-kubernetes-list-type", JStr "atomic")]
       (array_of (with_default (JObj []) (reference (ref "k8s.io/api/core/v1.EndpointAddress")))));
      ("notReadyAddresses", with_extensions [("x-kubernetes-list-type", JStr "atomic")]
       (array_of (with_default (JObj []) (reference (ref "k8s.io/api/core/v1.EndpointAddress")))));
      ("ports", with_extensions [("x-kubernetes-list-type", JStr "atomic")]
       (array_of (with_default (JObj []) (reference (ref "k8s.io/api/core/v1.EndpointPort")))))])
     [];
     def_dependencies := ["k8s.io/api/core/v1.EndpointAddress";
       "k8s.io/api/core/v1.EndpointPort"] |}.

(** The schema of [Endpoints]. *)
Definition schema_k8sio_api_core_v1_Endpoints (ref : string → string) : definition :=
  {| def_schema := object_of
     ([("kind", typed "string" "");
      ("apiVersion", typed "string" "");
      ("metadata", with_default (JObj []) (reference (ref "k8s.io/apimachinery/pkg/apis/meta/v1.ObjectMeta")));
      ("subsets", with_extensions [("x-kubernetes-list-type", JStr "atomic")]
       (array_of (with_default (JObj []) (reference (ref "k8s.io/api/core/v1.EndpointSubset")))))])
     [];
     def_dependencies := ["k8s.io/api/core/v1.EndpointSubset";
       "k8s.io/apimachinery/pkg/apis/meta/v1.ObjectMeta"] |}.

(** The schema of [EndpointsList]. *)
Definition schema_k8sio_api_core_v1_EndpointsList (ref : string → string) : definition :=
  {| def_schema := object_of
     ([("kind", typed "string" "");
      ("apiVersion", typed "string" "");
      ("metadata", with_default (JObj []) (reference (ref "k8s.io/apimachinery/pkg/apis/meta/v1.ListMeta")));
      ("items", array_of (with_default (JObj []) (reference (ref "k8s.io/api/core/v1.Endpoints"))))])
     ["items"];
     def_dependencies := ["k8s.io/api/core/v1.Endpoints";
       "k8s.io/apimachinery/pkg/apis/meta/v1.ListMeta"] |}.

(** The schema of [EnvFromSource]. *)
Definition schema_k8sio_api_core_v1_EnvFromSource (ref : string → string) : definition :=
  {| def_schema := object_of
     ([("prefix", typed "string" "");
      ("configMapRef", reference (ref "k8s.io/api/core/v1.ConfigMapEnvSource"));
      ("secretRef", reference (ref "k8s.io/api/core/v1.SecretEnvSource"))])
     [];
     def_dependencies := ["k8s.io/api/core/v1.ConfigMapEnvSource";
       "k8s.io/api/core/v1.SecretEnvSource"] |}.

(** The schema of [EnvVar]. *)
Definition schema_k8sio_api_core_v1_EnvVar (ref : string → string) : definition :=
  {| def_schema := object_of
     ([("name", with_default (JStr "") (typed "string" ""));
      ("value", typed "string" "");
      ("valueFrom", reference (ref "k8s.io/api/core/v1.EnvVarSource"))])
     ["name"];
     def_dependencies := ["k8s.io/api/core/v1.EnvVarSource"] |}.

(** The entries of [GetOpenAPIDefinitions] for these types. *)
Definition core_1_definitions (ref : string → string) : list (string * definition) :=
  [("k8s.io/api/core/v1.AWSElasticBlockStoreVolumeSource", schema_k8sio_api_core_v1_AWSElasticBlockStoreVolumeSource ref);
   ("k8s.io/api/core/v1.Affinity", schema_k8sio_api_core_v1_Affinity ref);
   ("k8s.io/api/core/v1.AppArmorProfile", schema_k8sio_api_core_v1_AppArmorProfile ref);
   ("k8s.io/api/core/v1.AttachedVolume", schema_k8sio_api_core_v1_AttachedVolume ref);
   ("k8s.io/api/core/v1.AvoidPods", schema_k8sio_api_core_v1_AvoidPods ref);
   ("k8s.io/api/core/v1.AzureDiskVolumeSource", schema_k8sio_api_core_v1_AzureDiskVolumeSource ref);
   ("k8s.io/api/core/v1.AzureFilePersistentVolumeSource", schema_k8sio_api_core_v1_AzureFilePersistentVolumeSource ref);
   ("k8s.io/api/core/v1.AzureFileVolumeSource", schema_k8sio_api_core_v1_AzureFileVolumeSource ref);
   ("k8s.io/api/core/v1.Binding", schema_k8sio_api_core_v1_Binding ref);
   ("k8s.io/api/core/v1.CSIPersistentVolumeSource", schema_k8sio_api_core_v1_CSIPersistentVolumeSource ref);
   ("k8s.io/api/core/v1.CSIVolumeSource", schema_k8sio_api_core_v1_CSIVolumeSource ref);
   ("k8s.io/api/core/v1.Capabilities", schema_k8sio_api_core_v1_Capabilities ref);
   ("k8s.io/api/core/v1.CephFSPersistentVolumeSource", schema_k8sio_api_core_v1_CephFSPersistentVolumeSource ref);
   ("k8s.io/api/core/v1.CephFSVolumeSource", schema_k8sio_api_core_v1_CephFSVolumeSource ref);
   ("k8s.io/api/core/v1.CinderPersistentVolumeSource", schema_k8sio_api_core_v1_CinderPersistentVolumeSource ref);
   ("k8s.io/api/core/v1.CinderVolumeSource", schema_k8sio_api_core_v1_CinderVolumeSource ref);
   ("k8s.io/api/core/v1.ClientIPConfig", schema_k8sio_api_core_v1_ClientIPConfig ref);
   ("k8s.io/api/core/v1.ClusterTrustBundleProjection", schema_k8sio_api_core_v1_ClusterTrustBundleProjection ref);
   ("k8s.io/api/core/v1.ComponentCondition", schema_k8sio_api_core_v1_ComponentCondition ref);
   ("k8s.io/api/core/v1.ComponentStatus", schema_k8sio_api_core_v1_ComponentStatus ref);
   ("k8s.io/api/core/v1.ComponentStatusList", schema_k8sio_api_core_v1_ComponentStatusList ref);
   ("k8s.io/api/core/v1.ConfigMap", schema_k8sio_api_core_v1_ConfigMap ref);
   ("k8s.io/api/core/v1.ConfigMapEnvSource", schema_k8sio_api_core_v1_ConfigMapEnvSource ref);
   ("k8s.io/api/core/v1.ConfigMapKeySelector", schema_k8sio_api_core_v1_ConfigMapKeySelector ref);
   ("k8s.io/api/core/v1.ConfigMapList", schema_k8sio_api_core_v1_ConfigMapList ref);
   ("k8s.io/api/core/v1.ConfigMapNodeConfigSource", schema_k8sio_api_core_v1_ConfigMapNodeConfigSource ref);
   ("k8s.io/api/core/v1.ConfigMapProjection", schema_k8sio_api_core_v1_ConfigMapProjection ref);
   ("k8s.io/api/core/v1.ConfigMapVolumeSource", schema_k8sio_api_core_v1_ConfigMapVolumeSource ref);
   ("k8s.io/api/core/v1.Container", schema_k8sio_api_core_v1_Container ref);
   ("k8s.io/api/core/v1.ContainerExtendedResourceRequest", schema_k8sio_api_core_v1_ContainerExtendedResourceRequest ref);
   ("k8s.io/api/core/v1.ContainerImage", schema_k8sio_api_core_v1_ContainerImage ref);
   ("k8s.io/api/core/v1.ContainerPort", schema_k8sio_api_core_v1_ContainerPort ref);
   ("k8s.io/api/core/v1.ContainerResizePolicy", schema_k8sio_api_core_v1_ContainerResizePolicy ref);
   ("k8s.io/api/core/v1.ContainerRestartRule", schema_k8sio_api_core_v1_ContainerRestartRule ref);
   ("k8s.io/api/core/v1.ContainerRestartRuleOnExitCodes", schema_k8sio_api_core_v1_ContainerRestartRuleOnExitCodes ref);
   ("k8s.io/api/core/v1.ContainerState", schema_k8sio_api_core_v1_ContainerState ref);
   ("k8s.io/api/core/v1.ContainerStateRunning", schema_k8sio_api_core_v1_ContainerStateRunning ref);
   ("k8s.io/api/core/v1.ContainerStateTerminated", schema_k8sio_api_core_v1_ContainerStateTerminated ref);
   ("k8s.io/api/core/v1.ContainerStateWaiting", schema_k8sio_api_core_v1_ContainerStateWaiting ref);
   ("k8s.io/api/core/v1.ContainerStatus", schema_k8sio_api_core_v1_ContainerStatus ref);
   ("k8s.io/api/core/v1.ContainerUser", schema_k8sio_api_core_v1_ContainerUser ref);
   ("k8s.io/api/core/v1.DaemonEndpoint", schema_k8sio_api_core_v1_DaemonEndpoint ref);
   ("k8s.io/api/core/v1.DownwardAPIProjection", schema_k8sio_api_core_v1_DownwardAPIProjection ref);
   ("k8s.io/api/core/v1.DownwardAPIVolumeFile", schema_k8sio_api_core_v1_DownwardAPIVolumeFile ref);
   ("k8s.io/api/core/v1.DownwardAPIVolumeSource", schema_k8sio_api_core_v1_DownwardAPIVolumeSource ref);
   ("k8s.io/api/core/v1.EmptyDirVolumeSource", schema_k8sio_api_core_v1_EmptyDirVolumeSource ref);
   ("k8s.io/api/core/v1.EndpointAddress", schema_k8sio_api_core_v1_EndpointAddress ref);
   ("k8s.io/api/core/v1.EndpointPort", schema_k8sio_api_core_v1_EndpointPort ref);
   ("k8s.io/api/core/v1.EndpointSubset", schema_k8sio_api_core_v1_EndpointSubset ref);
   ("k8s.io/api/core/v1.Endpoints", schema_k8sio_api_core_v1_Endpoints ref);
   ("k8s.io/api/core/v1.EndpointsList", schema_k8sio_api_core_v1_EndpointsList ref);
   ("k8s.io/api/core/v1.EnvFromSource", schema_k8sio_api_core_v1_EnvFromSource ref);
   ("k8s.io/api/core/v1.EnvVar", schema_k8sio_api_core_v1_EnvVar ref)].
