(* ===== verification/SchemasCore2.v ===== *)
(** * Published schemas of library types: core 2

    The definitions [openapi_generated.go] publishes for the core group, from [EnvVarSource] to [Node], without
    their descriptions. *)

From S2P Require Import Prelude Types Json Schema.

(** The schema of [EnvVarSource]. *)
Definition schema_k8sio_api_core_v1_EnvVarSource (ref : string → string) : definition :=
  {| def_schema := object_of
     ([("fieldRef", reference (ref "k8s.io/api/core/v1.ObjectFieldSelector"));
      ("resourceFieldRef", reference (ref "k8s.io/api/core/v1.ResourceFieldSelector"));
      ("configMapKeyRef", reference (ref "k8s.io/api/core/v1.ConfigMapKeySelector"));
      ("secretKeyRef", reference (ref "k8s.io/api/core/v1.SecretKeySelector"));
      ("fileKeyRef", reference (ref "k8s.io/api/core/v1.FileKeySelector"))])
     [];
     def_dependencies := ["k8s.io/api/core/v1.ConfigMapKeySelector";
       "k8s.io/api/core/v1.FileKeySelector";
       "k8s.io/api/core/v1.ObjectFieldSelector";
       "k8s.io/api/core/v1.ResourceFieldSelector";
       "k8s.io/api/core/v1.SecretKeySelector"] |}.

(** The properties of [EphemeralContainer] from [name] to [resources]. *)
Definition schema_k8sio_api_core_v1_EphemeralContainer_1 (ref : string → string) : list (string * schema) :=
  [("name", with_default (JStr "") (typed "string" ""));
   ("image", typed "string" "");
   ("command", with_extensions [("x-kubernetes-list-type", JStr "atomic")]
       (array_of (with_default (JStr "") (typed "string" ""))));
   ("args", with_extensions [("x-kubernetes-list-type", JStr "atomic")]
       (array_of (with_default (JStr "") (typed "string" ""))));
   ("workingDir", typed "string" "");
   ("ports", with_extensions [("x-kubernetes-list-map-keys", JArr [JStr "containerPort"; JStr "protocol"]);
        ("x-kubernetes-list-type", JStr "map");
        ("x-kubernetes-patch-merge-key", JStr "containerPort");
        ("x-kubernetes-patch-strategy", JStr "merge")]
       (array_of (with_default (JObj []) (reference (ref "k8s.io/api/core/v1.ContainerPort")))));
   ("envFrom", with_extensions [("x-kubernetes-list-type", JStr "atomic")]
       (array_of (with_default (JObj []) (reference (ref "k8s.io/api/core/v1.EnvFromSource")))));
   ("env", with_extensions [("x-kubernetes-list-map-keys", JArr [JStr "name"]);
        ("x-kubernetes-list-type", JStr "map");
        ("x-kubernetes-patch-merge-key", JStr "name");
        ("x-kubernetes-patch-strategy", JStr "merge")]
       (array_of (with_default (JObj []) (reference (ref "k8s.io/api/core/v1.EnvVar")))));
   ("resources", with_default (JObj []) (reference (ref "k8s.io/api/core/v1.ResourceRequirements")))].

(** The properties of [EphemeralContainer] from [resizePolicy] to [imagePullPolicy]. *)
Definition schema_k8sio_api_core_v1_EphemeralContainer_2 (ref : string → string) : list (string * schema) :=
  [("resizePolicy", with_extensions [("x-kubernetes-list-type", JStr "atomic")]
       (array_of (with_default (JObj []) (reference (ref "k8s.io/api/core/v1.ContainerResizePolicy")))));
   ("restartPolicy", typed "string" "");
   ("restartPolicyRules", with_extensions [("x-kubernetes-list-type", JStr "atomic")]
       (array_of (with_default (JObj []) (reference (ref "k8s.io/api/core/v1.ContainerRestartRule")))));
   ("volumeMounts", with_extensions [("x-kubernetes-list-map-keys", JArr [JStr "mountPath"]);
        ("x-kubernetes-list-type", JStr "map");
        ("x-kubernetes-patch-merge-key", JStr "mountPath");
        ("x-kubernetes-patch-strategy", JStr "merge")]
       (array_of (with_default (JObj []) (reference (ref "k8s.io/api/core/v1.VolumeMount")))));
   ("volumeDevices", with_extensions [("x-kubernetes-list-map-keys", JArr [JStr "devicePath"]);
        ("x-kubernetes-list-type", JStr "map");
        ("x-kubernetes-patch-merge-key", JStr "devicePath");
        ("x-kubernetes-patch-strategy", JStr "merge")]
       (array_of (with_default (JObj []) (reference (ref "k8s.io/api/core/v1.VolumeDevice")))));
   ("livenessProbe", reference (ref "k8s.io/api/core/v1.Probe"));
   ("readinessProbe", reference (ref "k8s.io/api/core/v1.Probe"));
   ("startupProbe", reference (ref "k8s.io/api/core/v1.Probe"));
   ("lifecycle", reference (ref "k8s.io/api/core/v1.Lifecycle"));
   ("terminationMessagePath", typed "string" "");
   ("terminationMessagePolicy", with_enum ["FallbackToLogsOnError"; "File"] (typed "string" ""));
   ("imagePullPolicy", with_enum ["Always"; "IfNotPresent"; "Never"] (typed "string" ""))].

(** The properties of [EphemeralContainer] from [securityContext] to [targetContainerName]. *)
Definition schema_k8sio_api_core_v1_EphemeralContainer_3 (ref : string → string) : list (string * schema) :=
  [("securityContext", reference (ref "k8s.io/api/core/v1.SecurityContext"));
   ("stdin", typed "boolean" "");
   ("stdinOnce", typed "boolean" "");
   ("tty", typed "boolean" "");
   ("targetContainerName", typed "string" "")].

(** The schema of [EphemeralContainer]. *)
Definition schema_k8sio_api_core_v1_EphemeralContainer (ref : string → string) : definition :=
  {| def_schema := object_of
     (schema_k8sio_api_core_v1_EphemeralContainer_1 ref ++ schema_k8sio_api_core_v1_EphemeralContainer_2 ref ++ schema_k8sio_api_core_v1_EphemeralContainer_3 ref)
     ["name"];
     def_dependencies := ["k8s.io/api/core/v1.ContainerPort";
       "k8s.io/api/core/v1.ContainerResizePolicy";
       "k8s.io/api/core/v1.ContainerRestartRule";
       "k8s.io/api/core/v1.EnvFromSource";
       "k8s.io/api/core/v1.EnvVar";
       "k8s.io/api/core/v1.Lifecycle";
       "k8s.io/api/core/v1.Probe";
       "k8s.io/api/core/v1.ResourceRequirements";
       "k8s.io/api/core/v1.SecurityContext";
       "k8s.io/api/core/v1.VolumeDevice";
       "k8s.io/api/core/v1.VolumeMount"] |}.

(** The properties of [EphemeralContainerCommon] from [name] to [resources]. *)
Definition schema_k8sio_api_core_v1_EphemeralContainerCommon_1 (ref : string → string) : list (string * schema) :=
  [("name", with_default (JStr "") (typed "string" ""));
   ("image", typed "string" "");
   ("command", with_extensions [("x-kubernetes-list-type", JStr "atomic")]
       (array_of (with_default (JStr "") (typed "string" ""))));
   ("args", with_extensions [("x-kubernetes-list-type", JStr "atomic")]
       (array_of (with_default (JStr "") (typed "string" ""))));
   ("workingDir", typed "string" "");
   ("ports", with_extensions [("x-kubernetes-list-map-keys", JArr [JStr "containerPort"; JStr "protocol"]);
        ("x-kubernetes-list-type", JStr "map");
        ("x-kubernetes-patch-merge-key", JStr "containerPort");
        ("x-kubernetes-patch-strategy", JStr "merge")]
       (array_of (with_default (JObj []) (reference (ref "k8s.io/api/core/v1.ContainerPort")))));
   ("envFrom", with_extensions [("x-kubernetes-list-type", JStr "atomic")]
       (array_of (with_default (JObj []) (reference (ref "k8s.io/api/core/v1.EnvFromSource")))));
   ("env", with_extensions [("x-kubernetes-list-map-keys", JArr [JStr "name"]);
        ("x-kubernetes-list-type", JStr "map");
        ("x-kubernetes-patch-merge-key", JStr "name");
        ("x-kubernetes-patch-strategy", JStr "merge")]
       (array_of (with_default (JObj []) (reference (ref "k8s.io/api/core/v1.EnvVar")))));
   ("resources", with_default (JObj []) (reference (ref "k8s.io/api/core/v1.ResourceRequirements")))].

(** The properties of [EphemeralContainerCommon] from [resizePolicy] to [imagePullPolicy]. *)
Definition schema_k8sio_api_core_v1_EphemeralContainerCommon_2 (ref : string → string) : list (string * schema) :=
  [("resizePolicy", with_extensions [("x-kubernetes-list-type", JStr "atomic")]
       (array_of (with_default (JObj []) (reference (ref "k8s.io/api/core/v1.ContainerResizePolicy")))));
   ("restartPolicy", typed "string" "");
   ("restartPolicyRules", with_extensions [("x-kubernetes-list-type", JStr "atomic")]
       (array_of (with_default (JObj []) (reference (ref "k8s.io/api/core/v1.ContainerRestartRule")))));
   ("volumeMounts", with_extensions [("x-kubernetes-list-map-keys", JArr [JStr "mountPath"]);
        ("x-kubernetes-list-type", JStr "map");
        ("x-kubernetes-patch-merge-key", JStr "mountPath");
        ("x-kubernetes-patch-strategy", JStr "merge")]
       (array_of (with_default (JObj []) (reference (ref "k8s.io/api/core/v1.VolumeMount")))));
   ("volumeDevices", with_extensions [("x-kubernetes-list-map-keys", JArr [JStr "devicePath"]);
        ("x-kubernetes-list-type", JStr "map");
        ("x-kubernetes-patch-merge-key", JStr "devicePath");
        ("x-kubernetes-patch-strategy", JStr "merge")]
       (array_of (with_default (JObj []) (reference (ref "k8s.io/api/core/v1.VolumeDevice")))));
   ("livenessProbe", reference (ref "k8s.io/api/core/v1.Probe"));
   ("readinessProbe", reference (ref "k8s.io/api/core/v1.Probe"));
   ("startupProbe", reference (ref "k8s.io/api/core/v1.Probe"));
   ("lifecycle", reference (ref "k8s.io/api/core/v1.Lifecycle"));
   ("terminationMessagePath", typed "string" "");
   ("terminationMessagePolicy", with_enum ["FallbackToLogsOnError"; "File"] (typed "string" ""));
   ("imagePullPolicy", with_enum ["Always"; "IfNotPresent"; "Never"] (typed "string" ""))].

(** The properties of [EphemeralContainerCommon] from [securityContext] to [tty]. *)
Definition schema_k8sio_api_core_v1_EphemeralContainerCommon_3 (ref : string → string) : list (string * schema) :=
  [("securityContext", reference (ref "k8s.io/api/core/v1.SecurityContext"));
   ("stdin", typed "boolean" "");
   ("stdinOnce", typed "boolean" "");
   ("tty", typed "boolean" "")].

(** The schema of [EphemeralContainerCommon]. *)
Definition schema_k8sio_api_core_v1_EphemeralContainerCommon (ref : string → string) : definition :=
  {| def_schema := object_of
     (schema_k8sio_api_core_v1_EphemeralContainerCommon_1 ref ++ schema_k8sio_api_core_v1_EphemeralContainerCommon_2 ref ++ schema_k8sio_api_core_v1_EphemeralContainerCommon_3 ref)
     ["name"];
     def_dependencies := ["k8s.io/api/core/v1.ContainerPort";
       "k8s.io/api/core/v1.ContainerResizePolicy";
       "k8s.io/api/core/v1.ContainerRestartRule";
       "k8s.io/api/core/v1.EnvFromSource";
       "k8s.io/api/core/v1.EnvVar";
       "k8s.io/api/core/v1.Lifecycle";
       "k8s.io/api/core/v1.Probe";
       "k8s.io/api/core/v1.ResourceRequirements";
       "k8s.io/api/core/v1.SecurityContext";
       "k8s.io/api/core/v1.VolumeDevice";
       "k8s.io/api/core/v1.VolumeMount"] |}.

(** The schema of [EphemeralVolumeSource]. *)
Definition schema_k8sio_api_core_v1_EphemeralVolumeSource (ref : string → string) : definition :=
  {| def_schema := object_of
     ([("volumeClaimTemplate", reference (ref "k8s.io/api/core/v1.PersistentVolumeClaimTemplate"))])
     [];
     def_dependencies := ["k8s.io/api/core/v1.PersistentVolumeClaimTemplate"] |}.

(** The schema of [Event]. *)
Definition schema_k8sio_api_core_v1_Event (ref : string → string) : definition :=
  {| def_schema := object_of
     ([("kind", typed "string" "");
      ("apiVersion", typed "string" "");
      ("metadata", with_default (JObj []) (reference (ref "k8s.io/apimachinery/pkg/apis/meta/v1.ObjectMeta")));
      ("involvedObject", with_default (JObj []) (reference (ref "k8s.io/api/core/v1.ObjectReference")));
      ("reason", typed "string" "");
      ("message", typed "string" "");
      ("source", with_default (JObj []) (reference (ref "k8s.io/api/core/v1.EventSource")));
      ("firstTimestamp", reference (ref "k8s.io/apimachinery/pkg/apis/meta/v1.Time"));
      ("lastTimestamp", reference (ref "k8s.io/apimachinery/pkg/apis/meta/v1.Time"));
      ("count", typed "integer" "int32");
      ("type", typed "string" "");
      ("eventTime", reference (ref "k8s.io/apimachinery/pkg/apis/meta/v1.MicroTime"));
      ("series", reference (ref "k8s.io/api/core/v1.EventSeries"));
      ("action", typed "string" "");
      ("related", reference (ref "k8s.io/api/core/v1.ObjectReference"));
      ("reportingComponent", with_default (JStr "") (typed "string" ""));
      ("reportingInstance", with_default (JStr "") (typed "string" ""))])
     ["metadata"; "involvedObject"];
     def_dependencies := ["k8s.io/api/core/v1.EventSeries";
       "k8s.io/api/core/v1.EventSource";
       "k8s.io/api/core/v1.ObjectReference";
       "k8s.io/apimachinery/pkg/apis/meta/v1.MicroTime";
       "k8s.io/apimachinery/pkg/apis/meta/v1.ObjectMeta";
       "k8s.io/apimachinery/pkg/apis/meta/v1.Time"] |}.

(** The schema of [EventList]. *)
Definition schema_k8sio_api_core_v1_EventList (ref : string → string) : definition :=
  {| def_schema := object_of
     ([("kind", typed "string" "");
      ("apiVersion", typed "string" "");
      ("metadata", with_default (JObj []) (reference (ref "k8s.io/apimachinery/pkg/apis/meta/v1.ListMeta")));
      ("items", array_of (with_default (JObj []) (reference (ref "k8s.io/api/core/v1.Event"))))])
     ["items"];
     def_dependencies := ["k8s.io/api/core/v1.Event";
       "k8s.io/apimachinery/pkg/apis/meta/v1.ListMeta"] |}.

(** The schema of [EventSeries]. *)
Definition schema_k8sio_api_core_v1_EventSeries (ref : string → string) : definition :=
  {| def_schema := object_of
     ([("count", typed "integer" "int32");
      ("lastObservedTime", reference (ref "k8s.io/apimachinery/pkg/apis/meta/v1.MicroTime"))])
     [];
     def_dependencies := ["k8s.io/apimachinery/pkg/apis/meta/v1.MicroTime"] |}.

(** The schema of [EventSource]. *)
Definition schema_k8sio_api_core_v1_EventSource (ref : string → string) : definition :=
  {| def_schema := object_of
     ([("component", typed "string" "");
      ("host", typed "string" "")])
     [];
     def_dependencies := [] |}.

(** The schema of [ExecAction]. *)
Definition schema_k8sio_api_core_v1_ExecAction (ref : string → string) : definition :=
  {| def_schema := object_of
     ([("command", with_extensions [("x-kubernetes-list-type", JStr "atomic")]
       (array_of (with_default (JStr "") (typed "string" ""))))])
     [];
     def_dependencies := [] |}.

(** The schema of [FCVolumeSource]. *)
Definition schema_k8sio_api_core_v1_FCVolumeSource (ref : string → string) : definition :=
  {| def_schema := object_of
     ([("targetWWNs", with_extensions [("x-kubernetes-list-type", JStr "atomic")]
       (array_of (with_default (JStr "") (typed "string" ""))));
      ("lun", typed "integer" "int32");
      ("fsType", typed "string" "");
      ("readOnly", typed "boolean" "");
      ("wwids", with_extensions [("x-kubernetes-list-type", JStr "atomic")]
       (array_of (with_default (JStr "") (typed "string" ""))))])
     [];
     def_dependencies := [] |}.

(** The schema of [FileKeySelector]. *)
Definition schema_k8sio_api_core_v1_FileKeySelector (ref : string → string) : definition :=
  {| def_schema := with_extensions [("x-kubernetes-map-type", JStr "atomic")] (object_of
     ([("volumeName", with_default (JStr "") (typed "string" ""));
      ("path", with_default (JStr "") (typed "string" ""));
      ("key", with_default (JStr "") (typed "string" ""));
      ("optional", with_default (JBool false) (typed "boolean" ""))])
     ["volumeName"; "path"; "key"]);
     def_dependencies := [] |}.

(** The schema of [FlexPersistentVolumeSource]. *)
Definition schema_k8sio_api_core_v1_FlexPersistentVolumeSource (ref : string → string) : definition :=
  {| def_schema := object_of
     ([("driver", with_default (JStr "") (typed "string" ""));
      ("fsType", typed "string" "");
      ("secretRef", reference (ref "k8s.io/api/core/v1.SecretReference"));
      ("readOnly", typed "boolean" "");
      ("options", map_of (with_default (JStr "") (typed "string" "")))])
     ["driver"];
     def_dependencies := ["k8s.io/api/core/v1.SecretReference"] |}.

(** The schema of [FlexVolumeSource]. *)
Definition schema_k8sio_api_core_v1_FlexVolumeSource (ref : string → string) : definition :=
  {| def_schema := object_of
     ([("driver", with_default (JStr "") (typed "string" ""));
      ("fsType", typed "string" "");
      ("secretRef", reference (ref "k8s.io/api/core/v1.LocalObjectReference"));
      ("readOnly", typed "boolean" "");
      ("options", map_of (with_default (JStr "") (typed "string" "")))])
     ["driver"];
     def_dependencies := ["k8s.io/api/core/v1.LocalObjectReference"] |}.

(** The schema of [FlockerVolumeSource]. *)
Definition schema_k8sio_api_core_v1_FlockerVolumeSource (ref : string → string) : definition :=
  {| def_schema := object_of
     ([("datasetName", typed "string" "");
      ("datasetUUID", typed "string" "")])
     [];
     def_dependencies := [] |}.

(** The schema of [GCEPersistentDiskVolumeSource]. *)
Definition schema_k8sio_api_core_v1_GCEPersistentDiskVolumeSource (ref : string → string) : definition :=
  {| def_schema := object_of
     ([("pdName", with_default (JStr "") (typed "string" ""));
      ("fsType", typed "string" "");
      ("partition", typed "integer" "int32");
      ("readOnly", typed "boolean" "")])
     ["pdName"];
     def_dependencies := [] |}.

(** The schema of [GRPCAction]. *)
Definition schema_k8sio_api_core_v1_GRPCAction (ref : string → string) : definition :=
  {| def_schema := object_of
     ([("port", with_default (JNum 0) (typed "integer" "int32"));
      ("service", with_default (JStr "") (typed "string" ""))])
     ["port"];
     def_dependencies := [] |}.

(** The schema of [GitRepoVolumeSource]. *)
Definition schema_k8sio_api_core_v1_GitRepoVolumeSource (ref : string → string) : definition :=
  {| def_schema := object_of
     ([("repository", with_default (JStr "") (typed "string" ""));
      ("revision", typed "string" "");
      ("directory", typed "string" "")])
     ["repository"];
     def_dependencies := [] |}.

(** The schema of [GlusterfsPersistentVolumeSource]. *)
Definition schema_k8sio_api_core_v1_GlusterfsPersistentVolumeSource (ref : string → string) : definition :=
  {| def_schema := object_of
     ([("endpoints", with_default (JStr "") (typed "string" ""));
      ("path", with_default (JStr "") (typed "string" ""));
      ("readOnly", typed "boolean" "");
      ("endpointsNamespace", typed "string" "")])
     ["endpoints"; "path"];
     def_dependencies := [] |}.

(** The schema of [GlusterfsVolumeSource]. *)
Definition schema_k8sio_api_core_v1_GlusterfsVolumeSource (ref : string → string) : definition :=
  {| def_schema := object_of
     ([("endpoints", with_default (JStr "") (typed "string" ""));
      ("path", with_default (JStr "") (typed "string" ""));
      ("readOnly", typed "boolean" "")])
     ["endpoints"; "path"];
     def_dependencies := [] |}.

(** The schema of [HTTPGetAction]. *)
Definition schema_k8sio_api_core_v1_HTTPGetAction (ref : string → string) : definition :=
  {| def_schema := object_of
     ([("path", typed "string" "");
      ("port", reference (ref "k8s.io/apimachinery/pkg/util/intstr.IntOrString"));
      ("host", typed "string" "");
      ("scheme", with_enum ["HTTP"; "HTTPS"] (typed "string" ""));
      ("httpHeaders", with_extensions [("x-kubernetes-list-type", JStr "atomic")]
       (array_of (with_default (JObj []) (reference (ref "k8s.io/api/core/v1.HTTPHeader")))))])
     ["port"];
     def_dependencies := ["k8s.io/api/core/v1.HTTPHeader";
       "k8s.io/apimachinery/pkg/util/intstr.IntOrString"] |}.

(** The schema of [HTTPHeader]. *)
Definition schema_k8sio_api_core_v1_HTTPHeader (ref : string → string) : definition :=
  {| def_schema := object_of
     ([("name", with_default (JStr "") (typed "string" ""));
      ("value", with_default (JStr "") (typed "string" ""))])
     ["name"; "value"];
     def_dependencies := [] |}.

(** The schema of [HostAlias]. *)
Definition schema_k8sio_api_core_v1_HostAlias (ref : string → string) : definition :=
  {| def_schema := object_of
     ([("ip", with_default (JStr "") (typed "string" ""));
      ("hostnames", with_extensions [("x-kubernetes-list-type", JStr "atomic")]
       (array_of (with_default (JStr "") (typed "string" ""))))])
     ["ip"];
     def_dependencies := [] |}.

(** The schema of [HostIP]. *)
Definition schema_k8sio_api_core_v1_HostIP (ref : string → string) : definition :=
  {| def_schema := object_of
     ([("ip", with_default (JStr "") (typed "string" ""))])
     ["ip"];
     def_dependencies := [] |}.

(** The schema of [HostPathVolumeSource]. *)
Definition schema_k8sio_api_core_v1_HostPathVolumeSource (ref : string → string) : definition :=
  {| def_schema := object_of
     ([("path", with_default (JStr "") (typed "string" ""));
      ("type", with_enum [""; "BlockDevice"; "CharDevice"; "Directory"; "DirectoryOrCreate"; "File"; "FileOrCreate"; "Socket"] (typed "string" ""))])
     ["path"];
     def_dependencies := [] |}.

(** The schema of [ISCSIPersistentVolumeSource]. *)
Definition schema_k8sio_api_core_v1_ISCSIPersistentVolumeSource (ref : string → string) : definition :=
  {| def_schema := object_of
     ([("targetPortal", with_default (JStr "") (typed "string" ""));
      ("iqn", with_default (JStr "") (typed "string" ""));
      ("lun", with_default (JNum 0) (typed "integer" "int32"));
      ("iscsiInterface", with_default (JStr "default") (typed "string" ""));
      ("fsType", typed "string" "");
      ("readOnly", typed "boolean" "");
      ("portals", with_extensions [("x-kubernetes-list-type", JStr "atomic")]
       (array_of (with_default (JStr "") (typed "string" ""))));
      ("chapAuthDiscovery", typed "boolean" "");
      ("chapAuthSession", typed "boolean" "");
      ("secretRef", reference (ref "k8s.io/api/core/v1.SecretReference"));
      ("initiatorName", typed "string" "")])
     ["targetPortal"; "iqn"; "lun"];
     def_dependencies := ["k8s.io/api/core/v1.SecretReference"] |}.

(** The schema of [ISCSIVolumeSource]. *)
Definition schema_k8sio_api_core_v1_ISCSIVolumeSource (ref : string → string) : definition :=
  {| def_schema := object_of
     ([("targetPortal", with_default (JStr "") (typed "string" ""));
      ("iqn", with_default (JStr "") (typed "string" ""));
      ("lun", with_default (JNum 0) (typed "integer" "int32"));
      ("iscsiInterface", with_default (JStr "default") (typed "string" ""));
      ("fsType", typed "string" "");
      ("readOnly", typed "boolean" "");
      ("portals", with_extensions [("x-kubernetes-list-type", JStr "atomic")]
       (array_of (with_default (JStr "") (typed "string" ""))));
      ("chapAuthDiscovery", typed "boolean" "");
      ("chapAuthSession", typed "boolean" "");
      ("secretRef", reference (ref "k8s.io/api/core/v1.LocalObjectReference"));
      ("initiatorName", typed "string" "")])
     ["targetPortal"; "iqn"; "lun"];
     def_dependencies := ["k8s.io/api/core/v1.LocalObjectReference"] |}.

(** The schema of [ImageVolumeSource]. *)
Definition schema_k8sio_api_core_v1_ImageVolumeSource (ref : string → string) : definition :=
  {| def_schema := object_of
     ([("reference", typed "string" "");
      ("pullPolicy", with_enum ["Always"; "IfNotPresent"; "Never"] (typed "string" ""))])
     [];
     def_dependencies := [] |}.

(** The schema of [KeyToPath]. *)
Definition schema_k8sio_api_core_v1_KeyToPath (ref : string → string) : definition :=
  {| def_schema := object_of
     ([("key", with_default (JStr "") (typed "string" ""));
      ("path", with_default (JStr "") (typed "string" ""));
      ("mode", typed "integer" "int32")])
     ["key"; "path"];
     def_dependencies := [] |}.

(** The schema of [Lifecycle]. *)
Definition schema_k8sio_api_core_v1_Lifecycle (ref : string → string) : definition :=
  {| def_schema := object_of
     ([("postStart", reference (ref "k8s.io/api/core/v1.LifecycleHandler"));
      ("preStop", reference (ref "k8s.io/api/core/v1.LifecycleHandler"));
      ("stopSignal", with_enum ["SIGABRT"; "SIGALRM"; "SIGBUS"; "SIGCHLD"; "SIGCLD"; "SIGCONT"; "SIGFPE"; "SIGHUP"; "SIGILL"; "SIGINT"; "SIGIO"; "SIGIOT"; "SIGKILL"; "SIGPIPE"; "SIGPOLL"; "SIGPROF"; "SIGPWR"; "SIGQUIT"; "SIGRTMAX"; "SIGRTMAX-1"; "SIGRTMAX-10"; "SIGRTMAX-11"; "SIGRTMAX-12"; "SIGRTMAX-13"; "SIGRTMAX-14"; "SIGRTMAX-2"; "SIGRTMAX-3"; "SIGRTMAX-4"; "SIGRTMAX-5"; "SIGRTMAX-6"; "SIGRTMAX-7"; "SIGRTMAX-8"; "SIGRTMAX-9"; "SIGRTMIN"; "SIGRTMIN+1"; "SIGRTMIN+10"; "SIGRTMIN+11"; "SIGRTMIN+12"; "SIGRTMIN+13"; "SIGRTMIN+14"; "SIGRTMIN+15"; "SIGRTMIN+2"; "SIGRTMIN+3"; "SIGRTMIN+4"; "SIGRTMIN+5"; "SIGRTMIN+6"; "SIGRTMIN+7"; "SIGRTMIN+8"; "SIGRTMIN+9"; "SIGSEGV"; "SIGSTKFLT"; "SIGSTOP"; "SIGSYS"; "SIGTERM"; "SIGTRAP"; "SIGTSTP"; "SIGTTIN"; "SIGTTOU"; "SIGURG"; "SIGUSR1"; "SIGUSR2"; "SIGVTALRM"; "SIGWINCH"; "SIGXCPU"; "SIGXFSZ"] (typed "string" ""))])
     [];
     def_dependencies := ["k8s.io/api/core/v1.LifecycleHandler"] |}.

(** The schema of [LifecycleHandler]. *)
Definition schema_k8sio_api_core_v1_LifecycleHandler (ref : string → string) : definition :=
  {| def_schema := object_of
     ([("exec", reference (ref "k8s.io/api/core/v1.ExecAction"));
      ("httpGet", reference (ref "k8s.io/api/core/v1.HTTPGetAction"));
      ("tcpSocket", reference (ref "k8s.io/api/core/v1.TCPSocketAction"));
      ("sleep", reference (ref "k8s.io/api/core/v1.SleepAction"))])
     [];
     def_dependencies := ["k8s.io/api/core/v1.ExecAction";
       "k8s.io/api/core/v1.HTTPGetAction";
       "k8s.io/api/core/v1.SleepAction";
       "k8s.io/api/core/v1.TCPSocketAction"] |}.

(** The schema of [LimitRange]. *)
Definition schema_k8sio_api_core_v1_LimitRange (ref : string → string) : definition :=
  {| def_schema := object_of
     ([("kind", typed "string" "");
      ("apiVersion", typed "string" "");
      ("metadata", with_default (JObj []) (reference (ref "k8s.io/apimachinery/pkg/apis/meta/v1.ObjectMeta")));
      ("spec", with_default (JObj []) (reference (ref "k8s.io/api/core/v1.LimitRangeSpec")))])
     [];
     def_dependencies := ["k8s.io/api/core/v1.LimitRangeSpec";
       "k8s.io/apimachinery/pkg/apis/meta/v1.ObjectMeta"] |}.

(** The schema of [LimitRangeItem]. *)
Definition schema_k8sio_api_core_v1_LimitRangeItem (ref : string → string) : definition :=
  {| def_schema := object_of
     ([("type", with_default (JStr "") (typed "string" ""));
      ("max", map_of (reference (ref "k8s.io/apimachinery/pkg/api/resource.Quantity")));
      ("min", map_of (reference (ref "k8s.io/apimachinery/pkg/api/resource.Quantity")));
      ("default", map_of (reference (ref "k8s.io/apimachinery/pkg/api/resource.Quantity")));
      ("defaultRequest", map_of (reference (ref "k8s.io/apimachinery/pkg/api/resource.Quantity")));
      ("maxLimitRequestRatio", map_of (reference (ref "k8s.io/apimachinery/pkg/api/resource.Quantity")))])
     ["type"];
     def_dependencies := ["k8s.io/apimachinery/pkg/api/resource.Quantity"] |}.

(** The schema of [LimitRangeList]. *)
Definition schema_k8sio_api_core_v1_LimitRangeList (ref : string → string) : definition :=
  {| def_schema := object_of
     ([("kind", typed "string" "");
      ("apiVersion", typed "string" "");
      ("metadata", with_default (JObj []) (reference (ref "k8s.io/apimachinery/pkg/apis/meta/v1.ListMeta")));
      ("items", array_of (with_default (JObj []) (reference (ref "k8s.io/api/core/v1.LimitRange"))))])
     ["items"];
     def_dependencies := ["k8s.io/api/core/v1.LimitRange";
       "k8s.io/apimachinery/pkg/apis/meta/v1.ListMeta"] |}.

(** The schema of [LimitRangeSpec]. *)
Definition schema_k8sio_api_core_v1_LimitRangeSpec (ref : string → string) : definition :=
  {| def_schema := object_of
     ([("limits", with_extensions [("x-kubernetes-list-type", JStr "atomic")]
       (array_of (with_default (JObj []) (reference (ref "k8s.io/api/core/v1.LimitRangeItem")))))])
     ["limits"];
     def_dependencies := ["k8s.io/api/core/v1.LimitRangeItem"] |}.

(** The schema of [LinuxContainerUser]. *)
Definition schema_k8sio_api_core_v1_LinuxContainerUser (ref : string → string) : definition :=
  {| def_schema := object_of
     ([("uid", with_default (JNum 0) (typed "integer" "int64"));
      ("gid", with_default (JNum 0) (typed "integer" "int64"));
      ("supplementalGroups", with_extensions [("x-kubernetes-list-type", JStr "atomic")]
       (array_of (with_default (JNum 0) (typed "integer" "int64"))))])
     ["uid"; "gid"];
     def_dependencies := [] |}.

(** The schema of [List]. *)
Definition schema_k8sio_api_core_v1_List (ref : string → string) : definition :=
  {| def_schema := object_of
     ([("kind", typed "string" "");
      ("apiVersion", typed "string" "");
      ("metadata", with_default (JObj []) (reference (ref "k8s.io/apimachinery/pkg/apis/meta/v1.ListMeta")));
      ("items", array_of (reference (ref "k8s.io/apimachinery/pkg/runtime.RawExtension")))])
     ["items"];
     def_dependencies := ["k8s.io/apimachinery/pkg/apis/meta/v1.ListMeta";
       "k8s.io/apimachinery/pkg/runtime.RawExtension"] |}.

(** The schema of [LoadBalancerIngress]. *)
Definition schema_k8sio_api_core_v1_LoadBalancerIngress (ref : string → string) : definition :=
  {| def_schema := object_of
     ([("ip", typed "string" "");
      ("hostname", typed "string" "");
      ("ipMode", typed "string" "");
      ("ports", with_extensions [("x-kubernetes-list-type", JStr "atomic")]
       (array_of (with_default (JObj []) (reference (ref "k8s.io/api/core/v1.PortStatus")))))])
     [];
     def_dependencies := ["k8s.io/api/core/v1.PortStatus"] |}.

(** The schema of [LoadBalancerStatus]. *)
Definition schema_k8sio_api_core_v1_LoadBalancerStatus (ref : string → string) : definition :=
  {| def_schema := object_of
     ([("ingress", with_extensions [("x-kubernetes-list-type", JStr "atomic")]
       (array_of (with_default (JObj []) (reference (ref "k8s.io/api/core/v1.LoadBalancerIngress")))))])
     [];
     def_dependencies := ["k8s.io/api/core/v1.LoadBalancerIngress"] |}.

(** The schema of [LocalObjectReference]. *)
Definition schema_k8sio_api_core_v1_LocalObjectReference (ref : string → string) : definition :=
  {| def_schema := with_extensions [("x-kubernetes-map-type", JStr "atomic")] (object_of
     ([("name", with_default (JStr "") (typed "string" ""))])
     []);
     def_dependencies := [] |}.

(** The schema of [LocalVolumeSource]. *)
Definition schema_k8sio_api_core_v1_LocalVolumeSource (ref : string → string) : definition :=
  {| def_schema := object_of
     ([("path", with_default (JStr "") (typed "string" ""));
      ("fsType", typed "string" "")])
     ["path"];
     def_dependencies := [] |}.

(** The schema of [ModifyVolumeStatus]. *)
Definition schema_k8sio_api_core_v1_ModifyVolumeStatus (ref : string → string) : definition :=
  {| def_schema := object_of
     ([("targetVolumeAttributesClassName", typed "string" "");
      ("status", with_enum ["InProgress"; "Infeasible"; "Pending"] (with_default (JStr "") (typed "string" "")))])
     ["status"];
     def_dependencies := [] |}.

(** The schema of [NFSVolumeSource]. *)
Definition schema_k8sio_api_core_v1_NFSVolumeSource (ref : string → string) : definition :=
  {| def_schema := object_of
     ([("server", with_default (JStr "") (typed "string" ""));
      ("path", with_default (JStr "") (typed "string" ""));
      ("readOnly", typed "boolean" "")])
     ["server"; "path"];
     def_dependencies := [] |}.

(** The schema of [Namespace]. *)
Definition schema_k8sio_api_core_v1_Namespace (ref : string → string) : definition :=
  {| def_schema := object_of
     ([("kind", typed "string" "");
      ("apiVersion", typed "string" "");
      ("metadata", with_default (JObj []) (reference (ref "k8s.io/apimachinery/pkg/apis/meta/v1.ObjectMeta")));
      ("spec", with_default (JObj []) (reference (ref "k8s.io/api/core/v1.NamespaceSpec")));
      ("status", with_default (JObj []) (reference (ref "k8s.io/api/core/v1.NamespaceStatus")))])
     [];
     def_dependencies := ["k8s.io/api/core/v1.NamespaceSpec";
       "k8s.io/api/core/v1.NamespaceStatus";
       "k8s.io/apimachinery/pkg/apis/meta/v1.ObjectMeta"] |}.

(** The schema of [NamespaceCondition]. *)
Definition schema_k8sio_api_core_v1_NamespaceCondition (ref : string → string) : definition :=
  {| def_schema := object_of
     ([("type", with_default (JStr "") (typed "string" ""));
      ("status", with_default (JStr "") (typed "string" ""));
      ("lastTransitionTime", reference (ref "k8s.io/apimachinery/pkg/apis/meta/v1.Time"));
      ("reason", typed "string" "");
      ("message", typed "string" "")])
     ["type"; "status"];
     def_dependencies := ["k8s.io/apimachinery/pkg/apis/meta/v1.Time"] |}.

(** The schema of [NamespaceList]. *)
Definition schema_k8sio_api_core_v1_NamespaceList (ref : string → string) : definition :=
  {| def_schema := object_of
     ([("kind", typed "string" "");
      ("apiVersion", typed "string" "");
      ("metadata", with_default (JObj []) (reference (ref "k8s.io/apimachinery/pkg/apis/meta/v1.ListMeta")));
      ("items", array_of (with_default (JObj []) (reference (ref "k8s.io/api/core/v1.Namespace"))))])
     ["items"];
     def_dependencies := ["k8s.io/api/core/v1.Namespace";
       "k8s.io/apimachinery/pkg/apis/meta/v1.ListMeta"] |}.

(** The schema of [NamespaceSpec]. *)
Definition schema_k8sio_api_core_v1_NamespaceSpec (ref : string → string) : definition :=
  {| def_schema := object_of
     ([("finalizers", with_extensions [("x-kubernetes-list-type", JStr "atomic")]
       (array_of (with_default (JStr "") (typed "string" ""))))])
     [];
     def_dependencies := [] |}.

(** The schema of [NamespaceStatus]. *)
Definition schema_k8sio_api_core_v1_NamespaceStatus (ref : string → string) : definition :=
  {| def_schema := object_of
     ([("phase", with_enum ["Active"; "Terminating"] (typed "string" ""));
      ("conditions", with_extensions [("x-kubernetes-list-map-keys", JArr [JStr "type"]);
        ("x-kubernetes-list-type", JStr "map");
        ("x-kubernetes-patch-merge-key", JStr "type");
        ("x-kubernetes-patch-strategy", JStr "merge")]
       (array_of (with_default (JObj []) (reference (ref "k8s.io/api/core/v1.NamespaceCondition")))))])
     [];
     def_dependencies := ["k8s.io/api/core/v1.NamespaceCondition"] |}.

(** The schema of [Node]. *)
Definition schema_k8sio_api_core_v1_Node (ref : string → string) : definition :=
  {| def_schema := object_of
     ([("kind", typed "string" "");
      ("apiVersion", typed "string" "");
      ("metadata", with_default (JObj []) (reference (ref "k8s.io/apimachinery/pkg/apis/meta/v1.ObjectMeta")));
      ("spec", with_default (JObj []) (reference (ref "k8s.io/api/core/v1.NodeSpec")));
      ("status", with_default (JObj []) (reference (ref "k8s.io/api/core/v1.NodeStatus")))])
     [];
     def_dependencies := ["k8s.io/api/core/v1.NodeSpec";
       "k8s.io/api/core/v1.NodeStatus";
       "k8s.io/apimachinery/pkg/apis/meta/v1.ObjectMeta"] |}.

(** The entries of [GetOpenAPIDefinitions] for these types. *)
Definition core_2_definitions (ref : string → string) : list (string * definition) :=
  [("k8s.io/api/core/v1.EnvVarSource", schema_k8sio_api_core_v1_EnvVarSource ref);
   ("k8s.io/api/core/v1.EphemeralContainer", schema_k8sio_api_core_v1_EphemeralContainer ref);
   ("k8s.io/api/core/v1.EphemeralContainerCommon", schema_k8sio_api_core_v1_EphemeralContainerCommon ref);
   ("k8s.io/api/core/v1.EphemeralVolumeSource", schema_k8sio_api_core_v1_EphemeralVolumeSource ref);
   ("k8s.io/api/core/v1.Event", schema_k8sio_api_core_v1_Event ref);
   ("k8s.io/api/core/v1.EventList", schema_k8sio_api_core_v1_EventList ref);
   ("k8s.io/api/core/v1.EventSeries", schema_k8sio_api_core_v1_EventSeries ref);
   ("k8s.io/api/core/v1.EventSource", schema_k8sio_api_core_v1_EventSource ref);
   ("k8s.io/api/core/v1.ExecAction", schema_k8sio_api_core_v1_ExecAction ref);
   ("k8s.io/api/core/v1.FCVolumeSource", schema_k8sio_api_core_v1_FCVolumeSource ref);
   ("k8s.io/api/core/v1.FileKeySelector", schema_k8sio_api_core_v1_FileKeySelector ref);
   ("k8s.io/api/core/v1.FlexPersistentVolumeSource", schema_k8sio_api_core_v1_FlexPersistentVolumeSource ref);
   ("k8s.io/api/core/v1.FlexVolumeSource", schema_k8sio_api_core_v1_FlexVolumeSource ref);
   ("k8s.io/api/core/v1.FlockerVolumeSource", schema_k8sio_api_core_v1_FlockerVolumeSource ref);
   ("k8s.io/api/core/v1.GCEPersistentDiskVolumeSource", schema_k8sio_api_core_v1_GCEPersistentDiskVolumeSource ref);
   ("k8s.io/api/core/v1.GRPCAction", schema_k8sio_api_core_v1_GRPCAction ref);
   ("k8s.io/api/core/v1.GitRepoVolumeSource", schema_k8sio_api_core_v1_GitRepoVolumeSource ref);
   ("k8s.io/api/core/v1.GlusterfsPersistentVolumeSource", schema_k8sio_api_core_v1_GlusterfsPersistentVolumeSource ref);
   ("k8s.io/api/core/v1.GlusterfsVolumeSource", schema_k8sio_api_core_v1_GlusterfsVolumeSource ref);
   ("k8s.io/api/core/v1.HTTPGetAction", schema_k8sio_api_core_v1_HTTPGetAction ref);
   ("k8s.io/api/core/v1.HTTPHeader", schema_k8sio_api_core_v1_HTTPHeader ref);
   ("k8s.io/api/core/v1.HostAlias", schema_k8sio_api_core_v1_HostAlias ref);
   ("k8s.io/api/core/v1.HostIP", schema_k8sio_api_core_v1_HostIP ref);
   ("k8s.io/api/core/v1.HostPathVolumeSource", schema_k8sio_api_core_v1_HostPathVolumeSource ref);
   ("k8s.io/api/core/v1.ISCSIPersistentVolumeSource", schema_k8sio_api_core_v1_ISCSIPersistentVolumeSource ref);
   ("k8s.io/api/core/v1.ISCSIVolumeSource", schema_k8sio_api_core_v1_ISCSIVolumeSource ref);
   ("k8s.io/api/core/v1.ImageVolumeSource", schema_k8sio_api_core_v1_ImageVolumeSource ref);
   ("k8s.io/api/core/v1.KeyToPath", schema_k8sio_api_core_v1_KeyToPath ref);
   ("k8s.io/api/core/v1.Lifecycle", schema_k8sio_api_core_v1_Lifecycle ref);
   ("k8s.io/api/core/v1.LifecycleHandler", schema_k8sio_api_core_v1_LifecycleHandler ref);
   ("k8s.io/api/core/v1.LimitRange", schema_k8sio_api_core_v1_LimitRange ref);
   ("k8s.io/api/core/v1.LimitRangeItem", schema_k8sio_api_core_v1_LimitRangeItem ref);
   ("k8s.io/api/core/v1.LimitRangeList", schema_k8sio_api_core_v1_LimitRangeList ref);
   ("k8s.io/api/core/v1.LimitRangeSpec", schema_k8sio_api_core_v1_LimitRangeSpec ref);
   ("k8s.io/api/core/v1.LinuxContainerUser", schema_k8sio_api_core_v1_LinuxContainerUser ref);
   ("k8s.io/api/core/v1.List", schema_k8sio_api_core_v1_List ref);
   ("k8s.io/api/core/v1.LoadBalancerIngress", schema_k8sio_api_core_v1_LoadBalancerIngress ref);
   ("k8s.io/api/core/v1.LoadBalancerStatus", schema_k8sio_api_core_v1_LoadBalancerStatus ref);
   ("k8s.io/api/core/v1.LocalObjectReference", schema_k8sio_api_core_v1_LocalObjectReference ref);
   ("k8s.io/api/core/v1.LocalVolumeSource", schema_k8sio_api_core_v1_LocalVolumeSource ref);
   ("k8s.io/api/core/v1.ModifyVolumeStatus", schema_k8sio_api_core_v1_ModifyVolumeStatus ref);
   ("k8s.io/api/core/v1.NFSVolumeSource", schema_k8sio_api_core_v1_NFSVolumeSource ref);
   ("k8s.io/api/core/v1.Namespace", schema_k8sio_api_core_v1_Namespace ref);
   ("k8s.io/api/core/v1.NamespaceCondition", schema_k8sio_api_core_v1_NamespaceCondition ref);
   ("k8s.io/api/core/v1.NamespaceList", schema_k8sio_api_core_v1_NamespaceList ref);
   ("k8s.io/api/core/v1.NamespaceSpec", schema_k8sio_api_core_v1_NamespaceSpec ref);
   ("k8s.io/api/core/v1.NamespaceStatus", schema_k8sio_api_core_v1_NamespaceStatus ref);
   ("k8s.io/api/core/v1.Node", schema_k8sio_api_core_v1_Node ref)].
