(* ===== verification/SchemasCore3.v ===== *)
(** * Published schemas of library types: core 3

    The definitions [openapi_generated.go] publishes for the core group, from [NodeAddress] to [PodList], without
    their descriptions. *)

From S2P Require Import Prelude Types Json Schema.

(** The schema of [NodeAddress]. *)
Definition schema_k8sio_api_core_v1_NodeAddress (ref : string → string) : definition :=
  {| def_schema := object_of
     ([("type", with_default (JStr "") (typed "string" ""));
      ("address", with_default (JStr "") (typed "string" ""))])
     ["type"; "address"];
     def_dependencies := [] |}.

(** The schema of [NodeAffinity]. *)
Definition schema_k8sio_api_core_v1_NodeAffinity (ref : string → string) : definition :=
  {| def_schema := object_of
     ([("requiredDuringSchedulingIgnoredDuringExecution", reference (ref "k8s.io/api/core/v1.NodeSelector"));
      ("preferredDuringSchedulingIgnoredDuringExecution", with_extensions [("x-kubernetes-list-type", JStr "atomic")]
       (array_of (with_default (JObj []) (reference (ref "k8s.io/api/core/v1.PreferredSchedulingTerm")))))])
     [];
     def_dependencies := ["k8s.io/api/core/v1.NodeSelector";
       "k8s.io/api/core/v1.PreferredSchedulingTerm"] |}.

(** The schema of [NodeCondition]. *)
Definition schema_k8sio_api_core_v1_NodeCondition (ref : string → string) : definition :=
  {| def_schema := object_of
     ([("type", with_default (JStr "") (typed "string" ""));
      ("status", with_default (JStr "") (typed "string" ""));
      ("lastHeartbeatTime", reference (ref "k8s.io/apimachinery/pkg/apis/meta/v1.Time"));
      ("lastTransitionTime", reference (ref "k8s.io/apimachinery/pkg/apis/meta/v1.Time"));
      ("reason", typed "string" "");
      ("message", typed "string" "")])
     ["type"; "status"];
     def_dependencies := ["k8s.io/apimachinery/pkg/apis/meta/v1.Time"] |}.

(** The schema of [NodeConfigSource]. *)
Definition schema_k8sio_api_core_v1_NodeConfigSource (ref : string → string) : definition :=
  {| def_schema := object_of
     ([("configMap", reference (ref "k8s.io/api/core/v1.ConfigMapNodeConfigSource"))])
     [];
     def_dependencies := ["k8s.io/api/core/v1.ConfigMapNodeConfigSource"] |}.

(** The schema of [NodeConfigStatus]. *)
Definition schema_k8sio_api_core_v1_NodeConfigStatus (ref : string → string) : definition :=
  {| def_schema := object_of
     ([("assigned", reference (ref "k8s.io/api/core/v1.NodeConfigSource"));
      ("active", reference (ref "k8s.io/api/core/v1.NodeConfigSource"));
      ("lastKnownGood", reference (ref "k8s.io/api/core/v1.NodeConfigSource"));
      ("error", typed "string" "")])
     [];
     def_dependencies := ["k8s.io/api/core/v1.NodeConfigSource"] |}.

(** The schema of [NodeDaemonEndpoints]. *)
Definition schema_k8sio_api_core_v1_NodeDaemonEndpoints (ref : string → string) : definition :=
  {| def_schema := object_of
     ([("kubeletEndpoint", with_default (JObj []) (reference (ref "k8s.io/api/core/v1.DaemonEndpoint")))])
     [];
     def_dependencies := ["k8s.io/api/core/v1.DaemonEndpoint"] |}.

(** The schema of [NodeFeatures]. *)
Definition schema_k8sio_api_core_v1_NodeFeatures (ref : string → string) : definition :=
  {| def_schema := object_of
     ([("supplementalGroupsPolicy", typed "boolean" "")])
     [];
     def_dependencies := [] |}.

(** The schema of [NodeList]. *)
Definition schema_k8sio_api_core_v1_NodeList (ref : string → string) : definition :=
  {| def_schema := object_of
     ([("kind", typed "string" "");
      ("apiVersion", typed "string" "");
      ("metadata", with_default (JObj []) (reference (ref "k8s.io/apimachinery/pkg/apis/meta/v1.ListMeta")));
      ("items", array_of (with_default (JObj []) (reference (ref "k8s.io/api/core/v1.Node"))))])
     ["items"];
     def_dependencies := ["k8s.io/api/core/v1.Node";
       "k8s.io/apimachinery/pkg/apis/meta/v1.ListMeta"] |}.

(** The schema of [NodeProxyOptions]. *)
Definition schema_k8sio_api_core_v1_NodeProxyOptions (ref : string → string) : definition :=
  {| def_schema := object_of
     ([("kind", typed "string" "");
      ("apiVersion", typed "string" "");
      ("path", typed "string" "")])
     [];
     def_dependencies := [] |}.

(** The schema of [NodeRuntimeHandler]. *)
Definition schema_k8sio_api_core_v1_NodeRuntimeHandler (ref : string → string) : definition :=
  {| def_schema := object_of
     ([("name", with_default (JStr "") (typed "string" ""));
      ("features", reference (ref "k8s.io/api/core/v1.NodeRuntimeHandlerFeatures"))])
     [];
     def_dependencies := ["k8s.io/api/core/v1.NodeRuntimeHandlerFeatures"] |}.

(** The schema of [NodeRuntimeHandlerFeatures]. *)
Definition schema_k8sio_api_core_v1_NodeRuntimeHandlerFeatures (ref : string → string) : definition :=
  {| def_schema := object_of
     ([("recursiveReadOnlyMounts", typed "boolean" "");
      ("userNamespaces", typed "boolean" "")])
     [];
     def_dependencies := [] |}.

(** The schema of [NodeSelector]. *)
Definition schema_k8sio_api_core_v1_NodeSelector (ref : string → string) : definition :=
  {| def_schema := with_extensions [("x-kubernetes-map-type", JStr "atomic")] (object_of
     ([("nodeSelectorTerms", with_extensions [("x-kubernetes-list-type", JStr "atomic")]
       (array_of (with_default (JObj []) (reference (ref "k8s.io/api/core/v1.NodeSelectorTerm")))))])
     ["nodeSelectorTerms"]);
     def_dependencies := ["k8s.io/api/core/v1.NodeSelectorTerm"] |}.

(** The schema of [NodeSelectorRequirement]. *)
Definition schema_k8sio_api_core_v1_NodeSelectorRequirement (ref : string → string) : definition :=
  {| def_schema := object_of
     ([("key", with_default (JStr "") (typed "string" ""));
      ("operator", with_enum ["DoesNotExist"; "Exists"; "Gt"; "In"; "Lt"; "NotIn"] (with_default (JStr "") (typed "string" "")));
      ("values", with_extensions [("x-kubernetes-list-type", JStr "atomic")]
       (array_of (with_default (JStr "") (typed "string" ""))))])
     ["key"; "operator"];
     def_dependencies := [] |}.

(** The schema of [NodeSelectorTerm]. *)
Definition schema_k8sio_api_core_v1_NodeSelectorTerm (ref : string → string) : definition :=
  {| def_schema := with_extensions [("x-kubernetes-map-type", JStr "atomic")] (object_of
     ([("matchExpressions", with_extensions [("x-kubernetes-list-type", JStr "atomic")]
       (array_of (with_default (JObj []) (reference (ref "k8s.io/api/core/v1.NodeSelectorRequirement")))));
      ("matchFields", with_extensions [("x-kubernetes-list-type", JStr "atomic")]
       (array_of (with_default (JObj []) (reference (ref "k8s.io/api/core/v1.NodeSelectorRequirement")))))])
     []);
     def_dependencies := ["k8s.io/api/core/v1.NodeSelectorRequirement"] |}.

(** The schema of [NodeSpec]. *)
Definition schema_k8sio_api_core_v1_NodeSpec (ref : string → string) : definition :=
  {| def_schema := object_of
     ([("podCIDR", typed "string" "");
      ("podCIDRs", with_extensions [("x-kubernetes-list-type", JStr "set");
        ("x-kubernetes-patch-strategy", JStr "merge")]
       (array_of (with_default (JStr "") (typed "string" ""))));
      ("providerID", typed "string" "");
      ("unschedulable", typed "boolean" "");
      ("taints", with_extensions [("x-kubernetes-list-type", JStr "atomic")]
       (array_of (with_default (JObj []) (reference (ref "k8s.io/api/core/v1.Taint")))));
      ("configSource", reference (ref "k8s.io/api/core/v1.NodeConfigSource"));
      ("externalID", typed "string" "")])
     [];
     def_dependencies := ["k8s.io/api/core/v1.NodeConfigSource";
       "k8s.io/api/core/v1.Taint"] |}.

(** The properties of [NodeStatus] from [capacity] to [volumesInUse]. *)
Definition schema_k8sio_api_core_v1_NodeStatus_1 (ref : string → string) : list (string * schema) :=
  [("capacity", map_of (reference (ref "k8s.io/apimachinery/pkg/api/resource.Quantity")));
   ("allocatable", map_of (reference (ref "k8s.io/apimachinery/pkg/api/resource.Quantity")));
   ("phase", with_enum ["Pending"; "Running"; "Terminated"] (typed "string" ""));
   ("conditions", with_extensions [("x-kubernetes-list-map-keys", JArr [JStr "type"]);
        ("x-kubernetes-list-type", JStr "map");
        ("x-kubernetes-patch-merge-key", JStr "type");
        ("x-kubernetes-patch-strategy", JStr "merge")]
       (array_of (with_default (JObj []) (reference (ref "k8s.io/api/core/v1.NodeCondition")))));
   ("addresses", with_extensions [("x-kubernetes-list-map-keys", JArr [JStr "type"]);
        ("x-kubernetes-list-type", JStr "map");
        ("x-kubernetes-patch-merge-key", JStr "type");
        ("x-kubernetes-patch-strategy", JStr "merge")]
       (array_of (with_default (JObj []) (reference (ref "k8s.io/api/core/v1.NodeAddress")))));
   ("daemonEndpoints", with_default (JObj []) (reference (ref "k8s.io/api/core/v1.NodeDaemonEndpoints")));
   ("nodeInfo", with_default (JObj []) (reference (ref "k8s.io/api/core/v1.NodeSystemInfo")));
   ("images", with_extensions [("x-kubernetes-list-type", JStr "atomic")]
       (array_of (with_default (JObj []) (reference (ref "k8s.io/api/core/v1.ContainerImage")))));
   ("volumesInUse", with_extensions [("x-kubernetes-list-type", JStr "atomic")]
       (array_of (with_default (JStr "") (typed "string" ""))))].

(** The properties of [NodeStatus] from [volumesAttached] to [features]. *)
Definition schema_k8sio_api_core_v1_NodeStatus_2 (ref : string → string) : list (string * schema) :=
  [("volumesAttached", with_extensions [("x-kubernetes-list-type", JStr "atomic")]
       (array_of (with_default (JObj []) (reference (ref "k8s.io/api/core/v1.AttachedVolume")))));
   ("config", reference (ref "k8s.io/api/core/v1.NodeConfigStatus"));
   ("runtimeHandlers", with_extensions [("x-kubernetes-list-type", JStr "atomic")]
       (array_of (with_default (JObj []) (reference (ref "k8s.io/api/core/v1.NodeRuntimeHandler")))));
   ("features", reference (ref "k8s.io/api/core/v1.NodeFeatures"))].

(** The schema of [NodeStatus]. *)
Definition schema_k8sio_api_core_v1_NodeStatus (ref : string → string) : definition :=
  {| def_schema := object_of
     (schema_k8sio_api_core_v1_NodeStatus_1 ref ++ schema_k8sio_api_core_v1_NodeStatus_2 ref)
     [];
     def_dependencies := ["k8s.io/api/core/v1.AttachedVolume";
       "k8s.io/api/core/v1.ContainerImage";
       "k8s.io/api/core/v1.NodeAddress";
       "k8s.io/api/core/v1.NodeCondition";
       "k8s.io/api/core/v1.NodeConfigStatus";
       "k8s.io/api/core/v1.NodeDaemonEndpoints";
       "k8s.io/api/core/v1.NodeFeatures";
       "k8s.io/api/core/v1.NodeRuntimeHandler";
       "k8s.io/api/core/v1.NodeSystemInfo";
       "k8s.io/apimachinery/pkg/api/resource.Quantity"] |}.

(** The schema of [NodeSwapStatus]. *)
Definition schema_k8sio_api_core_v1_NodeSwapStatus (ref : string → string) : definition :=
  {| def_schema := object_of
     ([("capacity", typed "integer" "int64")])
     [];
     def_dependencies := [] |}.

(** The schema of [NodeSystemInfo]. *)
Definition schema_k8sio_api_core_v1_NodeSystemInfo (ref : string → string) : definition :=
  {| def_schema := object_of
     ([("machineID", with_default (JStr "") (typed "string" ""));
      ("systemUUID", with_default (JStr "") (typed "string" ""));
      ("bootID", with_default (JStr "") (typed "string" ""));
      ("kernelVersion", with_default (JStr "") (typed "string" ""));
      ("osImage", with_default (JStr "") (typed "string" ""));
      ("containerRuntimeVersion", with_default (JStr "") (typed "string" ""));
      ("kubeletVersion", with_default (JStr "") (typed "string" ""));
      ("kubeProxyVersion", with_default (JStr "") (typed "string" ""));
      ("operatingSystem", with_default (JStr "") (typed "string" ""));
      ("architecture", with_default (JStr "") (typed "string" ""));
      ("swap", reference (ref "k8s.io/api/core/v1.NodeSwapStatus"))])
     ["machineID"; "systemUUID"; "bootID"; "kernelVersion"; "osImage"; "containerRuntimeVersion"; "kubeletVersion"; "kubeProxyVersion"; "operatingSystem"; "architecture"];
     def_dependencies := ["k8s.io/api/core/v1.NodeSwapStatus"] |}.

(** The schema of [ObjectFieldSelector]. *)
Definition schema_k8sio_api_core_v1_ObjectFieldSelector (ref : string → string) : definition :=
  {| def_schema := with_extensions [("x-kubernetes-map-type", JStr "atomic")] (object_of
     ([("apiVersion", typed "string" "");
      ("fieldPath", with_default (JStr "") (typed "string" ""))])
     ["fieldPath"]);
     def_dependencies := [] |}.

(** The schema of [ObjectReference]. *)
Definition schema_k8sio_api_core_v1_ObjectReference (ref : string → string) : definition :=
  {| def_schema := with_extensions [("x-kubernetes-map-type", JStr "atomic")] (object_of
     ([("kind", typed "string" "");
      ("namespace", typed "string" "");
      ("name", typed "string" "");
      ("uid", typed "string" "");
      ("apiVersion", typed "string" "");
      ("resourceVersion", typed "string" "");
      ("fieldPath", typed "string" "")])
     []);
     def_dependencies := [] |}.

(** The schema of [PersistentVolume]. *)
Definition schema_k8sio_api_core_v1_PersistentVolume (ref : string → string) : definition :=
  {| def_schema := object_of
     ([("kind", typed "string" "");
      ("apiVersion", typed "string" "");
      ("metadata", with_default (JObj []) (reference (ref "k8s.io/apimachinery/pkg/apis/meta/v1.ObjectMeta")));
      ("spec", with_default (JObj []) (reference (ref "k8s.io/api/core/v1.PersistentVolumeSpec")));
      ("status", with_default (JObj []) (reference (ref "k8s.io/api/core/v1.PersistentVolumeStatus")))])
     [];
     def_dependencies := ["k8s.io/api/core/v1.PersistentVolumeSpec";
       "k8s.io/api/core/v1.PersistentVolumeStatus";
       "k8s.io/apimachinery/pkg/apis/meta/v1.ObjectMeta"] |}.

(** The schema of [PersistentVolumeClaim]. *)
Definition schema_k8sio_api_core_v1_PersistentVolumeClaim (ref : string → string) : definition :=
  {| def_schema := object_of
     ([("kind", typed "string" "");
      ("apiVersion", typed "string" "");
      ("metadata", with_default (JObj []) (reference (ref "k8s.io/apimachinery/pkg/apis/meta/v1.ObjectMeta")));
      ("spec", with_default (JObj []) (reference (ref "k8s.io/api/core/v1.PersistentVolumeClaimSpec")));
      ("status", with_default (JObj []) (reference (ref "k8s.io/api/core/v1.PersistentVolumeClaimStatus")))])
     [];
     def_dependencies := ["k8s.io/api/core/v1.PersistentVolumeClaimSpec";
       "k8s.io/api/core/v1.PersistentVolumeClaimStatus";
       "k8s.io/apimachinery/pkg/apis/meta/v1.ObjectMeta"] |}.

(** The schema of [PersistentVolumeClaimCondition]. *)
Definition schema_k8sio_api_core_v1_PersistentVolumeClaimCondition (ref : string → string) : definition :=
  {| def_schema := object_of
     ([("type", with_default (JStr "") (typed "string" ""));
      ("status", with_default (JStr "") (typed "string" ""));
      ("lastProbeTime", reference (ref "k8s.io/apimachinery/pkg/apis/meta/v1.Time"));
      ("lastTransitionTime", reference (ref "k8s.io/apimachinery/pkg/apis/meta/v1.Time"));
      ("reason", typed "string" "");
      ("message", typed "string" "")])
     ["type"; "status"];
     def_dependencies := ["k8s.io/apimachinery/pkg/apis/meta/v1.Time"] |}.

(** The schema of [PersistentVolumeClaimList]. *)
Definition schema_k8sio_api_core_v1_PersistentVolumeClaimList (ref : string → string) : definition :=
  {| def_schema := object_of
     ([("kind", typed "string" "");
      ("apiVersion", typed "string" "");
      ("metadata", with_default (JObj []) (reference (ref "k8s.io/apimachinery/pkg/apis/meta/v1.ListMeta")));
      ("items", array_of (with_default (JObj []) (reference (ref "k8s.io/api/core/v1.PersistentVolumeClaim"))))])
     ["items"];
     def_dependencies := ["k8s.io/api/core/v1.PersistentVolumeClaim";
       "k8s.io/apimachinery/pkg/apis/meta/v1.ListMeta"] |}.

(** The schema of [PersistentVolumeClaimSpec]. *)
Definition schema_k8sio_api_core_v1_PersistentVolumeClaimSpec (ref : string → string) : definition :=
  {| def_schema := object_of
     ([("accessModes", with_extensions [("x-kubernetes-list-type", JStr "atomic")]
       (array_of (with_default (JStr "") (typed "string" ""))));
      ("selector", reference (ref "k8s.io/apimachinery/pkg/apis/meta/v1.LabelSelector"));
      ("resources", with_default (JObj []) (reference (ref "k8s.io/api/core/v1.VolumeResourceRequirements")));
      ("volumeName", typed "string" "");
      ("storageClassName", typed "string" "");
      ("volumeMode", with_enum ["Block"; "Filesystem"] (typed "string" ""));
      ("dataSource", reference (ref "k8s.io/api/core/v1.TypedLocalObjectReference"));
      ("dataSourceRef", reference (ref "k8s.io/api/core/v1.TypedObjectReference"));
      ("volumeAttributesClassName", typed "string" "")])
     [];
     def_dependencies := ["k8s.io/api/core/v1.TypedLocalObjectReference";
       "k8s.io/api/core/v1.TypedObjectReference";
       "k8s.io/api/core/v1.VolumeResourceRequirements";
       "k8s.io/apimachinery/pkg/apis/meta/v1.LabelSelector"] |}.

(** The schema of [PersistentVolumeClaimStatus]. *)
Definition schema_k8sio_api_core_v1_PersistentVolumeClaimStatus (ref : string → string) : definition :=
  {| def_schema := object_of
     ([("phase", with_enum ["Bound"; "Lost"; "Pending"] (typed "string" ""));
      ("accessModes", with_extensions [("x-kubernetes-list-type", JStr "atomic")]
       (array_of (with_default (JStr "") (typed "string" ""))));
      ("capacity", map_of (reference (ref "k8s.io/apimachinery/pkg/api/resource.Quantity")));
      ("conditions", with_extensions [("x-kubernetes-list-map-keys", JArr [JStr "type"]);
        ("x-kubernetes-list-type", JStr "map");
        ("x-kubernetes-patch-merge-key", JStr "type");
        ("x-kubernetes-patch-strategy", JStr "merge")]
       (array_of (with_default (JObj []) (reference (ref "k8s.io/api/core/v1.PersistentVolumeClaimCondition")))));
      ("allocatedResources", map_of (reference (ref "k8s.io/apimachinery/pkg/api/resource.Quantity")));
      ("allocatedResourceStatuses", with_extensions [("x-kubernetes-map-type", JStr "granular")]
       (map_of (with_default (JStr "") (typed "string" ""))));
      ("currentVolumeAttributesClassName", typed "string" "");
      ("modifyVolumeStatus", reference (ref "k8s.io/api/core/v1.ModifyVolumeStatus"))])
     [];
     def_dependencies := ["k8s.io/api/core/v1.ModifyVolumeStatus";
       "k8s.io/api/core/v1.PersistentVolumeClaimCondition";
       "k8s.io/apimachinery/pkg/api/resource.Quantity"] |}.

(** The schema of [PersistentVolumeClaimTemplate]. *)
Definition schema_k8sio_api_core_v1_PersistentVolumeClaimTemplate (ref : string → string) : definition :=
  {| def_schema := object_of
     ([("metadata", with_default (JObj []) (reference (ref "k8s.io/apimachinery/pkg/apis/meta/v1.ObjectMeta")));
      ("spec", with_default (JObj []) (reference (ref "k8s.io/api/core/v1.PersistentVolumeClaimSpec")))])
     ["spec"];
     def_dependencies := ["k8s.io/api/core/v1.PersistentVolumeClaimSpec";
       "k8s.io/apimachinery/pkg/apis/meta/v1.ObjectMeta"] |}.

(** The schema of [PersistentVolumeClaimVolumeSource]. *)
Definition schema_k8sio_api_core_v1_PersistentVolumeClaimVolumeSource (ref : string → string) : definition :=
  {| def_schema := object_of
     ([("claimName", with_default (JStr "") (typed "string" ""));
      ("readOnly", typed "boolean" "")])
     ["claimName"];
     def_dependencies := [] |}.

(** The schema of [PersistentVolumeList]. *)
Definition schema_k8sio_api_core_v1_PersistentVolumeList (ref : string → string) : definition :=
  {| def_schema := object_of
     ([("kind", typed "string" "");
      ("apiVersion", typed "string" "");
      ("metadata", with_default (JObj []) (reference (ref "k8s.io/apimachinery/pkg/apis/meta/v1.ListMeta")));
      ("items", array_of (with_default (JObj []) (reference (ref "k8s.io/api/core/v1.PersistentVolume"))))])
     ["items"];
     def_dependencies := ["k8s.io/api/core/v1.PersistentVolume";
       "k8s.io/apimachinery/pkg/apis/meta/v1.ListMeta"] |}.

(** The schema of [PersistentVolumeSource]. *)
Definition schema_k8sio_api_core_v1_PersistentVolumeSource (ref : string → string) : definition :=
  {| def_schema := object_of
     ([("gcePersistentDisk", reference (ref "k8s.io/api/core/v1.GCEPersistentDiskVolumeSource"));
      ("awsElasticBlockStore", reference (ref "k8s.io/api/core/v1.AWSElasticBlockStoreVolumeSource"));
      ("hostPath", reference (ref "k8s.io/api/core/v1.HostPathVolumeSource"));
      ("glusterfs", reference (ref "k8s.io/api/core/v1.GlusterfsPersistentVolumeSource"));
      ("nfs", reference (ref "k8s.io/api/core/v1.NFSVolumeSource"));
      ("rbd", reference (ref "k8s.io/api/core/v1.RBDPersistentVolumeSource"));
      ("iscsi", reference (ref "k8s.io/api/core/v1.ISCSIPersistentVolumeSource"));
      ("cinder", reference (ref "k8s.io/api/core/v1.CinderPersistentVolumeSource"));
      ("cephfs", reference (ref "k8s.io/api/core/v1.CephFSPersistentVolumeSource"));
      ("fc", reference (ref "k8s.io/api/core/v1.FCVolumeSource"));
      ("flocker", reference (ref "k8s.io/api/core/v1.FlockerVolumeSource"));
      ("flexVolume", reference (ref "k8s.io/api/core/v1.FlexPersistentVolumeSource"));
      ("azureFile", reference (ref "k8s.io/api/core/v1.AzureFilePersistentVolumeSource"));
      ("vsphereVolume", reference (ref "k8s.io/api/core/v1.VsphereVirtualDiskVolumeSource"));
      ("quobyte", reference (ref "k8s.io/api/core/v1.QuobyteVolumeSource"));
      ("azureDisk", reference (ref "k8s.io/api/core/v1.AzureDiskVolumeSource"));
      ("photonPersistentDisk", reference (ref "k8s.io/api/core/v1.PhotonPersistentDiskVolumeSource"));
      ("portworxVolume", reference (ref "k8s.io/api/core/v1.PortworxVolumeSource"));
      ("scaleIO", reference (ref "k8s.io/api/core/v1.ScaleIOPersistentVolumeSource"));
      ("local", reference (ref "k8s.io/api/core/v1.LocalVolumeSource"));
      ("storageos", reference (ref "k8s.io/api/core/v1.StorageOSPersistentVolumeSource"));
      ("csi", reference (ref "k8s.io/api/core/v1.CSIPersistentVolumeSource"))])
     [];
     def_dependencies := ["k8s.io/api/core/v1.AWSElasticBlockStoreVolumeSource";
       "k8s.io/api/core/v1.AzureDiskVolumeSource";
       "k8s.io/api/core/v1.AzureFilePersistentVolumeSource";
       "k8s.io/api/core/v1.CSIPersistentVolumeSource";
       "k8s.io/api/core/v1.CephFSPersistentVolumeSource";
       "k8s.io/api/core/v1.CinderPersistentVolumeSource";
       "k8s.io/api/core/v1.FCVolumeSource";
       "k8s.io/api/core/v1.FlexPersistentVolumeSource";
       "k8s.io/api/core/v1.FlockerVolumeSource";
       "k8s.io/api/core/v1.GCEPersistentDiskVolumeSource";
       "k8s.io/api/core/v1.GlusterfsPersistentVolumeSource";
       "k8s.io/api/core/v1.HostPathVolumeSource";
       "k8s.io/api/core/v1.ISCSIPersistentVolumeSource";
       "k8s.io/api/core/v1.LocalVolumeSource";
       "k8s.io/api/core/v1.NFSVolumeSource";
       "k8s.io/api/core/v1.PhotonPersistentDiskVolumeSource";
       "k8s.io/api/core/v1.PortworxVolumeSource";
       "k8s.io/api/core/v1.QuobyteVolumeSource";
       "k8s.io/api/core/v1.RBDPersistentVolumeSource";
       "k8s.io/api/core/v1.ScaleIOPersistentVolumeSource";
       "k8s.io/api/core/v1.StorageOSPersistentVolumeSource";
       "k8s.io/api/core/v1.VsphereVirtualDiskVolumeSource"] |}.

(** The properties of [PersistentVolumeSpec] from [capacity] to [storageos]. *)
Definition schema_k8sio_api_core_v1_PersistentVolumeSpec_1 (ref : string → string) : list (string * schema) :=
  [("capacity", map_of (reference (ref "k8s.io/apimachinery/pkg/api/resource.Quantity")));
   ("gcePersistentDisk", reference (ref "k8s.io/api/core/v1.GCEPersistentDiskVolumeSource"));
   ("awsElasticBlockStore", reference (ref "k8s.io/api/core/v1.AWSElasticBlockStoreVolumeSource"));
   ("hostPath", reference (ref "k8s.io/api/core/v1.HostPathVolumeSource"));
   ("glusterfs", reference (ref "k8s.io/api/core/v1.GlusterfsPersistentVolumeSource"));
   ("nfs", reference (ref "k8s.io/api/core/v1.NFSVolumeSource"));
   ("rbd", reference (ref "k8s.io/api/core/v1.RBDPersistentVolumeSource"));
   ("iscsi", reference (ref "k8s.io/api/core/v1.ISCSIPersistentVolumeSource"));
   ("cinder", reference (ref "k8s.io/api/core/v1.CinderPersistentVolumeSource"));
   ("cephfs", reference (ref "k8s.io/api/core/v1.CephFSPersistentVolumeSource"));
   ("fc", reference (ref "k8s.io/api/core/v1.FCVolumeSource"));
   ("flocker", reference (ref "k8s.io/api/core/v1.FlockerVolumeSource"));
   ("flexVolume", reference (ref "k8s.io/api/core/v1.FlexPersistentVolumeSource"));
   ("azureFile", reference (ref "k8s.io/api/core/v1.AzureFilePersistentVolumeSource"));
   ("vsphereVolume", reference (ref "k8s.io/api/core/v1.VsphereVirtualDiskVolumeSource"));
   ("quobyte", reference (ref "k8s.io/api/core/v1.QuobyteVolumeSource"));
   ("azureDisk", reference (ref "k8s.io/api/core/v1.AzureDiskVolumeSource"));
   ("photonPersistentDisk", reference (ref "k8s.io/api/core/v1.PhotonPersistentDiskVolumeSource"));
   ("portworxVolume", reference (ref "k8s.io/api/core/v1.PortworxVolumeSource"));
   ("scaleIO", reference (ref "k8s.io/api/core/v1.ScaleIOPersistentVolumeSource"));
   ("local", reference (ref "k8s.io/api/core/v1.LocalVolumeSource"));
   ("storageos", reference (ref "k8s.io/api/core/v1.StorageOSPersistentVolumeSource"))].

(** The properties of [PersistentVolumeSpec] from [csi] to [volumeAttributesClassName]. *)
Definition schema_k8sio_api_core_v1_PersistentVolumeSpec_2 (ref : string → string) : list (string * schema) :=
  [("csi", reference (ref "k8s.io/api/core/v1.CSIPersistentVolumeSource"));
   ("accessModes", with_extensions [("x-kubernetes-list-type", JStr "atomic")]
       (array_of (with_default (JStr "") (typed "string" ""))));
   ("claimRef", with_extensions [("x-kubernetes-map-type", JStr "granular")]
       (reference (ref "k8s.io/api/core/v1.ObjectReference")));
   ("persistentVolumeReclaimPolicy", with_enum ["Delete"; "Recycle"; "Retain"] (typed "string" ""));
   ("storageClassName", typed "string" "");
   ("mountOptions", with_extensions [("x-kubernetes-list-type", JStr "atomic")]
       (array_of (with_default (JStr "") (typed "string" ""))));
   ("volumeMode", with_enum ["Block"; "Filesystem"] (typed "string" ""));
   ("nodeAffinity", reference (ref "k8s.io/api/core/v1.VolumeNodeAffinity"));
   ("volumeAttributesClassName", typed "string" "")].

(** The schema of [PersistentVolumeSpec]. *)
Definition schema_k8sio_api_core_v1_PersistentVolumeSpec (ref : string → string) : definition :=
  {| def_schema := object_of
     (schema_k8sio_api_core_v1_PersistentVolumeSpec_1 ref ++ schema_k8sio_api_core_v1_PersistentVolumeSpec_2 ref)
     [];
     def_dependencies := ["k8s.io/api/core/v1.AWSElasticBlockStoreVolumeSource";
       "k8s.io/api/core/v1.AzureDiskVolumeSource";
       "k8s.io/api/core/v1.AzureFilePersistentVolumeSource";
       "k8s.io/api/core/v1.CSIPersistentVolumeSource";
       "k8s.io/api/core/v1.CephFSPersistentVolumeSource";
       "k8s.io/api/core/v1.CinderPersistentVolumeSource";
       "k8s.io/api/core/v1.FCVolumeSource";
       "k8s.io/api/core/v1.FlexPersistentVolumeSource";
       "k8s.io/api/core/v1.FlockerVolumeSource";
       "k8s.io/api/core/v1.GCEPersistentDiskVolumeSource";
       "k8s.io/api/core/v1.GlusterfsPersistentVolumeSource";
       "k8s.io/api/core/v1.HostPathVolumeSource";
       "k8s.io/api/core/v1.ISCSIPersistentVolumeSource";
       "k8s.io/api/core/v1.LocalVolumeSource";
       "k8s.io/api/core/v1.NFSVolumeSource";
       "k8s.io/api/core/v1.ObjectReference";
       "k8s.io/api/core/v1.PhotonPersistentDiskVolumeSource";
       "k8s.io/api/core/v1.PortworxVolumeSource";
       "k8s.io/api/core/v1.QuobyteVolumeSource";
       "k8s.io/api/core/v1.RBDPersistentVolumeSource";
       "k8s.io/api/core/v1.ScaleIOPersistentVolumeSource";
       "k8s.io/api/core/v1.StorageOSPersistentVolumeSource";
       "k8s.io/api/core/v1.VolumeNodeAffinity";
       "k8s.io/api/core/v1.VsphereVirtualDiskVolumeSource";
       "k8s.io/apimachinery/pkg/api/resource.Quantity"] |}.

(** The schema of [PersistentVolumeStatus]. *)
Definition schema_k8sio_api_core_v1_PersistentVolumeStatus (ref : string → string) : definition :=
  {| def_schema := object_of
     ([("phase", with_enum ["Available"; "Bound"; "Failed"; "Pending"; "Released"] (typed "string" ""));
      ("message", typed "string" "");
      ("reason", typed "string" "");
      ("lastPhaseTransitionTime", reference (ref "k8s.io/apimachinery/pkg/apis/meta/v1.Time"))])
     [];
     def_dependencies := ["k8s.io/apimachinery/pkg/apis/meta/v1.Time"] |}.

(** The schema of [PhotonPersistentDiskVolumeSource]. *)
Definition schema_k8sio_api_core_v1_PhotonPersistentDiskVolumeSource (ref : string → string) : definition :=
  {| def_schema := object_of
     ([("pdID", with_default (JStr "") (typed "string" ""));
      ("fsType", typed "string" "")])
     ["pdID"];
     def_dependencies := [] |}.

(** The schema of [Pod]. *)
Definition schema_k8sio_api_core_v1_Pod (ref : string → string) : definition :=
  {| def_schema := object_of
     ([("kind", typed "string" "");
      ("apiVersion", typed "string" "");
      ("metadata", with_default (JObj []) (reference (ref "k8s.io/apimachinery/pkg/apis/meta/v1.ObjectMeta")));
      ("spec", with_default (JObj []) (reference (ref "k8s.io/api/core/v1.PodSpec")));
      ("status", with_default (JObj []) (reference (ref "k8s.io/api/core/v1.PodStatus")))])
     [];
     def_dependencies := ["k8s.io/api/core/v1.PodSpec";
       "k8s.io/api/core/v1.PodStatus";
       "k8s.io/apimachinery/pkg/apis/meta/v1.ObjectMeta"] |}.

(** The schema of [PodAffinity]. *)
Definition schema_k8sio_api_core_v1_PodAffinity (ref : string → string) : definition :=
  {| def_schema := object_of
     ([("requiredDuringSchedulingIgnoredDuringExecution", with_extensions [("x-kubernetes-list-type", JStr "atomic")]
       (array_of (with_default (JObj []) (reference (ref "k8s.io/api/core/v1.PodAffinityTerm")))));
      ("preferredDuringSchedulingIgnoredDuringExecution", with_extensions [("x-kubernetes-list-type", JStr "atomic")]
       (array_of (with_default (JObj []) (reference (ref "k8s.io/api/core/v1.WeightedPodAffinityTerm")))))])
     [];
     def_dependencies := ["k8s.io/api/core/v1.PodAffinityTerm";
       "k8s.io/api/core/v1.WeightedPodAffinityTerm"] |}.

(** The schema of [PodAffinityTerm]. *)
Definition schema_k8sio_api_core_v1_PodAffinityTerm (ref : string → string) : definition :=
  {| def_schema := object_of
     ([("labelSelector", reference (ref "k8s.io/apimachinery/pkg/apis/meta/v1.LabelSelector"));
      ("namespaces", with_extensions [("x-kubernetes-list-type", JStr "atomic")]
       (array_of (with_default (JStr "") (typed "string" ""))));
      ("topologyKey", with_default (JStr "") (typed "string" ""));
      ("namespaceSelector", reference (ref "k8s.io/apimachinery/pkg/apis/meta/v1.LabelSelector"));
      ("matchLabelKeys", with_extensions [("x-kubernetes-list-type", JStr "atomic")]
       (array_of (with_default (JStr "") (typed "string" ""))));
      ("mismatchLabelKeys", with_extensions [("x-kubernetes-list-type", JStr "atomic")]
       (array_of (with_default (JStr "") (typed "string" ""))))])
     ["topologyKey"];
     def_dependencies := ["k8s.io/apimachinery/pkg/apis/meta/v1.LabelSelector"] |}.

(** The schema of [PodAntiAffinity]. *)
Definition schema_k8sio_api_core_v1_PodAntiAffinity (ref : string → string) : definition :=
  {| def_schema := object_of
     ([("requiredDuringSchedulingIgnoredDuringExecution", with_extensions [("x-kubernetes-list-type", JStr "atomic")]
       (array_of (with_default (JObj []) (reference (ref "k8s.io/api/core/v1.PodAffinityTerm")))));
      ("preferredDuringSchedulingIgnoredDuringExecution", with_extensions [("x-kubernetes-list-type", JStr "atomic")]
       (array_of (with_default (JObj []) (reference (ref "k8s.io/api/core/v1.WeightedPodAffinityTerm")))))])
     [];
     def_dependencies := ["k8s.io/api/core/v1.PodAffinityTerm";
       "k8s.io/api/core/v1.WeightedPodAffinityTerm"] |}.

(** The schema of [PodAttachOptions]. *)
Definition schema_k8sio_api_core_v1_PodAttachOptions (ref : string → string) : definition :=
  {| def_schema := object_of
     ([("kind", typed "string" "");
      ("apiVersion", typed "string" "");
      ("stdin", typed "boolean" "");
      ("stdout", typed "boolean" "");
      ("stderr", typed "boolean" "");
      ("tty", typed "boolean" "");
      ("container", typed "string" "")])
     [];
     def_dependencies := [] |}.

(** The schema of [PodCertificateProjection]. *)
Definition schema_k8sio_api_core_v1_PodCertificateProjection (ref : string → string) : definition :=
  {| def_schema := object_of
     ([("signerName", typed "string" "");
      ("keyType", typed "string" "");
      ("maxExpirationSeconds", typed "integer" "int32");
      ("credentialBundlePath", typed "string" "");
      ("keyPath", typed "string" "");
      ("certificateChainPath", typed "string" "")])
     [];
     def_dependencies := [] |}.

(** The schema of [PodCondition]. *)
Definition schema_k8sio_api_core_v1_PodCondition (ref : string → string) : definition :=
  {| def_schema := object_of
     ([("type", with_default (JStr "") (typed "string" ""));
      ("observedGeneration", typed "integer" "int64");
      ("status", with_default (JStr "") (typed "string" ""));
      ("lastProbeTime", reference (ref "k8s.io/apimachinery/pkg/apis/meta/v1.Time"));
      ("lastTransitionTime", reference (ref "k8s.io/apimachinery/pkg/apis/meta/v1.Time"));
      ("reason", typed "string" "");
      ("message", typed "string" "")])
     ["type"; "status"];
     def_dependencies := ["k8s.io/apimachinery/pkg/apis/meta/v1.Time"] |}.

(** The schema of [PodDNSConfig]. *)
Definition schema_k8sio_api_core_v1_PodDNSConfig (ref : string → string) : definition :=
  {| def_schema := object_of
     ([("nameservers", with_extensions [("x-kubernetes-list-type", JStr "atomic")]
       (array_of (with_default (JStr "") (typed "string" ""))));
      ("searches", with_extensions [("x-kubernetes-list-type", JStr "atomic")]
       (array_of (with_default (JStr "") (typed "string" ""))));
      ("options", with_extensions [("x-kubernetes-list-type", JStr "atomic")]
       (array_of (with_default (JObj []) (reference (ref "k8s.io/api/core/v1.PodDNSConfigOption")))))])
     [];
     def_dependencies := ["k8s.io/api/core/v1.PodDNSConfigOption"] |}.

(** The schema of [PodDNSConfigOption]. *)
Definition schema_k8sio_api_core_v1_PodDNSConfigOption (ref : string → string) : definition :=
  {| def_schema := object_of
     ([("name", typed "string" "");
      ("value", typed "string" "")])
     [];
     def_dependencies := [] |}.

(** The schema of [PodExecOptions]. *)
Definition schema_k8sio_api_core_v1_PodExecOptions (ref : string → string) : definition :=
  {| def_schema := object_of
     ([("kind", typed "string" "");
      ("apiVersion", typed "string" "");
      ("stdin", typed "boolean" "");
      ("stdout", typed "boolean" "");
      ("stderr", typed "boolean" "");
      ("tty", typed "boolean" "");
      ("container", typed "string" "");
      ("command", with_extensions [("x-kubernetes-list-type", JStr "atomic")]
       (array_of (with_default (JStr "") (typed "string" ""))))])
     ["command"];
     def_dependencies := [] |}.

(** The schema of [PodExtendedResourceClaimStatus]. *)
Definition schema_k8sio_api_core_v1_PodExtendedResourceClaimStatus (ref : string → string) : definition :=
  {| def_schema := object_of
     ([("requestMappings", with_extensions [("x-kubernetes-list-type", JStr "atomic")]
       (array_of (with_default (JObj []) (reference (ref "k8s.io/api/core/v1.ContainerExtendedResourceRequest")))));
      ("resourceClaimName", with_default (JStr "") (typed "string" ""))])
     ["requestMappings"; "resourceClaimName"];
     def_dependencies := ["k8s.io/api/core/v1.ContainerExtendedResourceRequest"] |}.

(** The schema of [PodIP]. *)
Definition schema_k8sio_api_core_v1_PodIP (ref : string → string) : definition :=
  {| def_schema := object_of
     ([("ip", with_default (JStr "") (typed "string" ""))])
     ["ip"];
     def_dependencies := [] |}.

(** The schema of [PodList]. *)
Definition schema_k8sio_api_core_v1_PodList (ref : string → string) : definition :=
  {| def_schema := object_of
     ([("kind", typed "string" "");
      ("apiVersion", typed "string" "");
      ("metadata", with_default (JObj []) (reference (ref "k8s.io/apimachinery/pkg/apis/meta/v1.ListMeta")));
      ("items", array_of (with_default (JObj []) (reference (ref "k8s.io/api/core/v1.Pod"))))])
     ["items"];
     def_dependencies := ["k8s.io/api/core/v1.Pod";
       "k8s.io/apimachinery/pkg/apis/meta/v1.ListMeta"] |}.

(** The entries of [GetOpenAPIDefinitions] for these types. *)
Definition core_3_definitions (ref : string → string) : list (string * definition) :=
  [("k8s.io/api/core/v1.NodeAddress", schema_k8sio_api_core_v1_NodeAddress ref);
   ("k8s.io/api/core/v1.NodeAffinity", schema_k8sio_api_core_v1_NodeAffinity ref);
   ("k8s.io/api/core/v1.NodeCondition", schema_k8sio_api_core_v1_NodeCondition ref);
   ("k8s.io/api/core/v1.NodeConfigSource", schema_k8sio_api_core_v1_NodeConfigSource ref);
   ("k8s.io/api/core/v1.NodeConfigStatus", schema_k8sio_api_core_v1_NodeConfigStatus ref);
   ("k8s.io/api/core/v1.NodeDaemonEndpoints", schema_k8sio_api_core_v1_NodeDaemonEndpoints ref);
   ("k8s.io/api/core/v1.NodeFeatures", schema_k8sio_api_core_v1_NodeFeatures ref);
   ("k8s.io/api/core/v1.NodeList", schema_k8sio_api_core_v1_NodeList ref);
   ("k8s.io/api/core/v1.NodeProxyOptions", schema_k8sio_api_core_v1_NodeProxyOptions ref);
   ("k8s.io/api/core/v1.NodeRuntimeHandler", schema_k8sio_api_core_v1_NodeRuntimeHandler ref);
   ("k8s.io/api/core/v1.NodeRuntimeHandlerFeatures", schema_k8sio_api_core_v1_NodeRuntimeHandlerFeatures ref);
   ("k8s.io/api/core/v1.NodeSelector", schema_k8sio_api_core_v1_NodeSelector ref);
   ("k8s.io/api/core/v1.NodeSelectorRequirement", schema_k8sio_api_core_v1_NodeSelectorRequirement ref);
   ("k8s.io/api/core/v1.NodeSelectorTerm", schema_k8sio_api_core_v1_NodeSelectorTerm ref);
   ("k8s.io/api/core/v1.NodeSpec", schema_k8sio_api_core_v1_NodeSpec ref);
   ("k8s.io/api/core/v1.NodeStatus", schema_k8sio_api_core_v1_NodeStatus ref);
   ("k8s.io/api/core/v1.NodeSwapStatus", schema_k8sio_api_core_v1_NodeSwapStatus ref);
   ("k8s.io/api/core/v1.NodeSystemInfo", schema_k8sio_api_core_v1_NodeSystemInfo ref);
   ("k8s.io/api/core/v1.ObjectFieldSelector", schema_k8sio_api_core_v1_ObjectFieldSelector ref);
   ("k8s.io/api/core/v1.ObjectReference", schema_k8sio_api_core_v1_ObjectReference ref);
   ("k8s.io/api/core/v1.PersistentVolume", schema_k8sio_api_core_v1_PersistentVolume ref);
   ("k8s.io/api/core/v1.PersistentVolumeClaim", schema_k8sio_api_core_v1_PersistentVolumeClaim ref);
   ("k8s.io/api/core/v1.PersistentVolumeClaimCondition", schema_k8sio_api_core_v1_PersistentVolumeClaimCondition ref);
   ("k8s.io/api/core/v1.PersistentVolumeClaimList", schema_k8sio_api_core_v1_PersistentVolumeClaimList ref);
   ("k8s.io/api/core/v1.PersistentVolumeClaimSpec", schema_k8sio_api_core_v1_PersistentVolumeClaimSpec ref);
   ("k8s.io/api/core/v1.PersistentVolumeClaimStatus", schema_k8sio_api_core_v1_PersistentVolumeClaimStatus ref);
   ("k8s.io/api/core/v1.PersistentVolumeClaimTemplate", schema_k8sio_api_core_v1_PersistentVolumeClaimTemplate ref);
   ("k8s.io/api/core/v1.PersistentVolumeClaimVolumeSource", schema_k8sio_api_core_v1_PersistentVolumeClaimVolumeSource ref);
   ("k8s.io/api/core/v1.PersistentVolumeList", schema_k8sio_api_core_v1_PersistentVolumeList ref);
   ("k8s.io/api/core/v1.PersistentVolumeSource", schema_k8sio_api_core_v1_PersistentVolumeSource ref);
   ("k8s.io/api/core/v1.PersistentVolumeSpec", schema_k8sio_api_core_v1_PersistentVolumeSpec ref);
   ("k8s.io/api/core/v1.PersistentVolumeStatus", schema_k8sio_api_core_v1_PersistentVolumeStatus ref);
   ("k8s.io/api/core/v1.PhotonPersistentDiskVolumeSource", schema_k8sio_api_core_v1_PhotonPersistentDiskVolumeSource ref);
   ("k8s.io/api/core/v1.Pod", schema_k8sio_api_core_v1_Pod ref);
   ("k8s.io/api/core/v1.PodAffinity", schema_k8sio_api_core_v1_PodAffinity ref);
   ("k8s.io/api/core/v1.PodAffinityTerm", schema_k8sio_api_core_v1_PodAffinityTerm ref);
   ("k8s.io/api/core/v1.PodAntiAffinity", schema_k8sio_api_core_v1_PodAntiAffinity ref);
   ("k8s.io/api/core/v1.PodAttachOptions", schema_k8sio_api_core_v1_PodAttachOptions ref);
   ("k8s.io/api/core/v1.PodCertificateProjection", schema_k8sio_api_core_v1_PodCertificateProjection ref);
   ("k8s.io/api/core/v1.PodCondition", schema_k8sio_api_core_v1_PodCondition ref);
   ("k8s.io/api/core/v1.PodDNSConfig", schema_k8sio_api_core_v1_PodDNSConfig ref);
   ("k8s.io/api/core/v1.PodDNSConfigOption", schema_k8sio_api_core_v1_PodDNSConfigOption ref);
   ("k8s.io/api/core/v1.PodExecOptions", schema_k8sio_api_core_v1_PodExecOptions ref);
   ("k8s.io/api/core/v1.PodExtendedResourceClaimStatus", schema_k8sio_api_core_v1_PodExtendedResourceClaimStatus ref);
   ("k8s.io/api/core/v1.PodIP", schema_k8sio_api_core_v1_PodIP ref);
   ("k8s.io/api/core/v1.PodList", schema_k8sio_api_core_v1_PodList ref)].
