(* ===== verification/SchemasCore4.v ===== *)
(** * Published schemas of library types: core 4

    The definitions [openapi_generated.go] publishes for the core group, from [PodLogOptions] to [ScaleIOPersistentVolumeSource], without
    their descriptions. *)

From S2P Require Import Prelude Types Json Schema.

(** The schema of [PodLogOptions]. *)
Definition schema_k8sio_api_core_v1_PodLogOptions (ref : string → string) : definition :=
  {| def_schema := object_of
     ([("kind", typed "string" "");
      ("apiVersion", typed "string" "");
      ("container", typed "string" "");
      ("follow", typed "boolean" "");
      ("previous", typed "boolean" "");
      ("sinceSeconds", typed "integer" "int64");
      ("sinceTime", reference (ref "k8s.io/apimachinery/pkg/apis/meta/v1.Time"));
      ("timestamps", typed "boolean" "");
      ("tailLines", typed "integer" "int64");
      ("limitBytes", typed "integer" "int64");
      ("insecureSkipTLSVerifyBackend", typed "boolean" "");
      ("stream", typed "string" "")])
     [];
     def_dependencies := ["k8s.io/apimachinery/pkg/apis/meta/v1.Time"] |}.

(** The schema of [PodOS]. *)
Definition schema_k8sio_api_core_v1_PodOS (ref : string → string) : definition :=
  {| def_schema := object_of
     ([("name", with_default (JStr "") (typed "string" ""))])
     ["name"];
     def_dependencies := [] |}.

(** The schema of [PodPortForwardOptions]. *)
Definition schema_k8sio_api_core_v1_PodPortForwardOptions (ref : string → string) : definition :=
  {| def_schema := object_of
     ([("kind", typed "string" "");
      ("apiVersion", typed "string" "");
      ("ports", with_extensions [("x-kubernetes-list-type", JStr "atomic")]
       (array_of (with_default (JNum 0) (typed "integer" "int32"))))])
     [];
     def_dependencies := [] |}.

(** The schema of [PodProxyOptions]. *)
Definition schema_k8sio_api_core_v1_PodProxyOptions (ref : string → string) : definition :=
  {| def_schema := object_of
     ([("kind", typed "string" "");
      ("apiVersion", typed "string" "");
      ("path", typed "string" "")])
     [];
     def_dependencies := [] |}.

(** The schema of [PodReadinessGate]. *)
Definition schema_k8sio_api_core_v1_PodReadinessGate (ref : string → string) : definition :=
  {| def_schema := object_of
     ([("conditionType", with_default (JStr "") (typed "string" ""))])
     ["conditionType"];
     def_dependencies := [] |}.

(** The schema of [PodResourceClaim]. *)
Definition schema_k8sio_api_core_v1_PodResourceClaim (ref : string → string) : definition :=
  {| def_schema := object_of
     ([("name", with_default (JStr "") (typed "string" ""));
      ("resourceClaimName", typed "string" "");
      ("resourceClaimTemplateName", typed "string" "")])
     ["name"];
     def_dependencies := [] |}.

(** The schema of [PodResourceClaimStatus]. *)
Definition schema_k8sio_api_core_v1_PodResourceClaimStatus (ref : string → string) : definition :=
  {| def_schema := object_of
     ([("name", with_default (JStr "") (typed "string" ""));
      ("resourceClaimName", typed "string" "")])
     ["name"];
     def_dependencies := [] |}.

(** The schema of [PodSchedulingGate]. *)
Definition schema_k8sio_api_core_v1_PodSchedulingGate (ref : string → string) : definition :=
  {| def_schema := object_of
     ([("name", with_default (JStr "") (typed "string" ""))])
     ["name"];
     def_dependencies := [] |}.

(** The schema of [PodSecurityContext]. *)
Definition schema_k8sio_api_core_v1_PodSecurityContext (ref : string → string) : definition :=
  {| def_schema := object_of
     ([("seLinuxOptions", reference (ref "k8s.io/api/core/v1.SELinuxOptions"));
      ("windowsOptions", reference (ref "k8s.io/api/core/v1.WindowsSecurityContextOptions"));
      ("runAsUser", typed "integer" "int64");
      ("runAsGroup", typed "integer" "int64");
      ("runAsNonRoot", typed "boolean" "");
      ("supplementalGroups", with_extensions [("x-kubernetes-list-type", JStr "atomic")]
       (array_of (with_default (JNum 0) (typed "integer" "int64"))));
      ("supplementalGroupsPolicy", with_enum ["Merge"; "Strict"] (typed "string" ""));
      ("fsGroup", typed "integer" "int64");
      ("sysctls", with_extensions [("x-kubernetes-list-type", JStr "atomic")]
       (array_of (with_default (JObj []) (reference (ref "k8s.io/api/core/v1.Sysctl")))));
      ("fsGroupChangePolicy", with_enum ["Always"; "OnRootMismatch"] (typed "string" ""));
      ("seccompProfile", reference (ref "k8s.io/api/core/v1.SeccompProfile"));
      ("appArmorProfile", reference (ref "k8s.io/api/core/v1.AppArmorProfile"));
      ("seLinuxChangePolicy", typed "string" "")])
     [];
     def_dependencies := ["k8s.io/api/core/v1.AppArmorProfile";
       "k8s.io/api/core/v1.SELinuxOptions";
       "k8s.io/api/core/v1.SeccompProfile";
       "k8s.io/api/core/v1.Sysctl";
       "k8s.io/api/core/v1.WindowsSecurityContextOptions"] |}.

(** The schema of [PodSignature]. *)
Definition schema_k8sio_api_core_v1_PodSignature (ref : string → string) : definition :=
  {| def_schema := object_of
     ([("podController", reference (ref "k8s.io/apimachinery/pkg/apis/meta/v1.OwnerReference"))])
     [];
     def_dependencies := ["k8s.io/apimachinery/pkg/apis/meta/v1.OwnerReference"] |}.

(** The properties of [PodSpec] from [volumes] to [dnsPolicy]. *)
Definition schema_k8sio_api_core_v1_PodSpec_1 (ref : string → string) : list (string * schema) :=
  [("volumes", with_extensions [("x-kubernetes-list-map-keys", JArr [JStr "name"]);
        ("x-kubernetes-list-type", JStr "map");
        ("x-kubernetes-patch-merge-key", JStr "name");
        ("x-kubernetes-patch-strategy", JStr "merge,retainKeys")]
       (array_of (with_default (JObj []) (reference (ref "k8s.io/api/core/v1.Volume")))));
   ("initContainers", with_extensions [("x-kubernetes-list-map-keys", JArr [JStr "name"]);
        ("x-kubernetes-list-type", JStr "map");
        ("x-kubernetes-patch-merge-key", JStr "name");
        ("x-kubernetes-patch-strategy", JStr "merge")]
       (array_of (with_default (JObj []) (reference (ref "k8s.io/api/core/v1.Container")))));
   ("containers", with_extensions [("x-kubernetes-list-map-keys", JArr [JStr "name"]);
        ("x-kubernetes-list-type", JStr "map");
        ("x-kubernetes-patch-merge-key", JStr "name");
        ("x-kubernetes-patch-strategy", JStr "merge")]
       (array_of (with_default (JObj []) (reference (ref "k8s.io/api/core/v1.Container")))));
   ("ephemeralContainers", with_extensions [("x-kubernetes-list-map-keys", JArr [JStr "name"]);
        ("x-kubernetes-list-type", JStr "map");
        ("x-kubernetes-patch-merge-key", JStr "name");
        ("x-kubernetes-patch-strategy", JStr "merge")]
       (array_of (with_default (JObj []) (reference (ref "k8s.io/api/core/v1.EphemeralContainer")))));
   ("restartPolicy", with_enum ["Always"; "Never"; "OnFailure"] (typed "string" ""));
   ("terminationGracePeriodSeconds", typed "integer" "int64");
   ("activeDeadlineSeconds", typed "integer" "int64");
   ("dnsPolicy", with_enum ["ClusterFirst"; "ClusterFirstWithHostNet"; "Default"; "None"] (typed "string" ""))].

(** The properties of [PodSpec] from [nodeSelector] to [schedulerName]. *)
Definition schema_k8sio_api_core_v1_PodSpec_2 (ref : string → string) : list (string * schema) :=
  [("nodeSelector", with_extensions [("x-kubernetes-map-type", JStr "atomic")]
       (map_of (with_default (JStr "") (typed "string" ""))));
   ("serviceAccountName", typed "string" "");
   ("serviceAccount", typed "string" "");
   ("automountServiceAccountToken", typed "boolean" "");
   ("nodeName", typed "string" "");
   ("hostNetwork", typed "boolean" "");
   ("hostPID", typed "boolean" "");
   ("hostIPC", typed "boolean" "");
   ("shareProcessNamespace", typed "boolean" "");
   ("securityContext", reference (ref "k8s.io/api/core/v1.PodSecurityContext"));
   ("imagePullSecrets", with_extensions [("x-kubernetes-list-map-keys", JArr [JStr "name"]);
        ("x-kubernetes-list-type", JStr "map");
        ("x-kubernetes-patch-merge-key", JStr "name");
        ("x-kubernetes-patch-strategy", JStr "merge")]
       (array_of (with_default (JObj []) (reference (ref "k8s.io/api/core/v1.LocalObjectReference")))));
   ("hostname", typed "string" "");
   ("subdomain", typed "string" "");
   ("affinity", reference (ref "k8s.io/api/core/v1.Affinity"));
   ("schedulerName", typed "string" "")].

(** The properties of [PodSpec] from [tolerations] to [overhead]. *)
Definition schema_k8sio_api_core_v1_PodSpec_3 (ref : string → string) : list (string * schema) :=
  [("tolerations", with_extensions [("x-kubernetes-list-type", JStr "atomic")]
       (array_of (with_default (JObj []) (reference (ref "k8s.io/api/core/v1.Toleration")))));
   ("hostAliases", with_extensions [("x-kubernetes-list-map-keys", JArr [JStr "ip"]);
        ("x-kubernetes-list-type", JStr "map");
        ("x-kubernetes-patch-merge-key", JStr "ip");
        ("x-kubernetes-patch-strategy", JStr "merge")]
       (array_of (with_default (JObj []) (reference (ref "k8s.io/api/core/v1.HostAlias")))));
   ("priorityClassName", typed "string" "");
   ("priority", typed "integer" "int32");
   ("dnsConfig", reference (ref "k8s.io/api/core/v1.PodDNSConfig"));
   ("readinessGates", with_extensions [("x-kubernetes-list-type", JStr "atomic")]
       (array_of (with_default (JObj []) (reference (ref "k8s.io/api/core/v1.PodReadinessGate")))));
   ("runtimeClassName", typed "string" "");
   ("enableServiceLinks", typed "boolean" "");
   ("preemptionPolicy", with_enum ["Never"; "PreemptLowerPriority"] (typed "string" ""));
   ("overhead", map_of (reference (ref "k8s.io/apimachinery/pkg/api/resource.Quantity")))].

(** The properties of [PodSpec] from [topologySpreadConstraints] to [hostnameOverride]. *)
Definition schema_k8sio_api_core_v1_PodSpec_4 (ref : string → string) : list (string * schema) :=
  [("topologySpreadConstraints", with_extensions [("x-kubernetes-list-map-keys", JArr [JStr "topologyKey"; JStr "whenUnsatisfiable"]);
        ("x-kubernetes-list-type", JStr "map");
        ("x-kubernetes-patch-merge-key", JStr "topologyKey");
        ("x-kubernetes-patch-strategy", JStr "merge")]
       (array_of (with_default (JObj []) (reference (ref "k8s.io/api/core/v1.TopologySpreadConstraint")))));
   ("setHostnameAsFQDN", typed "boolean" "");
   ("os", reference (ref "k8s.io/api/core/v1.PodOS"));
   ("hostUsers", typed "boolean" "");
   ("schedulingGates", with_extensions [("x-kubernetes-list-map-keys", JArr [JStr "name"]);
        ("x-kubernetes-list-type", JStr "map");
        ("x-kubernetes-patch-merge-key", JStr "name");
        ("x-kubernetes-patch-strategy", JStr "merge")]
       (array_of (with_default (JObj []) (reference (ref "k8s.io/api/core/v1.PodSchedulingGate")))));
   ("resourceClaims", with_extensions [("x-kubernetes-list-map-keys", JArr [JStr "name"]);
        ("x-kubernetes-list-type", JStr "map");
        ("x-kubernetes-patch-merge-key", JStr "name");
        ("x-kubernetes-patch-strategy", JStr "merge,retainKeys")]
       (array_of (with_default (JObj []) (reference (ref "k8s.io/api/core/v1.PodResourceClaim")))));
   ("resources", reference (ref "k8s.io/api/core/v1.ResourceRequirements"));
   ("hostnameOverride", typed "string" "")].

(** The schema of [PodSpec]. *)
Definition schema_k8sio_api_core_v1_PodSpec (ref : string → string) : definition :=
  {| def_schema := object_of
     (schema_k8sio_api_core_v1_PodSpec_1 ref ++ schema_k8sio_api_core_v1_PodSpec_2 ref ++ schema_k8sio_api_core_v1_PodSpec_3 ref ++ schema_k8sio_api_core_v1_PodSpec_4 ref)
     ["containers"];
     def_dependencies := ["k8s.io/api/core/v1.Affinity";
       "k8s.io/api/core/v1.Container";
       "k8s.io/api/core/v1.EphemeralContainer";
       "k8s.io/api/core/v1.HostAlias";
       "k8s.io/api/core/v1.LocalObjectReference";
       "k8s.io/api/core/v1.PodDNSConfig";
       "k8s.io/api/core/v1.PodOS";
       "k8s.io/api/core/v1.PodReadinessGate";
       "k8s.io/api/core/v1.PodResourceClaim";
       "k8s.io/api/core/v1.PodSchedulingGate";
       "k8s.io/api/core/v1.PodSecurityContext";
       "k8s.io/api/core/v1.ResourceRequirements";
       "k8s.io/api/core/v1.Toleration";
       "k8s.io/api/core/v1.TopologySpreadConstraint";
       "k8s.io/api/core/v1.Volume";
       "k8s.io/apimachinery/pkg/api/resource.Quantity"] |}.

(** The properties of [PodStatus] from [observedGeneration] to [startTime]. *)
Definition schema_k8sio_api_core_v1_PodStatus_1 (ref : string → string) : list (string * schema) :=
  [("observedGeneration", typed "integer" "int64");
   ("phase", with_enum ["Failed"; "Pending"; "Running"; "Succeeded"; "Unknown"] (typed "string" ""));
   ("conditions", with_extensions [("x-kubernetes-list-map-keys", JArr [JStr "type"]);
        ("x-kubernetes-list-type", JStr "map");
        ("x-kubernetes-patch-merge-key", JStr "type");
        ("x-kubernetes-patch-strategy", JStr "merge")]
       (array_of (with_default (JObj []) (reference (ref "k8s.io/api/core/v1.PodCondition")))));
   ("message", typed "string" "");
   ("reason", typed "string" "");
   ("nominatedNodeName", typed "string" "");
   ("hostIP", typed "string" "");
   ("hostIPs", with_extensions [("x-kubernetes-list-type", JStr "atomic");
        ("x-kubernetes-patch-merge-key", JStr "ip");
        ("x-kubernetes-patch-strategy", JStr "merge")]
       (array_of (with_default (JObj []) (reference (ref "k8s.io/api/core/v1.HostIP")))));
   ("podIP", typed "string" "");
   ("podIPs", with_extensions [("x-kubernetes-list-map-keys", JArr [JStr "ip"]);
        ("x-kubernetes-list-type", JStr "map");
        ("x-kubernetes-patch-merge-key", JStr "ip");
        ("x-kubernetes-patch-strategy", JStr "merge")]
       (array_of (with_default (JObj []) (reference (ref "k8s.io/api/core/v1.PodIP")))));
   ("startTime", reference (ref "k8s.io/apimachinery/pkg/apis/meta/v1.Time"))].

(** The properties of [PodStatus] from [initContainerStatuses] to [extendedResourceClaimStatus]. *)
Definition schema_k8sio_api_core_v1_PodStatus_2 (ref : string → string) : list (string * schema) :=
  [("initContainerStatuses", with_extensions [("x-kubernetes-list-type", JStr "atomic")]
       (array_of (with_default (JObj []) (reference (ref "k8s.io/api/core/v1.ContainerStatus")))));
   ("containerStatuses", with_extensions [("x-kubernetes-list-type", JStr "atomic")]
       (array_of (with_default (JObj []) (reference (ref "k8s.io/api/core/v1.ContainerStatus")))));
   ("qosClass", with_enum ["BestEffort"; "Burstable"; "Guaranteed"] (typed "string" ""));
   ("ephemeralContainerStatuses", with_extensions [("x-kubernetes-list-type", JStr "atomic")]
       (array_of (with_default (JObj []) (reference (ref "k8s.io/api/core/v1.ContainerStatus")))));
   ("resize", typed "string" "");
   ("resourceClaimStatuses", with_extensions [("x-kubernetes-list-map-keys", JArr [JStr "name"]);
        ("x-kubernetes-list-type", JStr "map");
        ("x-kubernetes-patch-merge-key", JStr "name");
        ("x-kubernetes-patch-strategy", JStr "merge,retainKeys")]
       (array_of (with_default (JObj []) (reference (ref "k8s.io/api/core/v1.PodResourceClaimStatus")))));
   ("extendedResourceClaimStatus", reference (ref "k8s.io/api/core/v1.PodExtendedResourceClaimStatus"))].

(** The schema of [PodStatus]. *)
Definition schema_k8sio_api_core_v1_PodStatus (ref : string → string) : definition :=
  {| def_schema := object_of
     (schema_k8sio_api_core_v1_PodStatus_1 ref ++ schema_k8sio_api_core_v1_PodStatus_2 ref)
     [];
     def_dependencies := ["k8s.io/api/core/v1.ContainerStatus";
       "k8s.io/api/core/v1.HostIP";
       "k8s.io/api/core/v1.PodCondition";
       "k8s.io/api/core/v1.PodExtendedResourceClaimStatus";
       "k8s.io/api/core/v1.PodIP";
       "k8s.io/api/core/v1.PodResourceClaimStatus";
       "k8s.io/apimachinery/pkg/apis/meta/v1.Time"] |}.

(** The schema of [PodStatusResult]. *)
Definition schema_k8sio_api_core_v1_PodStatusResult (ref : string → string) : definition :=
  {| def_schema := object_of
     ([("kind", typed "string" "");
      ("apiVersion", typed "string" "");
      ("metadata", with_default (JObj []) (reference (ref "k8s.io/apimachinery/pkg/apis/meta/v1.ObjectMeta")));
      ("status", with_default (JObj []) (reference (ref "k8s.io/api/core/v1.PodStatus")))])
     [];
     def_dependencies := ["k8s.io/api/core/v1.PodStatus";
       "k8s.io/apimachinery/pkg/apis/meta/v1.ObjectMeta"] |}.

(** The schema of [PodTemplate]. *)
Definition schema_k8sio_api_core_v1_PodTemplate (ref : string → string) : definition :=
  {| def_schema := object_of
     ([("kind", typed "string" "");
      ("apiVersion", typed "string" "");
      ("metadata", with_default (JObj []) (reference (ref "k8s.io/apimachinery/pkg/apis/meta/v1.ObjectMeta")));
      ("template", with_default (JObj []) (reference (ref "k8s.io/api/core/v1.PodTemplateSpec")))])
     [];
     def_dependencies := ["k8s.io/api/core/v1.PodTemplateSpec";
       "k8s.io/apimachinery/pkg/apis/meta/v1.ObjectMeta"] |}.

(** The schema of [PodTemplateList]. *)
Definition schema_k8sio_api_core_v1_PodTemplateList (ref : string → string) : definition :=
  {| def_schema := object_of
     ([("kind", typed "string" "");
      ("apiVersion", typed "string" "");
      ("metadata", with_default (JObj []) (reference (ref "k8s.io/apimachinery/pkg/apis/meta/v1.ListMeta")));
      ("items", array_of (with_default (JObj []) (reference (ref "k8s.io/api/core/v1.PodTemplate"))))])
     ["items"];
     def_dependencies := ["k8s.io/api/core/v1.PodTemplate";
       "k8s.io/apimachinery/pkg/apis/meta/v1.ListMeta"] |}.

(** The schema of [PodTemplateSpec]. *)
Definition schema_k8sio_api_core_v1_PodTemplateSpec (ref : string → string) : definition :=
  {| def_schema := object_of
     ([("metadata", with_default (JObj []) (reference (ref "k8s.io/apimachinery/pkg/apis/meta/v1.ObjectMeta")));
      ("spec", with_default (JObj []) (reference (ref "k8s.io/api/core/v1.PodSpec")))])
     [];
     def_dependencies := ["k8s.io/api/core/v1.PodSpec";
       "k8s.io/apimachinery/pkg/apis/meta/v1.ObjectMeta"] |}.

(** The schema of [PortStatus]. *)
Definition schema_k8sio_api_core_v1_PortStatus (ref : string → string) : definition :=
  {| def_schema := object_of
     ([("port", with_default (JNum 0) (typed "integer" "int32"));
      ("protocol", with_enum ["SCTP"; "TCP"; "UDP"] (with_default (JStr "") (typed "string" "")));
      ("error", typed "string" "")])
     ["port"; "protocol"];
     def_dependencies := [] |}.

(** The schema of [PortworxVolumeSource]. *)
Definition schema_k8sio_api_core_v1_PortworxVolumeSource (ref : string → string) : definition :=
  {| def_schema := object_of
     ([("volumeID", with_default (JStr "") (typed "string" ""));
      ("fsType", typed "string" "");
      ("readOnly", typed "boolean" "")])
     ["volumeID"];
     def_dependencies := [] |}.

(** The schema of [PreferAvoidPodsEntry]. *)
Definition schema_k8sio_api_core_v1_PreferAvoidPodsEntry (ref : string → string) : definition :=
  {| def_schema := object_of
     ([("podSignature", with_default (JObj []) (reference (ref "k8s.io/api/core/v1.PodSignature")));
      ("evictionTime", reference (ref "k8s.io/apimachinery/pkg/apis/meta/v1.Time"));
      ("reason", typed "string" "");
      ("message", typed "string" "")])
     ["podSignature"];
     def_dependencies := ["k8s.io/api/core/v1.PodSignature";
       "k8s.io/apimachinery/pkg/apis/meta/v1.Time"] |}.

(** The schema of [PreferredSchedulingTerm]. *)
Definition schema_k8sio_api_core_v1_PreferredSchedulingTerm (ref : string → string) : definition :=
  {| def_schema := object_of
     ([("weight", with_default (JNum 0) (typed "integer" "int32"));
      ("preference", with_default (JObj []) (reference (ref "k8s.io/api/core/v1.NodeSelectorTerm")))])
     ["weight"; "preference"];
     def_dependencies := ["k8s.io/api/core/v1.NodeSelectorTerm"] |}.

(** The schema of [Probe]. *)
Definition schema_k8sio_api_core_v1_Probe (ref : string → string) : definition :=
  {| def_schema := object_of
     ([("exec", reference (ref "k8s.io/api/core/v1.ExecAction"));
      ("httpGet", reference (ref "k8s.io/api/core/v1.HTTPGetAction"));
      ("tcpSocket", reference (ref "k8s.io/api/core/v1.TCPSocketAction"));
      ("grpc", reference (ref "k8s.io/api/core/v1.GRPCAction"));
      ("initialDelaySeconds", typed "integer" "int32");
      ("timeoutSeconds", typed "integer" "int32");
      ("periodSeconds", typed "integer" "int32");
      ("successThreshold", typed "integer" "int32");
      ("failureThreshold", typed "integer" "int32");
      ("terminationGracePeriodSeconds", typed "integer" "int64")])
     [];
     def_dependencies := ["k8s.io/api/core/v1.ExecAction";
       "k8s.io/api/core/v1.GRPCAction";
       "k8s.io/api/core/v1.HTTPGetAction";
       "k8s.io/api/core/v1.TCPSocketAction"] |}.

(** The schema of [ProbeHandler]. *)
Definition schema_k8sio_api_core_v1_ProbeHandler (ref : string → string) : definition :=
  {| def_schema := object_of
     ([("exec", reference (ref "k8s.io/api/core/v1.ExecAction"));
      ("httpGet", reference (ref "k8s.io/api/core/v1.HTTPGetAction"));
      ("tcpSocket", reference (ref "k8s.io/api/core/v1.TCPSocketAction"));
      ("grpc", reference (ref "k8s.io/api/core/v1.GRPCAction"))])
     [];
     def_dependencies := ["k8s.io/api/core/v1.ExecAction";
       "k8s.io/api/core/v1.GRPCAction";
       "k8s.io/api/core/v1.HTTPGetAction";
       "k8s.io/api/core/v1.TCPSocketAction"] |}.

(** The schema of [ProjectedVolumeSource]. *)
Definition schema_k8sio_api_core_v1_ProjectedVolumeSource (ref : string → string) : definition :=
  {| def_schema := object_of
     ([("sources", with_extensions [("x-kubernetes-list-type", JStr "atomic")]
       (array_of (with_default (JObj []) (reference (ref "k8s.io/api/core/v1.VolumeProjection")))));
      ("defaultMode", typed "integer" "int32")])
     [];
     def_dependencies := ["k8s.io/api/core/v1.VolumeProjection"] |}.

(** The schema of [QuobyteVolumeSource]. *)
Definition schema_k8sio_api_core_v1_QuobyteVolumeSource (ref : string → string) : definition :=
  {| def_schema := object_of
     ([("registry", with_default (JStr "") (typed "string" ""));
      ("volume", with_default (JStr "") (typed "string" ""));
      ("readOnly", typed "boolean" "");
      ("user", typed "string" "");
      ("group", typed "string" "");
      ("tenant", typed "string" "")])
     ["registry"; "volume"];
     def_dependencies := [] |}.

(** The schema of [RBDPersistentVolumeSource]. *)
Definition schema_k8sio_api_core_v1_RBDPersistentVolumeSource (ref : string → string) : definition :=
  {| def_schema := object_of
     ([("monitors", with_extensions [("x-kubernetes-list-type", JStr "atomic")]
       (array_of (with_default (JStr "") (typed "string" ""))));
      ("image", with_default (JStr "") (typed "string" ""));
      ("fsType", typed "string" "");
      ("pool", with_default (JStr "rbd") (typed "string" ""));
      ("user", with_default (JStr "admin") (typed "string" ""));
      ("keyring", with_default (JStr "/etc/ceph/keyring") (typed "string" ""));
      ("secretRef", reference (ref "k8s.io/api/core/v1.SecretReference"));
      ("readOnly", typed "boolean" "")])
     ["monitors"; "image"];
     def_dependencies := ["k8s.io/api/core/v1.SecretReference"] |}.

(** The schema of [RBDVolumeSource]. *)
Definition schema_k8sio_api_core_v1_RBDVolumeSource (ref : string → string) : definition :=
  {| def_schema := object_of
     ([("monitors", with_extensions [("x-kubernetes-list-type", JStr "atomic")]
       (array_of (with_default (JStr "") (typed "string" ""))));
      ("image", with_default (JStr "") (typed "string" ""));
      ("fsType", typed "string" "");
      ("pool", with_default (JStr "rbd") (typed "string" ""));
      ("user", with_default (JStr "admin") (typed "string" ""));
      ("keyring", with_default (JStr "/etc/ceph/keyring") (typed "string" ""));
      ("secretRef", reference (ref "k8s.io/api/core/v1.LocalObjectReference"));
      ("readOnly", typed "boolean" "")])
     ["monitors"; "image"];
     def_dependencies := ["k8s.io/api/core/v1.LocalObjectReference"] |}.

(** The schema of [RangeAllocation]. *)
Definition schema_k8sio_api_core_v1_RangeAllocation (ref : string → string) : definition :=
  {| def_schema := object_of
     ([("kind", typed "string" "");
      ("apiVersion", typed "string" "");
      ("metadata", with_default (JObj []) (reference (ref "k8s.io/apimachinery/pkg/apis/meta/v1.ObjectMeta")));
      ("range", with_default (JStr "") (typed "string" ""));
      ("data", typed "string" "byte")])
     ["range"; "data"];
     def_dependencies := ["k8s.io/apimachinery/pkg/apis/meta/v1.ObjectMeta"] |}.

(** The schema of [ReplicationController]. *)
Definition schema_k8sio_api_core_v1_ReplicationController (ref : string → string) : definition :=
  {| def_schema := object_of
     ([("kind", typed "string" "");
      ("apiVersion", typed "string" "");
      ("metadata", with_default (JObj []) (reference (ref "k8s.io/apimachinery/pkg/apis/meta/v1.ObjectMeta")));
      ("spec", with_default (JObj []) (reference (ref "k8s.io/api/core/v1.ReplicationControllerSpec")));
      ("status", with_default (JObj []) (reference (ref "k8s.io/api/core/v1.ReplicationControllerStatus")))])
     [];
     def_dependencies := ["k8s.io/api/core/v1.ReplicationControllerSpec";
       "k8s.io/api/core/v1.ReplicationControllerStatus";
       "k8s.io/apimachinery/pkg/apis/meta/v1.ObjectMeta"] |}.

(** The schema of [ReplicationControllerCondition]. *)
Definition schema_k8sio_api_core_v1_ReplicationControllerCondition (ref : string → string) : definition :=
  {| def_schema := object_of
     ([("type", with_default (JStr "") (typed "string" ""));
      ("status", with_default (JStr "") (typed "string" ""));
      ("lastTransitionTime", reference (ref "k8s.io/apimachinery/pkg/apis/meta/v1.Time"));
      ("reason", typed "string" "");
      ("message", typed "string" "")])
     ["type"; "status"];
     def_dependencies := ["k8s.io/apimachinery/pkg/apis/meta/v1.Time"] |}.

(** The schema of [ReplicationControllerList]. *)
Definition schema_k8sio_api_core_v1_ReplicationControllerList (ref : string → string) : definition :=
  {| def_schema := object_of
     ([("kind", typed "string" "");
      ("apiVersion", typed "string" "");
      ("metadata", with_default (JObj []) (reference (ref "k8s.io/apimachinery/pkg/apis/meta/v1.ListMeta")));
      ("items", array_of (with_default (JObj []) (reference (ref "k8s.io/api/core/v1.ReplicationController"))))])
     ["items"];
     def_dependencies := ["k8s.io/api/core/v1.ReplicationController";
       "k8s.io/apimachinery/pkg/apis/meta/v1.ListMeta"] |}.

(** The schema of [ReplicationControllerSpec]. *)
Definition schema_k8sio_api_core_v1_ReplicationControllerSpec (ref : string → string) : definition :=
  {| def_schema := object_of
     ([("replicas", with_default (JNum 1) (typed "integer" "int32"));
      ("minReadySeconds", with_default (JNum 0) (typed "integer" "int32"));
      ("selector", with_extensions [("x-kubernetes-map-type", JStr "atomic")]
       (map_of (with_default (JStr "") (typed "string" ""))));
      ("template", reference (ref "k8s.io/api/core/v1.PodTemplateSpec"))])
     [];
     def_dependencies := ["k8s.io/api/core/v1.PodTemplateSpec"] |}.

(** The schema of [ReplicationControllerStatus]. *)
Definition schema_k8sio_api_core_v1_ReplicationControllerStatus (ref : string → string) : definition :=
  {| def_schema := object_of
     ([("replicas", with_default (JNum 0) (typed "integer" "int32"));
      ("fullyLabeledReplicas", typed "integer" "int32");
      ("readyReplicas", typed "integer" "int32");
      ("availableReplicas", typed "integer" "int32");
      ("observedGeneration", typed "integer" "int64");
      ("conditions", with_extensions [("x-kubernetes-list-map-keys", JArr [JStr "type"]);
        ("x-kubernetes-list-type", JStr "map");
        ("x-kubernetes-patch-merge-key", JStr "type");
        ("x-kubernetes-patch-strategy", JStr "merge")]
       (array_of (with_default (JObj []) (reference (ref "k8s.io/api/core/v1.ReplicationControllerCondition")))))])
     ["replicas"];
     def_dependencies := ["k8s.io/api/core/v1.ReplicationControllerCondition"] |}.

(** The schema of [ResourceClaim]. *)
Definition schema_k8sio_api_core_v1_ResourceClaim (ref : string → string) : definition :=
  {| def_schema := object_of
     ([("name", with_default (JStr "") (typed "string" ""));
      ("request", typed "string" "")])
     ["name"];
     def_dependencies := [] |}.

(** The schema of [ResourceFieldSelector]. *)
Definition schema_k8sio_api_core_v1_ResourceFieldSelector (ref : string → string) : definition :=
  {| def_schema := with_extensions [("x-kubernetes-map-type", JStr "atomic")] (object_of
     ([("containerName", typed "string" "");
      ("resource", with_default (JStr "") (typed "string" ""));
      ("divisor", reference (ref "k8s.io/apimachinery/pkg/api/resource.Quantity"))])
     ["resource"]);
     def_dependencies := ["k8s.io/apimachinery/pkg/api/resource.Quantity"] |}.

(** The schema of [ResourceHealth]. *)
Definition schema_k8sio_api_core_v1_ResourceHealth (ref : string → string) : definition :=
  {| def_schema := object_of
     ([("resourceID", with_default (JStr "") (typed "string" ""));
      ("health", typed "string" "")])
     ["resourceID"];
     def_dependencies := [] |}.

(** The schema of [ResourceQuota]. *)
Definition schema_k8sio_api_core_v1_ResourceQuota (ref : string → string) : definition :=
  {| def_schema := object_of
     ([("kind", typed "string" "");
      ("apiVersion", typed "string" "");
      ("metadata", with_default (JObj []) (reference (ref "k8s.io/apimachinery/pkg/apis/meta/v1.ObjectMeta")));
      ("spec", with_default (JObj []) (reference (ref "k8s.io/api/core/v1.ResourceQuotaSpec")));
      ("status", with_default (JObj []) (reference (ref "k8s.io/api/core/v1.ResourceQuotaStatus")))])
     [];
     def_dependencies := ["k8s.io/api/core/v1.ResourceQuotaSpec";
       "k8s.io/api/core/v1.ResourceQuotaStatus";
       "k8s.io/apimachinery/pkg/apis/meta/v1.ObjectMeta"] |}.

(** The schema of [ResourceQuotaList]. *)
Definition schema_k8sio_api_core_v1_ResourceQuotaList (ref : string → string) : definition :=
  {| def_schema := object_of
     ([("kind", typed "string" "");
      ("apiVersion", typed "string" "");
      ("metadata", with_default (JObj []) (reference (ref "k8s.io/apimachinery/pkg/apis/meta/v1.ListMeta")));
      ("items", array_of (with_default (JObj []) (reference (ref "k8s.io/api/core/v1.ResourceQuota"))))])
     ["items"];
     def_dependencies := ["k8s.io/api/core/v1.ResourceQuota";
       "k8s.io/apimachinery/pkg/apis/meta/v1.ListMeta"] |}.

(** The schema of [ResourceQuotaSpec]. *)
Definition schema_k8sio_api_core_v1_ResourceQuotaSpec (ref : string → string) : definition :=
  {| def_schema := object_of
     ([("hard", map_of (reference (ref "k8s.io/apimachinery/pkg/api/resource.Quantity")));
      ("scopes", with_extensions [("x-kubernetes-list-type", JStr "atomic")]
       (array_of (with_default (JStr "") (typed "string" ""))));
      ("scopeSelector", reference (ref "k8s.io/api/core/v1.ScopeSelector"))])
     [];
     def_dependencies := ["k8s.io/api/core/v1.ScopeSelector";
       "k8s.io/apimachinery/pkg/api/resource.Quantity"] |}.

(** The schema of [ResourceQuotaStatus]. *)
Definition schema_k8sio_api_core_v1_ResourceQuotaStatus (ref : string → string) : definition :=
  {| def_schema := object_of
     ([("hard", map_of (reference (ref "k8s.io/apimachinery/pkg/api/resource.Quantity")));
      ("used", map_of (reference (ref "k8s.io/apimachinery/pkg/api/resource.Quantity")))])
     [];
     def_dependencies := ["k8s.io/apimachinery/pkg/api/resource.Quantity"] |}.

(** The schema of [ResourceRequirements]. *)
Definition schema_k8sio_api_core_v1_ResourceRequirements (ref : string → string) : definition :=
  {| def_schema := object_of
     ([("limits", map_of (reference (ref "k8s.io/apimachinery/pkg/api/resource.Quantity")));
      ("requests", map_of (reference (ref "k8s.io/apimachinery/pkg/api/resource.Quantity")));
      ("claims", with_extensions [("x-kubernetes-list-map-keys", JArr [JStr "name"]);
        ("x-kubernetes-list-type", JStr "map")]
       (array_of (with_default (JObj []) (reference (ref "k8s.io/api/core/v1.ResourceClaim")))))])
     [];
     def_dependencies := ["k8s.io/api/core/v1.ResourceClaim";
       "k8s.io/apimachinery/pkg/api/resource.Quantity"] |}.

(** The schema of [ResourceStatus]. *)
Definition schema_k8sio_api_core_v1_ResourceStatus (ref : string → string) : definition :=
  {| def_schema := object_of
     ([("name", with_default (JStr "") (typed "string" ""));
      ("resources", with_extensions [("x-kubernetes-list-map-keys", JArr [JStr "resourceID"]);
        ("x-kubernetes-list-type", JStr "map")]
       (array_of (with_default (JObj []) (reference (ref "k8s.io/api/core/v1.ResourceHealth")))))])
     ["name"];
     def_dependencies := ["k8s.io/api/core/v1.ResourceHealth"] |}.

(** The schema of [SELinuxOptions]. *)
Definition schema_k8sio_api_core_v1_SELinuxOptions (ref : string → string) : definition :=
  {| def_schema := object_of
     ([("user", typed "string" "");
      ("role", typed "string" "");
      ("type", typed "string" "");
      ("level", typed "string" "")])
     [];
     def_dependencies := [] |}.

(** The schema of [ScaleIOPersistentVolumeSource]. *)
Definition schema_k8sio_api_core_v1_ScaleIOPersistentVolumeSource (ref : string → string) : definition :=
  {| def_schema := object_of
     ([("gateway", with_default (JStr "") (typed "string" ""));
      ("system", with_default (JStr "") (typed "string" ""));
      ("secretRef", reference (ref "k8s.io/api/core/v1.SecretReference"));
      ("sslEnabled", typed "boolean" "");
      ("protectionDomain", typed "string" "");
      ("storagePool", typed "string" "");
      ("storageMode", with_default (JStr "ThinProvisioned") (typed "string" ""));
      ("volumeName", typed "string" "");
      ("fsType", with_default (JStr "xfs") (typed "string" ""));
      ("readOnly", typed "boolean" "")])
     ["gateway"; "system"; "secretRef"];
     def_dependencies := ["k8s.io/api/core/v1.SecretReference"] |}.

(** The entries of [GetOpenAPIDefinitions] for these types. *)
Definition core_4_definitions (ref : string → string) : list (string * definition) :=
  [("k8s.io/api/core/v1.PodLogOptions", schema_k8sio_api_core_v1_PodLogOptions ref);
   ("k8s.io/api/core/v1.PodOS", schema_k8sio_api_core_v1_PodOS ref);
   ("k8s.io/api/core/v1.PodPortForwardOptions", schema_k8sio_api_core_v1_PodPortForwardOptions ref);
   ("k8s.io/api/core/v1.PodProxyOptions", schema_k8sio_api_core_v1_PodProxyOptions ref);
   ("k8s.io/api/core/v1.PodReadinessGate", schema_k8sio_api_core_v1_PodReadinessGate ref);
   ("k8s.io/api/core/v1.PodResourceClaim", schema_k8sio_api_core_v1_PodResourceClaim ref);
   ("k8s.io/api/core/v1.PodResourceClaimStatus", schema_k8sio_api_core_v1_PodResourceClaimStatus ref);
   ("k8s.io/api/core/v1.PodSchedulingGate", schema_k8sio_api_core_v1_PodSchedulingGate ref);
   ("k8s.io/api/core/v1.PodSecurityContext", schema_k8sio_api_core_v1_PodSecurityContext ref);
   ("k8s.io/api/core/v1.PodSignature", schema_k8sio_api_core_v1_PodSignature ref);
   ("k8s.io/api/core/v1.PodSpec", schema_k8sio_api_core_v1_PodSpec ref);
   ("k8s.io/api/core/v1.PodStatus", schema_k8sio_api_core_v1_PodStatus ref);
   ("k8s.io/api/core/v1.PodStatusResult", schema_k8sio_api_core_v1_PodStatusResult ref);
   ("k8s.io/api/core/v1.PodTemplate", schema_k8sio_api_core_v1_PodTemplate ref);
   ("k8s.io/api/core/v1.PodTemplateList", schema_k8sio_api_core_v1_PodTemplateList ref);
   ("k8s.io/api/core/v1.PodTemplateSpec", schema_k8sio_api_core_v1_PodTemplateSpec ref);
   ("k8s.io/api/core/v1.PortStatus", schema_k8sio_api_core_v1_PortStatus ref);
   ("k8s.io/api/core/v1.PortworxVolumeSource", schema_k8sio_api_core_v1_PortworxVolumeSource ref);
   ("k8s.io/api/core/v1.PreferAvoidPodsEntry", schema_k8sio_api_core_v1_PreferAvoidPodsEntry ref);
   ("k8s.io/api/core/v1.PreferredSchedulingTerm", schema_k8sio_api_core_v1_PreferredSchedulingTerm ref);
   ("k8s.io/api/core/v1.Probe", schema_k8sio_api_core_v1_Probe ref);
   ("k8s.io/api/core/v1.ProbeHandler", schema_k8sio_api_core_v1_ProbeHandler ref);
   ("k8s.io/api/core/v1.ProjectedVolumeSource", schema_k8sio_api_core_v1_ProjectedVolumeSource ref);
   ("k8s.io/api/core/v1.QuobyteVolumeSource", schema_k8sio_api_core_v1_QuobyteVolumeSource ref);
   ("k8s.io/api/core/v1.RBDPersistentVolumeSource", schema_k8sio_api_core_v1_RBDPersistentVolumeSource ref);
   ("k8s.io/api/core/v1.RBDVolumeSource", schema_k8sio_api_core_v1_RBDVolumeSource ref);
   ("k8s.io/api/core/v1.RangeAllocation", schema_k8sio_api_core_v1_RangeAllocation ref);
   ("k8s.io/api/core/v1.ReplicationController", schema_k8sio_api_core_v1_ReplicationController ref);
   ("k8s.io/api/core/v1.ReplicationControllerCondition", schema_k8sio_api_core_v1_ReplicationControllerCondition ref);
   ("k8s.io/api/core/v1.ReplicationControllerList", schema_k8sio_api_core_v1_ReplicationControllerList ref);
   ("k8s.io/api/core/v1.ReplicationControllerSpec", schema_k8sio_api_core_v1_ReplicationControllerSpec ref);
   ("k8s.io/api/core/v1.ReplicationControllerStatus", schema_k8sio_api_core_v1_ReplicationControllerStatus ref);
   ("k8s.io/api/core/v1.ResourceClaim", schema_k8sio_api_core_v1_ResourceClaim ref);
   ("k8s.io/api/core/v1.ResourceFieldSelector", schema_k8sio_api_core_v1_ResourceFieldSelector ref);
   ("k8s.io/api/core/v1.ResourceHealth", schema_k8sio_api_core_v1_ResourceHealth ref);
   ("k8s.io/api/core/v1.ResourceQuota", schema_k8sio_api_core_v1_ResourceQuota ref);
   ("k8s.io/api/core/v1.ResourceQuotaList", schema_k8sio_api_core_v1_ResourceQuotaList ref);
   ("k8s.io/api/core/v1.ResourceQuotaSpec", schema_k8sio_api_core_v1_ResourceQuotaSpec ref);
   ("k8s.io/api/core/v1.ResourceQuotaStatus", schema_k8sio_api_core_v1_ResourceQuotaStatus ref);
   ("k8s.io/api/core/v1.ResourceRequirements", schema_k8sio_api_core_v1_ResourceRequirements ref);
   ("k8s.io/api/core/v1.ResourceStatus", schema_k8sio_api_core_v1_ResourceStatus ref);
   ("k8s.io/api/core/v1.SELinuxOptions", schema_k8sio_api_core_v1_SELinuxOptions ref);
   ("k8s.io/api/core/v1.ScaleIOPersistentVolumeSource", schema_k8sio_api_core_v1_ScaleIOPersistentVolumeSource ref)].
