(* ===== verification/SchemasCore5.v ===== *)
(** * Published schemas of library types: core 5

    The definitions [openapi_generated.go] publishes for the core group, from [ScaleIOVolumeSource] to [WindowsSecurityContextOptions], without
    their descriptions. *)

From S2P Require Import Prelude Types Json Schema.

(** The schema of [ScaleIOVolumeSource]. *)
Definition schema_k8sio_api_core_v1_ScaleIOVolumeSource (ref : string → string) : definition :=
  {| def_schema := object_of
     ([("gateway", with_default (JStr "") (typed "string" ""));
      ("system", with_default (JStr "") (typed "string" ""));
      ("secretRef", reference (ref "k8s.io/api/core/v1.LocalObjectReference"));
      ("sslEnabled", typed "boolean" "");
      ("protectionDomain", typed "string" "");
      ("storagePool", typed "string" "");
      ("storageMode", with_default (JStr "ThinProvisioned") (typed "string" ""));
      ("volumeName", typed "string" "");
      ("fsType", with_default (JStr "xfs") (typed "string" ""));
      ("readOnly", typed "boolean" "")])
     ["gateway"; "system"; "secretRef"];
     def_dependencies := ["k8s.io/api/core/v1.LocalObjectReference"] |}.

(** The schema of [ScopeSelector]. *)
Definition schema_k8sio_api_core_v1_ScopeSelector (ref : string → string) : definition :=
  {| def_schema := with_extensions [("x-kubernetes-map-type", JStr "atomic")] (object_of
     ([("matchExpressions", with_extensions [("x-kubernetes-list-type", JStr "atomic")]
       (array_of (with_default (JObj []) (reference (ref "k8s.io/api/core/v1.ScopedResourceSelectorRequirement")))))])
     []);
     def_dependencies := ["k8s.io/api/core/v1.ScopedResourceSelectorRequirement"] |}.

(** The schema of [ScopedResourceSelectorRequirement]. *)
Definition schema_k8sio_api_core_v1_ScopedResourceSelectorRequirement (ref : string → string) : definition :=
  {| def_schema := object_of
     ([("scopeName", with_enum ["BestEffort"; "CrossNamespacePodAffinity"; "NotBestEffort"; "NotTerminating"; "PriorityClass"; "Terminating"; "VolumeAttributesClass"] (with_default (JStr "") (typed "string" "")));
      ("operator", with_enum ["DoesNotExist"; "Exists"; "In"; "NotIn"] (with_default (JStr "") (typed "string" "")));
      ("values", with_extensions [("x-kubernetes-list-type", JStr "atomic")]
       (array_of (with_default (JStr "") (typed "string" ""))))])
     ["scopeName"; "operator"];
     def_dependencies := [] |}.

(** The schema of [SeccompProfile]. *)
Definition schema_k8sio_api_core_v1_SeccompProfile (ref : string → string) : definition :=
  {| def_schema := with_extensions [("x-kubernetes-unions", JArr [JObj [("discriminator", JStr "type"); ("fields-to-discriminateBy", JObj [("localhostProfile", JStr "LocalhostProfile")])]])] (object_of
     ([("type", with_enum ["Localhost"; "RuntimeDefault"; "Unconfined"] (with_default (JStr "") (typed "string" "")));
      ("localhostProfile", typed "string" "")])
     ["type"]);
     def_dependencies := [] |}.

(** The schema of [Secret]. *)
Definition schema_k8sio_api_core_v1_Secret (ref : string → string) : definition :=
  {| def_schema := object_of
     ([("kind", typed "string" "");
      ("apiVersion", typed "string" "");
      ("metadata", with_default (JObj []) (reference (ref "k8s.io/apimachinery/pkg/apis/meta/v1.ObjectMeta")));
      ("immutable", typed "boolean" "");
      ("data", map_of (typed "string" "byte"));
      ("stringData", map_of (with_default (JStr "") (typed "string" "")));
      ("type", typed "string" "")])
     [];
     def_dependencies := ["k8s.io/apimachinery/pkg/apis/meta/v1.ObjectMeta"] |}.

(** The schema of [SecretEnvSource]. *)
Definition schema_k8sio_api_core_v1_SecretEnvSource (ref : string → string) : definition :=
  {| def_schema := object_of
     ([("name", with_default (JStr "") (typed "string" ""));
      ("optional", typed "boolean" "")])
     [];
     def_dependencies := [] |}.

(** The schema of [SecretKeySelector]. *)
Definition schema_k8sio_api_core_v1_SecretKeySelector (ref : string → string) : definition :=
  {| def_schema := with_extensions [("x-kubernetes-map-type", JStr "atomic")] (object_of
     ([("name", with_default (JStr "") (typed "string" ""));
      ("key", with_default (JStr "") (typed "string" ""));
      ("optional", typed "boolean" "")])
     ["key"]);
     def_dependencies := [] |}.

(** The schema of [SecretList]. *)
Definition schema_k8sio_api_core_v1_SecretList (ref : string → string) : definition :=
  {| def_schema := object_of
     ([("kind", typed "string" "");
      ("apiVersion", typed "string" "");
      ("metadata", with_default (JObj []) (reference (ref "k8s.io/apimachinery/pkg/apis/meta/v1.ListMeta")));
      ("items", array_of (with_default (JObj []) (reference (ref "k8s.io/api/core/v1.Secret"))))])
     ["items"];
     def_dependencies := ["k8s.io/api/core/v1.Secret";
       "k8s.io/apimachinery/pkg/apis/meta/v1.ListMeta"] |}.

(** The schema of [SecretProjection]. *)
Definition schema_k8sio_api_core_v1_SecretProjection (ref : string → string) : definition :=
  {| def_schema := object_of
     ([("name", with_default (JStr "") (typed "string" ""));
      ("items", with_extensions [("x-kubernetes-list-type", JStr "atomic")]
       (array_of (with_default (JObj []) (reference (ref "k8s.io/api/core/v1.KeyToPath")))));
      ("optional", typed "boolean" "")])
     [];
     def_dependencies := ["k8s.io/api/core/v1.KeyToPath"] |}.

(** The schema of [SecretReference]. *)
Definition schema_k8sio_api_core_v1_SecretReference (ref : string → string) : definition :=
  {| def_schema := with_extensions [("x-kubernetes-map-type", JStr "atomic")] (object_of
     ([("name", typed "string" "");
      ("namespace", typed "string" "")])
     []);
     def_dependencies := [] |}.

(** The schema of [SecretVolumeSource]. *)
Definition schema_k8sio_api_core_v1_SecretVolumeSource (ref : string → string) : definition :=
  {| def_schema := object_of
     ([("secretName", typed "string" "");
      ("items", with_extensions [("x-kubernetes-list-type", JStr "atomic")]
       (array_of (with_default (JObj []) (reference (ref "k8s.io/api/core/v1.KeyToPath")))));
      ("defaultMode", typed "integer" "int32");
      ("optional", typed "boolean" "")])
     [];
     def_dependencies := ["k8s.io/api/core/v1.KeyToPath"] |}.

(** The schema of [SecurityContext]. *)
Definition schema_k8sio_api_core_v1_SecurityContext (ref : string → string) : definition :=
  {| def_schema := object_of
     ([("capabilities", reference (ref "k8s.io/api/core/v1.Capabilities"));
      ("privileged", typed "boolean" "");
      ("seLinuxOptions", reference (ref "k8s.io/api/core/v1.SELinuxOptions"));
      ("windowsOptions", reference (ref "k8s.io/api/core/v1.WindowsSecurityContextOptions"));
      ("runAsUser", typed "integer" "int64");
      ("runAsGroup", typed "integer" "int64");
      ("runAsNonRoot", typed "boolean" "");
      ("readOnlyRootFilesystem", typed "boolean" "");
      ("allowPrivilegeEscalation", typed "boolean" "");
      ("procMount", with_enum ["Default"; "Unmasked"] (typed "string" ""));
      ("seccompProfile", reference (ref "k8s.io/api/core/v1.SeccompProfile"));
      ("appArmorProfile", reference (ref "k8s.io/api/core/v1.AppArmorProfile"))])
     [];
     def_dependencies := ["k8s.io/api/core/v1.AppArmorProfile";
       "k8s.io/api/core/v1.Capabilities";
       "k8s.io/api/core/v1.SELinuxOptions";
       "k8s.io/api/core/v1.SeccompProfile";
       "k8s.io/api/core/v1.WindowsSecurityContextOptions"] |}.

(** The schema of [SerializedReference]. *)
Definition schema_k8sio_api_core_v1_SerializedReference (ref : string → string) : definition :=
  {| def_schema := object_of
     ([("kind", typed "string" "");
      ("apiVersion", typed "string" "");
      ("reference", with_default (JObj []) (reference (ref "k8s.io/api/core/v1.ObjectReference")))])
     [];
     def_dependencies := ["k8s.io/api/core/v1.ObjectReference"] |}.

(** The schema of [Service]. *)
Definition schema_k8sio_api_core_v1_Service (ref : string → string) : definition :=
  {| def_schema := object_of
     ([("kind", typed "string" "");
      ("apiVersion", typed "string" "");
      ("metadata", with_default (JObj []) (reference (ref "k8s.io/apimachinery/pkg/apis/meta/v1.ObjectMeta")));
      ("spec", with_default (JObj []) (reference (ref "k8s.io/api/core/v1.ServiceSpec")));
      ("status", with_default (JObj []) (reference (ref "k8s.io/api/core/v1.ServiceStatus")))])
     [];
     def_dependencies := ["k8s.io/api/core/v1.ServiceSpec";
       "k8s.io/api/core/v1.ServiceStatus";
       "k8s.io/apimachinery/pkg/apis/meta/v1.ObjectMeta"] |}.

(** The schema of [ServiceAccount]. *)
Definition schema_k8sio_api_core_v1_ServiceAccount (ref : string → string) : definition :=
  {| def_schema := object_of
     ([("kind", typed "string" "");
      ("apiVersion", typed "string" "");
      ("metadata", with_default (JObj []) (reference (ref "k8s.io/apimachinery/pkg/apis/meta/v1.ObjectMeta")));
      ("secrets", with_extensions [("x-kubernetes-list-map-keys", JArr [JStr "name"]);
        ("x-kubernetes-list-type", JStr "map");
        ("x-kubernetes-patch-merge-key", JStr "name");
        ("x-kubernetes-patch-strategy", JStr "merge")]
       (array_of (with_default (JObj []) (reference (ref "k8s.io/api/core/v1.ObjectReference")))));
      ("imagePullSecrets", with_extensions [("x-kubernetes-list-type", JStr "atomic")]
       (array_of (with_default (JObj []) (reference (ref "k8s.io/api/core/v1.LocalObjectReference")))));
      ("automountServiceAccountToken", typed "boolean" "")])
     [];
     def_dependencies := ["k8s.io/api/core/v1.LocalObjectReference";
       "k8s.io/api/core/v1.ObjectReference";
       "k8s.io/apimachinery/pkg/apis/meta/v1.ObjectMeta"] |}.

(** The schema of [ServiceAccountList]. *)
Definition schema_k8sio_api_core_v1_ServiceAccountList (ref : string → string) : definition :=
  {| def_schema := object_of
     ([("kind", typed "string" "");
      ("apiVersion", typed "string" "");
      ("metadata", with_default (JObj []) (reference (ref "k8s.io/apimachinery/pkg/apis/meta/v1.ListMeta")));
      ("items", array_of (with_default (JObj []) (reference (ref "k8s.io/api/core/v1.ServiceAccount"))))])
     ["items"];
     def_dependencies := ["k8s.io/api/core/v1.ServiceAccount";
       "k8s.io/apimachinery/pkg/apis/meta/v1.ListMeta"] |}.

(** The schema of [ServiceAccountTokenProjection]. *)
Definition schema_k8sio_api_core_v1_ServiceAccountTokenProjection (ref : string → string) : definition :=
  {| def_schema := object_of
     ([("audience", typed "string" "");
      ("expirationSeconds", typed "integer" "int64");
      ("path", with_default (JStr "") (typed "string" ""))])
     ["path"];
     def_dependencies := [] |}.

(** The schema of [ServiceList]. *)
Definition schema_k8sio_api_core_v1_ServiceList (ref : string → string) : definition :=
  {| def_schema := object_of
     ([("kind", typed "string" "");
      ("apiVersion", typed "string" "");
      ("metadata", with_default (JObj []) (reference (ref "k8s.io/apimachinery/pkg/apis/meta/v1.ListMeta")));
      ("items", array_of (with_default (JObj []) (reference (ref "k8s.io/api/core/v1.Service"))))])
     ["items"];
     def_dependencies := ["k8s.io/api/core/v1.Service";
       "k8s.io/apimachinery/pkg/apis/meta/v1.ListMeta"] |}.

(** The schema of [ServicePort]. *)
Definition schema_k8sio_api_core_v1_ServicePort (ref : string → string) : definition :=
  {| def_schema := object_of
     ([("name", typed "string" "");
      ("protocol", with_enum ["SCTP"; "TCP"; "UDP"] (with_default (JStr "TCP") (typed "string" "")));
      ("appProtocol", typed "string" "");
      ("port", with_default (JNum 0) (typed "integer" "int32"));
      ("targetPort", reference (ref "k8s.io/apimachinery/pkg/util/intstr.IntOrString"));
      ("nodePort", typed "integer" "int32")])
     ["port"];
     def_dependencies := ["k8s.io/apimachinery/pkg/util/intstr.IntOrString"] |}.

(** The schema of [ServiceProxyOptions]. *)
Definition schema_k8sio_api_core_v1_ServiceProxyOptions (ref : string → string) : definition :=
  {| def_schema := object_of
     ([("kind", typed "string" "");
      ("apiVersion", typed "string" "");
      ("path", typed "string" "")])
     [];
     def_dependencies := [] |}.

(** The properties of [ServiceSpec] from [ports] to [loadBalancerSourceRanges]. *)
Definition schema_k8sio_api_core_v1_ServiceSpec_1 (ref : string → string) : list (string * schema) :=
  [("ports", with_extensions [("x-kubernetes-list-map-keys", JArr [JStr "port"; JStr "protocol"]);
        ("x-kubernetes-list-type", JStr "map");
        ("x-kubernetes-patch-merge-key", JStr "port");
        ("x-kubernetes-patch-strategy", JStr "merge")]
       (array_of (with_default (JObj []) (reference (ref "k8s.io/api/core/v1.ServicePort")))));
   ("selector", with_extensions [("x-kubernetes-map-type", JStr "atomic")]
       (map_of (with_default (JStr "") (typed "string" ""))));
   ("clusterIP", typed "string" "");
   ("clusterIPs", with_extensions [("x-kubernetes-list-type", JStr "atomic")]
       (array_of (with_default (JStr "") (typed "string" ""))));
   ("type", with_enum ["ClusterIP"; "ExternalName"; "LoadBalancer"; "NodePort"] (typed "string" ""));
   ("externalIPs", with_extensions [("x-kubernetes-list-type", JStr "atomic")]
       (array_of (with_default (JStr "") (typed "string" ""))));
   ("sessionAffinity", with_enum ["ClientIP"; "None"] (typed "string" ""));
   ("loadBalancerIP", typed "string" "");
   ("loadBalancerSourceRanges", with_extensions [("x-kubernetes-list-type", JStr "atomic")]
       (array_of (with_default (JStr "") (typed "string" ""))))].

(** The properties of [ServiceSpec] from [externalName] to [trafficDistribution]. *)
Definition schema_k8sio_api_core_v1_ServiceSpec_2 (ref : string → string) : list (string * schema) :=
  [("externalName", typed "string" "");
   ("externalTrafficPolicy", with_enum ["Cluster"; "Cluster"; "Local"; "Local"] (typed "string" ""));
   ("healthCheckNodePort", typed "integer" "int32");
   ("publishNotReadyAddresses", typed "boolean" "");
   ("sessionAffinityConfig", reference (ref "k8s.io/api/core/v1.SessionAffinityConfig"));
   ("ipFamilies", with_extensions [("x-kubernetes-list-type", JStr "atomic")]
       (array_of (with_default (JStr "") (typed "string" ""))));
   ("ipFamilyPolicy", with_enum ["PreferDualStack"; "RequireDualStack"; "SingleStack"] (typed "string" ""));
   ("allocateLoadBalancerNodePorts", typed "boolean" "");
   ("loadBalancerClass", typed "string" "");
   ("internalTrafficPolicy", with_enum ["Cluster"; "Local"] (typed "string" ""));
   ("trafficDistribution", typed "string" "")].

(** The schema of [ServiceSpec]. *)
Definition schema_k8sio_api_core_v1_ServiceSpec (ref : string → string) : definition :=
  {| def_schema := object_of
     (schema_k8sio_api_core_v1_ServiceSpec_1 ref ++ schema_k8sio_api_core_v1_ServiceSpec_2 ref)
     [];
     def_dependencies := ["k8s.io/api/core/v1.ServicePort";
       "k8s.io/api/core/v1.SessionAffinityConfig"] |}.

(** The schema of [ServiceStatus]. *)
Definition schema_k8sio_api_core_v1_ServiceStatus (ref : string → string) : definition :=
  {| def_schema := object_of
     ([("loadBalancer", with_default (JObj []) (reference (ref "k8s.io/api/core/v1.LoadBalancerStatus")));
      ("conditions", with_extensions [("x-kubernetes-list-map-keys", JArr [JStr "type"]);
        ("x-kubernetes-list-type", JStr "map");
        ("x-kubernetes-patch-merge-key", JStr "type");
        ("x-kubernetes-patch-strategy", JStr "merge")]
       (array_of (with_default (JObj []) (reference (ref "k8s.io/apimachinery/pkg/apis/meta/v1.Condition")))))])
     [];
     def_dependencies := ["k8s.io/api/core/v1.LoadBalancerStatus";
       "k8s.io/apimachinery/pkg/apis/meta/v1.Condition"] |}.

(** The schema of [SessionAffinityConfig]. *)
Definition schema_k8sio_api_core_v1_SessionAffinityConfig (ref : string → string) : definition :=
  {| def_schema := object_of
     ([("clientIP", reference (ref "k8s.io/api/core/v1.ClientIPConfig"))])
     [];
     def_dependencies := ["k8s.io/api/core/v1.ClientIPConfig"] |}.

(** The schema of [SleepAction]. *)
Definition schema_k8sio_api_core_v1_SleepAction (ref : string → string) : definition :=
  {| def_schema := object_of
     ([("seconds", with_default (JNum 0) (typed "integer" "int64"))])
     ["seconds"];
     def_dependencies := [] |}.

(** The schema of [StorageOSPersistentVolumeSource]. *)
Definition schema_k8sio_api_core_v1_StorageOSPersistentVolumeSource (ref : string → string) : definition :=
  {| def_schema := object_of
     ([("volumeName", typed "string" "");
      ("volumeNamespace", typed "string" "");
      ("fsType", typed "string" "");
      ("readOnly", typed "boolean" "");
      ("secretRef", reference (ref "k8s.io/api/core/v1.ObjectReference"))])
     [];
     def_dependencies := ["k8s.io/api/core/v1.ObjectReference"] |}.

(** The schema of [StorageOSVolumeSource]. *)
Definition schema_k8sio_api_core_v1_StorageOSVolumeSource (ref : string → string) : definition :=
  {| def_schema := object_of
     ([("volumeName", typed "string" "");
      ("volumeNamespace", typed "string" "");
      ("fsType", typed "string" "");
      ("readOnly", typed "boolean" "");
      ("secretRef", reference (ref "k8s.io/api/core/v1.LocalObjectReference"))])
     [];
     def_dependencies := ["k8s.io/api/core/v1.LocalObjectReference"] |}.

(** The schema of [Sysctl]. *)
Definition schema_k8sio_api_core_v1_Sysctl (ref : string → string) : definition :=
  {| def_schema := object_of
     ([("name", with_default (JStr "") (typed "string" ""));
      ("value", with_default (JStr "") (typed "string" ""))])
     ["name"; "value"];
     def_dependencies := [] |}.

(** The schema of [TCPSocketAction]. *)
Definition schema_k8sio_api_core_v1_TCPSocketAction (ref : string → string) : definition :=
  {| def_schema := object_of
     ([("port", reference (ref "k8s.io/apimachinery/pkg/util/intstr.IntOrString"));
      ("host", typed "string" "")])
     ["port"];
     def_dependencies := ["k8s.io/apimachinery/pkg/util/intstr.IntOrString"] |}.

(** The schema of [Taint]. *)
Definition schema_k8sio_api_core_v1_Taint (ref : string → string) : definition :=
  {| def_schema := object_of
     ([("key", with_default (JStr "") (typed "string" ""));
      ("value", typed "string" "");
      ("effect", with_enum ["NoExecute"; "NoSchedule"; "PreferNoSchedule"] (with_default (JStr "") (typed "string" "")));
      ("timeAdded", reference (ref "k8s.io/apimachinery/pkg/apis/meta/v1.Time"))])
     ["key"; "effect"];
     def_dependencies := ["k8s.io/apimachinery/pkg/apis/meta/v1.Time"] |}.

(** The schema of [Toleration]. *)
Definition schema_k8sio_api_core_v1_Toleration (ref : string → string) : definition :=
  {| def_schema := object_of
     ([("key", typed "string" "");
      ("operator", with_enum ["Equal"; "Exists"] (typed "string" ""));
      ("value", typed "string" "");
      ("effect", with_enum ["NoExecute"; "NoSchedule"; "PreferNoSchedule"] (typed "string" ""));
      ("tolerationSeconds", typed "integer" "int64")])
     [];
     def_dependencies := [] |}.

(** The schema of [TopologySelectorLabelRequirement]. *)
Definition schema_k8sio_api_core_v1_TopologySelectorLabelRequirement (ref : string → string) : definition :=
  {| def_schema := object_of
     ([("key", with_default (JStr "") (typed "string" ""));
      ("values", with_extensions [("x-kubernetes-list-type", JStr "atomic")]
       (array_of (with_default (JStr "") (typed "string" ""))))])
     ["key"; "values"];
     def_dependencies := [] |}.

(** The schema of [TopologySelectorTerm]. *)
Definition schema_k8sio_api_core_v1_TopologySelectorTerm (ref : string → string) : definition :=
  {| def_schema := with_extensions [("x-kubernetes-map-type", JStr "atomic")] (object_of
     ([("matchLabelExpressions", with_extensions [("x-kubernetes-list-type", JStr "atomic")]
       (array_of (with_default (JObj []) (reference (ref "k8s.io/api/core/v1.TopologySelectorLabelRequirement")))))])
     []);
     def_dependencies := ["k8s.io/api/core/v1.TopologySelectorLabelRequirement"] |}.

(** The schema of [TopologySpreadConstraint]. *)
Definition schema_k8sio_api_core_v1_TopologySpreadConstraint (ref : string → string) : definition :=
  {| def_schema := object_of
     ([("maxSkew", with_default (JNum 0) (typed "integer" "int32"));
      ("topologyKey", with_default (JStr "") (typed "string" ""));
      ("whenUnsatisfiable", with_enum ["DoNotSchedule"; "ScheduleAnyway"] (with_default (JStr "") (typed "string" "")));
      ("labelSelector", reference (ref "k8s.io/apimachinery/pkg/apis/meta/v1.LabelSelector"));
      ("minDomains", typed "integer" "int32");
      ("nodeAffinityPolicy", with_enum ["Honor"; "Ignore"] (typed "string" ""));
      ("nodeTaintsPolicy", with_enum ["Honor"; "Ignore"] (typed "string" ""));
      ("matchLabelKeys", with_extensions [("x-kubernetes-list-type", JStr "atomic")]
       (array_of (with_default (JStr "") (typed "string" ""))))])
     ["maxSkew"; "topologyKey"; "whenUnsatisfiable"];
     def_dependencies := ["k8s.io/apimachinery/pkg/apis/meta/v1.LabelSelector"] |}.

(** The schema of [TypedLocalObjectReference]. *)
Definition schema_k8sio_api_core_v1_TypedLocalObjectReference (ref : string → string) : definition :=
  {| def_schema := with_extensions [("x-kubernetes-map-type", JStr "atomic")] (object_of
     ([("apiGroup", typed "string" "");
      ("kind", with_default (JStr "") (typed "string" ""));
      ("name", with_default (JStr "") (typed "string" ""))])
     ["kind"; "name"]);
     def_dependencies := [] |}.

(** The schema of [TypedObjectReference]. *)
Definition schema_k8sio_api_core_v1_TypedObjectReference (ref : string → string) : definition :=
  {| def_schema := object_of
     ([("apiGroup", typed "string" "");
      ("kind", with_default (JStr "") (typed "string" ""));
      ("name", with_default (JStr "") (typed "string" ""));
      ("namespace", typed "string" "")])
     ["kind"; "name"];
     def_dependencies := [] |}.

(** The properties of [Volume] from [name] to [azureDisk]. *)
Definition schema_k8sio_api_core_v1_Volume_1 (ref : string → string) : list (string * schema) :=
  [("name", with_default (JStr "") (typed "string" ""));
   ("hostPath", reference (ref "k8s.io/api/core/v1.HostPathVolumeSource"));
   ("emptyDir", reference (ref "k8s.io/api/core/v1.EmptyDirVolumeSource"));
   ("gcePersistentDisk", reference (ref "k8s.io/api/core/v1.GCEPersistentDiskVolumeSource"));
   ("awsElasticBlockStore", reference (ref "k8s.io/api/core/v1.AWSElasticBlockStoreVolumeSource"));
   ("gitRepo", reference (ref "k8s.io/api/core/v1.GitRepoVolumeSource"));
   ("secret", reference (ref "k8s.io/api/core/v1.SecretVolumeSource"));
   ("nfs", reference (ref "k8s.io/api/core/v1.NFSVolumeSource"));
   ("iscsi", reference (ref "k8s.io/api/core/v1.ISCSIVolumeSource"));
   ("glusterfs", reference (ref "k8s.io/api/core/v1.GlusterfsVolumeSource"));
   ("persistentVolumeClaim", reference (ref "k8s.io/api/core/v1.PersistentVolumeClaimVolumeSource"));
   ("rbd", reference (ref "k8s.io/api/core/v1.RBDVolumeSource"));
   ("flexVolume", reference (ref "k8s.io/api/core/v1.FlexVolumeSource"));
   ("cinder", reference (ref "k8s.io/api/core/v1.CinderVolumeSource"));
   ("cephfs", reference (ref "k8s.io/api/core/v1.CephFSVolumeSource"));
   ("flocker", reference (ref "k8s.io/api/core/v1.FlockerVolumeSource"));
   ("downwardAPI", reference (ref "k8s.io/api/core/v1.DownwardAPIVolumeSource"));
   ("fc", reference (ref "k8s.io/api/core/v1.FCVolumeSource"));
   ("azureFile", reference (ref "k8s.io/api/core/v1.AzureFileVolumeSource"));
   ("configMap", reference (ref "k8s.io/api/core/v1.ConfigMapVolumeSource"));
   ("vsphereVolume", reference (ref "k8s.io/api/core/v1.VsphereVirtualDiskVolumeSource"));
   ("quobyte", reference (ref "k8s.io/api/core/v1.QuobyteVolumeSource"));
   ("azureDisk", reference (ref "k8s.io/api/core/v1.AzureDiskVolumeSource"))].

(** The properties of [Volume] from [photonPersistentDisk] to [image]. *)
Definition schema_k8sio_api_core_v1_Volume_2 (ref : string → string) : list (string * schema) :=
  [("photonPersistentDisk", reference (ref "k8s.io/api/core/v1.PhotonPersistentDiskVolumeSource"));
   ("projected", reference (ref "k8s.io/api/core/v1.ProjectedVolumeSource"));
   ("portworxVolume", reference (ref "k8s.io/api/core/v1.PortworxVolumeSource"));
   ("scaleIO", reference (ref "k8s.io/api/core/v1.ScaleIOVolumeSource"));
   ("storageos", reference (ref "k8s.io/api/core/v1.StorageOSVolumeSource"));
   ("csi", reference (ref "k8s.io/api/core/v1.CSIVolumeSource"));
   ("ephemeral", reference (ref "k8s.io/api/core/v1.EphemeralVolumeSource"));
   ("image", reference (ref "k8s.io/api/core/v1.ImageVolumeSource"))].

(** The schema of [Volume]. *)
Definition schema_k8sio_api_core_v1_Volume (ref : string → string) : definition :=
  {| def_schema := object_of
     (schema_k8sio_api_core_v1_Volume_1 ref ++ schema_k8sio_api_core_v1_Volume_2 ref)
     ["name"];
     def_dependencies := ["k8s.io/api/core/v1.AWSElasticBlockStoreVolumeSource";
       "k8s.io/api/core/v1.AzureDiskVolumeSource";
       "k8s.io/api/core/v1.AzureFileVolumeSource";
       "k8s.io/api/core/v1.CSIVolumeSource";
       "k8s.io/api/core/v1.CephFSVolumeSource";
       "k8s.io/api/core/v1.CinderVolumeSource";
       "k8s.io/api/core/v1.ConfigMapVolumeSource";
       "k8s.io/api/core/v1.DownwardAPIVolumeSource";
       "k8s.io/api/core/v1.EmptyDirVolumeSource";
       "k8s.io/api/core/v1.EphemeralVolumeSource";
       "k8s.io/api/core/v1.FCVolumeSource";
       "k8s.io/api/core/v1.FlexVolumeSource";
       "k8s.io/api/core/v1.FlockerVolumeSource";
       "k8s.io/api/core/v1.GCEPersistentDiskVolumeSource";
       "k8s.io/api/core/v1.GitRepoVolumeSource";
       "k8s.io/api/core/v1.GlusterfsVolumeSource";
       "k8s.io/api/core/v1.HostPathVolumeSource";
       "k8s.io/api/core/v1.ISCSIVolumeSource";
       "k8s.io/api/core/v1.ImageVolumeSource";
       "k8s.io/api/core/v1.NFSVolumeSource";
       "k8s.io/api/core/v1.PersistentVolumeClaimVolumeSource";
       "k8s.io/api/core/v1.PhotonPersistentDiskVolumeSource";
       "k8s.io/api/core/v1.PortworxVolumeSource";
       "k8s.io/api/core/v1.ProjectedVolumeSource";
       "k8s.io/api/core/v1.QuobyteVolumeSource";
       "k8s.io/api/core/v1.RBDVolumeSource";
       "k8s.io/api/core/v1.ScaleIOVolumeSource";
       "k8s.io/api/core/v1.SecretVolumeSource";
       "k8s.io/api/core/v1.StorageOSVolumeSource";
       "k8s.io/api/core/v1.VsphereVirtualDiskVolumeSource"] |}.

(** The schema of [VolumeDevice]. *)
Definition schema_k8sio_api_core_v1_VolumeDevice (ref : string → string) : definition :=
  {| def_schema := object_of
     ([("name", with_default (JStr "") (typed "string" ""));
      ("devicePath", with_default (JStr "") (typed "string" ""))])
     ["name"; "devicePath"];
     def_dependencies := [] |}.

(** The schema of [VolumeMount]. *)
Definition schema_k8sio_api_core_v1_VolumeMount (ref : string → string) : definition :=
  {| def_schema := object_of
     ([("name", with_default (JStr "") (typed "string" ""));
      ("readOnly", typed "boolean" "");
      ("recursiveReadOnly", typed "string" "");
      ("mountPath", with_default (JStr "") (typed "string" ""));
      ("subPath", typed "string" "");
      ("mountPropagation", with_enum ["Bidirectional"; "HostToContainer"; "None"] (typed "string" ""));
      ("subPathExpr", typed "string" "")])
     ["name"; "mountPath"];
     def_dependencies := [] |}.

(** The schema of [VolumeMountStatus]. *)
Definition schema_k8sio_api_core_v1_VolumeMountStatus (ref : string → string) : definition :=
  {| def_schema := object_of
     ([("name", with_default (JStr "") (typed "string" ""));
      ("mountPath", with_default (JStr "") (typed "string" ""));
      ("readOnly", typed "boolean" "");
      ("recursiveReadOnly", typed "string" "")])
     ["name"; "mountPath"];
     def_dependencies := [] |}.

(** The schema of [VolumeNodeAffinity]. *)
Definition schema_k8sio_api_core_v1_VolumeNodeAffinity (ref : string → string) : definition :=
  {| def_schema := object_of
     ([("required", reference (ref "k8s.io/api/core/v1.NodeSelector"))])
     [];
     def_dependencies := ["k8s.io/api/core/v1.NodeSelector"] |}.

(** The schema of [VolumeProjection]. *)
Definition schema_k8sio_api_core_v1_VolumeProjection (ref : string → string) : definition :=
  {| def_schema := object_of
     ([("secret", reference (ref "k8s.io/api/core/v1.SecretProjection"));
      ("downwardAPI", reference (ref "k8s.io/api/core/v1.DownwardAPIProjection"));
      ("configMap", reference (ref "k8s.io/api/core/v1.ConfigMapProjection"));
      ("serviceAccountToken", reference (ref "k8s.io/api/core/v1.ServiceAccountTokenProjection"));
      ("clusterTrustBundle", reference (ref "k8s.io/api/core/v1.ClusterTrustBundleProjection"));
      ("podCertificate", reference (ref "k8s.io/api/core/v1.PodCertificateProjection"))])
     [];
     def_dependencies := ["k8s.io/api/core/v1.ClusterTrustBundleProjection";
       "k8s.io/api/core/v1.ConfigMapProjection";
       "k8s.io/api/core/v1.DownwardAPIProjection";
       "k8s.io/api/core/v1.PodCertificateProjection";
       "k8s.io/api/core/v1.SecretProjection";
       "k8s.io/api/core/v1.ServiceAccountTokenProjection"] |}.

(** The schema of [VolumeResourceRequirements]. *)
Definition schema_k8sio_api_core_v1_VolumeResourceRequirements (ref : string → string) : definition :=
  {| def_schema := object_of
     ([("limits", map_of (reference (ref "k8s.io/apimachinery/pkg/api/resource.Quantity")));
      ("requests", map_of (reference (ref "k8s.io/apimachinery/pkg/api/resource.Quantity")))])
     [];
     def_dependencies := ["k8s.io/apimachinery/pkg/api/resource.Quantity"] |}.

(** The properties of [VolumeSource] from [hostPath] to [photonPersistentDisk]. *)
Definition schema_k8sio_api_core_v1_VolumeSource_1 (ref : string → string) : list (string * schema) :=
  [("hostPath", reference (ref "k8s.io/api/core/v1.HostPathVolumeSource"));
   ("emptyDir", reference (ref "k8s.io/api/core/v1.EmptyDirVolumeSource"));
   ("gcePersistentDisk", reference (ref "k8s.io/api/core/v1.GCEPersistentDiskVolumeSource"));
   ("awsElasticBlockStore", reference (ref "k8s.io/api/core/v1.AWSElasticBlockStoreVolumeSource"));
   ("gitRepo", reference (ref "k8s.io/api/core/v1.GitRepoVolumeSource"));
   ("secret", reference (ref "k8s.io/api/core/v1.SecretVolumeSource"));
   ("nfs", reference (ref "k8s.io/api/core/v1.NFSVolumeSource"));
   ("iscsi", reference (ref "k8s.io/api/core/v1.ISCSIVolumeSource"));
   ("glusterfs", reference (ref "k8s.io/api/core/v1.GlusterfsVolumeSource"));
   ("persistentVolumeClaim", reference (ref "k8s.io/api/core/v1.PersistentVolumeClaimVolumeSource"));
   ("rbd", reference (ref "k8s.io/api/core/v1.RBDVolumeSource"));
   ("flexVolume", reference (ref "k8s.io/api/core/v1.FlexVolumeSource"));
   ("cinder", reference (ref "k8s.io/api/core/v1.CinderVolumeSource"));
   ("cephfs", reference (ref "k8s.io/api/core/v1.CephFSVolumeSource"));
   ("flocker", reference (ref "k8s.io/api/core/v1.FlockerVolumeSource"));
   ("downwardAPI", reference (ref "k8s.io/api/core/v1.DownwardAPIVolumeSource"));
   ("fc", reference (ref "k8s.io/api/core/v1.FCVolumeSource"));
   ("azureFile", reference (ref "k8s.io/api/core/v1.AzureFileVolumeSource"));
   ("configMap", reference (ref "k8s.io/api/core/v1.ConfigMapVolumeSource"));
   ("vsphereVolume", reference (ref "k8s.io/api/core/v1.VsphereVirtualDiskVolumeSource"));
   ("quobyte", reference (ref "k8s.io/api/core/v1.QuobyteVolumeSource"));
   ("azureDisk", reference (ref "k8s.io/api/core/v1.AzureDiskVolumeSource"));
   ("photonPersistentDisk", reference (ref "k8s.io/api/core/v1.PhotonPersistentDiskVolumeSource"))].

(** The properties of [VolumeSource] from [projected] to [image]. *)
Definition schema_k8sio_api_core_v1_VolumeSource_2 (ref : string → string) : list (string * schema) :=
  [("projected", reference (ref "k8s.io/api/core/v1.ProjectedVolumeSource"));
   ("portworxVolume", reference (ref "k8s.io/api/core/v1.PortworxVolumeSource"));
   ("scaleIO", reference (ref "k8s.io/api/core/v1.ScaleIOVolumeSource"));
   ("storageos", reference (ref "k8s.io/api/core/v1.StorageOSVolumeSource"));
   ("csi", reference (ref "k8s.io/api/core/v1.CSIVolumeSource"));
   ("ephemeral", reference (ref "k8s.io/api/core/v1.EphemeralVolumeSource"));
   ("image", reference (ref "k8s.io/api/core/v1.ImageVolumeSource"))].

(** The schema of [VolumeSource]. *)
Definition schema_k8sio_api_core_v1_VolumeSource (ref : string → string) : definition :=
  {| def_schema := object_of
     (schema_k8sio_api_core_v1_VolumeSource_1 ref ++ schema_k8sio_api_core_v1_VolumeSource_2 ref)
     [];
     def_dependencies := ["k8s.io/api/core/v1.AWSElasticBlockStoreVolumeSource";
       "k8s.io/api/core/v1.AzureDiskVolumeSource";
       "k8s.io/api/core/v1.AzureFileVolumeSource";
       "k8s.io/api/core/v1.CSIVolumeSource";
       "k8s.io/api/core/v1.CephFSVolumeSource";
       "k8s.io/api/core/v1.CinderVolumeSource";
       "k8s.io/api/core/v1.ConfigMapVolumeSource";
       "k8s.io/api/core/v1.DownwardAPIVolumeSource";
       "k8s.io/api/core/v1.EmptyDirVolumeSource";
       "k8s.io/api/core/v1.EphemeralVolumeSource";
       "k8s.io/api/core/v1.FCVolumeSource";
       "k8s.io/api/core/v1.FlexVolumeSource";
       "k8s.io/api/core/v1.FlockerVolumeSource";
       "k8s.io/api/core/v1.GCEPersistentDiskVolumeSource";
       "k8s.io/api/core/v1.GitRepoVolumeSource";
       "k8s.io/api/core/v1.GlusterfsVolumeSource";
       "k8s.io/api/core/v1.HostPathVolumeSource";
       "k8s.io/api/core/v1.ISCSIVolumeSource";
       "k8s.io/api/core/v1.ImageVolumeSource";
       "k8s.io/api/core/v1.NFSVolumeSource";
       "k8s.io/api/core/v1.PersistentVolumeClaimVolumeSource";
       "k8s.io/api/core/v1.PhotonPersistentDiskVolumeSource";
       "k8s.io/api/core/v1.PortworxVolumeSource";
       "k8s.io/api/core/v1.ProjectedVolumeSource";
       "k8s.io/api/core/v1.QuobyteVolumeSource";
       "k8s.io/api/core/v1.RBDVolumeSource";
       "k8s.io/api/core/v1.ScaleIOVolumeSource";
       "k8s.io/api/core/v1.SecretVolumeSource";
       "k8s.io/api/core/v1.StorageOSVolumeSource";
       "k8s.io/api/core/v1.VsphereVirtualDiskVolumeSource"] |}.

(** The schema of [VsphereVirtualDiskVolumeSource]. *)
Definition schema_k8sio_api_core_v1_VsphereVirtualDiskVolumeSource (ref : string → string) : definition :=
  {| def_schema := object_of
     ([("volumePath", with_default (JStr "") (typed "string" ""));
      ("fsType", typed "string" "");
      ("storagePolicyName", typed "string" "");
      ("storagePolicyID", typed "string" "")])
     ["volumePath"];
     def_dependencies := [] |}.

(** The schema of [WeightedPodAffinityTerm]. *)
Definition schema_k8sio_api_core_v1_WeightedPodAffinityTerm (ref : string → string) : definition :=
  {| def_schema := object_of
     ([("weight", with_default (JNum 0) (typed "integer" "int32"));
      ("podAffinityTerm", with_default (JObj []) (reference (ref "k8s.io/api/core/v1.PodAffinityTerm")))])
     ["weight"; "podAffinityTerm"];
     def_dependencies := ["k8s.io/api/core/v1.PodAffinityTerm"] |}.

(** The schema of [WindowsSecurityContextOptions]. *)
Definition schema_k8sio_api_core_v1_WindowsSecurityContextOptions (ref : string → string) : definition :=
  {| def_schema := object_of
     ([("gmsaCredentialSpecName", typed "string" "");
      ("gmsaCredentialSpec", typed "string" "");
      ("runAsUserName", typed "string" "");
      ("hostProcess", typed "boolean" "")])
     [];
     def_dependencies := [] |}.

(** The entries of [GetOpenAPIDefinitions] for these types. *)
Definition core_5_definitions (ref : string → string) : list (string * definition) :=
  [("k8s.io/api/core/v1.ScaleIOVolumeSource", schema_k8sio_api_core_v1_ScaleIOVolumeSource ref);
   ("k8s.io/api/core/v1.ScopeSelector", schema_k8sio_api_core_v1_ScopeSelector ref);
   ("k8s.io/api/core/v1.ScopedResourceSelectorRequirement", schema_k8sio_api_core_v1_ScopedResourceSelectorRequirement ref);
   ("k8s.io/api/core/v1.SeccompProfile", schema_k8sio_api_core_v1_SeccompProfile ref);
   ("k8s.io/api/core/v1.Secret", schema_k8sio_api_core_v1_Secret ref);
   ("k8s.io/api/core/v1.SecretEnvSource", schema_k8sio_api_core_v1_SecretEnvSource ref);
   ("k8s.io/api/core/v1.SecretKeySelector", schema_k8sio_api_core_v1_SecretKeySelector ref);
   ("k8s.io/api/core/v1.SecretList", schema_k8sio_api_core_v1_SecretList ref);
   ("k8s.io/api/core/v1.SecretProjection", schema_k8sio_api_core_v1_SecretProjection ref);
   ("k8s.io/api/core/v1.SecretReference", schema_k8sio_api_core_v1_SecretReference ref);
   ("k8s.io/api/core/v1.SecretVolumeSource", schema_k8sio_api_core_v1_SecretVolumeSource ref);
   ("k8s.io/api/core/v1.SecurityContext", schema_k8sio_api_core_v1_SecurityContext ref);
   ("k8s.io/api/core/v1.SerializedReference", schema_k8sio_api_core_v1_SerializedReference ref);
   ("k8s.io/api/core/v1.Service", schema_k8sio_api_core_v1_Service ref);
   ("k8s.io/api/core/v1.ServiceAccount", schema_k8sio_api_core_v1_ServiceAccount ref);
   ("k8s.io/api/core/v1.ServiceAccountList", schema_k8sio_api_core_v1_ServiceAccountList ref);
   ("k8s.io/api/core/v1.ServiceAccountTokenProjection", schema_k8sio_api_core_v1_ServiceAccountTokenProjection ref);
   ("k8s.io/api/core/v1.ServiceList", schema_k8sio_api_core_v1_ServiceList ref);
   ("k8s.io/api/core/v1.ServicePort", schema_k8sio_api_core_v1_ServicePort ref);
   ("k8s.io/api/core/v1.ServiceProxyOptions", schema_k8sio_api_core_v1_ServiceProxyOptions ref);
   ("k8s.io/api/core/v1.ServiceSpec", schema_k8sio_api_core_v1_ServiceSpec ref);
   ("k8s.io/api/core/v1.ServiceStatus", schema_k8sio_api_core_v1_ServiceStatus ref);
   ("k8s.io/api/core/v1.SessionAffinityConfig", schema_k8sio_api_core_v1_SessionAffinityConfig ref);
   ("k8s.io/api/core/v1.SleepAction", schema_k8sio_api_core_v1_SleepAction ref);
   ("k8s.io/api/core/v1.StorageOSPersistentVolumeSource", schema_k8sio_api_core_v1_StorageOSPersistentVolumeSource ref);
   ("k8s.io/api/core/v1.StorageOSVolumeSource", schema_k8sio_api_core_v1_StorageOSVolumeSource ref);
   ("k8s.io/api/core/v1.Sysctl", schema_k8sio_api_core_v1_Sysctl ref);
   ("k8s.io/api/core/v1.TCPSocketAction", schema_k8sio_api_core_v1_TCPSocketAction ref);
   ("k8s.io/api/core/v1.Taint", schema_k8sio_api_core_v1_Taint ref);
   ("k8s.io/api/core/v1.Toleration", schema_k8sio_api_core_v1_Toleration ref);
   ("k8s.io/api/core/v1.TopologySelectorLabelRequirement", schema_k8sio_api_core_v1_TopologySelectorLabelRequirement ref);
   ("k8s.io/api/core/v1.TopologySelectorTerm", schema_k8sio_api_core_v1_TopologySelectorTerm ref);
   ("k8s.io/api/core/v1.TopologySpreadConstraint", schema_k8sio_api_core_v1_TopologySpreadConstraint ref);
   ("k8s.io/api/core/v1.TypedLocalObjectReference", schema_k8sio_api_core_v1_TypedLocalObjectReference ref);
   ("k8s.io/api/core/v1.TypedObjectReference", schema_k8sio_api_core_v1_TypedObjectReference ref);
   ("k8s.io/api/core/v1.Volume", schema_k8sio_api_core_v1_Volume ref);
   ("k8s.io/api/core/v1.VolumeDevice", schema_k8sio_api_core_v1_VolumeDevice ref);
   ("k8s.io/api/core/v1.VolumeMount", schema_k8sio_api_core_v1_VolumeMount ref);
   ("k8s.io/api/core/v1.VolumeMountStatus", schema_k8sio_api_core_v1_VolumeMountStatus ref);
   ("k8s.io/api/core/v1.VolumeNodeAffinity", schema_k8sio_api_core_v1_VolumeNodeAffinity ref);
   ("k8s.io/api/core/v1.VolumeProjection", schema_k8sio_api_core_v1_VolumeProjection ref);
   ("k8s.io/api/core/v1.VolumeResourceRequirements", schema_k8sio_api_core_v1_VolumeResourceRequirements ref);
   ("k8s.io/api/core/v1.VolumeSource", schema_k8sio_api_core_v1_VolumeSource ref);
   ("k8s.io/api/core/v1.VsphereVirtualDiskVolumeSource", schema_k8sio_api_core_v1_VsphereVirtualDiskVolumeSource ref);
   ("k8s.io/api/core/v1.WeightedPodAffinityTerm", schema_k8sio_api_core_v1_WeightedPodAffinityTerm ref);
   ("k8s.io/api/core/v1.WindowsSecurityContextOptions", schema_k8sio_api_core_v1_WindowsSecurityContextOptions ref)].
