(* ===== verification/SchemasMachinery.v ===== *)
(** * Published schemas of library types: machinery

    The definitions [openapi_generated.go] publishes for the rbac group and for apimachinery, without
    their descriptions. *)

From S2P Require Import Prelude Types Json Schema.

(** The schema of [AggregationRule]. *)
Definition schema_k8sio_api_rbac_v1_AggregationRule (ref : string → string) : definition :=
  {| def_schema := object_of
     ([("clusterRoleSelectors", with_extensions [("x-kubernetes-list-type", JStr "atomic")]
       (array_of (with_default (JObj []) (reference (ref "k8s.io/apimachinery/pkg/apis/meta/v1.LabelSelector")))))])
     [];
     def_dependencies := ["k8s.io/apimachinery/pkg/apis/meta/v1.LabelSelector"] |}.

(** The schema of [ClusterRole]. *)
Definition schema_k8sio_api_rbac_v1_ClusterRole (ref : string → string) : definition :=
  {| def_schema := object_of
     ([("kind", typed "string" "");
      ("apiVersion", typed "string" "");
      ("metadata", with_default (JObj []) (reference (ref "k8s.io/apimachinery/pkg/apis/meta/v1.ObjectMeta")));
      ("rules", with_extensions [("x-kubernetes-list-type", JStr "atomic")]
       (array_of (with_default (JObj []) (reference (ref "k8s.io/api/rbac/v1.PolicyRule")))));
      ("aggregationRule", reference (ref "k8s.io/api/rbac/v1.AggregationRule"))])
     [];
     def_dependencies := ["k8s.io/api/rbac/v1.AggregationRule";
       "k8s.io/api/rbac/v1.PolicyRule";
       "k8s.io/apimachinery/pkg/apis/meta/v1.ObjectMeta"] |}.

(** The schema of [ClusterRoleBinding]. *)
Definition schema_k8sio_api_rbac_v1_ClusterRoleBinding (ref : string → string) : definition :=
  {| def_schema := object_of
     ([("kind", typed "string" "");
      ("apiVersion", typed "string" "");
      ("metadata", with_default (JObj []) (reference (ref "k8s.io/apimachinery/pkg/apis/meta/v1.ObjectMeta")));
      ("subjects", with_extensions [("x-kubernetes-list-type", JStr "atomic")]
       (array_of (with_default (JObj []) (reference (ref "k8s.io/api/rbac/v1.Subject")))));
      ("roleRef", with_default (JObj []) (reference (ref "k8s.io/api/rbac/v1.RoleRef")))])
     ["roleRef"];
     def_dependencies := ["k8s.io/api/rbac/v1.RoleRef";
       "k8s.io/api/rbac/v1.Subject";
       "k8s.io/apimachinery/pkg/apis/meta/v1.ObjectMeta"] |}.

(** The schema of [ClusterRoleBindingList]. *)
Definition schema_k8sio_api_rbac_v1_ClusterRoleBindingList (ref : string → string) : definition :=
  {| def_schema := object_of
     ([("kind", typed "string" "");
      ("apiVersion", typed "string" "");
      ("metadata", with_default (JObj []) (reference (ref "k8s.io/apimachinery/pkg/apis/meta/v1.ListMeta")));
      ("items", array_of (with_default (JObj []) (reference (ref "k8s.io/api/rbac/v1.ClusterRoleBinding"))))])
     ["items"];
     def_dependencies := ["k8s.io/api/rbac/v1.ClusterRoleBinding";
       "k8s.io/apimachinery/pkg/apis/meta/v1.ListMeta"] |}.

(** The schema of [ClusterRoleList]. *)
Definition schema_k8sio_api_rbac_v1_ClusterRoleList (ref : string → string) : definition :=
  {| def_schema := object_of
     ([("kind", typed "string" "");
      ("apiVersion", typed "string" "");
      ("metadata", with_default (JObj []) (reference (ref "k8s.io/apimachinery/pkg/apis/meta/v1.ListMeta")));
      ("items", array_of (with_default (JObj []) (reference (ref "k8s.io/api/rbac/v1.ClusterRole"))))])
     ["items"];
     def_dependencies := ["k8s.io/api/rbac/v1.ClusterRole";
       "k8s.io/apimachinery/pkg/apis/meta/v1.ListMeta"] |}.

(** The schema of [PolicyRule]. *)
Definition schema_k8sio_api_rbac_v1_PolicyRule (ref : string → string) : definition :=
  {| def_schema := object_of
     ([("verbs", with_extensions [("x-kubernetes-list-type", JStr "atomic")]
       (array_of (with_default (JStr "") (typed "string" ""))));
      ("apiGroups", with_extensions [("x-kubernetes-list-type", JStr "atomic")]
       (array_of (with_default (JStr "") (typed "string" ""))));
      ("resources", with_extensions [("x-kubernetes-list-type", JStr "atomic")]
       (array_of (with_default (JStr "") (typed "string" ""))));
      ("resourceNames", with_extensions [("x-kubernetes-list-type", JStr "atomic")]
       (array_of (with_default (JStr "") (typed "string" ""))));
      ("nonResourceURLs", with_extensions [("x-kubernetes-list-type", JStr "atomic")]
       (array_of (with_default (JStr "") (typed "string" ""))))])
     ["verbs"];
     def_dependencies := [] |}.

(** The schema of [Role]. *)
Definition schema_k8sio_api_rbac_v1_Role (ref : string → string) : definition :=
  {| def_schema := object_of
     ([("kind", typed "string" "");
      ("apiVersion", typed "string" "");
      ("metadata", with_default (JObj []) (reference (ref "k8s.io/apimachinery/pkg/apis/meta/v1.ObjectMeta")));
      ("rules", with_extensions [("x-kubernetes-list-type", JStr "atomic")]
       (array_of (with_default (JObj []) (reference (ref "k8s.io/api/rbac/v1.PolicyRule")))))])
     [];
     def_dependencies := ["k8s.io/api/rbac/v1.PolicyRule";
       "k8s.io/apimachinery/pkg/apis/meta/v1.ObjectMeta"] |}.

(** The schema of [RoleBinding]. *)
Definition schema_k8sio_api_rbac_v1_RoleBinding (ref : string → string) : definition :=
  {| def_schema := object_of
     ([("kind", typed "string" "");
      ("apiVersion", typed "string" "");
      ("metadata", with_default (JObj []) (reference (ref "k8s.io/apimachinery/pkg/apis/meta/v1.ObjectMeta")));
      ("subjects", with_extensions [("x-kubernetes-list-type", JStr "atomic")]
       (array_of (with_default (JObj []) (reference (ref "k8s.io/api/rbac/v1.Subject")))));
      ("roleRef", with_default (JObj []) (reference (ref "k8s.io/api/rbac/v1.RoleRef")))])
     ["roleRef"];
     def_dependencies := ["k8s.io/api/rbac/v1.RoleRef";
       "k8s.io/api/rbac/v1.Subject";
       "k8s.io/apimachinery/pkg/apis/meta/v1.ObjectMeta"] |}.

(** The schema of [RoleBindingList]. *)
Definition schema_k8sio_api_rbac_v1_RoleBindingList (ref : string → string) : definition :=
  {| def_schema := object_of
     ([("kind", typed "string" "");
      ("apiVersion", typed "string" "");
      ("metadata", with_default (JObj []) (reference (ref "k8s.io/apimachinery/pkg/apis/meta/v1.ListMeta")));
      ("items", array_of (with_default (JObj []) (reference (ref "k8s.io/api/rbac/v1.RoleBinding"))))])
     ["items"];
     def_dependencies := ["k8s.io/api/rbac/v1.RoleBinding";
       "k8s.io/apimachinery/pkg/apis/meta/v1.ListMeta"] |}.

(** The schema of [RoleList]. *)
Definition schema_k8sio_api_rbac_v1_RoleList (ref : string → string) : definition :=
  {| def_schema := object_of
     ([("kind", typed "string" "");
      ("apiVersion", typed "string" "");
      ("metadata", with_default (JObj []) (reference (ref "k8s.io/apimachinery/pkg/apis/meta/v1.ListMeta")));
      ("items", array_of (with_default (JObj []) (reference (ref "k8s.io/api/rbac/v1.Role"))))])
     ["items"];
     def_dependencies := ["k8s.io/api/rbac/v1.Role";
       "k8s.io/apimachinery/pkg/apis/meta/v1.ListMeta"] |}.

(** The schema of [RoleRef]. *)
Definition schema_k8sio_api_rbac_v1_RoleRef (ref : string → string) : definition :=
  {| def_schema := with_extensions [("x-kubernetes-map-type", JStr "atomic")] (object_of
     ([("apiGroup", with_default (JStr "") (typed "string" ""));
      ("kind", with_default (JStr "") (typed "string" ""));
      ("name", with_default (JStr "") (typed "string" ""))])
     ["apiGroup"; "kind"; "name"]);
     def_dependencies := [] |}.

(** The schema of [Subject]. *)
Definition schema_k8sio_api_rbac_v1_Subject (ref : string → string) : definition :=
  {| def_schema := with_extensions [("x-kubernetes-map-type", JStr "atomic")] (object_of
     ([("kind", with_default (JStr "") (typed "string" ""));
      ("apiGroup", typed "string" "");
      ("name", with_default (JStr "") (typed "string" ""));
      ("namespace", typed "string" "")])
     ["kind"; "name"]);
     def_dependencies := [] |}.

(** The schema of [Quantity], a union. *)
Definition schema_apimachinery_pkg_api_resource_Quantity (ref : string → string) : definition :=
  EmbedOpenAPIDefinitionIntoV2Extension
    {| def_schema := one_of_types (GenerateOpenAPIV3OneOfSchema ["string"; "number"]) "";
       def_dependencies := [] |}
    {| def_schema := typed "string" ""; def_dependencies := [] |}.

(** The schema of [int64Amount]. *)
Definition schema_apimachinery_pkg_api_resource_int64Amount (ref : string → string) : definition :=
  {| def_schema := object_of
     ([("value", with_default (JNum 0) (typed "integer" "int64"));
      ("scale", with_default (JNum 0) (typed "integer" "int32"))])
     ["value"; "scale"];
     def_dependencies := [] |}.

(** The schema of [APIGroup]. *)
Definition schema_pkg_apis_meta_v1_APIGroup (ref : string → string) : definition :=
  {| def_schema := object_of
     ([("kind", typed "string" "");
      ("apiVersion", typed "string" "");
      ("name", with_default (JStr "") (typed "string" ""));
      ("versions", with_extensions [("x-kubernetes-list-type", JStr "atomic")]
       (array_of (with_default (JObj []) (reference (ref "k8s.io/apimachinery/pkg/apis/meta/v1.GroupVersionForDiscovery")))));
      ("preferredVersion", with_default (JObj []) (reference (ref "k8s.io/apimachinery/pkg/apis/meta/v1.GroupVersionForDiscovery")));
      ("serverAddressByClientCIDRs", with_extensions [("x-kubernetes-list-type", JStr "atomic")]
       (array_of (with_default (JObj []) (reference (ref "k8s.io/apimachinery/pkg/apis/meta/v1.ServerAddressByClientCIDR")))))])
     ["name"; "versions"];
     def_dependencies := ["k8s.io/apimachinery/pkg/apis/meta/v1.GroupVersionForDiscovery";
       "k8s.io/apimachinery/pkg/apis/meta/v1.ServerAddressByClientCIDR"] |}.

(** The schema of [APIGroupList]. *)
Definition schema_pkg_apis_meta_v1_APIGroupList (ref : string → string) : definition :=
  {| def_schema := object_of
     ([("kind", typed "string" "");
      ("apiVersion", typed "string" "");
      ("groups", with_extensions [("x-kubernetes-list-type", JStr "atomic")]
       (array_of (with_default (JObj []) (reference (ref "k8s.io/apimachinery/pkg/apis/meta/v1.APIGroup")))))])
     ["groups"];
     def_dependencies := ["k8s.io/apimachinery/pkg/apis/meta/v1.APIGroup"] |}.

(** The schema of [APIResource]. *)
Definition schema_pkg_apis_meta_v1_APIResource (ref : string → string) : definition :=
  {| def_schema := object_of
     ([("name", with_default (JStr "") (typed "string" ""));
      ("singularName", with_default (JStr "") (typed "string" ""));
      ("namespaced", with_default (JBool false) (typed "boolean" ""));
      ("group", typed "string" "");
      ("version", typed "string" "");
      ("kind", with_default (JStr "") (typed "string" ""));
      ("verbs", array_of (with_default (JStr "") (typed "string" "")));
      ("shortNames", with_extensions [("x-kubernetes-list-type", JStr "atomic")]
       (array_of (with_default (JStr "") (typed "string" ""))));
      ("categories", with_extensions [("x-kubernetes-list-type", JStr "atomic")]
       (array_of (with_default (JStr "") (typed "string" ""))));
      ("storageVersionHash", typed "string" "")])
     ["name"; "singularName"; "namespaced"; "kind"; "verbs"];
     def_dependencies := [] |}.

(** The schema of [APIResourceList]. *)
Definition schema_pkg_apis_meta_v1_APIResourceList (ref : string → string) : definition :=
  {| def_schema := object_of
     ([("kind", typed "string" "");
      ("apiVersion", typed "string" "");
      ("groupVersion", with_default (JStr "") (typed "string" ""));
      ("resources", with_extensions [("x-kubernetes-list-type", JStr "atomic")]
       (array_of (with_default (JObj []) (reference (ref "k8s.io/apimachinery/pkg/apis/meta/v1.APIResource")))))])
     ["groupVersion"; "resources"];
     def_dependencies := ["k8s.io/apimachinery/pkg/apis/meta/v1.APIResource"] |}.

(** The schema of [APIVersions]. *)
Definition schema_pkg_apis_meta_v1_APIVersions (ref : string → string) : definition :=
  {| def_schema := object_of
     ([("kind", typed "string" "");
      ("apiVersion", typed "string" "");
      ("versions", with_extensions [("x-kubernetes-list-type", JStr "atomic")]
       (array_of (with_default (JStr "") (typed "string" ""))));
      ("serverAddressByClientCIDRs", with_extensions [("x-kubernetes-list-type", JStr "atomic")]
       (array_of (with_default (JObj []) (reference (ref "k8s.io/apimachinery/pkg/apis/meta/v1.ServerAddressByClientCIDR")))))])
     ["versions"; "serverAddressByClientCIDRs"];
     def_dependencies := ["k8s.io/apimachinery/pkg/apis/meta/v1.ServerAddressByClientCIDR"] |}.

(** The schema of [ApplyOptions]. *)
Definition schema_pkg_apis_meta_v1_ApplyOptions (ref : string → string) : definition :=
  {| def_schema := object_of
     ([("kind", typed "string" "");
      ("apiVersion", typed "string" "");
      ("dryRun", with_extensions [("x-kubernetes-list-type", JStr "atomic")]
       (array_of (with_default (JStr "") (typed "string" ""))));
      ("force", with_default (JBool false) (typed "boolean" ""));
      ("fieldManager", with_default (JStr "") (typed "string" ""))])
     ["force"; "fieldManager"];
     def_dependencies := [] |}.

(** The schema of [Condition]. *)
Definition schema_pkg_apis_meta_v1_Condition (ref : string → string) : definition :=
  {| def_schema := object_of
     ([("type", with_default (JStr "") (typed "string" ""));
      ("status", with_default (JStr "") (typed "string" ""));
      ("observedGeneration", typed "integer" "int64");
      ("lastTransitionTime", reference (ref "k8s.io/apimachinery/pkg/apis/meta/v1.Time"));
      ("reason", with_default (JStr "") (typed "string" ""));
      ("message", with_default (JStr "") (typed "string" ""))])
     ["type"; "status"; "lastTransitionTime"; "reason"; "message"];
     def_dependencies := ["k8s.io/apimachinery/pkg/apis/meta/v1.Time"] |}.

(** The schema of [CreateOptions]. *)
Definition schema_pkg_apis_meta_v1_CreateOptions (ref : string → string) : definition :=
  {| def_schema := object_of
     ([("kind", typed "string" "");
      ("apiVersion", typed "string" "");
      ("dryRun", with_extensions [("x-kubernetes-list-type", JStr "atomic")]
       (array_of (with_default (JStr "") (typed "string" ""))));
      ("fieldManager", typed "string" "");
      ("fieldValidation", typed "string" "")])
     [];
     def_dependencies := [] |}.

(** The schema of [DeleteOptions]. *)
Definition schema_pkg_apis_meta_v1_DeleteOptions (ref : string → string) : definition :=
  {| def_schema := object_of
     ([("kind", typed "string" "");
      ("apiVersion", typed "string" "");
      ("gracePeriodSeconds", typed "integer" "int64");
      ("preconditions", reference (ref "k8s.io/apimachinery/pkg/apis/meta/v1.Preconditions"));
      ("orphanDependents", typed "boolean" "");
      ("propagationPolicy", typed "string" "");
      ("dryRun", with_extensions [("x-kubernetes-list-type", JStr "atomic")]
       (array_of (with_default (JStr "") (typed "string" ""))));
      ("ignoreStoreReadErrorWithClusterBreakingPotential", typed "boolean" "")])
     [];
     def_dependencies := ["k8s.io/apimachinery/pkg/apis/meta/v1.Preconditions"] |}.

(** The schema of [Duration]. *)
Definition schema_pkg_apis_meta_v1_Duration (ref : string → string) : definition :=
  {| def_schema := typed "string" ""; def_dependencies := [] |}.

(** The schema of [FieldSelectorRequirement]. *)
Definition schema_pkg_apis_meta_v1_FieldSelectorRequirement (ref : string → string) : definition :=
  {| def_schema := object_of
     ([("key", with_default (JStr "") (typed "string" ""));
      ("operator", with_default (JStr "") (typed "string" ""));
      ("values", with_extensions [("x-kubernetes-list-type", JStr "atomic")]
       (array_of (with_default (JStr "") (typed "string" ""))))])
     ["key"; "operator"];
     def_dependencies := [] |}.

(** The schema of [FieldsV1]. *)
Definition schema_pkg_apis_meta_v1_FieldsV1 (ref : string → string) : definition :=
  {| def_schema := object_of
     ([])
     [];
     def_dependencies := [] |}.

(** The schema of [GetOptions]. *)
Definition schema_pkg_apis_meta_v1_GetOptions (ref : string → string) : definition :=
  {| def_schema := object_of
     ([("kind", typed "string" "");
      ("apiVersion", typed "string" "");
      ("resourceVersion", typed "string" "")])
     [];
     def_dependencies := [] |}.

(** The schema of [GroupKind]. *)
Definition schema_pkg_apis_meta_v1_GroupKind (ref : string → string) : definition :=
  {| def_schema := object_of
     ([("group", with_default (JStr "") (typed "string" ""));
      ("kind", with_default (JStr "") (typed "string" ""))])
     ["group"; "kind"];
     def_dependencies := [] |}.

(** The schema of [GroupResource]. *)
Definition schema_pkg_apis_meta_v1_GroupResource (ref : string → string) : definition :=
  {| def_schema := object_of
     ([("group", with_default (JStr "") (typed "string" ""));
      ("resource", with_default (JStr "") (typed "string" ""))])
     ["group"; "resource"];
     def_dependencies := [] |}.

(** The schema of [GroupVersion]. *)
Definition schema_pkg_apis_meta_v1_GroupVersion (ref : string → string) : definition :=
  {| def_schema := object_of
     ([("group", with_default (JStr "") (typed "string" ""));
      ("version", with_default (JStr "") (typed "string" ""))])
     ["group"; "version"];
     def_dependencies := [] |}.

(** The schema of [GroupVersionForDiscovery]. *)
Definition schema_pkg_apis_meta_v1_GroupVersionForDiscovery (ref : string → string) : definition :=
  {| def_schema := object_of
     ([("groupVersion", with_default (JStr "") (typed "string" ""));
      ("version", with_default (JStr "") (typed "string" ""))])
     ["groupVersion"; "version"];
     def_dependencies := [] |}.

(** The schema of [GroupVersionKind]. *)
Definition schema_pkg_apis_meta_v1_GroupVersionKind (ref : string → string) : definition :=
  {| def_schema := object_of
     ([("group", with_default (JStr "") (typed "string" ""));
      ("version", with_default (JStr "") (typed "string" ""));
      ("kind", with_default (JStr "") (typed "string" ""))])
     ["group"; "version"; "kind"];
     def_dependencies := [] |}.

(** The schema of [GroupVersionResource]. *)
Definition schema_pkg_apis_meta_v1_GroupVersionResource (ref : string → string) : definition :=
  {| def_schema := object_of
     ([("group", with_default (JStr "") (typed "string" ""));
      ("version", with_default (JStr "") (typed "string" ""));
      ("resource", with_default (JStr "") (typed "string" ""))])
     ["group"; "version"; "resource"];
     def_dependencies := [] |}.

(** The schema of [InternalEvent]. *)
Definition schema_pkg_apis_meta_v1_InternalEvent (ref : string → string) : definition :=
  {| def_schema := object_of
     ([("Type", with_default (JStr "") (typed "string" ""));
      ("Object", reference (ref "k8s.io/apimachinery/pkg/runtime.Object"))])
     ["Type"; "Object"];
     def_dependencies := ["k8s.io/apimachinery/pkg/runtime.Object"] |}.

(** The schema of [LabelSelector]. *)
Definition schema_pkg_apis_meta_v1_LabelSelector (ref : string → string) : definition :=
  {| def_schema := with_extensions [("x-kubernetes-map-type", JStr "atomic")] (object_of
     ([("matchLabels", map_of (with_default (JStr "") (typed "string" "")));
      ("matchExpressions", with_extensions [("x-kubernetes-list-type", JStr "atomic")]
       (array_of (with_default (JObj []) (reference (ref "k8s.io/apimachinery/pkg/apis/meta/v1.LabelSelectorRequirement")))))])
     []);
     def_dependencies := ["k8s.io/apimachinery/pkg/apis/meta/v1.LabelSelectorRequirement"] |}.

(** The schema of [LabelSelectorRequirement]. *)
Definition schema_pkg_apis_meta_v1_LabelSelectorRequirement (ref : string → string) : definition :=
  {| def_schema := object_of
     ([("key", with_default (JStr "") (typed "string" ""));
      ("operator", with_default (JStr "") (typed "string" ""));
      ("values", with_extensions [("x-kubernetes-list-type", JStr "atomic")]
       (array_of (with_default (JStr "") (typed "string" ""))))])
     ["key"; "operator"];
     def_dependencies := [] |}.

(** The schema of [List]. *)
Definition schema_pkg_apis_meta_v1_List (ref : string → string) : definition :=
  {| def_schema := object_of
     ([("kind", typed "string" "");
      ("apiVersion", typed "string" "");
      ("metadata", with_default (JObj []) (reference (ref "k8s.io/apimachinery/pkg/apis/meta/v1.ListMeta")));
      ("items", array_of (reference (ref "k8s.io/apimachinery/pkg/runtime.RawExtension")))])
     ["items"];
     def_dependencies := ["k8s.io/apimachinery/pkg/apis/meta/v1.ListMeta";
       "k8s.io/apimachinery/pkg/runtime.RawExtension"] |}.

(** The schema of [ListMeta]. *)
Definition schema_pkg_apis_meta_v1_ListMeta (ref : string → string) : definition :=
  {| def_schema := object_of
     ([("selfLink", typed "string" "");
      ("resourceVersion", typed "string" "");
      ("continue", typed "string" "");
      ("remainingItemCount", typed "integer" "int64")])
     [];
     def_dependencies := [] |}.

(** The schema of [ListOptions]. *)
Definition schema_pkg_apis_meta_v1_ListOptions (ref : string → string) : definition :=
  {| def_schema := object_of
     ([("kind", typed "string" "");
      ("apiVersion", typed "string" "");
      ("labelSelector", typed "string" "");
      ("fieldSelector", typed "string" "");
      ("watch", typed "boolean" "");
      ("allowWatchBookmarks", typed "boolean" "");
      ("resourceVersion", typed "string" "");
      ("resourceVersionMatch", typed "string" "");
      ("timeoutSeconds", typed "integer" "int64");
      ("limit", typed "integer" "int64");
      ("continue", typed "string" "");
      ("sendInitialEvents", typed "boolean" "")])
     [];
     def_dependencies := [] |}.

(** The schema of [ManagedFieldsEntry]. *)
Definition schema_pkg_apis_meta_v1_ManagedFieldsEntry (ref : string → string) : definition :=
  {| def_schema := object_of
     ([("manager", typed "string" "");
      ("operation", typed "string" "");
      ("apiVersion", typed "string" "");
      ("time", reference (ref "k8s.io/apimachinery/pkg/apis/meta/v1.Time"));
      ("fieldsType", typed "string" "");
      ("fieldsV1", reference (ref "k8s.io/apimachinery/pkg/apis/meta/v1.FieldsV1"));
      ("subresource", typed "string" "")])
     [];
     def_dependencies := ["k8s.io/apimachinery/pkg/apis/meta/v1.FieldsV1";
       "k8s.io/apimachinery/pkg/apis/meta/v1.Time"] |}.

(** The schema of [MicroTime]. *)
Definition schema_pkg_apis_meta_v1_MicroTime (ref : string → string) : definition :=
  {| def_schema := typed "string" "date-time"; def_dependencies := [] |}.

(** The properties of [ObjectMeta] from [name] to [ownerReferences]. *)
Definition schema_pkg_apis_meta_v1_ObjectMeta_1 (ref : string → string) : list (string * schema) :=
  [("name", typed "string" "");
   ("generateName", typed "string" "");
   ("namespace", typed "string" "");
   ("selfLink", typed "string" "");
   ("uid", typed "string" "");
   ("resourceVersion", typed "string" "");
   ("generation", typed "integer" "int64");
   ("creationTimestamp", reference (ref "k8s.io/apimachinery/pkg/apis/meta/v1.Time"));
   ("deletionTimestamp", reference (ref "k8s.io/apimachinery/pkg/apis/meta/v1.Time"));
   ("deletionGracePeriodSeconds", typed "integer" "int64");
   ("labels", map_of (with_default (JStr "") (typed "string" "")));
   ("annotations", map_of (with_default (JStr "") (typed "string" "")));
   ("ownerReferences", with_extensions [("x-kubernetes-list-map-keys", JArr [JStr "uid"]);
        ("x-kubernetes-list-type", JStr "map");
        ("x-kubernetes-patch-merge-key", JStr "uid");
        ("x-kubernetes-patch-strategy", JStr "merge")]
       (array_of (with_default (JObj []) (reference (ref "k8s.io/apimachinery/pkg/apis/meta/v1.OwnerReference")))))].

(** The properties of [ObjectMeta] from [finalizers] to [managedFields]. *)
Definition schema_pkg_apis_meta_v1_ObjectMeta_2 (ref : string → string) : list (string * schema) :=
  [("finalizers", with_extensions [("x-kubernetes-list-type", JStr "set");
        ("x-kubernetes-patch-strategy", JStr "merge")]
       (array_of (with_default (JStr "") (typed "string" ""))));
   ("managedFields", with_extensions [("x-kubernetes-list-type", JStr "atomic")]
       (array_of (with_default (JObj []) (reference (ref "k8s.io/apimachinery/pkg/apis/meta/v1.ManagedFieldsEntry")))))].

(** The schema of [ObjectMeta]. *)
Definition schema_pkg_apis_meta_v1_ObjectMeta (ref : string → string) : definition :=
  {| def_schema := object_of
     (schema_pkg_apis_meta_v1_ObjectMeta_1 ref ++ schema_pkg_apis_meta_v1_ObjectMeta_2 ref)
     [];
     def_dependencies := ["k8s.io/apimachinery/pkg/apis/meta/v1.ManagedFieldsEntry";
       "k8s.io/apimachinery/pkg/apis/meta/v1.OwnerReference";
       "k8s.io/apimachinery/pkg/apis/meta/v1.Time"] |}.

(** The schema of [OwnerReference]. *)
Definition schema_pkg_apis_meta_v1_OwnerReference (ref : string → string) : definition :=
  {| def_schema := with_extensions [("x-kubernetes-map-type", JStr "atomic")] (object_of
     ([("apiVersion", with_default (JStr "") (typed "string" ""));
      ("kind", with_default (JStr "") (typed "string" ""));
      ("name", with_default (JStr "") (typed "string" ""));
      ("uid", with_default (JStr "") (typed "string" ""));
      ("controller", typed "boolean" "");
      ("blockOwnerDeletion", typed "boolean" "")])
     ["apiVersion"; "kind"; "name"; "uid"]);
     def_dependencies := [] |}.

(** The schema of [PartialObjectMetadata]. *)
Definition schema_pkg_apis_meta_v1_PartialObjectMetadata (ref : string → string) : definition :=
  {| def_schema := object_of
     ([("kind", typed "string" "");
      ("apiVersion", typed "string" "");
      ("metadata", with_default (JObj []) (reference (ref "k8s.io/apimachinery/pkg/apis/meta/v1.ObjectMeta")))])
     [];
     def_dependencies := ["k8s.io/apimachinery/pkg/apis/meta/v1.ObjectMeta"] |}.

(** The schema of [PartialObjectMetadataList]. *)
Definition schema_pkg_apis_meta_v1_PartialObjectMetadataList (ref : string → string) : definition :=
  {| def_schema := object_of
     ([("kind", typed "string" "");
      ("apiVersion", typed "string" "");
      ("metadata", with_default (JObj []) (reference (ref "k8s.io/apimachinery/pkg/apis/meta/v1.ListMeta")));
      ("items", array_of (with_default (JObj []) (reference (ref "k8s.io/apimachinery/pkg/apis/meta/v1.PartialObjectMetadata"))))])
     ["items"];
     def_dependencies := ["k8s.io/apimachinery/pkg/apis/meta/v1.ListMeta";
       "k8s.io/apimachinery/pkg/apis/meta/v1.PartialObjectMetadata"] |}.

(** The schema of [Patch]. *)
Definition schema_pkg_apis_meta_v1_Patch (ref : string → string) : definition :=
  {| def_schema := object_of
     ([])
     [];
     def_dependencies := [] |}.

(** The schema of [PatchOptions]. *)
Definition schema_pkg_apis_meta_v1_PatchOptions (ref : string → string) : definition :=
  {| def_schema := object_of
     ([("kind", typed "string" "");
      ("apiVersion", typed "string" "");
      ("dryRun", with_extensions [("x-kubernetes-list-type", JStr "atomic")]
       (array_of (with_default (JStr "") (typed "string" ""))));
      ("force", typed "boolean" "");
      ("fieldManager", typed "string" "");
      ("fieldValidation", typed "string" "")])
     [];
     def_dependencies := [] |}.

(** The schema of [Preconditions]. *)
Definition schema_pkg_apis_meta_v1_Preconditions (ref : string → string) : definition :=
  {| def_schema := object_of
     ([("uid", typed "string" "");
      ("resourceVersion", typed "string" "")])
     [];
     def_dependencies := [] |}.

(** The schema of [RootPaths]. *)
Definition schema_pkg_apis_meta_v1_RootPaths (ref : string → string) : definition :=
  {| def_schema := object_of
     ([("paths", with_extensions [("x-kubernetes-list-type", JStr "atomic")]
       (array_of (with_default (JStr "") (typed "string" ""))))])
     ["paths"];
     def_dependencies := [] |}.

(** The schema of [ServerAddressByClientCIDR]. *)
Definition schema_pkg_apis_meta_v1_ServerAddressByClientCIDR (ref : string → string) : definition :=
  {| def_schema := object_of
     ([("clientCIDR", with_default (JStr "") (typed "string" ""));
      ("serverAddress", with_default (JStr "") (typed "string" ""))])
     ["clientCIDR"; "serverAddress"];
     def_dependencies := [] |}.

(** The schema of [Status]. *)
Definition schema_pkg_apis_meta_v1_Status (ref : string → string) : definition :=
  {| def_schema := object_of
     ([("kind", typed "string" "");
      ("apiVersion", typed "string" "");
      ("metadata", with_default (JObj []) (reference (ref "k8s.io/apimachinery/pkg/apis/meta/v1.ListMeta")));
      ("status", typed "string" "");
      ("message", typed "string" "");
      ("reason", typed "string" "");
      ("details", with_extensions [("x-kubernetes-list-type", JStr "atomic")]
       (reference (ref "k8s.io/apimachinery/pkg/apis/meta/v1.StatusDetails")));
      ("code", typed "integer" "int32")])
     [];
     def_dependencies := ["k8s.io/apimachinery/pkg/apis/meta/v1.ListMeta";
       "k8s.io/apimachinery/pkg/apis/meta/v1.StatusDetails"] |}.

(** The schema of [StatusCause]. *)
Definition schema_pkg_apis_meta_v1_StatusCause (ref : string → string) : definition :=
  {| def_schema := object_of
     ([("reason", typed "string" "");
      ("message", typed "string" "");
      ("field", typed "string" "")])
     [];
     def_dependencies := [] |}.

(** The schema of [StatusDetails]. *)
Definition schema_pkg_apis_meta_v1_StatusDetails (ref : string → string) : definition :=
  {| def_schema := object_of
     ([("name", typed "string" "");
      ("group", typed "string" "");
      ("kind", typed "string" "");
      ("uid", typed "string" "");
      ("causes", with_extensions [("x-kubernetes-list-type", JStr "atomic")]
       (array_of (with_default (JObj []) (reference (ref "k8s.io/apimachinery/pkg/apis/meta/v1.StatusCause")))));
      ("retryAfterSeconds", typed "integer" "int32")])
     [];
     def_dependencies := ["k8s.io/apimachinery/pkg/apis/meta/v1.StatusCause"] |}.

(** The schema of [Table]. *)
Definition schema_pkg_apis_meta_v1_Table (ref : string → string) : definition :=
  {| def_schema := object_of
     ([("kind", typed "string" "");
      ("apiVersion", typed "string" "");
      ("metadata", with_default (JObj []) (reference (ref "k8s.io/apimachinery/pkg/apis/meta/v1.ListMeta")));
      ("columnDefinitions", with_extensions [("x-kubernetes-list-type", JStr "atomic")]
       (array_of (with_default (JObj []) (reference (ref "k8s.io/apimachinery/pkg/apis/meta/v1.TableColumnDefinition")))));
      ("rows", with_extensions [("x-kubernetes-list-type", JStr "atomic")]
       (array_of (with_default (JObj []) (reference (ref "k8s.io/apimachinery/pkg/apis/meta/v1.TableRow")))))])
     ["columnDefinitions"; "rows"];
     def_dependencies := ["k8s.io/apimachinery/pkg/apis/meta/v1.ListMeta";
       "k8s.io/apimachinery/pkg/apis/meta/v1.TableColumnDefinition";
       "k8s.io/apimachinery/pkg/apis/meta/v1.TableRow"] |}.

(** The schema of [TableColumnDefinition]. *)
Definition schema_pkg_apis_meta_v1_TableColumnDefinition (ref : string → string) : definition :=
  {| def_schema := object_of
     ([("name", with_default (JStr "") (typed "string" ""));
      ("type", with_default (JStr "") (typed "string" ""));
      ("format", with_default (JStr "") (typed "string" ""));
      ("description", with_default (JStr "") (typed "string" ""));
      ("priority", with_default (JNum 0) (typed "integer" "int32"))])
     ["name"; "type"; "format"; "description"; "priority"];
     def_dependencies := [] |}.

(** The schema of [TableOptions]. *)
Definition schema_pkg_apis_meta_v1_TableOptions (ref : string → string) : definition :=
  {| def_schema := object_of
     ([("kind", typed "string" "");
      ("apiVersion", typed "string" "");
      ("includeObject", typed "string" "")])
     [];
     def_dependencies := [] |}.

(** The schema of [TableRow]. *)
Definition schema_pkg_apis_meta_v1_TableRow (ref : string → string) : definition :=
  {| def_schema := object_of
     ([("cells", with_extensions [("x-kubernetes-list-type", JStr "atomic")]
       (array_of (typed "object" "")));
      ("conditions", with_extensions [("x-kubernetes-list-type", JStr "atomic")]
       (array_of (with_default (JObj []) (reference (ref "k8s.io/apimachinery/pkg/apis/meta/v1.TableRowCondition")))));
      ("object", reference (ref "k8s.io/apimachinery/pkg/runtime.RawExtension"))])
     ["cells"];
     def_dependencies := ["k8s.io/apimachinery/pkg/apis/meta/v1.TableRowCondition";
       "k8s.io/apimachinery/pkg/runtime.RawExtension"] |}.

(** The schema of [TableRowCondition]. *)
Definition schema_pkg_apis_meta_v1_TableRowCondition (ref : string → string) : definition :=
  {| def_schema := object_of
     ([("type", with_default (JStr "") (typed "string" ""));
      ("status", with_default (JStr "") (typed "string" ""));
      ("reason", typed "string" "");
      ("message", typed "string" "")])
     ["type"; "status"];
     def_dependencies := [] |}.

(** The schema of [Time]. *)
Definition schema_pkg_apis_meta_v1_Time (ref : string → string) : definition :=
  {| def_schema := typed "string" "date-time"; def_dependencies := [] |}.

(** The schema of [Timestamp]. *)
Definition schema_pkg_apis_meta_v1_Timestamp (ref : string → string) : definition :=
  {| def_schema := object_of
     ([("seconds", with_default (JNum 0) (typed "integer" "int64"));
      ("nanos", with_default (JNum 0) (typed "integer" "int32"))])
     ["seconds"; "nanos"];
     def_dependencies := [] |}.

(** The schema of [TypeMeta]. *)
Definition schema_pkg_apis_meta_v1_TypeMeta (ref : string → string) : definition :=
  {| def_schema := object_of
     ([("kind", typed "string" "");
      ("apiVersion", typed "string" "")])
     [];
     def_dependencies := [] |}.

(** The schema of [UpdateOptions]. *)
Definition schema_pkg_apis_meta_v1_UpdateOptions (ref : string → string) : definition :=
  {| def_schema := object_of
     ([("kind", typed "string" "");
      ("apiVersion", typed "string" "");
      ("dryRun", with_extensions [("x-kubernetes-list-type", JStr "atomic")]
       (array_of (with_default (JStr "") (typed "string" ""))));
      ("fieldManager", typed "string" "");
      ("fieldValidation", typed "string" "")])
     [];
     def_dependencies := [] |}.

(** The schema of [WatchEvent]. *)
Definition schema_pkg_apis_meta_v1_WatchEvent (ref : string → string) : definition :=
  {| def_schema := object_of
     ([("type", with_default (JStr "") (typed "string" ""));
      ("object", reference (ref "k8s.io/apimachinery/pkg/runtime.RawExtension"))])
     ["type"; "object"];
     def_dependencies := ["k8s.io/apimachinery/pkg/runtime.RawExtension"] |}.

(** The schema of [RawExtension]. *)
Definition schema_k8sio_apimachinery_pkg_runtime_RawExtension (ref : string → string) : definition :=
  {| def_schema := object_of
     ([])
     [];
     def_dependencies := [] |}.

(** The schema of [TypeMeta]. *)
Definition schema_k8sio_apimachinery_pkg_runtime_TypeMeta (ref : string → string) : definition :=
  {| def_schema := object_of
     ([("apiVersion", typed "string" "");
      ("kind", typed "string" "")])
     [];
     def_dependencies := [] |}.

(** The schema of [Unknown]. *)
Definition schema_k8sio_apimachinery_pkg_runtime_Unknown (ref : string → string) : definition :=
  {| def_schema := object_of
     ([("apiVersion", typed "string" "");
      ("kind", typed "string" "");
      ("ContentEncoding", with_default (JStr "") (typed "string" ""));
      ("ContentType", with_default (JStr "") (typed "string" ""))])
     ["ContentEncoding"; "ContentType"];
     def_dependencies := [] |}.

(** The schema of [IntOrString], a union. *)
Definition schema_apimachinery_pkg_util_intstr_IntOrString (ref : string → string) : definition :=
  EmbedOpenAPIDefinitionIntoV2Extension
    {| def_schema := one_of_types (GenerateOpenAPIV3OneOfSchema ["integer"; "string"]) "int-or-string";
       def_dependencies := [] |}
    {| def_schema := typed "string" "int-or-string"; def_dependencies := [] |}.

(** The schema of [Info]. *)
Definition schema_k8sio_apimachinery_pkg_version_Info (ref : string → string) : definition :=
  {| def_schema := object_of
     ([("major", with_default (JStr "") (typed "string" ""));
      ("minor", with_default (JStr "") (typed "string" ""));
      ("emulationMajor", typed "string" "");
      ("emulationMinor", typed "string" "");
      ("minCompatibilityMajor", typed "string" "");
      ("minCompatibilityMinor", typed "string" "");
      ("gitVersion", with_default (JStr "") (typed "string" ""));
      ("gitCommit", with_default (JStr "") (typed "string" ""));
      ("gitTreeState", with_default (JStr "") (typed "string" ""));
      ("buildDate", with_default (JStr "") (typed "string" ""));
      ("goVersion", with_default (JStr "") (typed "string" ""));
      ("compiler", with_default (JStr "") (typed "string" ""));
      ("platform", with_default (JStr "") (typed "string" ""))])
     ["major"; "minor"; "gitVersion"; "gitCommit"; "gitTreeState"; "buildDate"; "goVersion"; "compiler"; "platform"];
     def_dependencies := [] |}.

(** The entries of [GetOpenAPIDefinitions] for these types. *)
Definition machinery_definitions (ref : string → string) : list (string * definition) :=
  [("k8s.io/api/rbac/v1.AggregationRule", schema_k8sio_api_rbac_v1_AggregationRule ref);
   ("k8s.io/api/rbac/v1.ClusterRole", schema_k8sio_api_rbac_v1_ClusterRole ref);
   ("k8s.io/api/rbac/v1.ClusterRoleBinding", schema_k8sio_api_rbac_v1_ClusterRoleBinding ref);
   ("k8s.io/api/rbac/v1.ClusterRoleBindingList", schema_k8sio_api_rbac_v1_ClusterRoleBindingList ref);
   ("k8s.io/api/rbac/v1.ClusterRoleList", schema_k8sio_api_rbac_v1_ClusterRoleList ref);
   ("k8s.io/api/rbac/v1.PolicyRule", schema_k8sio_api_rbac_v1_PolicyRule ref);
   ("k8s.io/api/rbac/v1.Role", schema_k8sio_api_rbac_v1_Role ref);
   ("k8s.io/api/rbac/v1.RoleBinding", schema_k8sio_api_rbac_v1_RoleBinding ref);
   ("k8s.io/api/rbac/v1.RoleBindingList", schema_k8sio_api_rbac_v1_RoleBindingList ref);
   ("k8s.io/api/rbac/v1.RoleList", schema_k8sio_api_rbac_v1_RoleList ref);
   ("k8s.io/api/rbac/v1.RoleRef", schema_k8sio_api_rbac_v1_RoleRef ref);
   ("k8s.io/api/rbac/v1.Subject", schema_k8sio_api_rbac_v1_Subject ref);
   ("k8s.io/apimachinery/pkg/api/resource.Quantity", schema_apimachinery_pkg_api_resource_Quantity ref);
   ("k8s.io/apimachinery/pkg/api/resource.int64Amount", schema_apimachinery_pkg_api_resource_int64Amount ref);
   ("k8s.io/apimachinery/pkg/apis/meta/v1.APIGroup", schema_pkg_apis_meta_v1_APIGroup ref);
   ("k8s.io/apimachinery/pkg/apis/meta/v1.APIGroupList", schema_pkg_apis_meta_v1_APIGroupList ref);
   ("k8s.io/apimachinery/pkg/apis/meta/v1.APIResource", schema_pkg_apis_meta_v1_APIResource ref);
   ("k8s.io/apimachinery/pkg/apis/meta/v1.APIResourceList", schema_pkg_apis_meta_v1_APIResourceList ref);
   ("k8s.io/apimachinery/pkg/apis/meta/v1.APIVersions", schema_pkg_apis_meta_v1_APIVersions ref);
   ("k8s.io/apimachinery/pkg/apis/meta/v1.ApplyOptions", schema_pkg_apis_meta_v1_ApplyOptions ref);
   ("k8s.io/apimachinery/pkg/apis/meta/v1.Condition", schema_pkg_apis_meta_v1_Condition ref);
   ("k8s.io/apimachinery/pkg/apis/meta/v1.CreateOptions", schema_pkg_apis_meta_v1_CreateOptions ref);
   ("k8s.io/apimachinery/pkg/apis/meta/v1.DeleteOptions", schema_pkg_apis_meta_v1_DeleteOptions ref);
   ("k8s.io/apimachinery/pkg/apis/meta/v1.Duration", schema_pkg_apis_meta_v1_Duration ref);
   ("k8s.io/apimachinery/pkg/apis/meta/v1.FieldSelectorRequirement", schema_pkg_apis_meta_v1_FieldSelectorRequirement ref);
   ("k8s.io/apimachinery/pkg/apis/meta/v1.FieldsV1", schema_pkg_apis_meta_v1_FieldsV1 ref);
   ("k8s.io/apimachinery/pkg/apis/meta/v1.GetOptions", schema_pkg_apis_meta_v1_GetOptions ref);
   ("k8s.io/apimachinery/pkg/apis/meta/v1.GroupKind", schema_pkg_apis_meta_v1_GroupKind ref);
   ("k8s.io/apimachinery/pkg/apis/meta/v1.GroupResource", schema_pkg_apis_meta_v1_GroupResource ref);
   ("k8s.io/apimachinery/pkg/apis/meta/v1.GroupVersion", schema_pkg_apis_meta_v1_GroupVersion ref);
   ("k8s.io/apimachinery/pkg/apis/meta/v1.GroupVersionForDiscovery", schema_pkg_apis_meta_v1_GroupVersionForDiscovery ref);
   ("k8s.io/apimachinery/pkg/apis/meta/v1.GroupVersionKind", schema_pkg_apis_meta_v1_GroupVersionKind ref);
   ("k8s.io/apimachinery/pkg/apis/meta/v1.GroupVersionResource", schema_pkg_apis_meta_v1_GroupVersionResource ref);
   ("k8s.io/apimachinery/pkg/apis/meta/v1.InternalEvent", schema_pkg_apis_meta_v1_InternalEvent ref);
   ("k8s.io/apimachinery/pkg/apis/meta/v1.LabelSelector", schema_pkg_apis_meta_v1_LabelSelector ref);
   ("k8s.io/apimachinery/pkg/apis/meta/v1.LabelSelectorRequirement", schema_pkg_apis_meta_v1_LabelSelectorRequirement ref);
   ("k8s.io/apimachinery/pkg/apis/meta/v1.List", schema_pkg_apis_meta_v1_List ref);
   ("k8s.io/apimachinery/pkg/apis/meta/v1.ListMeta", schema_pkg_apis_meta_v1_ListMeta ref);
   ("k8s.io/apimachinery/pkg/apis/meta/v1.ListOptions", schema_pkg_apis_meta_v1_ListOptions ref);
   ("k8s.io/apimachinery/pkg/apis/meta/v1.ManagedFieldsEntry", schema_pkg_apis_meta_v1_ManagedFieldsEntry ref);
   ("k8s.io/apimachinery/pkg/apis/meta/v1.MicroTime", schema_pkg_apis_meta_v1_MicroTime ref);
   ("k8s.io/apimachinery/pkg/apis/meta/v1.ObjectMeta", schema_pkg_apis_meta_v1_ObjectMeta ref);
   ("k8s.io/apimachinery/pkg/apis/meta/v1.OwnerReference", schema_pkg_apis_meta_v1_OwnerReference ref);
   ("k8s.io/apimachinery/pkg/apis/meta/v1.PartialObjectMetadata", schema_pkg_apis_meta_v1_PartialObjectMetadata ref);
   ("k8s.io/apimachinery/pkg/apis/meta/v1.PartialObjectMetadataList", schema_pkg_apis_meta_v1_PartialObjectMetadataList ref);
   ("k8s.io/apimachinery/pkg/apis/meta/v1.Patch", schema_pkg_apis_meta_v1_Patch ref);
   ("k8s.io/apimachinery/pkg/apis/meta/v1.PatchOptions", schema_pkg_apis_meta_v1_PatchOptions ref);
   ("k8s.io/apimachinery/pkg/apis/meta/v1.Preconditions", schema_pkg_apis_meta_v1_Preconditions ref);
   ("k8s.io/apimachinery/pkg/apis/meta/v1.RootPaths", schema_pkg_apis_meta_v1_RootPaths ref);
   ("k8s.io/apimachinery/pkg/apis/meta/v1.ServerAddressByClientCIDR", schema_pkg_apis_meta_v1_ServerAddressByClientCIDR ref);
   ("k8s.io/apimachinery/pkg/apis/meta/v1.Status", schema_pkg_apis_meta_v1_Status ref);
   ("k8s.io/apimachinery/pkg/apis/meta/v1.StatusCause", schema_pkg_apis_meta_v1_StatusCause ref);
   ("k8s.io/apimachinery/pkg/apis/meta/v1.StatusDetails", schema_pkg_apis_meta_v1_StatusDetails ref);
   ("k8s.io/apimachinery/pkg/apis/meta/v1.Table", schema_pkg_apis_meta_v1_Table ref);
   ("k8s.io/apimachinery/pkg/apis/meta/v1.TableColumnDefinition", schema_pkg_apis_meta_v1_TableColumnDefinition ref);
   ("k8s.io/apimachinery/pkg/apis/meta/v1.TableOptions", schema_pkg_apis_meta_v1_TableOptions ref);
   ("k8s.io/apimachinery/pkg/apis/meta/v1.TableRow", schema_pkg_apis_meta_v1_TableRow ref);
   ("k8s.io/apimachinery/pkg/apis/meta/v1.TableRowCondition", schema_pkg_apis_meta_v1_TableRowCondition ref);
   ("k8s.io/apimachinery/pkg/apis/meta/v1.Time", schema_pkg_apis_meta_v1_Time ref);
   ("k8s.io/apimachinery/pkg/apis/meta/v1.Timestamp", schema_pkg_apis_meta_v1_Timestamp ref);
   ("k8s.io/apimachinery/pkg/apis/meta/v1.TypeMeta", schema_pkg_apis_meta_v1_TypeMeta ref);
   ("k8s.io/apimachinery/pkg/apis/meta/v1.UpdateOptions", schema_pkg_apis_meta_v1_UpdateOptions ref);
   ("k8s.io/apimachinery/pkg/apis/meta/v1.WatchEvent", schema_pkg_apis_meta_v1_WatchEvent ref);
   ("k8s.io/apimachinery/pkg/runtime.RawExtension", schema_k8sio_apimachinery_pkg_runtime_RawExtension ref);
   ("k8s.io/apimachinery/pkg/runtime.TypeMeta", schema_k8sio_apimachinery_pkg_runtime_TypeMeta ref);
   ("k8s.io/apimachinery/pkg/runtime.Unknown", schema_k8sio_apimachinery_pkg_runtime_Unknown ref);
   ("k8s.io/apimachinery/pkg/util/intstr.IntOrString", schema_apimachinery_pkg_util_intstr_IntOrString ref);
   ("k8s.io/apimachinery/pkg/version.Info", schema_k8sio_apimachinery_pkg_version_Info ref)].
