(* ===== verification/SchemasKmodules.v ===== *)
(** * Published schemas of library types: kmodules

    The definitions [openapi_generated.go] publishes for kmodules.xyz/client-go, without
    their descriptions. *)

From S2P Require Import Prelude Types Json Schema.

(** The schema of [CAPIClusterInfo]. *)
Definition schema_kmodulesxyz_client_go_api_v1_CAPIClusterInfo (ref : string → string) : definition :=
  {| def_schema := object_of
     ([("provider", with_default (JStr "") (typed "string" ""));
      ("namespace", with_default (JStr "") (typed "string" ""));
      ("clusterName", with_default (JStr "") (typed "string" ""))])
     ["provider"; "namespace"; "clusterName"];
     def_dependencies := [] |}.

(** The schema of [CertificatePrivateKey]. *)
Definition schema_kmodulesxyz_client_go_api_v1_CertificatePrivateKey (ref : string → string) : definition :=
  {| def_schema := object_of
     ([("encoding", typed "string" "")])
     [];
     def_dependencies := [] |}.

(** The schema of [CertificateSpec]. *)
Definition schema_kmodulesxyz_client_go_api_v1_CertificateSpec (ref : string → string) : definition :=
  {| def_schema := object_of
     ([("alias", with_default (JStr "") (typed "string" ""));
      ("issuerRef", reference (ref "k8s.io/api/core/v1.TypedLocalObjectReference"));
      ("secretName", typed "string" "");
      ("subject", reference (ref "kmodules.xyz/client-go/api/v1.X509Subject"));
      ("duration", reference (ref "k8s.io/apimachinery/pkg/apis/meta/v1.Duration"));
      ("renewBefore", reference (ref "k8s.io/apimachinery/pkg/apis/meta/v1.Duration"));
      ("dnsNames", array_of (with_default (JStr "") (typed "string" "")));
      ("ipAddresses", array_of (with_default (JStr "") (typed "string" "")));
      ("uris", array_of (with_default (JStr "") (typed "string" "")));
      ("emailAddresses", array_of (with_default (JStr "") (typed "string" "")));
      ("privateKey", reference (ref "kmodules.xyz/client-go/api/v1.CertificatePrivateKey"))])
     ["alias"];
     def_dependencies := ["k8s.io/api/core/v1.TypedLocalObjectReference";
       "k8s.io/apimachinery/pkg/apis/meta/v1.Duration";
       "kmodules.xyz/client-go/api/v1.CertificatePrivateKey";
       "kmodules.xyz/client-go/api/v1.X509Subject"] |}.

(** The schema of [ClusterClaimFeatures]. *)
Definition schema_kmodulesxyz_client_go_api_v1_ClusterClaimFeatures (ref : string → string) : definition :=
  {| def_schema := object_of
     ([("enabledFeatures", array_of (with_default (JStr "") (typed "string" "")));
      ("externallyManagedFeatures", array_of (with_default (JStr "") (typed "string" "")));
      ("disabledFeatures", array_of (with_default (JStr "") (typed "string" "")))])
     [];
     def_dependencies := [] |}.

(** The schema of [ClusterClaimInfo]. *)
Definition schema_kmodulesxyz_client_go_api_v1_ClusterClaimInfo (ref : string → string) : definition :=
  {| def_schema := object_of
     ([("clusterMetadata", with_default (JObj []) (reference (ref "kmodules.xyz/client-go/api/v1.ClusterInfo")))])
     ["clusterMetadata"];
     def_dependencies := ["kmodules.xyz/client-go/api/v1.ClusterInfo"] |}.

(** The schema of [ClusterInfo]. *)
Definition schema_kmodulesxyz_client_go_api_v1_ClusterInfo (ref : string → string) : definition :=
  {| def_schema := object_of
     ([("uid", with_default (JStr "") (typed "string" ""));
      ("name", with_default (JStr "") (typed "string" ""));
      ("clusterManagers", array_of (with_default (JStr "") (typed "string" "")));
      ("capi", reference (ref "kmodules.xyz/client-go/api/v1.CAPIClusterInfo"))])
     ["uid"; "name"; "clusterManagers"];
     def_dependencies := ["kmodules.xyz/client-go/api/v1.CAPIClusterInfo"] |}.

(** The schema of [ClusterMetadata]. *)
Definition schema_kmodulesxyz_client_go_api_v1_ClusterMetadata (ref : string → string) : definition :=
  {| def_schema := object_of
     ([("uid", with_default (JStr "") (typed "string" ""));
      ("name", typed "string" "");
      ("displayName", typed "string" "");
      ("provider", typed "string" "");
      ("ownerID", typed "string" "");
      ("ownerType", typed "string" "");
      ("apiEndpoint", typed "string" "");
      ("caBundle", typed "string" "");
      ("managerID", typed "string" "");
      ("hubClusterID", typed "string" "");
      ("cloudServiceAuthMode", typed "string" "");
      ("mode", typed "string" "")])
     ["uid"];
     def_dependencies := [] |}.

(** The schema of [Condition]. *)
Definition schema_kmodulesxyz_client_go_api_v1_Condition (ref : string → string) : definition :=
  {| def_schema := object_of
     ([("type", with_default (JStr "") (typed "string" ""));
      ("status", with_default (JStr "") (typed "string" ""));
      ("observedGeneration", typed "integer" "int64");
      ("severity", typed "string" "");
      ("lastTransitionTime", reference (ref "k8s.io/apimachinery/pkg/apis/meta/v1.Time"));
      ("reason", typed "string" "");
      ("message", typed "string" "")])
     ["type"; "status"; "lastTransitionTime"];
     def_dependencies := ["k8s.io/apimachinery/pkg/apis/meta/v1.Time"] |}.

(** The schema of [HealthCheckSpec]. *)
Definition schema_kmodulesxyz_client_go_api_v1_HealthCheckSpec (ref : string → string) : definition :=
  {| def_schema := object_of
     ([("periodSeconds", typed "integer" "int32");
      ("timeoutSeconds", typed "integer" "int32");
      ("failureThreshold", typed "integer" "int32");
      ("disableWriteCheck", typed "boolean" "")])
     [];
     def_dependencies := [] |}.

(** The schema of [ImageInfo]. *)
Definition schema_kmodulesxyz_client_go_api_v1_ImageInfo (ref : string → string) : definition :=
  {| def_schema := object_of
     ([("image", with_default (JStr "") (typed "string" ""));
      ("lineages", array_of (with_default (JObj []) (reference (ref "kmodules.xyz/client-go/api/v1.Lineage"))));
      ("pullCredentials", reference (ref "kmodules.xyz/client-go/api/v1.PullCredentials"))])
     ["image"];
     def_dependencies := ["kmodules.xyz/client-go/api/v1.Lineage";
       "kmodules.xyz/client-go/api/v1.PullCredentials"] |}.

(** The schema of [Lineage]. *)
Definition schema_kmodulesxyz_client_go_api_v1_Lineage (ref : string → string) : definition :=
  {| def_schema := object_of
     ([("chain", array_of (with_default (JObj []) (reference (ref "kmodules.xyz/client-go/api/v1.ObjectInfo"))));
      ("containers", array_of (with_default (JStr "") (typed "string" "")))])
     [];
     def_dependencies := ["kmodules.xyz/client-go/api/v1.ObjectInfo"] |}.

(** The schema of [ObjectID]. *)
Definition schema_kmodulesxyz_client_go_api_v1_ObjectID (ref : string → string) : definition :=
  {| def_schema := object_of
     ([("group", typed "string" "");
      ("kind", typed "string" "");
      ("namespace", typed "string" "");
      ("name", typed "string" "")])
     [];
     def_dependencies := [] |}.

(** The schema of [ObjectInfo]. *)
Definition schema_kmodulesxyz_client_go_api_v1_ObjectInfo (ref : string → string) : definition :=
  {| def_schema := object_of
     ([("resource", with_default (JObj []) (reference (ref "kmodules.xyz/client-go/api/v1.ResourceID")));
      ("ref", with_default (JObj []) (reference (ref "kmodules.xyz/client-go/api/v1.ObjectReference")))])
     ["resource"; "ref"];
     def_dependencies := ["kmodules.xyz/client-go/api/v1.ObjectReference";
       "kmodules.xyz/client-go/api/v1.ResourceID"] |}.

(** The schema of [ObjectReference]. *)
Definition schema_kmodulesxyz_client_go_api_v1_ObjectReference (ref : string → string) : definition :=
  {| def_schema := object_of
     ([("namespace", typed "string" "");
      ("name", with_default (JStr "") (typed "string" ""))])
     ["name"];
     def_dependencies := [] |}.

(** The schema of [PullCredentials]. *)
Definition schema_kmodulesxyz_client_go_api_v1_PullCredentials (ref : string → string) : definition :=
  {| def_schema := object_of
     ([("namespace", with_default (JStr "") (typed "string" ""));
      ("serviceAccountName", typed "string" "");
      ("secretRefs", array_of (with_default (JObj []) (reference (ref "k8s.io/api/core/v1.LocalObjectReference"))))])
     ["namespace"];
     def_dependencies := ["k8s.io/api/core/v1.LocalObjectReference"] |}.

(** The schema of [ReadonlyHealthCheckSpec]. *)
Definition schema_kmodulesxyz_client_go_api_v1_ReadonlyHealthCheckSpec (ref : string → string) : definition :=
  {| def_schema := object_of
     ([("periodSeconds", typed "integer" "int32");
      ("timeoutSeconds", typed "integer" "int32");
      ("failureThreshold", typed "integer" "int32")])
     [];
     def_dependencies := [] |}.

(** The schema of [ResourceID]. *)
Definition schema_kmodulesxyz_client_go_api_v1_ResourceID (ref : string → string) : definition :=
  {| def_schema := object_of
     ([("group", with_default (JStr "") (typed "string" ""));
      ("version", typed "string" "");
      ("name", typed "string" "");
      ("kind", typed "string" "");
      ("scope", typed "string" "")])
     ["group"];
     def_dependencies := [] |}.

(** The schema of [TLSConfig]. *)
Definition schema_kmodulesxyz_client_go_api_v1_TLSConfig (ref : string → string) : definition :=
  {| def_schema := object_of
     ([("issuerRef", reference (ref "k8s.io/api/core/v1.TypedLocalObjectReference"));
      ("certificates", array_of (with_default (JObj []) (reference (ref "kmodules.xyz/client-go/api/v1.CertificateSpec"))))])
     [];
     def_dependencies := ["k8s.io/api/core/v1.TypedLocalObjectReference";
       "kmodules.xyz/client-go/api/v1.CertificateSpec"] |}.

(** The schema of [TimeOfDay]. *)
Definition schema_kmodulesxyz_client_go_api_v1_TimeOfDay (ref : string → string) : definition :=
  {| def_schema := typed "string" "time"; def_dependencies := [] |}.

(** The schema of [TypeReference]. *)
Definition schema_kmodulesxyz_client_go_api_v1_TypeReference (ref : string → string) : definition :=
  {| def_schema := object_of
     ([("apiGroup", typed "string" "");
      ("kind", typed "string" "")])
     [];
     def_dependencies := [] |}.

(** The schema of [TypedObjectReference]. *)
Definition schema_kmodulesxyz_client_go_api_v1_TypedObjectReference (ref : string → string) : definition :=
  {| def_schema := object_of
     ([("apiGroup", typed "string" "");
      ("kind", typed "string" "");
      ("namespace", typed "string" "");
      ("name", with_default (JStr "") (typed "string" ""))])
     ["name"];
     def_dependencies := [] |}.

(** The schema of [X509Subject]. *)
Definition schema_kmodulesxyz_client_go_api_v1_X509Subject (ref : string → string) : definition :=
  {| def_schema := object_of
     ([("organizations", array_of (with_default (JStr "") (typed "string" "")));
      ("countries", array_of (with_default (JStr "") (typed "string" "")));
      ("organizationalUnits", array_of (with_default (JStr "") (typed "string" "")));
      ("localities", array_of (with_default (JStr "") (typed "string" "")));
      ("provinces", array_of (with_default (JStr "") (typed "string" "")));
      ("streetAddresses", array_of (with_default (JStr "") (typed "string" "")));
      ("postalCodes", array_of (with_default (JStr "") (typed "string" "")));
      ("serialNumber", typed "string" "")])
     [];
     def_dependencies := [] |}.

(** The schema of [stringSetMerger]. *)
Definition schema_kmodulesxyz_client_go_api_v1_stringSetMerger (ref : string → string) : definition :=
  {| def_schema := object_of
     ([])
     [];
     def_dependencies := [] |}.

(** The entries of [GetOpenAPIDefinitions] for these types. *)
Definition kmodules_definitions (ref : string → string) : list (string * definition) :=
  [("kmodules.xyz/client-go/api/v1.CAPIClusterInfo", schema_kmodulesxyz_client_go_api_v1_CAPIClusterInfo ref);
   ("kmodules.xyz/client-go/api/v1.CertificatePrivateKey", schema_kmodulesxyz_client_go_api_v1_CertificatePrivateKey ref);
   ("kmodules.xyz/client-go/api/v1.CertificateSpec", schema_kmodulesxyz_client_go_api_v1_CertificateSpec ref);
   ("kmodules.xyz/client-go/api/v1.ClusterClaimFeatures", schema_kmodulesxyz_client_go_api_v1_ClusterClaimFeatures ref);
   ("kmodules.xyz/client-go/api/v1.ClusterClaimInfo", schema_kmodulesxyz_client_go_api_v1_ClusterClaimInfo ref);
   ("kmodules.xyz/client-go/api/v1.ClusterInfo", schema_kmodulesxyz_client_go_api_v1_ClusterInfo ref);
   ("kmodules.xyz/client-go/api/v1.ClusterMetadata", schema_kmodulesxyz_client_go_api_v1_ClusterMetadata ref);
   ("kmodules.xyz/client-go/api/v1.Condition", schema_kmodulesxyz_client_go_api_v1_Condition ref);
   ("kmodules.xyz/client-go/api/v1.HealthCheckSpec", schema_kmodulesxyz_client_go_api_v1_HealthCheckSpec ref);
   ("kmodules.xyz/client-go/api/v1.ImageInfo", schema_kmodulesxyz_client_go_api_v1_ImageInfo ref);
   ("kmodules.xyz/client-go/api/v1.Lineage", schema_kmodulesxyz_client_go_api_v1_Lineage ref);
   ("kmodules.xyz/client-go/api/v1.ObjectID", schema_kmodulesxyz_client_go_api_v1_ObjectID ref);
   ("kmodules.xyz/client-go/api/v1.ObjectInfo", schema_kmodulesxyz_client_go_api_v1_ObjectInfo ref);
   ("kmodules.xyz/client-go/api/v1.ObjectReference", schema_kmodulesxyz_client_go_api_v1_ObjectReference ref);
   ("kmodules.xyz/client-go/api/v1.PullCredentials", schema_kmodulesxyz_client_go_api_v1_PullCredentials ref);
   ("kmodules.xyz/client-go/api/v1.ReadonlyHealthCheckSpec", schema_kmodulesxyz_client_go_api_v1_ReadonlyHealthCheckSpec ref);
   ("kmodules.xyz/client-go/api/v1.ResourceID", schema_kmodulesxyz_client_go_api_v1_ResourceID ref);
   ("kmodules.xyz/client-go/api/v1.TLSConfig", schema_kmodulesxyz_client_go_api_v1_TLSConfig ref);
   ("kmodules.xyz/client-go/api/v1.TimeOfDay", schema_kmodulesxyz_client_go_api_v1_TimeOfDay ref);
   ("kmodules.xyz/client-go/api/v1.TypeReference", schema_kmodulesxyz_client_go_api_v1_TypeReference ref);
   ("kmodules.xyz/client-go/api/v1.TypedObjectReference", schema_kmodulesxyz_client_go_api_v1_TypedObjectReference ref);
   ("kmodules.xyz/client-go/api/v1.X509Subject", schema_kmodulesxyz_client_go_api_v1_X509Subject ref);
   ("kmodules.xyz/client-go/api/v1.stringSetMerger", schema_kmodulesxyz_client_go_api_v1_stringSetMerger ref)].
