(* ===== verification/Published.v ===== *)
(** * The published document

    [GetOpenAPIDefinitions] as a whole: the definitions of the Sidekick types and
    of every library type they are made of.  A reader of the document follows
    references by name, fills in defaults, merges lists by key: the theorems say
    that the names, keys and values it meets on the way are there. *)

From S2P Require Import Prelude Types Json Schema OpenAPI SchemaProps SchemasApps SchemasCore1 SchemasCore2 SchemasCore3 SchemasCore4 SchemasCore5 SchemasMachinery SchemasKmodules.

Definition GetOpenAPIDefinitions (ref : string → string) : list (string * definition) :=
  apps_definitions ref ++ core_1_definitions ref ++ core_2_definitions ref ++
  core_3_definitions ref ++ core_4_definitions ref ++ core_5_definitions ref ++
  machinery_definitions ref ++ kmodules_definitions ref ++ sidekick_definitions ref.

(** The document with references by plain name, and its index. *)
Definition document : list (string * definition) := GetOpenAPIDefinitions id.
Definition index : gmap string definition := list_to_map document.

(** ** Following references *)

Definition refs_of (d : definition) : list string := schema_refs (def_schema d).

(** Definition [k] mentions [r]. *)
Definition refers (k r : string) : Prop := ∃ d, (k, d) ∈ document ∧ r ∈ refs_of d.

Definition sidekick_name : string := "kubeops.dev/sidekick/apis/apps/v1alpha1.Sidekick".
Definition sidekick_list_name : string := "kubeops.dev/sidekick/apis/apps/v1alpha1.SidekickList".

(** The one definition with a reference that is not published. *)
Definition internal_event : string := "k8s.io/apimachinery/pkg/apis/meta/v1.InternalEvent".

Definition published (k : string) : bool := bool_decide (is_Some (index !! k)).

(** Every reference is published and none is to [internal_event], which is set
    apart. *)
Definition closed_entry (kd : string * definition) : bool :=
  String.eqb kd.1 internal_event ||
  forallb (λ r, published r && negb (String.eqb r internal_event)) (refs_of kd.2).

Lemma document_closed : forallb closed_entry document = true.
Proof. vm_compute. reflexivity. Qed.

(** No name occurs twice. *)
Lemma size_list_to_map {A} (l : list (string * A)) :
  (size (list_to_map l : gmap string A) ≤ length l)%nat ∧
  (size (list_to_map l : gmap string A) = length l → NoDup l.*1).
Proof.
  induction l as [|[k a] l [IHle IH]]; [split; [done|constructor]|]. simpl.
  destruct ((list_to_map l : gmap string A) !! k) as [b|] eqn:E.
  - rewrite map_size_insert_Some by (by rewrite E). split; [lia|lia].
  - rewrite map_size_insert_None by done. split; [lia|]. intros [= Hs]. constructor; [|by apply IH].
    by apply not_elem_of_list_to_map.
Qed.

Lemma document_NoDup : NoDup document.*1.
Proof. apply size_list_to_map. vm_compute. reflexivity. Qed.

Lemma index_document k d : index !! k = Some d ↔ (k, d) ∈ document.
Proof. symmetry. apply elem_of_list_to_map, document_NoDup. Qed.

(** ** The order of definitions *)

(** How deep the references of a definition nest, by repeated approximation. *)
Definition refine_ranks (rk : gmap string nat) : gmap string nat :=
  (λ d, foldr (λ r acc, Nat.max acc (S (default 0%nat (rk !! r)))) 0%nat (refs_of d)) <$> index.
Definition ranks : gmap string nat := Nat.iter 12 refine_ranks ∅.

Definition ranked (rk : gmap string nat) : bool :=
  forallb (λ kd, forallb (λ r, Nat.ltb (default 0%nat (rk !! r)) (default 0%nat (rk !! kd.1))) (refs_of kd.2))
    document.

Lemma document_ranked : ranked ranks = true.
Proof. vm_compute. reflexivity. Qed.

(** A reference leads to a definition of smaller rank. *)
Lemma refers_ranked k r :
  refers k r → (default 0%nat (ranks !! r) < default 0%nat (ranks !! k))%nat.
Proof.
  intros (d & Hd & Hr). pose proof document_ranked as H. unfold ranked in H.
  rewrite forallb_forall in H. specialize (H (k, d) (proj1 (list_elem_of_In _ _) Hd)).
  cbn [fst snd] in H. rewrite forallb_forall in H. apply Nat.ltb_lt, H. by apply list_elem_of_In.
Qed.

Lemma refers_wf : well_founded (λ r k, refers k r).
Proof.
  apply (well_founded_lt_compat _ (λ k, default 0%nat (ranks !! k))). intros r k. apply refers_ranked.
Qed.

Lemma refers_published k r :
  refers k r → k ≠ internal_event → r ≠ internal_event ∧ ∃ d, (r, d) ∈ document.
Proof.
  intros (d & Hd & Hr) Hk. pose proof document_closed as H. rewrite forallb_forall in H.
  specialize (H (k, d) (proj1 (list_elem_of_In _ _) Hd)). unfold closed_entry in H.
  cbn [fst snd] in H. apply orb_true_iff in H as [E%String.eqb_eq|H]; [done|]. rewrite forallb_forall in H.
  specialize (H r (proj1 (list_elem_of_In _ _) Hr)).
  apply andb_true_iff in H as [[d' Hd']%bool_decide_eq_true_1 Hne%negb_true_iff%String.eqb_neq].
  split; [done|]. exists d'. by apply index_document.
Qed.

(** Other names for the references leave the document as it is. *)
Lemma document_renamed ref :
  map (λ kd, (kd.1, refs_of kd.2)) (GetOpenAPIDefinitions ref) =
  map (λ kd, (kd.1, map ref (refs_of kd.2))) document.
Proof. vm_compute. reflexivity. Qed.

Lemma resolve_renamed ref `{!Inj (=) (=) ref} k d :
  (k, d) ∈ document →
  ∃ d', resolve ref (GetOpenAPIDefinitions ref) (ref k) = Some d' ∧ refs_of d' = map ref (refs_of d).
Proof.
  intros Hd. unfold resolve.
  assert (Hin : (k, map ref (refs_of d)) ∈ map (λ kd, (kd.1, refs_of kd.2)) (GetOpenAPIDefinitions ref)).
  { rewrite document_renamed. apply list_elem_of_fmap. by exists (k, d). }
  assert (Hnd : NoDup (map fst (map (λ kd, (kd.1, refs_of kd.2)) (GetOpenAPIDefinitions ref)))).
  { rewrite document_renamed, map_map. apply document_NoDup. }
  revert Hin Hnd. induction (GetOpenAPIDefinitions ref) as [|[k' d'] l IH]; simpl.
  - by intros ?%elem_of_nil.
  - intros [E|Hin]%elem_of_cons [Hni Hnd]%NoDup_cons.
    + injection E as -> ->. rewrite String.eqb_refl. by exists d'.
    + destruct (String.eqb_spec (ref k) (ref k')) as [E%(inj ref)|_]; [|by apply IH].
      subst k'. destruct Hni. change k with (k, map ref (refs_of d)).1. by apply (list_elem_of_fmap_2 fst).
Qed.

(** Whoever reads the published document from the Sidekick (or the list of
    Sidekicks) on, following references, never meets one that is missing: every
    definition on the way is there, and it mentions exactly the names of its own
    references, whatever injective form the caller gives to references. *)
Theorem published_references_resolve ref (Hinj : Inj (=) (=) ref) root k :
  root = sidekick_name ∨ root = sidekick_list_name → rtc refers root k →
  ∃ d, resolve ref (GetOpenAPIDefinitions ref) (ref k) = Some d ∧
    ∀ x, x ∈ refs_of d ↔ ∃ r, x = ref r ∧ refers k r.
Proof.
  intros Hroot Hk.
  assert (Hpub : k ≠ internal_event ∧ ∃ d, (k, d) ∈ document).
  { assert (H0 : root ≠ internal_event ∧ ∃ d, (root, d) ∈ document).
    { destruct Hroot as [->| ->]; (split; [done|]); eexists; apply index_document;
        vm_compute; reflexivity. }
    clear Hroot. induction Hk as [|a b c Hab _ IH]; [done|]. apply IH.
    apply (refers_published a); [done|apply H0]. }
  destruct Hpub as (_ & d & Hd). destruct (resolve_renamed ref k d Hd) as (d' & Hr & Hrefs).
  exists d'. split; [done|]. intros x. rewrite Hrefs, list_elem_of_In, in_map_iff.
  setoid_rewrite <- list_elem_of_In. split.
  - intros (r & <- & Hin). exists r. split; [done|]. by exists d.
  - intros (r & -> & d2 & Hd2 & Hin). exists r. split; [done|].
    apply index_document in Hd, Hd2. rewrite Hd in Hd2. by injection Hd2 as <-.
Qed.

(** ** Writing schemas out in full *)

#[local] Opaque index document.

Definition traverse {A B} (f : A → option B) (o : option A) : option (option B) :=
  match o with Some a => Some <$> f a | None => Some None end.

(** The schema with every reference replaced by what it stands for.  A reference,
    and every level of nesting, takes one unit of fuel. *)
Fixpoint inline (fuel : nat) (s : schema) : option schema :=
  match fuel with
  | O => None
  | S n =>
      match s_ref s with
      | Some r => d ← index !! r; inline n (def_schema d)
      | None =>
          items ← traverse (inline n) (s_items s);
          additional ← traverse (inline n) (s_additional s);
          props ← mapM (inline n) (map snd (s_properties s));
          one_of ← mapM (inline n) (s_one_of s);
          v2 ← traverse (inline n) (s_v2 s);
          Some {| s_type := s_type s; s_format := s_format s; s_ref := None;
                  s_default := s_default s; s_enum := s_enum s; s_items := items;
                  s_additional := additional;
                  s_properties := zip (map fst (s_properties s)) props;
                  s_required := s_required s; s_extensions := s_extensions s;
                  s_one_of := one_of; s_v2 := v2 |}
      end
  end.

(** The result has no references left. *)
Definition inlined (n : nat) (s : schema) : Prop :=
  ∃ s', inline n s = Some s' ∧ ∀ r, r ∉ schema_refs s'.
Definition inlines (s : schema) : Prop := ∃ n, inlined n s.

Lemma traverse_mono {A B} (f g : A → option B) o b :
  (∀ a b, f a = Some b → g a = Some b) → traverse f o = Some b → traverse g o = Some b.
Proof.
  intros Hfg. destruct o as [a|]; [|done]. simpl. destruct (f a) eqn:E; [|done].
  by rewrite (Hfg _ _ E).
Qed.

Lemma mapM_mono {A B} (f g : A → option B) l k :
  (∀ a b, f a = Some b → g a = Some b) → mapM f l = Some k → mapM g l = Some k.
Proof. intros Hfg. rewrite !mapM_Some. intros H. eapply Forall2_impl; [exact H|done]. Qed.

Lemma inline_mono n m s s' : (n ≤ m)%nat → inline n s = Some s' → inline m s = Some s'.
Proof.
  revert m s s'. induction n as [|n IH]; [done|]. intros [|m] s s' Hm; [lia|].
  assert (IH' : ∀ s s', inline n s = Some s' → inline m s = Some s') by (intros; apply IH; [lia|done]).
  cbn [inline]. destruct (s_ref s) as [r|].
  - destruct (index !! r) as [d|]; [|done]. apply IH'.
  - destruct (traverse (inline n) (s_items s)) eqn:E1; [|done].
    destruct (traverse (inline n) (s_additional s)) eqn:E2; [|done].
    destruct (mapM (inline n) (map snd (s_properties s))) eqn:E3; [|done].
    destruct (mapM (inline n) (s_one_of s)) eqn:E4; [|done].
    destruct (traverse (inline n) (s_v2 s)) eqn:E5; [|done].
    erewrite (traverse_mono _ _ _ _ IH' E1), (traverse_mono _ _ _ _ IH' E2), (mapM_mono _ _ _ _ IH' E3),
      (mapM_mono _ _ _ _ IH' E4), (traverse_mono _ _ _ _ IH' E5). done.
Qed.

(** One fuel for several schemas. *)
Lemma inlines_all (l : list schema) :
  (∀ s, s ∈ l → inlines s) → ∃ n, ∀ m, (n ≤ m)%nat → ∀ s, s ∈ l → inlined m s.
Proof.
  induction l as [|s l IH]; intros Hl; [exists 0%nat; by intros ? _ ? ?%elem_of_nil|].
  destruct IH as [n Hn]; [by intros x Hx; apply Hl; right|].
  destruct (Hl s) as (n0 & s' & Es & Hr); [left|]. exists (Nat.max n n0). intros m Hm x [->|Hx]%elem_of_cons.
  - exists s'. split; [|done]. eapply inline_mono; [|done]. lia.
  - apply Hn; [lia|done].
Qed.

Definition ref_free (s : schema) : Prop := ∀ r, r ∉ schema_refs s.

Lemma traverse_inlined n o :
  (∀ s, s ∈ option_list o → inlined n s) →
  ∃ o', traverse (inline n) o = Some o' ∧ ∀ s, s ∈ option_list o' → ref_free s.
Proof.
  intros Ho. destruct o as [s|]; [|exists None; split; [done|by intros ? ?%elem_of_nil]].
  destruct (Ho s) as (s' & E & Hs'); [by left|]. exists (Some s'). simpl. rewrite E. split; [done|].
  by intros x ->%list_elem_of_singleton.
Qed.

Lemma mapM_inlined n l :
  (∀ s, s ∈ l → inlined n s) →
  ∃ l', mapM (inline n) l = Some l' ∧ length l' = length l ∧ ∀ s, s ∈ l' → ref_free s.
Proof.
  induction l as [|s l IH]; intros Hl; [exists []; split_and!; [done|done|by intros ? ?%elem_of_nil]|].
  destruct (Hl s) as (s' & E & Hs'); [by left|].
  destruct IH as (l' & El & Hlen & Hl'); [by intros x Hx; apply Hl; right|].
  exists (s' :: l'). simpl. rewrite E, El. split; [done|]. split; [by rewrite Hlen|].
  intros x [->|Hx]%elem_of_cons; [done|by apply Hl'].
Qed.

(** A schema whose references can be written out can be written out itself. *)
Lemma inlines_tree s :
  (∀ r, r ∈ schema_refs s → ∃ d, index !! r = Some d ∧ inlines (def_schema d)) → inlines s.
Proof.
  induction s as [s IH] using schema_tree_ind. intros Hrefs. destruct (s_ref s) as [r|] eqn:Er.
  - destruct (Hrefs r) as (d & Hd & n & s' & E & Hs'); [apply schema_refs_children; by left|].
    exists (S n), s'. cbn [inline]. rewrite Er, Hd. exact (conj E Hs').
  - destruct (inlines_all (children s)) as [n Hn].
    { intros c Hc. apply IH; [done|]. intros r Hr. apply Hrefs, schema_refs_children. eauto. }
    specialize (Hn n (le_n n)). unfold children in Hn. repeat setoid_rewrite elem_of_app in Hn.
    destruct (traverse_inlined n (s_items s)) as (it & E1 & H1); [eauto|].
    destruct (traverse_inlined n (s_additional s)) as (ad & E2 & H2); [eauto 6|].
    destruct (mapM_inlined n (map snd (s_properties s))) as (ps & E3 & L3 & H3); [eauto 7|].
    destruct (mapM_inlined n (s_one_of s)) as (oo & E4 & _ & H4); [eauto 8|].
    destruct (traverse_inlined n (s_v2 s)) as (v2 & E5 & H5); [eauto 9|].
    eexists (S n), _. cbn [inline]. rewrite Er, E1, E2, E3, E4, E5. split; [reflexivity|].
    intros r [Hr|(c & Hc & Hr)]%schema_refs_children; [done|]. unfold children in Hc. cbn in Hc.
    rewrite snd_zip in Hc by (rewrite L3, !length_map; done).
    repeat setoid_rewrite elem_of_app in Hc. naive_solver.
Qed.

(** C28. The references of the published document do not go in circles, so a reader
    can write every schema out in full: for each definition but
    [InternalEvent], replacing references by what they stand for ends, and ends
    in a schema without references. *)
Theorem published_schemas_inline k d :
  (k, d) ∈ document → k ≠ internal_event →
  ∃ fuel s, inline fuel (def_schema d) = Some s ∧ schema_refs s = [].
Proof.
  revert d. induction (refers_wf k) as [k _ IH]. intros d Hd Hk.
  assert (Hin : inlines (def_schema d)).
  { apply inlines_tree. intros r Hr. assert (Hkr : refers k r) by by exists d.
    destruct (refers_published k r Hkr Hk) as (Hne & d' & Hd'). exists d'.
    split; [by apply index_document|]. destruct (IH r Hkr d' Hd' Hne) as (n & s & E & Hs).
    exists n, s. split; [done|]. rewrite Hs. intros x. apply not_elem_of_nil. }
  destruct Hin as (n & s & E & Hs). exists n, s. split; [done|].
  apply elem_of_nil_inv. exact Hs.
Qed.

(** ** Well-formed schemas *)

Definition strings_of (j : option json) : list string :=
  match j with
  | Some (JStr s) => [s]
  | Some (JArr l) => omap (λ j, match j with JStr s => Some s | _ => None end) l
  | _ => []
  end.

(** The keys by which the items of a list are told apart when it is merged. *)
Definition merge_keys (s : schema) : list string :=
  strings_of (assoc "x-kubernetes-list-map-keys" (s_extensions s)) ++
  strings_of (assoc "x-kubernetes-patch-merge-key" (s_extensions s)).

(** The properties of the items, which are given by reference. *)
Definition item_properties (s : schema) : list string :=
  from_option properties [] (it ← s_items s; r ← s_ref it; index !! r).

Record well_formed (s : schema) : Prop := {
  wf_properties : NoDup (map fst (s_properties s));
  wf_required : ∀ k, k ∈ s_required s → k ∈ map fst (s_properties s);
  wf_items : s_type s = "array" ↔ is_Some (s_items s);
  wf_default : ∀ v, s_ref s = None → s_default s = Some v →
    type_ok (s_type s) (s_format s) v = true ∧
    (s_enum s ≠ [] → v = JStr "" ∨ enum_ok (s_enum s) v = true);
  wf_merge : ∀ k, k ∈ merge_keys s → k ∈ item_properties s;
  wf_list_map : assoc "x-kubernetes-list-type" (s_extensions s) = Some (JStr "map") →
    strings_of (assoc "x-kubernetes-list-map-keys" (s_extensions s)) ≠ []
}.

Definition subset (l l' : list string) : bool := forallb (λ k, existsb (String.eqb k) l') l.

Fixpoint distinct (l : list string) : bool :=
  match l with [] => true | k :: l => negb (existsb (String.eqb k) l) && distinct l end.

Definition nonempty {A} (l : list A) : bool := match l with [] => false | _ => true end.
Definition json_is (v : json) (x : string) : bool :=
  match v with JStr y => String.eqb x y | _ => false end.

Definition default_okb (s : schema) : bool :=
  match s_ref s, s_default s with
  | None, Some v => type_ok (s_type s) (s_format s) v &&
      (negb (nonempty (s_enum s)) || json_is v "" || enum_ok (s_enum s) v)
  | _, _ => true
  end.

Definition well_formedb (s : schema) : bool :=
  distinct (map fst (s_properties s)) && subset (s_required s) (map fst (s_properties s)) &&
  Bool.eqb (String.eqb (s_type s) "array") (bool_decide (is_Some (s_items s))) &&
  default_okb s && subset (merge_keys s) (item_properties s) &&
  (negb (from_option (λ v, json_is v "map") false (assoc "x-kubernetes-list-type" (s_extensions s))) ||
   nonempty (strings_of (assoc "x-kubernetes-list-map-keys" (s_extensions s)))).

Lemma subset_spec l l' : subset l l' = true ↔ ∀ k, k ∈ l → k ∈ l'.
Proof.
  unfold subset. rewrite forallb_forall. setoid_rewrite <- list_elem_of_In.
  by setoid_rewrite existsb_names.
Qed.

Lemma distinct_spec l : distinct l = true → NoDup l.
Proof.
  induction l as [|k l IH]; [constructor|]. simpl. intros [Hk Hl]%andb_true_iff.
  constructor; [|by apply IH]. rewrite <- existsb_names. by apply negb_true_iff in Hk as ->.
Qed.

Lemma well_formedb_sound s : well_formedb s = true → well_formed s.
Proof.
  unfold well_formedb. rewrite !andb_true_iff. intros (((((H1 & H2) & H3) & H4) & H5) & H6). split.
  - by apply distinct_spec.
  - by apply subset_spec.
  - apply Bool.eqb_prop in H3. rewrite <- String.eqb_eq, H3. apply bool_decide_eq_true.
  - intros v Hr Hd. unfold default_okb in H4. rewrite Hr, Hd in H4.
    apply andb_true_iff in H4 as [Ht He]. split; [done|]. intros Hne.
    destruct (s_enum s) as [|e es]; [done|]. simpl in He.
    apply orb_true_iff in He as [He|He]; [left|by right].
    destruct v; try done. by apply String.eqb_eq in He as <-.
  - by apply subset_spec.
  - intros Hm. rewrite Hm in H6. simpl in H6. by destruct (strings_of _).
Qed.

Lemma document_well_formed :
  forallb (λ kd, forallb well_formedb (sub_schemas (def_schema kd.2))) document = true.
Proof. vm_compute. reflexivity. Qed.

Lemma document_dependencies :
  forallb (λ kd, same_names (refs_of kd.2) (def_dependencies kd.2)) document = true.
Proof. vm_compute. reflexivity. Qed.

(** C29. Every schema in the published document makes sense: property names are
    distinct, required keys are declared, lists and only lists say what their
    items are, defaults have the declared type and, unless empty, one of the
    enumerated values, and the keys by which a list is merged are properties of
    its items; and every definition depends on exactly the definitions it refers
    to. *)
Theorem published_definitions_well_formed k d :
  (k, d) ∈ document →
  (∀ s, s ∈ sub_schemas (def_schema d) → well_formed s) ∧
  ∀ r, r ∈ refs_of d ↔ r ∈ def_dependencies d.
Proof.
  intros Hd. split.
  - intros s Hs. apply well_formedb_sound. pose proof document_well_formed as H.
    rewrite forallb_forall in H. specialize (H (k, d) (proj1 (list_elem_of_In _ _) Hd)).
    cbn [fst snd] in H. rewrite forallb_forall in H. by apply H, list_elem_of_In.
  - apply same_names_spec. pose proof document_dependencies as H.
    rewrite forallb_forall in H. exact (H (k, d) (proj1 (list_elem_of_In _ _) Hd)).
Qed.

(** The exception: [InternalEvent] refers to [runtime.Object], an interface, for
    which nothing is published. *)
Lemma internal_event_dangling :
  refers internal_event "k8s.io/apimachinery/pkg/runtime.Object" ∧
  index !! "k8s.io/apimachinery/pkg/runtime.Object" = None.
Proof.
  split; [|vm_compute; reflexivity]. eexists. split.
  - apply index_document. vm_compute. reflexivity.
  - vm_compute. apply list_elem_of_singleton. reflexivity.
Qed.
