(* ===== verification/PublishedWitness.v ===== *)
(** * Concrete paths through the published document *)

From S2P Require Import Prelude Types Json Schema OpenAPI SchemaProps Published.

Definition ex_spec_name : string := "kubeops.dev/sidekick/apis/apps/v1alpha1.SidekickSpec".
Definition ex_affinity : string := "k8s.io/api/core/v1.Affinity".

(** References as an OpenAPI v2 document writes them. *)
Definition ex_v2_ref (s : string) : string := "#/definitions/" +:+ s.

Lemma ex_in_document k : published k = true → ∃ d, index !! k = Some d ∧ (k, d) ∈ document.
Proof.
  intros [d Hd]%bool_decide_eq_true_1. exists d. split; [done|]. by apply index_document.
Qed.

Lemma ex_refers k r :
  from_option (λ d, existsb (String.eqb r) (refs_of d)) false (index !! k) = true → refers k r.
Proof.
  destruct (index !! k) as [d|] eqn:E; [|done]. intros Hr. exists d.
  split; [by apply index_document|by apply existsb_names].
Qed.

Lemma published_references_resolve_witness :
  ∃ d, resolve ex_v2_ref (GetOpenAPIDefinitions ex_v2_ref) (ex_v2_ref ex_affinity) = Some d ∧
    ∀ x, x ∈ refs_of d ↔ ∃ r, x = ex_v2_ref r ∧ refers ex_affinity r.
Proof.
  apply (published_references_resolve ex_v2_ref _ sidekick_name ex_affinity (or_introl eq_refl)).
  apply (rtc_l _ _ ex_spec_name); [apply ex_refers; vm_compute; reflexivity|].
  apply rtc_once, ex_refers. vm_compute. reflexivity.
Defined.

Lemma published_schemas_inline_witness :
  ∃ d fuel s, index !! sidekick_name = Some d ∧ inline fuel (def_schema d) = Some s ∧ schema_refs s = [].
Proof.
  destruct (ex_in_document sidekick_name) as (d & Hd & Hin); [vm_compute; reflexivity|].
  destruct (published_schemas_inline sidekick_name d Hin) as (n & s & E & Hs);
    [by intros [=]|]. exists d, n, s. exact (conj Hd (conj E Hs)).
Defined.

Lemma published_definitions_well_formed_witness :
  ∃ d, index !! ex_spec_name = Some d ∧ (∀ s, s ∈ sub_schemas (def_schema d) → well_formed s).
Proof.
  destruct (ex_in_document ex_spec_name) as (d & Hd & Hin); [vm_compute; reflexivity|].
  destruct (published_definitions_well_formed ex_spec_name d Hin) as [Hw _]. exists d. exact (conj Hd Hw).
Defined.
