(* ===== verification/JsonWitness.v ===== *)
(** * A Sidekick as JSON

    A concrete resource with a container, a mount, empty and non-empty maps, its
    encoding and its round trip. *)

From S2P Require Import Prelude Types Leader Fixtures Json Server SidekickJson Schema OpenAPI SchemaProps.

(** Timestamps as seconds. *)
Abbreviation seconds_v := (int_v 64).

Definition ex_mount : VolumeMount :=
  {| vm_Name := "data"; vm_ReadOnly := true; vm_MountPath := "/data"; vm_SubPath := "";
     vm_MountPropagation := Some "None"; vm_SubPathExpr := "" |}.

Definition ex_json_container (pull : string) : Container :=
  {| c_Name := "backup"; c_Image := "img"; c_Command := ["run"]; c_Args := []; c_WorkingDir := "";
     c_Ports := []; c_EnvFrom := [];
     c_Env := [{| env_Name := "A"; env_Value := "b"; env_ValueFrom := None |}];
     c_Resources := JObj []; c_VolumeMounts := [ex_mount];
     c_VolumeDevices := []; c_LivenessProbe := Some (JObj []); c_ReadinessProbe := None;
     c_StartupProbe := None; c_Lifecycle := None; c_TerminationMessagePath := "";
     c_TerminationMessagePolicy := ""; c_ImagePullPolicy := pull; c_SecurityContext := None;
     c_Stdin := false; c_StdinOnce := false; c_TTY := true |}.

(** The annotations and the failures are empty maps, the restart counts are not. *)
Definition ex_json_sidekick (pull : string) : Sidekick :=
  {| sk_Meta := ex_meta "demo" "side" "uid-side" ["f"] (Some 17) (Some ∅);
     sk_Spec := ex_Spec ex_leader_sel "Always" (Some 3) [ex_json_container pull] false;
     sk_Status := {| st_Leader := {| lst_Name := "db-0" |}; st_Pod := "Running";
                     st_Phase := "Current"; st_ObservedGeneration := 1; st_Conditions := [];
                     st_ContainerRestartCountsPerPod := Some {[ "u" := 2 ]};
                     st_FailureCount := Some ∅ |} |}.

Ltac good_value :=
  repeat match goal with
  | |- _ ∧ _ => split
  | |- ∀ _, _ => intros
  | H : _ = Some _ |- _ => cbn in H; simplify_eq
  | |- Forall _ [] => constructor
  | |- Forall _ (_ :: _) => constructor
  | |- in_int _ _ => split; vm_compute; congruence
  | |- True => exact I
  | |- map_Forall (λ _ _, True) _ => by intros ???
  | |- map_Forall _ ∅ => apply map_Forall_empty
  | |- map_Forall _ {[ _ := _ ]} => apply map_Forall_singleton
  | |- _ ≠ JNull => discriminate
  | |- _ => progress cbn
  end.

Lemma ex_json_good pull : vgood (Sidekick_v seconds_v) (ex_json_sidekick pull).
Proof. good_value. Qed.

(** The stored resource has the node selector and the counters it had, and nil for
    the empty maps. *)
Lemma sidekick_json_roundtrip_witness :
  of_json (Sidekick_v seconds_v) (to_json (Sidekick_v seconds_v) (ex_json_sidekick "Always")) =
  Ok (normalize seconds_v (ex_json_sidekick "Always")) ∧
  Annotations (sk_Meta (normalize seconds_v (ex_json_sidekick "Always"))) = None ∧
  st_FailureCount (sk_Status (normalize seconds_v (ex_json_sidekick "Always"))) = None ∧
  DeletionTimestamp (sk_Meta (normalize seconds_v (ex_json_sidekick "Always"))) = Some 17.
Proof. split; [apply (sidekick_json_roundtrip seconds_v), ex_json_good|by vm_compute]. Defined.

