(* ===== verification/DeepCopy.v ===== *)
(** * Deep copies ([apis/apps/v1alpha1/zz_generated.deepcopy.go])

    Elsewhere in the development a resource is a value; in Go it is a struct with
    pointers, slices and maps, which an assignment shares.  This file has the heap
    those point into and the [DeepCopyInto], [DeepCopy] and [DeepCopyObject]
    methods of the Sidekick types, block by block.  The copy of a library type is
    an interface: its methods are deep copies themselves. *)

From S2P Require Import Prelude Types Json.

#[local] Set Warnings "-register-all".

(** ** Go values *)

Abbreviation loc := positive.

(** A value: plain data (strings, numbers, and structs of these), nil, a pointer,
    slice or map, or a struct. *)
Inductive gv :=
| VPlain (j : json)
| VNil
| VRef (l : loc)
| VStruct (fs : list (string * gv)).

(** What a pointer, a slice and a map point to. *)
Inductive cell :=
| CVal (v : gv)
| CArray (l : list gv)
| CMap (l : list (string * gv)).

Abbreviation heap := (gmap loc cell).

(** The types of the fields: [TyPlain] holds no references, [TyLib] is a type of
    a library. *)
Inductive ty :=
| TyPlain
| TyPtr (t : ty)
| TySlice (t : ty)
| TyMap (t : ty)
| TyStruct (fs : list (string * ty))
| TyLib (name : string).

(** What a value reads as, references followed. *)
Inductive tree :=
| TData (j : json)
| TNil
| TRef (t : tree)
| TSeq (l : list tree)
| TEntries (l : list (string * tree)).

(** ** Statements *)

(** Code that allocates; [None] is a panic. *)
Definition go (A : Type) : Type := heap → option (heap * A).
#[export] Instance go_ret : MRet go := λ A a h, Some (h, a).
#[export] Instance go_bind : MBind go := λ A B f m h,
  match m h with Some (h', a) => f a h' | None => None end.

Definition panic {A} : go A := λ _, None.
Definition load_cell (l : loc) : go cell := λ h, match h !! l with Some c => Some (h, c) | None => None end.
Definition alloc (c : cell) : go loc := λ h, let l := fresh (dom h) in Some (<[l := c]> h, l).
Definition store_cell (l : loc) (c : cell) : go unit := λ h, Some (<[l := c]> h, tt).

(** A method or statement that copies a value: the value in, the value out. *)
Abbreviation copier := (gv → go gv).

Fixpoint each (f : copier) (l : list gv) : go (list gv) :=
  match l with
  | [] => mret []
  | v :: l => v' ← f v; l' ← each f l; mret (v' :: l')
  end.

(** [*out = *in]. *)
Definition assign : copier := λ v, mret v.

(** [if in != nil { *out = new(T); ... }] with the contents copied by [f]. *)
Definition new (f : copier) : copier := λ v,
  match v with
  | VNil => mret VNil
  | VRef l =>
      c ← load_cell l;
      match c with
      | CVal x => l' ← alloc (CVal VNil); x' ← f x; _ ← store_cell l' (CVal x'); mret (VRef l')
      | _ => panic
      end
  | _ => panic
  end.

(** [if in != nil { *out = make([]T, len( *in)); ... }] with the elements copied by [f]. *)
Definition make_slice (f : copier) : copier := λ v,
  match v with
  | VNil => mret VNil
  | VRef l =>
      c ← load_cell l;
      match c with
      | CArray xs =>
          l' ← alloc (CArray (replicate (length xs) VNil));
          xs' ← each f xs; _ ← store_cell l' (CArray xs'); mret (VRef l')
      | _ => panic
      end
  | _ => panic
  end.

(** [if in != nil { *out = make(map[string]T, len( *in)); for key, val := range *in ... }]
    with the values copied by [f]. *)
Definition make_map (f : copier) : copier := λ v,
  match v with
  | VNil => mret VNil
  | VRef l =>
      c ← load_cell l;
      match c with
      | CMap es =>
          l' ← alloc (CMap []);
          xs' ← each f (map snd es); _ ← store_cell l' (CMap (zip (map fst es) xs')); mret (VRef l')
      | _ => panic
      end
  | _ => panic
  end.

Fixpoint lookup_field (k : string) (l : list (string * gv)) : option gv :=
  match l with
  | [] => None
  | (k', v) :: l => if String.eqb k k' then Some v else lookup_field k l
  end.

Fixpoint set_field (k : string) (v : gv) (l : list (string * gv)) : list (string * gv) :=
  match l with
  | [] => []
  | (k', v') :: l => if String.eqb k k' then (k, v) :: l else (k', v') :: set_field k v l
  end.

(** The statements of a [DeepCopyInto] after [*out = *in], each for one field. *)
Fixpoint run_steps (steps : list (string * copier)) (inp out : list (string * gv))
    : go (list (string * gv)) :=
  match steps with
  | [] => mret out
  | (k, f) :: steps =>
      match lookup_field k inp with
      | Some v => v' ← f v; run_steps steps inp (set_field k v' out)
      | None => panic
      end
  end.

Definition struct_into (steps : list (string * copier)) : copier := λ v,
  match v with
  | VStruct fs => out ← run_steps steps fs fs; mret (VStruct out)
  | _ => panic
  end.

(** ** Reading values *)

(** How the values of library types read, and their copying methods. *)
Class LibraryTypes := {
  lib_repr : string → heap → gv → tree → gset loc → Prop;
  lib_DeepCopyInto : string → copier;
  lib_repr_dom : ∀ n h v tr L, lib_repr n h v tr L → L ⊆ dom h;
  lib_repr_frame : ∀ n h h' v tr L,
    lib_repr n h v tr L → (∀ l, l ∈ L → h' !! l = h !! l) → lib_repr n h' v tr L;
  lib_deep : ∀ n h v tr L, lib_repr n h v tr L →
    ∃ h' v' L', lib_DeepCopyInto n v h = Some (h', v') ∧ h ⊆ h' ∧
      lib_repr n h' v' tr L' ∧ L' ## dom h
}.

Definition is_ref (t : ty) : bool :=
  match t with TyPtr _ | TySlice _ | TyMap _ => true | _ => false end.

(** [repr h t v tr L]: the value [v] of type [t] reads as [tr], through the
    locations [L]. *)
Inductive repr `{!LibraryTypes} (h : heap) : ty → gv → tree → gset loc → Prop :=
| repr_plain j : repr h TyPlain (VPlain j) (TData j) ∅
| repr_nil t : is_ref t = true → repr h t VNil TNil ∅
| repr_ptr t l v tr L :
    h !! l = Some (CVal v) → repr h t v tr L → repr h (TyPtr t) (VRef l) (TRef tr) ({[l]} ∪ L)
| repr_slice t l vs trs L :
    h !! l = Some (CArray vs) → repr_all h (replicate (length vs) t) vs trs L →
    repr h (TySlice t) (VRef l) (TSeq trs) ({[l]} ∪ L)
| repr_map t l ks vs trs L :
    h !! l = Some (CMap (zip ks vs)) → length ks = length vs →
    repr_all h (replicate (length vs) t) vs trs L →
    repr h (TyMap t) (VRef l) (TEntries (zip ks trs)) ({[l]} ∪ L)
| repr_struct fs vs trs L :
    map fst vs = map fst fs → repr_all h (map snd fs) (map snd vs) trs L →
    repr h (TyStruct fs) (VStruct vs) (TSeq trs) L
| repr_lib n v tr L : lib_repr n h v tr L → repr h (TyLib n) v tr L
with repr_all `{!LibraryTypes} (h : heap) : list ty → list gv → list tree → gset loc → Prop :=
| repr_all_nil : repr_all h [] [] [] ∅
| repr_all_cons t ts v vs tr trs L L' :
    repr h t v tr L → repr_all h ts vs trs L' →
    repr_all h (t :: ts) (v :: vs) (tr :: trs) (L ∪ L').

Scheme repr_mind := Induction for repr Sort Prop
with repr_all_mind := Induction for repr_all Sort Prop.
Combined Scheme repr_both from repr_mind, repr_all_mind.

(** ** The types of the resource *)

(** [VolumeMount]. *)
Definition VolumeMount_ty : ty :=
  TyStruct [("Name", TyPlain);
    ("ReadOnly", TyPlain);
    ("MountPath", TyPlain);
    ("SubPath", TyPlain);
    ("MountPropagation", TyPtr TyPlain);
    ("SubPathExpr", TyPlain)].

(** [Container]. *)
Definition Container_ty : ty :=
  TyStruct [("Name", TyPlain);
    ("Image", TyPlain);
    ("Command", TySlice TyPlain);
    ("Args", TySlice TyPlain);
    ("WorkingDir", TyPlain);
    ("Ports", TySlice TyPlain);
    ("EnvFrom", TySlice (TyLib "core.EnvFromSource"));
    ("Env", TySlice (TyLib "core.EnvVar"));
    ("Resources", TyLib "core.ResourceRequirements");
    ("VolumeMounts", TySlice VolumeMount_ty);
    ("VolumeDevices", TySlice TyPlain);
    ("LivenessProbe", TyPtr (TyLib "core.Probe"));
    ("ReadinessProbe", TyPtr (TyLib "core.Probe"));
    ("StartupProbe", TyPtr (TyLib "core.Probe"));
    ("Lifecycle", TyPtr (TyLib "core.Lifecycle"));
    ("TerminationMessagePath", TyPlain);
    ("TerminationMessagePolicy", TyPlain);
    ("ImagePullPolicy", TyPlain);
    ("SecurityContext", TyPtr (TyLib "core.SecurityContext"));
    ("Stdin", TyPlain);
    ("StdinOnce", TyPlain);
    ("TTY", TyPlain)].

(** [LeaderSpec]. *)
Definition LeaderSpec_ty : ty :=
  TyStruct [("Name", TyPlain);
    ("Selector", TyPtr (TyLib "metav1.LabelSelector"));
    ("SelectionPolicy", TyPlain)].

(** [SidekickSpec]. *)
Definition SidekickSpec_ty : ty :=
  TyStruct [("Leader", LeaderSpec_ty);
    ("InitContainers", TySlice Container_ty);
    ("Containers", TySlice Container_ty);
    ("EphemeralContainers", TySlice (TyLib "core.EphemeralContainer"));
    ("RestartPolicy", TyPlain);
    ("BackoffLimit", TyPtr TyPlain);
    ("TerminationGracePeriodSeconds", TyPtr TyPlain);
    ("ActiveDeadlineSeconds", TyPtr TyPlain);
    ("DNSPolicy", TyPlain);
    ("NodeSelector", TyMap TyPlain);
    ("ServiceAccountName", TyPlain);
    ("DeprecatedServiceAccount", TyPlain);
    ("AutomountServiceAccountToken", TyPtr TyPlain);
    ("NodeName", TyPlain);
    ("HostNetwork", TyPlain);
    ("HostPID", TyPlain);
    ("HostIPC", TyPlain);
    ("ShareProcessNamespace", TyPtr TyPlain);
    ("SecurityContext", TyPtr (TyLib "core.PodSecurityContext"));
    ("ImagePullSecrets", TySlice TyPlain);
    ("Hostname", TyPlain);
    ("Subdomain", TyPlain);
    ("Affinity", TyPtr (TyLib "core.Affinity"));
    ("SchedulerName", TyPlain);
    ("Tolerations", TySlice (TyLib "core.Toleration"));
    ("HostAliases", TySlice (TyLib "core.HostAlias"));
    ("PriorityClassName", TyPlain);
    ("Priority", TyPtr TyPlain);
    ("DNSConfig", TyPtr (TyLib "core.PodDNSConfig"));
    ("ReadinessGates", TySlice TyPlain);
    ("RuntimeClassName", TyPtr TyPlain);
    ("EnableServiceLinks", TyPtr TyPlain);
    ("PreemptionPolicy", TyPtr TyPlain);
    ("Overhead", TyMap (TyLib "resource.Quantity"));
    ("TopologySpreadConstraints", TySlice (TyLib "core.TopologySpreadConstraint"));
    ("SetHostnameAsFQDN", TyPtr TyPlain);
    ("OS", TyPtr TyPlain);
    ("HostUsers", TyPtr TyPlain);
    ("Volumes", TySlice (TyLib "core.Volume"));
    ("Distributed", TyPlain);
    ("ExtraArgs", TyMap (TyLib "runtime.RawExtension"))].

(** [LeaderStatus]. *)
Definition LeaderStatus_ty : ty :=
  TyStruct [("Name", TyPlain)].

(** [SidekickStatus]. *)
Definition SidekickStatus_ty : ty :=
  TyStruct [("Leader", LeaderStatus_ty);
    ("Pod", TyPlain);
    ("Phase", TyPlain);
    ("ObservedGeneration", TyPlain);
    ("Conditions", TySlice (TyLib "kmapi.Condition"));
    ("ContainerRestartCountsPerPod", TyMap TyPlain);
    ("FailureCount", TyMap TyPlain)].

(** [Sidekick]. *)
Definition Sidekick_ty : ty :=
  TyStruct [("TypeMeta", TyPlain);
    ("ObjectMeta", TyLib "metav1.ObjectMeta");
    ("Spec", SidekickSpec_ty);
    ("Status", SidekickStatus_ty)].

(** [SidekickList]. *)
Definition SidekickList_ty : ty :=
  TyStruct [("TypeMeta", TyPlain);
    ("ListMeta", TyLib "metav1.ListMeta");
    ("Items", TySlice Sidekick_ty)].

(** ** The methods *)

Section Methods.

Context `{LT : !LibraryTypes}.

(** [VolumeMount.DeepCopyInto]. *)
Definition VolumeMount_DeepCopyInto : copier :=
  struct_into [("MountPropagation", new assign)].

Definition VolumeMount_DeepCopy : copier := new VolumeMount_DeepCopyInto.

(** [Container.DeepCopyInto]. *)
Definition Container_DeepCopyInto : copier :=
  struct_into [("Command", make_slice assign);
    ("Args", make_slice assign);
    ("Ports", make_slice assign);
    ("EnvFrom", make_slice (lib_DeepCopyInto "core.EnvFromSource"));
    ("Env", make_slice (lib_DeepCopyInto "core.EnvVar"));
    ("Resources", (lib_DeepCopyInto "core.ResourceRequirements"));
    ("VolumeMounts", make_slice VolumeMount_DeepCopyInto);
    ("VolumeDevices", make_slice assign);
    ("LivenessProbe", new (lib_DeepCopyInto "core.Probe"));
    ("ReadinessProbe", new (lib_DeepCopyInto "core.Probe"));
    ("StartupProbe", new (lib_DeepCopyInto "core.Probe"));
    ("Lifecycle", new (lib_DeepCopyInto "core.Lifecycle"));
    ("SecurityContext", new (lib_DeepCopyInto "core.SecurityContext"))].

Definition Container_DeepCopy : copier := new Container_DeepCopyInto.

(** [LeaderSpec.DeepCopyInto]. *)
Definition LeaderSpec_DeepCopyInto : copier :=
  struct_into [("Selector", new (lib_DeepCopyInto "metav1.LabelSelector"))].

Definition LeaderSpec_DeepCopy : copier := new LeaderSpec_DeepCopyInto.

(** [SidekickSpec.DeepCopyInto] up to [Affinity]. *)
Definition SidekickSpec_steps_1 : list (string * copier) :=
  [("Leader", LeaderSpec_DeepCopyInto);
   ("InitContainers", make_slice Container_DeepCopyInto);
   ("Containers", make_slice Container_DeepCopyInto);
   ("EphemeralContainers", make_slice (lib_DeepCopyInto "core.EphemeralContainer"));
   ("BackoffLimit", new assign);
   ("TerminationGracePeriodSeconds", new assign);
   ("ActiveDeadlineSeconds", new assign);
   ("NodeSelector", make_map assign);
   ("AutomountServiceAccountToken", new assign);
   ("ShareProcessNamespace", new assign);
   ("SecurityContext", new (lib_DeepCopyInto "core.PodSecurityContext"));
   ("ImagePullSecrets", make_slice assign);
   ("Affinity", new (lib_DeepCopyInto "core.Affinity"))].

(** [SidekickSpec.DeepCopyInto] from [Tolerations] on. *)
Definition SidekickSpec_steps_2 : list (string * copier) :=
  [("Tolerations", make_slice (lib_DeepCopyInto "core.Toleration"));
   ("HostAliases", make_slice (lib_DeepCopyInto "core.HostAlias"));
   ("Priority", new assign);
   ("DNSConfig", new (lib_DeepCopyInto "core.PodDNSConfig"));
   ("ReadinessGates", make_slice assign);
   ("RuntimeClassName", new assign);
   ("EnableServiceLinks", new assign);
   ("PreemptionPolicy", new assign);
   ("Overhead", make_map (lib_DeepCopyInto "resource.Quantity"));
   ("TopologySpreadConstraints", make_slice (lib_DeepCopyInto "core.TopologySpreadConstraint"));
   ("SetHostnameAsFQDN", new assign);
   ("OS", new assign);
   ("HostUsers", new assign);
   ("Volumes", make_slice (lib_DeepCopyInto "core.Volume"));
   ("ExtraArgs", make_map (lib_DeepCopyInto "runtime.RawExtension"))].

Definition SidekickSpec_DeepCopyInto : copier := struct_into (SidekickSpec_steps_1 ++ SidekickSpec_steps_2).

Definition SidekickSpec_DeepCopy : copier := new SidekickSpec_DeepCopyInto.

(** [LeaderStatus.DeepCopyInto]. *)
Definition LeaderStatus_DeepCopyInto : copier :=
  struct_into [].

Definition LeaderStatus_DeepCopy : copier := new LeaderStatus_DeepCopyInto.

(** [SidekickStatus.DeepCopyInto]. *)
Definition SidekickStatus_DeepCopyInto : copier :=
  struct_into [("Leader", assign);
    ("Conditions", make_slice (lib_DeepCopyInto "kmapi.Condition"));
    ("ContainerRestartCountsPerPod", make_map assign);
    ("FailureCount", make_map assign)].

Definition SidekickStatus_DeepCopy : copier := new SidekickStatus_DeepCopyInto.

(** [Sidekick.DeepCopyInto]. *)
Definition Sidekick_DeepCopyInto : copier :=
  struct_into [("TypeMeta", assign);
    ("ObjectMeta", (lib_DeepCopyInto "metav1.ObjectMeta"));
    ("Spec", SidekickSpec_DeepCopyInto);
    ("Status", SidekickStatus_DeepCopyInto)].

Definition Sidekick_DeepCopy : copier := new Sidekick_DeepCopyInto.
Definition Sidekick_DeepCopyObject : copier := Sidekick_DeepCopy.

(** [SidekickList.DeepCopyInto]. *)
Definition SidekickList_DeepCopyInto : copier :=
  struct_into [("TypeMeta", assign);
    ("ListMeta", (lib_DeepCopyInto "metav1.ListMeta"));
    ("Items", make_slice Sidekick_DeepCopyInto)].

Definition SidekickList_DeepCopy : copier := new SidekickList_DeepCopyInto.
Definition SidekickList_DeepCopyObject : copier := SidekickList_DeepCopy.

End Methods.
