(* ===== verification/DeepCopyProps.v ===== *)
(** * Deep copies are deep

    Copies read as their originals and share no location with them; a copying
    statement is judged against the type of the field it copies, and a
    [DeepCopyInto] against the declaration of the struct. *)

From S2P Require Import Prelude Types Json DeepCopy.

Section Copies.

Context `{LT : !LibraryTypes}.

(** ** Reading *)

Lemma repr_dom_both h :
  (∀ t v tr L, repr h t v tr L → L ⊆ dom h) ∧
  (∀ ts vs trs L, repr_all h ts vs trs L → L ⊆ dom h).
Proof.
  apply repr_both; intros; try set_solver.
  - apply elem_of_dom_2 in e. set_solver.
  - apply elem_of_dom_2 in e. set_solver.
  - apply elem_of_dom_2 in e. set_solver.
  - by eapply lib_repr_dom.
Qed.

Lemma repr_frame_both h :
  (∀ t v tr L, repr h t v tr L → ∀ h', (∀ l, l ∈ L → h' !! l = h !! l) → repr h' t v tr L) ∧
  (∀ ts vs trs L, repr_all h ts vs trs L → ∀ h', (∀ l, l ∈ L → h' !! l = h !! l) →
    repr_all h' ts vs trs L).
Proof.
  apply repr_both; intros; try by constructor.
  - econstructor; [rewrite H0 by set_solver; done|]. apply H. set_solver.
  - econstructor; [rewrite H0 by set_solver; done|]. apply H. set_solver.
  - econstructor; [rewrite H0 by set_solver; done|done|]. apply H. set_solver.
  - constructor; [done|]. apply H. set_solver.
  - constructor. by eapply lib_repr_frame.
  - constructor; [apply H|apply H0]; set_solver.
Qed.

(** A reading is not affected by what happens outside its locations. *)
Lemma repr_frame h h' t v tr L :
  repr h t v tr L → (∀ l, l ∈ L → h' !! l = h !! l) → repr h' t v tr L.
Proof. intros H. by apply (proj1 (repr_frame_both h)). Qed.
Lemma repr_all_frame h h' ts vs trs L :
  repr_all h ts vs trs L → (∀ l, l ∈ L → h' !! l = h !! l) → repr_all h' ts vs trs L.
Proof. intros H. by apply (proj2 (repr_frame_both h)). Qed.

Lemma heap_agree (h h' : heap) (L : gset loc) : h ⊆ h' → L ⊆ dom h → ∀ l, l ∈ L → h' !! l = h !! l.
Proof.
  intros Hsub HL l Hl. apply HL, elem_of_dom in Hl as [c Hc]. rewrite Hc.
  by eapply lookup_weaken.
Qed.

Lemma repr_mono h h' t v tr L : repr h t v tr L → h ⊆ h' → repr h' t v tr L.
Proof.
  intros H Hs. eapply repr_frame; [done|]. apply heap_agree; [done|].
  by eapply (proj1 (repr_dom_both h)).
Qed.
Lemma repr_all_mono h h' ts vs trs L : repr_all h ts vs trs L → h ⊆ h' → repr_all h' ts vs trs L.
Proof.
  intros H Hs. eapply repr_all_frame; [done|]. apply heap_agree; [done|].
  by eapply (proj2 (repr_dom_both h)).
Qed.

Lemma repr_all_length h ts vs trs L :
  repr_all h ts vs trs L → length ts = length vs ∧ length trs = length vs.
Proof. induction vs as [|v vs IH] in ts, trs, L |- *; inversion 1; subst; simpl; [done|naive_solver]. Qed.

(** ** Copying *)

(** What running code on a value of type [t] that reads as [tr] does. *)
Definition copied (t : ty) (tr : tree) (h : heap) (r : option (heap * gv)) : Prop :=
  ∃ h' v' L', r = Some (h', v') ∧ h ⊆ h' ∧ repr h' t v' tr L' ∧ L' ## dom h.

(** A copier makes deep copies of values of type [t]. *)
Class Copies (t : ty) (f : copier) : Prop :=
  copies : ∀ h v tr L, repr h t v tr L → copied t tr h (f v h).

#[export] Instance copies_lib n : Copies (TyLib n) (lib_DeepCopyInto n).
Proof.
  intros h v tr L H. inversion H; subst; [done|].
  destruct (lib_deep n h v tr L) as (h' & v' & L' & ? & ? & ? & ?); [done|].
  exists h', v', L'. eauto using repr_lib.
Qed.

(** Values without references. *)
Fixpoint plain (t : ty) : bool :=
  match t with
  | TyPlain => true
  | TyStruct fs => forallb (λ kt, plain kt.2) fs
  | _ => false
  end.

Lemma plain_repr h :
  (∀ t v tr L, repr h t v tr L → plain t = true → L = ∅) ∧
  (∀ ts vs trs L, repr_all h ts vs trs L → forallb plain ts = true → L = ∅).
Proof.
  apply repr_both; intros; simpl in *; try done.
  - apply H. clear - H0. induction fs as [|[] fs IH]; simpl in *; [done|].
    apply andb_true_iff in H0 as [? ?]. rewrite H. by apply IH.
  - apply andb_true_iff in H1 as [? ?]. rewrite H, H0 by done. set_solver.
Qed.

Lemma copies_plain t : plain t = true → Copies t assign.
Proof.
  intros Hp h v tr L H. exists h, v, L. repeat split; try done.
  rewrite (proj1 (plain_repr h) _ _ _ _ H Hp). set_solver.
Qed.

(** Copying a sequence of values of one type. *)
Lemma copies_each t f vs h trs L :
  Copies t f → repr_all h (replicate (length vs) t) vs trs L →
  ∃ h' vs' L', each f vs h = Some (h', vs') ∧ h ⊆ h' ∧ length vs' = length vs ∧
    repr_all h' (replicate (length vs) t) vs' trs L' ∧ L' ## dom h.
Proof.
  intros Hf. induction vs as [|v vs IH] in h, trs, L |- *; simpl; intros H.
  - inversion H; subst. exists h, [], ∅. repeat split; [done|constructor|set_solver].
  - inversion H as [|? ? ? ? tr trs' L1 L2 H1 H2]; subst.
    destruct (Hf h v tr L1 H1) as (h1 & v' & L1' & E1 & S1 & R1 & D1).
    destruct (IH h1 trs' L2) as (h2 & vs' & L2' & E2 & S2 & Hlen & R2 & D2); [by eapply repr_all_mono|].
    exists h2, (v' :: vs'), (L1' ∪ L2').
    unfold mbind, go_bind. rewrite E1, E2. repeat split; [by trans h1|simpl; lia| |].
    + constructor; [by eapply repr_mono|done].
    + apply subseteq_dom in S1. set_solver.
Qed.

(** Filling a fresh cell with what was copied after it was allocated. *)
Lemma fresh_cell (h h' : heap) c c' (L' : gset loc) :
  let l := fresh (dom h) in
  <[l := c]> h ⊆ h' → L' ## dom (<[l := c]> h) →
  h ⊆ <[l := c']> h' ∧ {[l]} ∪ L' ## dom h ∧ (∀ k, k ∈ L' → <[l := c']> h' !! k = h' !! k).
Proof.
  intros l Hs HL. pose proof (is_fresh (dom h)) as Hl. fold l in Hl. rewrite dom_insert in HL.
  split; [|split; [set_solver|]].
  - apply map_subseteq_spec. intros k x Hk. assert (k ≠ l) by (intros ->; apply Hl, elem_of_dom; eauto).
    rewrite lookup_insert_ne by done. eapply lookup_weaken; [|done]. by rewrite lookup_insert_ne.
  - intros k Hk. rewrite lookup_insert_ne by set_solver. done.
Qed.

Lemma fresh_subseteq (h : heap) c : h ⊆ <[fresh (dom h) := c]> h.
Proof. apply insert_subseteq. apply not_elem_of_dom. apply is_fresh. Qed.

#[export] Instance copies_new t f : Copies t f → Copies (TyPtr t) (new f).
Proof.
  intros Hf h v tr L H. inversion H as [|t' Ht|t' l x tr' L1 Hl Hx| | | |]; subst.
  - exists h, VNil, ∅. split_and!; [done|done|by constructor|set_solver].
  - destruct (Hf (<[fresh (dom h) := CVal VNil]> h) x tr' L1) as (h2 & x' & L' & E & S & R & D).
    { eapply repr_mono; [done|apply fresh_subseteq]. }
    destruct (fresh_cell h h2 (CVal VNil) (CVal x') L' S D) as (S' & D' & F).
    exists (<[fresh (dom h) := CVal x']> h2), (VRef (fresh (dom h))), ({[fresh (dom h)]} ∪ L').
    split_and!; [|done| |done].
    + unfold new, mbind, go_bind, load_cell, alloc, store_cell, mret, go_ret. by rewrite Hl, E.
    + eapply repr_ptr; [apply lookup_insert_eq|]. by eapply repr_frame.
Qed.

#[export] Instance copies_slice t f : Copies t f → Copies (TySlice t) (make_slice f).
Proof.
  intros Hf h v tr L H. inversion H as [|t' Ht| |t' l xs trs L1 Hl Hx| | |]; subst.
  - exists h, VNil, ∅. split_and!; [done|done|by constructor|set_solver].
  - destruct (copies_each t f xs (<[fresh (dom h) := CArray (replicate (length xs) VNil)]> h) trs L1)
      as (h2 & xs' & L' & E & S & Hlen & R & D); [done| |].
    { eapply repr_all_mono; [done|apply fresh_subseteq]. }
    destruct (fresh_cell h h2 _ (CArray xs') L' S D) as (S' & D' & F).
    exists (<[fresh (dom h) := CArray xs']> h2), (VRef (fresh (dom h))), ({[fresh (dom h)]} ∪ L').
    split_and!; [|done| |done].
    + unfold make_slice, mbind, go_bind, load_cell, alloc, store_cell, mret, go_ret. by rewrite Hl, E.
    + eapply repr_slice; [apply lookup_insert_eq|]. rewrite Hlen. by eapply repr_all_frame.
Qed.

Lemma fst_zip {A B} (l : list A) (k : list B) : length l = length k → map fst (zip l k) = l.
Proof. intros. apply fst_zip. lia. Qed.
Lemma snd_zip {A B} (l : list A) (k : list B) : length l = length k → map snd (zip l k) = k.
Proof. intros. apply snd_zip. lia. Qed.

#[export] Instance copies_map t f : Copies t f → Copies (TyMap t) (make_map f).
Proof.
  intros Hf h v tr L H. inversion H as [|t' Ht| | |t' l ks xs trs L1 Hl Hk Hx| |]; subst.
  - exists h, VNil, ∅. split_and!; [done|done|by constructor|set_solver].
  - destruct (copies_each t f xs (<[fresh (dom h) := CMap []]> h) trs L1)
      as (h2 & xs' & L' & E & S & Hlen & R & D); [done| |].
    { eapply repr_all_mono; [done|apply fresh_subseteq]. }
    destruct (fresh_cell h h2 _ (CMap (zip ks xs')) L' S D) as (S' & D' & F).
    exists (<[fresh (dom h) := CMap (zip ks xs')]> h2), (VRef (fresh (dom h))), ({[fresh (dom h)]} ∪ L').
    split_and!; [|done| |done].
    + unfold make_map, mbind, go_bind, load_cell, alloc, store_cell, mret, go_ret. rewrite Hl.
      by rewrite fst_zip, snd_zip, E.
    + eapply repr_map; [apply lookup_insert_eq|congruence|]. rewrite Hlen. by eapply repr_all_frame.
Qed.

(** ** Structs *)

(** The statements of a method against the fields of the struct, in order: fields
    without a statement hold no references. *)
Inductive covers : list (string * ty) → list (string * copier) → Prop :=
| covers_nil : covers [] []
| covers_skip k t fs steps : plain t = true → covers fs steps → covers ((k, t) :: fs) steps
| covers_step k t f fs steps :
    Copies t f → covers fs steps → covers ((k, t) :: fs) ((k, f) :: steps).

Lemma lookup_field_app k (pre : list (string * gv)) v post :
  k ∉ map fst pre → lookup_field k (pre ++ (k, v) :: post) = Some v.
Proof.
  induction pre as [|[k' v'] pre IH]; simpl; intros H; [by rewrite String.eqb_refl|].
  apply not_elem_of_cons in H as [Hk H]. rewrite (proj2 (String.eqb_neq _ _) Hk). by apply IH.
Qed.
Lemma set_field_app k (pre : list (string * gv)) v v' post :
  k ∉ map fst pre → set_field k v' (pre ++ (k, v) :: post) = pre ++ (k, v') :: post.
Proof.
  induction pre as [|[k' w] pre IH]; simpl; intros H; [by rewrite String.eqb_refl|].
  apply not_elem_of_cons in H as [Hk H]. rewrite (proj2 (String.eqb_neq _ _) Hk). by rewrite IH.
Qed.

(** The statements for the fields [fs], the ones before having been copied to [pre']. *)
Lemma copies_steps fs steps pre pre' vs h trs L :
  covers fs steps → NoDup (map fst pre ++ map fst fs) → map fst pre' = map fst pre →
  map fst vs = map fst fs → repr_all h (map snd fs) (map snd vs) trs L →
  ∃ h' vs' L', run_steps steps (pre ++ vs) (pre' ++ vs) h = Some (h', pre' ++ vs') ∧ h ⊆ h' ∧
    map fst vs' = map fst fs ∧ repr_all h' (map snd fs) (map snd vs') trs L' ∧ L' ## dom h.
Proof.
  intros Hc. induction Hc as [|k t fs steps Hp Hc IH|k t f fs steps Hf Hc IH]
    in pre, pre', vs, h, trs, L |- *; intros Hnd Hpre Hk H.
  - destruct vs; [|done]. exists h, [], L. repeat split; try done. inversion H; set_solver.
  - destruct vs as [|[k' v] vs]; [done|]. injection Hk as -> Hk. simpl in H.
    inversion H as [|? ? ? ? tr trs' L1 L2 H1 H2]; subst.
    destruct (IH (pre ++ [(k, v)]) (pre' ++ [(k, v)]) vs h trs' L2) as (h' & vs' & L' & E & S & K & R & D);
      [by rewrite map_app, <- app_assoc|rewrite !map_app; by f_equal|done|done|].
    rewrite <- !app_assoc in E. exists h', ((k, v) :: vs'), (L1 ∪ L').
    rewrite (proj1 (plain_repr h) _ _ _ _ H1 Hp) in H1 |- *.
    repeat split; [done|done|simpl; by f_equal| |set_solver].
    simpl. constructor; [by eapply repr_mono|done].
  - destruct vs as [|[k' v] vs]; [done|]. injection Hk as -> Hk. simpl in H.
    inversion H as [|? ? ? ? tr trs' L1 L2 H1 H2]; subst.
    assert (Hk' : k ∉ map fst pre).
    { apply NoDup_app in Hnd as (_ & Hd & _). intros Hin. apply (Hd k Hin). simpl. set_solver. }
    destruct (Hf h v tr L1 H1) as (h1 & v' & L1' & E1 & S1 & R1 & D1).
    destruct (IH (pre ++ [(k, v)]) (pre' ++ [(k, v')]) vs h1 trs' L2)
      as (h' & vs' & L' & E & S & K & R & D);
      [by rewrite map_app, <- app_assoc|rewrite !map_app; by f_equal|done|by eapply repr_all_mono|].
    rewrite <- !app_assoc in E. exists h', ((k, v') :: vs'), (L1' ∪ L').
    split; [|split; [by trans h1|split; [simpl; by f_equal|split]]].
    + cbn [run_steps]. rewrite lookup_field_app by done. unfold mbind, go_bind. rewrite E1.
      rewrite set_field_app by (by rewrite Hpre). exact E.
    + simpl. constructor; [by eapply repr_mono|done].
    + apply subseteq_dom in S1. set_solver.
Qed.

Lemma copies_struct fs steps :
  NoDup (map fst fs) → covers fs steps → Copies (TyStruct fs) (struct_into steps).
Proof.
  intros Hnd Hc h v tr L H. inversion H as [| | | | |fs' vs trs L1 Hk Hvs|]; subst; [done|].
  destruct (copies_steps fs steps [] [] vs h trs L) as (h' & vs' & L' & E & S & K & R & D); try done.
  simpl in E. exists h', (VStruct vs'), L'. repeat split; [|done|by constructor|done].
  unfold struct_into, mbind, go_bind. by rewrite E.
Qed.

(** A struct and its method, field by field. *)
Ltac covered := repeat first
  [ apply covers_nil
  | apply covers_step; [first [apply _|by apply copies_plain]|]
  | apply covers_skip; [reflexivity|] ].
Ltac copies_fields := apply copies_struct; [by apply (bool_decide_eq_true_1 _)|covered].

#[export] Instance copies_assign : Copies TyPlain assign.
Proof. by apply copies_plain. Qed.
#[export] Instance copies_VolumeMount : Copies VolumeMount_ty VolumeMount_DeepCopyInto.
Proof. copies_fields. Qed.
#[export] Instance copies_Container : Copies Container_ty Container_DeepCopyInto.
Proof. copies_fields. Qed.
#[export] Instance copies_LeaderSpec : Copies LeaderSpec_ty LeaderSpec_DeepCopyInto.
Proof. copies_fields. Qed.
#[export] Instance copies_LeaderStatus : Copies LeaderStatus_ty LeaderStatus_DeepCopyInto.
Proof. copies_fields. Qed.
#[export] Instance copies_SidekickSpec : Copies SidekickSpec_ty SidekickSpec_DeepCopyInto.
Proof. copies_fields. Qed.
#[export] Instance copies_SidekickStatus : Copies SidekickStatus_ty SidekickStatus_DeepCopyInto.
Proof. copies_fields. Qed.
#[export] Instance copies_Sidekick : Copies Sidekick_ty Sidekick_DeepCopyInto.
Proof. copies_fields. Qed.
#[export] Instance copies_SidekickList : Copies SidekickList_ty SidekickList_DeepCopyInto.
Proof. copies_fields. Qed.

(** Code that copies values of type [t] returns one that reads the same, and later
    writes through either of the two are not seen through the other. *)
Definition isolates (t : ty) (f : copier) (h : heap) (v : gv) (tr : tree) (L : gset loc) : Prop :=
  ∃ h' v' L', f v h = Some (h', v') ∧ h ⊆ h' ∧ repr h' t v' tr L' ∧ L ## L' ∧
    (∀ h'', (∀ l, l ∉ L' → h'' !! l = h' !! l) → repr h'' t v tr L) ∧
    (∀ h'', (∀ l, l ∉ L → h'' !! l = h' !! l) → repr h'' t v' tr L').

Lemma copies_isolates t f h v tr L : Copies t f → repr h t v tr L → isolates t f h v tr L.
Proof.
  intros Hf H. destruct (Hf h v tr L H) as (h' & v' & L' & E & S & R & D).
  pose proof (proj1 (repr_dom_both h) _ _ _ _ H) as HL.
  exists h', v', L'. split_and!; [done|done|done|set_solver| |].
  - intros h'' Hw. eapply repr_frame; [by eapply repr_mono|]. intros l Hl. apply Hw. set_solver.
  - intros h'' Hw. eapply repr_frame; [done|]. intros l Hl. apply Hw. set_solver.
Qed.

End Copies.

(** C30. [DeepCopyObject] of a Sidekick returns a new resource that reads exactly like
    the original and shares nothing with it: whatever is later written through the
    copy leaves the original as it was, and the other way round. *)
Theorem sidekick_deepcopy_isolated `{LT : !LibraryTypes} h v tr L :
  repr h (TyPtr Sidekick_ty) v tr L →
  isolates (TyPtr Sidekick_ty) Sidekick_DeepCopyObject h v tr L.
Proof. apply copies_isolates. apply _. Qed.

(** The same holds of every other type of the API group that can be copied, the
    list of Sidekicks included. *)
Theorem api_types_deepcopy_isolated `{LT : !LibraryTypes} h v tr L :
  Forall (λ tf : ty * copier, repr h (TyPtr tf.1) v tr L → isolates (TyPtr tf.1) tf.2 h v tr L)
    [(SidekickList_ty, SidekickList_DeepCopyObject); (SidekickSpec_ty, SidekickSpec_DeepCopy);
     (SidekickStatus_ty, SidekickStatus_DeepCopy); (LeaderSpec_ty, LeaderSpec_DeepCopy);
     (LeaderStatus_ty, LeaderStatus_DeepCopy); (Container_ty, Container_DeepCopy);
     (VolumeMount_ty, VolumeMount_DeepCopy)].
Proof. repeat constructor; intros H; simpl in *; (apply copies_isolates; [apply _|done]). Qed.
