(* ===== verification/DeepCopyWitness.v ===== *)
(** * A Sidekick on the heap

    A resource whose status has a map, and its deep copy. *)

From S2P Require Import Prelude Types Json DeepCopy DeepCopyProps.

(** Library values: plain data, or a pointer to it. *)
Inductive ex_lib_repr (h : heap) : gv → tree → gset loc → Prop :=
| ex_lib_plain j : ex_lib_repr h (VPlain j) (TData j) ∅
| ex_lib_ref l j : h !! l = Some (CVal (VPlain j)) →
    ex_lib_repr h (VRef l) (TRef (TData j)) {[l]}.

Definition ex_lib_copy (v : gv) : go gv := match v with VPlain _ => assign v | _ => new assign v end.

#[export, refine] Instance ex_LibraryTypes : LibraryTypes :=
  {| lib_repr _ := ex_lib_repr; lib_DeepCopyInto _ := ex_lib_copy |}.
Proof.
  - intros _ h v tr L [|l j Hl]; [set_solver|]. apply elem_of_dom_2 in Hl. set_solver.
  - intros _ h h' v tr L [|l j Hl] Hf; constructor. rewrite Hf by set_solver. done.
  - intros _ h v tr L [j|l j Hl].
    + exists h, (VPlain j), ∅. split_and!; [done|done|constructor|set_solver].
    + exists (<[fresh (dom h) := CVal (VPlain j)]> (<[fresh (dom h) := CVal VNil]> h)),
        (VRef (fresh (dom h))), {[fresh (dom h)]}.
      pose proof (is_fresh (dom h)). split_and!; [|by rewrite insert_insert_eq; apply fresh_subseteq
        |constructor; by rewrite lookup_insert_eq|set_solver].
      unfold ex_lib_copy, new, mbind, go_bind, load_cell, alloc, store_cell. by rewrite Hl.
Defined.

(** The zero value of a type. *)
Fixpoint zero_value (t : ty) : gv :=
  match t with
  | TyPtr _ | TySlice _ | TyMap _ => VNil
  | TyStruct fs => VStruct (map (prod_map id zero_value) fs)
  | _ => VPlain JNull
  end.

Definition ex_status_value : gv :=
  VStruct [("Leader", zero_value LeaderStatus_ty); ("Pod", VPlain (JStr "Running"));
           ("Phase", VPlain (JStr "Current")); ("ObservedGeneration", VPlain (JNum 1));
           ("Conditions", VNil); ("ContainerRestartCountsPerPod", VNil); ("FailureCount", VRef 2%positive)].

Definition ex_heap : heap :=
  {[ 1%positive := CVal (VStruct [("TypeMeta", VPlain (JStr "Sidekick")); ("ObjectMeta", VRef 3%positive);
                           ("Spec", zero_value SidekickSpec_ty); ("Status", ex_status_value)]);
     2%positive := CMap [("uid-1", VPlain (JBool true))];
     3%positive := CVal (VPlain (JStr "demo/side")) ]}.

Lemma ex_heap_repr : ∃ tr L, repr ex_heap (TyPtr Sidekick_ty) (VRef 1) tr L.
Proof.
  eexists _, _. eapply repr_ptr; [reflexivity|]. apply repr_struct; [reflexivity|].
  repeat match goal with
  | |- repr_all _ [] [] _ _ => constructor
  | |- repr_all _ _ _ _ _ => eapply repr_all_cons
  | |- repr _ _ VNil _ _ => apply repr_nil; reflexivity
  | |- repr _ _ (VRef 2) _ _ => eapply (repr_map _ _ _ ["uid-1"] [VPlain (JBool true)]); [reflexivity|reflexivity|]
  | |- repr _ (TyLib _) (VRef 3) _ _ => apply repr_lib, ex_lib_ref; reflexivity
  | |- repr _ (TyLib _) _ _ _ => apply repr_lib, ex_lib_plain
  | |- repr _ TyPlain _ _ _ => apply repr_plain
  | |- repr _ _ (VStruct _) _ _ => apply repr_struct; [reflexivity|]
  | |- repr _ ?t ?v _ _ =>
      let t' := eval hnf in t in let v' := eval hnf in v in
      progress (change t with t'; change v with v')
  | |- _ => progress cbn
  end.
Qed.

Lemma sidekick_deepcopy_isolated_witness :
  ∃ tr L, repr ex_heap (TyPtr Sidekick_ty) (VRef 1) tr L ∧
    isolates (TyPtr Sidekick_ty) Sidekick_DeepCopyObject ex_heap (VRef 1) tr L.
Proof.
  destruct ex_heap_repr as (tr & L & H). exists tr, L. split; [exact H|].
  exact (sidekick_deepcopy_isolated ex_heap (VRef 1) tr L H).
Defined.
