(* ===== verification/Scheme.v ===== *)
(** * Registration of types ([runtime.Scheme])

    The scheme maps kinds to Go types and back; clients, caches and the fake
    clientset look types up in it.  This file follows the registrations of the
    repository: the builder of the API group ([groupversion_info.go],
    [sidekick_types.go]), [install.go], the schemes of the clientset and of the
    fake clientset ([register.go]), and the scheme of the operator
    ([pkg/cmds/run.go]).  Conversion and defaulting functions, which are
    registered along the way, are left out. *)

From S2P Require Import Prelude Effects Types Cluster Crds.

(** ** Schemes ([apimachinery/pkg/runtime/scheme.go]) *)

Record GroupVersionKind := { gvk_Group : string; gvk_Version : string; gvk_Kind : string }.

#[export] Instance GroupVersionKind_eq_dec : EqDecision GroupVersionKind.
Proof. solve_decision. Defined.
#[export] Instance GroupVersionKind_countable : Countable GroupVersionKind.
Proof.
  apply (inj_countable' (λ g, (gvk_Group g, gvk_Version g, gvk_Kind g))
    (λ '(g, v, k), {| gvk_Group := g; gvk_Version := v; gvk_Kind := k |})). by intros [].
Defined.

(** A struct type: the path of its package and its name. *)
Definition gotype : Type := string * string.

Definition GroupVersion : Type := string * string.

Definition WithKind (gv : GroupVersion) (k : string) : GroupVersionKind :=
  {| gvk_Group := gv.1; gvk_Version := gv.2; gvk_Kind := k |}.

Record Scheme := {
  gvkToType : gmap GroupVersionKind gotype;
  typeToGVK : gmap gotype (list GroupVersionKind);
  unversionedTypes : gmap gotype GroupVersionKind;
  unversionedKinds : gmap string gotype;
  observedVersions : list GroupVersion
}.

Definition NewScheme : Scheme :=
  {| gvkToType := ∅; typeToGVK := ∅; unversionedTypes := ∅; unversionedKinds := ∅;
     observedVersions := [] |}.

(** A registration may panic. *)
Definition registration : Type := Scheme → outcome Scheme.

Definition and_then (f g : registration) : registration :=
  λ s, match f s with Returned s' => g s' | Panicked m => Panicked m end.

Fixpoint in_turn (l : list registration) : registration :=
  match l with [] => Returned | f :: l => and_then f (in_turn l) end.

Definition APIVersionInternal : string := "__internal".

Definition addObservedVersion (v : GroupVersion) (s : Scheme) : Scheme :=
  if String.eqb v.2 "" || String.eqb v.2 APIVersionInternal || bool_decide (v ∈ observedVersions s) then s
  else {| gvkToType := gvkToType s; typeToGVK := typeToGVK s;
          unversionedTypes := unversionedTypes s; unversionedKinds := unversionedKinds s;
          observedVersions := observedVersions s ++ [v] |}.

Definition AddKnownTypeWithName (gvk : GroupVersionKind) (t : gotype) : registration := λ s,
  let s := addObservedVersion (gvk_Group gvk, gvk_Version gvk) s in
  if String.eqb (gvk_Version gvk) "" then Panicked "version is required on all types"
  else if match gvkToType s !! gvk with Some oldT => bool_decide (oldT ≠ t) | None => false end
  then Panicked "Double registration of different types"
  else
    let known := default [] (typeToGVK s !! t) in
    Returned {| gvkToType := <[gvk := t]> (gvkToType s);
                typeToGVK := if bool_decide (gvk ∈ known) then typeToGVK s
                             else <[t := known ++ [gvk]]> (typeToGVK s);
                unversionedTypes := unversionedTypes s; unversionedKinds := unversionedKinds s;
                observedVersions := observedVersions s |}.

(** The kind of a type is its name. *)
Definition AddKnownTypes (gv : GroupVersion) (types : list gotype) : registration := λ s,
  in_turn (map (λ t, AddKnownTypeWithName (WithKind gv t.2) t) types) (addObservedVersion gv s).

(** The body of the loop of [AddUnversionedTypes]. *)
Definition addUnversioned (gvk : GroupVersionKind) (t : gotype) : registration := λ s,
  if match unversionedKinds s !! gvk_Kind gvk with Some old => bool_decide (t ≠ old) | None => false end
  then Panicked "kind name must be unique"
  else Returned {| gvkToType := gvkToType s; typeToGVK := typeToGVK s;
                   unversionedTypes := <[t := gvk]> (unversionedTypes s);
                   unversionedKinds := <[gvk_Kind gvk := t]> (unversionedKinds s);
                   observedVersions := observedVersions s |}.

Definition AddUnversionedTypes (gv : GroupVersion) (types : list gotype) : registration := λ s,
  in_turn (AddKnownTypes gv types :: map (λ t, addUnversioned (WithKind gv t.2) t) types)
    (addObservedVersion gv s).

Definition Recognizes (s : Scheme) (gvk : GroupVersionKind) : bool :=
  bool_decide (is_Some (gvkToType s !! gvk)).

Definition ObjectKinds (s : Scheme) (t : gotype) : res (list GroupVersionKind * bool) :=
  match typeToGVK s !! t with
  | None => Err (PlainError ("no kind is registered for the type " +:+ t.2))
  | Some gvks => Ok (gvks, bool_decide (is_Some (unversionedTypes s !! t)))
  end.

Definition Scheme_New (s : Scheme) (gvk : GroupVersionKind) : res gotype :=
  match gvkToType s !! gvk with
  | Some t => Ok t
  | None =>
      match unversionedKinds s !! gvk_Kind gvk with
      | Some t => Ok t
      | None => Err (PlainError ("no kind is registered for " +:+ gvk_Kind gvk))
      end
  end.

(** ** Types every group has ([apimachinery/pkg/apis/meta/v1/register.go]) *)

Definition meta_type (name : string) : gotype := ("k8s.io/apimachinery/pkg/apis/meta/v1", name).
Definition optionsTypes : list gotype :=
  map meta_type ["ListOptions"; "GetOptions"; "DeleteOptions"; "CreateOptions"; "UpdateOptions"; "PatchOptions"].
Definition unversioned_group : GroupVersion := ("", "v1").
Definition unversioned_list : list gotype :=
  map meta_type ["Status"; "APIVersions"; "APIGroupList"; "APIGroup"; "APIResourceList"].

Definition AddToGroupVersion (gv : GroupVersion) : registration :=
  in_turn [AddKnownTypeWithName (WithKind gv "WatchEvent") (meta_type "WatchEvent");
           AddKnownTypeWithName (WithKind (gv.1, APIVersionInternal) "WatchEvent") (meta_type "InternalEvent");
           AddKnownTypes gv optionsTypes;
           AddUnversionedTypes unversioned_group unversioned_list].

(** ** Builders ([controller-runtime/pkg/scheme]) *)

(** One entry per call of [Register]. *)
Record Builder := { b_GroupVersion : GroupVersion; b_Registered : list (list gotype) }.

Definition Builder_AddToScheme (b : Builder) : registration :=
  in_turn (map (λ types, in_turn [AddKnownTypes (b_GroupVersion b) types; AddToGroupVersion (b_GroupVersion b)])
             (b_Registered b)).

(** ** The API group *)

Definition sidekick_type (name : string) : gotype := ("kubeops.dev/sidekick/apis/apps/v1alpha1", name).

(** [SchemeBuilder] after the [init] of [sidekick_types.go]. *)
Definition SchemeBuilder : Builder :=
  {| b_GroupVersion := SchemeGroupVersion;
     b_Registered := [[sidekick_type "Sidekick"; sidekick_type "SidekickList"]] |}.
Definition AddToScheme : registration := Builder_AddToScheme SchemeBuilder.

(** [install.Install]; [Must] panics on an error, which [AddToScheme] never returns. *)
Definition Install : registration := AddToScheme.

(** The schemes of the clientset and of the fake clientset: the same two steps. *)
Definition clientset_Scheme : outcome Scheme :=
  in_turn [AddToGroupVersion ("", "v1"); AddToScheme] NewScheme.
Definition fake_scheme : outcome Scheme :=
  in_turn [AddToGroupVersion ("", "v1"); AddToScheme] NewScheme.

(** ** The scheme of the operator ([pkg/cmds/run.go]) *)

Definition work_type (name : string) : gotype := ("open-cluster-management.io/api/work/v1", name).
Definition work_builder : Builder :=
  {| b_GroupVersion := ("work.open-cluster-management.io", "v1");
     b_Registered := [map work_type ["AppliedManifestWork"; "AppliedManifestWorkList"; "ManifestWork"; "ManifestWorkList"]] |}.

Definition slice_type (name : string) : gotype := ("github.com/kubeslice/worker-operator/api/v1beta1", name).
Definition slice_builder : Builder :=
  {| b_GroupVersion := ("networking.kubeslice.io", "v1beta1");
     b_Registered := map (λ n, [slice_type n; slice_type (n +:+ "List")])
       ["ServiceExport"; "ServiceImport"; "Slice"; "SliceGateway"] |}.

Definition storage_type (name : string) : gotype := ("kubestash.dev/apimachinery/apis/storage/v1alpha1", name).
Definition storage_builder : Builder :=
  {| b_GroupVersion := ("storage.kubestash.com", "v1alpha1");
     b_Registered := map (λ n, [storage_type n; storage_type (n +:+ "List")])
       ["BackupStorage"; "Repository"; "RetentionPolicy"; "Snapshot"] |}.

(** [init]; [clientgo] is [clientgoscheme.AddToScheme]. *)
Definition init_scheme (clientgo : registration) : outcome Scheme :=
  in_turn [clientgo; AddToScheme; Builder_AddToScheme work_builder;
           Builder_AddToScheme slice_builder; Builder_AddToScheme storage_builder] NewScheme.
