(* ===== verification/SchemeProps.v ===== *)
(** * What is registered

    Registrations flattened to their elementary steps; when they succeed, what
    they leave alone, and that the scheme of the operator knows every kind its
    calls are about. *)

From S2P Require Import Prelude Effects Types Cluster Crds Scheme.

(** ** Elementary steps *)

Inductive step :=
| SObserve (gv : GroupVersion)
| SKnown (gvk : GroupVersionKind) (t : gotype)
| SUnversioned (gvk : GroupVersionKind) (t : gotype).

#[export] Instance step_eq_dec : EqDecision step.
Proof. solve_decision. Defined.

Definition do_step (x : step) : registration :=
  match x with
  | SObserve gv => λ s, Returned (addObservedVersion gv s)
  | SKnown gvk t => AddKnownTypeWithName gvk t
  | SUnversioned gvk t => addUnversioned gvk t
  end.

Definition steps (L : list step) : registration := in_turn (map do_step L).

(** The registration [f] is the sequence [L] of steps. *)
Definition does (f : registration) (L : list step) : Prop := ∀ s, f s = steps L s.

Lemma steps_app L L' s : steps (L ++ L') s = and_then (steps L) (steps L') s.
Proof.
  revert s. induction L as [|x L IH]; intros s; [done|]. unfold steps, and_then in *. simpl.
  unfold and_then. destruct (do_step x s); [apply IH|done].
Qed.

Lemma does_in_turn fs Ls : Forall2 does fs Ls → does (in_turn fs) (concat Ls).
Proof.
  induction 1 as [|f L fs Ls Hf _ IH]; [done|]. intros s. simpl. rewrite steps_app. unfold and_then.
  rewrite Hf. destruct (steps L s); [apply IH|done].
Qed.

Lemma does_map {A} (f : A → registration) (g : A → list step) l :
  (∀ a, does (f a) (g a)) → Forall2 does (map f l) (map g l).
Proof. intros H. induction l; simpl; constructor; [apply H|done]. Qed.

Definition known_steps (gv : GroupVersion) (ts : list gotype) : list step :=
  SObserve gv :: concat (map (λ t, [SKnown (WithKind gv t.2) t]) ts).

Lemma does_one x : does (do_step x) [x].
Proof. intros s. unfold steps. simpl. unfold and_then. by destruct (do_step x s). Qed.

Lemma does_known gv ts : does (AddKnownTypes gv ts) (known_steps gv ts).
Proof.
  intros s. unfold AddKnownTypes, known_steps.
  apply (does_in_turn _ _ (does_map _ _ ts (λ t, does_one (SKnown (WithKind gv t.2) t)))).
Qed.

Definition unversioned_steps (gv : GroupVersion) (ts : list gotype) : list step :=
  SObserve gv :: known_steps gv ts ++ concat (map (λ t, [SUnversioned (WithKind gv t.2) t]) ts).

Lemma does_unversioned gv ts : does (AddUnversionedTypes gv ts) (unversioned_steps gv ts).
Proof.
  intros s. unfold AddUnversionedTypes, unversioned_steps.
  apply (does_in_turn (_ :: _) (known_steps gv ts :: map (λ t, [SUnversioned (WithKind gv t.2) t]) ts)).
  constructor; [apply does_known|].
  apply (does_map _ _ ts (λ t, does_one (SUnversioned (WithKind gv t.2) t))).
Qed.

Definition group_steps (gv : GroupVersion) : list step :=
  concat [[SKnown (WithKind gv "WatchEvent") (meta_type "WatchEvent")];
          [SKnown (WithKind (gv.1, APIVersionInternal) "WatchEvent") (meta_type "InternalEvent")];
          known_steps gv optionsTypes; unversioned_steps unversioned_group unversioned_list].

Lemma does_group gv : does (AddToGroupVersion gv) (group_steps gv).
Proof.
  apply does_in_turn. constructor; [exact (does_one (SKnown _ _))|].
  constructor; [exact (does_one (SKnown _ _))|]. constructor; [apply does_known|].
  constructor; [apply does_unversioned|constructor].
Qed.

Definition builder_steps (b : Builder) : list step :=
  concat (map (λ ts, concat [known_steps (b_GroupVersion b) ts; group_steps (b_GroupVersion b)]) (b_Registered b)).

Lemma does_builder b : does (Builder_AddToScheme b) (builder_steps b).
Proof.
  apply does_in_turn, does_map. intros ts. apply does_in_turn.
  constructor; [apply does_known|]. constructor; [apply does_group|constructor].
Qed.

(** ** When steps succeed *)

Definition kinds_of (s : Scheme) (t : gotype) : list GroupVersionKind := default [] (typeToGVK s !! t).

(** [s] says nothing that contradicts the steps. *)
Record compat (L : list step) (s : Scheme) : Prop := {
  compat_known : ∀ gvk t t', SKnown gvk t ∈ L → gvkToType s !! gvk = Some t' → t' = t;
  compat_unversioned : ∀ gvk t t', SUnversioned gvk t ∈ L → unversionedKinds s !! gvk_Kind gvk = Some t' → t' = t
}.

(** The steps do not contradict each other. *)
Definition coherentb (L : list step) : bool :=
  forallb (λ x, forallb (λ y,
    match x, y with
    | SKnown g t, SKnown g' t' => negb (bool_decide (g = g')) || bool_decide (t = t')
    | SUnversioned g t, SUnversioned g' t' => negb (String.eqb (gvk_Kind g) (gvk_Kind g')) || bool_decide (t = t')
    | _, _ => true
    end) L && match x with SKnown g _ => negb (String.eqb (gvk_Version g) "") | _ => true end) L.

Lemma coherent_pair L x y :
  coherentb L = true → x ∈ L → y ∈ L →
  match x, y with
  | SKnown g t, SKnown g' t' => g = g' → t = t'
  | SUnversioned g t, SUnversioned g' t' => gvk_Kind g = gvk_Kind g' → t = t'
  | _, _ => True
  end.
Proof.
  unfold coherentb. rewrite forallb_forall. setoid_rewrite <- list_elem_of_In.
  intros HL Hx Hy. apply HL in Hx. apply andb_true_iff in Hx as [Hx _].
  rewrite forallb_forall in Hx. apply list_elem_of_In, Hx in Hy.
  destruct x, y; try done; apply orb_true_iff in Hy as [Hn%negb_true_iff|Ht%bool_decide_eq_true_1]; try done.
  - by apply bool_decide_eq_false_1 in Hn.
  - by apply String.eqb_neq in Hn.
Qed.

Lemma coherent_version L g t : coherentb L = true → SKnown g t ∈ L → gvk_Version g ≠ "".
Proof.
  unfold coherentb. rewrite forallb_forall. setoid_rewrite <- list_elem_of_In.
  intros HL Hx. apply HL in Hx. apply andb_true_iff in Hx as [_ Hx].
  by apply negb_true_iff, String.eqb_neq in Hx.
Qed.

(** What a registration leaves in place. *)
Definition extends (s s' : Scheme) : Prop :=
  gvkToType s ⊆ gvkToType s' ∧ unversionedKinds s ⊆ unversionedKinds s' ∧
  ∀ t, kinds_of s t ⊆ kinds_of s' t.

#[export] Instance extends_preorder : PreOrder extends.
Proof.
  split; [by intros s|]. intros s1 s2 s3 (A1 & B1 & C1) (A2 & B2 & C2).
  split; [by etrans|]. split; [by etrans|]. intros t. etrans; [apply C1|apply C2].
Qed.

Lemma observe_same gv s :
  gvkToType (addObservedVersion gv s) = gvkToType s ∧ typeToGVK (addObservedVersion gv s) = typeToGVK s ∧
  unversionedKinds (addObservedVersion gv s) = unversionedKinds s.
Proof. unfold addObservedVersion. by case_match. Qed.

Lemma known_ok gvk t s :
  gvk_Version gvk ≠ "" → (∀ t', gvkToType s !! gvk = Some t' → t' = t) →
  ∃ s', AddKnownTypeWithName gvk t s = Returned s' ∧ extends s s' ∧
    gvkToType s' = <[gvk := t]> (gvkToType s) ∧ unversionedKinds s' = unversionedKinds s ∧
    gvk ∈ kinds_of s' t.
Proof.
  intros Hv Hc. unfold AddKnownTypeWithName.
  destruct (observe_same (gvk_Group gvk, gvk_Version gvk) s) as (E1 & E2 & E3).
  set (s0 := addObservedVersion _ s) in *. cbn zeta. rewrite (proj2 (String.eqb_neq _ _) Hv), E1, E2.
  assert (Hno : match gvkToType s !! gvk with Some oldT => bool_decide (oldT ≠ t) | None => false end = false).
  { destruct (gvkToType s !! gvk) as [t'|] eqn:E; [|done]. rewrite (Hc t' eq_refl).
    apply bool_decide_eq_false_2. by intros []. }
  rewrite Hno. eexists. split; [reflexivity|]. unfold extends, kinds_of. cbn. rewrite E3.
  assert (Hsub : gvkToType s ⊆ <[gvk := t]> (gvkToType s)).
  { apply map_subseteq_spec. intros g t' Hg. destruct (decide (g = gvk)) as [->|Hne].
    - rewrite (Hc _ Hg). apply lookup_insert_eq.
    - by rewrite lookup_insert_ne. }
  case_bool_decide as Hin; [by split_and!|].
  split_and!; try done; [|rewrite lookup_insert_eq; simpl; set_solver].
  intros t'. destruct (decide (t' = t)) as [->|Hne].
  - rewrite lookup_insert_eq. simpl. set_solver.
  - by rewrite lookup_insert_ne.
Qed.

Lemma unversioned_ok gvk t s :
  (∀ t', unversionedKinds s !! gvk_Kind gvk = Some t' → t' = t) →
  ∃ s', addUnversioned gvk t s = Returned s' ∧ extends s s' ∧ gvkToType s' = gvkToType s ∧
    unversionedKinds s' = <[gvk_Kind gvk := t]> (unversionedKinds s).
Proof.
  intros Hc. unfold addUnversioned.
  assert (Hno : match unversionedKinds s !! gvk_Kind gvk with Some old => bool_decide (t ≠ old) | None => false end = false).
  { destruct (unversionedKinds s !! gvk_Kind gvk) as [t'|] eqn:E; [|done]. rewrite (Hc t' eq_refl).
    apply bool_decide_eq_false_2. by intros []. }
  rewrite Hno. eexists. split; [reflexivity|]. split; [|done]. split; [done|]. split; [|done]. cbn.
  apply map_subseteq_spec. intros g t' Hg. destruct (decide (g = gvk_Kind gvk)) as [->|Hne].
  - rewrite (Hc _ Hg). apply lookup_insert_eq.
  - by rewrite lookup_insert_ne.
Qed.

(** One step of a coherent, compatible sequence succeeds and stays compatible. *)
Lemma step_ok A x s :
  coherentb A = true → compat A s → x ∈ A →
  ∃ s', do_step x s = Returned s' ∧ compat A s' ∧ extends s s' ∧
    match x with
    | SKnown g t => gvkToType s' = <[g := t]> (gvkToType s) ∧ g ∈ kinds_of s' t
    | _ => gvkToType s' = gvkToType s
    end.
Proof.
  intros HA Hc Hx. pose proof (λ y, coherent_pair A x y HA Hx) as Hp. destruct x as [gv|g t|g t]; simpl.
  - destruct (observe_same gv s) as (E1 & E2 & E3). eexists. split; [done|].
    split; [|split; [unfold extends, kinds_of; by rewrite E1, E2, E3|done]].
    destruct Hc as [Hk Hu]. split; rewrite ?E1, ?E3; eauto.
  - destruct (known_ok g t s) as (s' & E & He & Eg & Eu & Hin);
      [by eapply coherent_version|intros t'; by apply (compat_known A s Hc)|].
    exists s'. split; [done|]. split; [|done]. destruct Hc as [Hk Hu]. split; rewrite ?Eg, ?Eu; [|eauto].
    intros g' t' t2 Hin'. destruct (decide (g' = g)) as [->|Hne].
    + rewrite lookup_insert_eq. intros [= <-]. exact (Hp _ Hin' eq_refl).
    + rewrite lookup_insert_ne by done. by apply Hk.
  - destruct (unversioned_ok g t s) as (s' & E & He & Eg & Eu);
      [intros t'; by apply (compat_unversioned A s Hc)|].
    exists s'. split; [done|]. split; [|done]. destruct Hc as [Hk Hu]. split; rewrite ?Eg, ?Eu; [eauto|].
    intros g' t' t2 Hin'. destruct (decide (gvk_Kind g' = gvk_Kind g)) as [Eq|Hne].
    + rewrite Eq, lookup_insert_eq. intros [= <-]. exact (Hp _ Hin' (eq_sym Eq)).
    + rewrite lookup_insert_ne by done. by apply Hu.
Qed.

Lemma steps_ok A L s :
  coherentb A = true → compat A s → L ⊆ A →
  ∃ s', steps L s = Returned s' ∧ compat A s' ∧ extends s s' ∧
    (∀ g t, SKnown g t ∈ L → gvkToType s' !! g = Some t ∧ g ∈ kinds_of s' t) ∧
    (∀ g, (∀ t, SKnown g t ∉ L) → gvkToType s' !! g = gvkToType s !! g).
Proof.
  intros HA. revert s. induction L as [|x L IH]; intros s Hc HL.
  { exists s. split_and!; try done. by intros g t ?%elem_of_nil. }
  destruct (step_ok A x s HA Hc) as (s1 & E1 & Hc1 & He1 & Hx); [apply HL; left|].
  destruct (IH s1 Hc1) as (s2 & E2 & Hc2 & He2 & Hk & Hf); [by intros y Hy; apply HL; right|].
  exists s2. unfold steps in *. simpl. unfold and_then. rewrite E1. split; [done|]. split; [done|].
  split; [by etrans|]. destruct He2 as (Hs2 & _ & Hk2). split.
  - intros g t [<-|Hin]%elem_of_cons; [|by apply Hk]. destruct Hx as [Eg Hin]. split; [|by apply Hk2].
    rewrite map_subseteq_spec in Hs2. apply Hs2. rewrite Eg. apply lookup_insert_eq.
  - intros g Hg. rewrite Hf by (intros t Ht; apply (Hg t); by right).
    destruct x as [gv|g' t'|g' t']; [by rewrite Hx|destruct Hx as [Hx _]|by rewrite Hx].
    rewrite Hx. apply lookup_insert_ne. intros ->. apply (Hg t'). left.
Qed.

(** A contradiction is found out. *)
Lemma steps_conflict L s g t t' :
  gvkToType s !! g = Some t' → t' ≠ t → SKnown g t ∈ L → ∃ m, steps L s = Panicked m.
Proof.
  intros Hg Hne. revert s Hg. induction L as [|x L IH]; intros s Hg; [by intros ?%elem_of_nil|].
  unfold steps. simpl. unfold and_then. destruct (do_step x s) as [s1|m] eqn:E; [|by exists m].
  intros Hin. apply IH.
  - destruct x as [gv|g1 t1|g1 t1]; simpl in E.
    + injection E as <-. by destruct (observe_same gv s) as (-> & _).
    + unfold AddKnownTypeWithName in E.
      destruct (observe_same (gvk_Group g1, gvk_Version g1) s) as (E1 & _ & _).
      set (s0 := addObservedVersion _ s) in *. cbn zeta in E. destruct (String.eqb _ _); [done|].
      rewrite E1 in E. destruct (gvkToType s !! g1) as [t2|] eqn:E2.
      * case_bool_decide as Hb; [done|]. injection E as <-. cbn.
        destruct (decide (g1 = g)) as [->|Hng]; [|by rewrite lookup_insert_ne].
        rewrite lookup_insert_eq. rewrite Hg in E2. injection E2 as <-.
        destruct (decide (t' = t1)) as [->|Hn]; [done|by destruct Hb].
      * injection E as <-. cbn. rewrite lookup_insert_ne; [done|]. intros ->. by rewrite Hg in E2.
    + unfold addUnversioned in E. case_match; [done|]. by injection E as <-.
  - apply elem_of_cons in Hin as [<-|Hin]; [|done]. exfalso. simpl in E. unfold AddKnownTypeWithName in E.
    destruct (observe_same (gvk_Group g, gvk_Version g) s) as (E1 & _ & _).
    cbn zeta in E. destruct (String.eqb _ _); [done|]. rewrite E1, Hg, bool_decide_eq_true_2 in E; done.
Qed.

(** ** The API group *)

Definition sidekick_kind : GroupVersionKind := WithKind SchemeGroupVersion "Sidekick".
Definition sidekick_list_kind : GroupVersionKind := WithKind SchemeGroupVersion "SidekickList".

Lemma sidekick_steps_coherent : coherentb (builder_steps SchemeBuilder) = true.
Proof. vm_compute. reflexivity. Qed.

(** Installing the API group in a scheme that says nothing to the contrary
    succeeds: the scheme then finds the Go types of Sidekick and SidekickList from
    their kinds and the kinds from the types, keeps everything it knew, and
    installing the group once more changes no lookup.  A scheme that already has
    another type for one of the kinds makes the installation panic. *)
Theorem install_registers s :
  (compat (builder_steps SchemeBuilder) s →
   ∃ s', Install s = Returned s' ∧ extends s s' ∧
     Scheme_New s' sidekick_kind = Ok (sidekick_type "Sidekick") ∧
     Scheme_New s' sidekick_list_kind = Ok (sidekick_type "SidekickList") ∧
     sidekick_kind ∈ kinds_of s' (sidekick_type "Sidekick") ∧
     ∃ s'', Install s' = Returned s'' ∧ gvkToType s'' = gvkToType s') ∧
  (∀ t, gvkToType s !! sidekick_kind = Some t → t ≠ sidekick_type "Sidekick" →
   ∃ m, Install s = Panicked m).
Proof.
  split.
  - intros Hc. destruct (steps_ok _ (builder_steps SchemeBuilder) s sidekick_steps_coherent Hc)
      as (s' & E & Hc' & He & Hk & _); [done|].
    destruct (steps_ok _ (builder_steps SchemeBuilder) s' sidekick_steps_coherent Hc')
      as (s'' & E' & _ & He' & Hk' & Hf'); [done|].
    assert (H1 : SKnown sidekick_kind (sidekick_type "Sidekick") ∈ builder_steps SchemeBuilder).
    { apply (bool_decide_eq_true_1 _). vm_compute. reflexivity. }
    assert (H2 : SKnown sidekick_list_kind (sidekick_type "SidekickList") ∈ builder_steps SchemeBuilder).
    { apply (bool_decide_eq_true_1 _). vm_compute. reflexivity. }
    exists s'. unfold Install, AddToScheme. rewrite does_builder. split; [done|]. split; [done|].
    unfold Scheme_New. rewrite (proj1 (Hk _ _ H1)), (proj1 (Hk _ _ H2)).
    split; [done|]. split; [done|]. split; [by apply Hk|].
    exists s''. rewrite does_builder. split; [done|]. apply map_eq. intros g.
    destruct (gvkToType s' !! g) as [t|] eqn:Eg.
    + destruct He' as (Hsub & _). rewrite map_subseteq_spec in Hsub. by apply Hsub.
    + rewrite Hf', Eg; [done|]. intros t Ht. apply Hk in Ht as [Ht _]. by rewrite Ht in Eg.
  - intros t Hg Hne. unfold Install, AddToScheme. setoid_rewrite does_builder.
    apply (steps_conflict _ s sidekick_kind (sidekick_type "Sidekick") t); [done..|].
    apply (bool_decide_eq_true_1 _). vm_compute. reflexivity.
Qed.

(** ** The operator *)

Definition core_type (name : string) : gotype := ("k8s.io/api/core/v1", name).

(** The kind and the Go type of the objects of the operator's calls. *)
Definition kind_gvk (k : kind) : GroupVersionKind :=
  match k with
  | KPod => WithKind ("", "v1") "Pod"
  | KSidekick => sidekick_kind
  | KSecret => WithKind ("", "v1") "Secret"
  | KManifestWork => WithKind ("work.open-cluster-management.io", "v1") "ManifestWork"
  | KServiceExport => WithKind ("networking.kubeslice.io", "v1beta1") "ServiceExport"
  | KSnapshot => WithKind ("storage.kubestash.com", "v1alpha1") "Snapshot"
  | KNamespace => WithKind ("", "v1") "Namespace"
  end.

Definition kind_type (k : kind) : gotype :=
  match k with
  | KPod => core_type "Pod"
  | KSidekick => sidekick_type "Sidekick"
  | KSecret => core_type "Secret"
  | KManifestWork => work_type "ManifestWork"
  | KServiceExport => slice_type "ServiceExport"
  | KSnapshot => storage_type "Snapshot"
  | KNamespace => core_type "Namespace"
  end.

Definition operator_builders : list Builder := [SchemeBuilder; work_builder; slice_builder; storage_builder].
Definition operator_steps : list step := concat (map builder_steps operator_builders).

(** What [clientgoscheme.AddToScheme] leaves: the core kinds, nothing in the groups
    of the operator's other types, and the unversioned types of apimachinery. *)
Record clientgo_registers (clientgo : registration) (s0 : Scheme) : Prop := {
  cg_returns : clientgo NewScheme = Returned s0;
  cg_core : ∀ n, n ∈ ["Pod"; "Secret"; "Namespace"] →
    gvkToType s0 !! WithKind ("", "v1") n = Some (core_type n);
  cg_groups : ∀ g t, gvkToType s0 !! g = Some t →
    gvk_Group g ∉ map (λ b, (b_GroupVersion b).1) operator_builders;
  cg_unversioned : ∀ t t', t ∈ unversioned_list →
    gvkToType s0 !! WithKind unversioned_group t.2 = Some t' ∨ unversionedKinds s0 !! t.2 = Some t' → t' = t
}.

Lemma operator_steps_coherent : coherentb operator_steps = true.
Proof. vm_compute. reflexivity. Qed.

(** Every step is in one of the operator's groups, or about an unversioned type. *)
Definition step_placed (x : step) : bool :=
  match x with
  | SObserve _ => true
  | SKnown g t => existsb (String.eqb (gvk_Group g)) (map (λ b, (b_GroupVersion b).1) operator_builders) ||
                  bool_decide (t ∈ unversioned_list ∧ g = WithKind unversioned_group t.2)
  | SUnversioned g t => bool_decide (t ∈ unversioned_list ∧ g = WithKind unversioned_group t.2)
  end.

Lemma operator_steps_placed : forallb step_placed operator_steps = true.
Proof. vm_compute. reflexivity. Qed.

Lemma operator_compat clientgo s0 : clientgo_registers clientgo s0 → compat operator_steps s0.
Proof.
  intros [_ _ Hg Hu]. pose proof operator_steps_placed as Hp. rewrite forallb_forall in Hp. split.
  - intros g t t' Hin%list_elem_of_In Ht'. apply Hp in Hin. unfold step_placed in Hin.
    apply orb_true_iff in Hin as [Hin|Hin]; [|apply bool_decide_eq_true_1 in Hin as [Hin ->]].
    + apply existsb_exists in Hin as (n & Hn & En%String.eqb_eq).
      destruct (Hg _ _ Ht'). rewrite En. by apply list_elem_of_In.
    + by apply (Hu t t'); [|left].
  - intros g t t' Hin%list_elem_of_In Ht'. apply Hp in Hin. unfold step_placed in Hin.
    apply bool_decide_eq_true_1 in Hin as [Hin ->]. by apply (Hu t t'); [|right].
Qed.

Lemma does_operator : does (in_turn (map Builder_AddToScheme operator_builders)) operator_steps.
Proof. apply does_in_turn, does_map, does_builder. Qed.

