(* ===== verification/SchemeWitness.v ===== *)
(** * Concrete schemes *)

From S2P Require Import Prelude Effects Types Cluster Crds Scheme SchemeProps.

(** The client-go scheme, reduced to the core kinds of the operator. *)
Definition ex_core : Builder :=
  {| b_GroupVersion := ("", "v1"); b_Registered := [map core_type ["Pod"; "Secret"; "Namespace"]] |}.
Definition ex_clientgo : registration := Builder_AddToScheme ex_core.
Definition ex_scheme : Scheme :=
  match ex_clientgo NewScheme with Returned s => s | Panicked _ => NewScheme end.

Lemma ex_clientgo_registers : clientgo_registers ex_clientgo ex_scheme.
Proof.
  split.
  - assert (Hr : match ex_clientgo NewScheme with Returned _ => true | Panicked _ => false end = true)
      by (vm_compute; reflexivity).
    unfold ex_scheme. destruct (ex_clientgo NewScheme); [reflexivity|discriminate].
  - apply Forall_forall. repeat (constructor; [vm_compute; reflexivity|]). constructor.
  - apply (bool_decide_eq_true_1 (map_Forall (λ g (_ : gotype),
      gvk_Group g ∉ map (λ b, (b_GroupVersion b).1) operator_builders) (gvkToType ex_scheme))).
    vm_compute. reflexivity.
  - intros t t' Ht%list_elem_of_In HE. cbn in Ht. destruct_or? Ht; destruct HE as [E|E]; subst t;
      vm_compute in E; by inversion E.
Qed.

(** A new scheme, and one that has another type for the kind. *)
Lemma install_registers_witness :
  (∃ s', Install NewScheme = Returned s' ∧ Scheme_New s' sidekick_kind = Ok (sidekick_type "Sidekick")) ∧
  (∃ m, Install {| gvkToType := {[ sidekick_kind := core_type "Pod" ]}; typeToGVK := ∅; unversionedTypes := ∅;
                   unversionedKinds := ∅; observedVersions := [] |} = Panicked m).
Proof.
  split.
  - destruct (proj1 (install_registers NewScheme)) as (s' & E & _ & Hn & _); [split; intros gvk t t' _ Hl; exfalso; revert Hl; apply lookup_empty_Some|].
    exists s'. split; assumption.
  - eapply (proj2 (install_registers _)); [apply lookup_singleton_eq|discriminate].
Defined.

