(* ===== verification/Clientset.v ===== *)
(** * The generated clientset ([client/clientset/versioned])

    The typed client of the Sidekick resource, which builds one request per call,
    and the fake client, which records one action per call; how a configuration
    becomes a client.  Requests are those of client-go and are read by the API
    server's [RequestInfoFactory]; a path is the list of its segments. *)

From S2P Require Import Prelude Effects GoStd Types Crds.

(** ** Requests ([rest.Request]) *)

Record ListOptions := {
  lo_LabelSelector : string;
  lo_FieldSelector : string;
  lo_Watch : bool;
  lo_TimeoutSeconds : option Z
}.
Definition set_Watch (w : bool) (o : ListOptions) : ListOptions :=
  {| lo_LabelSelector := lo_LabelSelector o; lo_FieldSelector := lo_FieldSelector o;
     lo_Watch := w; lo_TimeoutSeconds := lo_TimeoutSeconds o |}.

(** Options that travel as parameters: of a list or watch, or others. *)
Inductive Params := NoParams | ListParams (o : ListOptions) | OtherParams (o : json).

Inductive Body := NoBody | ObjectBody (s : Sidekick) | OptionsBody (o : json) | BytesBody (data : string).

(** The parts of a request that say what is asked for; retries, rate limiting and
    headers other than the content type concern the transport. *)
Record Request := {
  rq_verb : string;
  rq_pathPrefix : list string;
  rq_namespace : string;
  rq_namespaceSet : bool;
  rq_resource : string;
  rq_resourceName : string;
  rq_subresource : list string;
  rq_params : Params;
  rq_timeout : Z;
  rq_body : Body;
  rq_contentType : string;
  rq_err : option error
}.

Definition contains_char (c : ascii) (s : string) : bool :=
  existsb (Ascii.eqb c) (list_ascii_of_string s).

(** [IsValidPathSegmentName]. *)
Definition valid_segment (s : string) : bool :=
  negb (String.eqb s "." || String.eqb s ".." || contains_char "/" s || contains_char "%" s).

(** A new request of a client whose path prefix is [prefix]. *)
Definition NewRequest (prefix : list string) (verb : string) : Request :=
  {| rq_verb := verb; rq_pathPrefix := prefix; rq_namespace := ""; rq_namespaceSet := false;
     rq_resource := ""; rq_resourceName := ""; rq_subresource := []; rq_params := NoParams;
     rq_timeout := 0; rq_body := NoBody; rq_contentType := ""; rq_err := None |}.

Definition rq_fail (r : Request) (e : error) : Request :=
  {| rq_verb := rq_verb r; rq_pathPrefix := rq_pathPrefix r; rq_namespace := rq_namespace r;
     rq_namespaceSet := rq_namespaceSet r; rq_resource := rq_resource r;
     rq_resourceName := rq_resourceName r; rq_subresource := rq_subresource r;
     rq_params := rq_params r; rq_timeout := rq_timeout r; rq_body := rq_body r;
     rq_contentType := rq_contentType r; rq_err := Some e |}.

(** The first error sticks. *)
Definition unless_err (r : Request) (f : Request → Request) : Request :=
  match rq_err r with Some _ => r | None => f r end.

Definition rq_Namespace (ns : string) (r : Request) : Request := unless_err r (λ r,
  if rq_namespaceSet r then rq_fail r (PlainError "namespace already set")
  else if negb (valid_segment ns) then rq_fail r (PlainError "invalid namespace")
  else {| rq_verb := rq_verb r; rq_pathPrefix := rq_pathPrefix r; rq_namespace := ns;
          rq_namespaceSet := true; rq_resource := rq_resource r;
          rq_resourceName := rq_resourceName r; rq_subresource := rq_subresource r;
          rq_params := rq_params r; rq_timeout := rq_timeout r; rq_body := rq_body r;
          rq_contentType := rq_contentType r; rq_err := None |}).

Definition rq_Resource (res : string) (r : Request) : Request := unless_err r (λ r,
  if negb (String.eqb (rq_resource r) "") then rq_fail r (PlainError "resource already set")
  else if negb (valid_segment res) then rq_fail r (PlainError "invalid resource")
  else {| rq_verb := rq_verb r; rq_pathPrefix := rq_pathPrefix r; rq_namespace := rq_namespace r;
          rq_namespaceSet := rq_namespaceSet r; rq_resource := res;
          rq_resourceName := rq_resourceName r; rq_subresource := rq_subresource r;
          rq_params := rq_params r; rq_timeout := rq_timeout r; rq_body := rq_body r;
          rq_contentType := rq_contentType r; rq_err := None |}).

Definition rq_Name (name : string) (r : Request) : Request := unless_err r (λ r,
  if String.eqb name "" then rq_fail r (PlainError "resource name may not be empty")
  else if negb (String.eqb (rq_resourceName r) "")
       then rq_fail r (PlainError "resource name already set")
  else if negb (valid_segment name) then rq_fail r (PlainError "invalid resource name")
  else {| rq_verb := rq_verb r; rq_pathPrefix := rq_pathPrefix r; rq_namespace := rq_namespace r;
          rq_namespaceSet := rq_namespaceSet r; rq_resource := rq_resource r;
          rq_resourceName := name; rq_subresource := rq_subresource r;
          rq_params := rq_params r; rq_timeout := rq_timeout r; rq_body := rq_body r;
          rq_contentType := rq_contentType r; rq_err := None |}).

(** [path.Join] drops empty elements. *)
Definition join_segments (l : list string) : list string :=
  List.filter (λ s, negb (String.eqb s "")) l.

Definition rq_SubResource (subs : list string) (r : Request) : Request := unless_err r (λ r,
  match rq_subresource r with
  | _ :: _ => rq_fail r (PlainError "subresource already set")
  | [] =>
      if negb (forallb valid_segment subs) then rq_fail r (PlainError "invalid subresource")
      else {| rq_verb := rq_verb r; rq_pathPrefix := rq_pathPrefix r; rq_namespace := rq_namespace r;
              rq_namespaceSet := rq_namespaceSet r; rq_resource := rq_resource r;
              rq_resourceName := rq_resourceName r; rq_subresource := join_segments subs;
              rq_params := rq_params r; rq_timeout := rq_timeout r; rq_body := rq_body r;
              rq_contentType := rq_contentType r; rq_err := None |}
  end).

(** The options, before they are written as query parameters. *)
Definition rq_VersionedParams (p : Params) (r : Request) : Request := unless_err r (λ r,
  {| rq_verb := rq_verb r; rq_pathPrefix := rq_pathPrefix r; rq_namespace := rq_namespace r;
     rq_namespaceSet := rq_namespaceSet r; rq_resource := rq_resource r;
     rq_resourceName := rq_resourceName r; rq_subresource := rq_subresource r;
     rq_params := p; rq_timeout := rq_timeout r; rq_body := rq_body r;
     rq_contentType := rq_contentType r; rq_err := None |}).

Definition rq_Timeout (d : Z) (r : Request) : Request := unless_err r (λ r,
  {| rq_verb := rq_verb r; rq_pathPrefix := rq_pathPrefix r; rq_namespace := rq_namespace r;
     rq_namespaceSet := rq_namespaceSet r; rq_resource := rq_resource r;
     rq_resourceName := rq_resourceName r; rq_subresource := rq_subresource r;
     rq_params := rq_params r; rq_timeout := d; rq_body := rq_body r;
     rq_contentType := rq_contentType r; rq_err := None |}).

(** The body as a value: an object or options, which are not nil here, or bytes. *)
Definition rq_Body (b : Body) (r : Request) : Request := unless_err r (λ r,
  {| rq_verb := rq_verb r; rq_pathPrefix := rq_pathPrefix r; rq_namespace := rq_namespace r;
     rq_namespaceSet := rq_namespaceSet r; rq_resource := rq_resource r;
     rq_resourceName := rq_resourceName r; rq_subresource := rq_subresource r;
     rq_params := rq_params r; rq_timeout := rq_timeout r; rq_body := b;
     rq_contentType := rq_contentType r; rq_err := None |}).

(** [RESTClient.Patch] sets the content type. *)
Definition set_contentType (pt : string) (r : Request) : Request :=
  {| rq_verb := rq_verb r; rq_pathPrefix := rq_pathPrefix r; rq_namespace := rq_namespace r;
     rq_namespaceSet := rq_namespaceSet r; rq_resource := rq_resource r;
     rq_resourceName := rq_resourceName r; rq_subresource := rq_subresource r;
     rq_params := rq_params r; rq_timeout := rq_timeout r; rq_body := rq_body r;
     rq_contentType := pt; rq_err := rq_err r |}.

(** [requestPreflightCheck]: names need a namespace. *)
Definition preflight (r : Request) : option error :=
  if negb (rq_namespaceSet r) || negb (String.eqb (rq_namespace r) "") then None
  else if String.eqb (rq_verb r) "POST"
       then Some (PlainError "an empty namespace may not be set during creation")
  else if existsb (String.eqb (rq_verb r)) ["GET"; "PUT"; "DELETE"]
          && negb (String.eqb (rq_resourceName r) "")
       then Some (PlainError "an empty namespace may not be set when a resource name is provided")
  else None.

(** [Request.URL], the path. *)
Definition rq_path (r : Request) : list string :=
  rq_pathPrefix r ++
  (if rq_namespaceSet r && negb (String.eqb (rq_namespace r) "") then ["namespaces"; rq_namespace r] else []) ++
  join_segments [rq_resource r] ++ join_segments [rq_resourceName r] ++ rq_subresource r.

(** What goes out: nothing when the request could not be built. *)
Definition send (r : Request) : res Request :=
  match rq_err r with
  | Some e => Err e
  | None => match preflight r with Some e => Err e | None => Ok r end
  end.

(** ** Requests as the server reads them ([RequestInfoFactory.NewRequestInfo]) *)

Record RequestInfo := {
  ri_Verb : string;
  ri_APIGroup : string;
  ri_APIVersion : string;
  ri_Namespace : string;
  ri_Resource : string;
  ri_Name : string;
  ri_Subresource : string
}.

Definition method_verb (m : string) : string :=
  if String.eqb m "POST" then "create"
  else if String.eqb m "GET" then "get"
  else if String.eqb m "PUT" then "update"
  else if String.eqb m "PATCH" then "patch"
  else if String.eqb m "DELETE" then "delete" else "".

Definition namespaceSubresources : list string := ["status"; "finalize"].

Definition is_watch (p : Params) : bool := match p with ListParams o => lo_Watch o | _ => false end.
Definition field_selector (p : Params) : string :=
  match p with ListParams o => lo_FieldSelector o | _ => "" end.

(** [FieldSelector.RequiresExactMatch("metadata.name")] and the label selectors of
    list options. *)
Class Selectors := {
  exact_name : string → option string;
  parse_labels : string → res (gomap string → bool)
}.

Section Server.

Context `{Selectors}.

(** The namespace of a path below the group and version, and the parts from the
    resource on. *)
Definition namespace_parts (rest : list string) : string * list string :=
  match rest with
  | "namespaces" :: ns :: more =>
      match more with
      | k :: _ => if existsb (String.eqb k) namespaceSubresources then (ns, rest) else (ns, more)
      | [] => (ns, rest)
      end
  | _ => ("", rest)
  end.

(** The verb and the name, once it is known whether there is a name. *)
Definition final_verb (verb name : string) (p : Params) : string * string :=
  let '(verb, name) :=
    if String.eqb name "" && String.eqb verb "get"
    then (if is_watch p then "watch" else "list",
          if String.eqb (field_selector p) "" then name
          else match exact_name (field_selector p) with
               | Some n => if valid_segment n then n else name
               | None => name
               end)
    else (verb, name) in
  (if String.eqb name "" && String.eqb verb "delete" then "deletecollection" else verb, name).

(** [None] when it is not the request of a resource of a group. *)
Definition NewRequestInfo (method : string) (parts : list string) (p : Params) : option RequestInfo :=
  match parts with
  | "apis" :: group :: version :: ((part :: more) as rest) =>
      let special := existsb (String.eqb part) ["proxy"; "watch"] in
      let '(verb, rest) := if special then (part, more) else (method_verb method, rest) in
      match rest with
      | [] => None
      | _ =>
          let '(ns, rest) := namespace_parts rest in
          let sub := if String.eqb verb "proxy" then "" else default "" (rest !! 2%nat) in
          let '(verb, name) := final_verb verb (default "" (rest !! 1%nat)) p in
          Some {| ri_Verb := verb; ri_APIGroup := group; ri_APIVersion := version;
                  ri_Namespace := ns; ri_Resource := default "" (rest !! 0%nat);
                  ri_Name := name; ri_Subresource := sub |}
      end
  | _ => None
  end.

Definition request_info (r : Request) : option RequestInfo :=
  NewRequestInfo (rq_verb r) (rq_path r) (rq_params r).

End Server.

(** ** The typed client ([typed/apps/v1alpha1/sidekick.go]) *)

Record sidekicks := { sks_client : list string; sks_ns : string }.

(** [newSidekicks]: the path prefix of the REST client and the namespace. *)
Definition newSidekicks (prefix : list string) (namespace : string) : sidekicks :=
  {| sks_client := prefix; sks_ns := namespace |}.

(** [time.Duration( *opts.TimeoutSeconds) * time.Second]. *)
Definition list_timeout (o : ListOptions) : Z :=
  match lo_TimeoutSeconds o with Some s => wrap64 (s * 1000000000) | None => 0 end.

(** The request of each method. *)
Definition sidekicks_Get (c : sidekicks) (name : string) (options : json) : Request :=
  rq_VersionedParams (OtherParams options)
    (rq_Name name (rq_Resource "sidekicks" (rq_Namespace (sks_ns c) (NewRequest (sks_client c) "GET")))).

Definition sidekicks_List (c : sidekicks) (opts : ListOptions) : Request :=
  rq_Timeout (list_timeout opts) (rq_VersionedParams (ListParams opts)
    (rq_Resource "sidekicks" (rq_Namespace (sks_ns c) (NewRequest (sks_client c) "GET")))).

Definition sidekicks_Watch (c : sidekicks) (opts : ListOptions) : Request :=
  rq_Timeout (list_timeout opts) (rq_VersionedParams (ListParams (set_Watch true opts))
    (rq_Resource "sidekicks" (rq_Namespace (sks_ns c) (NewRequest (sks_client c) "GET")))).

Definition sidekicks_Create (c : sidekicks) (sidekick : Sidekick) (opts : json) : Request :=
  rq_Body (ObjectBody sidekick) (rq_VersionedParams (OtherParams opts)
    (rq_Resource "sidekicks" (rq_Namespace (sks_ns c) (NewRequest (sks_client c) "POST")))).

Definition sidekicks_Update (c : sidekicks) (sidekick : Sidekick) (opts : json) : Request :=
  rq_Body (ObjectBody sidekick) (rq_VersionedParams (OtherParams opts)
    (rq_Name (Name (sk_Meta sidekick))
      (rq_Resource "sidekicks" (rq_Namespace (sks_ns c) (NewRequest (sks_client c) "PUT"))))).

Definition sidekicks_UpdateStatus (c : sidekicks) (sidekick : Sidekick) (opts : json) : Request :=
  rq_Body (ObjectBody sidekick) (rq_VersionedParams (OtherParams opts)
    (rq_SubResource ["status"] (rq_Name (Name (sk_Meta sidekick))
      (rq_Resource "sidekicks" (rq_Namespace (sks_ns c) (NewRequest (sks_client c) "PUT")))))).

Definition sidekicks_Delete (c : sidekicks) (name : string) (opts : json) : Request :=
  rq_Body (OptionsBody opts)
    (rq_Name name (rq_Resource "sidekicks" (rq_Namespace (sks_ns c) (NewRequest (sks_client c) "DELETE")))).

Definition sidekicks_DeleteCollection (c : sidekicks) (opts : json) (listOpts : ListOptions) : Request :=
  rq_Body (OptionsBody opts) (rq_Timeout (list_timeout listOpts) (rq_VersionedParams (ListParams listOpts)
    (rq_Resource "sidekicks" (rq_Namespace (sks_ns c) (NewRequest (sks_client c) "DELETE"))))).

Definition sidekicks_Patch (c : sidekicks) (name pt data : string) (opts : json) (subresources : list string) : Request :=
  rq_Body (BytesBody data) (rq_VersionedParams (OtherParams opts)
    (rq_SubResource subresources (rq_Name name
      (rq_Resource "sidekicks" (rq_Namespace (sks_ns c)
        (set_contentType pt (NewRequest (sks_client c) "PATCH"))))))).

(** [.Do(ctx).Into(result)]: the methods that return an object return an empty one
    beside an error. *)
Definition do_into {A} (exec : Request → res A) (zero : A) (r : Request) : A * option error :=
  match send r with
  | Err e => (zero, Some e)
  | Ok r => match exec r with Ok a => (a, None) | Err e => (zero, Some e) end
  end.

(** ** The fake client ([typed/apps/v1alpha1/fake/fake_sidekick.go]) *)

(** What an action carries besides where it goes. *)
Inductive Payload :=
| NoPayload
| ObjectPayload (s : Sidekick)
| PatchPayload (pt data : string)
| OptionsPayload (o : json).

Record Action := {
  a_Verb : string;
  a_Resource : GroupVersionResource;
  a_Namespace : string;
  a_Subresource : list string;
  a_Name : string;
  a_Payload : Payload
}.

Definition sidekicksResource : GroupVersionResource :=
  {| gvr_Group := SchemeGroupVersion.1; gvr_Version := SchemeGroupVersion.2;
     gvr_Resource := "sidekicks" |}.

Definition fake_action (verb ns : string) (sub : list string) (name : string) (p : Payload) : Action :=
  {| a_Verb := verb; a_Resource := sidekicksResource; a_Namespace := ns; a_Subresource := sub;
     a_Name := name; a_Payload := p |}.

(** The action of each call; that of an update finds the name in its object. *)
Definition FakeSidekicks_Get (ns name : string) : Action := fake_action "get" ns [] name NoPayload.
Definition FakeSidekicks_List (ns : string) : Action := fake_action "list" ns [] "" NoPayload.
Definition FakeSidekicks_Watch (ns : string) : Action := fake_action "watch" ns [] "" NoPayload.
Definition FakeSidekicks_Create (ns : string) (s : Sidekick) : Action := fake_action "create" ns [] "" (ObjectPayload s).
Definition FakeSidekicks_Update (ns : string) (s : Sidekick) : Action :=
  fake_action "update" ns [] (Name (sk_Meta s)) (ObjectPayload s).
Definition FakeSidekicks_UpdateStatus (ns : string) (s : Sidekick) : Action :=
  fake_action "update" ns ["status"] (Name (sk_Meta s)) (ObjectPayload s).
Definition FakeSidekicks_Delete (ns name : string) (opts : json) : Action :=
  fake_action "delete" ns [] name (OptionsPayload opts).
Definition FakeSidekicks_DeleteCollection (ns : string) : Action := fake_action "delete-collection" ns [] "" NoPayload.
Definition FakeSidekicks_Patch (ns name pt data : string) (subresources : list string) : Action :=
  fake_action "patch" ns (join_segments subresources) name (PatchPayload pt data).

(** What the methods that return an object make of the reaction to their action. *)
Definition invoke_result {A} (invokes : Action → option A * option error) (a : Action)
    : option A * option error :=
  let '(obj, err) := invokes a in
  match obj with None => (None, err) | Some o => (Some o, err) end.

(** The items [List] returns, of those the tracker has. *)
Definition FakeSidekicks_items `{Selectors} (opts : ListOptions) (items : list Sidekick) : outcome (list Sidekick) :=
  match parse_labels (lo_LabelSelector opts) with
  | Err _ => Panicked "invalid selector"
  | Ok matches => Returned (List.filter (λ s, matches (Labels (sk_Meta s))) items)
  end.

(** ** Clients from configurations ([clientset.go], [typed/apps/v1alpha1/apps_client.go]) *)

(** [rest.Config]: the queries per second only matter by their sign. *)
Record Config := {
  cfg_UserAgent : string;
  cfg_QPS : Z;
  cfg_Burst : Z;
  cfg_RateLimiter : option (Z * Z);
  cfg_GroupVersion : option (string * string);
  cfg_APIPath : string;
  cfg_NegotiatedSerializer : string
}.
Definition set_UserAgent (u : string) (c : Config) : Config :=
  {| cfg_UserAgent := u; cfg_QPS := cfg_QPS c; cfg_Burst := cfg_Burst c;
     cfg_RateLimiter := cfg_RateLimiter c; cfg_GroupVersion := cfg_GroupVersion c;
     cfg_APIPath := cfg_APIPath c; cfg_NegotiatedSerializer := cfg_NegotiatedSerializer c |}.
Definition set_RateLimiter (l : option (Z * Z)) (c : Config) : Config :=
  {| cfg_UserAgent := cfg_UserAgent c; cfg_QPS := cfg_QPS c; cfg_Burst := cfg_Burst c;
     cfg_RateLimiter := l; cfg_GroupVersion := cfg_GroupVersion c;
     cfg_APIPath := cfg_APIPath c; cfg_NegotiatedSerializer := cfg_NegotiatedSerializer c |}.

(** client-go: transports, REST clients and discovery clients. *)
Class RestLibrary := {
  http_client : Type;
  rest_client : Type;
  discovery_client : Type;
  DefaultKubernetesUserAgent : string;
  HTTPClientFor : Config → res http_client;
  RESTClientForConfigAndClient : Config → http_client → res rest_client;
  NewDiscoveryClientForConfigAndClient : Config → http_client → res discovery_client
}.

Section Clients.

Context `{RestLibrary}.

Definition default_user_agent (c : Config) : Config :=
  if String.eqb (cfg_UserAgent c) "" then set_UserAgent DefaultKubernetesUserAgent c else c.

(** [setConfigDefaults] of the group's client. *)
Definition setConfigDefaults (c : Config) : Config :=
  default_user_agent
    {| cfg_UserAgent := cfg_UserAgent c; cfg_QPS := cfg_QPS c; cfg_Burst := cfg_Burst c;
       cfg_RateLimiter := cfg_RateLimiter c; cfg_GroupVersion := Some SchemeGroupVersion;
       cfg_APIPath := "/apis"; cfg_NegotiatedSerializer := "scheme.Codecs.WithoutConversion" |}.

(** [AppsV1alpha1Client]: [NewForConfigAndClient] and [NewForConfig]. *)
Definition apps_NewForConfigAndClient (c : Config) (h : http_client) : res rest_client :=
  RESTClientForConfigAndClient (setConfigDefaults c) h.

Definition apps_NewForConfig (c : Config) : res rest_client :=
  h ← HTTPClientFor (setConfigDefaults c);
  apps_NewForConfigAndClient (setConfigDefaults c) h.

Record Clientset := { cs_appsV1alpha1 : rest_client; cs_DiscoveryClient : discovery_client }.

Definition burst_error : string :=
  "burst is required to be greater than 0 when RateLimiter is not set and QPS is set to greater than 0".

(** A token bucket of the rate and burst, when there is a rate and no limiter. *)
Definition with_rate_limiter (c : Config) : res Config :=
  if bool_decide (cfg_RateLimiter c = None) && (0 <? cfg_QPS c) then
    if cfg_Burst c <=? 0 then Err (PlainError burst_error)
    else Ok (set_RateLimiter (Some (cfg_QPS c, cfg_Burst c)) c)
  else Ok c.

Definition NewForConfigAndClient (c : Config) (h : http_client) : res Clientset :=
  c ← with_rate_limiter c;
  apps ← apps_NewForConfigAndClient c h;
  d ← NewDiscoveryClientForConfigAndClient c h;
  Ok {| cs_appsV1alpha1 := apps; cs_DiscoveryClient := d |}.

Definition NewForConfig (c : Config) : res Clientset :=
  h ← HTTPClientFor (default_user_agent c);
  NewForConfigAndClient (default_user_agent c) h.

(** [New] for a REST client, with the discovery client for it. *)
Definition New (discover : rest_client → discovery_client) (c : rest_client) : Clientset :=
  {| cs_appsV1alpha1 := c; cs_DiscoveryClient := discover c |}.

(** [Discovery] and [RESTClient] of a client that may be nil. *)
Definition Clientset_Discovery (c : option Clientset) : option discovery_client :=
  match c with None => None | Some c => Some (cs_DiscoveryClient c) end.
Definition AppsV1alpha1_RESTClient (c : option rest_client) : option rest_client :=
  match c with None => None | Some c => Some c end.

Definition NewForConfigOrDie (c : Config) : outcome Clientset :=
  match NewForConfig c with Ok cs => Returned cs | Err _ => Panicked "NewForConfig" end.

End Clients.
