(* ===== verification/ClientsetProps.v ===== *)
(** * Typed and fake client

    Every call of the Sidekick interface, what the typed client sends for it as
    the API server reads it, and what the fake client records. *)

From S2P Require Import Prelude Effects GoStd Types Crds Clientset.

(** ** The interface ([SidekickInterface]) *)

Inductive sidekick_call :=
| CGet (name : string) (opts : json)
| CList (opts : ListOptions)
| CWatch (opts : ListOptions)
| CCreate (s : Sidekick) (opts : json)
| CUpdate (s : Sidekick) (opts : json)
| CUpdateStatus (s : Sidekick) (opts : json)
| CDelete (name : string) (opts : json)
| CDeleteCollection (opts : json) (listOpts : ListOptions)
| CPatch (name pt data : string) (opts : json) (subresources : list string).

(** The path of the REST client's group and version. *)
Definition api_prefix : list string := ["apis"; SchemeGroupVersion.1; SchemeGroupVersion.2].

Definition typed_request (ns : string) (c : sidekick_call) : Request :=
  let k := newSidekicks api_prefix ns in
  match c with
  | CGet name o => sidekicks_Get k name o
  | CList o => sidekicks_List k o
  | CWatch o => sidekicks_Watch k o
  | CCreate s o => sidekicks_Create k s o
  | CUpdate s o => sidekicks_Update k s o
  | CUpdateStatus s o => sidekicks_UpdateStatus k s o
  | CDelete name o => sidekicks_Delete k name o
  | CDeleteCollection o lo => sidekicks_DeleteCollection k o lo
  | CPatch name pt data o subs => sidekicks_Patch k name pt data o subs
  end.

Definition fake_request (ns : string) (c : sidekick_call) : Action :=
  match c with
  | CGet name _ => FakeSidekicks_Get ns name
  | CList _ => FakeSidekicks_List ns
  | CWatch _ => FakeSidekicks_Watch ns
  | CCreate s _ => FakeSidekicks_Create ns s
  | CUpdate s _ => FakeSidekicks_Update ns s
  | CUpdateStatus s _ => FakeSidekicks_UpdateStatus ns s
  | CDelete name o => FakeSidekicks_Delete ns name o
  | CDeleteCollection _ _ => FakeSidekicks_DeleteCollection ns
  | CPatch name pt data _ subs => FakeSidekicks_Patch ns name pt data subs
  end.

(** ** What is sent *)

Definition named (name : string) : bool := negb (String.eqb name "") && valid_segment name.

(** The calls the typed client lets out: names are path segments and not empty, and
    an object is addressed in a namespace (except by a patch). *)
Definition addressed (ns : string) (c : sidekick_call) : bool :=
  valid_segment ns &&
  match c with
  | CGet name _ | CDelete name _ => named name && negb (String.eqb ns "")
  | CUpdate s _ | CUpdateStatus s _ => named (Name (sk_Meta s)) && negb (String.eqb ns "")
  | CCreate _ _ => negb (String.eqb ns "")
  | CPatch name _ _ _ subs => named name && forallb valid_segment subs
  | CList _ | CWatch _ | CDeleteCollection _ _ => true
  end.

(** A request on its way: the steps taken so far, without an error. *)
Definition built (verb ct : string) (nsSet : bool) (ns resource name : string) (sub : list string)
    (p : Params) (d : Z) (b : Body) : Request :=
  {| rq_verb := verb; rq_pathPrefix := api_prefix; rq_namespace := ns; rq_namespaceSet := nsSet;
     rq_resource := resource; rq_resourceName := name; rq_subresource := sub; rq_params := p;
     rq_timeout := d; rq_body := b; rq_contentType := ct; rq_err := None |}.

Section Steps.

Variables (verb ct ns name : string) (sub : list string) (p : Params) (d : Z) (b : Body) (e : error) (r : Request).

Lemma step_new : NewRequest api_prefix verb = built verb "" false "" "" "" [] NoParams 0 NoBody.
Proof. done. Qed.
Lemma step_contentType pt :
  set_contentType pt (built verb ct false "" "" "" [] NoParams 0 NoBody) =
  built verb pt false "" "" "" [] NoParams 0 NoBody.
Proof. done. Qed.
Lemma step_namespace :
  rq_Namespace ns (built verb ct false "" "" "" [] p d b) =
  if valid_segment ns then built verb ct true ns "" "" [] p d b
  else rq_fail (built verb ct false "" "" "" [] p d b) (PlainError "invalid namespace").
Proof. unfold rq_Namespace, unless_err. cbn -[valid_segment]. by destruct (valid_segment ns). Qed.
Lemma step_resource :
  rq_Resource "sidekicks" (built verb ct true ns "" "" [] p d b) = built verb ct true ns "sidekicks" "" [] p d b.
Proof. done. Qed.
Lemma step_name :
  rq_Name name (built verb ct true ns "sidekicks" "" [] p d b) =
  if named name then built verb ct true ns "sidekicks" name [] p d b
  else rq_fail (built verb ct true ns "sidekicks" "" [] p d b)
         (PlainError (if String.eqb name "" then "resource name may not be empty" else "invalid resource name")).
Proof.
  unfold rq_Name, unless_err, named. cbn -[valid_segment String.eqb].
  destruct (String.eqb name ""); [done|]. cbn -[valid_segment]. by destruct (valid_segment name).
Qed.
Lemma step_sub subs :
  rq_SubResource subs (built verb ct true ns "sidekicks" name [] p d b) =
  if forallb valid_segment subs then built verb ct true ns "sidekicks" name (join_segments subs) p d b
  else rq_fail (built verb ct true ns "sidekicks" name [] p d b) (PlainError "invalid subresource").
Proof. unfold rq_SubResource, unless_err. cbn -[valid_segment]. by destruct (forallb _ _). Qed.
Lemma step_params p' :
  rq_VersionedParams p' (built verb ct true ns "sidekicks" name sub p d b) =
  built verb ct true ns "sidekicks" name sub p' d b.
Proof. done. Qed.
Lemma step_timeout d' :
  rq_Timeout d' (built verb ct true ns "sidekicks" name sub p d b) =
  built verb ct true ns "sidekicks" name sub p d' b.
Proof. done. Qed.
Lemma step_body b' :
  rq_Body b' (built verb ct true ns "sidekicks" name sub p d b) =
  built verb ct true ns "sidekicks" name sub p d b'.
Proof. done. Qed.

Lemma step_status : forallb valid_segment ["status"] = true.
Proof. reflexivity. Qed.

(** A failed request stays as it is and is not sent. *)
Lemma fail_resource res : rq_Resource res (rq_fail r e) = rq_fail r e. Proof. done. Qed.
Lemma fail_name : rq_Name name (rq_fail r e) = rq_fail r e. Proof. done. Qed.
Lemma fail_sub : rq_SubResource sub (rq_fail r e) = rq_fail r e. Proof. done. Qed.
Lemma fail_params : rq_VersionedParams p (rq_fail r e) = rq_fail r e. Proof. done. Qed.
Lemma fail_timeout : rq_Timeout d (rq_fail r e) = rq_fail r e. Proof. done. Qed.
Lemma fail_body : rq_Body b (rq_fail r e) = rq_fail r e. Proof. done. Qed.
Lemma fail_send : send (rq_fail r e) = Err e. Proof. done. Qed.

Lemma named_nonempty : named name = true → String.eqb name "" = false.
Proof. unfold named. by destruct (String.eqb name ""). Qed.

(** A request that was built is sent, unless an object is addressed without a
    namespace. *)
Lemma send_built :
  (String.eqb ns "" = false ∨ verb = "PATCH" ∨ name = "" ∧ verb ≠ "POST") →
  let r := built verb ct true ns "sidekicks" name sub p d b in send r = Ok r.
Proof.
  intros H. unfold send, preflight. cbn -[String.eqb existsb]. destruct (String.eqb ns "") eqn:E; [|done].
  destruct H as [?|[->|[-> Hv]]]; [done|done|]. cbn -[String.eqb existsb]. rewrite (proj2 (String.eqb_neq _ _) Hv).
  by rewrite andb_false_r.
Qed.
Lemma send_unplaced :
  String.eqb ns "" = true → verb = "POST" ∨ named name = true ∧ verb ∈ ["GET"; "PUT"; "DELETE"] →
  ∃ e, send (built verb ct true ns "sidekicks" name sub p d b) = Err e.
Proof.
  intros E H. unfold send, preflight. cbn -[String.eqb existsb]. rewrite E. cbn -[String.eqb existsb].
  destruct H as [->|[Hn Hv]]; [by eexists|]. rewrite (named_nonempty Hn).
  repeat (apply elem_of_cons in Hv as [->|Hv]; [by eexists|]). by apply elem_of_nil in Hv.
Qed.

End Steps.

Create Rewrite HintDb request.
#[local] Hint Rewrite step_new step_contentType step_namespace step_resource step_name step_sub
  step_params step_timeout step_body step_status fail_resource fail_name fail_sub fail_params fail_timeout
  fail_body fail_send : request.

(** Builds the request of a call, by cases on whether its names are fit. *)
Ltac build :=
  unfold typed_request, newSidekicks, sidekicks_Get, sidekicks_List, sidekicks_Watch,
    sidekicks_Create, sidekicks_Update, sidekicks_UpdateStatus, sidekicks_Delete,
    sidekicks_DeleteCollection, sidekicks_Patch; cbn [sks_client sks_ns];
  repeat (autorewrite with request; cbn [andb];
    match goal with
    | |- context [if valid_segment ?s then _ else _] => destruct (valid_segment s)
    | |- context [if named ?s then _ else _] => destruct (named s) eqn:?
    | |- context [if forallb valid_segment ?l then _ else _] => destruct (forallb valid_segment l)
    end); autorewrite with request; cbn [andb].

Lemma typed_sent ns c :
  if addressed ns c then send (typed_request ns c) = Ok (typed_request ns c) else ∃ e, send (typed_request ns c) = Err e.
Proof.
  destruct c; unfold addressed; build; eauto; try (by apply send_built; auto);
    (destruct (String.eqb ns "") eqn:E; cbn; [apply send_unplaced; [done|set_solver]|apply send_built; auto]).
Qed.

(** ** What the server and the fake see *)

(** The verb of collection deletes has another name in the fake. *)
Definition server_verb (v : string) : string :=
  if String.eqb v "delete-collection" then "deletecollection" else v.

(** An action as the server would be asked for it. *)
Definition info_of (a : Action) : RequestInfo :=
  {| ri_Verb := server_verb (a_Verb a); ri_APIGroup := gvr_Group (a_Resource a);
     ri_APIVersion := gvr_Version (a_Resource a); ri_Namespace := a_Namespace a;
     ri_Resource := gvr_Resource (a_Resource a); ri_Name := a_Name a;
     ri_Subresource := default "" (head (a_Subresource a)) |}.

(** What a request carries, options that travel as parameters aside. *)
Definition payload (r : Request) : Payload :=
  match rq_body r with
  | NoBody => NoPayload
  | ObjectBody s => ObjectPayload s
  | BytesBody data => PatchPayload (rq_contentType r) data
  | OptionsBody o => OptionsPayload o
  end.

(** Calls that say the same to both: the options of a list do not ask for a watch
    or for one object by its name. *)
Definition plain_call (c : sidekick_call) : Prop :=
  match c with
  | CList o => lo_Watch o = false ∧ lo_FieldSelector o = ""
  | CWatch o => lo_FieldSelector o = ""
  | _ => True
  end.

Section Agreement.

Context `{Selectors}.

Lemma method_not_proxy m : String.eqb (method_verb m) "proxy" = false.
Proof. unfold method_verb. by repeat case_match. Qed.

(** How the server reads a request, for a collection and for an object. *)
Lemma collection_info verb ct ns p d b :
  request_info (built verb ct true ns "sidekicks" "" [] p d b) =
  let '(v, n) := final_verb (method_verb verb) "" p in
  Some {| ri_Verb := v; ri_APIGroup := SchemeGroupVersion.1; ri_APIVersion := SchemeGroupVersion.2;
          ri_Namespace := ns; ri_Resource := "sidekicks"; ri_Name := n; ri_Subresource := "" |}.
Proof.
  unfold request_info, rq_path. cbn -[String.eqb method_verb final_verb namespace_parts].
  destruct (String.eqb_spec ns "") as [->|Hns]; cbn -[method_verb final_verb].
  all: by rewrite method_not_proxy.
Qed.

Lemma object_info verb ct ns name sub p d b :
  named name = true →
  request_info (built verb ct true ns "sidekicks" name sub p d b) =
  let '(v, n) := final_verb (method_verb verb) name p in
  Some {| ri_Verb := v; ri_APIGroup := SchemeGroupVersion.1; ri_APIVersion := SchemeGroupVersion.2;
          ri_Namespace := ns; ri_Resource := "sidekicks"; ri_Name := n;
          ri_Subresource := default "" (head sub) |}.
Proof.
  intros Hn%named_nonempty. unfold request_info, rq_path.
  cbn -[String.eqb method_verb final_verb namespace_parts]. rewrite Hn.
  destruct (String.eqb_spec ns "") as [->|Hns]; cbn -[method_verb final_verb]; rewrite method_not_proxy;
    by destruct sub.
Qed.

(** An object keeps its verb and name. *)
Lemma final_verb_object verb name p : named name = true → final_verb verb name p = (verb, name).
Proof. intros Hn%named_nonempty. unfold final_verb. rewrite Hn. cbn -[String.eqb]. by rewrite Hn. Qed.


(** A call whose names do not fit into a path returns an error and nothing is
    sent: an empty or invalid name, an invalid namespace or subresource, or an
    object addressed without a namespace. *)
Theorem unaddressed_call_not_sent ns c :
  addressed ns c = false → ∃ e, send (typed_request ns c) = Err e.
Proof. intros Ha. pose proof (typed_sent ns c) as Hs. by rewrite Ha in Hs. Qed.

End Agreement.

(** ** Timeouts *)

(** The timeout of a list or watch is the number of seconds asked for exactly
    when that many nanoseconds fit into 64 bits (about 292 years); a larger number
    wraps around. *)
Theorem list_timeout_exact o s :
  lo_TimeoutSeconds o = Some s →
  list_timeout o = s * 1000000000 ↔ - 9223372036 ≤ s ≤ 9223372036.
Proof.
  intros Ho. unfold list_timeout. rewrite Ho. split.
  - intros E. pose proof (wrap64_range (s * 1000000000)) as Hr. rewrite E in Hr.
    unfold in_int in Hr. lia.
  - intros Hs. apply wrap64_id. unfold in_int. lia.
Qed.

(** ** Configurations *)

Section Config.

Context `{RestLibrary}.

(** A configuration with a rate but neither a limiter nor a burst. *)
Definition rate_without_burst (c : Config) : Prop :=
  cfg_RateLimiter c = None ∧ 0 < cfg_QPS c ∧ cfg_Burst c ≤ 0.

(** The limiter a client set ends up with. *)
Definition limiter (c : Config) : option (Z * Z) :=
  match cfg_RateLimiter c with
  | Some l => Some l
  | None => if 0 <? cfg_QPS c then Some (cfg_QPS c, cfg_Burst c) else None
  end.

(** What the client of the group is configured with. *)
Definition group_config (c : Config) : Config :=
  {| cfg_UserAgent := if String.eqb (cfg_UserAgent c) "" then DefaultKubernetesUserAgent else cfg_UserAgent c;
     cfg_QPS := cfg_QPS c; cfg_Burst := cfg_Burst c; cfg_RateLimiter := limiter c;
     cfg_GroupVersion := Some SchemeGroupVersion; cfg_APIPath := "/apis";
     cfg_NegotiatedSerializer := "scheme.Codecs.WithoutConversion" |}.

Lemma rate_refused c :
  rate_without_burst c → with_rate_limiter (default_user_agent c) = Err (PlainError burst_error).
Proof.
  destruct c as [u q b l g p n]. intros (Hl & Hq & Hb). cbn in Hl, Hq, Hb. subst l.
  unfold default_user_agent, with_rate_limiter. cbn -[String.eqb]. destruct (String.eqb u ""); cbn;
    by rewrite (proj2 (Z.ltb_lt _ _) Hq), (proj2 (Z.leb_le _ _) Hb).
Qed.

Lemma rate_accepted c :
  DefaultKubernetesUserAgent ≠ "" → ¬ rate_without_burst c →
  ∃ c', with_rate_limiter (default_user_agent c) = Ok c' ∧ setConfigDefaults c' = group_config c.
Proof.
  destruct c as [u q b l g p n]. intros Hua Hn. apply String.eqb_neq in Hua.
  assert (Hb : l = None → (0 <? q) = true → (b <=? 0) = false).
  { intros -> Hq%Z.ltb_lt. apply Z.leb_gt. destruct (Z.le_gt_cases b 0); [|lia].
    exfalso. by apply Hn. }
  unfold default_user_agent, with_rate_limiter, setConfigDefaults, group_config, limiter.
  cbn -[String.eqb]. destruct l as [l|]; cbn -[String.eqb]; [|specialize (Hb eq_refl)];
    destruct (String.eqb u "") eqn:Eu; cbn -[String.eqb]; try destruct (0 <? q) eqn:Eq;
    cbn -[String.eqb]; rewrite ?Hb by done; eexists; (split; [done|]);
    unfold default_user_agent; cbn -[String.eqb]; rewrite ?Hua, ?Eu; cbn; done.
Qed.

(** A client set is refused for a rate without a burst; otherwise, when client-go
    can build the clients, it is built, and the client of the group talks to
    [/apis] in the group and version of the Sidekick resource, with a user agent and
    with the limiter of the configuration or one made of its rate and burst. *)
Theorem clientset_configured c h :
  DefaultKubernetesUserAgent ≠ "" → HTTPClientFor (default_user_agent c) = Ok h →
  (rate_without_burst c → ∃ e, NewForConfig c = Err e) ∧
  (¬ rate_without_burst c → ∀ a,
    RESTClientForConfigAndClient (group_config c) h = Ok a →
    (∀ c', ∃ d, NewDiscoveryClientForConfigAndClient c' h = Ok d) →
    ∃ cs, NewForConfig c = Ok cs ∧ cs_appsV1alpha1 cs = a).
Proof.
  intros Hua Hh. unfold NewForConfig, NewForConfigAndClient. rewrite Hh. cbn. split.
  - intros Hr. rewrite rate_refused by done. by eexists.
  - intros Hn a Ha Hd. destruct (rate_accepted c Hua Hn) as (c' & -> & Hc'). cbn.
    unfold apps_NewForConfigAndClient. rewrite Hc', Ha. cbn. destruct (Hd c') as [d ->]. by eexists.
Qed.

End Config.
