(* ===== verification/ClientsetWitness.v ===== *)
(** * Concrete calls and configurations *)

From S2P Require Import Prelude Effects GoStd Types Crds Leader Fixtures Clientset ClientsetProps.

(** No field selector asks for a name, no label selector restricts. *)
#[export] Instance ex_Selectors : Selectors :=
  {| exact_name _ := None; parse_labels _ := Ok (λ _, true) |}.

(** Clients that are their configurations. *)
#[export] Instance ex_RestLibrary : RestLibrary :=
  {| http_client := unit; rest_client := Config; discovery_client := Config;
     DefaultKubernetesUserAgent := "sidekick"; HTTPClientFor _ := Ok tt;
     RESTClientForConfigAndClient c _ := Ok c; NewDiscoveryClientForConfigAndClient c _ := Ok c |}.

Definition ex_list_options (seconds : Z) : ListOptions :=
  {| lo_LabelSelector := ""; lo_FieldSelector := ""; lo_Watch := false;
     lo_TimeoutSeconds := Some seconds |}.

Definition ex_Config (qps burst : Z) : Config :=
  {| cfg_UserAgent := ""; cfg_QPS := qps; cfg_Burst := burst; cfg_RateLimiter := None;
     cfg_GroupVersion := None; cfg_APIPath := ""; cfg_NegotiatedSerializer := "" |}.


(** A get without a name. *)
Lemma unaddressed_call_not_sent_witness : ∃ e, send (typed_request "demo" (CGet "" JNull)) = Err e.
Proof. apply (unaddressed_call_not_sent "demo" (CGet "" JNull)). reflexivity. Defined.

Lemma list_timeout_exact_witness :
  list_timeout (ex_list_options 30) = 30000000000 ∧
  list_timeout (ex_list_options 9223372037) ≠ 9223372037000000000.
Proof.
  split; [apply (proj2 (list_timeout_exact (ex_list_options 30) 30 eq_refl)); lia|].
  intros E. apply (proj1 (list_timeout_exact (ex_list_options 9223372037) 9223372037 eq_refl)) in E. lia.
Defined.

(** A rate needs a burst. *)
Lemma clientset_configured_witness :
  (∃ e, NewForConfig (ex_Config 5 0) = Err e) ∧
  (∃ cs, NewForConfig (ex_Config 5 10) = Ok cs ∧ cs_appsV1alpha1 cs = group_config (ex_Config 5 10)).
Proof.
  split.
  - apply (proj1 (clientset_configured (ex_Config 5 0) (tt : @http_client ex_RestLibrary) ltac:(discriminate) eq_refl)).
    split; [reflexivity|cbn; lia].
  - apply (proj2 (clientset_configured (ex_Config 5 10) (tt : @http_client ex_RestLibrary) ltac:(discriminate) eq_refl)).
    + intros (_ & _ & Hb). cbn in Hb. lia.
    + reflexivity.
    + intros c'. eexists. reflexivity.
Defined.
