(* ===== verification/FakeClientset.v ===== *)
(** * The fake clientset ([client/clientset/versioned/fake])

    [NewSimpleClientset] answers the calls of the fake client from an object
    tracker ([client-go/testing/fixture.go]): a map from resources and names to
    objects, and the watches that are told of changes.  Objects are values here:
    the tracker stores, returns and sends deep copies.  The events of a watch
    stay in its channel; nobody reads them. *)

From S2P Require Import Prelude Effects Types Json Cluster Crds Scheme Clientset.

#[export] Instance GroupVersionResource_eq_dec : EqDecision GroupVersionResource.
Proof. solve_decision. Defined.
#[export] Instance GroupVersionResource_countable : Countable GroupVersionResource.
Proof.
  apply (inj_countable' (λ g, (gvr_Group g, gvr_Version g, gvr_Resource g))
    (λ '(g, v, r), {| gvr_Group := g; gvr_Version := v; gvr_Resource := r |})). by intros [].
Defined.

(** ** Watches ([apimachinery/pkg/watch]) *)

Inductive EventType := Added | Modified | Deleted.
#[export] Instance EventType_eq_dec : EqDecision EventType.
Proof. solve_decision. Defined.
Definition DefaultChanSize : nat := 100.

(** A watch of a resource, in a namespace or, when that is empty, in all. *)
Record watcher := { wt_gvr : GroupVersionResource; wt_ns : string; wt_events : list (EventType * Sidekick) }.

(** Sending an event: the channel holds 100. *)
Definition watcher_send (e : EventType * Sidekick) (w : watcher) : outcome watcher :=
  if Nat.leb DefaultChanSize (length (wt_events w)) then Panicked "channel full"
  else Returned {| wt_gvr := wt_gvr w; wt_ns := wt_ns w; wt_events := wt_events w ++ [e] |}.

(** ** The tracker *)

Record tracker := {
  tr_objects : gmap GroupVersionResource (gmap NamespacedName Sidekick);
  tr_watchers : list watcher
}.

Definition NewObjectTracker : tracker := {| tr_objects := ∅; tr_watchers := [] |}.

Definition objects_of (t : tracker) (gvr : GroupVersionResource) : gmap NamespacedName Sidekick :=
  default ∅ (tr_objects t !! gvr).

(** [getWatches]: the watches of the namespace, and those of all namespaces. *)
Definition watches (gvr : GroupVersionResource) (ns : string) (w : watcher) : bool :=
  bool_decide (wt_gvr w = gvr) &&
  (String.eqb (wt_ns w) ns || negb (String.eqb ns "") && String.eqb (wt_ns w) "").

Fixpoint notify (gvr : GroupVersionResource) (ns : string) (e : EventType * Sidekick) (ws : list watcher)
    : outcome (list watcher) :=
  match ws with
  | [] => Returned []
  | w :: ws =>
      match (if watches gvr ns w then watcher_send e w else Returned w) with
      | Panicked m => Panicked m
      | Returned w' =>
          match notify gvr ns e ws with
          | Panicked m => Panicked m
          | Returned ws' => Returned (w' :: ws')
          end
      end
  end.

Definition NewAlreadyExists (resource name : string) : error :=
  ApiError ReasonOther (resource +:+ " " +:+ name +:+ " already exists").
Definition NewBadRequest (msg : string) : error := ApiError ReasonOther msg.

Definition set_Namespace (ns : string) (m : ObjectMeta) : ObjectMeta :=
  {| Name := Name m; GenerateName := GenerateName m; Namespace := ns; UID := UID m;
     Generation := Generation m; DeletionTimestamp := DeletionTimestamp m; Labels := Labels m;
     Annotations := Annotations m; OwnerReferences := OwnerReferences m; Finalizers := Finalizers m |}.

(** The object with the namespace of the request, if it has none. *)
Definition in_namespace (ns : string) (s : Sidekick) : Sidekick :=
  if String.eqb (Namespace (sk_Meta s)) "" then set_sk_Meta (set_Namespace ns (sk_Meta s)) s else s.

Definition set_object (gvr : GroupVersionResource) (key : NamespacedName) (s : Sidekick) (ws : list watcher)
    (t : tracker) : tracker :=
  {| tr_objects := <[gvr := <[key := s]> (objects_of t gvr)]> (tr_objects t); tr_watchers := ws |}.

Definition tracker_add (gvr : GroupVersionResource) (obj : Sidekick) (ns : string) (replaceExisting : bool)
    (t : tracker) : outcome (tracker * option error) :=
  let obj := in_namespace ns obj in
  let key := meta_key (sk_Meta obj) in
  if negb (String.eqb ns (Namespace (sk_Meta obj))) then
    Returned (t, Some (NewBadRequest "request namespace does not match object namespace"))
  else
    match objects_of t gvr !! key with
    | Some _ =>
        if replaceExisting then
          match notify gvr ns (Modified, obj) (tr_watchers t) with
          | Panicked m => Panicked m
          | Returned ws => Returned (set_object gvr key obj ws t, None)
          end
        else Returned (t, Some (NewAlreadyExists (gvr_Resource gvr) (Name (sk_Meta obj))))
    | None =>
        if replaceExisting then Returned (t, Some (NewNotFound (gvr_Resource gvr) (Name (sk_Meta obj))))
        else
          match notify gvr ns (Added, obj) (tr_watchers t) with
          | Panicked m => Panicked m
          | Returned ws => Returned (set_object gvr key obj ws t, None)
          end
    end.

Definition tracker_Get (gvr : GroupVersionResource) (ns name : string) (t : tracker) : res Sidekick :=
  match objects_of t gvr !! mkKey ns name with
  | Some s => Ok s
  | None => Err (NewNotFound (gvr_Resource gvr) name)
  end.

Definition tracker_Delete (gvr : GroupVersionResource) (ns name : string) (t : tracker)
    : outcome (tracker * option error) :=
  match objects_of t gvr !! mkKey ns name with
  | None => Returned (t, Some (NewNotFound (gvr_Resource gvr) name))
  | Some s =>
      match notify gvr ns (Deleted, s) (tr_watchers t) with
      | Panicked m => Panicked m
      | Returned ws =>
          Returned ({| tr_objects := <[gvr := delete (mkKey ns name) (objects_of t gvr)]> (tr_objects t);
                       tr_watchers := ws |}, None)
      end
  end.

(** [filterByNamespace]: by namespace, then by name. *)
Definition sidekick_le (a b : Sidekick) : Prop :=
  let a := sk_Meta a in let b := sk_Meta b in
  if String.eqb (Namespace a) (Namespace b) then String.leb (Name a) (Name b) = true
  else String.leb (Namespace a) (Namespace b) = true.
#[export] Instance sidekick_le_dec : RelDecision sidekick_le.
Proof. intros a b. unfold sidekick_le. case_match; apply _. Defined.

Definition filterByNamespace (objs : gmap NamespacedName Sidekick) (ns : string) : list Sidekick :=
  merge_sort sidekick_le
    (List.filter (λ s, String.eqb ns "" || String.eqb (Namespace (sk_Meta s)) ns) (map snd (map_to_list objs))).

(** The list type is registered with the scheme ([SchemeProps.v]). *)
Definition tracker_List (gvr : GroupVersionResource) (ns : string) (t : tracker) : list Sidekick :=
  filterByNamespace (objects_of t gvr) ns.

Definition tracker_Watch (gvr : GroupVersionResource) (ns : string) (t : tracker) : tracker :=
  {| tr_objects := tr_objects t;
     tr_watchers := tr_watchers t ++ [{| wt_gvr := gvr; wt_ns := ns; wt_events := [] |}] |}.

(** ** Adding objects by their type *)

(** [strings.ToLower], on ASCII. *)
Definition lower_ascii (c : Ascii.ascii) : Ascii.ascii :=
  let n := Ascii.nat_of_ascii c in
  if Nat.leb 65 n && Nat.leb n 90 then Ascii.ascii_of_nat (n + 32) else c.
Fixpoint ToLower (s : string) : string :=
  match s with EmptyString => EmptyString | String c s => String (lower_ascii c) (ToLower s) end.

Definition has_suffix (suffix s : string) : bool :=
  let n := String.length s in let m := String.length suffix in
  Nat.leb m n && String.eqb (String.substring (n - m) m s) suffix.

(** [meta.UnsafeGuessKindToResource], the plural. *)
Definition UnsafeGuessKindToResource (gvk : GroupVersionKind) : GroupVersionResource :=
  let singular := ToLower (gvk_Kind gvk) in
  let resource r := {| gvr_Group := gvk_Group gvk; gvr_Version := gvk_Version gvk; gvr_Resource := r |} in
  if String.eqb (gvk_Kind gvk) "" then {| gvr_Group := ""; gvr_Version := ""; gvr_Resource := "" |}
  else if has_suffix "endpoints" singular then resource singular
  else if has_suffix "s" singular then resource (singular +:+ "es")
  else if has_suffix "y" singular then
    resource (String.substring 0 (String.length singular - 1) singular +:+ "ies")
  else resource (singular +:+ "s").

(** The objects a clientset of this group is made for. *)
Inductive runtime_object := OSidekick (s : Sidekick) | OSidekickList (items : list Sidekick).

(** [tracker.Add] of one Sidekick: under the resource of each of its kinds. *)
Fixpoint add_kinds (gvks : list GroupVersionKind) (s : Sidekick) (t : tracker) : outcome (tracker * option error) :=
  match gvks with
  | [] => Returned (t, None)
  | gvk :: gvks =>
      let gvr := UnsafeGuessKindToResource gvk in
      let gvr := if String.eqb (gvr_Version gvr) APIVersionInternal
                 then {| gvr_Group := gvr_Group gvr; gvr_Version := ""; gvr_Resource := gvr_Resource gvr |}
                 else gvr in
      match tracker_add gvr s (Namespace (sk_Meta s)) false t with
      | Returned (t, None) => add_kinds gvks s t
      | r => r
      end
  end.

Definition add_sidekick (scheme : Scheme) (s : Sidekick) (t : tracker) : outcome (tracker * option error) :=
  match ObjectKinds scheme (sidekick_type "Sidekick") with
  | Err e => Returned (t, Some e)
  | Ok ([], _) => Returned (t, Some (PlainError "no registered kinds"))
  | Ok (gvks, _) => add_kinds gvks s t
  end.

Fixpoint add_all (scheme : Scheme) (l : list Sidekick) (t : tracker) : outcome (tracker * option error) :=
  match l with
  | [] => Returned (t, None)
  | s :: l =>
      match add_sidekick scheme s t with
      | Returned (t, None) => add_all scheme l t
      | r => r
      end
  end.

(** [tracker.Add]; the items of a list are added one by one. *)
Definition tracker_Add (scheme : Scheme) (o : runtime_object) (t : tracker) : outcome (tracker * option error) :=
  match o with OSidekick s => add_sidekick scheme s t | OSidekickList l => add_all scheme l t end.

(** ** Reactions *)

(** What a call gets back: nil, an object, or a list. *)
Inductive reply := RNil | RSidekick (s : Sidekick) | RList (l : list Sidekick).

(** json-patch and strategic merge patch: the patched object, from the type of the
    patch, the patch and the object. *)
Class Patches := { patch_sidekick : string → string → Sidekick → res Sidekick }.

Section Reactions.
Context `{Patches}.

(** After a successful write, the object is read back. *)
Definition read_back (gvr : GroupVersionResource) (ns name : string) (r : outcome (tracker * option error))
    : outcome (tracker * reply * option error) :=
  match r with
  | Panicked m => Panicked m
  | Returned (t, Some e) => Returned (t, RNil, Some e)
  | Returned (t, None) =>
      match tracker_Get gvr ns name t with
      | Ok s => Returned (t, RSidekick s, None)
      | Err e => Returned (t, RNil, Some e)
      end
  end.

(** [ObjectReaction]: whether the action was handled, and how.  The actions of a
    delete-collection are not. *)
Definition ObjectReaction (a : Action) (t : tracker) : option (outcome (tracker * reply * option error)) :=
  let gvr := a_Resource a in let ns := a_Namespace a in
  match a_Verb a, a_Payload a with
  | "list", _ => Some (Returned (t, RList (tracker_List gvr ns t), None))
  | "get", _ =>
      Some (match tracker_Get gvr ns (a_Name a) t with
            | Ok s => Returned (t, RSidekick s, None)
            | Err e => Returned (t, RNil, Some e)
            end)
  | "create", ObjectPayload s =>
      Some (match a_Subresource a with
            | [] => read_back gvr ns (Name (sk_Meta s)) (tracker_add gvr s ns false t)
            | _ =>
                match tracker_Get gvr ns (Name (sk_Meta s)) t with
                | Err e => Returned (t, RNil, Some e)
                | Ok _ => read_back gvr ns (Name (sk_Meta s)) (tracker_add gvr s ns true t)
                end
            end)
  | "update", ObjectPayload s => Some (read_back gvr ns (Name (sk_Meta s)) (tracker_add gvr s ns true t))
  | "delete", _ =>
      Some (match tracker_Delete gvr ns (a_Name a) t with
            | Panicked m => Panicked m
            | Returned (t, err) => Returned (t, RNil, err)
            end)
  | "patch", PatchPayload pt data =>
      Some (match tracker_Get gvr ns (a_Name a) t with
            | Err e => Returned (t, RNil, Some e)
            | Ok old =>
                match patch_sidekick pt data old with
                | Err e => Returned (t, RNil, Some e)
                | Ok new =>
                    if String.eqb pt "application/apply-patch+yaml" then
                      read_back gvr ns (a_Name a) (tracker_add gvr new ns true t)
                    else
                    match tracker_add gvr new ns true t with
                    | Panicked m => Panicked m
                    | Returned (t, Some e) => Returned (t, RNil, Some e)
                    | Returned (t, None) => Returned (t, RSidekick new, None)
                    end
                end
            end)
  | _, _ => None
  end.

(** ** The clientset *)

Record FakeClientset := { fc_actions : list Action; fc_tracker : tracker }.

Fixpoint add_objects (scheme : Scheme) (objects : list runtime_object) (t : tracker) : outcome tracker :=
  match objects with
  | [] => Returned t
  | o :: objects =>
      match tracker_Add scheme o t with
      | Panicked m => Panicked m
      | Returned (_, Some _) => Panicked "tracker.Add"
      | Returned (t, None) => add_objects scheme objects t
      end
  end.

Definition NewSimpleClientset (objects : list runtime_object) : outcome FakeClientset :=
  match fake_scheme with
  | Panicked m => Panicked m
  | Returned scheme =>
      match add_objects scheme objects NewObjectTracker with
      | Panicked m => Panicked m
      | Returned t => Returned {| fc_actions := []; fc_tracker := t |}
      end
  end.

(** [Invokes]: the action is recorded, the reaction run; an action nobody handles
    is answered with the default object. *)
Definition Invokes (a : Action) (dflt : reply) (c : FakeClientset) : outcome (FakeClientset * reply * option error) :=
  let c := {| fc_actions := fc_actions c ++ [a]; fc_tracker := fc_tracker c |} in
  match ObjectReaction a (fc_tracker c) with
  | None => Returned (c, dflt, None)
  | Some (Panicked m) => Panicked m
  | Some (Returned (t, r, err)) => Returned ({| fc_actions := fc_actions c; fc_tracker := t |}, r, err)
  end.

(** [InvokesWatch], with the reaction [NewSimpleClientset] installs. *)
Definition InvokesWatch (a : Action) (c : FakeClientset) : FakeClientset :=
  {| fc_actions := fc_actions c ++ [a];
     fc_tracker := tracker_Watch (a_Resource a) (a_Namespace a) (fc_tracker c) |}.
End Reactions.
