(* ===== verification/FakeClientsetProps.v ===== *)
(** * What the fake clientset promises

    Seen through its calls, the clientset of [NewSimpleClientset] is a map from
    names to Sidekicks; its watches tell the changes of that map. *)

From S2P Require Import Prelude Effects Types Json Cluster Crds Scheme SchemeProps Clientset ClientsetProps.
From S2P Require Import FakeClientset.

(** ** Calls and their specification *)

Abbreviation sidekick_map := (gmap NamespacedName Sidekick).
Abbreviation R := sidekicksResource.

Definition not_found_in (name : string) : error := NewNotFound "sidekicks" name.
Definition wrong_namespace : error := NewBadRequest "request namespace does not match object namespace".

(** What a name is bound to, as a reply. *)
Definition spec_read (ns name : string) (m : sidekick_map) : sidekick_map * reply * option error :=
  match m !! mkKey ns name with
  | Some s => (m, RSidekick s, None)
  | None => (m, RNil, Some (not_found_in name))
  end.

(** A write of [s] under its name, to a name that is taken or is free. *)
Definition spec_write (ns : string) (s : Sidekick) (replace : bool) (m : sidekick_map)
    : sidekick_map * reply * option error :=
  let s := in_namespace ns s in
  let name := Name (sk_Meta s) in
  if String.eqb ns (Namespace (sk_Meta s)) then
    match m !! mkKey ns name, replace with
    | Some _, true | None, false => (<[mkKey ns name := s]> m, RSidekick s, None)
    | Some _, false => (m, RNil, Some (NewAlreadyExists "sidekicks" name))
    | None, true => (m, RNil, Some (not_found_in name))
    end
  else (m, RNil, Some wrong_namespace).

Definition apply_type : string := "application/apply-patch+yaml".

Section Specification.
Context `{Patches}.

Definition spec_patch (ns name pt data : string) (m : sidekick_map) : sidekick_map * reply * option error :=
  match m !! mkKey ns name with
  | None => (m, RNil, Some (not_found_in name))
  | Some old =>
      match patch_sidekick pt data old with
      | Err e => (m, RNil, Some e)
      | Ok new =>
          match spec_write ns new true m with
          | (m, _, Some e) => (m, RNil, Some e)
          | (m, _, None) => if String.eqb pt apply_type then spec_read ns name m else (m, RSidekick new, None)
          end
      end
  end.

Definition spec_call (ns : string) (call : sidekick_call) (m : sidekick_map) : sidekick_map * reply * option error :=
  match call with
  | CGet name _ => spec_read ns name m
  | CList _ => (m, RList (filterByNamespace m ns), None)
  | CWatch _ => (m, RNil, None)
  | CCreate s _ => spec_write ns s false m
  | CUpdate s _ | CUpdateStatus s _ => spec_write ns s true m
  | CDelete name _ =>
      match m !! mkKey ns name with
      | Some _ => (delete (mkKey ns name) m, RNil, None)
      | None => (m, RNil, Some (not_found_in name))
      end
  | CDeleteCollection _ _ => (m, RList [], None)
  | CPatch name pt data _ _ => spec_patch ns name pt data m
  end.

Fixpoint spec_calls (calls : list (string * sidekick_call)) (m : sidekick_map)
    : sidekick_map * list (reply * option error) :=
  match calls with
  | [] => (m, [])
  | (ns, call) :: calls =>
      let '(m, r, err) := spec_call ns call m in
      let '(m, rs) := spec_calls calls m in (m, (r, err) :: rs)
  end.
End Specification.

(** ** The calls on a clientset *)

Definition is_watch (call : sidekick_call) : bool := match call with CWatch _ => true | _ => false end.

Section Calls.
Context `{Patches}.
(** The object the methods hand to [Invokes] for the unhandled case. *)
Context (zero : Sidekick).

Definition default_reply (call : sidekick_call) : reply :=
  match call with CList _ | CDeleteCollection _ _ => RList [] | _ => RSidekick zero end.

Definition fake_call (ns : string) (call : sidekick_call) (c : FakeClientset)
    : outcome (FakeClientset * reply * option error) :=
  if is_watch call then Returned (InvokesWatch (fake_request ns call) c, RNil, None)
  else Invokes (fake_request ns call) (default_reply call) c.

Fixpoint fake_calls (calls : list (string * sidekick_call)) (c : FakeClientset)
    : outcome (FakeClientset * list (reply * option error)) :=
  match calls with
  | [] => Returned (c, [])
  | (ns, call) :: calls =>
      match fake_call ns call c with
      | Panicked m => Panicked m
      | Returned (c, r, err) =>
          match fake_calls calls c with
          | Panicked m => Panicked m
          | Returned (c, rs) => Returned (c, (r, err) :: rs)
          end
      end
  end.
End Calls.

(** ** Watches *)

(** The watches have room for [n] more events. *)
Definition room (n : nat) (t : tracker) : Prop :=
  Forall (λ w, (length (wt_events w) + n ≤ DefaultChanSize)%nat) (tr_watchers t).

Definition told (gvr : GroupVersionResource) (ns : string) (e : EventType * Sidekick) (w : watcher) : watcher :=
  if watches gvr ns w then {| wt_gvr := wt_gvr w; wt_ns := wt_ns w; wt_events := wt_events w ++ [e] |} else w.

Lemma notify_returned gvr ns e ws ws' : notify gvr ns e ws = Returned ws' → ws' = map (told gvr ns e) ws.
Proof.
  revert ws'. induction ws as [|w ws IH]; intros ws'; simpl; [by intros [= <-]|].
  unfold told at 1, watcher_send. destruct (watches gvr ns w); [destruct (Nat.leb _ _); [done|]|];
    (destruct (notify gvr ns e ws); [|done]); intros [= <-]; f_equal; by apply IH.
Qed.

Lemma notify_room gvr ns e n t : room (S n) t → ∃ ws, notify gvr ns e (tr_watchers t) = Returned ws.
Proof.
  unfold room. induction 1 as [|w ws Hw _ [ws' IH]]; [by exists []|]. simpl. unfold watcher_send.
  rewrite (proj2 (Nat.leb_gt _ _)) by lia. destruct (watches gvr ns w); rewrite IH; eauto.
Qed.

(** ** One call *)

(** What a call other than a watch does to the tracker: nothing, a Sidekick put
    under its name, or one deleted; the watches of the namespace are told. *)
Inductive tracker_step (t t' : tracker) : Prop :=
| ts_same : objects_of t' R = objects_of t R → tr_watchers t' = tr_watchers t → tracker_step t t'
| ts_put e s :
    e ≠ Deleted → objects_of t' R = <[meta_key (sk_Meta s) := s]> (objects_of t R) →
    tr_watchers t' = map (told R (Namespace (sk_Meta s)) (e, s)) (tr_watchers t) → tracker_step t t'
| ts_delete key s :
    objects_of t R !! key = Some s → objects_of t' R = delete key (objects_of t R) →
    tr_watchers t' = map (told R (key_Namespace key) (Deleted, s)) (tr_watchers t) → tracker_step t t'.

Lemma step_refl t : tracker_step t t.
Proof. by apply ts_same. Qed.

Lemma objects_set key s ws t : objects_of (set_object R key s ws t) R = <[key := s]> (objects_of t R).
Proof. unfold objects_of at 1, set_object. simpl. by rewrite lookup_insert_eq. Qed.

Lemma in_namespace_name ns s : Name (sk_Meta (in_namespace ns s)) = Name (sk_Meta s).
Proof. unfold in_namespace. by case_match. Qed.

Lemma add_step s ns replace t t' err : tracker_add R s ns replace t = Returned (t', err) → tracker_step t t'.
Proof.
  unfold tracker_add. set (s' := in_namespace ns s).
  destruct (String.eqb_spec ns (Namespace (sk_Meta s'))) as [E|_]; cbn [negb];
    [|intros [= <- _]; apply step_refl].
  destruct (objects_of t R !! meta_key (sk_Meta s')), replace;
    try (intros [= <- _]; apply step_refl).
  - destruct (notify _ _ _ _) as [ws|] eqn:En; [|done]. intros [= <- _].
    apply (ts_put _ _ Modified s'); [done|apply objects_set|]. rewrite <- E. by apply notify_returned.
  - destruct (notify _ _ _ _) as [ws|] eqn:En; [|done]. intros [= <- _].
    apply (ts_put _ _ Added s'); [done|apply objects_set|]. rewrite <- E. by apply notify_returned.
Qed.

Lemma delete_step ns name t t' err : tracker_Delete R ns name t = Returned (t', err) → tracker_step t t'.
Proof.
  unfold tracker_Delete. destruct (objects_of t R !! mkKey ns name) as [s|] eqn:E;
    [|intros [= <- _]; apply step_refl].
  destruct (notify _ _ _ _) as [ws|] eqn:En; [|done]. intros [= <- _].
  apply (ts_delete _ _ (mkKey ns name) s); [done| |by apply notify_returned].
  unfold objects_of at 1. simpl. by rewrite lookup_insert_eq.
Qed.

Lemma read_back_step ns name t a t' r err :
  (∀ t' err, a = Returned (t', err) → tracker_step t t') →
  read_back R ns name a = Returned (t', r, err) → tracker_step t t'.
Proof.
  intros Ha. unfold read_back. destruct a as [[t1 [e|]]|]; [|destruct (tracker_Get R ns name t1)|done];
    intros [= <- _ _]; by eapply Ha.
Qed.

Section Steps.
Context `{Patches} (zero : Sidekick).

Lemma reaction_step ns call t t' r err :
  ObjectReaction (fake_request ns call) t = Some (Returned (t', r, err)) → tracker_step t t'.
Proof.
  destruct call as [name o|o|o|s o|s o|s o|name o|o lo|name pt data o subs];
    unfold ObjectReaction; cbn -[tracker_Get tracker_Delete tracker_add read_back];
    try (intros [= Hr]; revert Hr; apply read_back_step; intros ??; apply add_step); try done.
  - destruct (tracker_Get _ _ _ _); intros [= <- _ _]; apply step_refl.
  - intros [= <- _ _]. apply step_refl.
  - destruct (tracker_Delete _ _ _ _) as [[t1 e]|] eqn:E; [|done]. intros [= <- _ _]. by eapply delete_step.
  - destruct (tracker_Get _ _ _ _) as [old|]; [|intros [= <- _ _]; apply step_refl].
    destruct (patch_sidekick pt data old) as [new|]; [|intros [= <- _ _]; apply step_refl].
    destruct (String.eqb _ _).
    + intros [= Hr]; revert Hr; apply read_back_step; intros ??; apply add_step.
    + destruct (tracker_add _ _ _ _ _) as [[t1 [e|]]|] eqn:E; [..|done];
        intros [= <- _ _]; by eapply add_step.
Qed.

Lemma call_step ns call c c' r err :
  fake_call zero ns call c = Returned (c', r, err) →
  fc_actions c' = fc_actions c ++ [fake_request ns call] ∧
  if is_watch call then fc_tracker c' = tracker_Watch R ns (fc_tracker c)
  else tracker_step (fc_tracker c) (fc_tracker c').
Proof.
  unfold fake_call, Invokes. destruct (is_watch call) eqn:Ew.
  - intros [= <- _ _]. by destruct call.
  - simpl. destruct (ObjectReaction _ _) as [[[[t1 r1] e1]|]|] eqn:E; [|done|].
    + intros [= <- _ _]. split; [done|]. by eapply reaction_step.
    + intros [= <- _ _]. split; [done|apply step_refl].
Qed.
End Steps.

Lemma told_length gvr ns e w : (length (wt_events (told gvr ns e w)) ≤ S (length (wt_events w)))%nat.
Proof. unfold told. case_match; simpl; [rewrite length_app; simpl|]; lia. Qed.

Lemma step_room n t t' : tracker_step t t' → room (S n) t → room n t'.
Proof.
  unfold room. intros [_ ->|e s _ _ ->|key s _ _ ->] Hr.
  - eapply Forall_impl; [exact Hr|]. simpl. lia.
  - apply Forall_map. eapply Forall_impl; [exact Hr|]. simpl. intros w.
    pose proof (told_length R (Namespace (sk_Meta s)) (e, s) w). lia.
  - apply Forall_map. eapply Forall_impl; [exact Hr|]. simpl. intros w.
    pose proof (told_length R (key_Namespace key) (Deleted, s) w). lia.
Qed.

(** ** Refinement *)

Definition content (c : FakeClientset) : sidekick_map := objects_of (fc_tracker c) R.

Lemma get_spec ns name t :
  (match tracker_Get R ns name t with
   | Ok s => Returned (t, RSidekick s, None)
   | Err e => Returned (t, RNil, Some e)
   end) = Returned (t, (spec_read ns name (objects_of t R)).1.2, (spec_read ns name (objects_of t R)).2).
Proof. unfold tracker_Get, spec_read. by destruct (objects_of t R !! mkKey ns name). Qed.

(** A write stores what the specification stores, or is refused for the same reason. *)
Lemma add_spec ns s replace n t :
  room (S n) t →
  ∃ t', tracker_add R s ns replace t = Returned (t', (spec_write ns s replace (objects_of t R)).2) ∧
    objects_of t' R = (spec_write ns s replace (objects_of t R)).1.1 ∧
    ((spec_write ns s replace (objects_of t R)).2 = None →
     (spec_write ns s replace (objects_of t R)).1.2 = (spec_read ns (Name (sk_Meta s)) (objects_of t' R)).1.2 ∧
     (spec_read ns (Name (sk_Meta s)) (objects_of t' R)).2 = None).
Proof.
  intros Hroom. unfold spec_write, tracker_add. rewrite <- (in_namespace_name ns s).
  set (s' := in_namespace ns s). destruct (String.eqb_spec ns (Namespace (sk_Meta s'))) as [E|Hne]; cbn [negb];
    [|by exists t].
  assert (Hk : meta_key (sk_Meta s') = mkKey ns (Name (sk_Meta s'))) by (unfold meta_key; by rewrite <- E).
  rewrite Hk. destruct (objects_of t R !! mkKey ns (Name (sk_Meta s'))) as [old|] eqn:Eo, replace; try by exists t.
  - destruct (notify_room R ns (Modified, s') n t Hroom) as [ws ->].
    eexists. split; [done|]. rewrite objects_set. unfold spec_read. by rewrite lookup_insert_eq.
  - destruct (notify_room R ns (Added, s') n t Hroom) as [ws ->].
    eexists. split; [done|]. rewrite objects_set. unfold spec_read. by rewrite lookup_insert_eq.
Qed.

Section Refinement.
Context `{Patches} (zero : Sidekick).

(** A reaction that does to the tracker what [m'] says. *)
Lemma reaction_answers ns call c t' r err m' :
  is_watch call = false →
  ObjectReaction (fake_request ns call) (fc_tracker c) = Some (Returned (t', r, err)) → objects_of t' R = m' →
  ∃ c', fake_call zero ns call c = Returned (c', r, err) ∧ content c' = m'.
Proof. intros Hw E Hm. unfold fake_call, Invokes. rewrite Hw. simpl. rewrite E. by eexists. Qed.

Lemma write_back ns s replace n t :
  room (S n) t →
  ∃ t', read_back R ns (Name (sk_Meta s)) (tracker_add R s ns replace t) =
      Returned (t', (spec_write ns s replace (objects_of t R)).1.2, (spec_write ns s replace (objects_of t R)).2) ∧
    objects_of t' R = (spec_write ns s replace (objects_of t R)).1.1.
Proof.
  intros Hroom. destruct (add_spec ns s replace n t Hroom) as (t' & -> & Hm & Hr). exists t'. split; [|done].
  unfold read_back. destruct (spec_write ns s replace (objects_of t R)) as [[m r] [e|]] eqn:Es; cbn in *.
  - revert Es. unfold spec_write. repeat case_match; intros [= _ <- _]; done.
  - rewrite get_spec. destruct (Hr eq_refl) as [-> ->]. done.
Qed.

Lemma patch_spec ns name pt data subs n t :
  room (S n) t →
  ∃ t', ObjectReaction (FakeSidekicks_Patch ns name pt data subs) t =
      Some (Returned (t', (spec_patch ns name pt data (objects_of t R)).1.2,
                      (spec_patch ns name pt data (objects_of t R)).2)) ∧
    objects_of t' R = (spec_patch ns name pt data (objects_of t R)).1.1.
Proof.
  intros Hroom. unfold ObjectReaction. cbn -[tracker_add]. unfold tracker_Get, spec_patch.
  destruct (objects_of t R !! mkKey ns name) as [old|]; [|by exists t].
  destruct (patch_sidekick pt data old) as [new|e]; [|by exists t].
  destruct (add_spec ns new true n t Hroom) as (t' & Ha & Hm & _).
  destruct (spec_write ns new true (objects_of t R)) as [[m r] [e|]] eqn:Es; cbn in Ha, Hm; rewrite Ha; exists t'.
  - unfold read_back. by destruct (String.eqb _ _).
  - unfold apply_type. destruct (String.eqb _ _); [|done]. cbn [read_back]. rewrite get_spec, Hm.
    unfold spec_read. by destruct (m !! _).
Qed.

Lemma fake_call_refines n ns call c :
  room (S n) (fc_tracker c) →
  ∃ c', fake_call zero ns call c = Returned (c', (spec_call ns call (content c)).1.2, (spec_call ns call (content c)).2) ∧
    content c' = (spec_call ns call (content c)).1.1.
Proof.
  intros Hroom.
  assert (Hwrite : ∀ s replace, is_watch call = false →
    ObjectReaction (fake_request ns call) (fc_tracker c) =
      Some (read_back R ns (Name (sk_Meta s)) (tracker_add R s ns replace (fc_tracker c))) →
    ∃ c', fake_call zero ns call c = Returned (c', (spec_write ns s replace (content c)).1.2, (spec_write ns s replace (content c)).2) ∧
      content c' = (spec_write ns s replace (content c)).1.1).
  { intros s replace Hw E. destruct (write_back ns s replace n _ Hroom) as (t' & Hr & Hm).
    rewrite Hr in E. by eapply reaction_answers. }
  destruct call as [name o|o|o|s o|s o|s o|name o|o lo|name pt data o subs]; cbn [spec_call];
    [|by eapply reaction_answers|by eexists|by apply Hwrite|by apply Hwrite|by apply Hwrite| |by eexists|].
  - eapply reaction_answers; [done|unfold ObjectReaction; cbn -[tracker_Get]; by rewrite get_spec|].
    unfold spec_read, content. by case_match.
  - change (content c) with (objects_of (fc_tracker c) R).
    destruct (objects_of (fc_tracker c) R !! mkKey ns name) as [s|] eqn:E.
    + destruct (notify_room R ns (Deleted, s) n _ Hroom) as [ws Hn].
      eapply reaction_answers; [done| |].
      * unfold ObjectReaction, tracker_Delete. cbn -[objects_of notify]. rewrite E, Hn. reflexivity.
      * unfold objects_of at 1. simpl. by rewrite lookup_insert_eq.
    + eapply reaction_answers; [done| |done].
      unfold ObjectReaction, tracker_Delete. cbn -[objects_of notify]. by rewrite E.
  - destruct (patch_spec ns name pt data subs n _ Hroom) as (t' & Hr & Hm). by eapply reaction_answers.
Qed.
End Refinement.

(** ** A new clientset *)

Definition items_of (o : runtime_object) : list Sidekick :=
  match o with OSidekick s => [s] | OSidekickList l => l end.
Definition given (objects : list runtime_object) : list Sidekick := concat (map items_of objects).

Definition sidekick_key (s : Sidekick) : NamespacedName := meta_key (sk_Meta s).
Definition by_key (l : list Sidekick) : sidekick_map := list_to_map (map (λ s, (sidekick_key s, s)) l).

Lemma in_namespace_own s : in_namespace (Namespace (sk_Meta s)) s = s.
Proof.
  unfold in_namespace. destruct (String.eqb_spec (Namespace (sk_Meta s)) "") as [E|_]; [|done].
  destruct s as [[] ? ?]. done.
Qed.

(** The fake scheme files Sidekicks under the resource the calls use. *)
Lemma fake_scheme_files :
  ∃ sch, fake_scheme = Returned sch ∧
    ∀ s t, add_sidekick sch s t = tracker_add R s (Namespace (sk_Meta s)) false t.
Proof.
  assert (Hv : match fake_scheme with
               | Returned sch => match ObjectKinds sch (sidekick_type "Sidekick") with
                                 | Ok (gvks, _) => bool_decide (gvks = [sidekick_kind])
                                 | Err _ => false
                                 end
               | Panicked _ => false
               end = true) by (vm_compute; reflexivity).
  destruct fake_scheme as [sch|]; [|done]. exists sch. split; [done|]. intros s t. unfold add_sidekick.
  destruct (ObjectKinds sch (sidekick_type "Sidekick")) as [[gvks b]|]; [|done].
  apply bool_decide_eq_true_1 in Hv as ->. cbn [add_kinds].
  change (tracker_add _ s _ false t) with (tracker_add R s (Namespace (sk_Meta s)) false t) at 1.
  by destruct (tracker_add R s _ false t) as [[? []]|].
Qed.

Lemma add_new s t :
  tr_watchers t = [] →
  tracker_add R s (Namespace (sk_Meta s)) false t =
    match objects_of t R !! sidekick_key s with
    | Some _ => Returned (t, Some (NewAlreadyExists "sidekicks" (Name (sk_Meta s))))
    | None => Returned (set_object R (sidekick_key s) s [] t, None)
    end.
Proof.
  intros Hw. unfold tracker_add, sidekick_key. rewrite in_namespace_own, String.eqb_refl, Hw. cbn -[objects_of]. done.
Qed.

Section NewClientset.
Context (sch : Scheme).
Hypothesis files : ∀ s t, add_sidekick sch s t = tracker_add R s (Namespace (sk_Meta s)) false t.

Lemma add_all_spec l t :
  tr_watchers t = [] →
  if bool_decide (NoDup (map sidekick_key l) ∧ by_key l ##ₘ objects_of t R) then
    ∃ t', add_all sch l t = Returned (t', None) ∧ tr_watchers t' = [] ∧
      objects_of t' R = by_key l ∪ objects_of t R
  else ∃ t' e, add_all sch l t = Returned (t', Some e).
Proof.
  revert t. induction l as [|s l IH]; intros t Hw; simpl.
  - rewrite bool_decide_eq_true_2 by (split; [constructor|apply map_disjoint_empty_l]).
    exists t. unfold by_key. simpl. by rewrite (left_id_L ∅ (∪)).
  - rewrite files, add_new by done. change (by_key (s :: l)) with (<[sidekick_key s := s]> (by_key l)).
    destruct (objects_of t R !! sidekick_key s) as [old|] eqn:E.
    + rewrite bool_decide_eq_false_2; [by eauto|]. intros [_ Hd].
      by rewrite map_disjoint_insert_l, E in Hd; destruct Hd.
    + specialize (IH (set_object R (sidekick_key s) s [] t) eq_refl). rewrite objects_set in IH.
      case_bool_decide as Hyes.
      * destruct IH as (t' & Ha & Hw' & Ho). destruct Hyes as [Hnd [Hk Hd]%map_disjoint_insert_r].
        rewrite bool_decide_eq_true_2.
        -- exists t'. split; [done|]. split; [done|]. rewrite Ho.
           rewrite <- insert_union_l, insert_union_r; done.
        -- split; [|by apply map_disjoint_insert_l]. constructor; [|done].
           apply not_elem_of_list_to_map in Hk. by rewrite <- list_fmap_compose in Hk.
      * rewrite bool_decide_eq_false_2; [done|]. intros [[Hni Hnd]%NoDup_cons Hd].
        apply Hyes. split; [done|]. apply map_disjoint_insert_l in Hd as [_ Hd].
        apply map_disjoint_insert_r. split; [|done]. apply not_elem_of_list_to_map_1.
        by rewrite <- list_fmap_compose.
Qed.

Lemma add_objects_all objects t :
  add_objects sch objects t =
    match add_all sch (given objects) t with
    | Returned (t', None) => Returned t'
    | Returned (_, Some _) => Panicked "tracker.Add"
    | Panicked m => Panicked m
    end.
Proof.
  assert (Happ : ∀ l l' t, add_all sch (l ++ l') t =
    match add_all sch l t with Returned (t, None) => add_all sch l' t | r => r end).
  { induction l as [|s l IH]; intros l' t0; [done|]. simpl. destruct (add_sidekick sch s t0) as [[? []]|]; done. }
  revert t. induction objects as [|o objects IH]; intros t; [done|]. unfold given. simpl. rewrite Happ.
  assert (Ho : tracker_Add sch o t = add_all sch (items_of o) t).
  { destruct o as [s|l]; [|done]. simpl. by destruct (add_sidekick sch s t) as [[? []]|]. }
  rewrite Ho. destruct (add_all sch (items_of o) t) as [[t' [e|]]|]; [done| |done]. apply IH.
Qed.
End NewClientset.

Lemma NewSimpleClientset_spec objects :
  if bool_decide (NoDup (map sidekick_key (given objects))) then
    ∃ c, NewSimpleClientset objects = Returned c ∧ fc_actions c = [] ∧ tr_watchers (fc_tracker c) = [] ∧
      content c = by_key (given objects)
  else ∃ m, NewSimpleClientset objects = Panicked m.
Proof.
  destruct fake_scheme_files as (sch & Es & Hf). unfold NewSimpleClientset. rewrite Es, add_objects_all by done.
  pose proof (add_all_spec sch Hf (given objects) NewObjectTracker eq_refl) as Ha.
  assert (Hd : by_key (given objects) ##ₘ objects_of NewObjectTracker R) by apply map_disjoint_empty_r.
  destruct (decide (NoDup (map sidekick_key (given objects)))) as [Hnd|Hnd].
  - rewrite bool_decide_eq_true_2 in Ha by (split; assumption). rewrite bool_decide_eq_true_2 by assumption.
    destruct Ha as (t' & -> & Hw & Ho). eexists. split; [reflexivity|]. split; [reflexivity|]. split; [exact Hw|].
    unfold content. simpl. rewrite Ho. apply (right_id_L ∅ (∪)).
  - rewrite bool_decide_eq_false_2 in Ha by (intros [Hn _]; exact (Hnd Hn)).
    rewrite bool_decide_eq_false_2 by assumption. destruct Ha as (t' & e & ->). eexists. reflexivity.
Qed.

(** ** Runs *)

Section Runs.
Context `{Patches} (zero : Sidekick).

Abbreviation no_watch := (Forall (λ call : string * sidekick_call, is_watch call.2 = false)).

Lemma call_room n ns call c c' r err :
  fake_call zero ns call c = Returned (c', r, err) →
  (S n ≤ DefaultChanSize)%nat ∨ is_watch call = false →
  room (S n) (fc_tracker c) → room n (fc_tracker c').
Proof.
  intros E Hn Hr. apply call_step in E as [_ Hs]. destruct (is_watch call) eqn:Ew; [|by eapply step_room].
  rewrite Hs. unfold room. simpl. apply Forall_app. split.
  - eapply Forall_impl; [exact Hr|]. simpl. lia.
  - destruct Hn as [Hn|Hn]; [|done]. constructor; [simpl; lia|constructor].
Qed.

Lemma calls_refine calls c :
  ((length calls ≤ DefaultChanSize)%nat ∨ no_watch calls) → room (length calls) (fc_tracker c) →
  ∃ c', fake_calls zero calls c = Returned (c', (spec_calls calls (content c)).2) ∧
    content c' = (spec_calls calls (content c)).1 ∧
    fc_actions c' = fc_actions c ++ map (λ call, fake_request call.1 call.2) calls.
Proof.
  revert c. induction calls as [|[ns call] calls IH]; intros c Hn Hroom; simpl.
  { exists c. by rewrite app_nil_r. }
  destruct (fake_call_refines zero _ ns call c Hroom) as (c1 & E & Hm). rewrite E.
  assert (Hroom1 : room (length calls) (fc_tracker c1)).
  { eapply call_room; [exact E| |exact Hroom]. destruct Hn as [Hn|Hn]; [by left|right; by inversion Hn]. }
  apply call_step in E as [Ha _].
  destruct (spec_call ns call (content c)) as [[m r] err] eqn:Es. simpl in Hm.
  destruct (IH c1) as (c' & E' & Hm' & Ha').
  { destruct Hn as [Hn|Hn]; [left; simpl in Hn; lia|right; by inversion Hn]. }
  { done. }
  rewrite E'. rewrite Hm in Hm' |- *. destruct (spec_calls calls m) as [m' rs]. simpl in *.
  exists c'. split; [done|]. split; [done|]. by rewrite Ha', Ha, <- app_assoc.
Qed.

End Runs.

(** ** What a watch tells *)

Definition visible (ns : string) (m : sidekick_map) : sidekick_map :=
  filter (λ kv, ns = "" ∨ key_Namespace kv.1 = ns) m.

Definition replay_event (e : EventType * Sidekick) (m : sidekick_map) : sidekick_map :=
  match e.1 with
  | Deleted => delete (sidekick_key e.2) m
  | _ => <[sidekick_key e.2 := e.2]> m
  end.
Definition replay (es : list (EventType * Sidekick)) (m : sidekick_map) : sidekick_map :=
  foldl (λ m e, replay_event e m) m es.

Definition keyed (m : sidekick_map) : Prop := map_Forall (λ k s, sidekick_key s = k) m.

(** The watch [w] of the namespace [ns], opened when the content was [m0]. *)
Definition follows (ns : string) (m0 : sidekick_map) (i : nat) (t : tracker) : Prop :=
  ∃ w, tr_watchers t !! i = Some w ∧ wt_gvr w = R ∧ wt_ns w = ns ∧
    replay (wt_events w) (visible ns m0) = visible ns (objects_of t R).

Lemma step_keyed t t' : tracker_step t t' → keyed (objects_of t R) → keyed (objects_of t' R).
Proof.
  intros [-> _|e s _ -> _|key s _ -> _] Hk; [done| |].
  - by apply map_Forall_insert_2.
  - by apply map_Forall_delete.
Qed.

Lemma watches_spec ns ns' w : wt_gvr w = R → wt_ns w = ns → watches R ns' w = bool_decide (ns = "" ∨ ns' = ns).
Proof.
  intros Hg <-. unfold watches. rewrite bool_decide_eq_true_2 by done. simpl.
  destruct (String.eqb_spec (wt_ns w) ns'), (String.eqb_spec ns' ""), (String.eqb_spec (wt_ns w) "");
    simpl; symmetry; (apply bool_decide_eq_true_2 || apply bool_decide_eq_false_2); naive_solver congruence.
Qed.

Lemma step_follows ns m0 i t t' :
  keyed (objects_of t R) → tracker_step t t' → follows ns m0 i t → follows ns m0 i t'.
Proof.
  intros Hk Hs (w & Hw & Hg & Hns & Hr). unfold follows.
  assert (Htold : ∀ k e, tr_watchers t' = map (told R (key_Namespace k) e) (tr_watchers t) →
    sidekick_key e.2 = k → visible ns (objects_of t' R) =
      (if bool_decide (ns = "" ∨ key_Namespace k = ns) then replay_event e (visible ns (objects_of t R))
       else visible ns (objects_of t R)) →
    follows ns m0 i t').
  { intros k e Ht Hek Hv. exists (told R (key_Namespace k) e w).
    split; [by rewrite Ht, list_lookup_fmap, Hw|]. unfold told. rewrite (watches_spec ns) by done.
    rewrite Hv. case_bool_decide; [|done]. simpl. repeat split; try done.
    unfold replay. rewrite foldl_app. simpl. fold (replay (wt_events w) (visible ns m0)). by rewrite Hr. }
  destruct Hs as [Ho Hws|e s He Ho Hws|key s Hl Ho Hws].
  - exists w. by rewrite Hws, Ho.
  - apply (Htold (sidekick_key s) (e, s)); [done|done|]. rewrite Ho. unfold visible, replay_event.
    case_bool_decide as Hb; [rewrite map_filter_insert_True|rewrite map_filter_insert_not]; [|done| |intros ?; done].
    + by destruct e.
    + done.
  - assert (Hsk : sidekick_key s = key) by by apply Hk. subst key.
    apply (Htold (sidekick_key s) (Deleted, s)); [done|done|]. rewrite Ho. unfold visible, replay_event. simpl.
    rewrite map_filter_delete. case_bool_decide as Hb; [done|]. apply delete_id.
    apply map_lookup_filter_None. right. intros x _. done.
Qed.

Section Watching.
Context `{Patches} (zero : Sidekick).

Lemma call_follows ns m0 i ns' call c c' r err :
  fake_call zero ns' call c = Returned (c', r, err) → keyed (content c) → 
  keyed (content c') ∧ (follows ns m0 i (fc_tracker c) → follows ns m0 i (fc_tracker c')).
Proof.
  intros E Hk. apply call_step in E as [_ Hs]. unfold content in *. destruct (is_watch call).
  - rewrite Hs. split; [done|]. intros (w & Hw & Hrest). exists w. split; [|done].
    simpl. by apply lookup_app_l_Some.
  - split; [by eapply step_keyed|by apply step_follows].
Qed.

Lemma calls_follow ns m0 i calls c c' rs :
  fake_calls zero calls c = Returned (c', rs) → keyed (content c) → 
  keyed (content c') ∧ (follows ns m0 i (fc_tracker c) → follows ns m0 i (fc_tracker c')).
Proof.
  revert c rs. induction calls as [|[ns' call] calls IH]; intros c rs; simpl; [by intros [= <- _]|].
  destruct (fake_call zero ns' call c) as [[[c1 r] err]|] eqn:E; [|done].
  destruct (fake_calls zero calls c1) as [[c2 rs']|] eqn:E'; [|done]. intros [= <- _] Hk.
  destruct (call_follows ns m0 i _ _ _ _ _ _ E Hk) as [Hk1 Hf1].
  destruct (IH _ _ E' Hk1) as [Hk2 Hf2]. auto.
Qed.

(** C33. A watch tells the whole story.  On a fake clientset, whatever was called
    before, open a watch of a namespace, or of all: after any calls that return,
    by anyone, the events in the watch, replayed on what the namespace showed when
    the watch was opened, give what the namespace shows now; no change is missed,
    told twice, told out of order or leaked from another namespace. *)
Theorem watch_replays objects before ns opts after c0 c1 rs1 c2 rs2 :
  NewSimpleClientset objects = Returned c0 →
  fake_calls zero before c0 = Returned (c1, rs1) →
  fake_calls zero ((ns, CWatch opts) :: after) c1 = Returned (c2, rs2) →
  ∃ w, tr_watchers (fc_tracker c2) !! length (tr_watchers (fc_tracker c1)) = Some w ∧ wt_ns w = ns ∧
    replay (wt_events w) (visible ns (content c1)) = visible ns (content c2).
Proof.
  intros Hnew Hb Ha. pose proof (NewSimpleClientset_spec objects) as Hspec. rewrite Hnew in Hspec.
  case_bool_decide as Hnd; [|by destruct Hspec].
  destruct Hspec as (c & [= <-] & _ & _ & Hc).
  assert (Hk0 : keyed (content c0)).
  { rewrite Hc. intros k s Hks%elem_of_list_to_map_2. apply list_elem_of_fmap in Hks as (s' & [= -> ->] & _). done. }
  clear Hnew Hnd. destruct (calls_follow ns ∅ 0 _ _ _ _ Hb Hk0) as [Hk1 _].
  cbn [fake_calls fake_call is_watch] in Ha.
  destruct (fake_calls zero after _) as [[c3 rs3]|] eqn:E; [|done]. injection Ha as <- _.
  destruct (calls_follow ns (content c1) (length (tr_watchers (fc_tracker c1))) _ _ _ _ E Hk1) as [_ Hf].
  destruct Hf as (w & Hw & _ & Hns & Hr); [|by exists w].
  eexists. split; [by apply list_lookup_middle|]. done.
Qed.
End Watching.
