(* ===== verification/FakeClientsetWitness.v ===== *)
(** * A fake clientset at work *)

From S2P Require Import Prelude Effects GoStd Types Json Cluster Crds Leader Fixtures Scheme SchemeProps Clientset.
From S2P Require Import ClientsetProps ClientsetWitness FakeClientset FakeClientsetProps.

(** Patches are not used below; every one is refused. *)
#[export] Instance ex_Patches : Patches := {| patch_sidekick _ _ _ := Err (PlainError "no patch") |}.

Definition ex_named (ns name : string) : Sidekick :=
  let s := ex_sidekick "Always" None in
  set_sk_Meta {| Name := name; GenerateName := ""; Namespace := ns; UID := ""; Generation := 0;
     DeletionTimestamp := None; Labels := None; Annotations := None; OwnerReferences := []; Finalizers := [] |} s.

Definition ex_calls : list (string * sidekick_call) :=
  [("demo", CWatch (ex_list_options 1)); ("demo", CCreate (ex_named "" "b") JNull);
   ("other", CCreate (ex_named "other" "c") JNull); ("demo", CGet "b" JNull);
   ("demo", CDelete "a" JNull); ("demo", CCreate (ex_named "other" "d") JNull)].

Definition ex_objects : list runtime_object := [OSidekickList [ex_named "demo" "a"]; OSidekick (ex_named "other" "a")].

Lemma ex_no_dup : NoDup (map sidekick_key (given ex_objects)).
Proof. apply (bool_decide_eq_true_1 _). vm_compute. reflexivity. Qed.


(** The only watch of a clientset that has run the calls. *)
Definition ex_saw (c2 : FakeClientset) (rs : list (reply * option error)) : bool :=
  match tr_watchers (fc_tracker c2) with
  | [w] => bool_decide (map (λ e, (e.1, sidekick_key e.2)) (wt_events w) =
             [(Added, mkKey "demo" "b"); (Deleted, mkKey "demo" "a")])
  | _ => false
  end.

Lemma watch_replays_witness :
  ∃ c0 c2 rs w, NewSimpleClientset ex_objects = Returned c0 ∧
    fake_calls (ex_named "" "") ex_calls c0 = Returned (c2, rs) ∧ ex_saw c2 rs = true ∧
    tr_watchers (fc_tracker c2) = [w] ∧
    replay (wt_events w) (visible "demo" (content c0)) = visible "demo" (content c2).
Proof.
  assert (Hv : match NewSimpleClientset ex_objects with
               | Returned c0 => match fake_calls (ex_named "" "") ex_calls c0 with
                                | Returned (c2, rs) => ex_saw c2 rs && Nat.eqb 0 (length (tr_watchers (fc_tracker c0)))
                                | Panicked _ => false
                                end
               | Panicked _ => false
               end = true) by (vm_compute; reflexivity).
  destruct (NewSimpleClientset ex_objects) as [c0|] eqn:E0; [|discriminate].
  destruct (fake_calls (ex_named "" "") ex_calls c0) as [[c2 rs]|] eqn:E2; [|discriminate].
  apply andb_true_iff in Hv as [Hs Hw%Nat.eqb_eq].
  destruct (watch_replays (ex_named "" "") ex_objects [] "demo" (ex_list_options 1) (tail ex_calls) c0 c0 [] c2 rs
    E0 eq_refl E2) as (w & Hl & _ & Hr).
  exists c0, c2, rs, w. rewrite <- Hw in Hl. split; [reflexivity|]. split; [exact E2|]. split; [exact Hs|].
  unfold ex_saw in Hs. destruct (tr_watchers (fc_tracker c2)) as [|w' [|]]; [discriminate| |discriminate].
  injection Hl as ->. split; [reflexivity|exact Hr].
Defined.
